(* ===== verification/_CoqProject ===== *)
-Q . S2P
Prelude.v
Lists.v
StateErr.v
Harness.v
F64.v
CoreTypes.v
Config.v
TreasuryCheck.v
Tip.v
Breakers.v
Arbitration.v
SolendMath.v
SolendState.v
SolendReserve.v
SolendOps.v
SolendAccounting.v
SolendRates.v
SolendGrowth.v
SolendBorrow.v
SolendObligation.v
SolendPosition.v
SolendLiquidation.v
SolendReserveTests.v
SolendReserveProps.v
SolendObligationTests.v
Router.v
DexRouter.v
RoutingTests.v
Bundler.v
Instructions.v
BundlerTests.v
CuProfile.v
SolendMarket.v
SolendInstruction.v
SolendClient.v
Readiness.v
Sizing.v
StrategyTests.v
Kamino.v
KaminoTests.v
Text.v
SolendDisplay.v
SolendSdkTests.v
SolendPackTests.v
Ingestion.v
Treasury.v
Store.v
Sim.v
RecordTests.v
Fixtures.v
Submit.v
FeedTests.v
Engine.v
Daemon.v
