(* ===== verification/Prelude.v ===== *)
(** * A verification library for gyrfalcon, a Solana liquidation engine

    The program (Rust, under src/) watches the accounts of the Kamino lending
    program, finds under-collateralised obligations, sizes a liquidation,
    picks a flash-loan source, simulates, assembles a transaction and submits
    it over two transports, under treasury limits and circuit breakers. This
    library is a shallow embedding of that program: pure functions for pure
    code, explicit state passing for [&mut self], [result] and [option] for
    [Result] and [Option], [panicking] for code that can panic.

    ** Files, in dependency order

    - [Prelude] (this file): the [panicking] and [result] types with the
      [let!] and [let?] notations, machine integers of a given width with
      wrapping, checked and saturating operations, little-endian bytes, slices,
      and the list functions the source uses ([sort_by], [min_by], [max_by],
      [chunks], deduplication). The hint database is [gyr].
    - [Lists]: their theory (stable sorting, extremal elements, chunks).
    - [Harness]: the vocabulary of Rust's tests ([assert], [assert_eq], loops,
      debug-build arithmetic, a [test] as a computation that may panic) and
      struct update [r <| f := v |>].
    - [F64]: IEEE binary64 on the standard library's [spec_float], and the
      order theory of the values that are not NaN.
    - [Text]: strings as bytes, lines, parsing of integers, files whose writes
      may be refused or cut short.
    - [CoreTypes]: crates/core, with the four traits as type classes
      ([HealthAdapter], [FlashSourceRouter], [Simulator], [Submitter]).
    - [Config]: crates/config.
    - [TreasuryCheck], [Tip], [Breakers], [Arbitration], [Sizing]:
      crates/strategy (treasury_check.rs, tip.rs and dynamic_tip.rs,
      breakers.rs, arbitration.rs, sizing.rs).
    - [StateErr]: a state and error monad for methods that mutate [&mut self]
      and return a [Result]; [let* .. in] and [do* .. in], [zoom] into a field,
      and what it means that a method preserves a relation, also when it fails.
    - patches/solend-sdk, the patched SDK of the Save lending program:
      [SolendMath] (math/), [SolendDisplay] (how its numbers print),
      [SolendState] (state/mod.rs, last_update.rs, rate_limiter.rs);
      reserve.rs is [SolendReserve] (data, validation, codec), [SolendOps]
      (every operation), [SolendAccounting] (what sequences of operations
      keep), [SolendRates] (borrow rate and interest), [SolendGrowth] (how far a
      year of interest can grow a debt), [SolendBorrow] (weights, fees,
      borrowing) and [SolendLiquidation]; obligation.rs is
      [SolendObligation] (data, operations, codec) and [SolendPosition] (what
      its operations keep); [SolendMarket] is lending_market.rs and
      lending_market_metadata.rs; [SolendInstruction] is the instruction enum
      with its decoder and encoder, [SolendClient] the builders of
      instruction.rs and their agreement with the bundler's. The router
      decodes Save reserves with this SDK; the rest of it is the contract of
      the program the transactions address.
    - [Router], [DexRouter]: crates/router (lib.rs, dex.rs).
    - [Bundler], [Instructions]: crates/bundler (lib.rs, alt.rs,
      alt_manager.rs, ata.rs; liquidations.rs and swaps.rs).
    - [Kamino]: crates/health, the adapter for the klend program.
    - [Ingestion]: crates/ingestion (feeds, decoding, ring buffer, drain),
      with the background task of the live feed.
    - [Treasury]: crates/treasury (PnL ledger, sweep schedule).
    - [Store]: crates/store (position book, liquidation log, async writer).
    - [Sim]: crates/sim (account sync, simulator, fixtures, replay command);
      [Fixtures]: its exporter; [CuProfile]: cu_profile.rs, which the crate
      keeps on disk but leaves out of its build.
    - [Readiness]: crates/gyrfalcon-bin/src/bin/readiness-check.rs.
    - [Submit]: crates/submit (send paths, tip accounts, dual-path race).
    - [Engine]: crates/gyrfalcon-bin/src/main.rs (mode switch and event loop),
      which composes the parts in the source's order; its events are the
      arrival of an account and a turn of the log's writer task, which share
      the log's channel, in any interleaving. [Daemon]: the start-up, the exit
      codes and the dashboard server around it, and the three tasks of the
      running process (the loop, the feed's task, the writer) under any
      schedule; [main_run_is_engine_run] says that a run of the process is a
      run of the engine on what its channel delivered.
    - The repository's tests, next to what they exercise, one definition per
      test function: [SolendReserveTests] (reserve.rs, with the derived
      defaults) and [SolendReserveProps] (its property tests),
      [SolendObligationTests], [SolendSdkTests] (math, rate limiter,
      instructions), [SolendPackTests] (the account codecs), [StrategyTests],
      [RoutingTests], [BundlerTests], [KaminoTests], [RecordTests] (treasury,
      store, sim) and [FeedTests] (core, config, ingestion, submit, and the
      configurations shipped with the repository). Unit tests are evaluated;
      a test that draws its inputs is a function of the draws and the theorem
      is about all of them.

    ** Interfaces

    Code that is not under src/ is a parameter. The Solana SDK is the class
    [Bundler.SolanaSdk], the klend crate [Kamino.KlendInterface], LiteSVM
    [CuProfile.LiteSvm]; the lock-free queue [Ingestion.BoundedQueue] and
    tokio's bounded channel [Ingestion.MpscChannel] come with their laws and a
    list implementation that satisfies them; the serializers, base58 and base64, the HTTP server
    behind a URL and the answers of the file system are section variables or
    arguments, so theorems hold for all of their behaviours. What a theorem
    assumes of them is a hypothesis in its statement: the round
    trip of a serializer on the values it is given, serde_json's documented
    output and its behaviour on floats ([Store.json_lines]: one line per
    record; a float in range comes back as a float of the same shape, not
    always the same one; a NaN or an infinity is written as null and refused
    by the parser), finiteness of converted fixed-point numbers, an iteration order that
    is a permutation of the map. Each such theorem has a witness that
    instantiates the parameters and applies it. A theorem that must hold for
    the map's unspecified iteration order quantifies over it.

    ** What the theorems show

    - Engine: every stream of accounts is processed without panicking, and a
      submission only happens in live mode for an allowed, sized, feasible and
      profitable candidate; the counters and breakers account for exactly the
      submissions, and the log is that of a writer which was offered them in
      order between the turns of its task; the halt flag stops all of them. As it is wired, the
      loop's breaker check and its outcome recording use different route keys,
      so reverts never halt it ([breakers_never_stop_engine]), and its router
      is never fed, so it never submits ([wired_engine_never_submits]).
    - Strategy: the arbitration loop refines a specification stated over the
      decisions already made, from which the budget, conflict and ordering
      properties follow; the breakers refine a specification over event
      histories; sizing terminates within 19 step-downs; the bids are total
      and bounded; calibration returns a median.
    - Routing: optimality, completeness and independence of the table's order;
      the DEX selection; the exact outcomes of observing a Save account.
    - Solend: rounding and compounding bounds, printing, the rate limiter's
      guarantee over all histories (its counters are the real outflows of two
      windows, no window pays out more than the limit and no longer stretch
      more than twice the limit), round trips of the reserve, the obligation, the market and
      the instructions, and what decoding does on arbitrary bytes. A year of
      interest at configured rates of at most 255 percent never overflows and
      leaves a reserve that still packs ([accrue_interest_year]). Every
      reserve operation, after any sequence of them, does to the balances what
      its specification on plain integers says and assigns nothing else
      ([reserve_ops_spec]); deposits, interest, borrowing, repayment, donations
      and fee redemptions never lower the value of a collateral token, while a
      large redemption can, by the rounding of the exchange rate
      ([redeem_can_dilute]); the borrow rate follows the three segments
      of its configured curve and is monotone; the maximum borrow is exactly
      what value, capacity and liquidity allow, a given one is only held to
      its value; withdrawals stay within their limits; a liquidation settles,
      repays and withdraws exactly its proportional amounts. An obligation's
      entries stay distinct and at most ten, of which its layout holds nine
      borrows ([obligation_pack_panics]). The SDK's builders agree with the
      decoder and name the accounts of the doc comments in order, six of them
      writable against the comment; the bundler's two Save flash
      builders do not ([save_flash_wrong_tag]).
    - Transactions: size limit, lookup-table batches, token accounts, and the
      encodings of all instruction builders.
    - Data: conservation and order in ingestion, the contents of the log's file under
      every pattern of I/O failures and what reopening it gives, progress of its writer task, freshness of
      the account sync, what a passing replay means, window sums of the ledger.
    - Operation: the outcome of every start of the daemon under every schedule
      of its tasks, from which it follows that its feed never delivers, what its dashboard
      can show, and that the readiness check can never succeed.
    - Submission: the race reports the earliest outcome within the deadline.
    - Tests: the unit tests pass; of the property tests, those of utilization,
      borrow rate, borrow fees, compounding, repayment and codecs pass on
      every generated input (the reserve codec's unless an attributed-borrow
      limit is drawn as zero), and those of accrual, flash-loan fees and the
      exchange rate do not: the exact inputs on which the first two pass, and
      failing inputs of the third ([reserve_property_tests_fail],
      [obligation_property_tests]). One configuration test loads a file the
      repository does not contain ([production_config_test_fails]).

    ** Bounds and fuel

    Integers are [Z] with their width written at each operation; the release
    build wraps on overflow and so does the model. [Sizing.sizing_fuel] is 19
    attempts: the step is a tenth of the initial size rounded down, and
    [sizing_spec] proves that the loop always ends within them.
    [Ingestion.drain_loop] takes fuel, and [drain_conserves] proves that the
    length of what the source yields is enough. [SolendMath.try_pow_loop] takes
    64 rounds for a 64-bit exponent, also proved enough. Chunking uses the
    list's length.

    ** What is not modelled

    Logging and printed texts (log lines, error messages, the details of the
    readiness check), argument parsing, the HTTP server and the real network
    transports, the async runtime. Of the tests, the two exports of the
    liquidation log that search the text of the serializer's output are left
    out, and files written by a test are assumed to be written. The on-chain program itself is not in the repository:
    of the Save program there is the SDK, of klend an interface.
    Locks are never poisoned where no code panics while holding them.
    Whitespace is the ASCII part of the Unicode property. *)

From Stdlib Require Import ZArith Lia Bool.
From stdpp Require Export base gmap strings list numbers option.

#[global] Open Scope Z_scope.

(* ------------------------------------------------------------------ *)
(** ** Control flow of the Rust source *)

(** Outcome of a computation that can panic (an [unwrap], an [assert!], an
    out-of-range slice): [Done v] or [Panic]. *)
Inductive panicking (A : Type) : Type :=
| Done (v : A)
| Panic.
Arguments Done {A} _.
Arguments Panic {A}.

(** Rust's [Result<A, E>]. *)
Inductive result (A E : Type) : Type :=
| Ok (v : A)
| Err (e : E).
Arguments Ok {A E} _.
Arguments Err {A E} _.

Lemma Done_inj {A} (x y : A) : Done x = Done y -> x = y.
Proof. by intros [= ->]. Qed.

Declare Scope rust_scope.
Delimit Scope rust_scope with rust.

(** [let? x := r in k]: the [?] operator on a [Result];
    [let! x := r in k]: sequencing after a computation that can panic. *)
Notation "'let?' x ':=' r 'in' k" :=
  (match r with Ok x => k | Err e => Err e end)
  (at level 10, x pattern, r at level 100, k at level 200) : rust_scope.
Notation "'let!' x ':=' r 'in' k" :=
  (match r with Done x => k | Panic => Panic end)
  (at level 10, x pattern, r at level 100, k at level 200) : rust_scope.

(** [Option::is_some] and [Option::ok_or]. *)
Definition is_some {A} (o : option A) : bool := match o with Some _ => true | None => false end.
Definition ok_or {A E} (o : option A) (e : E) : result A E :=
  match o with Some v => Ok v | None => Err e end.

Definition is_ok {A E} (r : result A E) : bool :=
  match r with Ok _ => true | Err _ => false end.

(** [unwrap] of a [Result] and of an [Option]. *)
Definition unwrap {A E} (r : result A E) : panicking A :=
  match r with Ok v => Done v | Err _ => Panic end.
Definition unwrap_option {A} (o : option A) : panicking A :=
  match o with Some v => Done v | None => Panic end.

Lemma ok_or_Ok {A E} (o : option A) (e : E) v : ok_or o e = Ok v <-> o = Some v.
Proof. destruct o; cbn; split; congruence. Qed.

Lemma ok_or_Err {A E} (o : option A) (e e' : E) :
  ok_or o e = Err e' <-> o = None /\ e' = e.
Proof.
  destruct o; cbn; split; intros H.
  - discriminate.
  - by destruct H.
  - by injection H.
  - by destruct H as [_ ->].
Qed.

(* ------------------------------------------------------------------ *)
(** ** Machine integers: a [w]-bit unsigned integer is a [Z] in range *)

Definition u8_max : Z := 2 ^ 8 - 1.
Definition u16_max : Z := 2 ^ 16 - 1.
Definition u32_max : Z := 2 ^ 32 - 1.
Definition u64_max : Z := 2 ^ 64 - 1.
Definition u128_max : Z := 2 ^ 128 - 1.

Definition in_u (w x : Z) : Prop := 0 <= x < 2 ^ w.
Abbreviation is_u8 := (in_u 8).
Abbreviation is_u16 := (in_u 16).
Abbreviation is_u32 := (in_u 32).
Abbreviation is_u64 := (in_u 64).
Abbreviation is_u128 := (in_u 128).

(** [wrap w x]: arithmetic of a build without overflow checks (the
    workspace's release profile). *)
Definition wrap (w x : Z) : Z := x mod 2 ^ w.
Definition wadd (w x y : Z) : Z := wrap w (x + y).
Definition wmul (w x y : Z) : Z := wrap w (x * y).
Definition wsub (w x y : Z) : Z := wrap w (x - y).

(** [checked_*] operations: [None] when the result is out of range. *)
Definition to_u (w x : Z) : option Z :=
  if (0 <=? x) && (x <? 2 ^ w) then Some x else None.
Definition checked_add (w x y : Z) : option Z := to_u w (x + y).
Definition checked_sub (w x y : Z) : option Z := to_u w (x - y).
Definition checked_mul (w x y : Z) : option Z := to_u w (x * y).
Definition checked_div (x y : Z) : option Z :=
  if y =? 0 then None else Some (x / y).
Definition checked_pow (w x n : Z) : option Z := to_u w (x ^ n).

(** [saturating_*] operations. *)
Definition sat_sub (x y : Z) : Z := Z.max 0 (x - y).
Definition sat_mul (w x y : Z) : Z := Z.min (2 ^ w - 1) (x * y).

Lemma to_u_Some w x y : to_u w x = Some y <-> y = x /\ in_u w x.
Proof.
  unfold to_u, in_u.
  destruct (Z.leb_spec 0 x), (Z.ltb_spec x (2 ^ w)); cbn; split; intros H';
    try discriminate H'; try (injection H' as <-); try lia.
  - by destruct H' as [-> _].
Qed.

Lemma to_u_in w x : in_u w x -> to_u w x = Some x.
Proof. intros H. by apply to_u_Some. Qed.

Lemma to_u_None w x : to_u w x = None <-> ~ in_u w x.
Proof.
  unfold to_u, in_u.
  destruct (Z.leb_spec 0 x), (Z.ltb_spec x (2 ^ w)); cbn; split; intros; try done; try lia.
Qed.

Lemma wrap_small w x : in_u w x -> wrap w x = x.
Proof. intros H. apply Z.mod_small. exact H. Qed.

Lemma wrap_in w x : 0 <= w -> in_u w (wrap w x).
Proof. intros H. apply Z.mod_pos_bound. apply Z.pow_pos_nonneg; lia. Qed.

Lemma in_u_mono w w' x : 0 <= w <= w' -> in_u w x -> in_u w' x.
Proof.
  unfold in_u. intros Hw [H0 H1]. split; [done|].
  eapply Z.lt_le_trans; [exact H1|]. apply Z.pow_le_mono_r; lia.
Qed.

(* ------------------------------------------------------------------ *)
(** ** Automation *)

(** Unfolds the range predicates and closes linear goals about them. *)
Ltac u_lia :=
  unfold in_u, u8_max, u16_max, u32_max, u64_max, u128_max, sat_sub, sat_mul in *; lia.

(** Destructs the scrutinee of a [match] or [if] in the goal or in [H],
    remembering the equation. *)
Ltac case_match_goal :=
  match goal with
  | |- context [match ?x with _ => _ end] => destruct x eqn:?
  end.
Ltac case_match_in H :=
  match type of H with
  | context [match ?x with _ => _ end] => destruct x eqn:?
  end.

(** Walks down the matches of [H : f .. = r], discarding the branches whose
    result is another constructor. *)
Ltac walk H :=
  repeat (case_match_in H; try discriminate H; cbn in H).


(* ------------------------------------------------------------------ *)
(** ** Little-endian bytes: a byte is a [Z] in [0, 256) *)

Fixpoint to_le_bytes (n : nat) (x : Z) : list Z :=
  match n with
  | O => []
  | S n => x mod 256 :: to_le_bytes n (x / 256)
  end.

Fixpoint from_le_bytes (bs : list Z) : Z :=
  match bs with
  | [] => 0
  | b :: bs => b + 256 * from_le_bytes bs
  end.

Lemma length_to_le_bytes n x : length (to_le_bytes n x) = n.
Proof. revert x. induction n; intros x; cbn; [done | by rewrite IHn]. Qed.

Lemma to_le_bytes_u8 n x : Forall is_u8 (to_le_bytes n x).
Proof.
  revert x. induction n; intros x; cbn; constructor; [|done].
  unfold in_u. apply Z.mod_pos_bound. lia.
Qed.

Lemma from_to_le_bytes n x :
  in_u (8 * Z.of_nat n) x -> from_le_bytes (to_le_bytes n x) = x.
Proof.
  revert x. induction n as [|n IH]; intros x Hx; cbn [to_le_bytes from_le_bytes].
  - unfold in_u in Hx. change (2 ^ (8 * Z.of_nat 0)) with 1 in Hx. lia.
  - rewrite IH.
    + pose proof (Z.div_mod x 256). lia.
    + unfold in_u in *. replace (8 * Z.of_nat (S n)) with (8 + 8 * Z.of_nat n) in Hx by lia.
      rewrite Z.pow_add_r in Hx by lia. change (2 ^ 8) with 256 in Hx.
      split; [apply Z.div_pos; lia | apply Z.div_lt_upper_bound; lia].
Qed.

Lemma from_le_bytes_bound bs :
  Forall is_u8 bs -> in_u (8 * Z.of_nat (length bs)) (from_le_bytes bs).
Proof.
  induction 1 as [|b bs Hb _ IH]; cbn [from_le_bytes length].
  - unfold in_u. cbn. lia.
  - unfold in_u in *. replace (8 * Z.of_nat (S (length bs))) with (8 + 8 * Z.of_nat (length bs)) by lia.
    rewrite Z.pow_add_r by lia. change (2 ^ 8) with 256 in *. lia.
Qed.

Lemma to_from_le_bytes bs :
  Forall is_u8 bs -> to_le_bytes (length bs) (from_le_bytes bs) = bs.
Proof.
  induction 1 as [|b bs Hb _ IH]; cbn [from_le_bytes to_le_bytes length]; [done|].
  unfold in_u in Hb. change (2 ^ 8) with 256 in Hb.
  rewrite (Z.mul_comm 256), Z.mod_add, Z.div_add by lia.
  rewrite Z.mod_small, (Z.div_small b) by lia. by rewrite Z.add_0_l, IH.
Qed.

(** A slice [bytes[off .. off+len]]: [None] when it is out of range. *)
Definition slice (off len : nat) (bs : list Z) : option (list Z) :=
  if (off + len <=? length bs)%nat then Some (take len (drop off bs)) else None.

Lemma length_slice off len bs s : slice off len bs = Some s -> length s = len.
Proof.
  unfold slice. destruct (Nat.leb_spec (off + len) (length bs)); [|discriminate].
  intros [= <-]. rewrite length_take, length_drop. lia.
Qed.

(* ------------------------------------------------------------------ *)
(** ** Iterator and slice operations of the standard library *)

Section iterators.
Context {A : Type}.

(** [Iterator::min_by]: the first of several minima. *)
Definition min_by_step (cmp : A -> A -> comparison) (x y : A) : A :=
  match cmp x y with Gt => y | _ => x end.
Definition min_by (cmp : A -> A -> comparison) (l : list A) : option A :=
  match l with [] => None | x :: l => Some (foldl (min_by_step cmp) x l) end.

(** [Iterator::max_by]: the last of several maxima. *)
Definition max_by_step (cmp : A -> A -> comparison) (x y : A) : A :=
  match cmp x y with Gt => x | _ => y end.
Definition max_by (cmp : A -> A -> comparison) (l : list A) : option A :=
  match l with [] => None | x :: l => Some (foldl (max_by_step cmp) x l) end.

(** [slice::sort_by], a stable sort. The order in which a comparator that
    is not a total preorder leaves the elements is not specified by the
    standard library; theorems that need the order assume a total
    preorder on the elements. *)
Fixpoint insert_by (cmp : A -> A -> comparison) (x : A) (l : list A) : list A :=
  match l with
  | [] => [x]
  | y :: l' => match cmp x y with Gt => y :: insert_by cmp x l' | _ => x :: l end
  end.
Fixpoint sort_by (cmp : A -> A -> comparison) (l : list A) : list A :=
  match l with [] => [] | x :: l => insert_by cmp x (sort_by cmp l) end.

(** [slice::chunks n]: full chunks of [n], then the rest. *)
Fixpoint chunks_fuel (fuel n : nat) (l : list A) : list (list A) :=
  match fuel, l with
  | O, _ | _, [] => []
  | S fuel, _ => take n l :: chunks_fuel fuel n (drop n l)
  end.
Definition chunks (n : nat) (l : list A) : list (list A) := chunks_fuel (length l) n l.
End iterators.

(** [filter] with [HashSet::insert] as its predicate: keeps the first
    occurrence of every key. *)
Fixpoint dedup_by_key {A K} `{EqDecision K} (key : A -> K) (seen : list K) (l : list A) : list A :=
  match l with
  | [] => []
  | x :: l =>
      if decide (key x ∈ seen) then dedup_by_key key seen l
      else x :: dedup_by_key key (key x :: seen) l
  end.

(** [std::process::ExitCode]. *)
Inductive ExitCode := ExitSuccess | ExitFailure.

(** [Ordering::then]. *)
Definition then_cmp (c d : comparison) : comparison := match c with Eq => d | _ => c end.

Create HintDb gyr discriminated.
Create Rewrite HintDb gyr.
#[export] Hint Resolve wrap_small wrap_in to_le_bytes_u8 : gyr.
#[export] Hint Rewrite length_to_le_bytes : gyr.
