(* ===== verification/Lists.v ===== *)
(** * Lemmas on the iterator and slice operations of [Prelude]:
    stable sort, first minimum and last maximum, chunks, deduplication.
    Comparators are assumed to be total preorders on the elements at hand
    ([cmp_preorder P]), which is what the standard library requires. *)

From Stdlib Require Import ZArith Lia Sorted.
From stdpp Require Import base list sorting.
From S2P Require Import Prelude.

Record cmp_preorder {A} (P : A -> Prop) (cmp : A -> A -> comparison) : Prop := {
  cmp_flip : forall x y, P x -> P y -> cmp y x = CompOpp (cmp x y);
  cmp_trans : forall x y z, P x -> P y -> P z ->
    cmp x y <> Gt -> cmp y z <> Gt -> cmp x z <> Gt
}.

Definition cmp_le {A} (cmp : A -> A -> comparison) (x y : A) : Prop := cmp x y <> Gt.

Lemma then_cmp_flip c c' d d' :
  c' = CompOpp c -> d' = CompOpp d -> then_cmp c' d' = CompOpp (then_cmp c d).
Proof. intros -> ->. by destruct c. Qed.

Section sorting.
Context {A : Type} (cmp : A -> A -> comparison).

Lemma insert_by_perm x l : insert_by cmp x l ≡ₚ x :: l.
Proof.
  induction l as [|y l IH]; cbn; [done|].
  destruct (cmp x y); [done|done|]. rewrite IH. constructor.
Qed.

Lemma sort_by_perm l : sort_by cmp l ≡ₚ l.
Proof. induction l as [|x l IH]; cbn; [done|]. by rewrite insert_by_perm, IH. Qed.

Lemma length_sort_by l : length (sort_by cmp l) = length l.
Proof. by rewrite sort_by_perm. Qed.

Context {P : A -> Prop} (HC : cmp_preorder P cmp).

Lemma cmp_refl x : P x -> cmp x x = Eq.
Proof.
  intros Hx. pose proof (cmp_flip _ _ HC x x Hx Hx) as H. by destruct (cmp x x).
Qed.

Lemma cmp_Gt_le x y : P x -> P y -> cmp x y = Gt -> cmp_le cmp y x.
Proof. intros Hx Hy H. unfold cmp_le. by rewrite (cmp_flip _ _ HC x y), H. Qed.

Lemma insert_by_sorted x l :
  P x -> Forall P l -> StronglySorted (cmp_le cmp) l ->
  StronglySorted (cmp_le cmp) (insert_by cmp x l).
Proof.
  intros Hx Hl Hs. induction Hs as [|y l Hs IH Hy]; cbn; [by repeat constructor|].
  inversion_clear Hl as [|? ? Py Pl].
  assert (Hins : cmp x y <> Gt -> StronglySorted (cmp_le cmp) (x :: y :: l)).
  { intros Hxy. constructor; [by constructor|]. constructor; [done|].
    apply list.Forall_forall. intros z Hz.
    rewrite list.Forall_forall in Hy, Pl. eapply (cmp_trans _ _ HC x y z); auto.
    by apply Hy. }
  destruct (cmp x y) eqn:E; [by apply Hins | by apply Hins |].
  constructor; [by apply IH|].
  rewrite insert_by_perm. constructor; [by apply cmp_Gt_le | done].
Qed.

Lemma sort_by_sorted l : Forall P l -> StronglySorted (cmp_le cmp) (sort_by cmp l).
Proof.
  induction 1 as [|x l Hx Hl IH]; cbn; [constructor|].
  apply insert_by_sorted; [done | by rewrite sort_by_perm | done].
Qed.

(** Stability: the elements equivalent to a given one keep their order. *)
Lemma insert_by_stable x l k :
  P x -> P k -> Forall P l ->
  filter (fun y => cmp k y = Eq) (insert_by cmp x l)
  = filter (fun y => cmp k y = Eq) (x :: l).
Proof.
  intros Hx Hk Hl. induction Hl as [|y l Hy Hl IH]; cbn [insert_by]; [done|].
  destruct (cmp x y) eqn:E; [done|done|].
  rewrite !filter_cons, IH, filter_cons.
  destruct (decide (cmp k y = Eq)) as [Eky|]; [|done].
  destruct (decide (cmp k x = Eq)) as [Ekx|]; [|done].
  exfalso. refine (cmp_trans _ _ HC x k y Hx Hk Hy _ _ E); [|by rewrite Eky].
  by rewrite (cmp_flip _ _ HC k x), Ekx.
Qed.

Lemma sort_by_stable l k :
  P k -> Forall P l ->
  filter (fun y => cmp k y = Eq) (sort_by cmp l) = filter (fun y => cmp k y = Eq) l.
Proof.
  intros Hk. induction 1 as [|x l Hx Hl IH]; [done|]. cbn [sort_by].
  rewrite insert_by_stable by (done || by rewrite sort_by_perm).
  by rewrite !filter_cons, IH.
Qed.
End sorting.

Section extrema.
Context {A : Type} (cmp : A -> A -> comparison) {P : A -> Prop}.
Context (HC : cmp_preorder P cmp).

Lemma min_by_foldl x l :
  P x -> Forall P l ->
  let m := foldl (min_by_step cmp) x l in
  (m ∈ x :: l) /\ P m /\ Forall (cmp_le cmp m) (x :: l).
Proof.
  intros Hx Hl. revert x Hx. induction Hl as [|y l Hy Hl IH]; intros x Hx; cbn [foldl].
  - split_and!; [set_solver | done |]. repeat constructor.
    unfold cmp_le. by rewrite (cmp_refl cmp HC).
  - assert (Hstep : P (min_by_step cmp x y)) by (unfold min_by_step; by destruct (cmp x y)).
    destruct (IH _ Hstep) as (Hin & HP & Hle). cbn in *.
    set (m := foldl (min_by_step cmp) (min_by_step cmp x y) l) in *.
    inversion_clear Hle as [|? ? Hm Hl'].
    split_and!; [|done|].
    + unfold min_by_step in Hin. destruct (cmp x y); set_solver.
    + assert (cmp_le cmp (min_by_step cmp x y) x /\ cmp_le cmp (min_by_step cmp x y) y)
        as [Hmx Hmy].
      { unfold min_by_step, cmp_le. pose proof (cmp_flip _ _ HC x y Hx Hy).
        destruct (cmp x y) eqn:E; rewrite ?E, ?(cmp_refl cmp HC) by done; try done.
        by rewrite H. }
      repeat constructor; [| |done].
      * by eapply (cmp_trans _ _ HC m (min_by_step cmp x y) x).
      * by eapply (cmp_trans _ _ HC m (min_by_step cmp x y) y).
Qed.

Lemma min_by_Some l m :
  Forall P l -> min_by cmp l = Some m -> m ∈ l /\ Forall (cmp_le cmp m) l.
Proof.
  destruct 1 as [|x l Hx Hl]; cbn [min_by]; [discriminate|]. intros [= <-].
  destruct (min_by_foldl x l Hx Hl) as (? & _ & ?). done.
Qed.

Lemma max_by_foldl x l :
  P x -> Forall P l ->
  let m := foldl (max_by_step cmp) x l in
  (m ∈ x :: l) /\ P m /\ Forall (fun y => cmp_le cmp y m) (x :: l).
Proof.
  intros Hx Hl. revert x Hx. induction Hl as [|y l Hy Hl IH]; intros x Hx; cbn [foldl].
  - split_and!; [set_solver | done |]. repeat constructor.
    unfold cmp_le. by rewrite (cmp_refl cmp HC).
  - assert (Hstep : P (max_by_step cmp x y)) by (unfold max_by_step; by destruct (cmp x y)).
    destruct (IH _ Hstep) as (Hin & HP & Hle). cbn in *.
    set (m := foldl (max_by_step cmp) (max_by_step cmp x y) l) in *.
    inversion_clear Hle as [|? ? Hm Hl'].
    split_and!; [|done|].
    + unfold max_by_step in Hin. destruct (cmp x y); set_solver.
    + assert (cmp_le cmp x (max_by_step cmp x y) /\ cmp_le cmp y (max_by_step cmp x y))
        as [Hmx Hmy].
      { unfold max_by_step, cmp_le. pose proof (cmp_flip _ _ HC x y Hx Hy).
        destruct (cmp x y) eqn:E; rewrite ?E, ?(cmp_refl cmp HC) by done; try done.
        by rewrite H. }
      repeat constructor; [| |done].
      * by eapply (cmp_trans _ _ HC x (max_by_step cmp x y) m).
      * by eapply (cmp_trans _ _ HC y (max_by_step cmp x y) m).
Qed.

Lemma max_by_Some l m :
  Forall P l -> max_by cmp l = Some m -> m ∈ l /\ Forall (fun y => cmp_le cmp y m) l.
Proof.
  destruct 1 as [|x l Hx Hl]; cbn [max_by]; [discriminate|]. intros [= <-].
  destruct (max_by_foldl x l Hx Hl) as (? & _ & ?). done.
Qed.
End extrema.

Lemma min_by_None {A} (cmp : A -> A -> comparison) l : min_by cmp l = None <-> l = [].
Proof. destruct l; cbn; split; congruence. Qed.

Lemma max_by_None {A} (cmp : A -> A -> comparison) l : max_by cmp l = None <-> l = [].
Proof. destruct l; cbn; split; congruence. Qed.

(** [min_by] and [max_by] always return an element of the list, whatever
    the comparator. *)
Lemma max_by_elem {A} (cmp : A -> A -> comparison) l m : max_by cmp l = Some m -> m ∈ l.
Proof.
  destruct l as [|x l]; cbn; [discriminate|]. intros [= <-].
  revert x. induction l as [|y l IH]; intros x; cbn [foldl]; [set_solver|].
  specialize (IH (max_by_step cmp x y)). unfold max_by_step in *.
  destruct (cmp x y); set_solver.
Qed.

Section chunking.
Context {A : Type} (n : nat) (Hn : (0 < n)%nat).

Lemma chunks_fuel_concat fuel (l : list A) :
  (length l <= fuel)%nat -> concat (chunks_fuel fuel n l) = l.
Proof.
  revert l. induction fuel as [|fuel IH]; intros [|x l] Hf; cbn in *; try done; try lia.
  destruct n as [|n']; [lia|]. cbn. f_equal. rewrite IH.
  - by rewrite take_drop.
  - rewrite length_drop. lia.
Qed.

Lemma chunks_concat (l : list A) : concat (chunks n l) = l.
Proof. by apply chunks_fuel_concat. Qed.

Lemma chunks_fuel_bounds fuel (l : list A) :
  Forall (fun c => 0 < length c <= n)%nat (chunks_fuel fuel n l).
Proof.
  revert l. induction fuel as [|fuel IH]; intros [|x l]; cbn [chunks_fuel]; constructor; [|done].
  rewrite length_take. cbn. lia.
Qed.

Lemma chunks_bounds (l : list A) : Forall (fun c => 0 < length c <= n)%nat (chunks n l).
Proof. apply chunks_fuel_bounds. Qed.

Lemma chunks_fuel_count fuel (l : list A) :
  (length l <= fuel)%nat ->
  Z.of_nat (length (chunks_fuel fuel n l)) = (Z.of_nat (length l) + Z.of_nat n - 1) / Z.of_nat n.
Proof.
  revert l. induction fuel as [|fuel IH]; intros l Hf.
  - destruct l; cbn in Hf; [|lia]. cbn. symmetry. apply Z.div_small. lia.
  - destruct l as [|x l]; [cbn; symmetry; apply Z.div_small; lia|].
    cbn [chunks_fuel length]. rewrite Nat2Z.inj_succ, IH
      by (cbn in Hf; rewrite length_drop; cbn; lia).
    rewrite length_drop. cbn [length].
    destruct (Nat.leb_spec (S (length l)) n).
    + replace (S (length l) - n)%nat with O by lia. cbn.
      rewrite Z.div_small by lia.
      replace (Z.succ 0) with 1 by lia.
      apply (Z.div_unique _ _ _ (Z.of_nat (length l))); lia.
    + rewrite Nat2Z.inj_sub by lia.
      replace (Z.of_nat (S (length l)) + Z.of_nat n - 1)
        with ((Z.of_nat (S (length l)) - Z.of_nat n + Z.of_nat n - 1) + 1 * Z.of_nat n) by lia.
      rewrite Z.div_add by lia. lia.
Qed.

Lemma chunks_count (l : list A) :
  Z.of_nat (length (chunks n l)) = (Z.of_nat (length l) + Z.of_nat n - 1) / Z.of_nat n.
Proof. by apply chunks_fuel_count. Qed.
End chunking.

Section dedup.
Context {A K : Type} `{EqDecision K} (key : A -> K).

Lemma dedup_by_key_elem seen l x :
  x ∈ dedup_by_key key seen l -> x ∈ l /\ key x ∉ seen.
Proof.
  revert seen. induction l as [|y l IH]; intros seen; cbn [dedup_by_key].
  - intros H. set_solver.
  - destruct (decide (key y ∈ seen)) as [Hin|Hnin].
    + intros H. apply IH in H. set_solver.
    + intros [->|H]%elem_of_cons; [set_solver|]. apply IH in H. set_solver.
Qed.

Lemma dedup_by_key_covers seen l x :
  x ∈ l -> key x ∉ seen -> exists y, y ∈ dedup_by_key key seen l /\ key y = key x.
Proof.
  revert seen. induction l as [|y l IH]; intros seen Hx Hns; [set_solver|].
  cbn [dedup_by_key]. destruct (decide (key y ∈ seen)) as [Hin|Hnin].
  - apply IH; [set_solver|done].
  - destruct (decide (key y = key x)) as [E|E]; [exists y; set_solver|].
    destruct (IH (key y :: seen)) as (z & Hz & Ez); [set_solver|set_solver|].
    exists z. set_solver.
Qed.

Lemma dedup_by_key_NoDup seen l : NoDup (key <$> dedup_by_key key seen l).
Proof.
  revert seen. induction l as [|y l IH]; intros seen; cbn [dedup_by_key]; [constructor|].
  destruct (decide (key y ∈ seen)); [done|]. cbn. constructor; [|done].
  intros (z & Hz & Hin)%list_elem_of_fmap. apply dedup_by_key_elem in Hin. set_solver.
Qed.
End dedup.

Lemma filter_none {A} (Q : A -> Prop) {HQ : forall x, Decision (Q x)} (l : list A) :
  (forall x, x ∈ l -> ~ Q x) -> filter Q l = [].
Proof.
  induction l as [|x l IH]; intros H; [done|].
  rewrite filter_cons_False by (apply H; set_solver). apply IH. set_solver.
Qed.

(** Positions in a sorted list bound how many elements lie on either side. *)
Section ranks.
Context {A : Type} (R : A -> A -> Prop) (Q : A -> Prop) {HQ : forall x, Decision (Q x)}.

Lemma sorted_split (l : list A) i k :
  StronglySorted R l -> l !! i = Some k ->
  (forall x, x ∈ take i l -> R x k) /\ (forall x, x ∈ drop (S i) l -> R k x).
Proof.
  intros Hs Hi. revert i Hi. induction Hs as [|y l Hs IH Hy]; intros i Hi; [done|].
  rewrite list.Forall_forall in Hy. destruct i as [|i]; cbn in *.
  - injection Hi as ->. split; [set_solver|]. rewrite drop_0. exact Hy.
  - destruct (IH i Hi) as [H1 H2]. split; [|done].
    intros x [->|Hx]%elem_of_cons; [|by apply H1].
    apply Hy. by eapply list_elem_of_lookup_2.
Qed.

Lemma sorted_below (l : list A) i k :
  StronglySorted R l -> l !! i = Some k -> ~ Q k -> (forall x, R k x -> ~ Q x) ->
  (length (filter Q l) <= i)%nat.
Proof.
  intros Hs Hi Hk HR. destruct (sorted_split l i k Hs Hi) as [_ Hd].
  rewrite <- (take_drop_middle l i k Hi), list.filter_app, length_app.
  rewrite filter_cons_False by done.
  rewrite (filter_none Q (drop (S i) l)) by (intros; apply HR; auto).
  pose proof (length_filter Q (take i l)). rewrite length_take in *. cbn. lia.
Qed.

Lemma sorted_above (l : list A) i k :
  StronglySorted R l -> l !! i = Some k -> ~ Q k -> (forall x, R x k -> ~ Q x) ->
  (length (filter Q l) <= length l - S i)%nat.
Proof.
  intros Hs Hi Hk HR. destruct (sorted_split l i k Hs Hi) as [Ht _].
  rewrite <- (take_drop_middle l i k Hi) at 1. rewrite list.filter_app, length_app.
  rewrite filter_cons_False by done.
  rewrite (filter_none Q (take i l)) by (intros; apply HR; auto).
  pose proof (length_filter Q (drop (S i) l)). rewrite length_drop in *. cbn. lia.
Qed.
End ranks.

Lemma sorted_impl {A} (R R' : A -> A -> Prop) l :
  (forall a b, R a b -> R' a b) -> StronglySorted R l -> StronglySorted R' l.
Proof.
  intros H. induction 1 as [|x l _ IH Hx]; constructor; [done|].
  eapply list.Forall_impl; [exact Hx|]. auto.
Qed.
