(* ===== verification/StateErr.v ===== *)
(** * State with errors: Rust methods on [&mut self] that return a [Result].

    A method is a function from the state to the state it leaves behind and
    its result. The state comes back with an error too, because assignments
    made before a [?] are not undone. [zoom] runs a method of a field on the
    whole record; [failure_atomic] is the property that an error leaves the
    state as it was. *)

From Stdlib Require Import ZArith.
From stdpp Require Import base.
From S2P Require Import Prelude.

Definition ST (E S A : Type) : Type := S -> S * result A E.

Section operations.
Context {E S : Type}.

Definition st_ret {A} (v : A) : ST E S A := fun s => (s, Ok v).
Definition st_fail {A} (e : E) : ST E S A := fun s => (s, Err e).
Definition st_bind {A B} (m : ST E S A) (k : A -> ST E S B) : ST E S B := fun s =>
  match m s with
  | (s, Ok v) => k v s
  | (s, Err e) => (s, Err e)
  end.
(** An expression that reads the state and may fail. *)
Definition st_get {A} (f : S -> result A E) : ST E S A := fun s => (s, f s).
(** An assignment. *)
Definition st_set (f : S -> S) : ST E S unit := fun s => (f s, Ok tt).

Definition zoom {T A} (get : T -> S) (set : S -> T -> T) (m : ST E S A) : ST E T A := fun t =>
  let (s, r) := m (get t) in (set s t, r).
End operations.

Declare Scope state_scope.
Delimit Scope state_scope with st.
Notation "'let*' x ':=' m 'in' k" := (st_bind m (fun x => k))
  (at level 10, x pattern, m at level 100, k at level 200) : state_scope.
Notation "'do*' m 'in' k" := (st_bind m (fun _ => k))
  (at level 10, m at level 100, k at level 200) : state_scope.

Section laws.
Context {E S : Type}.

Lemma st_bind_Ok {A B} (m : ST E S A) (k : A -> ST E S B) s s' v :
  st_bind m k s = (s', Ok v) <-> exists a s1, m s = (s1, Ok a) /\ k a s1 = (s', Ok v).
Proof.
  unfold st_bind. destruct (m s) as [s1 [a|e]]; split.
  - intros H. by exists a, s1.
  - by intros (? & ? & [= <- <-] & ?).
  - done.
  - by intros (? & ? & ? & ?).
Qed.

Lemma st_get_Ok {A} (f : S -> result A E) s s' v :
  st_get f s = (s', Ok v) <-> s' = s /\ f s = Ok v.
Proof. unfold st_get. split; [intros [= <- <-]; done|by intros [-> <-]]. Qed.

Lemma st_set_Ok (f : S -> S) s s' v : st_set (E := E) f s = (s', Ok v) <-> s' = f s /\ v = tt.
Proof. unfold st_set. destruct v. split; [by intros [= <-]|by intros [-> _]]. Qed.

Lemma zoom_Ok {T A} (get : T -> S) (set : S -> T -> T) (m : ST E S A) t t' v :
  zoom get set m t = (t', Ok v) <-> exists s, m (get t) = (s, Ok v) /\ t' = set s t.
Proof.
  unfold zoom. destruct (m (get t)) as [s r]. split.
  - intros [= <- ->]. by exists s.
  - by intros (? & [= <- ->] & ->).
Qed.

(** [preserves P m]: from a state in [P], [m] ends in a state in [P], whatever
    its result. *)
Definition preserves {A} (P : S -> Prop) (m : ST E S A) : Prop := forall s, P s -> P (m s).1.

Lemma preserves_bind {A B} P (m : ST E S A) (k : A -> ST E S B) :
  preserves P m ->
  (forall s a s', P s -> m s = (s', Ok a) -> P s' -> P (k a s').1) ->
  preserves P (st_bind m k).
Proof.
  intros Hm Hk s Hs. unfold st_bind. specialize (Hm s Hs).
  destruct (m s) as [s1 [a|e]] eqn:Em; [by eapply Hk|done].
Qed.

(** The shapes the source has: read (and check) then continue, assign then
    continue, run one method then another. *)
Lemma preserves_read {A B} P (f : S -> result A E) (k : A -> ST E S B) :
  (forall s a, P s -> f s = Ok a -> P (k a s).1) -> preserves P (st_bind (st_get f) k).
Proof. intros H s Hs. unfold st_bind, st_get. destruct (f s) eqn:Ef; [by apply H|done]. Qed.

Lemma preserves_assign {B} P (g : S -> S) (k : unit -> ST E S B) s :
  P (g s) -> preserves P (k tt) -> P (st_bind (st_set g) k s).1.
Proof. intros Hg Hk. by apply Hk. Qed.

Lemma preserves_then {A B} P (m : ST E S A) (k : A -> ST E S B) :
  preserves P m -> (forall a, preserves P (k a)) -> preserves P (st_bind m k).
Proof. intros Hm Hk. apply preserves_bind; [done|]. intros s a s' _ _ Hs'. by apply Hk. Qed.

Lemma preserves_ret {A} P (v : A) : preserves P (st_ret v : ST E S A).
Proof. by intros s Hs. Qed.

Lemma preserves_get {A} P (f : S -> result A E) : preserves P (st_get f).
Proof. by intros s Hs. Qed.

Definition failure_atomic {A} (m : ST E S A) : Prop := forall s s' e, m s = (s', Err e) -> s' = s.

Lemma get_atomic {A} (f : S -> result A E) : failure_atomic (st_get f).
Proof. by intros s s' e [= <- _]. Qed.

Lemma set_atomic (f : S -> S) : failure_atomic (st_set f).
Proof. done. Qed.

(** Checks first, then an operation that is atomic itself. *)
Lemma get_bind_atomic {A B} (f : S -> result A E) (k : A -> ST E S B) :
  (forall a, failure_atomic (k a)) -> failure_atomic (st_bind (st_get f) k).
Proof.
  intros Hk s s' e. unfold st_bind, st_get. destruct (f s) as [a|e'].
  - apply Hk.
  - by intros [= <- _].
Qed.
End laws.

Lemma preserves_zoom {E S T A} (P : S -> Prop) (Q : T -> Prop) get set (m : ST E S A) :
  (forall t, Q t -> P (get t)) -> (forall s t, P s -> Q t -> Q (set s t)) ->
  preserves P m -> preserves Q (zoom get set m).
Proof.
  intros Hget Hset Hm t Ht. unfold zoom. specialize (Hm (get t) (Hget t Ht)).
  destruct (m (get t)) as [s r]. by apply Hset.
Qed.

(** Splits [H : m s = (s', Ok v)] for an [m] built from the operations. *)
Ltac st_ok H :=
  lazymatch type of H with
  | st_bind _ _ _ = (_, Ok _) =>
      let a := fresh "a" in let s1 := fresh "st" in let H1 := fresh "Hm" in let H2 := fresh "Hm" in
      apply st_bind_Ok in H as (a & s1 & H1 & H2); cbv beta in H2; st_ok H1; st_ok H2
  | st_get _ _ = (_, Ok _) =>
      let H1 := fresh "Hg" in apply st_get_Ok in H as [-> H1]
  | st_set _ _ = (_, Ok _) => apply st_set_Ok in H as [-> _]
  | zoom _ _ _ _ = (_, Ok _) =>
      let s1 := fresh "st" in let H1 := fresh "Hz" in
      apply zoom_Ok in H as (s1 & H1 & ->)
  | st_ret _ _ = (_, Ok _) => injection H as <- <-
  | _ => idtac
  end.

#[export] Hint Resolve preserves_get preserves_ret get_atomic set_atomic get_bind_atomic : gyr.
