(* ===== verification/Harness.v ===== *)
(** * The vocabulary of Rust's unit tests and property tests.

    A test body is a computation that can panic: [assert!], [assert_eq!] and
    [unwrap] panic when they fail, and a test passes when its body ends. The
    tests of the repository are translated with this vocabulary next to the
    components they exercise; the ones over generated inputs become theorems
    about every input of their generators.

    The files also need struct update, [S { f: v, ..base }]: [base <| f := v |>]
    rebuilds the record [base] with the field [f] replaced, for any record with
    an instance of [Eta], its expansion over its own projections. *)

From Stdlib Require Import ZArith.
From stdpp Require Import base option list.
From S2P Require Import Prelude StateErr.

Open Scope rust_scope.

(** ** Struct update *)

Class Eta (R : Type) := eta : R -> R.

Class Setter {R T : Type} (proj : R -> T) := set_with : T -> R -> R.
#[global] Hint Mode Setter - - + : typeclass_instances.
Arguments set_with {R T} proj {_} _ _.

(** Abstracts the projection in the expansion and replaces it by a constant. *)
Ltac solve_setter :=
  lazymatch goal with
  | |- @Setter ?R ?T ?proj =>
      let e := constr:(_ : Eta R) in
      let e := eval red in e in
      let e := eval cbv beta in e in
      let p := eval pattern proj in e in
      lazymatch p with
      | ?g _ =>
          let b := constr:(fun (v : T) => g (fun _ => v)) in
          let b := eval cbv beta in b in
          exact b
      end
  end.
#[global] Hint Extern 0 (Setter _) => solve_setter : typeclass_instances.

Notation "r <| f := v |>" := (set_with f v r)
  (at level 1, left associativity, f at level 1, v at level 200, format "r  <| f  :=  v |>").

(** ** Assertions *)

#[global] Instance result_eq_dec {A E} `{EqDecision A, EqDecision E} : EqDecision (result A E).
Proof. solve_decision. Defined.
#[global] Instance panicking_eq_dec {A} `{EqDecision A} : EqDecision (panicking A).
Proof. solve_decision. Defined.

(** A test body. *)
Abbreviation test := (panicking unit).

Notation "'do!' m 'in' k" :=
  (match m with Done _ => k | Panic => Panic end)
  (at level 10, m at level 100, k at level 200) : rust_scope.

Definition assert (b : bool) : test := if b then Done tt else Panic.
Definition assert_eq {A} `{EqDecision A} (x y : A) : test := assert (bool_decide (x = y)).
Definition assert_ne {A} `{EqDecision A} (x y : A) : test := assert (bool_decide (x <> y)).
Definition unwrap_err {A E} (r : result A E) : panicking E :=
  match r with Err e => Done e | Ok _ => Panic end.

(** Tests run in a debug build, where overflow panics. *)
Definition debug_add (w x y : Z) : panicking Z := unwrap_option (checked_add w x y).
Definition debug_sub (w x y : Z) : panicking Z := unwrap_option (checked_sub w x y).
Definition debug_mul (w x y : Z) : panicking Z := unwrap_option (checked_mul w x y).

(** [for x in l { .. }], without and with a mutable variable. *)
Fixpoint for_each {A} (l : list A) (body : A -> test) : test :=
  match l with
  | [] => Done tt
  | x :: l => do! body x in for_each l body
  end.
Fixpoint for_state {A S} (l : list A) (body : A -> S -> panicking S) (s : S) : panicking S :=
  match l with
  | [] => Done s
  | x :: l => let! s := body x s in for_state l body s
  end.

(** [a..b] on integers. *)
Definition range (a b : Z) : list Z := (fun i => a + Z.of_nat i) <$> seq 0 (Z.to_nat (b - a)).

Definition passes (t : test) : bool := match t with Done _ => true | Panic => false end.

(** ** When a test passes *)

Lemma passes_Done t : passes t = true <-> t = Done tt.
Proof. destruct t as [[]|]; cbn; split; congruence. Qed.

Lemma passes_do (m k : test) : passes (do! m in k) = passes m && passes k.
Proof. by destruct m. Qed.

Lemma passes_assert b : passes (assert b) = b.
Proof. by destruct b. Qed.

Lemma passes_assert_eq {A} `{EqDecision A} (x y : A) : passes (assert_eq x y) = true <-> x = y.
Proof. unfold assert_eq. rewrite passes_assert. apply bool_decide_eq_true. Qed.

Lemma passes_assert_eqZ (x y : Z) : passes (assert_eq x y) = (x =? y).
Proof. apply eq_true_iff_eq. by rewrite passes_assert_eq, Z.eqb_eq. Qed.

Lemma passes_assert_ne {A} `{EqDecision A} (x y : A) : passes (assert_ne x y) = true <-> x <> y.
Proof. unfold assert_ne. rewrite passes_assert. apply bool_decide_eq_true. Qed.

Lemma passes_if (b : bool) (t u : test) : passes (if b then t else u) = if b then passes t else passes u.
Proof. by destruct b. Qed.

Lemma do_pass (m k : test) : passes m = true -> passes k = true -> passes (do! m in k) = true.
Proof. intros H1 H2. by rewrite passes_do, H1, H2. Qed.

Lemma assert_pass b : b = true -> passes (assert b) = true.
Proof. by rewrite passes_assert. Qed.

Lemma assert_fail b (k : test) : b = false -> passes (do! assert b in k) = false.
Proof. intros ->. reflexivity. Qed.

Lemma assert_eq_pass {A} `{EqDecision A} (x y : A) : x = y -> passes (assert_eq x y) = true.
Proof. apply passes_assert_eq. Qed.

Lemma for_each_passes {A} (l : list A) (body : A -> test) :
  passes (for_each l body) = forallb (fun x => passes (body x)) l.
Proof. induction l as [|x l IH]; cbn [for_each forallb]; [done|]. by rewrite passes_do, IH. Qed.

#[export] Hint Resolve do_pass assert_eq_pass : gyr.

#[export] Hint Rewrite passes_do passes_if passes_assert passes_assert_eqZ : gyr.

(** Splits a test into its assertions. *)
Ltac test_steps :=
  repeat match goal with
  | |- passes (match ?m with Done _ => _ | Panic => _ end) = true => apply do_pass
  | |- passes (if ?b then _ else _) = true => destruct b eqn:?
  | |- passes (assert_eq _ _) = true => apply assert_eq_pass
  | |- passes (assert _) = true => apply assert_pass
  | |- passes (Done _) = true => reflexivity
  end.
