(* ===== verification/F64.v ===== *)
(** * IEEE 754 binary64, the [f64] of the source

    Values are the standard library's [spec_float]; the arithmetic is its
    executable specification at precision 53 and maximal exponent 1024
    (round to nearest, ties to even), so every definition computes and no
    axiom about primitive floats is used. The methods of Rust's [f64] that
    the source calls ([max], [min], [clamp], [partial_cmp], [round],
    [powi], the [as] casts) are written on top.

    The second half proves the order theory the components use: on the
    values that are not NaN the comparison is a total preorder ([num]). *)

From Stdlib Require Import ZArith Lia.
From Stdlib Require Export SpecFloat.
From stdpp Require Import base list.
From S2P Require Import Prelude Lists.

Abbreviation f64 := spec_float.

#[global] Instance spec_float_eq_dec : EqDecision spec_float.
Proof. solve_decision. Defined.

Declare Scope f64_scope.
Delimit Scope f64_scope with f64.

Definition f64_add : f64 -> f64 -> f64 := SFadd 53 1024.
Definition f64_sub : f64 -> f64 -> f64 := SFsub 53 1024.
Definition f64_mul : f64 -> f64 -> f64 := SFmul 53 1024.
Definition f64_div : f64 -> f64 -> f64 := SFdiv 53 1024.
Definition f64_neg : f64 -> f64 := SFopp.
Definition f64_abs : f64 -> f64 := SFabs.

(** [partial_cmp], [<], [<=], [==]. *)
Definition f64_partial_cmp : f64 -> f64 -> option comparison := SFcompare.
Definition f64_ltb : f64 -> f64 -> bool := SFltb.
Definition f64_leb : f64 -> f64 -> bool := SFleb.
Definition f64_eqb : f64 -> f64 -> bool := SFeqb.

Notation "x + y" := (f64_add x y) : f64_scope.
Notation "x - y" := (f64_sub x y) : f64_scope.
Notation "x * y" := (f64_mul x y) : f64_scope.
Notation "x / y" := (f64_div x y) : f64_scope.
Notation "x <? y" := (f64_ltb x y) : f64_scope.
Notation "x <=? y" := (f64_leb x y) : f64_scope.
Notation "x =? y" := (f64_eqb x y) : f64_scope.
Notation "x >? y" := (f64_ltb y x) (only parsing) : f64_scope.
Notation "x >=? y" := (f64_leb y x) (only parsing) : f64_scope.

Definition is_nan (x : f64) : bool := match x with S754_nan => true | _ => false end.
Definition is_finite (x : f64) : bool :=
  match x with S754_zero _ | S754_finite _ _ _ => true | _ => false end.

(** [z as f64] for an integer [z]. *)
Definition f64_of_Z (z : Z) : f64 := binary_normalize 53 1024 z 0 false.
(** The literal [n/d]: the nearest double of the quotient, exact operands. *)
Definition f64_lit (n d : Z) : f64 := f64_div (f64_of_Z n) (f64_of_Z d).

Definition f64_zero : f64 := S754_zero false.
Definition f64_one : f64 := f64_of_Z 1.

(** [f64::max] and [f64::min]: a NaN operand is ignored. *)
Definition f64_max (x y : f64) : f64 :=
  if is_nan x then y else if is_nan y then x else if f64_ltb x y then y else x.
Definition f64_min (x y : f64) : f64 :=
  if is_nan x then y else if is_nan y then x else if f64_ltb y x then y else x.

(** [f64::clamp]: panics unless [min <= max]; a NaN receiver stays NaN. *)
Definition f64_clamp (x lo hi : f64) : panicking f64 :=
  if f64_leb lo hi then
    let x := if f64_ltb x lo then lo else x in
    Done (if f64_ltb hi x then hi else x)
  else Panic.

(** The integer part of [|x|]. *)
Definition trunc_abs (x : f64) : Z :=
  match x with
  | S754_finite _ m e => Z.shiftl (Zpos m) e
  | _ => 0
  end.

(** [x as uN]: truncates and saturates; NaN gives 0. *)
Definition f64_to_u (w : Z) (x : f64) : Z :=
  match x with
  | S754_infinity false => 2 ^ w - 1
  | S754_finite false _ _ => Z.min (2 ^ w - 1) (trunc_abs x)
  | _ => 0
  end.

(** [f64::round]: half away from zero. *)
Definition f64_round (x : f64) : f64 :=
  match x with
  | S754_finite s m e =>
      if 0 <=? e then x
      else
        let q := Z.shiftr (Zpos m + Z.shiftl 1 (- e - 1)) (- e) in
        if s then binary_normalize 53 1024 (- q) 0 true
        else binary_normalize 53 1024 q 0 false
  | _ => x
  end.

(** [f64::powi] as the compiler's runtime computes it: repeated squaring. *)
Fixpoint powi_loop (fuel : nat) (a r : f64) (n : Z) : f64 :=
  match fuel with
  | O => r
  | S fuel =>
      let r := if Z.odd n then f64_mul r a else r in
      let n := n / 2 in
      if n =? 0 then r else powi_loop fuel (f64_mul a a) r n
  end.
Definition f64_powi (a : f64) (n : Z) : f64 :=
  let r := powi_loop 32 a f64_one (Z.abs n) in
  if n <? 0 then f64_div f64_one r else r.

(** [Iterator::sum::<f64>]: a left fold from zero. *)
Definition f64_sum (l : list f64) : f64 := foldl f64_add f64_zero l.

(** [a.partial_cmp(b).unwrap_or(Equal)]. *)
Definition f64_cmp_or_eq (x y : f64) : comparison :=
  match f64_partial_cmp x y with Some c => c | None => Eq end.

(* ------------------------------------------------------------------ *)
(** ** Order *)

Definition num (x : f64) : Prop := is_nan x = false.

(** The lexicographic key of a number: sign class, exponent, mantissa. *)
Definition key1 (x : f64) : Z :=
  match x with
  | S754_infinity s => if s then -2 else 2
  | S754_finite s _ _ => if s then -1 else 1
  | _ => 0
  end.
Definition key2 (x : f64) : Z :=
  match x with S754_finite s _ e => if s then - e else e | _ => 0 end.
Definition key3 (x : f64) : Z :=
  match x with S754_finite s m _ => if s then Zneg m else Zpos m | _ => 0 end.

Definition key_cmp (x y : f64) : comparison :=
  then_cmp (key1 x ?= key1 y) (then_cmp (key2 x ?= key2 y) (key3 x ?= key3 y)).

Lemma SFcompare_key x y : num x -> num y -> SFcompare x y = Some (key_cmp x y).
Proof.
  unfold num, key_cmp.
  destruct x as [[]|[]| |[] m e], y as [[]|[]| |[] m' e']; cbn; intros; try done.
  - replace (- e ?= - e') with (e' ?= e) by (rewrite Z.compare_opp; f_equal; lia).
    rewrite (Z.compare_antisym e e'). by destruct (e ?= e').
  - by destruct (e ?= e').
Qed.

Definition key_lt (x y : f64) : Prop :=
  key1 x < key1 y \/ key1 x = key1 y /\
    (key2 x < key2 y \/ key2 x = key2 y /\ key3 x < key3 y).
Definition key_eq (x y : f64) : Prop :=
  key1 x = key1 y /\ key2 x = key2 y /\ key3 x = key3 y.

Lemma key_cmp_spec x y :
  match key_cmp x y with Lt => key_lt x y | Eq => key_eq x y | Gt => key_lt y x end.
Proof.
  unfold key_cmp, key_lt, key_eq.
  destruct (Z.compare_spec (key1 x) (key1 y)); cbn; [|lia|lia].
  destruct (Z.compare_spec (key2 x) (key2 y)); cbn; [|lia|lia].
  destruct (Z.compare_spec (key3 x) (key3 y)); cbn; lia.
Qed.

Lemma num_dec x : {num x} + {is_nan x = true}.
Proof. unfold num. destruct (is_nan x); auto. Qed.

Lemma nan_compare_l x y : is_nan x = true -> SFcompare x y = None.
Proof. by destruct x. Qed.

Lemma nan_compare_r x y : is_nan y = true -> SFcompare x y = None.
Proof. destruct y; try done. by destruct x. Qed.

Lemma f64_lt_key x y : f64_ltb x y = true <-> num x /\ num y /\ key_lt x y.
Proof.
  unfold f64_ltb, SFltb.
  destruct (num_dec x) as [Hx|Hx], (num_dec y) as [Hy|Hy].
  2-4: rewrite ?(nan_compare_l x y), ?(nan_compare_r x y) by done;
       unfold num; split; intros; [done|]; destruct_and!; congruence.
  rewrite SFcompare_key by done. pose proof (key_cmp_spec x y) as H.
  destruct (key_cmp x y); split; intros; try done; destruct_and?;
    unfold key_lt, key_eq in *; lia.
Qed.

Lemma f64_le_key x y : f64_leb x y = true <-> num x /\ num y /\ ~ key_lt y x.
Proof.
  unfold f64_leb, SFleb.
  destruct (num_dec x) as [Hx|Hx], (num_dec y) as [Hy|Hy].
  2-4: rewrite ?(nan_compare_l x y), ?(nan_compare_r x y) by done;
       unfold num; split; intros; [done|]; destruct_and!; congruence.
  rewrite SFcompare_key by done. pose proof (key_cmp_spec x y) as H.
  destruct (key_cmp x y); split; intros; try done; destruct_and?;
    unfold key_lt, key_eq in *; try (split_and!; [done|done|lia]); lia.
Qed.

Lemma f64_eq_key x y : f64_eqb x y = true <-> num x /\ num y /\ key_eq x y.
Proof.
  unfold f64_eqb, SFeqb.
  destruct (num_dec x) as [Hx|Hx], (num_dec y) as [Hy|Hy].
  2-4: rewrite ?(nan_compare_l x y), ?(nan_compare_r x y) by done;
       unfold num; split; intros; [done|]; destruct_and!; congruence.
  rewrite SFcompare_key by done. pose proof (key_cmp_spec x y) as H.
  destruct (key_cmp x y); split; intros; try done; destruct_and?;
    unfold key_lt, key_eq in *; lia.
Qed.

(** Turns every comparison of the context into linear arithmetic on keys. *)
Ltac f64_order :=
  rewrite ?f64_lt_key, ?f64_le_key, ?f64_eq_key in *;
  repeat match goal with
  | H : f64_ltb _ _ = true |- _ => rewrite f64_lt_key in H
  | H : f64_leb _ _ = true |- _ => rewrite f64_le_key in H
  | H : f64_eqb _ _ = true |- _ => rewrite f64_eq_key in H
  end;
  destruct_and?; unfold key_lt, key_eq in *;
  split_and?; try done; try lia.

Lemma f64_ltb_false x y : num x -> num y -> f64_ltb x y = false <-> f64_leb y x = true.
Proof.
  intros Hx Hy. rewrite f64_le_key, <- not_true_iff_false, f64_lt_key.
  split; intros; destruct_and?; split_and?; tauto.
Qed.

Lemma f64_leb_false x y : num x -> num y -> f64_leb x y = false <-> f64_ltb y x = true.
Proof.
  intros Hx Hy. unfold f64_leb, f64_ltb, SFleb, SFltb. rewrite !SFcompare_key by done.
  pose proof (key_cmp_spec x y). pose proof (key_cmp_spec y x).
  destruct (key_cmp x y), (key_cmp y x); split; try done;
    unfold key_lt, key_eq in *; lia.
Qed.

Lemma f64_le_refl x : num x -> f64_leb x x = true.
Proof. intros. f64_order. Qed.

Lemma f64_le_trans x y z : f64_leb x y = true -> f64_leb y z = true -> f64_leb x z = true.
Proof. intros. f64_order. Qed.

Lemma f64_lt_le_trans x y z : f64_ltb x y = true -> f64_leb y z = true -> f64_ltb x z = true.
Proof. intros. f64_order. Qed.

Lemma f64_le_lt_trans x y z : f64_leb x y = true -> f64_ltb y z = true -> f64_ltb x z = true.
Proof. intros. f64_order. Qed.

Lemma f64_lt_le x y : f64_ltb x y = true -> f64_leb x y = true.
Proof. intros. f64_order. Qed.

Lemma f64_le_antisym x y : f64_leb x y = true -> f64_leb y x = true -> f64_eqb x y = true.
Proof. intros. f64_order. Qed.

Lemma f64_eq_le x y : f64_eqb x y = true -> f64_leb x y = true.
Proof. intros. f64_order. Qed.

Lemma f64_lt_num x y : f64_ltb x y = true -> num x /\ num y.
Proof. rewrite f64_lt_key. tauto. Qed.

Lemma f64_le_num x y : f64_leb x y = true -> num x /\ num y.
Proof. rewrite f64_le_key. tauto. Qed.

Lemma f64_nan_lt x y : is_nan x = true \/ is_nan y = true -> f64_ltb x y = false.
Proof.
  intros H. apply not_true_iff_false. rewrite f64_lt_key. unfold num.
  intros (? & ? & _). destruct H; congruence.
Qed.

Lemma f64_nan_le x y : is_nan x = true \/ is_nan y = true -> f64_leb x y = false.
Proof.
  intros H. apply not_true_iff_false. rewrite f64_le_key. unfold num.
  intros (? & ? & _). destruct H; congruence.
Qed.

(** [max] and [min]. *)
Lemma f64_max_num x y : num x \/ num y -> num (f64_max x y).
Proof.
  unfold num, f64_max. destruct (is_nan x) eqn:?, (is_nan y) eqn:?; intros []; try done.
  all: by destruct (f64_ltb x y).
Qed.

Lemma f64_min_num x y : num x \/ num y -> num (f64_min x y).
Proof.
  unfold num, f64_min. destruct (is_nan x) eqn:?, (is_nan y) eqn:?; intros []; try done.
  all: by destruct (f64_ltb y x).
Qed.

Lemma f64_max_ge_l x y : num x -> f64_leb x (f64_max x y) = true.
Proof.
  intros Hx. unfold f64_max. rewrite Hx.
  destruct (is_nan y) eqn:Hy; [by apply f64_le_refl|].
  destruct (f64_ltb x y) eqn:E; [by apply f64_lt_le | by apply f64_le_refl].
Qed.

Lemma f64_max_ge_r x y : num y -> f64_leb y (f64_max x y) = true.
Proof.
  intros Hy. unfold f64_max. rewrite Hy.
  destruct (is_nan x) eqn:Hx; [by apply f64_le_refl|].
  destruct (f64_ltb x y) eqn:E; [by apply f64_le_refl|].
  by apply f64_ltb_false.
Qed.

Lemma f64_min_le_l x y : num x -> f64_leb (f64_min x y) x = true.
Proof.
  intros Hx. unfold f64_min. rewrite Hx.
  destruct (is_nan y) eqn:Hy; [by apply f64_le_refl|].
  destruct (f64_ltb y x) eqn:E; [by apply f64_lt_le | by apply f64_le_refl].
Qed.

Lemma f64_min_le_r x y : num y -> f64_leb (f64_min x y) y = true.
Proof.
  intros Hy. unfold f64_min. rewrite Hy.
  destruct (is_nan x) eqn:Hx; [by apply f64_le_refl|].
  destruct (f64_ltb y x) eqn:E; [by apply f64_le_refl|].
  by apply f64_ltb_false.
Qed.

Lemma f64_max_cases x y : f64_max x y = x \/ f64_max x y = y.
Proof. unfold f64_max. repeat case_match_goal; auto. Qed.

Lemma f64_min_cases x y : f64_min x y = x \/ f64_min x y = y.
Proof. unfold f64_min. repeat case_match_goal; auto. Qed.

(** [clamp]. *)
Lemma f64_clamp_spec x lo hi :
  f64_leb lo hi = true ->
  exists v, f64_clamp x lo hi = Done v /\
    (is_nan x = true -> v = x) /\
    (num x -> f64_leb lo v = true /\ f64_leb v hi = true) /\
    (v = x \/ v = lo \/ v = hi).
Proof.
  intros Hlh. unfold f64_clamp. rewrite Hlh. eexists. split; [done|].
  destruct (f64_le_num _ _ Hlh) as [Hlo Hhi]. split_and!.
  - intros Hx. rewrite (f64_nan_lt x lo), (f64_nan_lt hi x) by auto. done.
  - intros Hx. destruct (f64_ltb x lo) eqn:E.
    + destruct (f64_ltb hi lo) eqn:E'; split; rewrite ?f64_le_refl by done; done.
    + apply f64_ltb_false in E; [|done|done].
      destruct (f64_ltb hi x) eqn:E'; split; rewrite ?f64_le_refl by done; try done.
      by apply f64_ltb_false.
  - repeat case_match_goal; auto.
Qed.

Lemma f64_clamp_above x lo hi :
  f64_leb lo hi = true -> f64_leb hi x = true ->
  exists v, f64_clamp x lo hi = Done v /\ f64_eqb v hi = true.
Proof.
  intros Hlh Hx. unfold f64_clamp. rewrite Hlh. eexists. split; [done|].
  destruct (f64_le_num _ _ Hlh), (f64_le_num _ _ Hx).
  replace (f64_ltb x lo) with false.
  2: { symmetry. apply f64_ltb_false; [done..|]. by apply (f64_le_trans _ hi). }
  destruct (f64_ltb hi x) eqn:E.
  - apply f64_le_antisym; by apply f64_le_refl.
  - apply f64_ltb_false in E; [|done..]. by apply f64_le_antisym.
Qed.

Lemma f64_clamp_below x lo hi :
  f64_leb lo hi = true -> f64_ltb x lo = true -> f64_clamp x lo hi = Done lo.
Proof.
  intros Hlh Hx. unfold f64_clamp. rewrite Hlh, Hx.
  replace (f64_ltb hi lo) with false; [done|].
  symmetry. destruct (f64_le_num _ _ Hlh). by apply f64_ltb_false.
Qed.

(** Descending comparison of numbers is a total preorder. *)
Lemma f64_cmp_or_eq_key x y : num x -> num y -> f64_cmp_or_eq x y = key_cmp x y.
Proof. intros. unfold f64_cmp_or_eq, f64_partial_cmp. by rewrite SFcompare_key. Qed.

Lemma f64_cmp_le x y : num x -> num y -> f64_cmp_or_eq x y <> Gt <-> f64_leb x y = true.
Proof.
  intros Hx Hy. rewrite f64_cmp_or_eq_key, f64_le_key by done.
  pose proof (key_cmp_spec x y). destruct (key_cmp x y); unfold key_lt, key_eq in *;
    split; intros; destruct_and?; split_and?; try done; lia.
Qed.

Lemma f64_cmp_preorder {A} (f : A -> f64) :
  cmp_preorder (fun a => num (f a)) (fun a b => f64_cmp_or_eq (f b) (f a)).
Proof.
  split.
  - intros a b Ha Hb. rewrite !f64_cmp_or_eq_key by done.
    pose proof (key_cmp_spec (f a) (f b)). pose proof (key_cmp_spec (f b) (f a)).
    destruct (key_cmp (f a) (f b)), (key_cmp (f b) (f a)); cbn; try done;
      unfold key_lt, key_eq in *; lia.
  - intros a b c Ha Hb Hc. rewrite !f64_cmp_le by done.
    intros H1 H2. by apply (f64_le_trans _ (f b)).
Qed.

(* ------------------------------------------------------------------ *)
(** ** Casts *)

Lemma f64_to_u_in w x : 0 < w -> in_u w (f64_to_u w x).
Proof.
  intros Hw. assert (0 < 2 ^ w) by (apply Z.pow_pos_nonneg; lia).
  unfold f64_to_u, in_u. destruct x as [|[]| |[] m e]; try lia.
  assert (0 <= trunc_abs (S754_finite false m e)) by (cbn; apply Z.shiftl_nonneg; lia).
  lia.
Qed.

#[export] Hint Resolve f64_le_refl f64_max_ge_l f64_max_ge_r f64_min_le_l f64_min_le_r
  f64_lt_le f64_to_u_in : gyr.

(** Ascending comparison, as [sort_by(|a, b| a.partial_cmp(b)...)] uses it. *)
Lemma f64_cmp_preorder_asc : cmp_preorder num f64_cmp_or_eq.
Proof.
  destruct (f64_cmp_preorder (fun x : f64 => x)) as [Hflip Htrans]. split.
  - intros x y Hx Hy. by rewrite (Hflip y x).
  - intros x y z Hx Hy Hz H1 H2. by apply (Htrans z y x).
Qed.

(* ------------------------------------------------------------------ *)
(** ** Signs of sums and products *)

Definition shr_ok (r : shr_record) : Prop := 0 <= shr_m r.

Lemma shr_1_ok r : shr_ok r -> shr_ok (shr_1 r).
Proof. destruct r as [[|[p|p|]|p] b b']; unfold shr_ok; cbn; lia. Qed.

Lemma iter_pos_ok n r : shr_ok r -> shr_ok (SpecFloat.iter_pos shr_1 n r).
Proof.
  revert r. induction n; intros r Hr; cbn; auto using shr_1_ok.
Qed.

Lemma shr_fexp_ok m e l r e' : 0 <= m -> shr_fexp 53 1024 m e l = (r, e') -> shr_ok r.
Proof.
  intros Hm. unfold shr_fexp, shr.
  assert (H0 : shr_ok (shr_record_of_loc m l)) by (destruct l as [|[]]; done).
  destruct (fexp 53 1024 (Zdigits2 m + e) - e); intros [= <- <-];
    auto using iter_pos_ok.
Qed.

Lemma round_nearest_even_nonneg m l : 0 <= m -> 0 <= round_nearest_even m l.
Proof. intros H. destruct l as [|[]]; cbn; try lia. destruct (Z.even m); lia. Qed.

(** Rounding a nonnegative magnitude keeps the sign and is never NaN. *)
Lemma binary_round_aux_sign s m e l :
  0 <= m ->
  match binary_round_aux 53 1024 s m e l with
  | S754_zero s' | S754_infinity s' | S754_finite s' _ _ => s' = s
  | S754_nan => False
  end.
Proof.
  intros Hm. unfold binary_round_aux.
  destruct (shr_fexp 53 1024 m e l) as [r e'] eqn:E1.
  apply shr_fexp_ok in E1; [|done].
  destruct (shr_fexp 53 1024 (round_nearest_even (shr_m r) (loc_of_shr_record r)) e' loc_Exact)
    as [r2 e2] eqn:E2.
  apply shr_fexp_ok in E2; [|by apply round_nearest_even_nonneg].
  unfold shr_ok in E2. destruct (shr_m r2) as [|p|p]; [done| |lia].
  by destruct (e2 <=? 1024 - 53).
Qed.

Definition nonneg (x : f64) : Prop := f64_leb f64_zero x = true.

Lemma nonneg_cases x :
  nonneg x <->
  match x with
  | S754_zero _ => True
  | S754_infinity s | S754_finite s _ _ => s = false
  | S754_nan => False
  end.
Proof. unfold nonneg. destruct x as [[]|[]| |[] m e]; cbn; split; intros; try done. Qed.

Lemma nonneg_num x : nonneg x -> num x.
Proof. intros H. exact (proj2 (f64_le_num _ _ H)). Qed.

Lemma binary_normalize_pos_nonneg m e : nonneg (binary_normalize 53 1024 (Zpos m) e false).
Proof.
  apply nonneg_cases. cbn. unfold binary_round.
  destruct (shl_align _ _ _) as [mz ez].
  pose proof (binary_round_aux_sign false (Zpos mz) ez loc_Exact ltac:(lia)) as H.
  by destruct (binary_round_aux 53 1024 false (Zpos mz) ez loc_Exact).
Qed.

Lemma f64_add_nonneg x y : nonneg x -> nonneg y -> nonneg (x + y)%f64.
Proof.
  intros Hx%nonneg_cases Hy%nonneg_cases. unfold f64_add.
  destruct x as [[]|s| |s m e], y as [[]|s'| |s' m' e']; subst; try done.
  cbn. apply binary_normalize_pos_nonneg.
Qed.

Lemma f64_mul_nonneg x y : nonneg x -> nonneg y -> num (x * y)%f64 -> nonneg (x * y)%f64.
Proof.
  intros Hx%nonneg_cases Hy%nonneg_cases Hn. apply nonneg_cases. unfold f64_mul in *.
  destruct x as [[]|s| |s m e], y as [[]|s'| |s' m' e']; subst; try done.
  cbn in *. pose proof (binary_round_aux_sign false (Zpos (m * m')) (e + e') loc_Exact ltac:(lia)).
  by destruct (binary_round_aux _ _ _ _ _ _).
Qed.

Lemma f64_of_Z_nonneg z : 0 <= z -> nonneg (f64_of_Z z).
Proof.
  intros Hz. unfold f64_of_Z. destruct z as [|p|p]; [done| |lia].
  apply binary_normalize_pos_nonneg.
Qed.

(** A quotient of positive finite numbers is not NaN and not negative. *)
Lemma f64_div_pos_nonneg x y :
  (f64_zero <? x)%f64 = true -> (f64_zero <? y)%f64 = true -> is_finite x = true -> is_finite y = true ->
  nonneg (x / y)%f64.
Proof.
  intros Hx Hy Fx Fy. apply nonneg_cases. unfold f64_div.
  destruct x as [[]|s| |[] m e], y as [[]|s'| |[] m' e']; try done.
  cbn [SFdiv xorb]. unfold SFdiv_core_binary.
  set (m1 := match _ with Zpos _ => _ | _ => _ end).
  assert (Hm1 : 0 <= m1).
  { subst m1. destruct (_ - _); try lia. apply Z.shiftl_nonneg. lia. }
  pose proof (Z_div_mod m1 (Zpos m') ltac:(lia)) as Hdm.
  destruct (Z.div_eucl m1 (Zpos m')) as [q r]. destruct Hdm as [Hq Hr].
  assert (0 <= q) by nia.
  match goal with |- context [binary_round_aux _ _ _ _ ?e ?l] =>
    pose proof (binary_round_aux_sign false q e l ltac:(lia)) end.
  by destruct (binary_round_aux _ _ _ _ _ _).
Qed.

#[export] Hint Resolve f64_add_nonneg f64_of_Z_nonneg nonneg_num : gyr.
