(* ===== verification/CoreTypes.v ===== *)
(** * crates/core: the data that crosses crate boundaries, and the trait
    contracts.

    Records keep the source's field names behind a short prefix, because
    Rocq's field names share one name space. The traits of
    [traits.rs] are type classes: an implementation is an instance, and the
    replay engine and the daemon are written against the classes. *)

From Stdlib Require Import ZArith Lia.
From stdpp Require Import base gmap strings list countable.
From S2P Require Import Prelude F64.

(** ** pubkey.rs *)

(** [Pubkey([u8; 32])]. *)
Record Pubkey := mkPubkey { pk_bytes : list Z }.

#[global] Instance Pubkey_eq_dec : EqDecision Pubkey.
Proof. solve_decision. Defined.
#[global] Program Instance Pubkey_countable : Countable Pubkey :=
  inj_countable' pk_bytes mkPubkey _.
Next Obligation. by intros []. Qed.

(** The type invariant of [[u8; 32]]. *)
Definition Pubkey_wf (p : Pubkey) : Prop :=
  length (pk_bytes p) = 32%nat /\ Forall is_u8 (pk_bytes p).

Definition Pubkey_new (bytes : list Z) : Pubkey := mkPubkey bytes.
(** [Pubkey::default()]. *)
Definition Pubkey_default : Pubkey := mkPubkey (replicate 32 0).

Section base58.
(** The [bs58] crate: its decoder gives the decoded bytes (no value for a
    character outside the alphabet), its encoder a string. *)
Context (bs58_decode : string -> option (list Z)) (bs58_encode : list Z -> string).

Inductive bs58_error := BufferTooSmall | InvalidCharacter.

(** [Pubkey::from_base58]: decoding onto a 32-byte buffer fails when more
    bytes come out, and fewer than 32 are refused by the length test. *)
Definition from_base58 (s : string) : result Pubkey bs58_error :=
  match bs58_decode s with
  | None => Err InvalidCharacter
  | Some bytes =>
      if (32 <? length bytes)%nat then Err BufferTooSmall
      else if negb (length bytes =? 32)%nat then Err BufferTooSmall
      else Ok (mkPubkey bytes)
  end.

Definition to_base58 (p : Pubkey) : string := bs58_encode (pk_bytes p).

(** Every accepted string decodes to exactly 32 bytes. *)
Lemma from_base58_Ok s p :
  from_base58 s = Ok p <-> bs58_decode s = Some (pk_bytes p) /\ length (pk_bytes p) = 32%nat.
Proof.
  unfold from_base58. destruct (bs58_decode s) as [bs|]; [|split; [done|by intros [? _]]].
  destruct (Nat.ltb_spec 32 (length bs)), (Nat.eqb_spec (length bs) 32); cbn;
    split; intros H'; try done; try (destruct H' as [[= ->] ?]; lia).
  - by injection H' as <-.
  - destruct H' as [[= ->] _]. by destruct p.
Qed.
End base58.

(** ** protocol.rs *)

Inductive Protocol := Kamino.
#[global] Instance Protocol_eq_dec : EqDecision Protocol.
Proof. solve_decision. Defined.
#[global] Program Instance Protocol_countable : Countable Protocol :=
  {| encode _ := 1%positive; decode _ := Some Kamino |}.
Next Obligation. by intros []. Qed.

Definition Protocol_fmt (p : Protocol) : string :=
  match p with Kamino => "kamino" end.

Inductive RevertReason :=
| RaceLost
| SlippageExceeded
| ComputeExhausted
| FlashRepayFailed
| ProgramError (log : string).
#[global] Instance RevertReason_eq_dec : EqDecision RevertReason.
Proof. solve_decision. Defined.

(** ** types.rs *)

Record BreachCandidate := mkBreachCandidate {
  bc_protocol : Protocol;
  bc_position_id : Pubkey;
  bc_collateral_mint : Pubkey;
  bc_debt_mint : Pubkey;
  bc_health_factor : f64;
  bc_close_factor_max_repay : Z;
  bc_slot : Z
}.

Record FlashSource := mkFlashSource {
  fs_protocol : Protocol;
  fs_reserve : Pubkey;
  fs_fee_bps : Z
}.

Record ProfitEstimate := mkProfitEstimate {
  pe_bonus_usd : f64;
  pe_est_slippage_usd : f64;
  pe_flash_fee_usd : f64;
  pe_est_cu_cost_usd : f64;
  pe_bid_tip_usd : f64;
  pe_net_usd : f64
}.

Record RoutedCandidate := mkRoutedCandidate {
  rc_candidate : BreachCandidate;
  rc_repay_amount : Z;
  rc_flash_source : FlashSource;
  rc_expected : ProfitEstimate
}.

Record SimResult := mkSimResult {
  sr_routed : RoutedCandidate;
  sr_feasible : bool;
  sr_cu_measured : Z;
  sr_tx_bytes : Z;
  sr_profitable : bool
}.

Record Bundle := mkBundle {
  bu_sim : SimResult;
  bu_versioned_tx : list Z;
  bu_alt_keys : list Pubkey
}.

Inductive SubmitOutcome :=
| Landed (slot : Z) (actual_net_usd : f64)
| Reverted (reason : RevertReason)
| NotIncluded.

Record LiquidationRecord := mkLiquidationRecord {
  lr_routed : RoutedCandidate;
  lr_outcome : SubmitOutcome;
  lr_submitted_at_slot : Z;
  lr_resolved_at_slot : Z
}.

(** ** traits.rs *)

Record AccountUpdate := mkAccountUpdate {
  au_pubkey : Pubkey;
  au_owner : Pubkey;
  au_data : list Z;
  au_slot : Z
}.

(** [trait HealthAdapter]; [&mut self] is explicit state passing. *)
Class HealthAdapter (H : Type) := {
  on_account_update : H -> AccountUpdate -> H * option BreachCandidate;
  close_factor : H -> Pubkey -> Z;
  position_count : H -> Z;
  sync_lag_slots : H -> Z
}.

(** [trait FlashSourceRouter]. *)
Class FlashSourceRouter (R : Type) := {
  route : R -> Pubkey -> Z -> option FlashSource
}.

(** [trait Simulator]. *)
Class Simulator (S : Type) := {
  simulate : S -> RoutedCandidate -> SimResult
}.

(** [trait Submitter]: the asynchronous call returns one outcome. *)
Class Submitter (S : Type) := {
  submit : S -> Bundle -> SubmitOutcome
}.

#[global] Instance BreachCandidate_eq_dec : EqDecision BreachCandidate.
Proof. solve_decision. Defined.
#[global] Instance FlashSource_eq_dec : EqDecision FlashSource.
Proof. solve_decision. Defined.
#[global] Instance SubmitOutcome_eq_dec : EqDecision SubmitOutcome.
Proof. solve_decision. Defined.
#[global] Instance ProfitEstimate_eq_dec : EqDecision ProfitEstimate.
Proof. solve_decision. Defined.
#[global] Instance RoutedCandidate_eq_dec : EqDecision RoutedCandidate.
Proof. solve_decision. Defined.
#[global] Instance LiquidationRecord_eq_dec : EqDecision LiquidationRecord.
Proof. solve_decision. Defined.
