(* ===== verification/Config.v ===== *)
(** * crates/config: the configuration schema, its structural validation,
    and the loader. Reading the file and parsing TOML are parameters. *)

From Stdlib Require Import ZArith Lia.
From stdpp Require Import base strings.
From S2P Require Import Prelude F64.

Record GeyserConfig := mkGeyserConfig { gc_url : string; gc_token : string }.
Record RpcConfig := mkRpcConfig { rpc_url : string }.
Record StakedSendConfig := mkStakedSendConfig { ssc_url : string }.
Record JitoConfig := mkJitoConfig { jc_block_engine_url : string }.
Record IdentityConfig := mkIdentityConfig { ic_keypair_path : string; ic_tip_account : string }.
Record TreasuryConfig := mkTreasuryConfig {
  tc_wallet_path : string;
  tc_min_balance_sol : f64;
  tc_sweep_interval : string
}.
Record ProtocolToggle := mkProtocolToggle { pt_enabled : bool }.
Record ProtocolsConfig := mkProtocolsConfig { pc_kamino : ProtocolToggle }.

Inductive SubmitMode := Observe | Live.
#[global] Instance SubmitMode_eq_dec : EqDecision SubmitMode.
Proof. solve_decision. Defined.

Definition SubmitMode_fmt (m : SubmitMode) : string :=
  match m with Observe => "observe" | Live => "live" end.

Record SubmitConfig := mkSubmitConfig {
  sc_mode : SubmitMode;
  sc_leaders_ahead : Z;
  sc_dual_path : bool;
  sc_timeout_ms : option Z
}.

Record RiskConfig := mkRiskConfig {
  rk_min_profit_usd : f64;
  rk_min_tip_usd : f64;
  rk_sync_lag_halt_slots : Z;
  rk_contention_ceiling : f64;
  rk_max_tip_per_tx_usd : f64;
  rk_max_tip_per_slot_usd : f64;
  rk_max_tip_pct_of_bonus : f64;
  rk_max_drawdown_usd : f64;
  rk_consecutive_revert_limit : Z
}.

Record Config := mkConfig {
  cf_geyser : GeyserConfig;
  cf_rpc : RpcConfig;
  cf_staked_send : StakedSendConfig;
  cf_jito : JitoConfig;
  cf_identity : IdentityConfig;
  cf_treasury : TreasuryConfig;
  cf_protocols : ProtocolsConfig;
  cf_submit : SubmitConfig;
  cf_risk : RiskConfig
}.

Inductive ConfigError :=
| ConfigRead (path : string)
| ConfigParse
| InvalidRevertLimit (limit : Z).

(** [Config::validate]. *)
Definition validate (c : Config) : result unit ConfigError :=
  if rk_consecutive_revert_limit (cf_risk c) =? 0 then
    Err (InvalidRevertLimit (rk_consecutive_revert_limit (cf_risk c)))
  else Ok tt.

Section load.
(** [std::fs::read_to_string] and [toml::from_str]. *)
Context (read_to_string : string -> option string) (toml_from_str : string -> option Config).
Local Open Scope rust_scope.

(** [Config::load]. *)
Definition load (path : string) : result Config ConfigError :=
  let? raw := ok_or (read_to_string path) (ConfigRead path) in
  let? config := ok_or (toml_from_str raw) ConfigParse in
  let? _ := validate config in
  Ok config.

(** A loaded configuration passed validation. *)
Lemma load_Ok path c :
  load path = Ok c <->
  exists raw, read_to_string path = Some raw /\ toml_from_str raw = Some c
    /\ rk_consecutive_revert_limit (cf_risk c) <> 0.
Proof.
  unfold load, validate. destruct (read_to_string path) as [raw|]; cbn.
  2: { split; [done | by intros (? & ? & _)]. }
  destruct (toml_from_str raw) as [c'|] eqn:E; cbn.
  2: { split; [done | intros (? & [= <-] & ? & _); congruence]. }
  destruct (Z.eqb_spec (rk_consecutive_revert_limit (cf_risk c')) 0); split; intros H.
  - done.
  - destruct H as (? & [= <-] & ? & ?). congruence.
  - injection H as <-. eauto.
  - destruct H as (? & [= <-] & ? & ?). congruence.
Qed.
End load.
