(* ===== verification/TreasuryCheck.v ===== *)
(** * crates/strategy/treasury_check.rs: the per-slot tip budget. *)

From Stdlib Require Import ZArith Lia.
From stdpp Require Import base list.
From S2P Require Import Prelude F64 Config.

Inductive TreasuryDecision :=
| Approved
| ExceedsPerTxCap
| ExceedsPerSlotBudget
| BelowMinimumBalance.
#[global] Instance TreasuryDecision_eq_dec : EqDecision TreasuryDecision.
Proof. solve_decision. Defined.

Record SlotBudget := mkSlotBudget { sb_committed_usd : f64 }.

Definition SlotBudget_new : SlotBudget := mkSlotBudget f64_zero.

(** [SlotBudget::committed_usd]. *)
Definition committed_usd (b : SlotBudget) : f64 := sb_committed_usd b.

Local Open Scope f64_scope.

(** [SlotBudget::check]: the first failing test decides. *)
Definition SlotBudget_check (b : SlotBudget) (tip_usd current_balance_sol : f64)
    (risk : RiskConfig) (treasury : TreasuryConfig) : TreasuryDecision :=
  if current_balance_sol <? tc_min_balance_sol treasury then BelowMinimumBalance
  else if tip_usd >? rk_max_tip_per_tx_usd risk then ExceedsPerTxCap
  else if (sb_committed_usd b + tip_usd) >? rk_max_tip_per_slot_usd risk
       then ExceedsPerSlotBudget
  else Approved.

(** [SlotBudget::commit]. *)
Definition SlotBudget_commit (b : SlotBudget) (tip_usd : f64) : SlotBudget :=
  mkSlotBudget (sb_committed_usd b + tip_usd).

(** What an approval establishes, NaN operands excluded. *)
Lemma SlotBudget_check_Approved b tip bal risk tr :
  SlotBudget_check b tip bal risk tr = Approved ->
  (bal <? tc_min_balance_sol tr) = false
  /\ (tip >? rk_max_tip_per_tx_usd risk) = false
  /\ (sb_committed_usd (SlotBudget_commit b tip) >? rk_max_tip_per_slot_usd risk) = false.
Proof. unfold SlotBudget_check, SlotBudget_commit. cbn. by repeat case_match_goal. Qed.

Lemma SlotBudget_check_caps b tip bal risk tr :
  num (rk_max_tip_per_tx_usd risk) -> num (rk_max_tip_per_slot_usd risk) ->
  num tip -> num (sb_committed_usd b + tip) ->
  SlotBudget_check b tip bal risk tr = Approved ->
  (tip <=? rk_max_tip_per_tx_usd risk) = true
  /\ (sb_committed_usd (SlotBudget_commit b tip) <=? rk_max_tip_per_slot_usd risk) = true.
Proof.
  intros Hc1 Hc2 Ht Hs (_ & H1 & H2)%SlotBudget_check_Approved.
  split; apply f64_ltb_false; done.
Qed.

(** A NaN operand makes the sum a NaN. *)
Lemma f64_add_nan_r x : x + S754_nan = S754_nan.
Proof. by destruct x. Qed.
Lemma f64_add_nan_l x : S754_nan + x = S754_nan.
Proof. done. Qed.

(** A NaN tip passes every cap, and once committed it disables the slot
    cap: the next approval depends on the balance and the per-tx cap only. *)
Lemma SlotBudget_nan_check b bal risk tr :
  SlotBudget_check b S754_nan bal risk tr =
  if bal <? tc_min_balance_sol tr then BelowMinimumBalance else Approved.
Proof.
  unfold SlotBudget_check. rewrite f64_add_nan_r.
  rewrite !(f64_nan_lt _ S754_nan) by auto. done.
Qed.
