(* ===== verification/Tip.v ===== *)
(** * crates/strategy/tip.rs and dynamic_tip.rs: the static tip bid, the
    contention model, and the calibrated tip curve. *)

From Stdlib Require Import ZArith Lia Sorted.
From stdpp Require Import base gmap list.
From S2P Require Import Prelude Lists F64 CoreTypes Config.

(** ** tip.rs *)

Definition STATIC_TIP_FLOOR_USD : f64 := f64_zero.

(** [static_tip_bid]; the final [clamp] panics when its bounds are not
    ordered. *)
Definition static_tip_bid (bonus_usd : f64) (risk : RiskConfig) : panicking f64 :=
  let ceiling := f64_min (rk_max_tip_pct_of_bonus risk * bonus_usd)%f64
                         (rk_max_tip_per_tx_usd risk) in
  let floor := f64_max (rk_min_tip_usd risk) STATIC_TIP_FLOOR_USD in
  let competitive := (rk_max_tip_pct_of_bonus risk * bonus_usd)%f64 in
  f64_clamp (f64_max competitive floor) f64_zero (f64_max ceiling f64_zero).

(** ** dynamic_tip.rs *)

Record ObserveRecord := mkObserveRecord {
  or_reserve : Pubkey;
  or_lock_contested : bool;
  or_would_have_bid_usd : f64;
  or_bonus_usd : f64
}.

Record ContentionModel := mkContentionModel {
  cm_contested : gmap Pubkey Z;
  cm_total : gmap Pubkey Z
}.

Definition ContentionModel_new : ContentionModel := mkContentionModel ∅ ∅.

(** [*map.entry(k).or_insert(0) += 1] on a [u32] counter. *)
Definition bump (k : Pubkey) (m : gmap Pubkey Z) : gmap Pubkey Z :=
  <[k := wadd 32 (default 0 (m !! k)) 1]> m.

(** [ContentionModel::observe]. *)
Definition observe (m : ContentionModel) (reserve : Pubkey) (lock_contested : bool)
    : ContentionModel :=
  mkContentionModel
    (if lock_contested then bump reserve (cm_contested m) else cm_contested m)
    (bump reserve (cm_total m)).

(** [ContentionModel::contention]. *)
Definition contention (m : ContentionModel) (reserve : Pubkey) : f64 :=
  let total := default 0 (cm_total m !! reserve) in
  if total =? 0 then f64_zero
  else
    let contested := default 0 (cm_contested m !! reserve) in
    (f64_of_Z contested / f64_of_Z total)%f64.

Record TipCurve := mkTipCurve { tc_floor_tip_usd : f64; tc_k : f64 }.

Inductive CalibrationError := InsufficientData (observations : Z).

Definition MIN_OBSERVATIONS : nat := 30.

(** One step of the [filter_map] of [calibrate]. *)
Definition implied_k (m : ContentionModel) (floor_tip_usd : f64) (r : ObserveRecord)
    : option f64 :=
  let c := contention m (or_reserve r) in
  let denom := (c * or_bonus_usd r)%f64 in
  if (denom <=? f64_zero)%f64 then None
  else
    let k := ((or_would_have_bid_usd r - floor_tip_usd) / denom)%f64 in
    Some (f64_max k f64_zero).

Definition observe_all (records : list ObserveRecord) : ContentionModel :=
  foldl (fun m r => observe m (or_reserve r) (or_lock_contested r))
        ContentionModel_new records.

(** [TipCurve::calibrate]; the indexing [implied_ks[len / 2]] would panic
    out of range. *)
Definition calibrate (records : list ObserveRecord) (floor_tip_usd : f64)
    : panicking (result TipCurve CalibrationError) :=
  if (length records <? MIN_OBSERVATIONS)%nat then
    Done (Err (InsufficientData (Z.of_nat (length records))))
  else
    let model := observe_all records in
    let implied_ks := omap (implied_k model floor_tip_usd) records in
    if (length implied_ks =? 0)%nat then Done (Err (InsufficientData 0))
    else
      let implied_ks := sort_by f64_cmp_or_eq implied_ks in
      match implied_ks !! (length implied_ks / 2)%nat with
      | None => Panic
      | Some k => Done (Ok (mkTipCurve floor_tip_usd k))
      end.

(** [TipCurve::bid]. *)
Definition bid (curve : TipCurve) (contention bonus_usd : f64) (risk : RiskConfig)
    (min_tip_usd : f64) : panicking f64 :=
  let raw := (tc_floor_tip_usd curve + tc_k curve * contention * bonus_usd)%f64 in
  let ceiling := f64_min (rk_max_tip_pct_of_bonus risk * bonus_usd)%f64
                         (rk_max_tip_per_tx_usd risk) in
  if (ceiling <=? f64_zero)%f64 then Done f64_zero
  else f64_clamp raw (f64_min min_tip_usd ceiling) ceiling.

(* ------------------------------------------------------------------ *)
(** ** Properties of the static bid *)

(** The clamp bounds of the static bid are ordered, so it never panics. *)
Lemma zero_le_max c : (f64_zero <=? f64_max c f64_zero)%f64 = true.
Proof. by apply f64_max_ge_r. Qed.

Lemma clamp_to_cap x c :
  (c <=? x)%f64 = true ->
  exists v, f64_clamp x f64_zero (f64_max c f64_zero) = Done v
    /\ (v =? f64_max c f64_zero)%f64 = true.
Proof.
  intros Hcx. destruct (f64_le_num _ _ Hcx) as [Hc Hx].
  destruct (x <? f64_zero)%f64 eqn:E.
  - rewrite f64_clamp_below by (done || apply zero_le_max). eexists; split; [done|].
    assert (Hc0 : (c <? f64_zero)%f64 = true) by (by apply (f64_le_lt_trans _ x)).
    unfold f64_max. rewrite Hc, Hc0. done.
  - apply f64_ltb_false in E; [|done|done].
    apply f64_clamp_above; [apply zero_le_max|].
    by destruct (f64_max_cases c f64_zero) as [-> | ->].
Qed.

Section static_bid.
Context (bonus_usd : f64) (risk : RiskConfig).
Let share := (rk_max_tip_pct_of_bonus risk * bonus_usd)%f64.
Let ceiling := f64_min share (rk_max_tip_per_tx_usd risk).

Lemma competitive_num : num (f64_max share (f64_max (rk_min_tip_usd risk) STATIC_TIP_FLOOR_USD)).
Proof. apply f64_max_num. right. apply f64_max_num. by right. Qed.

(** For every bonus and every configuration, NaN and infinities
    included, the static bid returns a number between zero and the cap
    [max(min(pct * bonus, max_tip_per_tx), 0)]. *)
Lemma static_tip_bid_total :
  exists t, static_tip_bid bonus_usd risk = Done t /\ num t
    /\ (f64_zero <=? t)%f64 = true /\ (t <=? f64_max ceiling f64_zero)%f64 = true.
Proof.
  unfold static_tip_bid. fold share ceiling.
  destruct (f64_clamp_spec (f64_max share (f64_max (rk_min_tip_usd risk) STATIC_TIP_FLOOR_USD))
              _ _ (zero_le_max ceiling)) as (t & Ht & _ & Hb & _).
  exists t. destruct (Hb competitive_num) as [H1 H2].
  split_and!; try done. exact (proj2 (f64_le_num _ _ H1)).
Qed.

(** Whenever the bonus share is a number the bid is the cap itself: the
    competitive term is never below the ceiling, so neither the static
    floor nor [min_tip_usd] has any effect. *)
Theorem static_tip_bid_is_cap :
  num share ->
  exists t, static_tip_bid bonus_usd risk = Done t
    /\ (t =? f64_max ceiling f64_zero)%f64 = true.
Proof.
  intros Hs. unfold static_tip_bid. fold share ceiling. apply clamp_to_cap.
  apply (f64_le_trans _ share); [by apply f64_min_le_l | by apply f64_max_ge_l].
Qed.
End static_bid.

(* ------------------------------------------------------------------ *)
(** ** Properties of the contention model *)

(** The multiset the counters stand for. *)
Definition seen_total (rs : list ObserveRecord) (k : Pubkey) : Z :=
  Z.of_nat (length (filter (fun r => or_reserve r = k) rs)).
Definition seen_contested (rs : list ObserveRecord) (k : Pubkey) : Z :=
  Z.of_nat (length (filter (fun r => or_reserve r = k /\ or_lock_contested r = true) rs)).

Lemma bump_lookup k k' m :
  default 0 (bump k m !! k') =
  if decide (k = k') then wadd 32 (default 0 (m !! k)) 1 else default 0 (m !! k').
Proof. unfold bump. rewrite lookup_insert. by case_decide; subst. Qed.

Lemma length_filter_snoc (Q : ObserveRecord -> Prop) {HQ : forall x, Decision (Q x)} rs r :
  length (filter Q (rs ++ [r])) = (length (filter Q rs) + if decide (Q r) then 1 else 0)%nat.
Proof. rewrite list.filter_app, length_app, filter_cons. by case_decide. Qed.

Lemma wadd_one_small (n : nat) :
  Z.of_nat (S n) < 2 ^ 32 -> wadd 32 (Z.of_nat n) 1 = Z.of_nat (S n).
Proof. intros H. unfold wadd. rewrite wrap_small; [lia|]. unfold in_u. lia. Qed.

(** Below [2^32] records the two [u32] counters of every reserve are
    exactly the number of observations and of contested observations. *)
Theorem observe_all_counts rs k :
  Z.of_nat (length rs) < 2 ^ 32 ->
  default 0 (cm_total (observe_all rs) !! k) = seen_total rs k
  /\ default 0 (cm_contested (observe_all rs) !! k) = seen_contested rs k.
Proof.
  unfold observe_all, seen_total, seen_contested.
  induction rs as [|r rs IH] using rev_ind; intros Hlen; [done|].
  rewrite length_app in Hlen. cbn [length] in Hlen.
  destruct IH as [IHt IHc]; [lia|].
  rewrite foldl_app. cbn [foldl]. unfold observe at 1 3. cbn [cm_total cm_contested].
  rewrite !length_filter_snoc, bump_lookup.
  pose proof (length_filter (fun r => or_reserve r = k) rs).
  pose proof (length_filter (fun r => or_reserve r = k /\ or_lock_contested r = true) rs).
  assert (Hw : forall n : nat, (n <= length rs)%nat -> Z.of_nat (S n) < 2 ^ 32) by lia.
  split.
  - case_decide as E; [subst k|]; rewrite ?IHt; [|lia].
    rewrite wadd_one_small by auto. lia.
  - destruct (or_lock_contested r) eqn:El.
    + rewrite bump_lookup. case_decide as E; [subst k|]; rewrite ?IHc.
      * rewrite wadd_one_small by auto. case_decide; [lia|tauto].
      * case_decide; [tauto|lia].
    + rewrite IHc. case_decide; [naive_solver|lia].
Qed.

(* ------------------------------------------------------------------ *)
(** ** Properties of the calibration *)

Lemma implied_k_num m floor r k :
  implied_k m floor r = Some k -> num k /\ (f64_zero <=? k)%f64 = true.
Proof.
  unfold implied_k. destruct (_ <=? f64_zero)%f64; [done|]. intros [= <-].
  split; [by apply f64_max_num; right | by apply f64_max_ge_r].
Qed.

Lemma implied_ks_num m floor rs : Forall num (omap (implied_k m floor) rs).
Proof.
  apply list.Forall_forall. intros k (r & _ & Hk)%list_elem_of_omap.
  by eapply implied_k_num.
Qed.

(** Calibration returns on every input, never panics, and refuses with
    [InsufficientData] exactly when there are fewer than 30 records or no
    record bears on [k]; otherwise the curve keeps the floor, and its [k]
    is a nonnegative number that is a median of the implied constants: at
    most half of them lie strictly below it, fewer than half strictly
    above (rounding down and up). *)
Theorem calibrate_spec rs floor :
  let ks := omap (implied_k (observe_all rs) floor) rs in
  match calibrate rs floor with
  | Panic => False
  | Done (Err (InsufficientData n)) =>
      ((length rs < 30)%nat /\ n = Z.of_nat (length rs)) \/
      ((30 <= length rs)%nat /\ ks = [] /\ n = 0)
  | Done (Ok curve) =>
      (30 <= length rs)%nat /\ tc_floor_tip_usd curve = floor /\ tc_k curve ∈ ks
      /\ num (tc_k curve) /\ (f64_zero <=? tc_k curve)%f64 = true
      /\ (length (filter (fun k => (k <? tc_k curve)%f64 = true) ks) <= length ks / 2)%nat
      /\ (length (filter (fun k => (tc_k curve <? k)%f64 = true) ks) < length ks - length ks / 2)%nat
  end.
Proof.
  cbn zeta. unfold calibrate, MIN_OBSERVATIONS. set (ks := omap _ rs).
  destruct (Nat.ltb_spec (length rs) 30); [by left|].
  destruct (Nat.eqb_spec (length ks) 0) as [E|E].
  { right. split_and!; [done| by apply nil_length_inv |done]. }
  rewrite length_sort_by.
  assert (Hi : (length ks / 2 < length ks)%nat) by (apply Nat.div_lt; lia).
  destruct (sort_by f64_cmp_or_eq ks !! (length ks / 2)%nat) as [k|] eqn:Hk.
  2: { apply lookup_ge_None_1 in Hk. rewrite length_sort_by in Hk. lia. }
  cbn [tc_k tc_floor_tip_usd].
  assert (Hnum : Forall num ks) by apply implied_ks_num.
  assert (Hin : k ∈ ks).
  { rewrite <- (sort_by_perm f64_cmp_or_eq ks). by eapply list_elem_of_lookup_2. }
  assert (Hs := sort_by_sorted _ f64_cmp_preorder_asc ks Hnum).
  assert (Hperm := sort_by_perm f64_cmp_or_eq ks).
  assert (Hkn : num k /\ (f64_zero <=? k)%f64 = true).
  { apply list_elem_of_omap in Hin as (r & _ & Hr). by eapply implied_k_num. }
  destruct Hkn as [Hkn Hk0].
  assert (Hns : forall x, x ∈ sort_by f64_cmp_or_eq ks -> num x).
  { intros x Hx. rewrite Hperm in Hx. rewrite list.Forall_forall in Hnum. auto. }
  split_and!; try done.
  - rewrite <- Hperm at 1. eapply sorted_below; [exact Hs|exact Hk| |].
    + rewrite f64_lt_key. unfold key_lt. lia.
    + intros x Hx Hlt. destruct (f64_lt_num _ _ Hlt) as [? _].
      unfold cmp_le in Hx. rewrite f64_cmp_le in Hx by done. f64_order.
  - rewrite <- Hperm at 1. eapply Nat.le_lt_trans; [eapply sorted_above; [exact Hs|exact Hk| |]|].
    + rewrite f64_lt_key. unfold key_lt. lia.
    + intros x Hx Hlt. destruct (f64_lt_num _ _ Hlt) as [_ ?].
      unfold cmp_le in Hx. rewrite f64_cmp_le in Hx by done. f64_order.
    + rewrite length_sort_by. lia.
Qed.

(** If the absolute cap is a number the curve's bid never panics; it is
    zero when the ceiling is not positive, otherwise at most the ceiling
    [min(pct * bonus, max_tip_per_tx)] and at least [min(min_tip, ceiling)]
    unless the raw bid is NaN, which it then passes through. *)
Theorem bid_bounds curve c bonus risk min_tip :
  num (rk_max_tip_per_tx_usd risk) ->
  let ceiling := f64_min (rk_max_tip_pct_of_bonus risk * bonus)%f64 (rk_max_tip_per_tx_usd risk) in
  let raw := (tc_floor_tip_usd curve + tc_k curve * c * bonus)%f64 in
  exists v, bid curve c bonus risk min_tip = Done v
    /\ ((ceiling <=? f64_zero)%f64 = true -> v = f64_zero)
    /\ ((ceiling <=? f64_zero)%f64 = false ->
          (is_nan raw = true -> v = raw) /\
          (num raw -> (f64_min min_tip ceiling <=? v)%f64 = true /\ (v <=? ceiling)%f64 = true)).
Proof.
  intros Hcap ceiling raw. unfold bid. fold ceiling raw.
  destruct (ceiling <=? f64_zero)%f64 eqn:E; [by eexists|].
  assert (Hc : num ceiling) by (by apply f64_min_num; right).
  destruct (f64_clamp_spec raw (f64_min min_tip ceiling) ceiling) as (v & Hv & Hn & Hb & _);
    [by apply f64_min_le_r|].
  exists v. by split_and!.
Qed.

(* ------------------------------------------------------------------ *)
(** ** Concrete inputs *)

Definition sample_tip_risk : RiskConfig :=
  mkRiskConfig (f64_of_Z 5) (f64_of_Z 1) 20 (f64_of_Z 1) (f64_of_Z 40) (f64_of_Z 50)
    (f64_lit 1 2) (f64_of_Z 500) 3.
Definition sample_observations : list ObserveRecord :=
  [mkObserveRecord (mkPubkey [1]) true (f64_of_Z 3) (f64_of_Z 20);
   mkObserveRecord (mkPubkey [2]) false (f64_of_Z 1) (f64_of_Z 10);
   mkObserveRecord (mkPubkey [1]) false (f64_of_Z 2) (f64_of_Z 30)].

Lemma static_tip_bid_is_cap_witness :
  exists t, static_tip_bid (f64_of_Z 100) sample_tip_risk = Done t /\ (t =? f64_of_Z 40)%f64 = true.
Proof.
  exact (static_tip_bid_is_cap (f64_of_Z 100) sample_tip_risk ltac:(vm_compute; reflexivity)).
Defined.

Lemma observe_all_counts_witness :
  default 0 (cm_total (observe_all sample_observations) !! mkPubkey [1]) = 2
  /\ default 0 (cm_contested (observe_all sample_observations) !! mkPubkey [1]) = 1.
Proof.
  exact (observe_all_counts sample_observations (mkPubkey [1]) ltac:(vm_compute; reflexivity)).
Defined.

Lemma bid_bounds_witness :
  exists v, bid (mkTipCurve (f64_of_Z 1) (f64_lit 1 4)) (f64_lit 1 2) (f64_of_Z 100) sample_tip_risk (f64_of_Z 1)
            = Done v /\ (v <=? f64_of_Z 40)%f64 = true.
Proof.
  destruct (bid_bounds (mkTipCurve (f64_of_Z 1) (f64_lit 1 4)) (f64_lit 1 2) (f64_of_Z 100) sample_tip_risk
              (f64_of_Z 1) ltac:(vm_compute; reflexivity)) as (v & Hv & _ & H2).
  exists v. split; [exact Hv|]. apply H2; vm_compute; reflexivity.
Defined.
