(* ===== verification/Breakers.v ===== *)
(** * crates/strategy/breakers.rs: the four circuit breakers.

    The state is the source's record of two flags and three hash maps; the
    operations are total functions on it. The refinement theorem relates
    the route breaker to its history: the streak of reverts of a route
    since its last success or re-arm. *)

From Stdlib Require Import ZArith Lia.
From stdpp Require Import base gmap list.
From S2P Require Import Prelude CoreTypes.

Inductive BreakerReason := ConsecutiveRevert | TreasuryFloor | Drawdown | SyncLag.
#[global] Instance BreakerReason_eq_dec : EqDecision BreakerReason.
Proof. solve_decision. Defined.

Record RouteKey := mkRouteKey {
  rt_protocol : Protocol;
  rt_position_id : Pubkey;
  rt_flash_reserve : Pubkey
}.
#[global] Instance RouteKey_eq_dec : EqDecision RouteKey.
Proof. solve_decision. Defined.
#[global] Program Instance RouteKey_countable : Countable RouteKey :=
  inj_countable' (fun r => (rt_protocol r, rt_position_id r, rt_flash_reserve r))
                 (fun '(p, i, f) => mkRouteKey p i f) _.
Next Obligation. by intros []. Qed.

Record BreakerState := mkBreakerState {
  drawdown_tripped : bool;
  treasury_below_floor : bool;
  protocols_halted_for_sync_lag : gmap Protocol bool;
  consecutive_reverts : gmap RouteKey Z;
  routes_taken_out_of_rotation : gmap RouteKey bool
}.

Inductive BreakerCheck := Allowed | Halted (reason : BreakerReason).
#[global] Instance BreakerCheck_eq_dec : EqDecision BreakerCheck.
Proof. solve_decision. Defined.

Definition BreakerState_new : BreakerState := mkBreakerState false false ∅ ∅ ∅.

(** [record_revert]: the counter is a [u32]. *)
Definition record_revert (route : RouteKey) (consecutive_revert_limit : Z) (s : BreakerState)
    : BreakerState :=
  let count := wadd 32 (default 0 (consecutive_reverts s !! route)) 1 in
  mkBreakerState (drawdown_tripped s) (treasury_below_floor s)
    (protocols_halted_for_sync_lag s)
    (<[route := count]> (consecutive_reverts s))
    (if consecutive_revert_limit <=? count
     then <[route := true]> (routes_taken_out_of_rotation s)
     else routes_taken_out_of_rotation s).

Definition record_success (route : RouteKey) (s : BreakerState) : BreakerState :=
  mkBreakerState (drawdown_tripped s) (treasury_below_floor s)
    (protocols_halted_for_sync_lag s)
    (<[route := 0]> (consecutive_reverts s))
    (delete route (routes_taken_out_of_rotation s)).

Definition rearm_route (route : RouteKey) (s : BreakerState) : BreakerState :=
  mkBreakerState (drawdown_tripped s) (treasury_below_floor s)
    (protocols_halted_for_sync_lag s)
    (<[route := 0]> (consecutive_reverts s))
    (delete route (routes_taken_out_of_rotation s)).

Definition rearm_all_routes (s : BreakerState) : BreakerState :=
  mkBreakerState (drawdown_tripped s) (treasury_below_floor s)
    (protocols_halted_for_sync_lag s) ∅ ∅.

Definition set_treasury_below_floor (below_floor : bool) (s : BreakerState) : BreakerState :=
  mkBreakerState (drawdown_tripped s) below_floor (protocols_halted_for_sync_lag s)
    (consecutive_reverts s) (routes_taken_out_of_rotation s).

Definition set_drawdown_tripped (s : BreakerState) : BreakerState :=
  mkBreakerState true (treasury_below_floor s) (protocols_halted_for_sync_lag s)
    (consecutive_reverts s) (routes_taken_out_of_rotation s).

Definition rearm_drawdown (s : BreakerState) : BreakerState :=
  mkBreakerState false (treasury_below_floor s) (protocols_halted_for_sync_lag s)
    (consecutive_reverts s) (routes_taken_out_of_rotation s).

Definition set_protocol_sync_lag_halted (p : Protocol) (halted : bool) (s : BreakerState)
    : BreakerState :=
  mkBreakerState (drawdown_tripped s) (treasury_below_floor s)
    (<[p := halted]> (protocols_halted_for_sync_lag s))
    (consecutive_reverts s) (routes_taken_out_of_rotation s).

(** [BreakerState::allows]: the breakers are consulted in a fixed order. *)
Definition allows (s : BreakerState) (protocol : Protocol) (route : RouteKey) : BreakerCheck :=
  if drawdown_tripped s then Halted Drawdown
  else if treasury_below_floor s then Halted TreasuryFloor
  else if default false (protocols_halted_for_sync_lag s !! protocol) then Halted SyncLag
  else if default false (routes_taken_out_of_rotation s !! route) then Halted ConsecutiveRevert
  else Allowed.

(* ------------------------------------------------------------------ *)
(** ** Events and the abstract specification *)

Inductive BreakerEvent :=
| EvRevert (route : RouteKey)
| EvSuccess (route : RouteKey)
| EvRearmRoute (route : RouteKey)
| EvRearmAll
| EvTreasury (below_floor : bool)
| EvTripDrawdown
| EvRearmDrawdown
| EvSyncLag (protocol : Protocol) (halted : bool).

Definition breaker_step (limit : Z) (s : BreakerState) (e : BreakerEvent) : BreakerState :=
  match e with
  | EvRevert r => record_revert r limit s
  | EvSuccess r => record_success r s
  | EvRearmRoute r => rearm_route r s
  | EvRearmAll => rearm_all_routes s
  | EvTreasury b => set_treasury_below_floor b s
  | EvTripDrawdown => set_drawdown_tripped s
  | EvRearmDrawdown => rearm_drawdown s
  | EvSyncLag p b => set_protocol_sync_lag_halted p b s
  end.

Definition breaker_run (limit : Z) (h : list BreakerEvent) : BreakerState :=
  foldl (breaker_step limit) BreakerState_new h.

(** The last value an event history assigns to something, newest first. *)
Fixpoint last_set {A} (f : BreakerEvent -> option A) (d : A) (newest_first : list BreakerEvent) : A :=
  match newest_first with
  | [] => d
  | e :: h => match f e with Some v => v | None => last_set f d h end
  end.

(** Reverts of [r] since its last success or re-arm, newest event first. *)
Fixpoint streak (r : RouteKey) (newest_first : list BreakerEvent) : Z :=
  match newest_first with
  | [] => 0
  | EvRevert r' :: h => if decide (r' = r) then streak r h + 1 else streak r h
  | EvSuccess r' :: h | EvRearmRoute r' :: h => if decide (r' = r) then 0 else streak r h
  | EvRearmAll :: _ => 0
  | _ :: h => streak r h
  end.

Definition ev_drawdown (e : BreakerEvent) : option bool :=
  match e with EvTripDrawdown => Some true | EvRearmDrawdown => Some false | _ => None end.
Definition ev_treasury (e : BreakerEvent) : option bool :=
  match e with EvTreasury b => Some b | _ => None end.
Definition ev_sync_lag (p : Protocol) (e : BreakerEvent) : option bool :=
  match e with EvSyncLag p' b => if decide (p' = p) then Some b else None | _ => None end.

(** What the breakers promise, as a function of the event history alone. *)
Definition breaker_spec (limit : Z) (h : list BreakerEvent) (p : Protocol) (r : RouteKey)
    : BreakerCheck :=
  let h := reverse h in
  if last_set ev_drawdown false h then Halted Drawdown
  else if last_set ev_treasury false h then Halted TreasuryFloor
  else if last_set (ev_sync_lag p) false h then Halted SyncLag
  else if Z.max 1 limit <=? streak r h then Halted ConsecutiveRevert
  else Allowed.

Lemma streak_bound r h : 0 <= streak r h <= Z.of_nat (length h).
Proof. induction h as [|[] h IH]; cbn [streak length]; try case_decide; lia. Qed.

(** The representation of the history in the state. *)
Record breaker_rep (limit : Z) (h : list BreakerEvent) (s : BreakerState) : Prop := {
  rep_drawdown : drawdown_tripped s = last_set ev_drawdown false h;
  rep_treasury : treasury_below_floor s = last_set ev_treasury false h;
  rep_sync : forall p, default false (protocols_halted_for_sync_lag s !! p)
                       = last_set (ev_sync_lag p) false h;
  rep_count : forall r, default 0 (consecutive_reverts s !! r) = streak r h;
  rep_out : forall r, default false (routes_taken_out_of_rotation s !! r)
                      = (Z.max 1 limit <=? streak r h)
}.

Lemma default_insert {K A} `{Countable K} (m : gmap K A) k k' v d :
  default d (<[k := v]> m !! k') = if decide (k = k') then v else default d (m !! k').
Proof. rewrite lookup_insert. by case_decide. Qed.

Lemma default_delete {K A} `{Countable K} (m : gmap K A) k k' d :
  default d (delete k m !! k') = if decide (k = k') then d else default d (m !! k').
Proof. rewrite lookup_delete. by case_decide. Qed.

Lemma breaker_rep_step limit h s e :
  Z.of_nat (S (length h)) < 2 ^ 32 ->
  breaker_rep limit h s -> breaker_rep limit (e :: h) (breaker_step limit s e).
Proof.
  intros Hlen [Hd Ht Hs Hc Ho].
  assert (Hw : forall r, wadd 32 (streak r h) 1 = streak r h + 1).
  { intros r. unfold wadd. apply wrap_small. pose proof (streak_bound r h). u_lia. }
  destruct e as [r|r|r| |b| | |p b];
    split; cbn -[Z.max]; try done; try (intros p'; specialize (Hs p'));
    try (intros r'; specialize (Hc r'); specialize (Ho r')).
  all: try done.
  all: rewrite ?Hc, ?default_insert, ?default_delete, ?lookup_empty; cbn -[Z.max].
  all: rewrite ?Hc.
  all: repeat case_decide; subst; rewrite ?Hc, ?Hw; try done; try lia.
  - destruct (Z.leb_spec limit (streak r' h + 1)).
    + rewrite default_insert, decide_True by done.
      symmetry. apply Z.leb_le. pose proof (streak_bound r' h). lia.
    + rewrite Ho. destruct (Z.leb_spec (Z.max 1 limit) (streak r' h)),
        (Z.leb_spec (Z.max 1 limit) (streak r' h + 1)); try done; lia.
  - destruct (limit <=? _); [rewrite default_insert, decide_False by done|]; done.
Qed.

Lemma breaker_run_rep limit h :
  Z.of_nat (length h) < 2 ^ 32 -> breaker_rep limit (reverse h) (breaker_run limit h).
Proof.
  unfold breaker_run. induction h as [|e h IH] using rev_ind; intros Hlen.
  - split; cbn -[Z.max]; intros; rewrite ?lookup_empty; try done.
    symmetry. apply Z.leb_gt. lia.
  - rewrite length_app in Hlen. cbn in Hlen.
    rewrite reverse_snoc, foldl_app. cbn [foldl].
    apply breaker_rep_step; [rewrite length_reverse; lia|]. apply IH. lia.
Qed.

(** C4: along every history of fewer than [2^32] events the breakers answer
    exactly what the abstract specification says of the history: whole
    engine halts first, then the protocol's sync lag, then the route once
    its current streak of reverts reaches the limit (a limit of 0 acting
    as 1). *)
Theorem breakers_refine_spec limit h p r :
  Z.of_nat (length h) < 2 ^ 32 ->
  allows (breaker_run limit h) p r = breaker_spec limit h p r.
Proof.
  intros Hlen. destruct (breaker_run_rep limit h Hlen) as [Hd Ht Hs Hc Ho].
  unfold allows, breaker_spec. by rewrite Hd, Ht, Hs, Ho.
Qed.

(** The route an event concerns. *)
Definition event_route (e : BreakerEvent) : option RouteKey :=
  match e with EvRevert r | EvSuccess r | EvRearmRoute r => Some r | _ => None end.

Lemma route_event_other limit s p r r' e :
  event_route e = Some r -> r <> r' ->
  allows (breaker_step limit s e) p r' = allows s p r'.
Proof.
  intros He Hne. unfold allows. destruct e; try discriminate He; injection He as <-; cbn.
  - destruct (limit <=? _); [rewrite default_insert, decide_False by done|]; done.
  - by rewrite default_delete, decide_False.
  - by rewrite default_delete, decide_False.
Qed.

Lemma foreign_events_allow limit p r' h s :
  Forall (fun e => exists r, event_route e = Some r /\ r <> r') h ->
  allows s p r' = Allowed -> allows (foldl (breaker_step limit) s h) p r' = Allowed.
Proof.
  intros Hh. revert s. induction Hh as [|e h (r & He & Hne) _ IH]; intros s Hs; cbn [foldl]; [done|].
  apply IH. by rewrite (route_event_other limit s p r r' e).
Qed.

(** An event that concerns one route leaves the answer for every other
    route unchanged, in every state (Invariant I4). *)
Theorem route_events_isolated limit s p r r' e :
  r <> r' -> e ∈ [EvRevert r; EvSuccess r; EvRearmRoute r] ->
  allows (breaker_step limit s e) p r' = allows s p r'.
Proof.
  intros Hne He. apply (route_event_other limit s p r r' e); [|done].
  repeat (apply elem_of_cons in He as [->|He]; [done|]). by apply not_elem_of_nil in He.
Qed.

(* ------------------------------------------------------------------ *)
(** ** Concrete histories *)

Definition sample_route_key (n : Z) : RouteKey := mkRouteKey Kamino (mkPubkey [n]) (mkPubkey [n + 100]).
Definition sample_history : list BreakerEvent :=
  [EvRevert (sample_route_key 1); EvRevert (sample_route_key 2); EvRevert (sample_route_key 1);
   EvSuccess (sample_route_key 2); EvRevert (sample_route_key 1)].

Lemma breakers_refine_spec_witness :
  allows (breaker_run 3 sample_history) Kamino (sample_route_key 1)
  = breaker_spec 3 sample_history Kamino (sample_route_key 1)
  /\ breaker_spec 3 sample_history Kamino (sample_route_key 1) = Halted ConsecutiveRevert.
Proof.
  split; [exact (breakers_refine_spec 3 sample_history Kamino (sample_route_key 1) ltac:(vm_compute; reflexivity))|].
  vm_compute. reflexivity.
Defined.

Lemma route_events_isolated_witness :
  allows (breaker_step 1 (breaker_run 1 sample_history) (EvSuccess (sample_route_key 1))) Kamino (sample_route_key 2)
  = allows (breaker_run 1 sample_history) Kamino (sample_route_key 2).
Proof.
  apply (route_events_isolated 1 (breaker_run 1 sample_history) Kamino
           (sample_route_key 1) (sample_route_key 2) (EvSuccess (sample_route_key 1))).
  - by vm_compute.
  - apply list_elem_of_further, list_elem_of_here.
Defined.
