(* ===== verification/Arbitration.v ===== *)
(** * crates/strategy/arbitration.rs: which candidates of one evaluation
    window fire.

    [arbitrate] is the source's loop. [outcome_spec] states the decision
    for one candidate from the decisions before it in the output, without
    the loop's locked-reserve list and running budget; the refinement
    theorem is that the loop decides exactly that, and the safety
    properties follow from the specification. *)

From Stdlib Require Import ZArith Lia Sorted.
From stdpp Require Import base gmap list.
From S2P Require Import Prelude Lists F64 CoreTypes Config TreasuryCheck.

Inductive ArbitrationOutcome :=
| Fire (tip_usd : f64)
| DeferredReserveConflict
| DeferredBudget (decision : TreasuryDecision)
| Discarded.

Record ArbitratedCandidate := mkArbitratedCandidate {
  ac_routed : RoutedCandidate;
  ac_outcome : ArbitrationOutcome
}.

Definition net_of (c : RoutedCandidate) : f64 := pe_net_usd (rc_expected c).
Definition reserve_of (c : RoutedCandidate) : Pubkey := fs_reserve (rc_flash_source c).

Section arbitration.
Context (risk : RiskConfig) (treasury_config : TreasuryConfig).
Context (treasury_balance_sol : f64) (tip_for : RoutedCandidate -> f64).

(** The [for routed in candidates] loop, with its two accumulators. *)
Fixpoint arbitrate_loop (locked_reserves : list Pubkey) (budget : SlotBudget)
    (candidates : list RoutedCandidate) : list ArbitratedCandidate :=
  match candidates with
  | [] => []
  | routed :: rest =>
      if (net_of routed <=? rk_min_profit_usd risk)%f64 then
        mkArbitratedCandidate routed Discarded :: arbitrate_loop locked_reserves budget rest
      else if decide (reserve_of routed ∈ locked_reserves) then
        mkArbitratedCandidate routed DeferredReserveConflict
          :: arbitrate_loop locked_reserves budget rest
      else
        let tip_usd := tip_for routed in
        let decision :=
          SlotBudget_check budget tip_usd treasury_balance_sol risk treasury_config in
        if decide (decision <> Approved) then
          mkArbitratedCandidate routed (DeferredBudget decision)
            :: arbitrate_loop locked_reserves budget rest
        else
          mkArbitratedCandidate routed (Fire tip_usd)
            :: arbitrate_loop (locked_reserves ++ [reserve_of routed])
                 (SlotBudget_commit budget tip_usd) rest
  end.

(** [arbitrate]: rank by net EV descending, then the loop. *)
Definition arbitrate (candidates : list RoutedCandidate) : list ArbitratedCandidate :=
  let candidates := sort_by (fun a b => f64_cmp_or_eq (net_of b) (net_of a)) candidates in
  arbitrate_loop [] SlotBudget_new candidates.

(* ---------------------------------------------------------------- *)
(** ** Specification *)

Definition fired_tip (r : ArbitratedCandidate) : option f64 :=
  match ac_outcome r with Fire t => Some t | _ => None end.
Definition fired_reserve (r : ArbitratedCandidate) : option Pubkey :=
  match ac_outcome r with Fire _ => Some (reserve_of (ac_routed r)) | _ => None end.

Definition fired_reserves (rs : list ArbitratedCandidate) : list Pubkey := omap fired_reserve rs.
Definition fired_tips (rs : list ArbitratedCandidate) : list f64 := omap fired_tip rs.

(** The decision for [c] after the decisions [before]. *)
Definition outcome_spec (before : list ArbitratedCandidate) (c : RoutedCandidate)
    : ArbitrationOutcome :=
  if (net_of c <=? rk_min_profit_usd risk)%f64 then Discarded
  else if decide (reserve_of c ∈ fired_reserves before) then DeferredReserveConflict
  else match SlotBudget_check (mkSlotBudget (f64_sum (fired_tips before))) (tip_for c)
               treasury_balance_sol risk treasury_config with
       | Approved => Fire (tip_for c)
       | d => DeferredBudget d
       end.

Definition budget_of (before : list ArbitratedCandidate) : SlotBudget :=
  mkSlotBudget (f64_sum (fired_tips before)).

Lemma arbitrate_loop_routed locked budget cs :
  ac_routed <$> arbitrate_loop locked budget cs = cs.
Proof.
  revert locked budget. induction cs as [|c cs IH]; intros locked budget; [done|].
  cbn [arbitrate_loop]. destruct (_ <=? _)%f64; cbn; [by rewrite IH|].
  case_decide; cbn; [by rewrite IH|]. case_decide; cbn; by rewrite IH.
Qed.

Lemma arbitrate_loop_spec before cs i r :
  arbitrate_loop (fired_reserves before) (budget_of before) cs !! i = Some r ->
  ac_outcome r
  = outcome_spec (before ++ take i (arbitrate_loop (fired_reserves before) (budget_of before) cs))
                 (ac_routed r).
Proof.
  revert before i. induction cs as [|c cs IH]; intros before i Hi; [done|].
  assert (Hrun : exists o, o = outcome_spec before c /\
    arbitrate_loop (fired_reserves before) (budget_of before) (c :: cs)
    = mkArbitratedCandidate c o
      :: arbitrate_loop (fired_reserves (before ++ [mkArbitratedCandidate c o]))
           (budget_of (before ++ [mkArbitratedCandidate c o])) cs).
  { eexists; split; [done|]. unfold outcome_spec, budget_of, fired_tips, fired_reserves.
    rewrite !omap_app. unfold f64_sum. cbn [arbitrate_loop omap].
    destruct (_ <=? _)%f64; cbn; [by rewrite !app_nil_r|].
    case_decide; cbn; [by rewrite !app_nil_r|].
    destruct (SlotBudget_check _ _ _ _ _); cbn; try by rewrite !app_nil_r.
    rewrite foldl_app. done. }
  destruct Hrun as (o & Ho & Hrun). rewrite Hrun in Hi |- *.
  destruct i as [|i]; cbn in Hi |- *.
  - injection Hi as <-. by rewrite app_nil_r.
  - apply IH in Hi. rewrite <- app_assoc in Hi. exact Hi.
Qed.

Section window.
Context (candidates : list RoutedCandidate).
Let results := arbitrate candidates.

Lemma outcome_at i r :
  results !! i = Some r -> ac_outcome r = outcome_spec (take i results) (ac_routed r).
Proof. apply (arbitrate_loop_spec []). Qed.

Lemma results_sorted :
  Forall (fun c => num (net_of c)) candidates ->
  StronglySorted (fun a b => (net_of b <=? net_of a)%f64 = true) (ac_routed <$> results).
Proof.
  unfold results, arbitrate. rewrite arbitrate_loop_routed. intros Hnum.
  set (cmp := fun a b => f64_cmp_or_eq (net_of b) (net_of a)).
  pose proof (sort_by_sorted cmp (f64_cmp_preorder net_of) candidates Hnum) as Hs.
  assert (Hns : Forall (fun c => num (net_of c)) (sort_by cmp candidates))
    by (by rewrite sort_by_perm).
  induction Hs as [|x l Hs IH Hx]; [constructor|].
  inversion_clear Hns. constructor; [by apply IH|].
  rewrite list.Forall_forall in Hx, H0. apply list.Forall_forall. intros y Hy.
  apply f64_cmp_le; [by apply H0 | done | by apply Hx].
Qed.

(** C2: the loop decides every candidate exactly as the specification does
    from the decisions that precede it. *)
Theorem arbitrate_refines_spec i r :
  results !! i = Some r -> ac_outcome r = outcome_spec (take i results) (ac_routed r).
Proof. apply outcome_at. Qed.

(** Every candidate is decided once; when the net EVs are numbers the
    results are in descending EV order and candidates of equal EV keep
    their input order. *)
Theorem arbitrate_order :
  (ac_routed <$> results) ≡ₚ candidates
  /\ (Forall (fun c => num (net_of c)) candidates ->
      StronglySorted (fun a b => (net_of b <=? net_of a)%f64 = true) (ac_routed <$> results)
      /\ forall c, c ∈ candidates ->
         (filter (fun d => f64_cmp_or_eq (net_of d) (net_of c) = Eq) (ac_routed <$> results))
         = (filter (fun d => f64_cmp_or_eq (net_of d) (net_of c) = Eq) candidates)).
Proof.
  split; [unfold results, arbitrate; rewrite arbitrate_loop_routed; apply sort_by_perm|].
  intros Hnum. split; [by apply results_sorted|]. intros c Hc.
  unfold results, arbitrate. rewrite arbitrate_loop_routed.
  apply (sort_by_stable _ (f64_cmp_preorder net_of)); [|done].
  by rewrite list.Forall_forall in Hnum; apply Hnum.
Qed.

Lemma fired_decision i r t :
  results !! i = Some r -> ac_outcome r = Fire t ->
  (net_of (ac_routed r) <=? rk_min_profit_usd risk)%f64 = false
  /\ reserve_of (ac_routed r) ∉ fired_reserves (take i results)
  /\ t = tip_for (ac_routed r)
  /\ SlotBudget_check (budget_of (take i results)) t treasury_balance_sol risk treasury_config
     = Approved.
Proof.
  intros Hi Ht. pose proof (outcome_at i r Hi) as Hs. rewrite Ht in Hs.
  unfold outcome_spec in Hs. destruct (_ <=? _)%f64; [done|]. case_decide; [done|].
  destruct (SlotBudget_check _ _ _ _ _) eqn:E; try done.
  injection Hs as ->. done.
Qed.

(** No two candidates that fire in one window share a flash reserve. *)
Theorem fired_distinct_reserves i j ri rj ti tj :
  results !! i = Some ri -> results !! j = Some rj -> i <> j ->
  ac_outcome ri = Fire ti -> ac_outcome rj = Fire tj ->
  reserve_of (ac_routed ri) <> reserve_of (ac_routed rj).
Proof.
  assert (Hlt : forall i j ri rj ti tj, (i < j)%nat ->
    results !! i = Some ri -> results !! j = Some rj ->
    ac_outcome ri = Fire ti -> ac_outcome rj = Fire tj ->
    reserve_of (ac_routed ri) <> reserve_of (ac_routed rj)).
  { intros i' j' ri' rj' ti' tj' Hij Hi Hj Hti Htj Heq.
    destruct (fired_decision j' rj' tj' Hj Htj) as (_ & Hnin & _). apply Hnin.
    apply list_elem_of_omap. exists ri'. split.
    - apply list_elem_of_lookup. exists i'. by rewrite lookup_take_lt.
    - unfold fired_reserve. by rewrite Hti, Heq. }
  intros Hi Hj Hne Hti Htj.
  destruct (Nat.lt_total i j) as [?|[?|?]]; [by eapply Hlt|done|].
  intros Heq. symmetry in Heq. by eapply Hlt in Heq.
Qed.

Lemma fired_slot_cap i r t :
  results !! i = Some r -> ac_outcome r = Fire t ->
  (f64_sum (fired_tips (take (S i) results)) >? rk_max_tip_per_slot_usd risk)%f64 = false.
Proof.
  intros Hi Ht. destruct (fired_decision i r t Hi Ht) as (_ & _ & _ & Hc).
  apply SlotBudget_check_Approved in Hc as (_ & _ & Hslot).
  rewrite (take_S_r results i r Hi). unfold fired_tips. rewrite omap_app.
  unfold f64_sum. rewrite foldl_app. cbn. unfold fired_tip. rewrite Ht. exact Hslot.
Qed.

(** C22: a firing candidate is strictly above the profit floor, the treasury
    is not below its minimum, its tip is not above the per-transaction
    cap, and the tips fired so far in the window, added in firing order,
    are not above the slot cap (float comparisons). *)
Theorem fired_within_budget i r t :
  results !! i = Some r -> ac_outcome r = Fire t ->
  (net_of (ac_routed r) <=? rk_min_profit_usd risk)%f64 = false
  /\ (treasury_balance_sol <? tc_min_balance_sol treasury_config)%f64 = false
  /\ (t >? rk_max_tip_per_tx_usd risk)%f64 = false
  /\ (f64_sum (fired_tips (take (S i) results)) >? rk_max_tip_per_slot_usd risk)%f64 = false.
Proof.
  intros Hi Ht. destruct (fired_decision i r t Hi Ht) as (Hp & _ & _ & Hc).
  apply SlotBudget_check_Approved in Hc as (Hb & Htx & _).
  split_and!; try done. by eapply fired_slot_cap.
Qed.

Lemma fired_tips_nonneg k :
  (forall c, nonneg (tip_for c)) -> nonneg (f64_sum (fired_tips (take k results))).
Proof.
  intros Hn. induction k as [|k IH]; [done|].
  destruct (results !! k) as [r|] eqn:E.
  2: { apply lookup_ge_None_1 in E. rewrite take_ge in * by lia. done. }
  rewrite (take_S_r results k r E). unfold fired_tips, f64_sum in *.
  rewrite omap_app, foldl_app. cbn. unfold fired_tip.
  destruct (ac_outcome r) as [t| | |] eqn:Ho; try done.
  apply f64_add_nonneg; [done|]. destruct (fired_decision k r t E Ho) as (_ & _ & -> & _).
  apply Hn.
Qed.

(** With nonnegative tips and numeric caps the running total of fired
    tips never exceeds the slot cap, at any point of the window. *)
Theorem window_spend_bounded k :
  (forall c, nonneg (tip_for c)) -> nonneg (rk_max_tip_per_slot_usd risk) ->
  (f64_sum (fired_tips (take k results)) <=? rk_max_tip_per_slot_usd risk)%f64 = true.
Proof.
  intros Hn Hcap. induction k as [|k IH]; [done|].
  destruct (results !! k) as [r|] eqn:E.
  2: { apply lookup_ge_None_1 in E. rewrite take_ge in * by lia. done. }
  destruct (ac_outcome r) as [t| | |] eqn:Ho.
  - apply f64_ltb_false; [by apply nonneg_num|by apply nonneg_num, fired_tips_nonneg|].
    by eapply fired_slot_cap.
  - rewrite (take_S_r results k r E). unfold fired_tips in *.
    rewrite omap_app. cbn. unfold fired_tip. by rewrite Ho, app_nil_r.
  - rewrite (take_S_r results k r E). unfold fired_tips in *.
    rewrite omap_app. cbn. unfold fired_tip. by rewrite Ho, app_nil_r.
  - rewrite (take_S_r results k r E). unfold fired_tips in *.
    rewrite omap_app. cbn. unfold fired_tip. by rewrite Ho, app_nil_r.
Qed.

(** A candidate deferred for a reserve conflict lost to a candidate
    that fires on the same reserve in the same window, earlier in the
    ranking. *)
Theorem conflict_loses_to_fired i r :
  results !! i = Some r -> ac_outcome r = DeferredReserveConflict ->
  exists j w t, (j < i)%nat /\ results !! j = Some w /\ ac_outcome w = Fire t
    /\ reserve_of (ac_routed w) = reserve_of (ac_routed r)
    /\ (Forall (fun c => num (net_of c)) candidates ->
        (net_of (ac_routed r) <=? net_of (ac_routed w))%f64 = true).
Proof.
  intros Hi Ho. pose proof (outcome_at i r Hi) as Hs. rewrite Ho in Hs.
  unfold outcome_spec in Hs. destruct (_ <=? _)%f64; [done|].
  case_decide as Hin; [|by destruct (SlotBudget_check _ _ _ _ _)].
  apply list_elem_of_omap in Hin as (w & Hw & Hfr).
  apply list_elem_of_lookup in Hw as (j & Hj).
  apply lookup_take_Some in Hj as [Hj Hlt].
  unfold fired_reserve in Hfr. destruct (ac_outcome w) as [t| | |] eqn:Hw'; try done.
  injection Hfr as Hfr. exists j, w, t. split_and!; try done.
  intros Hnum. pose proof (results_sorted Hnum) as Hs'.
  destruct (sorted_split (fun a b => (net_of b <=? net_of a)%f64 = true)
    (ac_routed <$> results) j (ac_routed w)) as [_ Hd];
    [exact Hs'|by rewrite list_lookup_fmap, Hj|].
  apply Hd. apply list_elem_of_lookup. exists (i - S j)%nat.
  rewrite lookup_drop, list_lookup_fmap.
  replace (S j + (i - S j))%nat with i by lia. by rewrite Hi.
Qed.
End window.
End arbitration.

(* ------------------------------------------------------------------ *)
(** ** Concrete windows *)

Definition dollars (n : Z) : f64 := f64_of_Z n.
Definition sample_window_risk : RiskConfig :=
  mkRiskConfig (dollars 5) (dollars 1) 20 (dollars 1) (dollars 40) (dollars 50)
    (f64_lit 1 2) (dollars 500) 3.
Definition sample_treasury : TreasuryConfig := mkTreasuryConfig "wallet.json" (dollars 2) "1d".
Definition sample_routed_at (reserve net : Z) : RoutedCandidate :=
  mkRoutedCandidate
    (mkBreachCandidate Kamino (mkPubkey [reserve; net]) (mkPubkey [1]) (mkPubkey [2]) (f64_lit 9 10) 100 7)
    50 (mkFlashSource Kamino (mkPubkey [reserve]) 5)
    (mkProfitEstimate (dollars net) f64_zero f64_zero f64_zero f64_zero (dollars net)).
Definition sample_tip_for (c : RoutedCandidate) : f64 :=
  f64_max (net_of c * f64_lit 1 2)%f64 f64_zero.
(** Arrival order: an unprofitable one, the loser of a reserve conflict, its
    winner, one over the slot cap and one over the per-transaction cap. *)
Definition sample_window : list RoutedCandidate :=
  [sample_routed_at 3 4; sample_routed_at 1 50; sample_routed_at 1 60; sample_routed_at 2 44;
   sample_routed_at 4 90; sample_routed_at 5 20].
Definition sample_results : list ArbitratedCandidate :=
  arbitrate sample_window_risk sample_treasury (dollars 3) sample_tip_for sample_window.

Example sample_outcomes :
  ac_outcome <$> sample_results
  = [DeferredBudget ExceedsPerTxCap; Fire (dollars 30); DeferredReserveConflict;
     DeferredBudget ExceedsPerSlotBudget; Fire (dollars 10); Discarded].
Proof. vm_compute. reflexivity. Qed.

Definition sample_at (i : nat) : ArbitratedCandidate :=
  default (mkArbitratedCandidate (sample_routed_at 0 0) Discarded) (sample_results !! i).

Lemma arbitrate_refines_spec_witness :
  ac_outcome (sample_at 3)
  = outcome_spec sample_window_risk sample_treasury (dollars 3) sample_tip_for
      (take 3 sample_results) (ac_routed (sample_at 3)).
Proof.
  exact (arbitrate_refines_spec sample_window_risk sample_treasury (dollars 3) sample_tip_for
           sample_window 3 (sample_at 3) ltac:(vm_compute; reflexivity)).
Defined.

Lemma fired_distinct_reserves_witness :
  reserve_of (ac_routed (sample_at 1)) <> reserve_of (ac_routed (sample_at 4)).
Proof.
  exact (fired_distinct_reserves sample_window_risk sample_treasury (dollars 3) sample_tip_for
           sample_window 1 4 (sample_at 1) (sample_at 4) (dollars 30) (dollars 10)
           ltac:(vm_compute; reflexivity) ltac:(vm_compute; reflexivity) ltac:(lia)
           ltac:(vm_compute; reflexivity) ltac:(vm_compute; reflexivity)).
Defined.

Lemma fired_within_budget_witness :
  (f64_sum (fired_tips (take 5 sample_results)) >? rk_max_tip_per_slot_usd sample_window_risk)%f64 = false.
Proof.
  exact (proj2 (proj2 (proj2
    (fired_within_budget sample_window_risk sample_treasury (dollars 3) sample_tip_for
       sample_window 4 (sample_at 4) (dollars 10)
       ltac:(vm_compute; reflexivity) ltac:(vm_compute; reflexivity))))).
Defined.

Lemma window_spend_bounded_witness :
  (f64_sum (fired_tips (take 6 sample_results)) <=? dollars 50)%f64 = true.
Proof.
  exact (window_spend_bounded sample_window_risk sample_treasury (dollars 3) sample_tip_for
           sample_window 6 (fun c => f64_max_ge_r (net_of c * f64_lit 1 2)%f64 f64_zero eq_refl) ltac:(vm_compute; reflexivity)).
Defined.

Lemma conflict_loses_to_fired_witness :
  exists j w t, (j < 2)%nat /\ sample_results !! j = Some w /\ ac_outcome w = Fire t
    /\ reserve_of (ac_routed w) = reserve_of (ac_routed (sample_at 2)).
Proof.
  destruct (conflict_loses_to_fired sample_window_risk sample_treasury (dollars 3) sample_tip_for
              sample_window 2 (sample_at 2) ltac:(vm_compute; reflexivity) ltac:(vm_compute; reflexivity))
    as (j & w & t & ? & ? & ? & ? & _).
  by exists j, w, t.
Defined.
