(* ===== verification/SolendMath.v ===== *)
(** * patches/solend-sdk/src/math: the fixed-point numbers of the Save SDK.

    [Decimal] wraps a 192-bit integer and [Rate] a 128-bit one, both counting
    units of 10^-18 ([WAD]). A value is a [Z]; the overflow bound of each
    operation is the width of the type it belongs to ([dec_*], [rate_*]).
    The big-integer crate's [checked_*] operations are the ones of
    [Prelude] at widths 192 and 128. *)

From Stdlib Require Import ZArith Lia.
From stdpp Require Import base option.
From S2P Require Import Prelude.

Open Scope rust_scope.

(** ** error.rs, and the runtime's [ProgramError] *)

Inductive LendingError :=
| InstructionUnpackError | AlreadyInitialized | NotRentExempt | InvalidMarketAuthority
| InvalidMarketOwner | InvalidAccountOwner | InvalidTokenOwner | InvalidTokenAccount
| InvalidTokenMint | InvalidTokenProgram | InvalidAmount | InvalidConfig | InvalidSigner
| InvalidAccountInput | MathOverflow | TokenInitializeMintFailed | TokenInitializeAccountFailed
| TokenTransferFailed | TokenMintToFailed | TokenBurnFailed | InsufficientLiquidity
| ReserveCollateralDisabled | ReserveStale | WithdrawTooSmall | WithdrawTooLarge
| BorrowTooSmall | BorrowTooLarge | RepayTooSmall | LiquidationTooSmall | ObligationHealthy
| ObligationStale | ObligationReserveLimit | InvalidObligationOwner | ObligationDepositsEmpty
| ObligationBorrowsEmpty | ObligationDepositsZero | ObligationBorrowsZero
| InvalidObligationCollateral | InvalidObligationLiquidity | ObligationCollateralEmpty
| ObligationLiquidityEmpty | NegativeInterestRate | InvalidOracleConfig
| InvalidFlashLoanReceiverProgram | NotEnoughLiquidityAfterFlashLoan | NullOracleConfig
| InsufficientProtocolFeesToRedeem | FlashBorrowCpi | NoFlashRepayFound | InvalidFlashRepay
| FlashRepayCpi | MultipleFlashBorrows | FlashLoansDisabled | DeprecatedInstruction
| OutflowRateLimitExceeded | NotWhitelistedLiquidator | IsolatedTierAssetViolation
| BorrowAttributionLimitExceeded | BorrowAttributionLimitNotExceeded.

(** The discriminants: [e as u32], and [FromPrimitive]. *)
Definition lending_error_code (e : LendingError) : Z :=
  match e with
  | InstructionUnpackError => 0 | AlreadyInitialized => 1 | NotRentExempt => 2
  | InvalidMarketAuthority => 3 | InvalidMarketOwner => 4 | InvalidAccountOwner => 5
  | InvalidTokenOwner => 6 | InvalidTokenAccount => 7 | InvalidTokenMint => 8
  | InvalidTokenProgram => 9 | InvalidAmount => 10 | InvalidConfig => 11 | InvalidSigner => 12
  | InvalidAccountInput => 13 | MathOverflow => 14 | TokenInitializeMintFailed => 15
  | TokenInitializeAccountFailed => 16 | TokenTransferFailed => 17 | TokenMintToFailed => 18
  | TokenBurnFailed => 19 | InsufficientLiquidity => 20 | ReserveCollateralDisabled => 21
  | ReserveStale => 22 | WithdrawTooSmall => 23 | WithdrawTooLarge => 24 | BorrowTooSmall => 25
  | BorrowTooLarge => 26 | RepayTooSmall => 27 | LiquidationTooSmall => 28
  | ObligationHealthy => 29 | ObligationStale => 30 | ObligationReserveLimit => 31
  | InvalidObligationOwner => 32 | ObligationDepositsEmpty => 33 | ObligationBorrowsEmpty => 34
  | ObligationDepositsZero => 35 | ObligationBorrowsZero => 36
  | InvalidObligationCollateral => 37 | InvalidObligationLiquidity => 38
  | ObligationCollateralEmpty => 39 | ObligationLiquidityEmpty => 40 | NegativeInterestRate => 41
  | InvalidOracleConfig => 42 | InvalidFlashLoanReceiverProgram => 43
  | NotEnoughLiquidityAfterFlashLoan => 44 | NullOracleConfig => 45
  | InsufficientProtocolFeesToRedeem => 46 | FlashBorrowCpi => 47 | NoFlashRepayFound => 48
  | InvalidFlashRepay => 49 | FlashRepayCpi => 50 | MultipleFlashBorrows => 51
  | FlashLoansDisabled => 52 | DeprecatedInstruction => 53 | OutflowRateLimitExceeded => 54
  | NotWhitelistedLiquidator => 55 | IsolatedTierAssetViolation => 56
  | BorrowAttributionLimitExceeded => 57 | BorrowAttributionLimitNotExceeded => 58
  end.
Definition lending_errors : list LendingError :=
  [InstructionUnpackError; AlreadyInitialized; NotRentExempt; InvalidMarketAuthority;
   InvalidMarketOwner; InvalidAccountOwner; InvalidTokenOwner; InvalidTokenAccount;
   InvalidTokenMint; InvalidTokenProgram; InvalidAmount; InvalidConfig; InvalidSigner;
   InvalidAccountInput; MathOverflow; TokenInitializeMintFailed; TokenInitializeAccountFailed;
   TokenTransferFailed; TokenMintToFailed; TokenBurnFailed; InsufficientLiquidity;
   ReserveCollateralDisabled; ReserveStale; WithdrawTooSmall; WithdrawTooLarge; BorrowTooSmall;
   BorrowTooLarge; RepayTooSmall; LiquidationTooSmall; ObligationHealthy; ObligationStale;
   ObligationReserveLimit; InvalidObligationOwner; ObligationDepositsEmpty;
   ObligationBorrowsEmpty; ObligationDepositsZero; ObligationBorrowsZero;
   InvalidObligationCollateral; InvalidObligationLiquidity; ObligationCollateralEmpty;
   ObligationLiquidityEmpty; NegativeInterestRate; InvalidOracleConfig;
   InvalidFlashLoanReceiverProgram; NotEnoughLiquidityAfterFlashLoan; NullOracleConfig;
   InsufficientProtocolFeesToRedeem; FlashBorrowCpi; NoFlashRepayFound; InvalidFlashRepay;
   FlashRepayCpi; MultipleFlashBorrows; FlashLoansDisabled; DeprecatedInstruction;
   OutflowRateLimitExceeded; NotWhitelistedLiquidator; IsolatedTierAssetViolation;
   BorrowAttributionLimitExceeded; BorrowAttributionLimitNotExceeded].
Definition lending_error_from_u32 (n : Z) : option LendingError :=
  if n <? 0 then None else lending_errors !! Z.to_nat n.

Inductive ProgramError :=
| Custom (e : LendingError)
| InvalidAccountData.

Definition overflow : ProgramError := Custom MathOverflow.

(** [From<LendingError>]: the program reports the discriminant. *)
Definition program_error_code (e : ProgramError) : option Z :=
  match e with Custom e => Some (lending_error_code e) | InvalidAccountData => None end.

Lemma lending_error_roundtrip e : lending_error_from_u32 (lending_error_code e) = Some e.
Proof. by destruct e. Qed.

#[global] Instance lending_error_code_inj : Inj (=) (=) lending_error_code.
Proof.
  intros e e' H. apply (f_equal lending_error_from_u32) in H.
  rewrite !lending_error_roundtrip in H. by injection H.
Qed.
#[global] Instance LendingError_eq_dec : EqDecision LendingError := inj_eq_dec lending_error_code.
#[global] Instance ProgramError_eq_dec : EqDecision ProgramError.
Proof. solve_decision. Defined.

(** ** math/common.rs *)

Definition SCALE : nat := 18.
Definition WAD : Z := 1000000000000000000.
Definition HALF_WAD : Z := 500000000000000000.
Definition PERCENT_SCALER : Z := 10000000000000000.

(** ** math/decimal.rs *)

Definition Decimal : Type := Z.
Definition Decimal_wf (d : Decimal) : Prop := in_u 192 d.

Definition dec_one : Decimal := WAD.
Definition dec_zero : Decimal := 0.
Definition dec_from_u64 (val : Z) : Decimal := WAD * val.
Definition dec_from_u128 (val : Z) : Decimal := WAD * val.
Definition dec_from_percent (percent : Z) : Decimal := percent * PERCENT_SCALER.

Definition dec_try_add (x y : Decimal) : result Decimal ProgramError :=
  ok_or (checked_add 192 x y) overflow.
Definition dec_try_sub (x y : Decimal) : result Decimal ProgramError :=
  ok_or (checked_sub 192 x y) overflow.
Definition dec_saturating_sub (x y : Decimal) : Decimal := sat_sub x y.
(** [TryDiv<u64>], [TryMul<u64>]. *)
Definition dec_try_div_u64 (x : Decimal) (y : Z) : result Decimal ProgramError :=
  ok_or (checked_div x y) overflow.
Definition dec_try_mul_u64 (x : Decimal) (y : Z) : result Decimal ProgramError :=
  ok_or (checked_mul 192 x y) overflow.
(** [TryDiv<Decimal>], [TryMul<Decimal>]. *)
Definition dec_try_div (x y : Decimal) : result Decimal ProgramError :=
  let? p := ok_or (checked_mul 192 x WAD) overflow in
  ok_or (checked_div p y) overflow.
Definition dec_try_mul (x y : Decimal) : result Decimal ProgramError :=
  let? p := ok_or (checked_mul 192 x y) overflow in
  ok_or (checked_div p WAD) overflow.

Definition dec_to_scaled_val (d : Decimal) : result Z ProgramError := ok_or (to_u 128 d) overflow.
Definition dec_from_scaled_val (scaled_val : Z) : Decimal := scaled_val.

Definition dec_try_round_u64 (d : Decimal) : result Z ProgramError :=
  let? v := ok_or (checked_add 192 HALF_WAD d) overflow in
  let? q := ok_or (checked_div v WAD) overflow in
  ok_or (to_u 64 q) overflow.
Definition dec_try_ceil_u64 (d : Decimal) : result Z ProgramError :=
  let? w := ok_or (checked_sub 192 WAD 1) overflow in
  let? v := ok_or (checked_add 192 w d) overflow in
  let? q := ok_or (checked_div v WAD) overflow in
  ok_or (to_u 64 q) overflow.
Definition dec_try_floor_u64 (d : Decimal) : result Z ProgramError :=
  let? q := ok_or (checked_div d WAD) overflow in
  ok_or (to_u 64 q) overflow.

(** [from_deca_bps] and [from_bps]: the [unwrap] of a division by a non-zero
    constant. *)
Definition dec_from_deca_bps (deca_bps : Z) : panicking Decimal :=
  unwrap (dec_try_div_u64 (dec_from_u64 deca_bps) 1000).
Definition dec_from_bps (bps : Z) : panicking Decimal :=
  unwrap (dec_try_div_u64 (dec_from_u64 bps) 10000).

(** ** math/rate.rs *)

Definition Rate : Type := Z.
Definition Rate_wf (r : Rate) : Prop := in_u 128 r.

Definition rate_one : Rate := WAD.
Definition rate_zero : Rate := 0.
Definition rate_from_percent (percent : Z) : Rate := percent * PERCENT_SCALER.
Definition rate_from_percent_u64 (percent : Z) : Rate := percent * PERCENT_SCALER.
Definition rate_to_scaled_val (r : Rate) : Z := r.
Definition rate_from_scaled_val (scaled_val : Z) : Rate := scaled_val.
(** [From<Rate> for Decimal] and [TryFrom<Decimal> for Rate]. *)
Definition dec_from_rate (r : Rate) : Decimal := rate_to_scaled_val r.
Definition rate_try_from (d : Decimal) : result Rate ProgramError := dec_to_scaled_val d.

Definition rate_try_add (x y : Rate) : result Rate ProgramError :=
  ok_or (checked_add 128 x y) overflow.
Definition rate_try_sub (x y : Rate) : result Rate ProgramError :=
  ok_or (checked_sub 128 x y) overflow.
Definition rate_try_div_u64 (x : Rate) (y : Z) : result Rate ProgramError :=
  ok_or (checked_div x y) overflow.
Definition rate_try_mul_u64 (x : Rate) (y : Z) : result Rate ProgramError :=
  ok_or (checked_mul 128 x y) overflow.
Definition rate_try_div (x y : Rate) : result Rate ProgramError :=
  let? p := ok_or (checked_mul 128 x WAD) overflow in
  ok_or (checked_div p y) overflow.
Definition rate_try_mul (x y : Rate) : result Rate ProgramError :=
  let? p := ok_or (checked_mul 128 x y) overflow in
  ok_or (checked_div p WAD) overflow.

(** [Rate::try_pow]: the [while exp > 0] loop. A [u64] exponent is zero
    after at most 64 halvings, so [try_pow] runs the loop with fuel 64;
    [None] would be an exhausted fuel. *)
Fixpoint try_pow_loop (fuel : nat) (exp : Z) (base ret : Rate) : option (result Rate ProgramError) :=
  if exp >? 0 then
    match fuel with
    | O => None
    | S fuel =>
        let exp := exp / 2 in
        match rate_try_mul base base with
        | Err e => Some (Err e)
        | Ok base =>
            if negb (exp mod 2 =? 0) then
              match rate_try_mul ret base with
              | Err e => Some (Err e)
              | Ok ret => try_pow_loop fuel exp base ret
              end
            else try_pow_loop fuel exp base ret
        end
    end
  else Some (Ok ret).

Definition rate_try_pow (self : Rate) (exp : Z) : option (result Rate ProgramError) :=
  try_pow_loop 64 exp self (if negb (exp mod 2 =? 0) then self else WAD).

(* ------------------------------------------------------------------ *)
(** ** Lemmas *)

Lemma rate_try_pow_eq self exp :
  rate_try_pow self exp = try_pow_loop 64 exp self (if negb (exp mod 2 =? 0) then self else WAD).
Proof. reflexivity. Qed.

Lemma checked_div_Some x y q : checked_div x y = Some q <-> y <> 0 /\ q = x / y.
Proof.
  unfold checked_div. destruct (Z.eqb_spec y 0); split; try done.
  - by intros [? _].
  - intros [= <-]. done.
  - by intros [_ ->].
Qed.

(** Inverts the successful branch of a checked operation. *)
Ltac checked_ok H :=
  repeat match type of H with
  | (match ok_or ?o ?e with _ => _ end) = _ =>
      let E := fresh "E" in destruct (ok_or o e) eqn:E; [|discriminate H]; apply ok_or_Ok in E
  | ok_or _ _ = Ok _ => apply ok_or_Ok in H
  end;
  repeat match goal with
  | E : checked_add _ _ _ = Some _ |- _ => apply to_u_Some in E as [-> ?]
  | E : checked_sub _ _ _ = Some _ |- _ => apply to_u_Some in E as [-> ?]
  | E : checked_mul _ _ _ = Some _ |- _ => apply to_u_Some in E as [-> ?]
  | E : to_u _ _ = Some _ |- _ => apply to_u_Some in E as [-> ?]
  | E : checked_div _ _ = Some _ |- _ => apply checked_div_Some in E as [? ->]
  end.

Lemma dec_try_add_Ok x y z : dec_try_add x y = Ok z <-> z = x + y /\ in_u 192 (x + y).
Proof. unfold dec_try_add. rewrite ok_or_Ok. apply to_u_Some. Qed.

Lemma dec_try_sub_Ok x y z : dec_try_sub x y = Ok z <-> z = x - y /\ in_u 192 (x - y).
Proof. unfold dec_try_sub. rewrite ok_or_Ok. apply to_u_Some. Qed.

Lemma dec_try_mul_Ok x y z :
  dec_try_mul x y = Ok z -> z = x * y / WAD /\ in_u 192 (x * y).
Proof. unfold dec_try_mul. intros H. checked_ok H. done. Qed.

Lemma dec_try_div_Ok x y z :
  dec_try_div x y = Ok z -> y <> 0 /\ z = x * WAD / y /\ in_u 192 (x * WAD).
Proof. unfold dec_try_div. intros H. checked_ok H. done. Qed.

Lemma dec_try_mul_u64_Ok x y z : dec_try_mul_u64 x y = Ok z <-> z = x * y /\ in_u 192 (x * y).
Proof. unfold dec_try_mul_u64. rewrite ok_or_Ok. apply to_u_Some. Qed.

Lemma rate_try_from_Ok d r : rate_try_from d = Ok r <-> r = d /\ in_u 128 d.
Proof. unfold rate_try_from, dec_to_scaled_val. rewrite ok_or_Ok. apply to_u_Some. Qed.

Lemma dec_try_floor_u64_Ok d n :
  dec_try_floor_u64 d = Ok n <-> n = d / WAD /\ in_u 64 (d / WAD).
Proof.
  unfold dec_try_floor_u64. change (checked_div d WAD) with (Some (d / WAD)). cbn [ok_or].
  rewrite ok_or_Ok. apply to_u_Some.
Qed.

(** The ceiling and the rounded value, by the inequalities that define them. *)
Lemma dec_try_ceil_u64_Ok d n :
  dec_try_ceil_u64 d = Ok n -> d <= n * WAD < d + WAD /\ in_u 64 n.
Proof.
  unfold dec_try_ceil_u64. intros H. checked_ok H. subst. split; [|done].
  pose proof (Z.div_mod (WAD - 1 + d) WAD ltac:(done)).
  pose proof (Z.mod_pos_bound (WAD - 1 + d) WAD ltac:(done)). lia.
Qed.

Lemma dec_try_round_u64_Ok d n :
  dec_try_round_u64 d = Ok n -> n = (HALF_WAD + d) / WAD /\ in_u 64 n.
Proof. unfold dec_try_round_u64. intros H. checked_ok H. by subst. Qed.

(** A floored quotient against the exact one. *)
Lemma div_floor_bounds a b : 0 < b -> a / b * b <= a < (a / b + 1) * b.
Proof.
  intros Hb. pose proof (Z.div_mod a b ltac:(lia)). pose proof (Z.mod_pos_bound a b Hb). nia.
Qed.

Lemma rate_try_mul_Ok x y z :
  rate_try_mul x y = Ok z -> z = x * y / WAD /\ in_u 128 (x * y).
Proof. unfold rate_try_mul. intros H. checked_ok H. done. Qed.

(** The operations succeed when the exact result fits. *)
Lemma rate_try_mul_fits x y : 0 <= x * y < 2 ^ 128 -> rate_try_mul x y = Ok (x * y / WAD).
Proof.
  intros H. unfold rate_try_mul, checked_mul, checked_div. rewrite to_u_in by exact H. cbn [ok_or].
  reflexivity.
Qed.

Lemma dec_try_mul_fits x y : 0 <= x * y < 2 ^ 192 -> dec_try_mul x y = Ok (x * y / WAD).
Proof.
  intros H. unfold dec_try_mul, checked_mul, checked_div. rewrite to_u_in by exact H. reflexivity.
Qed.
Lemma dec_try_div_fits x y : 0 <= x * WAD < 2 ^ 192 -> y <> 0 -> dec_try_div x y = Ok (x * WAD / y).
Proof.
  intros H Hy. unfold dec_try_div, checked_mul, checked_div. rewrite to_u_in by exact H. cbn [ok_or].
  by destruct (Z.eqb_spec y 0).
Qed.
Lemma dec_try_add_fits x y : 0 <= x + y < 2 ^ 192 -> dec_try_add x y = Ok (x + y).
Proof. intros H. apply dec_try_add_Ok. done. Qed.
Lemma dec_try_sub_fits x y : 0 <= x - y < 2 ^ 192 -> dec_try_sub x y = Ok (x - y).
Proof. intros H. apply dec_try_sub_Ok. done. Qed.

Lemma dec_try_round_fits d : 0 <= d <= u64_max * WAD -> dec_try_round_u64 d = Ok ((HALF_WAD + d) / WAD).
Proof.
  intros Hd. unfold u64_max in Hd. unfold dec_try_round_u64, checked_add, checked_div.
  rewrite to_u_in by (unfold in_u, HALF_WAD, WAD in *; lia). cbn [ok_or].
  change (WAD =? 0) with false. cbn [ok_or]. rewrite to_u_in; [done|].
  split; [apply Z.div_pos; unfold HALF_WAD; [lia|done]|].
  apply Z.div_lt_upper_bound; [done|]. unfold HALF_WAD, WAD in *. lia.
Qed.

Lemma try_pow_loop_fuel fuel exp base ret :
  0 <= exp < 2 ^ Z.of_nat fuel -> is_Some (try_pow_loop fuel exp base ret).
Proof.
  revert exp base ret. induction fuel as [|fuel IH]; intros exp base ret H; cbn [try_pow_loop].
  - change (2 ^ Z.of_nat 0) with 1 in H. destruct (Z.gtb_spec exp 0); [lia|done].
  - destruct (Z.gtb_spec exp 0); [|done].
    assert (0 <= exp / 2 < 2 ^ Z.of_nat fuel).
    { rewrite Nat2Z.inj_succ, Z.pow_succ_r in H by lia.
      split; [apply Z.div_pos; lia|apply Z.div_lt_upper_bound; lia]. }
    destruct (rate_try_mul base base); [|done].
    destruct (negb _); [|by apply IH]. destruct (rate_try_mul ret _); [by apply IH|done].
Qed.

(** One squaring step: [base'] is at most [base^2 / WAD]. *)
Lemma floor_square_pow base n :
  0 <= base -> 0 <= n -> (base * base / WAD) ^ n * WAD ^ n <= base ^ (2 * n).
Proof.
  intros Hb Hn. rewrite <- Z.pow_mul_l, Z.pow_mul_r, Z.pow_2_r by lia.
  pose proof (Z.mul_div_le (base * base) WAD ltac:(unfold WAD; lia)).
  pose proof (Z.div_pos (base * base) WAD ltac:(nia) ltac:(unfold WAD; lia)).
  apply Z.pow_le_mono_l. unfold WAD in *. lia.
Qed.

(** One round of the loop: the bound for the squared base [b] carries over to
    [base]. *)
Lemma pow_round_upper base b e m ret ret' r :
  0 <= m <= e -> 0 <= ret -> b ^ e * WAD ^ e <= base ^ (2 * e) ->
  ret' * b ^ m * WAD ^ (e - m) <= ret * b ^ e -> r * WAD ^ m <= ret' * b ^ m ->
  r * WAD ^ (2 * e) <= ret * base ^ (2 * e).
Proof.
  intros Hm Hret Hsq Hstep Hind. assert (HW : 0 < WAD) by done.
  replace (2 * e) with (e + e) at 1 by lia. rewrite Z.pow_add_r by lia.
  apply Z.le_trans with (ret * (b ^ e * WAD ^ e)); [|by apply Z.mul_le_mono_nonneg_l].
  assert (HE : WAD ^ e = WAD ^ m * WAD ^ (e - m)) by (rewrite <- Z.pow_add_r by lia; f_equal; lia).
  assert (0 < WAD ^ e /\ 0 < WAD ^ (e - m)) as [? ?] by (split; apply Z.pow_pos_nonneg; lia).
  rewrite !Z.mul_assoc. apply Z.mul_le_mono_nonneg_r; [lia|].
  apply Z.le_trans with (ret' * b ^ m * WAD ^ (e - m)); [|done].
  rewrite HE, Z.mul_assoc. apply Z.mul_le_mono_nonneg_r; lia.
Qed.

Lemma try_pow_loop_upper fuel exp base ret r :
  0 <= exp -> 0 <= base -> 0 <= ret ->
  try_pow_loop fuel exp base ret = Some (Ok r) ->
  r * WAD ^ (2 * (exp / 2)) <= ret * base ^ (2 * (exp / 2)).
Proof.
  assert (HW : 0 < WAD) by done.
  revert exp base ret. induction fuel as [|fuel IH]; intros exp base ret He Hb Hr;
    cbn [try_pow_loop]; destruct (Z.gtb_spec exp 0) as [Hpos|Hz]; try done;
    try (intros [= <-]; assert (exp = 0) as -> by lia;
         change (2 * (0 / 2)) with 0; rewrite !Z.pow_0_r; lia).
  {
    destruct (rate_try_mul base base) as [base'|] eqn:E1; [|done].
    apply rate_try_mul_Ok in E1 as [-> _].
    set (e := exp / 2). set (b := base * base / WAD).
    assert (0 <= e) by (apply Z.div_pos; lia).
    assert (Hb0 : 0 <= b) by (apply Z.div_pos; nia).
    pose proof (floor_square_pow base e Hb ltac:(done)) as Hsq. fold b in Hsq.
    set (m := 2 * (e / 2)).
    assert (Hm : e = m + e mod 2) by (subst m; pose proof (Z.div_mod e 2 ltac:(lia)); lia).
    assert (0 <= m) by (subst m; pose proof (Z.div_pos e 2 ltac:(lia) ltac:(lia)); lia).
    pose proof (Z.mod_pos_bound e 2 ltac:(lia)).
    assert (Hfin : forall ret', 0 <= ret' -> ret' * b ^ m * WAD ^ (e - m) <= ret * b ^ e ->
              r * WAD ^ m <= ret' * b ^ m -> r * WAD ^ (2 * e) <= ret * base ^ (2 * e))
      by (intros ret' _; apply pow_round_upper; try done; lia).
    destruct (Z.eqb_spec (e mod 2) 0) as [Hev|Hodd]; cbn [negb].
    - intros HH. apply IH in HH; [|done..]. fold m in HH.
      apply (Hfin ret Hr); [|done]. replace e with m by lia. rewrite Z.sub_diag. cbn. lia.
    - destruct (rate_try_mul ret b) as [ret'|] eqn:E2; [|done].
      apply rate_try_mul_Ok in E2 as [-> _].
      assert (0 <= ret * b / WAD) by (apply Z.div_pos; nia).
      intros HH. apply IH in HH; [|done..]. fold m in HH.
      apply (Hfin (ret * b / WAD)); [done| |done].
      assert (Hem : e = m + 1) by lia.
      replace (e - m) with 1 by lia. rewrite Hem, Z.pow_1_r, (Z.pow_add_r b), Z.pow_1_r by lia.
      pose proof (Z.mul_div_le (ret * b) WAD HW).
      assert (0 <= b ^ m) by (apply Z.pow_nonneg; lia). nia. }
Qed.

Lemma try_pow_loop_lower fuel exp base ret r :
  WAD <= base -> WAD <= ret -> try_pow_loop fuel exp base ret = Some (Ok r) -> ret <= r.
Proof.
  assert (HW : 0 < WAD) by done.
  assert (Hmul : forall x y, WAD <= x -> WAD <= y -> x <= x * y / WAD).
  { intros x y Hx Hy. apply Z.div_le_lower_bound; nia. }
  revert exp base ret. induction fuel as [|fuel IH]; intros exp base ret Hb Hr;
    cbn [try_pow_loop]; destruct (exp >? 0); try done; try (intros [= <-]; lia).
  destruct (rate_try_mul base base) as [base'|] eqn:E1; [|done].
  apply rate_try_mul_Ok in E1 as [-> _]. pose proof (Hmul base base Hb Hb).
  destruct (negb _); [|apply IH; lia].
  destruct (rate_try_mul ret _) as [ret'|] eqn:E2; [|done].
  apply rate_try_mul_Ok in E2 as [-> _].
  pose proof (Hmul ret (base * base / WAD) Hr ltac:(lia)).
  intros HH. apply IH in HH; lia.
Qed.

(** Rounding of a [Decimal] to a [u64] brackets its value: floor and ceiling
    are the neighbouring integers, rounding is within half a unit, and each
    fails only when the integer does not fit 64 bits. *)
Theorem decimal_rounding d :
  Decimal_wf d -> d + WAD < 2 ^ 192 ->
  dec_try_floor_u64 d = ok_or (to_u 64 (d / WAD)) overflow
  /\ dec_try_ceil_u64 d = ok_or (to_u 64 (- ((- d) / WAD))) overflow
  /\ (forall n, dec_try_round_u64 d = Ok n -> 2 * Z.abs (n * WAD - d) <= WAD)
  /\ (forall f c, dec_try_floor_u64 d = Ok f -> dec_try_ceil_u64 d = Ok c ->
      f * WAD <= d <= c * WAD /\ c - f <= 1 /\ (f = c <-> d mod WAD = 0)).
Proof.
  unfold Decimal_wf, in_u. intros Hd Hfit. assert (HW : 0 < WAD) by done.
  assert (Hadd : forall x, 0 <= x <= WAD -> checked_add 192 x d = Some (x + d))
    by (intros x Hx; apply to_u_Some; unfold in_u; lia).
  assert (Hceil : (WAD - 1 + d) / WAD = - ((- d) / WAD)).
  { pose proof (Z.div_mod (-d) WAD ltac:(lia)). pose proof (Z.mod_pos_bound (-d) WAD HW).
    symmetry. apply (Z.div_unique _ _ _ (WAD - 1 - (- d) mod WAD)); lia. }
  assert (Hc : dec_try_ceil_u64 d = ok_or (to_u 64 (- ((- d) / WAD))) overflow).
  { unfold dec_try_ceil_u64. change (checked_sub 192 WAD 1) with (Some (WAD - 1)).
    cbn [ok_or]. rewrite Hadd by lia. cbn [ok_or checked_div]. by rewrite <- Hceil. }
  assert (Hf : dec_try_floor_u64 d = ok_or (to_u 64 (d / WAD)) overflow) by done.
  split_and!; [done|done| |].
  - intros n. unfold dec_try_round_u64. rewrite Hadd by (unfold HALF_WAD, WAD; lia).
    cbn. intros Hn. apply ok_or_Ok, to_u_Some in Hn as [-> _].
    pose proof (Z.div_mod (HALF_WAD + d) WAD ltac:(lia)).
    pose proof (Z.mod_pos_bound (HALF_WAD + d) WAD HW). unfold HALF_WAD, WAD in *. lia.
  - intros f c. rewrite Hf, Hc. intros Ef%ok_or_Ok Ec%ok_or_Ok.
    apply to_u_Some in Ef as [-> _]. apply to_u_Some in Ec as [-> _].
    pose proof (Z.div_mod d WAD ltac:(lia)). pose proof (Z.mod_pos_bound d WAD HW).
    pose proof (Z.div_mod (-d) WAD ltac:(lia)). pose proof (Z.mod_pos_bound (-d) WAD HW).
    split_and!; [nia|nia|nia|]. split; intros; nia.
Qed.

Lemma decimal_rounding_witness :
  dec_try_floor_u64 (3 * HALF_WAD) = Ok 1 /\ dec_try_ceil_u64 (3 * HALF_WAD) = Ok 2
  /\ 2 - 1 <= 1.
Proof.
  split; [reflexivity|]. split; [reflexivity|].
  apply (decimal_rounding (3 * HALF_WAD)); [unfold Decimal_wf, in_u; vm_compute; by split| | |];
    vm_compute; reflexivity.
Defined.

(** Compounding by repeated squaring terminates on every [u64] exponent
    and, when it does not overflow, never exceeds the exact power and never
    falls below the base of a growth factor: interest is not overcharged by
    rounding and is never negative. *)
Theorem rate_pow_bounds base exp :
  in_u 64 exp -> Rate_wf base ->
  exists res, rate_try_pow base exp = Some res
  /\ forall r, res = Ok r ->
     r * WAD ^ exp <= base ^ exp * WAD
     /\ (WAD <= base -> WAD <= r /\ (Z.odd exp = true -> base <= r)).
Proof.
  intros He [Hb _]. unfold rate_try_pow. set (ret := if negb _ then base else WAD).
  destruct (try_pow_loop_fuel 64 exp base ret He) as [res Hres]. exists res. split; [done|].
  intros r ->. assert (HW : 0 < WAD) by done. destruct He as [He _].
  assert (Hret0 : 0 <= ret) by (unfold ret; destruct (negb _); lia).
  pose proof (try_pow_loop_upper 64 exp base ret r He Hb Hret0 Hres) as Hup.
  split.
  - subst ret. pose proof (Z.div_mod exp 2 ltac:(lia)) as Hdm.
    pose proof (Z.mod_pos_bound exp 2 ltac:(lia)).
    destruct (Z.eqb_spec (exp mod 2) 0) as [Hz|Hz]; cbn [negb] in Hup.
    + replace (2 * (exp / 2)) with exp in Hup by lia. lia.
    + set (m := 2 * (exp / 2)) in *. assert (Hem : exp = m + 1) by lia.
      rewrite Hem. assert (0 <= m) by (subst m; pose proof (Z.div_pos exp 2 ltac:(lia) ltac:(lia)); lia).
      rewrite !Z.pow_add_r, !Z.pow_1_r by lia. nia.
  - intros HWb. assert (WAD <= ret) by (unfold ret; destruct (negb _); lia).
    pose proof (try_pow_loop_lower 64 exp base ret r HWb ltac:(done) Hres).
    split; [lia|]. intros Hodd. assert (Hrb : ret = base); [|by rewrite <- Hrb].
    rewrite Zodd_mod in Hodd. apply Z.eqb_eq in Hodd. unfold ret. by rewrite Hodd.
Qed.

Lemma rate_pow_bounds_witness :
  exists res, rate_try_pow (2 * WAD) 7 = Some res
  /\ forall r, res = Ok r ->
     r * WAD ^ 7 <= (2 * WAD) ^ 7 * WAD
     /\ (WAD <= 2 * WAD -> WAD <= r /\ (Z.odd 7 = true -> 2 * WAD <= r)).
Proof. apply (rate_pow_bounds (2 * WAD) 7); unfold Rate_wf, in_u; vm_compute; by split. Defined.
