(* ===== verification/SolendState.v ===== *)
(** * patches/solend-sdk/src/state: byte-layout helpers, [LastUpdate] and the
    outflow [RateLimiter].

    The [arrayref] macros slice a buffer at fixed widths and panic when it is
    too short: [array_ref] is [slice] with [Panic], [array_refs] splits a
    buffer of exactly the listed widths. Slot arithmetic without a [checked_]
    method wraps, as in the release build. *)

From Stdlib Require Import ZArith Lia.
From stdpp Require Import base list option.
From S2P Require Import Prelude Lists SolendMath.

Open Scope rust_scope.

(** ** Fixed-width fields *)

Definition array_ref (bs : list Z) (off len : nat) : panicking (list Z) :=
  match slice off len bs with Some s => Done s | None => Panic end.

Fixpoint array_refs (ws : list nat) (bs : list Z) : list (list Z) :=
  match ws with
  | [] => []
  | w :: ws => take w bs :: array_refs ws (drop w bs)
  end.

Lemma array_refs_concat ws fs :
  length <$> fs = ws -> array_refs ws (concat fs) = fs.
Proof.
  intros <-. induction fs as [|f fs IH]; [done|]. cbn [fmap list_fmap array_refs concat].
  rewrite take_app_length, drop_app_length. by rewrite IH.
Qed.

Lemma length_concat_widths (ws : list nat) (fs : list (list Z)) :
  length <$> fs = ws -> length (concat fs) = sum_list ws.
Proof.
  intros <-. induction fs as [|f fs IH]; [done|].
  cbn [fmap list_fmap concat sum_list]. by rewrite length_app, IH.
Qed.

Lemma array_ref_app (xs ys : list Z) : array_ref (xs ++ ys) 0 (length xs) = Done xs.
Proof.
  unfold array_ref, slice. rewrite length_app.
  destruct (Nat.leb_spec (0 + length xs) (length xs + length ys)); [|lia].
  by rewrite drop_0, take_app_length.
Qed.

Lemma array_ref_Done bs n s : array_ref bs 0 n = Done s -> (n <= length bs)%nat /\ s = take n bs.
Proof.
  unfold array_ref, slice. rewrite drop_0.
  destruct (Nat.leb_spec (0 + n) (length bs)); [|done]. by intros [= <-].
Qed.

Lemma array_ref_Panic bs n : array_ref bs 0 n = Panic <-> (length bs < n)%nat.
Proof.
  unfold array_ref, slice. destruct (Nat.leb_spec (0 + n) (length bs)); split; try done; lia.
Qed.

(** state/mod.rs *)

Definition PROGRAM_VERSION : Z := 1.
Definition UNINITIALIZED_VERSION : Z := 0.
Definition SLOTS_PER_YEAR : Z := 63072000.
Definition INITIAL_COLLATERAL_RATE : Z := 1 * WAD.

Definition pack_decimal (decimal : Decimal) : panicking (list Z) :=
  match dec_to_scaled_val decimal with
  | Ok v => Done (to_le_bytes 16 v)
  | Err _ => Panic
  end.
Definition unpack_decimal (src : list Z) : Decimal := dec_from_scaled_val (from_le_bytes src).
Definition pack_bool (b : bool) : list Z := to_le_bytes 1 (if b then 1 else 0).
Definition unpack_bool (src : list Z) : result bool ProgramError :=
  let v := from_le_bytes src in
  if v =? 0 then Ok false else if v =? 1 then Ok true else Err InvalidAccountData.

Lemma pack_decimal_Done d : in_u 128 d -> pack_decimal d = Done (to_le_bytes 16 d).
Proof.
  intros H. unfold pack_decimal, dec_to_scaled_val.
  assert (to_u 128 d = Some d) as -> by (by apply to_u_Some). done.
Qed.

Lemma unpack_pack_bool b : unpack_bool (pack_bool b) = Ok b.
Proof. by destruct b. Qed.

Lemma unpack_decimal_le d : in_u 128 d -> unpack_decimal (to_le_bytes 16 d) = d.
Proof. intros H. unfold unpack_decimal, dec_from_scaled_val. by apply from_to_le_bytes. Qed.

(** ** state/last_update.rs *)

Definition STALE_AFTER_SLOTS_ELAPSED : Z := 1.

Record LastUpdate := mkLastUpdate { lu_slot : Z; lu_stale : bool }.

Definition LastUpdate_new (slot : Z) : LastUpdate := mkLastUpdate slot true.
Definition slots_elapsed (u : LastUpdate) (slot : Z) : result Z ProgramError :=
  ok_or (checked_sub 64 slot (lu_slot u)) overflow.
Definition update_slot (slot : Z) (u : LastUpdate) : LastUpdate := mkLastUpdate slot false.
Definition mark_stale (u : LastUpdate) : LastUpdate := mkLastUpdate (lu_slot u) true.
(** [||] does not evaluate the slot difference of a stale update. *)
Definition is_stale (u : LastUpdate) (slot : Z) : result bool ProgramError :=
  if lu_stale u then Ok true
  else let? e := slots_elapsed u slot in Ok (STALE_AFTER_SLOTS_ELAPSED <=? e).

(** ** state/rate_limiter.rs *)

Record RateLimiterConfig := mkRateLimiterConfig {
  window_duration : Z;
  max_outflow : Z
}.

Record RateLimiter := mkRateLimiter {
  lim_config : RateLimiterConfig;
  prev_qty : Decimal;
  window_start : Z;
  cur_qty : Decimal
}.

Definition RateLimiter_new (config : RateLimiterConfig) (cur_slot : Z) : RateLimiter :=
  let slot_start :=
    if negb (window_duration config =? 0)
    then cur_slot / window_duration config * window_duration config
    else cur_slot in
  mkRateLimiter config dec_zero slot_start dec_zero.

(** [Default]: unlimited outflow in windows of one slot. *)
Definition RateLimiter_default : RateLimiter := RateLimiter_new (mkRateLimiterConfig 1 u64_max) 1.

(** [_update]: rolls the window forward. The division panics on a zero
    duration; both callers return before. *)
Definition limiter_roll (cur_slot : Z) (l : RateLimiter) : RateLimiter * result unit ProgramError :=
  if cur_slot <? window_start l then (l, Err (Custom InvalidAccountInput))
  else
    let w := window_duration (lim_config l) in
    let cur_slot_start := cur_slot / w * w in
    match cur_slot_start ?= wadd 64 (window_start l) w with
    | Lt => (l, Ok tt)
    | Eq => (mkRateLimiter (lim_config l) (cur_qty l) cur_slot_start dec_zero, Ok tt)
    | Gt => (mkRateLimiter (lim_config l) dec_zero cur_slot_start dec_zero, Ok tt)
    end.

Definition current_outflow (l : RateLimiter) (cur_slot : Z) : result Decimal ProgramError :=
  let w := window_duration (lim_config l) in
  if w =? 0 then Err (Custom InvalidAccountInput)
  else
    let? weight := dec_try_sub (dec_from_u64 w)
                     (dec_from_u64 (wadd 64 (wsub 64 cur_slot (window_start l)) 1)) in
    let? prev_weight := dec_try_div_u64 weight w in
    let? prev := dec_try_mul prev_weight (prev_qty l) in
    dec_try_add prev (cur_qty l).

Definition remaining_outflow (cur_slot : Z) (l : RateLimiter)
    : RateLimiter * result Decimal ProgramError :=
  if window_duration (lim_config l) =? 0 then (l, Ok (dec_from_u64 u64_max))
  else
    match limiter_roll cur_slot l with
    | (l, Err e) => (l, Err e)
    | (l, Ok _) =>
        (l, let? cur_outflow := current_outflow l cur_slot in
            if cur_outflow >? dec_from_u64 (max_outflow (lim_config l)) then Ok dec_zero
            else dec_try_sub (dec_from_u64 (max_outflow (lim_config l))) cur_outflow)
    end.

Definition limiter_update (cur_slot : Z) (qty : Decimal) (l : RateLimiter)
    : RateLimiter * result unit ProgramError :=
  if window_duration (lim_config l) =? 0 then (l, Ok tt)
  else
    match limiter_roll cur_slot l with
    | (l, Err e) => (l, Err e)
    | (l, Ok _) =>
        match current_outflow l cur_slot with
        | Err e => (l, Err e)
        | Ok cur_outflow =>
            match dec_try_add cur_outflow qty with
            | Err e => (l, Err e)
            | Ok total =>
                if total >? dec_from_u64 (max_outflow (lim_config l))
                then (l, Err (Custom OutflowRateLimitExceeded))
                else
                  match dec_try_add (cur_qty l) qty with
                  | Err e => (l, Err e)
                  | Ok q => (mkRateLimiter (lim_config l) (prev_qty l) (window_start l) q, Ok tt)
                  end
            end
        end
    end.

Definition RATE_LIMITER_LEN : nat := 56.
Definition RATE_LIMITER_FIELDS : list nat := [8; 8; 16; 8; 16]%nat.

(** [pack_into_slice] on the 56 bytes handed to it: the bytes written. *)
Definition limiter_pack (l : RateLimiter) : panicking (list Z) :=
  let! prev := pack_decimal (prev_qty l) in
  let! cur := pack_decimal (cur_qty l) in
  Done (concat
    [to_le_bytes 8 (max_outflow (lim_config l)); to_le_bytes 8 (window_duration (lim_config l));
     prev; to_le_bytes 8 (window_start l); cur]).

Definition limiter_unpack (src : list Z) : panicking (result RateLimiter ProgramError) :=
  let! src := array_ref src 0 RATE_LIMITER_LEN in
  match array_refs RATE_LIMITER_FIELDS src with
  | [config_max_outflow; config_window_duration; prev; start; cur] =>
      Done (Ok (mkRateLimiter
        (mkRateLimiterConfig (from_le_bytes config_window_duration)
                             (from_le_bytes config_max_outflow))
        (unpack_decimal prev) (from_le_bytes start) (unpack_decimal cur)))
  | _ => Panic
  end.

Record RateLimiter_wf (l : RateLimiter) : Prop := {
  lim_wf_duration : is_u64 (window_duration (lim_config l));
  lim_wf_outflow : is_u64 (max_outflow (lim_config l));
  lim_wf_start : is_u64 (window_start l);
  lim_wf_prev : is_u128 (prev_qty l);
  lim_wf_cur : is_u128 (cur_qty l)
}.

Lemma limiter_pack_Done l :
  RateLimiter_wf l ->
  exists bs, limiter_pack l = Done bs /\ length bs = RATE_LIMITER_LEN /\ limiter_unpack bs = Done (Ok l).
Proof.
  intros [Hd Ho Hs Hp Hc]. unfold limiter_pack.
  rewrite (pack_decimal_Done (prev_qty l)), (pack_decimal_Done (cur_qty l)) by done.
  eexists; split; [done|].
  set (fs := [_; _; _; _; _]).
  assert (Hw : length <$> fs = RATE_LIMITER_FIELDS) by done.
  pose proof (length_concat_widths _ _ Hw) as Hlen. change (sum_list _) with 56%nat in Hlen.
  split; [done|]. unfold limiter_unpack.
  rewrite <- (app_nil_r (concat fs)) at 1.
  replace RATE_LIMITER_LEN with (length (concat fs)) at 1 by done.
  rewrite array_ref_app. rewrite (array_refs_concat _ _ Hw). subst fs. cbv beta iota.
  rewrite !unpack_decimal_le, !from_to_le_bytes by done.
  by destruct l as [[]].
Qed.

(** *** What the limiter enforces, over a history of updates *)

(** Updates with their slots, and those that were accepted. *)
Definition limiter_step (st : RateLimiter * list (Z * Decimal)) (call : Z * Decimal) :=
  let '(l, accepted) := st in
  match limiter_update call.1 call.2 l with
  | (l, Ok _) => (l, accepted ++ [call])
  | (l, Err _) => (l, accepted)
  end.
Definition limiter_run (config : RateLimiterConfig) (slot : Z) (calls : list (Z * Decimal)) :=
  foldl limiter_step (RateLimiter_new config slot, []) calls.

(** What left between two slots, both included. *)
Fixpoint outflow (accepted : list (Z * Decimal)) (first last : Z) : Z :=
  match accepted with
  | [] => 0
  | (slot, qty) :: accepted =>
      (if (first <=? slot) && (slot <=? last) then qty else 0) + outflow accepted first last
  end.

Lemma outflow_snoc acc call first last :
  outflow (acc ++ [call]) first last
  = outflow acc first last + (if (first <=? call.1) && (call.1 <=? last) then call.2 else 0).
Proof.
  induction acc as [|[s q] acc IH]; cbn [app outflow]; [destruct call; cbn; lia|]. rewrite IH. lia.
Qed.

Lemma outflow_nonneg acc first last : Forall (fun c => 0 <= c.2) acc -> 0 <= outflow acc first last.
Proof.
  induction 1 as [|[s q] acc Hq _ IH]; cbn [outflow]; [lia|]. cbn in Hq. destruct (_ && _); lia.
Qed.

Lemma outflow_zero acc first last :
  Forall (fun c => c.1 < first \/ last < c.1) acc -> outflow acc first last = 0.
Proof.
  induction 1 as [|[s q] acc Hs _ IH]; cbn [outflow]; [done|]. cbn in Hs. rewrite IH.
  destruct (Z.leb_spec first s), (Z.leb_spec s last); cbn; lia.
Qed.

(** An interval is covered by two others. *)
Lemma outflow_cover acc first last a b c d :
  Forall (fun call => 0 <= call.2) acc ->
  (forall s, first <= s <= last -> a <= s <= b \/ c <= s <= d) ->
  outflow acc first last <= outflow acc a b + outflow acc c d.
Proof.
  intros Hacc Hcov. induction Hacc as [|[s q] acc Hq _ IH]; cbn [outflow]; [lia|]. cbn in Hq.
  specialize (Hcov s).
  destruct (Z.leb_spec first s), (Z.leb_spec s last), (Z.leb_spec a s), (Z.leb_spec s b),
    (Z.leb_spec c s), (Z.leb_spec s d); cbn [andb]; lia.
Qed.

Section enforcement.
Context (config : RateLimiterConfig).
Let w := window_duration config.
Let limit := max_outflow config * WAD.
Context (Hw : 0 < w) (Hmax : is_u64 (max_outflow config)).

(** Slots whose window ends below 2^64. *)
Definition slot_fits (slot : Z) : Prop := 0 <= slot /\ slot + w < 2 ^ 64.

(** The two quantities are the real outflows of their windows, and no aligned
    window has exceeded the limit. *)
Record limiter_inv (l : RateLimiter) (accepted : list (Z * Decimal)) : Prop := {
  il_config : lim_config l = config;
  il_aligned : window_start l mod w = 0;
  il_fits : slot_fits (window_start l);
  il_slots : Forall (fun c => c.1 < window_start l + w) accepted;
  il_qty : Forall (fun c => 0 <= c.2) accepted;
  il_cur : cur_qty l = outflow accepted (window_start l) (window_start l + w - 1);
  il_prev : prev_qty l = outflow accepted (window_start l - w) (window_start l - 1);
  il_windows k : outflow accepted (k * w) (k * w + w - 1) <= limit
}.

Lemma limiter_new_inv slot : slot_fits slot -> limiter_inv (RateLimiter_new config slot) [].
Proof.
  intros [Hs Hf]. unfold RateLimiter_new. fold w. destruct (Z.eqb_spec w 0); [lia|]. cbn [negb].
  pose proof (Z.mul_div_le slot w Hw). assert (0 <= slot / w) by (apply Z.div_pos; lia).
  split; cbn; try done; [by apply Z.mod_mul; lia|split; nia|].
  intros k. unfold limit, in_u, WAD in *. lia.
Qed.

Lemma limiter_roll_inv l acc slot :
  limiter_inv l acc -> slot_fits slot -> window_start l <= slot ->
  exists l', limiter_roll slot l = (l', Ok tt) /\ limiter_inv l' acc
    /\ window_start l' = slot / w * w /\ 0 <= slot - window_start l' < w.
Proof.
  intros [Hc Ha [Hs0 Hsf] Hs Hq Hcur Hprev Hwin] [Hf0 Hf] Hle. unfold limiter_roll. rewrite Hc. fold w.
  destruct (Z.ltb_spec slot (window_start l)); [lia|].
  unfold wadd. rewrite wrap_small by (unfold in_u; lia).
  pose proof (Z.div_mod slot w ltac:(lia)) as Hdm. pose proof (Z.mod_pos_bound slot w Hw).
  pose proof (Z.div_mod (window_start l) w ltac:(lia)) as Hds. rewrite Ha in Hds.
  pose proof (Z.div_le_mono (window_start l) slot w Hw Hle) as Hmono.
  set (a := window_start l / w) in *. set (b := slot / w) in *.
  assert (Hfits : slot_fits (b * w)) by (split; nia).
  assert (Hmod : b * w mod w = 0) by (apply Z.mod_mul; lia).
  destruct (Z.compare_spec (b * w) (window_start l + w)) as [He|Hlt|Hgt];
    eexists; (split; [done|]).
  - split; [|cbn; lia]. split; cbn; try done.
    + refine (Forall_impl _ _ Hs). intros c Hcs. cbn in *. lia.
    + symmetry. apply outflow_zero. refine (Forall_impl _ _ Hs). intros c Hcs. cbn in *. lia.
    + rewrite Hcur. f_equal; lia.
  - assert (Hab : b = a) by (assert (b < a + 1) by (apply (Z.mul_lt_mono_pos_l w); lia); lia).
    split; [by split|]. subst b. split; lia.
  - split; [|cbn; lia]. split; cbn; try done.
    + refine (Forall_impl _ _ Hs). intros c Hcs. cbn in *. lia.
    + symmetry. apply outflow_zero. refine (Forall_impl _ _ Hs). intros c Hcs. cbn in *. lia.
    + symmetry. apply outflow_zero. refine (Forall_impl _ _ Hs). intros c Hcs. cbn in *.
      assert (a + 1 < b) by (apply (Z.mul_lt_mono_pos_l w); lia). left. nia.
Qed.

(** The outflow the limiter charges at [slot]: what left in the slot's window
    so far, and the previous window's outflow weighted by the slots of it
    that are still in reach. *)
Definition charged (accepted : list (Z * Decimal)) (slot : Z) : Z :=
  let start := slot / w * w in
  (w - (slot - start + 1)) * WAD / w * outflow accepted (start - w) (start - 1) / WAD
  + outflow accepted start (start + w - 1).

Lemma current_outflow_inv l acc slot :
  limiter_inv l acc -> slot_fits slot -> window_start l = slot / w * w -> 0 <= slot - window_start l < w ->
  current_outflow l slot = Ok (charged acc slot) /\ cur_qty l <= charged acc slot /\ 0 <= cur_qty l.
Proof.
  intros Hinv [Hf0 Hf] Hst Hslot. pose proof (il_windows _ _ Hinv (slot / w)) as Hcurle.
  pose proof (il_windows _ _ Hinv (slot / w - 1)) as Hprevle.
  destruct Hinv as [Hc Ha [Hs0 Hsf] Hs Hq Hcur Hprev _].
  pose proof (outflow_nonneg acc (window_start l) (window_start l + w - 1) Hq) as Hc0.
  pose proof (outflow_nonneg acc (window_start l - w) (window_start l - 1) Hq) as Hp0.
  unfold charged. cbv zeta. rewrite <- Hst in Hcurle |- *. rewrite <- Hcur, <- Hprev in *.
  replace ((slot / w - 1) * w) with (window_start l - w) in Hprevle by lia.
  replace (window_start l - w + w - 1) with (window_start l - 1) in Hprevle by lia. rewrite <- Hprev in Hprevle.
  unfold current_outflow. rewrite Hc. fold w. destruct (Z.eqb_spec w 0); [lia|].
  assert (Hsub : wadd 64 (wsub 64 slot (window_start l)) 1 = slot - window_start l + 1).
  { unfold wadd, wsub. rewrite (wrap_small 64 (slot - window_start l)) by (unfold in_u; lia).
    apply wrap_small. unfold in_u. lia. }
  rewrite Hsub. set (k := w - (slot - window_start l + 1)).
  assert (Hk : 0 <= k < w) by (unfold k; lia).
  assert (Hwt : 0 <= k * WAD / w <= WAD).
  { split; [apply Z.div_pos; [unfold WAD|]; lia|apply Z.div_le_upper_bound; [lia|unfold WAD; nia]]. }
  assert (Hlim : 0 <= limit < 2 ^ 124) by (unfold limit, in_u, WAD in *; lia).
  set (wt := k * WAD / w) in *. set (prev := prev_qty l) in *. set (cur := cur_qty l) in *.
  assert (Hpart : 0 <= wt * prev / WAD <= limit).
  { split; [apply Z.div_pos; [nia|done]|apply Z.div_le_upper_bound; [done|nia]]. }
  rewrite (proj2 (dec_try_sub_Ok _ _ (k * WAD))).
  2: { unfold dec_from_u64, k, in_u, WAD in *. lia. }
  unfold dec_try_div_u64, checked_div. destruct (Z.eqb_spec w 0); [lia|]. cbn [ok_or]. fold wt.
  rewrite dec_try_mul_fits by (split; [nia|]; apply Z.le_lt_trans with (WAD * 2 ^ 124); [nia|done]).
  rewrite (proj2 (dec_try_add_Ok _ _ (wt * prev / WAD + cur))) by (split; [done|unfold in_u; lia]).
  split_and!; [done|lia|done].
Qed.

(** One update, exactly: refused before the window, and otherwise accepted
    when what is charged and the quantity stay within the limit. *)
Lemma limiter_update_exact l acc slot qty :
  limiter_inv l acc -> slot_fits slot -> 0 <= qty ->
  if slot <? window_start l then limiter_update slot qty l = (l, Err (Custom InvalidAccountInput))
  else exists l' res, limiter_update slot qty l = (l', res)
    /\ (charged acc slot + qty < 2 ^ 192 ->
        res = if charged acc slot + qty <=? limit then Ok tt else Err (Custom OutflowRateLimitExceeded))
    /\ limiter_inv l' (if is_ok res then acc ++ [(slot, qty)] else acc).
Proof.
  intros Hinv Hfit Hq. unfold limiter_update. rewrite (il_config _ _ Hinv). fold w.
  destruct (Z.eqb_spec w 0); [lia|]. destruct (Z.ltb_spec slot (window_start l)) as [Hlt|Hge].
  { unfold limiter_roll. by destruct (Z.ltb_spec slot (window_start l)); [|lia]. }
  destruct (limiter_roll_inv l acc slot Hinv Hfit Hge) as (l1 & -> & Hinv1 & Hst & Hin).
  destruct (current_outflow_inv l1 acc slot Hinv1 Hfit Hst Hin) as (-> & Hle & H0).
  rewrite (il_config _ _ Hinv1). unfold dec_from_u64. rewrite (Z.mul_comm WAD). fold limit.
  destruct (dec_try_add (charged acc slot) qty) as [total|e] eqn:Et.
  2: { eexists _, _. split; [done|]. split; [|exact Hinv1]. intros Hf. exfalso.
       rewrite (proj2 (dec_try_add_Ok _ _ (charged acc slot + qty))) in Et; [done|].
       split; [done|unfold in_u; lia]. }
  apply dec_try_add_Ok in Et as [-> [_ Hfits]].
  destruct (Z.gtb_spec (charged acc slot + qty) limit) as [Hgt|Hok];
    destruct (Z.leb_spec (charged acc slot + qty) limit); try lia.
  { eexists _, _. split; [done|]. split; [done|exact Hinv1]. }
  rewrite (proj2 (dec_try_add_Ok _ _ (cur_qty l1 + qty))) by (split; [done|unfold in_u; lia]).
  eexists _, _. split; [done|]. split; [done|]. cbn [is_ok].
  destruct Hinv1 as [Hc Ha Hf Hs Hqs Hcur Hprev Hwin]. split; cbn; try done.
  - apply Forall_app. split; [done|]. repeat constructor. cbn. lia.
  - apply Forall_app. split; [done|]. by repeat constructor.
  - rewrite outflow_snoc. cbn. rewrite Hcur.
    destruct (Z.leb_spec (window_start l1) slot), (Z.leb_spec slot (window_start l1 + w - 1)); cbn; lia.
  - rewrite outflow_snoc. cbn. rewrite Hprev.
    destruct (Z.leb_spec (window_start l1 - w) slot), (Z.leb_spec slot (window_start l1 - 1)); cbn; lia.
  - intros k. rewrite outflow_snoc. cbn.
    destruct (Z.leb_spec (k * w) slot), (Z.leb_spec slot (k * w + w - 1)); cbn [andb];
      try (rewrite Z.add_0_r; apply Hwin).
    assert (k = slot / w) as -> by (apply (Z.div_unique slot w k (slot - k * w)); lia).
    rewrite <- Hst, <- Hcur. lia.
Qed.

Lemma limiter_run_inv slot calls :
  slot_fits slot -> Forall (fun c => slot_fits c.1 /\ 0 <= c.2) calls ->
  limiter_inv (limiter_run config slot calls).1 (limiter_run config slot calls).2.
Proof.
  intros Hs Hcalls. unfold limiter_run.
  assert (H : forall st, limiter_inv st.1 st.2 ->
    limiter_inv (foldl limiter_step st calls).1 (foldl limiter_step st calls).2); [|by apply H, limiter_new_inv].
  induction Hcalls as [|[t q] calls [Ht Hq] _ IH]; intros [l acc] Hinv; [done|]. cbn [foldl]. apply IH.
  pose proof (limiter_update_exact l acc t q Hinv Ht Hq) as Hex. unfold limiter_step. cbn in *.
  destruct (t <? window_start l); [by rewrite Hex|].
  destruct Hex as (l' & res & -> & _ & Hinv'). by destruct res.
Qed.

(** C38: along every history of updates of a limiter, accepted and refused ones,
    the two quantities it keeps are the real outflows of the current and the
    previous window; no window ever pays out more than the limit, and no
    stretch of slots as long as a window and one more pays out more than
    twice the limit. The next update is accepted exactly when the window's
    outflow, the weighted outflow of the window before it and the quantity
    stay within the limit. *)
Theorem limiter_enforces_limit slot calls :
  slot_fits slot -> Forall (fun c => slot_fits c.1 /\ 0 <= c.2) calls ->
  let '(l, accepted) := limiter_run config slot calls in
  let start := window_start l in
  cur_qty l = outflow accepted start (start + w - 1)
  /\ prev_qty l = outflow accepted (start - w) (start - 1)
  /\ (forall k, outflow accepted (k * w) (k * w + w - 1) <= limit)
  /\ (forall t, outflow accepted (t - w) t <= 2 * limit)
  /\ (forall t qty, slot_fits t -> 0 <= qty -> charged accepted t + qty < 2 ^ 192 ->
      (limiter_update t qty l).2
      = if t <? start then Err (Custom InvalidAccountInput)
        else if charged accepted t + qty <=? limit then Ok tt
        else Err (Custom OutflowRateLimitExceeded)).
Proof.
  intros Hs Hcalls. pose proof (limiter_run_inv slot calls Hs Hcalls) as Hinv.
  destruct (limiter_run config slot calls) as [l acc]. cbn in Hinv. cbv zeta.
  split_and!; [apply Hinv..| |].
  - intros t. pose proof (il_windows _ _ Hinv ((t - w) / w)) as H1.
    pose proof (il_windows _ _ Hinv ((t - w) / w + 1)) as H2.
    pose proof (Z.div_mod (t - w) w ltac:(lia)). pose proof (Z.mod_pos_bound (t - w) w Hw).
    set (k := (t - w) / w) in *.
    pose proof (outflow_cover acc (t - w) t (k * w) (k * w + w - 1) ((k + 1) * w) ((k + 1) * w + w - 1)
                  (il_qty _ _ Hinv) ltac:(intros u Hu; lia)). lia.
  - intros t qty Ht Hq Hfits. pose proof (limiter_update_exact l acc t qty Hinv Ht Hq) as Hex.
    destruct (t <? window_start l); [by rewrite Hex|]. destruct Hex as (l' & res & -> & Hres & _).
    by apply Hres.
Qed.
End enforcement.

(** A limit of 100 in ten slots: 60 pass in the first window; in the middle of
    the next one half of it still counts, so 71 are refused and 70 pass. *)
Lemma limiter_enforces_limit_witness :
  let config := mkRateLimiterConfig 10 100 in
  let '(l, accepted) := limiter_run config 10 [(12, 60 * WAD); (24, 71 * WAD); (24, 70 * WAD)] in
  accepted = [(12, 60 * WAD); (24, 70 * WAD)] /\ cur_qty l = 70 * WAD /\ prev_qty l = 60 * WAD
  /\ outflow accepted 14 24 <= 2 * (100 * WAD).
Proof.
  cbv zeta.
  pose proof (limiter_enforces_limit (mkRateLimiterConfig 10 100) ltac:(by vm_compute) ltac:(by split; vm_compute)
    10 [(12, 60 * WAD); (24, 71 * WAD); (24, 70 * WAD)] ltac:(by split; vm_compute)
    ltac:(repeat constructor; by vm_compute)) as H.
  assert (Hrun : limiter_run (mkRateLimiterConfig 10 100) 10 [(12, 60 * WAD); (24, 71 * WAD); (24, 70 * WAD)]
    = (mkRateLimiter (mkRateLimiterConfig 10 100) (60 * WAD) 20 (70 * WAD), [(12, 60 * WAD); (24, 70 * WAD)]))
    by (vm_compute; reflexivity).
  rewrite Hrun in H |- *. destruct H as (Hc & Hp & _ & Ht & _).
  split; [reflexivity|]. split; [exact Hc|]. split; [exact Hp|]. exact (Ht 24).
Defined.

(** The documented guarantee is an outflow below twice the limit between
    [slot - window_duration] and [slot]; it can be reached. *)
Example limiter_reaches_twice_the_limit :
  let '(_, accepted) := limiter_run (mkRateLimiterConfig 10 100) 10 [(19, 100 * WAD); (29, 100 * WAD)] in
  outflow accepted (29 - 10) 29 = 2 * (100 * WAD).
Proof. vm_compute. reflexivity. Qed.
