(* ===== verification/SolendReserve.v ===== *)
(** * patches/solend-sdk/src/state/reserve.rs: the Save reserve account, its
    619-byte layout and the validation of its configuration.

    [Reserve_unpack] is what the flash-source router runs on every account of
    the Save program; its panics are values of [panicking]. *)

From Stdlib Require Import ZArith Lia.
From stdpp Require Import base list option strings.
From S2P Require Import Prelude Lists F64 CoreTypes SolendMath SolendState.

Open Scope rust_scope.

Definition MAX_BONUS_PCT : Z := 25.
Definition MAX_PROTOCOL_LIQUIDATION_FEE_DECA_BPS : Z := 50.
Definition MAX_SCALED_PRICE_OFFSET_BPS : Z := 5000.
Definition MIN_SCALED_PRICE_OFFSET_BPS : Z := -2000.

Inductive ReserveType := Regular | Isolated.

Record ReserveFees := mkReserveFees {
  borrow_fee_wad : Z;
  flash_loan_fee_wad : Z;
  host_fee_percentage : Z
}.

Record ReserveConfig := mkReserveConfig {
  optimal_utilization_rate : Z;
  max_utilization_rate : Z;
  loan_to_value_ratio : Z;
  liquidation_bonus : Z;
  max_liquidation_bonus : Z;
  liquidation_threshold : Z;
  max_liquidation_threshold : Z;
  min_borrow_rate : Z;
  optimal_borrow_rate : Z;
  max_borrow_rate : Z;
  super_max_borrow_rate : Z;
  rcfg_fees : ReserveFees;
  deposit_limit : Z;
  borrow_limit : Z;
  fee_receiver : Pubkey;
  protocol_liquidation_fee : Z;
  protocol_take_rate : Z;
  added_borrow_weight_bps : Z;
  reserve_type : ReserveType;
  scaled_price_offset_bps : Z;
  extra_oracle_pubkey : option Pubkey;
  attributed_borrow_limit_open : Z;
  attributed_borrow_limit_close : Z
}.

Record ReserveLiquidity := mkReserveLiquidity {
  liq_mint_pubkey : Pubkey;
  mint_decimals : Z;
  liq_supply_pubkey : Pubkey;
  pyth_oracle_pubkey : Pubkey;
  switchboard_oracle_pubkey : Pubkey;
  available_amount : Z;
  borrowed_amount_wads : Decimal;
  cumulative_borrow_rate_wads : Decimal;
  accumulated_protocol_fees_wads : Decimal;
  market_price : Decimal;
  smoothed_market_price : Decimal;
  extra_market_price : option Decimal
}.

Record ReserveCollateral := mkReserveCollateral {
  col_mint_pubkey : Pubkey;
  mint_total_supply : Z;
  col_supply_pubkey : Pubkey
}.

Record Reserve := mkReserve {
  version : Z;
  last_update : LastUpdate;
  lending_market : Pubkey;
  liquidity : ReserveLiquidity;
  collateral : ReserveCollateral;
  config : ReserveConfig;
  rate_limiter : RateLimiter;
  attributed_borrow_value : Decimal
}.

(** [IsInitialized]. *)
Definition Reserve_is_initialized (r : Reserve) : bool :=
  negb (version r =? UNINITIALIZED_VERSION).

(** ** [validate_reserve_config] *)

Definition validate_reserve_config (c : ReserveConfig) : result unit ProgramError :=
  let bad := Err (Custom InvalidConfig) in
  if optimal_utilization_rate c >? 100 then bad
  else if (max_utilization_rate c <? optimal_utilization_rate c)
          || (max_utilization_rate c >? 100) then bad
  else if loan_to_value_ratio c >=? 100 then bad
  else if liquidation_bonus c >? 100 then bad
  else if (max_liquidation_bonus c <? liquidation_bonus c)
          || (max_liquidation_bonus c >? 100) then bad
  else if (liquidation_threshold c <? loan_to_value_ratio c)
          || (liquidation_threshold c >? 100) then bad
  else if (max_liquidation_threshold c <? liquidation_threshold c)
          || (max_liquidation_threshold c >? 100) then bad
  else if optimal_borrow_rate c <? min_borrow_rate c then bad
  else if optimal_borrow_rate c >? max_borrow_rate c then bad
  else if super_max_borrow_rate c <? max_borrow_rate c then bad
  else if borrow_fee_wad (rcfg_fees c) >=? WAD then bad
  else if host_fee_percentage (rcfg_fees c) >? 100 then bad
  else if protocol_liquidation_fee c >? MAX_PROTOCOL_LIQUIDATION_FEE_DECA_BPS then bad
  else if max_liquidation_bonus c * 100 + protocol_liquidation_fee c * 10 >? MAX_BONUS_PCT * 100
  then bad
  else if protocol_take_rate c >? 100 then bad
  else if (match reserve_type c with Isolated => true | Regular => false end)
          && negb ((loan_to_value_ratio c =? 0) && (liquidation_threshold c =? 0)) then bad
  else if (scaled_price_offset_bps c <? MIN_SCALED_PRICE_OFFSET_BPS)
          || (scaled_price_offset_bps c >? MAX_SCALED_PRICE_OFFSET_BPS) then bad
  else if attributed_borrow_limit_open c >? attributed_borrow_limit_close c then bad
  else Ok tt.

(** ** Layout *)

Definition PUBKEY_BYTES : nat := 32.
Definition RESERVE_LEN : nat := 619.

(** The widths of the [array_refs!] of both directions; the last one is
    [_padding]. *)
Definition RESERVE_FIELDS : list nat :=
  [1; 8; 1; PUBKEY_BYTES; PUBKEY_BYTES; 1; PUBKEY_BYTES; PUBKEY_BYTES; PUBKEY_BYTES;
   8; 16; 16; 16; PUBKEY_BYTES; 8; PUBKEY_BYTES; 1; 1; 1; 1; 1; 1; 1; 8; 8; 1; 8; 8;
   PUBKEY_BYTES; 1; 1; 16; RATE_LIMITER_LEN; 8; 16; 1; 1; 8; 1; 1; 8; 32; 1; 16; 16; 8; 8; 49]%nat.

Definition i64_from_le_bytes (bs : list Z) : Z :=
  let v := from_le_bytes bs in if v <? 2 ^ 63 then v else v - 2 ^ 64.

Definition zero_key : list Z := replicate PUBKEY_BYTES 0.

Definition reserve_type_to_u8 (t : ReserveType) : Z :=
  match t with Regular => 0 | Isolated => 1 end.
(** [ReserveType::from_u8]. *)
Definition reserve_type_from_u8 (b : Z) : option ReserveType :=
  if b =? 0 then Some Regular else if b =? 1 then Some Isolated else None.

(** [FromStr]. *)
Definition reserve_type_from_str (input : string) : result ReserveType ProgramError :=
  if String.eqb input "Regular" then Ok Regular
  else if String.eqb input "Isolated" then Ok Isolated
  else Err (Custom InvalidConfig).

(** The optional fields: the extra oracle key (all zeros for [None]) and the
    extra price behind its flag byte. *)
Definition pack_oracle (k : option Pubkey) : list Z :=
  match k with Some pk => pk_bytes pk | None => zero_key end.
Definition unpack_oracle (src : list Z) : option Pubkey :=
  if decide (src = zero_key) then None else Some (mkPubkey src).
Definition pack_extra_flag (p : option Decimal) : list Z :=
  [match p with Some _ => 1 | None => 0 end].
Definition unpack_extra_price (flag src : list Z) : result (option Decimal) ProgramError :=
  match from_le_bytes flag with
  | 0 => Ok None
  | 1 => Ok (Some (unpack_decimal src))
  | _ => Err InvalidAccountData
  end.

(** [pack_into_slice]: the fields are written in place and the padding and
    anything after the record keep the buffer's bytes. *)
Definition Reserve_pack (r : Reserve) (output : list Z) : panicking (list Z) :=
  let! out := array_ref output 0 RESERVE_LEN in
  let l := liquidity r in let c := config r in
  let! borrowed := pack_decimal (borrowed_amount_wads l) in
  let! cumulative := pack_decimal (cumulative_borrow_rate_wads l) in
  let! fees := pack_decimal (accumulated_protocol_fees_wads l) in
  let! price := pack_decimal (market_price l) in
  let! smoothed := pack_decimal (smoothed_market_price l) in
  let! extra := pack_decimal (default dec_zero (extra_market_price l)) in
  let! limiter := limiter_pack (rate_limiter r) in
  let! attributed := pack_decimal (attributed_borrow_value r) in
  Done (concat
    [to_le_bytes 1 (version r); to_le_bytes 8 (lu_slot (last_update r));
     pack_bool (lu_stale (last_update r)); pk_bytes (lending_market r);
     pk_bytes (liq_mint_pubkey l); to_le_bytes 1 (mint_decimals l);
     pk_bytes (liq_supply_pubkey l); pk_bytes (pyth_oracle_pubkey l);
     pk_bytes (switchboard_oracle_pubkey l); to_le_bytes 8 (available_amount l);
     borrowed; cumulative; price;
     pk_bytes (col_mint_pubkey (collateral r)); to_le_bytes 8 (mint_total_supply (collateral r));
     pk_bytes (col_supply_pubkey (collateral r));
     to_le_bytes 1 (optimal_utilization_rate c); to_le_bytes 1 (loan_to_value_ratio c);
     to_le_bytes 1 (liquidation_bonus c); to_le_bytes 1 (liquidation_threshold c);
     to_le_bytes 1 (min_borrow_rate c); to_le_bytes 1 (optimal_borrow_rate c);
     to_le_bytes 1 (max_borrow_rate c); to_le_bytes 8 (borrow_fee_wad (rcfg_fees c));
     to_le_bytes 8 (flash_loan_fee_wad (rcfg_fees c));
     to_le_bytes 1 (host_fee_percentage (rcfg_fees c));
     to_le_bytes 8 (deposit_limit c); to_le_bytes 8 (borrow_limit c);
     pk_bytes (fee_receiver c); to_le_bytes 1 (protocol_liquidation_fee c);
     to_le_bytes 1 (protocol_take_rate c); fees; limiter;
     to_le_bytes 8 (added_borrow_weight_bps c); smoothed;
     to_le_bytes 1 (reserve_type_to_u8 (reserve_type c));
     to_le_bytes 1 (max_utilization_rate c); to_le_bytes 8 (super_max_borrow_rate c);
     to_le_bytes 1 (max_liquidation_bonus c); to_le_bytes 1 (max_liquidation_threshold c);
     to_le_bytes 8 (scaled_price_offset_bps c);
     pack_oracle (extra_oracle_pubkey c); pack_extra_flag (extra_market_price l); extra; attributed;
     to_le_bytes 8 (attributed_borrow_limit_open c);
     to_le_bytes 8 (attributed_borrow_limit_close c); drop 570 out]
    ++ drop RESERVE_LEN output).

Definition limit_or_max (value : Z) : Z := if value =? 0 then u64_max else value.

(** [unpack_from_slice]. The struct literal evaluates [unpack_bool], the
    extra-price flag, the [unwrap] of the reserve type and the rate limiter
    in this order. *)
Definition Reserve_unpack (input : list Z) : panicking (result Reserve ProgramError) :=
  let! input := array_ref input 0 RESERVE_LEN in
  match array_refs RESERVE_FIELDS input with
  | [version; last_update_slot; last_update_stale; lending_market; liquidity_mint_pubkey;
     liquidity_mint_decimals; liquidity_supply_pubkey; liquidity_pyth_oracle_pubkey;
     liquidity_switchboard_oracle_pubkey; liquidity_available_amount;
     liquidity_borrowed_amount_wads; liquidity_cumulative_borrow_rate_wads;
     liquidity_market_price; collateral_mint_pubkey; collateral_mint_total_supply;
     collateral_supply_pubkey; config_optimal_utilization_rate; config_loan_to_value_ratio;
     config_liquidation_bonus; config_liquidation_threshold; config_min_borrow_rate;
     config_optimal_borrow_rate; config_max_borrow_rate; config_fees_borrow_fee_wad;
     config_fees_flash_loan_fee_wad; config_fees_host_fee_percentage; config_deposit_limit;
     config_borrow_limit; config_fee_receiver; config_protocol_liquidation_fee;
     config_protocol_take_rate; liquidity_accumulated_protocol_fees_wads; rate_limiter;
     config_added_borrow_weight_bps; liquidity_smoothed_market_price; config_asset_type;
     config_max_utilization_rate; config_super_max_borrow_rate; config_max_liquidation_bonus;
     config_max_liquidation_threshold; config_scaled_price_offset_bps;
     config_extra_oracle_pubkey; liquidity_extra_market_price_flag;
     liquidity_extra_market_price; attributed_borrow_value;
     config_attributed_borrow_limit_open; config_attributed_borrow_limit_close; _padding] =>
    let version := from_le_bytes version in
    if version >? PROGRAM_VERSION then Done (Err InvalidAccountData)
    else
      let optimal_utilization_rate := from_le_bytes config_optimal_utilization_rate in
      let max_borrow_rate := from_le_bytes config_max_borrow_rate in
      let liquidation_bonus := from_le_bytes config_liquidation_bonus in
      let max_liquidation_bonus :=
        Z.max liquidation_bonus (from_le_bytes config_max_liquidation_bonus) in
      let liquidation_threshold := from_le_bytes config_liquidation_threshold in
      let max_liquidation_threshold :=
        Z.max liquidation_threshold (from_le_bytes config_max_liquidation_threshold) in
      match unpack_bool last_update_stale with
      | Err e => Done (Err e)
      | Ok stale =>
        match unpack_extra_price liquidity_extra_market_price_flag
                liquidity_extra_market_price with
        | Err e => Done (Err e)
        | Ok extra_market_price =>
          match reserve_type_from_u8 (from_le_bytes config_asset_type) with
          | None => Panic
          | Some reserve_type =>
            match limiter_unpack rate_limiter with
            | Panic => Panic
            | Done (Err e) => Done (Err e)
            | Done (Ok limiter) =>
              Done (Ok (mkReserve version (mkLastUpdate (from_le_bytes last_update_slot) stale)
                (mkPubkey lending_market)
                (mkReserveLiquidity (mkPubkey liquidity_mint_pubkey)
                   (from_le_bytes liquidity_mint_decimals) (mkPubkey liquidity_supply_pubkey)
                   (mkPubkey liquidity_pyth_oracle_pubkey)
                   (mkPubkey liquidity_switchboard_oracle_pubkey)
                   (from_le_bytes liquidity_available_amount)
                   (unpack_decimal liquidity_borrowed_amount_wads)
                   (unpack_decimal liquidity_cumulative_borrow_rate_wads)
                   (unpack_decimal liquidity_accumulated_protocol_fees_wads)
                   (unpack_decimal liquidity_market_price)
                   (unpack_decimal liquidity_smoothed_market_price) extra_market_price)
                (mkReserveCollateral (mkPubkey collateral_mint_pubkey)
                   (from_le_bytes collateral_mint_total_supply) (mkPubkey collateral_supply_pubkey))
                (mkReserveConfig optimal_utilization_rate
                   (Z.max optimal_utilization_rate (from_le_bytes config_max_utilization_rate))
                   (from_le_bytes config_loan_to_value_ratio) liquidation_bonus
                   max_liquidation_bonus liquidation_threshold max_liquidation_threshold
                   (from_le_bytes config_min_borrow_rate)
                   (from_le_bytes config_optimal_borrow_rate) max_borrow_rate
                   (Z.max max_borrow_rate (from_le_bytes config_super_max_borrow_rate))
                   (mkReserveFees (from_le_bytes config_fees_borrow_fee_wad)
                      (from_le_bytes config_fees_flash_loan_fee_wad)
                      (from_le_bytes config_fees_host_fee_percentage))
                   (from_le_bytes config_deposit_limit) (from_le_bytes config_borrow_limit)
                   (mkPubkey config_fee_receiver)
                   (Z.min (from_le_bytes config_protocol_liquidation_fee)
                      MAX_PROTOCOL_LIQUIDATION_FEE_DECA_BPS)
                   (from_le_bytes config_protocol_take_rate)
                   (from_le_bytes config_added_borrow_weight_bps) reserve_type
                   (i64_from_le_bytes config_scaled_price_offset_bps)
                   (unpack_oracle config_extra_oracle_pubkey)
                   (limit_or_max (from_le_bytes config_attributed_borrow_limit_open))
                   (limit_or_max (from_le_bytes config_attributed_borrow_limit_close)))
                limiter (unpack_decimal attributed_borrow_value)))
            end
          end
        end
      end
  | _ => Panic
  end.

(* ------------------------------------------------------------------ *)
(** ** Well-formedness: the Rust types, and the invariants [unpack] sets up *)

Definition key_wf (p : Pubkey) : Prop := length (pk_bytes p) = PUBKEY_BYTES.
Definition is_i64 (x : Z) : Prop := - 2 ^ 63 <= x < 2 ^ 63.

Record ReserveLiquidity_wf (l : ReserveLiquidity) : Prop := {
  lq_wf_keys : key_wf (liq_mint_pubkey l) /\ key_wf (liq_supply_pubkey l)
               /\ key_wf (pyth_oracle_pubkey l) /\ key_wf (switchboard_oracle_pubkey l);
  lq_wf_decimals : is_u8 (mint_decimals l);
  lq_wf_available : is_u64 (available_amount l);
  lq_wf_borrowed : is_u128 (borrowed_amount_wads l);
  lq_wf_cumulative : is_u128 (cumulative_borrow_rate_wads l);
  lq_wf_fees : is_u128 (accumulated_protocol_fees_wads l);
  lq_wf_price : is_u128 (market_price l);
  lq_wf_smoothed : is_u128 (smoothed_market_price l);
  lq_wf_extra : forall p, extra_market_price l = Some p -> is_u128 p
}.

Record ReserveConfig_wf (c : ReserveConfig) : Prop := {
  rcf_wf_u8 : Forall is_u8
    [optimal_utilization_rate c; max_utilization_rate c; loan_to_value_ratio c;
     liquidation_bonus c; max_liquidation_bonus c; liquidation_threshold c;
     max_liquidation_threshold c; min_borrow_rate c; optimal_borrow_rate c; max_borrow_rate c;
     host_fee_percentage (rcfg_fees c); protocol_liquidation_fee c; protocol_take_rate c];
  rcf_wf_u64 : Forall is_u64
    [super_max_borrow_rate c; borrow_fee_wad (rcfg_fees c); flash_loan_fee_wad (rcfg_fees c);
     deposit_limit c; borrow_limit c; added_borrow_weight_bps c;
     attributed_borrow_limit_open c; attributed_borrow_limit_close c];
  rcf_wf_offset : is_i64 (scaled_price_offset_bps c);
  rcf_wf_receiver : key_wf (fee_receiver c);
  rcf_wf_oracle : forall p, extra_oracle_pubkey c = Some p -> key_wf p
}.

Record Reserve_wf (r : Reserve) : Prop := {
  rs_wf_version : is_u8 (version r);
  rs_wf_slot : is_u64 (lu_slot (last_update r));
  rs_wf_market : key_wf (lending_market r);
  rs_wf_liquidity : ReserveLiquidity_wf (liquidity r);
  rs_wf_col_keys : key_wf (col_mint_pubkey (collateral r)) /\ key_wf (col_supply_pubkey (collateral r));
  rs_wf_col_supply : is_u64 (mint_total_supply (collateral r));
  rs_wf_config : ReserveConfig_wf (config r);
  rs_wf_limiter : RateLimiter_wf (rate_limiter r);
  rs_wf_attributed : is_u128 (attributed_borrow_value r)
}.

(** What decoding guarantees of every reserve, whatever the bytes. *)
Record Reserve_canonical (r : Reserve) : Prop := {
  can_version : version r <= PROGRAM_VERSION;
  can_utilization : optimal_utilization_rate (config r) <= max_utilization_rate (config r);
  can_bonus : liquidation_bonus (config r) <= max_liquidation_bonus (config r);
  can_threshold : liquidation_threshold (config r) <= max_liquidation_threshold (config r);
  can_rates : max_borrow_rate (config r) <= super_max_borrow_rate (config r);
  can_liq_fee : protocol_liquidation_fee (config r) <= MAX_PROTOCOL_LIQUIDATION_FEE_DECA_BPS;
  can_limits : attributed_borrow_limit_open (config r) <> 0
               /\ attributed_borrow_limit_close (config r) <> 0;
  can_oracle : extra_oracle_pubkey (config r) <> Some (mkPubkey zero_key)
}.

Lemma u8_le x : is_u8 x -> from_le_bytes (to_le_bytes 1 x) = x.
Proof. apply (from_to_le_bytes 1). Qed.
Lemma u64_le x : is_u64 x -> from_le_bytes (to_le_bytes 8 x) = x.
Proof. apply (from_to_le_bytes 8). Qed.

Lemma to_le_bytes_mod n x y :
  x mod 2 ^ (8 * Z.of_nat n) = y mod 2 ^ (8 * Z.of_nat n) -> to_le_bytes n x = to_le_bytes n y.
Proof.
  revert x y. induction n as [|n IH]; intros x y H; cbn [to_le_bytes]; [done|].
  replace (8 * Z.of_nat (S n)) with (8 + 8 * Z.of_nat n) in H by lia.
  rewrite Z.pow_add_r in H by lia. change (2 ^ 8) with 256 in H.
  assert (0 < 2 ^ (8 * Z.of_nat n)) by (apply Z.pow_pos_nonneg; lia).
  rewrite !Z.rem_mul_r in H by lia.
  pose proof (Z.mod_pos_bound x 256 ltac:(lia)). pose proof (Z.mod_pos_bound y 256 ltac:(lia)).
  f_equal; [lia|apply IH; lia].
Qed.

Lemma i64_le x : is_i64 x -> i64_from_le_bytes (to_le_bytes 8 x) = x.
Proof.
  unfold is_i64. intros Hx. unfold i64_from_le_bytes.
  rewrite (to_le_bytes_mod 8 x (x mod 2 ^ 64)) by (symmetry; apply Z.mod_mod; lia).
  rewrite u64_le by (apply Z.mod_pos_bound; lia).
  destruct (Z.ltb_spec x 0).
  - assert (x mod 2 ^ 64 = x + 2 ^ 64) as ->
      by (symmetry; apply (Z.mod_unique_pos _ _ (-1)); lia).
    destruct (Z.ltb_spec (x + 2 ^ 64) (2 ^ 63)); lia.
  - rewrite Z.mod_small by lia. destruct (Z.ltb_spec x (2 ^ 63)); lia.
Qed.

Lemma limit_or_max_id x : x <> 0 -> limit_or_max x = x.
Proof. intros H. unfold limit_or_max. by destruct (Z.eqb_spec x 0). Qed.

Lemma length_pack_oracle k : (forall p, k = Some p -> key_wf p) -> length (pack_oracle k) = PUBKEY_BYTES.
Proof. destruct k; cbn; intros H; [by apply H|done]. Qed.

Lemma unpack_pack_oracle k : k <> Some (mkPubkey zero_key) -> unpack_oracle (pack_oracle k) = k.
Proof.
  unfold unpack_oracle. destruct k as [[bs]|]; cbn; intros H; case_decide; try done.
  by subst bs.
Qed.

Lemma unpack_pack_extra p :
  is_u128 (default dec_zero p) ->
  unpack_extra_price (pack_extra_flag p) (to_le_bytes 16 (default dec_zero p)) = Ok p.
Proof.
  intros H. destruct p; [|done]. cbn [pack_extra_flag default] in *.
  unfold unpack_extra_price, pack_extra_flag. rewrite unpack_decimal_le by done. done.
Qed.

Ltac forall_inv H :=
  repeat match type of H with
  | Forall _ (_ :: _) =>
      let H1 := fresh "Hr" in
      pose proof (Forall_inv H) as H1; apply Forall_inv_tail in H
  end.

Lemma Reserve_pack_unpack r dst :
  Reserve_wf r -> Reserve_canonical r -> (RESERVE_LEN <= length dst)%nat ->
  exists out, Reserve_pack r dst = Done out
    /\ length out = length dst /\ drop RESERVE_LEN out = drop RESERVE_LEN dst
    /\ Reserve_unpack out = Done (Ok r).
Proof.
  intros [Hv Hslot Hmk [(Hk1 & Hk2 & Hk3 & Hk4) Hdec Hav Hbo Hcu Hfe Hpr Hsm Hex] (Hk5 & Hk6) Hcs
    [Hu8 Hu64 Hoff Hrec Hora] Hlim Hat] [Cv Cu Cb Ct Cr Cf (Cl1 & Cl2) Co] Hlen.
  forall_inv Hu8. forall_inv Hu64.
  destruct (limiter_pack_Done _ Hlim) as (lim & Hlp & Hll & Hlu).
  unfold Reserve_pack, array_ref, slice.
  destruct (Nat.leb_spec (0 + RESERVE_LEN) (length dst)); [|lia]. rewrite drop_0.
  assert (Hxt : is_u128 (default dec_zero (extra_market_price (liquidity r)))).
  { destruct (extra_market_price (liquidity r)); [by apply Hex|by vm_compute]. }
  cbv zeta. rewrite !pack_decimal_Done by done. rewrite Hlp. eexists; split; [done|].
  set (fs := [to_le_bytes 1 (version r); _; _; _; _; _; _; _; _; _; _; _; _; _; _; _; _; _; _; _; _;
    _; _; _; _; _; _; _; _; _; _; _; _; _; _; _; _; _; _; _; _; _; _; _; _; _; _; _]).
  assert (Hw : length <$> fs = RESERVE_FIELDS).
  { unfold fs, RESERVE_FIELDS. cbn [fmap list_fmap]. unfold key_wf in *.
    rewrite !length_to_le_bytes, length_pack_oracle, Hk1, Hk2, Hk3, Hk4, Hk5, Hk6, Hmk, Hrec, Hll by done.
    rewrite length_drop, length_take, Nat.min_l by done. done. }
  pose proof (length_concat_widths _ _ Hw) as Hcl. change (sum_list _) with RESERVE_LEN in Hcl.
  split_and!.
  - rewrite length_app, length_drop, Hcl. unfold RESERVE_LEN in *. lia.
  - rewrite drop_app_le by (rewrite Hcl; done).
    rewrite (drop_ge (concat fs)) by (rewrite Hcl; done). done.
  - unfold Reserve_unpack. rewrite <- Hcl, array_ref_app. cbv beta iota.
    rewrite (array_refs_concat _ _ Hw). unfold fs. cbv beta iota zeta.
    clear fs Hw Hcl Hlen H.
    assert (Hty : is_u8 (reserve_type_to_u8 (reserve_type (config r))))
      by (by destruct (reserve_type (config r)); vm_compute).
    rewrite unpack_pack_bool, unpack_pack_extra, unpack_pack_oracle by done.
    rewrite !u8_le, !u64_le, !unpack_decimal_le, i64_le, Hlu by done.
    rewrite !limit_or_max_id by done.
    rewrite !Z.max_r, Z.min_l by done.
    destruct (Z.gtb_spec (version r) PROGRAM_VERSION); [lia|].
    assert (reserve_type_from_u8 (reserve_type_to_u8 (reserve_type (config r)))
            = Some (reserve_type (config r))) as -> by (by destruct (reserve_type (config r))).
    clear. do 2 f_equal.
    destruct r as [ver [] [] [[] ? [] [] [] ? ? ? ? ? ? []] [[] ? []] [] ? ?]; cbn.
    all: repeat f_equal; by repeat match goal with x : Pubkey |- _ => destruct x
                           | x : ReserveFees |- _ => destruct x end.
Qed.

(** C14: a reserve that is well typed and canonical (as every decoded reserve
    is) packs into any buffer of at least 619 bytes, leaves the bytes after
    the record alone, and unpacks to itself; so no other such reserve, packed
    into any buffer, gives the same account. *)
Theorem reserve_roundtrip r dst :
  Reserve_wf r -> Reserve_canonical r -> (RESERVE_LEN <= length dst)%nat ->
  exists out, Reserve_pack r dst = Done out
    /\ length out = length dst /\ drop RESERVE_LEN out = drop RESERVE_LEN dst
    /\ Reserve_unpack out = Done (Ok r)
    /\ forall r' dst', Reserve_wf r' -> Reserve_canonical r' -> (RESERVE_LEN <= length dst')%nat ->
         Reserve_pack r' dst' = Done out -> r' = r.
Proof.
  intros Hwf Hcan Hlen. destruct (Reserve_pack_unpack r dst Hwf Hcan Hlen) as (out & Hp & Hl & Hd & Hu).
  exists out. split_and!; try done. intros r' dst' Hwf' Hcan' Hlen' Hp'.
  destruct (Reserve_pack_unpack r' dst' Hwf' Hcan' Hlen') as (out' & Hp2 & _ & _ & Hu2). congruence.
Qed.

Lemma from_le_byte bs off :
  (off < length bs)%nat -> from_le_bytes (take 1 (drop off bs)) = bs !!! off.
Proof.
  intros H. destruct (lookup_lt_is_Some_2 bs off H) as [x Hx].
  rewrite (drop_S bs x off Hx). rewrite (list_lookup_total_correct bs off x Hx).
  change (from_le_bytes [x] = x). unfold from_le_bytes. lia.
Qed.

Lemma limiter_unpack_Ok src :
  length src = RATE_LIMITER_LEN -> exists l, limiter_unpack src = Done (Ok l).
Proof.
  intros H. unfold limiter_unpack. rewrite <- (app_nil_r src), <- H, array_ref_app.
  cbn [RATE_LIMITER_FIELDS array_refs]. by eexists.
Qed.

Lemma length_take_drop {A} n off (bs : list A) :
  (off + n <= length bs)%nat -> length (take n (drop off bs)) = n.
Proof. intros H. rewrite length_take, length_drop. lia. Qed.

(** The bytes that decide how decoding ends. *)
Definition version_byte (bs : list Z) : Z := bs !!! 0%nat.
Definition stale_byte (bs : list Z) : Z := bs !!! 9%nat.
Definition asset_type_byte (bs : list Z) : Z := bs !!! 469%nat.
Definition extra_flag_byte (bs : list Z) : Z := bs !!! 521%nat.

Lemma unpack_bool_byte src b :
  from_le_bytes src = b -> 0 <= b ->
  (b <= 1 /\ exists v, unpack_bool src = Ok v) \/ (1 < b /\ unpack_bool src = Err InvalidAccountData).
Proof.
  intros <- H. unfold unpack_bool.
  destruct (Z.eqb_spec (from_le_bytes src) 0); [left; split; [lia|by eexists]|].
  destruct (Z.eqb_spec (from_le_bytes src) 1); [left; split; [lia|by eexists]|].
  right. split; [lia|done].
Qed.

Lemma unpack_extra_byte flag src b :
  from_le_bytes flag = b -> 0 <= b ->
  (b <= 1 /\ exists v, unpack_extra_price flag src = Ok v)
  \/ (1 < b /\ unpack_extra_price flag src = Err InvalidAccountData).
Proof.
  intros <- H. unfold unpack_extra_price. destruct (from_le_bytes flag) as [|[p|p|]|p]; try lia.
  all: try (left; split; [lia|by eexists]). all: right; split; [lia|done].
Qed.

Lemma reserve_type_byte a :
  0 <= a ->
  (a <= 1 /\ exists t, reserve_type_from_u8 a = Some t) \/ (1 < a /\ reserve_type_from_u8 a = None).
Proof.
  intros H. unfold reserve_type_from_u8.
  destruct (Z.eqb_spec a 0); [left; split; [lia|by eexists]|].
  destruct (Z.eqb_spec a 1); [left; split; [lia|by eexists]|right; split; [lia|done]].
Qed.

(** A field of the record, read through the [array_ref] of its length. *)
Lemma take_field (bs : list Z) n off len :
  (off + n <= len)%nat -> take n (drop off (take len bs)) = take n (drop off bs).
Proof.
  intros Hn. destruct (Nat.le_gt_cases len (length bs)) as [Hl|Hl]; [|by rewrite (take_ge bs) by lia].
  rewrite <- (take_drop len bs) at 2. rewrite drop_app_le, take_app_le;
    [done|rewrite length_drop, length_take; lia|rewrite length_take; lia].
Qed.

Lemma byte_nonneg bs off : Forall is_u8 bs -> (off < length bs)%nat -> 0 <= bs !!! off.
Proof.
  rewrite list.Forall_forall. intros Hb Hoff. destruct (lookup_lt_is_Some_2 bs off Hoff) as [x Hx].
  rewrite (list_lookup_total_correct _ _ _ Hx). apply Hb. by eapply list_elem_of_lookup_2.
Qed.

Lemma Reserve_unpack_cases bs :
  Forall is_u8 bs -> (RESERVE_LEN <= length bs)%nat ->
  (PROGRAM_VERSION < version_byte bs /\ Reserve_unpack bs = Done (Err InvalidAccountData))
  \/ (version_byte bs <= PROGRAM_VERSION
      /\ (1 < stale_byte bs \/ 1 < extra_flag_byte bs)
      /\ Reserve_unpack bs = Done (Err InvalidAccountData))
  \/ (version_byte bs <= PROGRAM_VERSION /\ stale_byte bs <= 1 /\ extra_flag_byte bs <= 1
      /\ 1 < asset_type_byte bs /\ Reserve_unpack bs = Panic)
  \/ (version_byte bs <= PROGRAM_VERSION /\ stale_byte bs <= 1 /\ extra_flag_byte bs <= 1
      /\ asset_type_byte bs <= 1
      /\ exists r, Reserve_unpack bs = Done (Ok r) /\ Reserve_canonical r
         /\ liq_mint_pubkey (liquidity r) = mkPubkey (take 32 (drop 42 bs))
         /\ available_amount (liquidity r) = from_le_bytes (take 8 (drop 171 bs))
         /\ flash_loan_fee_wad (rcfg_fees (config r)) = from_le_bytes (take 8 (drop 314 bs))).
Proof.
  intros Hb Hlen. unfold Reserve_unpack.
  assert (Har : array_ref bs 0 RESERVE_LEN = Done (take RESERVE_LEN bs)).
  { unfold array_ref, slice. destruct (Nat.leb_spec (0 + RESERVE_LEN) (length bs)); [done|lia]. }
  rewrite Har.
  assert (HL : RESERVE_LEN = 619%nat) by done.
  unfold RESERVE_FIELDS. cbn [array_refs]. rewrite !drop_drop.
  cbn [Nat.add PUBKEY_BYTES RATE_LIMITER_LEN].
  assert (Hbyte : forall off, (off + 1 <= RESERVE_LEN)%nat ->
            from_le_bytes (take 1 (drop off (take RESERVE_LEN bs))) = bs !!! off).
  { intros off Hoff. rewrite take_field by done. apply from_le_byte. lia. }
  assert (Hpos : forall off, (off < RESERVE_LEN)%nat -> 0 <= bs !!! off)
    by (intros off Hoff; apply byte_nonneg; [done|lia]).
  pose proof (Hbyte 0%nat ltac:(lia)) as HV. rewrite drop_0 in HV. rewrite HV.
  fold (version_byte bs).
  destruct (Z.gtb_spec (version_byte bs) PROGRAM_VERSION); [left; by split|right].
  destruct (unpack_bool_byte _ (stale_byte bs) (Hbyte 9%nat ltac:(lia))
              (Hpos 9%nat ltac:(lia))) as [[Hs [st ->]]|[Hs ->]];
    [|left; split_and!; [lia|by left|done]].
  destruct (unpack_extra_byte _ (take 16 (drop 522 (take RESERVE_LEN bs))) (extra_flag_byte bs)
              (Hbyte 521%nat ltac:(lia))
              (Hpos 521%nat ltac:(lia))) as [[Hx [ex ->]]|[Hx ->]];
    [|left; split_and!; [lia|by right|done]].
  right. rewrite (Hbyte 469%nat) by lia. fold (asset_type_byte bs).
  destruct (reserve_type_byte (asset_type_byte bs) (Hpos 469%nat ltac:(lia))) as [[Ha [t ->]]|[Ha ->]];
    [right|left; split_and!; try lia; done].
  split_and!; try lia.
  destruct (limiter_unpack_Ok (take RATE_LIMITER_LEN (drop 389 (take RESERVE_LEN bs)))) as [lim Hlim].
  { apply length_take_drop. rewrite length_take, Nat.min_l by done. unfold RATE_LIMITER_LEN. lia. }
  match goal with |- context [limiter_unpack ?x] => change (limiter_unpack x) with
    (limiter_unpack (take RATE_LIMITER_LEN (drop 389 (take RESERVE_LEN bs)))) end.
  rewrite Hlim. eexists; split; [reflexivity|].
  cbn [liquidity config liq_mint_pubkey available_amount rcfg_fees flash_loan_fee_wad].
  unfold PUBKEY_BYTES. rewrite !take_field by lia.
  split_and!; [|done..]. constructor; cbn [version config optimal_utilization_rate
    max_utilization_rate liquidation_bonus max_liquidation_bonus liquidation_threshold
    max_liquidation_threshold max_borrow_rate super_max_borrow_rate protocol_liquidation_fee
    attributed_borrow_limit_open attributed_borrow_limit_close extra_oracle_pubkey].
  all: try lia.
  - split; unfold limit_or_max; by case_match_goal; [|apply Z.eqb_neq].
  - unfold unpack_oracle. case_decide; [done|]. congruence.
Qed.

Lemma Reserve_unpack_short bs : (length bs < RESERVE_LEN)%nat -> Reserve_unpack bs = Panic.
Proof. intros H. unfold Reserve_unpack. by apply array_ref_Panic in H as ->. Qed.

(** C29: decoding a reserve account panics exactly when the account is shorter
    than the record, or its header and flags are valid and its asset-type
    byte is neither 0 nor 1; every other outcome is an error or a canonical
    reserve. *)
Theorem reserve_unpack_outcome bs :
  Forall is_u8 bs ->
  (Reserve_unpack bs = Panic <->
     (length bs < RESERVE_LEN)%nat
     \/ (version_byte bs <= PROGRAM_VERSION /\ stale_byte bs <= 1 /\ extra_flag_byte bs <= 1
         /\ 1 < asset_type_byte bs))
  /\ (forall e, Reserve_unpack bs = Done (Err e) -> e = InvalidAccountData)
  /\ (forall r, Reserve_unpack bs = Done (Ok r) -> Reserve_canonical r).
Proof.
  intros Hb. destruct (Nat.lt_ge_cases (length bs) RESERVE_LEN) as [Hs|Hl].
  { rewrite Reserve_unpack_short by done. split_and!; try done. split; [by left|done]. }
  destruct (Reserve_unpack_cases bs Hb Hl)
    as [[? ->]|[(? & ? & ->)|[(? & ? & ? & ? & ->)|(? & ? & ? & ? & r & -> & Hr & _)]]];
    split_and!; try done; try (by intros ? [= <-]); try (split; [done|lia]).
  split; [by right|done].
Qed.

Lemma reserve_unpack_outcome_witness :
  (Reserve_unpack (replicate 100 0) = Panic <->
     (length (replicate 100 0) < RESERVE_LEN)%nat
     \/ (version_byte (replicate 100 0) <= PROGRAM_VERSION
         /\ stale_byte (replicate 100 0) <= 1 /\ extra_flag_byte (replicate 100 0) <= 1
         /\ 1 < asset_type_byte (replicate 100 0)))
  /\ (forall e, Reserve_unpack (replicate 100 0) = Done (Err e) -> e = InvalidAccountData)
  /\ (forall r, Reserve_unpack (replicate 100 0) = Done (Ok r) -> Reserve_canonical r).
Proof.
  apply (reserve_unpack_outcome (replicate 100 0)).
  apply Forall_replicate. unfold in_u. by vm_compute.
Defined.

(** A reserve for the witnesses. *)
Definition sample_key (b : Z) : Pubkey := mkPubkey (replicate PUBKEY_BYTES b).
Definition sample_reserve : Reserve :=
  mkReserve 1 (mkLastUpdate 7 false) (sample_key 1)
    (mkReserveLiquidity (sample_key 9) 6 (sample_key 2) (sample_key 3) (sample_key 4)
       1000 (3 * WAD) WAD 0 (2 * WAD) (2 * WAD) (Some WAD))
    (mkReserveCollateral (sample_key 5) 500 (sample_key 6))
    (mkReserveConfig 80 90 75 5 10 80 85 0 8 30 150 (mkReserveFees 10 5 20) 1000 1000
       (sample_key 7) 10 5 0 Regular (-25) None 100 200)
    (RateLimiter_new (mkRateLimiterConfig 10 100) 10) WAD.

Lemma in_u_b w x : (0 <=? x) && (x <? 2 ^ w) = true -> in_u w x.
Proof. intros [H1%Z.leb_le H2%Z.ltb_lt]%andb_prop. by split. Qed.

(** Closes the range and length obligations of a concrete record. *)
Ltac concrete_wf :=
  lazymatch goal with
  | |- in_u _ _ => apply in_u_b; vm_compute; reflexivity
  | |- key_wf _ => vm_compute; reflexivity
  | |- is_i64 _ => split; vm_compute; congruence
  | |- _ <= _ => vm_compute; congruence
  | |- _ <> _ => vm_compute; congruence
  | |- Forall _ [] => constructor
  | |- Forall _ _ => constructor; concrete_wf
  | |- _ /\ _ => split; concrete_wf
  | |- forall p, Some _ = Some p -> _ => intros p [= <-]; concrete_wf
  | |- forall p, _ = Some p -> _ => intros p H; vm_compute in H; first [discriminate H | injection H as <-; concrete_wf]
  | |- _ => constructor; concrete_wf
  end.

Lemma sample_reserve_wf : Reserve_wf sample_reserve /\ Reserve_canonical sample_reserve.
Proof. concrete_wf. Qed.

Lemma reserve_roundtrip_witness :
  exists out, Reserve_pack sample_reserve (replicate 619 0) = Done out
    /\ length out = length (replicate 619 0)
    /\ drop RESERVE_LEN out = drop RESERVE_LEN (replicate 619 0)
    /\ Reserve_unpack out = Done (Ok sample_reserve)
    /\ forall r' dst', Reserve_wf r' -> Reserve_canonical r' -> (RESERVE_LEN <= length dst')%nat ->
         Reserve_pack r' dst' = Done out -> r' = sample_reserve.
Proof.
  apply (reserve_roundtrip sample_reserve (replicate 619 0)).
  - apply sample_reserve_wf.
  - apply sample_reserve_wf.
  - rewrite length_replicate. unfold RESERVE_LEN. lia.
Defined.
