(* ===== verification/SolendOps.v ===== *)
(** * patches/solend-sdk/src/state/reserve.rs: what a Save reserve does.

    Deposits, withdrawals, borrowing, repayment, interest and fees, as methods
    of [ReserveLiquidity], [ReserveCollateral], [ReserveFees] and [Reserve]
    over [StateErr]. The data and the codec are in [SolendReserve], the
    liquidation of obligations in [SolendLiquidation]. *)

From Stdlib Require Import ZArith Lia.
From stdpp Require Import base option relations.
From S2P Require Import Prelude StateErr CoreTypes SolendMath SolendState SolendReserve.

Open Scope rust_scope.
Open Scope state_scope.

(** [TryMul<Rate>] and [TryDiv<Rate>] for [Decimal] convert the rate first. *)
Definition dec_try_mul_rate (x : Decimal) (r : Rate) : result Decimal ProgramError :=
  dec_try_mul x (dec_from_rate r).
Definition dec_try_div_rate (x : Decimal) (r : Rate) : result Decimal ProgramError :=
  dec_try_div x (dec_from_rate r).

(** [Rate::try_pow] as a total function: the fuel of [rate_try_pow] is enough
    for every [u64] exponent ([rate_pow_total]). *)
Definition rate_pow (base : Rate) (exp : Z) : result Rate ProgramError :=
  default (Err overflow) (rate_try_pow base exp).

Abbreviation Method S A := (ST ProgramError S A).

(** ** ReserveLiquidity *)

Definition with_available (v : Z) (l : ReserveLiquidity) : ReserveLiquidity :=
  mkReserveLiquidity (liq_mint_pubkey l) (mint_decimals l) (liq_supply_pubkey l)
    (pyth_oracle_pubkey l) (switchboard_oracle_pubkey l) v (borrowed_amount_wads l)
    (cumulative_borrow_rate_wads l) (accumulated_protocol_fees_wads l) (market_price l)
    (smoothed_market_price l) (extra_market_price l).
Definition with_borrowed (v : Decimal) (l : ReserveLiquidity) : ReserveLiquidity :=
  mkReserveLiquidity (liq_mint_pubkey l) (mint_decimals l) (liq_supply_pubkey l)
    (pyth_oracle_pubkey l) (switchboard_oracle_pubkey l) (available_amount l) v
    (cumulative_borrow_rate_wads l) (accumulated_protocol_fees_wads l) (market_price l)
    (smoothed_market_price l) (extra_market_price l).
Definition with_cumulative (v : Decimal) (l : ReserveLiquidity) : ReserveLiquidity :=
  mkReserveLiquidity (liq_mint_pubkey l) (mint_decimals l) (liq_supply_pubkey l)
    (pyth_oracle_pubkey l) (switchboard_oracle_pubkey l) (available_amount l)
    (borrowed_amount_wads l) v (accumulated_protocol_fees_wads l) (market_price l)
    (smoothed_market_price l) (extra_market_price l).
Definition with_fees (v : Decimal) (l : ReserveLiquidity) : ReserveLiquidity :=
  mkReserveLiquidity (liq_mint_pubkey l) (mint_decimals l) (liq_supply_pubkey l)
    (pyth_oracle_pubkey l) (switchboard_oracle_pubkey l) (available_amount l)
    (borrowed_amount_wads l) (cumulative_borrow_rate_wads l) v (market_price l)
    (smoothed_market_price l) (extra_market_price l).

Record NewReserveLiquidityParams := mkNewReserveLiquidityParams {
  nrl_mint_pubkey : Pubkey;
  nrl_mint_decimals : Z;
  nrl_supply_pubkey : Pubkey;
  nrl_pyth_oracle_pubkey : Pubkey;
  nrl_switchboard_oracle_pubkey : Pubkey;
  nrl_market_price : Decimal;
  nrl_smoothed_market_price : Decimal
}.

Definition ReserveLiquidity_new (p : NewReserveLiquidityParams) : ReserveLiquidity :=
  mkReserveLiquidity (nrl_mint_pubkey p) (nrl_mint_decimals p) (nrl_supply_pubkey p)
    (nrl_pyth_oracle_pubkey p) (nrl_switchboard_oracle_pubkey p) 0 dec_zero dec_one dec_zero
    (nrl_market_price p) (nrl_smoothed_market_price p) None.

Definition total_supply (l : ReserveLiquidity) : result Decimal ProgramError :=
  let? a := dec_try_add (dec_from_u64 (available_amount l)) (borrowed_amount_wads l) in
  dec_try_sub a (accumulated_protocol_fees_wads l).

Definition liquidity_deposit (liquidity_amount : Z) : Method ReserveLiquidity unit :=
  let* v := st_get (fun l => ok_or (checked_add 64 (available_amount l) liquidity_amount) overflow) in
  st_set (with_available v).

Definition liquidity_withdraw (liquidity_amount : Z) : Method ReserveLiquidity unit :=
  do* st_get (fun l => if liquidity_amount >? available_amount l
                       then Err (Custom InsufficientLiquidity) else Ok tt) in
  let* v := st_get (fun l => ok_or (checked_sub 64 (available_amount l) liquidity_amount) overflow) in
  st_set (with_available v).

Definition liquidity_borrow (borrow_decimal : Decimal) : Method ReserveLiquidity unit :=
  let* borrow_amount := st_get (fun _ => dec_try_floor_u64 borrow_decimal) in
  do* st_get (fun l => if borrow_amount >? available_amount l
                       then Err (Custom InsufficientLiquidity) else Ok tt) in
  let* v := st_get (fun l => ok_or (checked_sub 64 (available_amount l) borrow_amount) overflow) in
  do* st_set (with_available v) in
  let* b := st_get (fun l => dec_try_add (borrowed_amount_wads l) borrow_decimal) in
  st_set (with_borrowed b).

Definition liquidity_repay (repay_amount : Z) (settle_amount : Decimal)
    : Method ReserveLiquidity unit :=
  let* v := st_get (fun l => ok_or (checked_add 64 (available_amount l) repay_amount) overflow) in
  do* st_set (with_available v) in
  let* b := st_get (fun l => dec_try_sub (borrowed_amount_wads l)
                               (Z.min settle_amount (borrowed_amount_wads l))) in
  st_set (with_borrowed b).

Definition forgive_debt (liquidity_amount : Decimal) : Method ReserveLiquidity unit :=
  let* b := st_get (fun l => dec_try_sub (borrowed_amount_wads l) liquidity_amount) in
  st_set (with_borrowed b).

Definition donate (donate_amount : Z) : Method ReserveLiquidity unit :=
  let* v := st_get (fun l => ok_or (checked_add 64 (available_amount l) donate_amount) overflow) in
  st_set (with_available v).

Definition redeem_fees (withdraw_amount : Z) : Method ReserveLiquidity unit :=
  let* v := st_get (fun l => ok_or (checked_sub 64 (available_amount l) withdraw_amount) overflow) in
  do* st_set (with_available v) in
  let* f := st_get (fun l => dec_try_sub (accumulated_protocol_fees_wads l)
                               (dec_from_u64 withdraw_amount)) in
  st_set (with_fees f).

Definition utilization_rate (l : ReserveLiquidity) : result Rate ProgramError :=
  let? supply := total_supply l in
  if (supply =? dec_zero) || (borrowed_amount_wads l =? dec_zero) then Ok rate_zero
  else
    let? denominator := dec_try_add (borrowed_amount_wads l) (dec_from_u64 (available_amount l)) in
    let? u := dec_try_div (borrowed_amount_wads l) denominator in
    rate_try_from u.

Definition compound_interest (current_borrow_rate : Rate) (slots_elapsed : Z) (take_rate : Rate)
    : Method ReserveLiquidity unit :=
  let* compounded_interest_rate := st_get (fun _ =>
    let? slot_interest_rate := rate_try_div_u64 current_borrow_rate SLOTS_PER_YEAR in
    let? base := rate_try_add rate_one slot_interest_rate in
    rate_pow base slots_elapsed) in
  let* c := st_get (fun l => dec_try_mul_rate (cumulative_borrow_rate_wads l)
                               compounded_interest_rate) in
  do* st_set (with_cumulative c) in
  let* net_new_debt := st_get (fun l =>
    let? x := dec_try_mul_rate (borrowed_amount_wads l) compounded_interest_rate in
    dec_try_sub x (borrowed_amount_wads l)) in
  let* f := st_get (fun l =>
    let? x := dec_try_mul_rate net_new_debt take_rate in
    dec_try_add x (accumulated_protocol_fees_wads l)) in
  do* st_set (with_fees f) in
  let* b := st_get (fun l => dec_try_add (borrowed_amount_wads l) net_new_debt) in
  st_set (with_borrowed b).

(** ** ReserveCollateral and CollateralExchangeRate *)

Definition with_supply (v : Z) (c : ReserveCollateral) : ReserveCollateral :=
  mkReserveCollateral (col_mint_pubkey c) v (col_supply_pubkey c).

Record NewReserveCollateralParams := mkNewReserveCollateralParams {
  nrc_mint_pubkey : Pubkey;
  nrc_supply_pubkey : Pubkey
}.

Definition ReserveCollateral_new (p : NewReserveCollateralParams) : ReserveCollateral :=
  mkReserveCollateral (nrc_mint_pubkey p) 0 (nrc_supply_pubkey p).

Definition collateral_mint (collateral_amount : Z) : Method ReserveCollateral unit :=
  let* v := st_get (fun c => ok_or (checked_add 64 (mint_total_supply c) collateral_amount) overflow) in
  st_set (with_supply v).

Definition collateral_burn (collateral_amount : Z) : Method ReserveCollateral unit :=
  let* v := st_get (fun c => ok_or (checked_sub 64 (mint_total_supply c) collateral_amount) overflow) in
  st_set (with_supply v).

(** [CollateralExchangeRate] wraps a [Rate]. *)
Definition exchange_rate (total_liquidity : Decimal) (c : ReserveCollateral)
    : result Rate ProgramError :=
  if (mint_total_supply c =? 0) || (total_liquidity =? dec_zero)
  then Ok (rate_from_scaled_val INITIAL_COLLATERAL_RATE)
  else
    let? q := dec_try_div (dec_from_u64 (mint_total_supply c)) total_liquidity in
    rate_try_from q.

Definition decimal_collateral_to_liquidity (rate : Rate) (collateral_amount : Decimal)
    : result Decimal ProgramError := dec_try_div_rate collateral_amount rate.
Definition collateral_to_liquidity (rate : Rate) (collateral_amount : Z) : result Z ProgramError :=
  let? d := decimal_collateral_to_liquidity rate (dec_from_u64 collateral_amount) in
  dec_try_floor_u64 d.
Definition decimal_liquidity_to_collateral (rate : Rate) (liquidity_amount : Decimal)
    : result Decimal ProgramError := dec_try_mul_rate liquidity_amount rate.
Definition liquidity_to_collateral (rate : Rate) (liquidity_amount : Z) : result Z ProgramError :=
  let? d := decimal_liquidity_to_collateral rate (dec_from_u64 liquidity_amount) in
  dec_try_floor_u64 d.

(** ** ReserveFees *)

Inductive FeeCalculation := Exclusive | Inclusive.

Definition calculate_fees (fees : ReserveFees) (amount : Decimal) (fee_wad : Z)
    (fee_calculation : FeeCalculation) : result (Z * Z) ProgramError :=
  let borrow_fee_rate := rate_from_scaled_val fee_wad in
  let host_fee_rate := rate_from_percent (host_fee_percentage fees) in
  if (borrow_fee_rate >? rate_zero) && (amount >? dec_zero) then
    let need_to_assess_host_fee := host_fee_rate >? rate_zero in
    let minimum_fee := if need_to_assess_host_fee then 2 else 1 in
    let? borrow_fee_amount :=
      match fee_calculation with
      | Exclusive => dec_try_mul_rate amount borrow_fee_rate
      | Inclusive =>
          let? d := rate_try_add borrow_fee_rate rate_one in
          let? borrow_fee_rate := rate_try_div borrow_fee_rate d in
          dec_try_mul_rate amount borrow_fee_rate
      end in
    let borrow_fee_decimal := Z.max borrow_fee_amount (dec_from_u64 minimum_fee) in
    if borrow_fee_decimal >=? amount then Err (Custom BorrowTooSmall)
    else
      let? borrow_fee := dec_try_round_u64 borrow_fee_decimal in
      let? host_fee :=
        (if need_to_assess_host_fee then
           let? h := dec_try_mul_rate borrow_fee_decimal host_fee_rate in
           let? h := dec_try_round_u64 h in
           Ok (Z.max h 1)
         else Ok 0) in
      Ok (borrow_fee, host_fee)
  else Ok (0, 0).

Definition calculate_borrow_fees (fees : ReserveFees) (borrow_amount : Decimal)
    (fee_calculation : FeeCalculation) : result (Z * Z) ProgramError :=
  calculate_fees fees borrow_amount (borrow_fee_wad fees) fee_calculation.

Definition calculate_flash_loan_fees (fees : ReserveFees) (flash_loan_amount : Decimal)
    : result (Z * Z) ProgramError :=
  let? (total_fees, host_fee) :=
    calculate_fees fees flash_loan_amount (flash_loan_fee_wad fees) Exclusive in
  let? origination_fee := ok_or (checked_sub 64 total_fees host_fee) overflow in
  Ok (origination_fee, host_fee).

(** ** Reserve *)

Definition with_liquidity (l : ReserveLiquidity) (r : Reserve) : Reserve :=
  mkReserve (version r) (last_update r) (lending_market r) l (collateral r) (config r)
    (rate_limiter r) (attributed_borrow_value r).
Definition with_collateral (c : ReserveCollateral) (r : Reserve) : Reserve :=
  mkReserve (version r) (last_update r) (lending_market r) (liquidity r) c (config r)
    (rate_limiter r) (attributed_borrow_value r).
(** [self.liquidity.m()] and [self.collateral.m()]. *)
Definition on_liquidity {A} : Method ReserveLiquidity A -> Method Reserve A :=
  zoom liquidity with_liquidity.
Definition on_collateral {A} : Method ReserveCollateral A -> Method Reserve A :=
  zoom collateral with_collateral.

Record InitReserveParams := mkInitReserveParams {
  ir_current_slot : Z;
  ir_lending_market : Pubkey;
  ir_liquidity : ReserveLiquidity;
  ir_collateral : ReserveCollateral;
  ir_config : ReserveConfig;
  ir_rate_limiter_config : RateLimiterConfig
}.

(** [init] assigns every field, so the reserve it starts from ([default] in
    [new]) does not matter. *)
Definition Reserve_init (p : InitReserveParams) (_ : Reserve) : Reserve :=
  mkReserve PROGRAM_VERSION (LastUpdate_new (ir_current_slot p)) (ir_lending_market p)
    (ir_liquidity p) (ir_collateral p) (ir_config p)
    (RateLimiter_new (ir_rate_limiter_config p) (ir_current_slot p)) dec_zero.

(** The [unwrap]s are of operations on constants and of [from_bps]. *)
Definition borrow_weight (r : Reserve) : panicking Decimal :=
  let! w := dec_from_bps (added_borrow_weight_bps (config r)) in
  unwrap (dec_try_add dec_one w).

(** [price_weight_bps as u64] of a positive [i64]. *)
Definition price_scale (r : Reserve) : panicking Decimal :=
  let scaled_price_offset_bps :=
    Z.min MAX_SCALED_PRICE_OFFSET_BPS
      (Z.max MIN_SCALED_PRICE_OFFSET_BPS (scaled_price_offset_bps (config r))) in
  let price_weight_bps := 10000 + scaled_price_offset_bps in
  dec_from_bps (wrap 64 price_weight_bps).

Definition Reserve_loan_to_value_ratio (r : Reserve) : Rate :=
  rate_from_percent (loan_to_value_ratio (config r)).

Definition price_upper_bound (r : Reserve) : Decimal :=
  let price := Z.max (market_price (liquidity r)) (smoothed_market_price (liquidity r)) in
  match extra_market_price (liquidity r) with
  | Some extra_price => Z.max price extra_price
  | None => price
  end.
Definition price_lower_bound (r : Reserve) : Decimal :=
  let price := Z.min (market_price (liquidity r)) (smoothed_market_price (liquidity r)) in
  match extra_market_price (liquidity r) with
  | Some extra_price => Z.min price extra_price
  | None => price
  end.

(** [10u128.checked_pow(mint_decimals)], the size of one token. *)
Definition token_units (r : Reserve) : result Z ProgramError :=
  ok_or (checked_pow 128 10 (mint_decimals (liquidity r))) overflow.

Definition usd_to_liquidity_amount_lower_bound (quote_amount : Decimal) (r : Reserve)
    : result Decimal ProgramError :=
  let? units := token_units r in
  let? x := dec_try_mul quote_amount (dec_from_u128 units) in
  dec_try_div x (price_upper_bound r).

(** The three market values differ in the price. The product is evaluated
    before the power of ten. *)
Definition market_value_at (price : Decimal) (liquidity_amount : Decimal) (r : Reserve)
    : result Decimal ProgramError :=
  let? x := dec_try_mul price liquidity_amount in
  let? units := token_units r in
  dec_try_div x (dec_from_u128 units).
Definition Reserve_market_value (liquidity_amount : Decimal) (r : Reserve) : result Decimal ProgramError :=
  market_value_at (market_price (liquidity r)) liquidity_amount r.
Definition market_value_upper_bound (liquidity_amount : Decimal) (r : Reserve)
    : result Decimal ProgramError :=
  market_value_at (price_upper_bound r) liquidity_amount r.
Definition market_value_lower_bound (liquidity_amount : Decimal) (r : Reserve)
    : result Decimal ProgramError :=
  market_value_at (price_lower_bound r) liquidity_amount r.

Definition collateral_exchange_rate (r : Reserve) : result Rate ProgramError :=
  let? total_liquidity := total_supply (liquidity r) in
  exchange_rate total_liquidity (collateral r).

Definition deposit_liquidity (liquidity_amount : Z) : Method Reserve Z :=
  let* collateral_amount := st_get (fun r =>
    let? rate := collateral_exchange_rate r in
    liquidity_to_collateral rate liquidity_amount) in
  do* on_liquidity (liquidity_deposit liquidity_amount) in
  do* on_collateral (collateral_mint collateral_amount) in
  st_ret collateral_amount.

Definition redeem_collateral (collateral_amount : Z) : Method Reserve Z :=
  let* liquidity_amount := st_get (fun r =>
    let? collateral_exchange_rate := collateral_exchange_rate r in
    collateral_to_liquidity collateral_exchange_rate collateral_amount) in
  do* on_collateral (collateral_burn collateral_amount) in
  do* on_liquidity (liquidity_withdraw liquidity_amount) in
  st_ret liquidity_amount.

(** [current_borrow_rate] reads the configuration and the utilization. *)
Definition borrow_rate_at (c : ReserveConfig) (utilization_rate : Rate)
    : result Rate ProgramError :=
  let optimal_utilization := rate_from_percent (optimal_utilization_rate c) in
  let max_utilization := rate_from_percent (max_utilization_rate c) in
  if utilization_rate <=? optimal_utilization then
    let min_rate := rate_from_percent (min_borrow_rate c) in
    if optimal_utilization =? rate_zero then Ok min_rate
    else
      let? normalized_rate := rate_try_div utilization_rate optimal_utilization in
      let? range := ok_or (checked_sub 8 (optimal_borrow_rate c) (min_borrow_rate c)) overflow in
      let? x := rate_try_mul normalized_rate (rate_from_percent range) in
      rate_try_add x min_rate
  else if utilization_rate <=? max_utilization then
    let? num := rate_try_sub utilization_rate optimal_utilization in
    let? den := rate_try_sub max_utilization optimal_utilization in
    let? weight := rate_try_div num den in
    let optimal_rate := rate_from_percent (optimal_borrow_rate c) in
    let? rate_range := rate_try_sub (rate_from_percent (max_borrow_rate c)) optimal_rate in
    let? x := rate_try_mul weight rate_range in
    rate_try_add x optimal_rate
  else
    let? num := rate_try_sub utilization_rate max_utilization in
    let? rest := ok_or (checked_sub 8 100 (max_utilization_rate c)) overflow in
    let? weight := rate_try_div num (rate_from_percent rest) in
    let max_rate := rate_from_percent (max_borrow_rate c) in
    let? rate_range := rate_try_sub (rate_from_percent_u64 (super_max_borrow_rate c)) max_rate in
    let? x := dec_try_mul (dec_from_rate weight) (dec_from_rate rate_range) in
    let? y := dec_try_add x (dec_from_rate max_rate) in
    rate_try_from y.

Definition current_borrow_rate (r : Reserve) : result Rate ProgramError :=
  let? utilization := utilization_rate (liquidity r) in
  borrow_rate_at (config r) utilization.

Definition Reserve_accrue_interest (current_slot : Z) : Method Reserve unit :=
  let* elapsed := st_get (fun r => slots_elapsed (last_update r) current_slot) in
  if elapsed >? 0 then
    let* current_rate := st_get current_borrow_rate in
    let* take_rate := st_get (fun r => Ok (rate_from_percent (protocol_take_rate (config r)))) in
    on_liquidity (compound_interest current_rate elapsed take_rate)
  else st_ret tt.

Record CalculateBorrowResult := mkCalculateBorrowResult {
  cb_borrow_amount : Decimal;
  cb_receive_amount : Z;
  cb_borrow_fee : Z;
  cb_host_fee : Z
}.

(** [amount_to_borrow == u64::MAX]: as much as the limits allow. *)
Definition calculate_max_borrow (decimals : Z) (weight : Decimal) (max_borrow_value : Decimal)
    (remaining_reserve_borrow : Decimal) (r : Reserve) : result CalculateBorrowResult ProgramError :=
  let? x := dec_try_mul_u64 max_borrow_value decimals in
  let? x := dec_try_div x (price_upper_bound r) in
  let? x := dec_try_div x weight in
  let borrow_amount :=
    Z.min (Z.min x remaining_reserve_borrow) (dec_from_u64 (available_amount (liquidity r))) in
  let? (borrow_fee, host_fee) :=
    calculate_borrow_fees (rcfg_fees (config r)) borrow_amount Inclusive in
  let? whole := dec_try_floor_u64 borrow_amount in
  let? receive_amount := ok_or (checked_sub 64 whole borrow_fee) overflow in
  Ok (mkCalculateBorrowResult borrow_amount receive_amount borrow_fee host_fee).

Definition calculate_exact_borrow (amount_to_borrow : Z) (weight : Decimal)
    (max_borrow_value : Decimal) (r : Reserve) : result CalculateBorrowResult ProgramError :=
  let receive_amount := amount_to_borrow in
  let borrow_amount := dec_from_u64 receive_amount in
  let? (borrow_fee, host_fee) :=
    calculate_borrow_fees (rcfg_fees (config r)) borrow_amount Exclusive in
  let? borrow_amount := dec_try_add borrow_amount (dec_from_u64 borrow_fee) in
  let? v := market_value_upper_bound borrow_amount r in
  let? borrow_value := dec_try_mul v weight in
  if borrow_value >? max_borrow_value then Err (Custom BorrowTooLarge)
  else Ok (mkCalculateBorrowResult borrow_amount receive_amount borrow_fee host_fee).

(** [borrow_weight] is evaluated inside both branches; its value does not
    depend on them and it never panics ([borrow_weight_Done]). *)
Definition calculate_borrow (amount_to_borrow : Z) (max_borrow_value : Decimal)
    (remaining_reserve_borrow : Decimal) (r : Reserve)
    : panicking (result CalculateBorrowResult ProgramError) :=
  match ok_or (checked_pow 64 10 (mint_decimals (liquidity r))) overflow with
  | Err e => Done (Err e)
  | Ok decimals =>
      let! weight := borrow_weight r in
      Done (if amount_to_borrow =? u64_max
            then calculate_max_borrow decimals weight max_borrow_value remaining_reserve_borrow r
            else calculate_exact_borrow amount_to_borrow weight max_borrow_value r)
  end.

Record CalculateRepayResult := mkCalculateRepayResult {
  cr_settle_amount : Decimal;
  cr_repay_amount : Z
}.

Definition calculate_repay (amount_to_repay : Z) (borrowed_amount : Decimal)
    : result CalculateRepayResult ProgramError :=
  let settle_amount :=
    if amount_to_repay =? u64_max then borrowed_amount
    else Z.min (dec_from_u64 amount_to_repay) borrowed_amount in
  let? repay_amount := dec_try_ceil_u64 settle_amount in
  Ok (mkCalculateRepayResult settle_amount repay_amount).

Definition calculate_redeem_fees (r : Reserve) : result Z ProgramError :=
  let? f := dec_try_floor_u64 (accumulated_protocol_fees_wads (liquidity r)) in
  Ok (Z.min (available_amount (liquidity r)) f).

(* ------------------------------------------------------------------ *)
(** ** Lemmas: compounding *)

Lemma rate_pow_total base exp :
  in_u 64 exp -> rate_try_pow base exp = Some (rate_pow base exp).
Proof.
  intros H. unfold rate_pow.
  assert (is_Some (rate_try_pow base exp)) as Hs
    by (rewrite rate_try_pow_eq; exact (try_pow_loop_fuel 64 exp base _ H)).
  revert Hs. generalize (rate_try_pow base exp). by intros o [res ->].
Qed.

Lemma rate_pow_Ok base exp r :
  rate_pow base exp = Ok r -> rate_try_pow base exp = Some (Ok r).
Proof.
  unfold rate_pow. generalize (rate_try_pow base exp). intros [x|]; [by intros <-|done].
Qed.

Lemma rate_pow_ge_one base exp r : WAD <= base -> rate_pow base exp = Ok r -> WAD <= r.
Proof.
  intros Hb H. apply rate_pow_Ok in H. rewrite rate_try_pow_eq in H.
  assert (Hret : WAD <= if negb (exp mod 2 =? 0) then base else WAD)
    by (clear H; destruct (negb _); [done|reflexivity]).
  eapply Z.le_trans; [exact Hret|]. exact (try_pow_loop_lower 64 exp base _ r Hb Hret H).
Qed.

Lemma try_pow_loop_typed fuel exp base ret r :
  0 <= base -> Rate_wf ret -> try_pow_loop fuel exp base ret = Some (Ok r) -> Rate_wf r.
Proof.
  revert exp base ret. induction fuel as [|fuel IH]; intros exp base ret Hb Hr;
    cbn [try_pow_loop]; destruct (exp >? 0); try done; try by intros [= <-].
  destruct (rate_try_mul base base) as [base'|] eqn:E1; [|done].
  apply rate_try_mul_Ok in E1 as [-> _].
  assert (0 <= base * base / WAD) by (apply Z.div_pos; [nia|done]).
  destruct (negb _); [|by apply IH].
  destruct (rate_try_mul ret _) as [ret'|] eqn:E2; [|done].
  apply rate_try_mul_Ok in E2 as [-> [H1 H2]]. apply IH; [done|].
  revert H1 H2. generalize (ret * (base * base / WAD)). intros p H1 H2.
  split; [by apply Z.div_pos|]. eapply Z.le_lt_trans; [|exact H2].
  apply Z.div_le_upper_bound; [done|]. unfold WAD. lia.
Qed.

Lemma rate_pow_typed base exp r : Rate_wf base -> rate_pow base exp = Ok r -> Rate_wf r.
Proof.
  intros Hb H. apply rate_pow_Ok in H. rewrite rate_try_pow_eq in H.
  assert (Hret : Rate_wf (if negb (exp mod 2 =? 0) then base else WAD))
    by (clear H; destruct (negb _); [done|split; by vm_compute]).
  exact (try_pow_loop_typed 64 exp base _ r (proj1 Hb) Hret H).
Qed.

(** Tactics treat the power as a symbol from here on. *)
#[global] Opaque rate_pow.

(** ** Lemmas: what the methods do when they succeed *)

(** Total supply in wads, without the overflow checks. *)
Definition supply_wads (l : ReserveLiquidity) : Z :=
  available_amount l * WAD + borrowed_amount_wads l - accumulated_protocol_fees_wads l.

Lemma total_supply_Ok l s : total_supply l = Ok s -> s = supply_wads l /\ 0 <= s.
Proof.
  unfold total_supply. intros H.
  destruct (dec_try_add _ _) as [a|] eqn:Ea; [|done]. apply dec_try_add_Ok in Ea as [-> _].
  apply dec_try_sub_Ok in H as [-> [H _]]. unfold dec_from_u64, supply_wads in *. lia.
Qed.

Lemma liquidity_deposit_Ok n l l' v :
  liquidity_deposit n l = (l', Ok v) ->
  l' = with_available (available_amount l + n) l /\ in_u 64 (available_amount l + n).
Proof. intros H. unfold liquidity_deposit in H. st_ok H. by apply ok_or_Ok, to_u_Some in Hg as [-> ?]. Qed.

Lemma liquidity_withdraw_Ok n l l' v :
  liquidity_withdraw n l = (l', Ok v) ->
  l' = with_available (available_amount l - n) l /\ n <= available_amount l.
Proof.
  intros H. unfold liquidity_withdraw in H. st_ok H.
  apply ok_or_Ok, to_u_Some in Hg0 as [-> ?].
  destruct (Z.gtb_spec n (available_amount l)); [done|]. by split.
Qed.

Lemma liquidity_borrow_Ok d l l' v :
  liquidity_borrow d l = (l', Ok v) ->
  l' = with_borrowed (borrowed_amount_wads l + d) (with_available (available_amount l - d / WAD) l)
  /\ d / WAD <= available_amount l /\ in_u 64 (d / WAD).
Proof.
  intros H. unfold liquidity_borrow in H. st_ok H.
  apply dec_try_floor_u64_Ok in Hg as [-> ?]. apply ok_or_Ok, to_u_Some in Hg1 as [-> ?].
  apply dec_try_add_Ok in Hg2 as [-> _].
  destruct (Z.gtb_spec (d / WAD) (available_amount l)); [done|]. by split.
Qed.

Lemma liquidity_repay_Ok n d l l' v :
  liquidity_repay n d l = (l', Ok v) ->
  l' = with_borrowed (borrowed_amount_wads l - Z.min d (borrowed_amount_wads l))
         (with_available (available_amount l + n) l).
Proof.
  intros H. unfold liquidity_repay in H. st_ok H.
  apply ok_or_Ok, to_u_Some in Hg as [-> ?]. by apply dec_try_sub_Ok in Hg0 as [-> _].
Qed.

Lemma redeem_fees_Ok n l l' v :
  redeem_fees n l = (l', Ok v) ->
  l' = with_fees (accumulated_protocol_fees_wads l - WAD * n) (with_available (available_amount l - n) l)
  /\ n <= available_amount l.
Proof.
  intros H. unfold redeem_fees in H. st_ok H.
  apply ok_or_Ok, to_u_Some in Hg as [-> [? _]]. apply dec_try_sub_Ok in Hg0 as [-> _].
  split; [done|lia].
Qed.

(** Compounding at rate [q] multiplies the borrow index and the debt by [q]
    rounded down, and books the protocol's share of the new debt. *)
Lemma compound_interest_Ok rate elapsed take l l' v :
  compound_interest rate elapsed take l = (l', Ok v) ->
  exists q debt,
    rate_pow (WAD + rate / SLOTS_PER_YEAR) elapsed = Ok q /\ (0 <= rate -> WAD <= q)
    /\ debt = borrowed_amount_wads l * q / WAD - borrowed_amount_wads l /\ 0 <= debt
    /\ l' = with_borrowed (borrowed_amount_wads l + debt)
              (with_fees (debt * take / WAD + accumulated_protocol_fees_wads l)
                 (with_cumulative (cumulative_borrow_rate_wads l * q / WAD) l)).
Proof.
  intros H. unfold compound_interest in H. st_ok H.
  destruct (rate_try_div_u64 rate SLOTS_PER_YEAR) as [s|] eqn:Es; [|done].
  unfold rate_try_div_u64 in Es. apply ok_or_Ok, checked_div_Some in Es as [_ ->].
  destruct (rate_try_add rate_one _) as [b|] eqn:Eb; [|done].
  unfold rate_try_add in Eb. apply ok_or_Ok, to_u_Some in Eb as [-> _].
  apply dec_try_mul_Ok in Hg0 as [-> _].
  cbn [with_cumulative borrowed_amount_wads accumulated_protocol_fees_wads with_fees] in *.
  destruct (dec_try_mul_rate _ _) as [x|] eqn:Ex; [|done]. apply dec_try_mul_Ok in Ex as [-> _].
  apply dec_try_sub_Ok in Hg1 as [-> [Hpos _]].
  destruct (dec_try_mul_rate _ take) as [y|] eqn:Ey; [|done]. apply dec_try_mul_Ok in Ey as [-> _].
  apply dec_try_add_Ok in Hg2 as [-> _]. apply dec_try_add_Ok in Hg3 as [-> _].
  exists a, (borrowed_amount_wads l * a / WAD - borrowed_amount_wads l).
  split_and!; try done. intros Hr. eapply rate_pow_ge_one; [|done].
  unfold rate_one. pose proof (Z.div_pos rate SLOTS_PER_YEAR ltac:(done) ltac:(done)). lia.
Qed.

(** The exchange rate, as a fraction of wads rounded down. *)
Lemma collateral_exchange_rate_Ok r rate :
  collateral_exchange_rate r = Ok rate ->
  let M := mint_total_supply (collateral r) in
  let L := supply_wads (liquidity r) in
  0 <= L /\ (rate = if (M =? 0) || (L =? 0) then WAD else WAD * M * WAD / L).
Proof.
  unfold collateral_exchange_rate, exchange_rate. intros H. cbv zeta.
  destruct (total_supply _) as [s|] eqn:Es; [|done]. apply total_supply_Ok in Es as [-> Hs].
  split; [done|]. change dec_zero with 0 in H. destruct (_ || _); [by injection H|].
  destruct (dec_try_div _ _) as [q|] eqn:Eq; [|done]. apply dec_try_div_Ok in Eq as (_ & -> & _).
  by apply rate_try_from_Ok in H as [-> _].
Qed.

Lemma liquidity_to_collateral_Ok rate x c :
  liquidity_to_collateral rate x = Ok c -> c = x * rate / WAD.
Proof.
  unfold liquidity_to_collateral, decimal_liquidity_to_collateral. intros H.
  destruct (dec_try_mul_rate _ _) as [d|] eqn:Ed; [|done]. apply dec_try_mul_Ok in Ed as [-> _].
  apply dec_try_floor_u64_Ok in H as [-> _]. unfold dec_from_u64, dec_from_rate, rate_to_scaled_val.
  f_equal. replace (WAD * x * rate) with (x * rate * WAD) by lia. by apply Z.div_mul.
Qed.

Lemma collateral_to_liquidity_Ok rate c y :
  0 <= rate -> collateral_to_liquidity rate c = Ok y -> 0 < rate /\ y = c * WAD / rate.
Proof.
  unfold collateral_to_liquidity, decimal_collateral_to_liquidity. intros Hr H.
  destruct (dec_try_div_rate _ _) as [d|] eqn:Ed; [|done].
  apply dec_try_div_Ok in Ed as (Hne & -> & _). unfold dec_from_rate, rate_to_scaled_val in *.
  split; [lia|]. apply dec_try_floor_u64_Ok in H as [-> _]. unfold dec_from_u64.
  rewrite Z.div_div by (done || lia).
  rewrite <- (Z.div_mul_cancel_r (c * WAD) rate WAD) by done. f_equal. lia.
Qed.

(* ------------------------------------------------------------------ *)
(** ** Typing and frame: the integers stay in their types, and identity and
    price fields are left alone, also when a method fails *)

Record Liquidity_ty (l : ReserveLiquidity) : Prop := {
  lt_available : is_u64 (available_amount l);
  lt_borrowed : Decimal_wf (borrowed_amount_wads l);
  lt_cumulative : Decimal_wf (cumulative_borrow_rate_wads l);
  lt_fees : Decimal_wf (accumulated_protocol_fees_wads l)
}.

(** The fields no method assigns. *)
Definition liquidity_identity (l : ReserveLiquidity) :=
  (liq_mint_pubkey l, mint_decimals l, liq_supply_pubkey l, pyth_oracle_pubkey l,
   switchboard_oracle_pubkey l, market_price l, smoothed_market_price l, extra_market_price l).

Record Liquidity_inv (l0 l : ReserveLiquidity) : Prop := {
  li_ty : Liquidity_ty l;
  li_frame : liquidity_identity l = liquidity_identity l0
}.

Lemma with_available_inv v l0 l :
  is_u64 v -> Liquidity_inv l0 l -> Liquidity_inv l0 (with_available v l).
Proof. intros Hv [[? ? ? ?] Hf]. constructor; [by constructor|exact Hf]. Qed.
Lemma with_borrowed_inv v l0 l :
  Decimal_wf v -> Liquidity_inv l0 l -> Liquidity_inv l0 (with_borrowed v l).
Proof. intros Hv [[? ? ? ?] Hf]. constructor; [by constructor|exact Hf]. Qed.
Lemma with_cumulative_inv v l0 l :
  Decimal_wf v -> Liquidity_inv l0 l -> Liquidity_inv l0 (with_cumulative v l).
Proof. intros Hv [[? ? ? ?] Hf]. constructor; [by constructor|exact Hf]. Qed.
Lemma with_fees_inv v l0 l :
  Decimal_wf v -> Liquidity_inv l0 l -> Liquidity_inv l0 (with_fees v l).
Proof. intros Hv [[? ? ? ?] Hf]. constructor; [by constructor|exact Hf]. Qed.

(** What a checked operation returns is in range. *)
Lemma checked_ty w x v : ok_or (to_u w x) overflow = Ok v -> in_u w v.
Proof. intros [-> H]%ok_or_Ok%to_u_Some. exact H. Qed.
Lemma dec_try_add_ty x y v : dec_try_add x y = Ok v -> Decimal_wf v.
Proof. apply checked_ty. Qed.
Lemma dec_try_sub_ty x y v : dec_try_sub x y = Ok v -> Decimal_wf v.
Proof. apply checked_ty. Qed.
Lemma dec_try_mul_ty x y v : dec_try_mul x y = Ok v -> Decimal_wf v.
Proof.
  intros [-> [H1 H2]]%dec_try_mul_Ok. revert H1 H2. generalize (x * y). intros p H1 H2.
  split; [by apply Z.div_pos|]. eapply Z.le_lt_trans; [|exact H2].
  apply Z.div_le_upper_bound; [done|]. unfold WAD. lia.
Qed.

#[export] Hint Resolve with_available_inv with_borrowed_inv with_cumulative_inv with_fees_inv
  checked_ty dec_try_add_ty dec_try_sub_ty dec_try_mul_ty : gyr.

(** Walks through a method, one read or assignment at a time. *)
Ltac typed :=
  repeat first
  [ apply preserves_assign; [solve [eauto with gyr]|]
  | lazymatch goal with
    | H : (match ?x with Ok _ => _ | Err _ => _ end) = Ok _ |- _ =>
        destruct x eqn:?; [|discriminate H]
    | |- preserves _ (st_bind (st_get _) _) =>
        apply preserves_read; intros; cbv beta
    | |- _ (st_set _ _).1 => unfold st_set; cbn [fst]; solve [eauto with gyr]
    | |- ?P (st_bind (st_get ?f) ?k ?s).1 =>
        apply (preserves_read P f k); [|done]; intros; cbv beta
    end ].

Lemma liquidity_deposit_typed l0 n : preserves (Liquidity_inv l0) (liquidity_deposit n).
Proof. unfold liquidity_deposit. typed. Qed.
Lemma liquidity_withdraw_typed l0 n : preserves (Liquidity_inv l0) (liquidity_withdraw n).
Proof. unfold liquidity_withdraw. typed. Qed.
Lemma liquidity_borrow_typed l0 d : preserves (Liquidity_inv l0) (liquidity_borrow d).
Proof. unfold liquidity_borrow. typed. Qed.
Lemma liquidity_repay_typed l0 n d : preserves (Liquidity_inv l0) (liquidity_repay n d).
Proof. unfold liquidity_repay. typed. Qed.
Lemma forgive_debt_typed l0 d : preserves (Liquidity_inv l0) (forgive_debt d).
Proof. unfold forgive_debt. typed. Qed.
Lemma donate_typed l0 n : preserves (Liquidity_inv l0) (donate n).
Proof. unfold donate. typed. Qed.
Lemma redeem_fees_typed l0 n : preserves (Liquidity_inv l0) (redeem_fees n).
Proof. unfold redeem_fees. typed. Qed.
Lemma compound_interest_typed l0 r n t : preserves (Liquidity_inv l0) (compound_interest r n t).
Proof. unfold compound_interest, dec_try_mul_rate. typed. Qed.

(** ** Lemmas: settlement *)

Lemma calculate_repay_Ok amount owed res :
  calculate_repay amount owed = Ok res ->
  cr_settle_amount res = (if amount =? u64_max then owed else Z.min (WAD * amount) owed)
  /\ cr_settle_amount res <= cr_repay_amount res * WAD < cr_settle_amount res + WAD.
Proof.
  unfold calculate_repay. intros H. destruct (dec_try_ceil_u64 _) as [n|] eqn:E; [|done].
  injection H as <-. apply dec_try_ceil_u64_Ok in E as [? _]. by split.
Qed.
