(* ===== verification/SolendAccounting.v ===== *)
(** * The books of a Save reserve.

    Properties of the methods of [SolendOps]: each operation against its
    specification on plain integers ([op_spec] over [Books]), typing and frame,
    the value of a collateral token along every history of operations, rounding of deposits
    and redemptions, and interest. *)

From Stdlib Require Import ZArith Lia.
From stdpp Require Import base option list relations.
From S2P Require Import Prelude StateErr CoreTypes SolendMath SolendState SolendReserve SolendOps.

Open Scope rust_scope.
Open Scope state_scope.

(** ** The operations as one language *)

(** A call of the public interface that changes a reserve. *)
Inductive ReserveOp :=
| OpDeposit (liquidity_amount : Z)
| OpRedeem (collateral_amount : Z)
| OpAccrue (current_slot : Z)
| OpBorrow (borrow_decimal : Decimal)
| OpRepay (repay_amount : Z) (settle_amount : Decimal)
| OpForgive (liquidity_amount : Decimal)
| OpDonate (donate_amount : Z)
| OpRedeemFees (withdraw_amount : Z).

Definition run_op (op : ReserveOp) (r : Reserve) : Reserve :=
  match op with
  | OpDeposit n => (deposit_liquidity n r).1
  | OpRedeem n => (redeem_collateral n r).1
  | OpAccrue slot => (Reserve_accrue_interest slot r).1
  | OpBorrow d => (on_liquidity (liquidity_borrow d) r).1
  | OpRepay n d => (on_liquidity (liquidity_repay n d) r).1
  | OpForgive d => (on_liquidity (forgive_debt d) r).1
  | OpDonate n => (on_liquidity (donate n) r).1
  | OpRedeemFees n => (on_liquidity (redeem_fees n) r).1
  end.

(** The state after a sequence of calls, failed calls included. *)
Definition run_ops (ops : list ReserveOp) (r : Reserve) : Reserve := foldl (fun r op => run_op op r) r ops.

Definition reserve_identity (r : Reserve) :=
  (version r, last_update r, lending_market r, config r, rate_limiter r,
   attributed_borrow_value r, col_mint_pubkey (collateral r), col_supply_pubkey (collateral r)).

Record Reserve_inv (r0 r : Reserve) : Prop := {
  ri_liquidity : Liquidity_inv (liquidity r0) (liquidity r);
  ri_supply : is_u64 (mint_total_supply (collateral r));
  ri_frame : reserve_identity r = reserve_identity r0
}.

Lemma on_liquidity_inv {A} r0 (m : Method ReserveLiquidity A) :
  preserves (Liquidity_inv (liquidity r0)) m -> preserves (Reserve_inv r0) (on_liquidity m).
Proof.
  apply preserves_zoom; [by intros r []|]. intros l r Hl [_ Hs Hf]. by constructor.
Qed.

Lemma collateral_mint_inv r0 n : preserves (Reserve_inv r0) (on_collateral (collateral_mint n)).
Proof.
  intros r [Hl Hs Hf]. unfold on_collateral, zoom, collateral_mint, st_bind, st_get.
  destruct (ok_or _ _) eqn:E; cbn; constructor; try done. by eapply checked_ty.
Qed.
Lemma collateral_burn_inv r0 n : preserves (Reserve_inv r0) (on_collateral (collateral_burn n)).
Proof.
  intros r [Hl Hs Hf]. unfold on_collateral, zoom, collateral_burn, st_bind, st_get.
  destruct (ok_or _ _) eqn:E; cbn; constructor; try done. by eapply checked_ty.
Qed.

Lemma run_op_inv r0 op r : Reserve_inv r0 r -> Reserve_inv r0 (run_op op r).
Proof.
  revert r. destruct op; cbn [run_op].
  - apply preserves_read. intros r c Hr _. revert r Hr. cbv beta.
    apply preserves_then; [apply on_liquidity_inv, liquidity_deposit_typed|]. intros _.
    apply preserves_then; [apply collateral_mint_inv|]. auto with gyr.
  - apply preserves_read. intros r y Hr _. revert r Hr. cbv beta.
    apply preserves_then; [apply collateral_burn_inv|]. intros _.
    apply preserves_then; [apply on_liquidity_inv, liquidity_withdraw_typed|]. auto with gyr.
  - apply preserves_read. intros r e Hr _. cbv beta. destruct (e >? 0); [|done]. revert r Hr.
    apply preserves_read. intros r rate Hr _. revert r Hr. cbv beta.
    apply preserves_read. intros r take Hr _. revert r Hr. cbv beta.
    apply on_liquidity_inv, compound_interest_typed.
  - apply on_liquidity_inv, liquidity_borrow_typed.
  - apply on_liquidity_inv, liquidity_repay_typed.
  - apply on_liquidity_inv, forgive_debt_typed.
  - apply on_liquidity_inv, donate_typed.
  - apply on_liquidity_inv, redeem_fees_typed.
Qed.

(** Along every sequence of calls on a well-typed reserve, failed calls
    included, amounts stay 64-bit and balances 192-bit, and no call assigns
    the configuration, the keys, the prices or the slot of the last update
    (accruing interest leaves the slot to its caller). *)
Lemma run_ops_inv ops r :
  Liquidity_ty (liquidity r) -> is_u64 (mint_total_supply (collateral r)) -> Reserve_inv r (run_ops ops r).
Proof.
  intros Hl Hs. assert (Hi : Reserve_inv r r) by (constructor; [by constructor|done|done]).
  assert (H : forall r1, Reserve_inv r r1 -> Reserve_inv r (run_ops ops r1)); [|by apply H].
  induction ops as [|op ops IH]; intros r1 Hr1; [done|]. apply IH. by apply run_op_inv.
Qed.

(* ------------------------------------------------------------------ *)
(** ** The value of a collateral token *)

Definition supply_of (r : Reserve) : Z := supply_wads (liquidity r).
Definition minted (r : Reserve) : Z := mint_total_supply (collateral r).

(** [supply / minted] does not decrease. *)
Definition value_le (r r' : Reserve) : Prop := supply_of r * minted r' <= supply_of r' * minted r.

Lemma deposit_liquidity_Ok x r r' c :
  deposit_liquidity x r = (r', Ok c) ->
  exists rate, collateral_exchange_rate r = Ok rate /\ c = x * rate / WAD
  /\ supply_of r' = supply_of r + x * WAD /\ minted r' = minted r + c
  /\ available_amount (liquidity r') = available_amount (liquidity r) + x
  /\ config r' = config r.
Proof.
  intros H. unfold deposit_liquidity, on_liquidity, on_collateral in H. st_ok H.
  destruct (collateral_exchange_rate r) as [rate|]; [|done].
  apply liquidity_to_collateral_Ok in Hg as ->. apply liquidity_deposit_Ok in Hz as [-> _].
  unfold collateral_mint in Hz0. st_ok Hz0. apply ok_or_Ok, to_u_Some in Hg as [-> _].
  exists rate. unfold supply_of, supply_wads, minted. cbn. split_and!; try done. lia.
Qed.

Lemma exchange_rate_nonneg r rate :
  collateral_exchange_rate r = Ok rate -> 0 <= minted r -> 0 <= rate.
Proof.
  intros H HM. apply collateral_exchange_rate_Ok in H as [HL ->]. fold (minted r) (supply_of r) in *.
  destruct (_ || _) eqn:E; [done|]. apply orb_false_iff in E as [_ E%Z.eqb_neq].
  apply Z.div_pos; [unfold WAD; lia|lia].
Qed.

Lemma redeem_collateral_Ok c r r' y :
  redeem_collateral c r = (r', Ok y) -> 0 <= minted r ->
  exists rate, collateral_exchange_rate r = Ok rate /\ 0 < rate /\ y = c * WAD / rate
  /\ supply_of r' = supply_of r - y * WAD /\ minted r' = minted r - c
  /\ c <= minted r /\ y <= available_amount (liquidity r).
Proof.
  intros H HM. unfold redeem_collateral, on_liquidity, on_collateral in H. st_ok H.
  destruct (collateral_exchange_rate r) as [rate|] eqn:Er; [|done].
  pose proof (exchange_rate_nonneg r rate Er HM) as Hr.
  apply collateral_to_liquidity_Ok in Hg as [Hpos ->]; [|done].
  apply liquidity_withdraw_Ok in Hz0 as [-> Hle].
  unfold collateral_burn in Hz. st_ok Hz. apply ok_or_Ok, to_u_Some in Hg as [-> [Hc _]].
  exists rate. unfold supply_of, supply_wads, minted in *. cbn in *. split_and!; try done; lia.
Qed.

(* ------------------------------------------------------------------ *)
(** ** The books, and what each call does to them

    [op_spec] is the operation on plain integers: what a call pays or mints,
    the balances it leaves and the conditions under which it is allowed. *)

Record Books := mkBooks {
  bk_available : Z;
  bk_borrowed : Z;
  bk_index : Z;
  bk_fees : Z;
  bk_minted : Z
}.

Definition books (r : Reserve) : Books :=
  let l := liquidity r in
  mkBooks (available_amount l) (borrowed_amount_wads l) (cumulative_borrow_rate_wads l)
    (accumulated_protocol_fees_wads l) (mint_total_supply (collateral r)).

(** What the depositors own, in wads, and the tokens per unit of it. *)
Definition bk_supply (b : Books) : Z := bk_available b * WAD + bk_borrowed b - bk_fees b.
Definition bk_rate (b : Books) : Z :=
  if (bk_minted b =? 0) || (bk_supply b =? 0) then WAD else WAD * bk_minted b * WAD / bk_supply b.

Definition bk_move (available borrowed fees minted : Z) (b : Books) : Books :=
  mkBooks (bk_available b + available) (bk_borrowed b + borrowed) (bk_index b) (bk_fees b + fees)
    (bk_minted b + minted).

Definition when (c : bool) {A} (x : A) : option A := if c then Some x else None.

(** The books after the call and its result; interest is [accrual_spec]. *)
Definition op_spec (op : ReserveOp) (b : Books) : option (Books * Z) :=
  match op with
  | OpDeposit n =>
      let c := n * bk_rate b / WAD in
      when (0 <=? bk_supply b) (bk_move n 0 0 c b, c)
  | OpRedeem c =>
      let y := c * WAD / bk_rate b in
      when ((0 <=? bk_supply b) && (0 <? bk_rate b) && (c <=? bk_minted b) && (y <=? bk_available b))
        (bk_move (- y) 0 0 (- c) b, y)
  | OpAccrue _ => None
  | OpBorrow d => when (d / WAD <=? bk_available b) (bk_move (- (d / WAD)) d 0 0 b, 0)
  | OpRepay n d => Some (bk_move n (- Z.min d (bk_borrowed b)) 0 0 b, 0)
  | OpForgive d => when (d <=? bk_borrowed b) (bk_move 0 (- d) 0 0 b, 0)
  | OpDonate n => Some (bk_move n 0 0 0 b, 0)
  | OpRedeemFees n =>
      when ((n <=? bk_available b) && (n * WAD <=? bk_fees b)) (bk_move (- n) 0 (- (n * WAD)) 0 b, 0)
  end.

(** Within the slot of the last update nothing; later one factor on the debt
    and the index, and the protocol's share of the new debt. *)
Definition accrual_spec (slot : Z) (r : Reserve) (b' : Books) : Prop :=
  let b := books r in
  let elapsed := slot - lu_slot (last_update r) in
  0 <= elapsed
  /\ if elapsed =? 0 then b' = b
     else exists rate q,
       current_borrow_rate r = Ok rate /\ rate_pow (WAD + rate / SLOTS_PER_YEAR) elapsed = Ok q
       /\ b' = mkBooks (bk_available b) (bk_borrowed b * q / WAD) (bk_index b * q / WAD)
                 (bk_fees b + (bk_borrowed b * q / WAD - bk_borrowed b)
                              * rate_from_percent (protocol_take_rate (config r)) / WAD)
                 (bk_minted b).

(** The call, its result zero where the method returns nothing. *)
Definition run_call (op : ReserveOp) : Method Reserve Z :=
  match op with
  | OpDeposit n => deposit_liquidity n
  | OpRedeem n => redeem_collateral n
  | OpAccrue slot => do* Reserve_accrue_interest slot in st_ret 0
  | OpBorrow d => do* on_liquidity (liquidity_borrow d) in st_ret 0
  | OpRepay n d => do* on_liquidity (liquidity_repay n d) in st_ret 0
  | OpForgive d => do* on_liquidity (forgive_debt d) in st_ret 0
  | OpDonate n => do* on_liquidity (donate n) in st_ret 0
  | OpRedeemFees n => do* on_liquidity (redeem_fees n) in st_ret 0
  end.

Lemma run_call_state op r : (run_call op r).1 = run_op op r.
Proof.
  assert (H : forall A (m : Method Reserve A), (st_bind m (fun _ => st_ret 0) r).1 = (m r).1).
  { intros A m. unfold st_bind. by destruct (m r) as [? []]. }
  destruct op; cbn [run_call run_op]; done || apply H.
Qed.

(** *** A successful call does what the specification says *)

Lemma no_value_Ok {A} (m : Method Reserve A) r r' v :
  st_bind m (fun _ => st_ret 0) r = (r', Ok v) -> (exists x, m r = (r', Ok x)) /\ v = 0.
Proof. intros (x & r1 & H & [= <- <-])%st_bind_Ok. split; [by exists x|done]. Qed.

Lemma bk_rate_Ok r rate :
  collateral_exchange_rate r = Ok rate -> 0 <= bk_supply (books r) /\ rate = bk_rate (books r).
Proof. intros H. by apply collateral_exchange_rate_Ok in H. Qed.

Lemma when_true c A (x : A) : c = true -> when c x = Some x.
Proof. by intros ->. Qed.

Lemma accrual_sound slot r r' v :
  Reserve_accrue_interest slot r = (r', Ok v) -> accrual_spec slot r (books r').
Proof.
  unfold Reserve_accrue_interest, accrual_spec. intros H.
  apply st_bind_Ok in H as (e & r1 & H1 & H). apply st_get_Ok in H1 as [-> He]. cbv beta in H.
  apply ok_or_Ok, to_u_Some in He as [-> [He _]]. split; [done|].
  destruct (Z.eqb_spec (slot - lu_slot (last_update r)) 0) as [E|E].
  { rewrite E in H. by injection H as <- _. }
  destruct (Z.gtb_spec (slot - lu_slot (last_update r)) 0); [|lia].
  unfold on_liquidity in H. st_ok H. injection Hg0 as <-.
  apply compound_interest_Ok in Hz as (q & debt & Hq & _ & -> & _ & ->).
  exists a, q. split; [done|]. split; [done|]. unfold books. cbn. f_equal; lia.
Qed.

Lemma op_sound op r r' v :
  is_u64 (mint_total_supply (collateral r)) -> run_call op r = (r', Ok v) ->
  match op with
  | OpAccrue slot => accrual_spec slot r (books r')
  | _ => op_spec op (books r) = Some (books r', v)
  end.
Proof.
  intros HM. destruct op; cbn [run_call op_spec]; intros H;
    try (apply no_value_Ok in H as [[x H] ->]).
  - unfold deposit_liquidity, on_liquidity, on_collateral in H. st_ok H.
    destruct (collateral_exchange_rate r) as [rate|] eqn:Er; [|done].
    apply bk_rate_Ok in Er as [Hs ->]. apply liquidity_to_collateral_Ok in Hg as ->.
    apply liquidity_deposit_Ok in Hz as [-> _].
    unfold collateral_mint in Hz0. st_ok Hz0. apply ok_or_Ok, to_u_Some in Hg as [-> _].
    rewrite when_true by lia. unfold bk_move, books. cbn. by rewrite !Z.add_0_r.
  - unfold redeem_collateral, on_liquidity, on_collateral in H. st_ok H.
    destruct (collateral_exchange_rate r) as [rate|] eqn:Er; [|done].
    pose proof (exchange_rate_nonneg r rate Er (proj1 HM)) as Hr.
    apply bk_rate_Ok in Er as [Hs ->]. apply collateral_to_liquidity_Ok in Hg as [Hpos ->]; [|done].
    apply liquidity_withdraw_Ok in Hz0 as [-> Hle].
    unfold collateral_burn in Hz. st_ok Hz. apply ok_or_Ok, to_u_Some in Hg as [-> [Hc _]].
    cbn in Hle. rewrite when_true.
    + unfold bk_move, books. cbn. rewrite !Z.add_0_r. do 3 f_equal; lia.
    + change (bk_minted (books r)) with (mint_total_supply (collateral r)).
      change (bk_available (books r)) with (available_amount (liquidity r)). lia.
  - by eapply accrual_sound.
  - apply zoom_Ok in H as (l & (-> & Hle & _)%liquidity_borrow_Ok & ->). rewrite when_true by (cbn; lia).
    unfold bk_move, books. cbn. rewrite !Z.add_0_r. do 3 f_equal; lia.
  - apply zoom_Ok in H as (l & ->%liquidity_repay_Ok & ->).
    unfold bk_move, books. cbn. rewrite !Z.add_0_r. do 3 f_equal; lia.
  - apply zoom_Ok in H as (l & H & ->). unfold forgive_debt in H. st_ok H.
    apply dec_try_sub_Ok in Hg as [-> [Hd _]]. rewrite when_true by (cbn; lia).
    unfold bk_move, books. cbn. rewrite !Z.add_0_r. do 3 f_equal; lia.
  - apply zoom_Ok in H as (l & [-> _]%liquidity_deposit_Ok & ->).
    unfold bk_move, books. cbn. by rewrite !Z.add_0_r.
  - apply zoom_Ok in H as (l & H & ->). unfold redeem_fees in H. st_ok H.
    apply ok_or_Ok, to_u_Some in Hg as [-> [Ha _]]. apply dec_try_sub_Ok in Hg0 as [-> [Hf _]].
    cbn in Hf. unfold dec_from_u64 in Hf. rewrite when_true by (cbn; lia).
    unfold bk_move, books, dec_from_u64. cbn. rewrite !Z.add_0_r. do 3 f_equal; lia.
Qed.

(** *** An allowed call that fits the machine integers succeeds *)

Definition op_typed (op : ReserveOp) : Prop :=
  match op with
  | OpDeposit n | OpRedeem n | OpDonate n | OpRedeemFees n => is_u64 n
  | OpAccrue slot => is_u64 slot
  | OpBorrow d | OpForgive d => Decimal_wf d
  | OpRepay n d => is_u64 n /\ Decimal_wf d
  end.

(** The sums and products the exchange rate goes through. *)
Definition rate_fits (b : Books) : Prop :=
  bk_available b * WAD + bk_borrowed b < 2 ^ 192 /\ bk_rate b < 2 ^ 128.
Definition op_fits (op : ReserveOp) (b : Books) : Prop :=
  match op with
  | OpDeposit n => rate_fits b /\ n * WAD * bk_rate b < 2 ^ 192
  | OpRedeem _ => rate_fits b
  | _ => True
  end.
Definition books_fit (b : Books) : Prop :=
  is_u64 (bk_available b) /\ Decimal_wf (bk_borrowed b) /\ Decimal_wf (bk_fees b) /\ is_u64 (bk_minted b).

Lemma to_u_fits w x : in_u w x -> ok_or (to_u w x) overflow = Ok x.
Proof. intros H. by rewrite to_u_in. Qed.

Lemma dec_add_fits x y : Decimal_wf (x + y) -> dec_try_add x y = Ok (x + y).
Proof. apply to_u_fits. Qed.
Lemma dec_sub_fits x y : Decimal_wf (x - y) -> dec_try_sub x y = Ok (x - y).
Proof. apply to_u_fits. Qed.

Lemma read_then {A B} (f : Reserve -> result A ProgramError) (k : A -> Method Reserve B) r v :
  f r = Ok v -> st_bind (st_get f) k r = k v r.
Proof. intros H. unfold st_bind, st_get. by rewrite H. Qed.

Section complete.
Context (r : Reserve) (Hl : Liquidity_ty (liquidity r)) (HM : is_u64 (mint_total_supply (collateral r))).

Lemma bk_rate_nonneg : 0 <= bk_supply (books r) -> 0 <= bk_rate (books r).
Proof.
  intros Hs. unfold bk_rate. destruct (_ || _) eqn:E; [done|].
  apply orb_false_iff in E as [_ E%Z.eqb_neq]. apply Z.div_pos; [|lia].
  change (bk_minted (books r)) with (mint_total_supply (collateral r)). unfold in_u, WAD in *. lia.
Qed.

Lemma exchange_rate_fits :
  0 <= bk_supply (books r) -> rate_fits (books r) -> collateral_exchange_rate r = Ok (bk_rate (books r)).
Proof.
  intros Hs [Hsum Hrate]. pose proof (bk_rate_nonneg Hs) as Hr0.
  destruct Hl as [Ha Hb _ Hf]. unfold collateral_exchange_rate, total_supply. unfold rate_fits in *.
  unfold bk_supply, books in Hs, Hsum. cbn in Hs, Hsum. unfold Decimal_wf, in_u in Ha, Hb, Hf, HM.
  rewrite dec_add_fits by (unfold Decimal_wf, in_u, dec_from_u64, WAD in *; lia).
  rewrite dec_sub_fits by (unfold Decimal_wf, in_u, dec_from_u64, WAD in *; lia).
  unfold exchange_rate, bk_rate in *. unfold bk_supply, books in *. cbn in *. change dec_zero with 0.
  replace (dec_from_u64 (available_amount (liquidity r)) + borrowed_amount_wads (liquidity r)
           - accumulated_protocol_fees_wads (liquidity r))
    with (available_amount (liquidity r) * WAD + borrowed_amount_wads (liquidity r)
          - accumulated_protocol_fees_wads (liquidity r)) by (unfold dec_from_u64; lia).
  destruct (_ || _) eqn:E; [done|]. apply orb_false_iff in E as [_ E%Z.eqb_neq].
  rewrite dec_try_div_fits by (done || (unfold dec_from_u64, WAD; lia)).
  apply rate_try_from_Ok. split; [done|]. unfold in_u, dec_from_u64. lia.
Qed.

Lemma zoom_liquidity {A} (m : Method ReserveLiquidity A) l v :
  m (liquidity r) = (l, Ok v) -> st_bind (on_liquidity m) (fun _ => st_ret 0) r = (with_liquidity l r, Ok 0).
Proof. intros H. unfold st_bind, on_liquidity, zoom. by rewrite H. Qed.

Lemma deposit_complete n :
  is_u64 n -> 0 <= bk_supply (books r) -> op_fits (OpDeposit n) (books r) ->
  is_u64 (available_amount (liquidity r) + n) ->
  is_u64 (mint_total_supply (collateral r) + n * bk_rate (books r) / WAD) ->
  exists r', deposit_liquidity n r = (r', Ok (n * bk_rate (books r) / WAD)).
Proof.
  intros Hn Hs [Hfit Hprod] Ha Hc. pose proof (bk_rate_nonneg Hs) as Hr0.
  assert (Hc0 : 0 <= n * bk_rate (books r) / WAD) by (apply Z.div_pos; [unfold in_u in Hn; nia|done]).
  unfold deposit_liquidity. rewrite (read_then _ _ _ (n * bk_rate (books r) / WAD)).
  2: { rewrite exchange_rate_fits by done. unfold liquidity_to_collateral, decimal_liquidity_to_collateral, dec_try_mul_rate.
    unfold dec_from_u64, dec_from_rate, rate_to_scaled_val. rewrite dec_try_mul_fits.
    - apply dec_try_floor_u64_Ok.
      assert (WAD * n * bk_rate (books r) / WAD / WAD = n * bk_rate (books r) / WAD) as ->.
      { f_equal. replace (WAD * n * bk_rate (books r)) with (n * bk_rate (books r) * WAD) by lia.
        by apply Z.div_mul. }
      split; [done|]. unfold in_u in *. lia.
    - unfold in_u in Hn. assert (HW : 0 < WAD) by done. nia. }
  cbv beta. unfold st_bind, on_liquidity, on_collateral, zoom, liquidity_deposit, collateral_mint, st_bind, st_get.
  unfold checked_add. rewrite to_u_fits by done. cbn. rewrite to_u_fits by done. by eexists.
Qed.

Lemma redeem_complete c :
  is_u64 c -> 0 <= bk_supply (books r) -> 0 < bk_rate (books r) -> rate_fits (books r) ->
  c <= mint_total_supply (collateral r) -> is_u64 (c * WAD / bk_rate (books r)) ->
  let y := c * WAD / bk_rate (books r) in
  if y <=? available_amount (liquidity r)
  then exists r', redeem_collateral c r = (r', Ok y)
  else exists r', redeem_collateral c r = (r', Err (Custom InsufficientLiquidity)).
Proof.
  intros Hc Hs Hpos Hfit Hle Hy. cbv zeta.
  unfold redeem_collateral. rewrite (read_then _ _ _ (c * WAD / bk_rate (books r))).
  2: { rewrite exchange_rate_fits by done. unfold collateral_to_liquidity, decimal_collateral_to_liquidity, dec_try_div_rate.
    unfold dec_from_u64, dec_from_rate, rate_to_scaled_val.
    rewrite dec_try_div_fits by (unfold in_u, WAD in *; lia). apply dec_try_floor_u64_Ok.
    assert (WAD * c * WAD / bk_rate (books r) / WAD = c * WAD / bk_rate (books r)) as ->; [|done].
    rewrite Z.div_div by (done || lia).
    rewrite <- (Z.div_mul_cancel_r (c * WAD) (bk_rate (books r)) WAD) by (done || lia). f_equal. lia. }
  set (y := c * WAD / bk_rate (books r)) in *. destruct Hl as [Ha _ _ _]. cbv beta.
  unfold st_bind, on_liquidity, on_collateral, zoom, liquidity_withdraw, collateral_burn, st_bind, st_get.
  unfold checked_sub. rewrite to_u_fits by (unfold in_u in *; lia). cbn.
  destruct (Z.gtb_spec y (available_amount (liquidity r))), (Z.leb_spec y (available_amount (liquidity r)));
    try lia. all: rewrite ?to_u_fits by (unfold in_u in *; lia). all: eexists; reflexivity.
Qed.

Lemma op_complete op b v :
  op_typed op -> op_spec op (books r) = Some (b, v) -> op_fits op (books r) -> books_fit b ->
  exists r', run_call op r = (r', Ok v).
Proof.
  intros Ht Hs Hf (Ba & Bb & Bf & Bm). pose proof Hl as [Ha Hb _ Hfe].
  unfold Decimal_wf, in_u in Ha, Hb, Hfe.
  destruct op as [n|c|slot|d|n d|d|n|n]; cbn [op_spec op_typed run_call] in *; try done.
  - destruct (Z.leb_spec 0 (bk_supply (books r))); [|done]. injection Hs as <- <-.
    by apply deposit_complete.
  - destruct (_ && _) eqn:E; [|done]. injection Hs as <- <-.
    repeat rewrite andb_true_iff in E. destruct E as [[[E1 E2] E3] E4].
    change (bk_minted (books r)) with (mint_total_supply (collateral r)) in E3.
    change (bk_available (books r)) with (available_amount (liquidity r)) in E4.
    assert (Hy : 0 <= c * WAD / bk_rate (books r)) by (apply Z.div_pos; [unfold in_u in Ht; unfold WAD; lia|lia]).
    pose proof (redeem_complete c Ht ltac:(lia) ltac:(lia) Hf ltac:(lia) ltac:(unfold in_u; lia)) as Hr.
    cbv zeta in Hr. by rewrite E4 in Hr.
  - destruct (Z.leb_spec (d / WAD) (bk_available (books r))) as [Hle|]; [|done]. injection Hs as <- <-.
    cbn in Hle, Ba, Bb. unfold Decimal_wf, in_u in Ht, Ba, Bb. eexists. eapply (zoom_liquidity _ _ tt).
    assert (0 <= d / WAD) by (apply Z.div_pos; [lia|done]).
    unfold liquidity_borrow, st_bind, st_get, st_set.
    rewrite (proj2 (dec_try_floor_u64_Ok d (d / WAD))) by (split; [done|unfold in_u; lia]).
    destruct (Z.gtb_spec (d / WAD) (available_amount (liquidity r))); [lia|]. unfold checked_sub.
    rewrite to_u_fits by (unfold in_u; lia). cbn. by rewrite dec_add_fits by (unfold Decimal_wf, in_u; lia).
  - injection Hs as <- <-. cbn in Ba, Bb. unfold Decimal_wf, in_u in Ba, Bb.
    eexists. eapply (zoom_liquidity _ _ tt). unfold liquidity_repay, st_bind, st_get, st_set, checked_add.
    rewrite to_u_fits by (unfold in_u; lia). cbn. by rewrite dec_sub_fits by (unfold Decimal_wf, in_u; lia).
  - destruct (Z.leb_spec d (bk_borrowed (books r))) as [Hle|]; [|done]. injection Hs as <- <-.
    cbn in Hle, Bb. unfold Decimal_wf, in_u in Bb. eexists. eapply (zoom_liquidity _ _ tt).
    unfold forgive_debt, st_bind, st_get, st_set. by rewrite dec_sub_fits by (unfold Decimal_wf, in_u; lia).
  - injection Hs as <- <-. cbn in Ba. eexists. eapply (zoom_liquidity _ _ tt).
    unfold donate, st_bind, st_get, st_set, checked_add. by rewrite to_u_fits.
  - destruct (_ && _) eqn:E; [|done]. injection Hs as <- <-. cbn in E, Ba, Bf.
    unfold Decimal_wf, in_u in Ba, Bf. eexists. eapply (zoom_liquidity _ _ tt).
    unfold redeem_fees, st_bind, st_get, st_set, checked_sub.
    rewrite to_u_fits by (unfold in_u; lia). cbn. unfold dec_from_u64.
    by rewrite dec_sub_fits by (unfold Decimal_wf, in_u; lia).
Qed.

(** Asking for more than the reserve holds. *)
Definition short_of_liquidity (op : ReserveOp) (b : Books) : Prop :=
  match op with
  | OpRedeem c => 0 <= bk_supply b /\ 0 < bk_rate b /\ c <= bk_minted b
                  /\ bk_available b < c * WAD / bk_rate b < 2 ^ 64
  | OpBorrow d => bk_available b < d / WAD < 2 ^ 64
  | _ => False
  end.

Lemma op_short op :
  op_typed op -> op_fits op (books r) -> short_of_liquidity op (books r) ->
  (run_call op r).2 = Err (Custom InsufficientLiquidity).
Proof.
  intros Ht Hf Hs. pose proof (lt_available _ Hl) as Ha. unfold in_u in Ha.
  destruct op as [n|c|slot|d|n d|d|n|n]; cbn [run_call op_typed op_fits short_of_liquidity] in *; try done.
  - destruct Hs as (H1 & H2 & H3 & H4). change (bk_available (books r)) with (available_amount (liquidity r)) in H4.
    pose proof (redeem_complete c Ht H1 H2 Hf H3 ltac:(unfold in_u; lia)) as Hr. cbv zeta in Hr.
    destruct (Z.leb_spec (c * WAD / bk_rate (books r)) (available_amount (liquidity r))); [lia|].
    by destruct Hr as [r' ->].
  - change (bk_available (books r)) with (available_amount (liquidity r)) in Hs.
    unfold st_bind, on_liquidity, zoom, liquidity_borrow, st_bind, st_get.
    rewrite (proj2 (dec_try_floor_u64_Ok d (d / WAD))) by (split; [done|unfold in_u; lia]).
    by destruct (Z.gtb_spec (d / WAD) (available_amount (liquidity r))); [|lia].
Qed.
End complete.

(** C17: what every call of the reserve does, at any point of any sequence of
    calls. A successful call leaves exactly the books, and returns exactly
    the amount, that the operation on plain integers gives, under its
    conditions, and assigns nothing else; interest follows its growth factor.
    A call the specification allows fails only when a balance it would leave
    or a product it forms does not fit its integer, and asking for more than
    the available liquidity is refused as such. Whatever the calls returned,
    the integers stay in their types and the configuration, the keys, the
    prices and the slot of the last update are not assigned. *)
Theorem reserve_ops_spec ops op r0 :
  Liquidity_ty (liquidity r0) -> is_u64 (mint_total_supply (collateral r0)) -> op_typed op ->
  let r := run_ops ops r0 in
  let '(r', res) := run_call op r in
  (match op, res with
   | OpAccrue slot, Ok _ => accrual_spec slot r (books r')
   | OpAccrue _, Err _ => True
   | _, Ok v => op_spec op (books r) = Some (books r', v)
   | _, Err _ => forall b v, op_spec op (books r) = Some (b, v) -> ~ (op_fits op (books r) /\ books_fit b)
   end)
  /\ (op_fits op (books r) -> short_of_liquidity op (books r) -> res = Err (Custom InsufficientLiquidity))
  /\ Liquidity_ty (liquidity r') /\ is_u64 (mint_total_supply (collateral r'))
  /\ liquidity_identity (liquidity r') = liquidity_identity (liquidity r0)
  /\ reserve_identity r' = reserve_identity r0.
Proof.
  intros Hl0 HM0 Ht. cbv zeta. destruct (run_ops_inv ops r0 Hl0 HM0) as [[Hl _] HM _].
  pose proof (run_ops_inv (ops ++ [op]) r0 Hl0 HM0) as Hinv.
  unfold run_ops in Hinv. rewrite foldl_app in Hinv. cbn [foldl] in Hinv. fold (run_ops ops r0) in Hinv.
  rewrite <- run_call_state in Hinv. set (r := run_ops ops r0) in *.
  pose proof (op_short r Hl HM op Ht) as Hshort. pose proof (fun r' v => op_sound op r r' v HM) as Hsound.
  pose proof (fun b v => op_complete r Hl HM op b v Ht) as Hcomp.
  destruct (run_call op r) as [r' res]. destruct Hinv as [[? ?] ? ?].
  split; [|by split_and!]. destruct res as [v|e].
  - specialize (Hsound r' v eq_refl). by destruct op.
  - assert (Hno : forall b v, op_spec op (books r) = Some (b, v) -> ~ (op_fits op (books r) /\ books_fit b)).
    { intros b v Hs [Hf Hb]. by destruct (Hcomp b v Hs Hf Hb) as [? [=]]. }
    by destruct op.
Qed.

(** After a deposit, interest and a borrow, redeeming ten tokens pays twenty
    units. *)
Lemma reserve_ops_spec_witness :
  let r := run_ops [OpDeposit 50; OpAccrue 9; OpBorrow (2 * WAD)] sample_reserve in
  let '(r', res) := run_call (OpRedeem 10) r in
  res = Ok 20 /\ op_spec (OpRedeem 10) (books r) = Some (books r', 20).
Proof.
  pose proof (reserve_ops_spec [OpDeposit 50; OpAccrue 9; OpBorrow (2 * WAD)] (OpRedeem 10) sample_reserve
    ltac:(concrete_wf) ltac:(concrete_wf) ltac:(unfold op_typed, in_u; lia)) as H.
  cbv zeta in H |- *.
  assert (Hv : (run_call (OpRedeem 10) (run_ops [OpDeposit 50; OpAccrue 9; OpBorrow (2 * WAD)] sample_reserve)).2
               = Ok 20) by (vm_compute; reflexivity).
  destruct (run_call (OpRedeem 10) _) as [r' res]. cbn [snd] in Hv. subst res.
  split; [reflexivity|exact (proj1 H)].
Defined.

Lemma exchange_rate_bounds r rate :
  collateral_exchange_rate r = Ok rate -> 0 < minted r -> 0 < supply_of r ->
  rate * supply_of r <= minted r * WAD * WAD < (rate + 1) * supply_of r.
Proof.
  intros H HM HL. apply collateral_exchange_rate_Ok in H as [_ ->]. fold (minted r) (supply_of r).
  destruct (Z.eqb_spec (minted r) 0); [lia|]. destruct (Z.eqb_spec (supply_of r) 0); [lia|]. cbn [orb].
  pose proof (div_floor_bounds (WAD * minted r * WAD) (supply_of r) HL).
  replace (minted r * WAD * WAD) with (WAD * minted r * WAD) by lia. lia.
Qed.

(** Depositing does not dilute the holders of collateral. *)
Lemma deposit_share x r r' c :
  deposit_liquidity x r = (r', Ok c) -> 0 <= x -> 0 < minted r ->
  0 <= c /\ c * supply_of r <= x * minted r * WAD.
Proof.
  intros H Hx HM. apply deposit_liquidity_Ok in H as (rate & Hr & -> & _).
  pose proof (exchange_rate_nonneg r rate Hr ltac:(lia)) as Hr0.
  pose proof (proj1 (collateral_exchange_rate_Ok r rate Hr)) as HL. fold (supply_of r) in HL.
  assert (HW : 0 < WAD) by done. split; [apply Z.div_pos; nia|].
  pose proof (div_floor_bounds (x * rate) WAD HW) as [Hc _].
  destruct (Z.eq_dec (supply_of r) 0) as [->|HL0]; [rewrite Z.mul_0_r; nia|].
  pose proof (exchange_rate_bounds r rate Hr HM ltac:(lia)) as [Hb _].
  set (c := x * rate / WAD) in *. set (L := supply_of r) in *. set (M := minted r) in *.
  assert (c * WAD * L <= x * (M * WAD * WAD)) by nia. nia.
Qed.

Lemma deposit_value x r r' c :
  deposit_liquidity x r = (r', Ok c) -> 0 <= x -> 0 < minted r ->
  value_le r r' /\ minted r <= minted r' /\ config r' = config r.
Proof.
  intros H Hx HM. destruct (deposit_share x r r' c H Hx HM) as [Hc Hs].
  apply deposit_liquidity_Ok in H as (rate & _ & _ & HL & Hm & _ & Hcfg).
  unfold value_le. rewrite HL, Hm. split_and!; [nia|lia|done].
Qed.

(** A method of the liquidity that does not lower the supply keeps the value. *)
Lemma liquidity_value {A} (m : Method ReserveLiquidity A) r r' v :
  on_liquidity m r = (r', Ok v) -> 0 <= minted r ->
  (forall l, m (liquidity r) = (l, Ok v) -> supply_wads (liquidity r) <= supply_wads l) ->
  value_le r r' /\ minted r <= minted r' /\ config r' = config r.
Proof.
  intros H HM Hl. apply zoom_Ok in H as (l & Hm & ->). specialize (Hl l Hm).
  unfold value_le, supply_of, minted in *. cbn. split_and!; [nia|done|done].
Qed.

Lemma compound_interest_supply rate n take l l' v :
  compound_interest rate n take l = (l', Ok v) -> take <= WAD -> supply_wads l <= supply_wads l'.
Proof.
  intros H Ht. apply compound_interest_Ok in H as (q & debt & _ & _ & _ & Hd & ->).
  unfold supply_wads. cbn.
  assert (debt * take / WAD <= debt) by (apply Z.div_le_upper_bound; [done|nia]). lia.
Qed.

(** One successful call. Repayments and fee redemptions use the amounts that
    [calculate_repay] and [calculate_redeem_fees] give; redemption of
    collateral and forgiven debt are not in this relation (see
    [redeem_rounding]). *)
Inductive reserve_step : Reserve -> Reserve -> Prop :=
| step_deposit x c r r' :
    0 <= x -> deposit_liquidity x r = (r', Ok c) -> reserve_step r r'
| step_accrue slot r r' :
    Reserve_accrue_interest slot r = (r', Ok tt) -> reserve_step r r'
| step_borrow d r r' :
    on_liquidity (liquidity_borrow d) r = (r', Ok tt) -> reserve_step r r'
| step_repay amount owed res r r' :
    calculate_repay amount owed = Ok res ->
    on_liquidity (liquidity_repay (cr_repay_amount res) (cr_settle_amount res)) r = (r', Ok tt) ->
    reserve_step r r'
| step_donate n r r' :
    0 <= n -> on_liquidity (donate n) r = (r', Ok tt) -> reserve_step r r'
| step_redeem_fees n r r' :
    calculate_redeem_fees r = Ok n -> on_liquidity (redeem_fees n) r = (r', Ok tt) ->
    reserve_step r r'.

Lemma reserve_step_value r r' :
  reserve_step r r' -> 0 < minted r -> protocol_take_rate (config r) <= 100 ->
  value_le r r' /\ minted r <= minted r' /\ config r' = config r.
Proof.
  intros Hstep HM Ht. destruct Hstep as [x c r r' Hx H|slot r r' H|d r r' H|amount owed res r r' Hres H
                      |n r r' Hn H|n r r' Hn H].
  - by eapply deposit_value.
  - unfold Reserve_accrue_interest in H. apply st_bind_Ok in H as (e & r1 & H1 & H).
      apply st_get_Ok in H1 as [-> _]. cbv beta in H. destruct (e >? 0).
    + st_ok H. injection Hg0 as <-. eapply liquidity_value; [exact Hm1|lia|].
        intros l Hl. eapply compound_interest_supply; [exact Hl|].
        unfold rate_from_percent, PERCENT_SCALER, WAD. lia.
    + injection H as <-. split_and!; [unfold value_le; lia|lia|done].
  - eapply liquidity_value; [exact H|lia|]. intros l Hl%liquidity_borrow_Ok.
      destruct Hl as [-> _]. unfold supply_wads. cbn. pose proof (div_floor_bounds d WAD ltac:(done)). lia.
  - eapply liquidity_value; [exact H|lia|]. intros l ->%liquidity_repay_Ok.
      apply calculate_repay_Ok in Hres as [_ ?]. unfold supply_wads. cbn. lia.
  - eapply liquidity_value; [exact H|lia|]. intros l [-> _]%liquidity_deposit_Ok.
      unfold supply_wads. cbn. unfold WAD. lia.
  - eapply liquidity_value; [exact H|lia|]. intros l [-> _]%redeem_fees_Ok.
      unfold supply_wads. cbn. lia.
Qed.

(** C3: along every history of deposits, interest, borrowing, calculated
    repayments, donations and calculated fee redemptions, the liquidity that
    backs one collateral token never decreases: no such history, in any
    order, takes value from the depositors. *)
Theorem collateral_value_monotone r r' :
  rtc reserve_step r r' -> 0 < minted r -> protocol_take_rate (config r) <= 100 ->
  value_le r r' /\ minted r <= minted r'.
Proof.
  intros H. induction H as [r|r r1 r' Hs _ IH]; intros HM Ht; [split; [unfold value_le|]; lia|].
  destruct (reserve_step_value r r1 Hs HM Ht) as (Hv & Hm & Hc). rewrite Hc in IH.
  destruct (IH ltac:(lia) Ht) as [Hv' Hm']. split; [|lia]. unfold value_le in *. nia.
Qed.

Lemma collateral_value_monotone_witness :
  let r1 := (deposit_liquidity 50 sample_reserve).1 in
  let r2 := (Reserve_accrue_interest 90 r1).1 in
  let r3 := (on_liquidity (liquidity_borrow (5 * WAD / 2)) r2).1 in
  let r4 := (on_liquidity (liquidity_repay 2 (3 * WAD / 2)) r3).1 in
  value_le sample_reserve r4 /\ minted sample_reserve <= minted r4.
Proof.
  cbv zeta. apply collateral_value_monotone; [|by vm_compute|by vm_compute].
  eapply rtc_l; [eapply (step_deposit 50 24); [lia|vm_compute; reflexivity]|].
  eapply rtc_l; [eapply (step_accrue 90); vm_compute; reflexivity|].
  eapply rtc_l; [eapply (step_borrow (5 * WAD / 2)); vm_compute; reflexivity|].
  eapply rtc_l; [eapply (step_repay u64_max (3 * WAD / 2)); [reflexivity|vm_compute; reflexivity]|].
  apply rtc_refl.
Defined.

(** Redeeming [c] tokens pays their share of the supply, up to the rounding of
    the exchange rate: with a rate of [rate] units of 10^-18 the payout is
    within a factor [1 + 1/rate] of the share. *)
Lemma redeem_share c r r' y :
  redeem_collateral c r = (r', Ok y) -> 0 < minted r -> 0 < supply_of r ->
  exists rate, collateral_exchange_rate r = Ok rate /\ 0 < rate
  /\ 0 <= y * rate <= c * WAD
  /\ y * WAD * minted r * rate <= c * supply_of r * (rate + 1).
Proof.
  intros H HM HL. pose proof H as H'. unfold redeem_collateral in H'. apply st_bind_Ok in H' as (y' & ? & H' & _).
  apply redeem_collateral_Ok in H as (rate & Hr & Hpos & -> & _ & _ & Hc & _); [|lia].
  pose proof (exchange_rate_bounds r rate Hr HM HL) as [_ Hb].
  exists rate. pose proof (div_floor_bounds (c * WAD) rate Hpos) as [Hy _].
  apply st_get_Ok in H' as [-> H']. rewrite Hr in H'. unfold collateral_to_liquidity in H'.
  destruct (decimal_collateral_to_liquidity _ _) as [d|] eqn:Ed; [|done].
  unfold decimal_collateral_to_liquidity in Ed. apply dec_try_div_Ok in Ed as (_ & _ & [H0 _]).
  assert (0 <= c) by (unfold dec_from_u64, WAD in H0; lia).
  assert (0 <= c * WAD / rate) by (apply Z.div_pos; [unfold WAD|]; lia).
  set (y := c * WAD / rate) in *. set (L := supply_of r) in *. set (M := minted r) in *.
  assert (HW : 0 < WAD) by done.
  split_and!; try done; [nia|]. assert (y * rate * (M * WAD) <= c * WAD * (M * WAD)) by nia. nia.
Qed.

(** C26: depositing and redeeming the minted tokens at once restores the token
    supply and pays back at most the deposit times [1 + 1/rate]; a deposit
    smaller than the raw exchange rate (10^18 when tokens are at par) never
    gains a single unit. *)
Theorem deposit_then_redeem x c y r r1 r2 :
  deposit_liquidity x r = (r1, Ok c) -> redeem_collateral c r1 = (r2, Ok y) ->
  0 <= x -> 0 < minted r ->
  minted r2 = minted r /\ supply_of r2 = supply_of r + (x - y) * WAD
  /\ exists rate, collateral_exchange_rate r1 = Ok rate
     /\ y * rate <= x * (rate + 1) /\ (x < rate -> y <= x).
Proof.
  intros Hd Hr Hx HM. destruct (deposit_share x r r1 c Hd Hx HM) as [Hc Hs].
  pose proof Hd as Hd'. apply deposit_liquidity_Ok in Hd' as (rate0 & Hr0 & Hcx & HL1 & HM1 & _).
  pose proof Hr as Hr'. apply redeem_collateral_Ok in Hr' as (rate & Hrate & Hpos & Hy & HL2 & HM2 & _); [|lia].
  split_and!; [lia|lia|]. exists rate. split; [done|].
  assert (HW : 0 < WAD) by done.
  assert (HL0 : 0 <= supply_of r) by apply (proj1 (collateral_exchange_rate_Ok r rate0 Hr0)).
  assert (Hyr : y * rate <= c * WAD) by (rewrite Hy; apply div_floor_bounds; done).
  assert (Hmain : y * rate <= x * (rate + 1)).
  { destruct (Z.eq_dec x 0) as [->|Hx0].
    { assert (c = 0) as -> by (rewrite Hcx; reflexivity). lia. }
    pose proof (exchange_rate_bounds r1 rate Hrate ltac:(lia) ltac:(nia)) as [_ Hb].
    assert (Hfair : c * supply_of r1 <= x * WAD * minted r1) by (rewrite HL1, HM1; nia).
    assert (HL1pos : 0 < supply_of r1) by nia.
    apply Z.le_trans with (c * WAD); [done|].
    apply (Z.mul_le_mono_pos_r _ _ (supply_of r1)); [done|].
    set (L1 := supply_of r1) in *. set (M1 := minted r1) in *.
    apply Z.le_trans with (x * (M1 * WAD * WAD)); [nia|].
    replace (x * (rate + 1) * L1) with (x * ((rate + 1) * L1)) by lia.
    apply Z.mul_le_mono_nonneg_l; lia. }
  split; [done|]. intros Hlt. assert (y < x + 1); [|lia].
  apply (Z.mul_lt_mono_pos_r rate); [done|]. nia.
Qed.

Lemma deposit_then_redeem_witness :
  let r1 := (deposit_liquidity 700 sample_reserve).1 in
  let r2 := (redeem_collateral 348 r1).1 in
  minted r2 = minted sample_reserve
  /\ supply_of r2 = supply_of sample_reserve + (700 - 698) * WAD
  /\ exists rate, collateral_exchange_rate r1 = Ok rate
     /\ 698 * rate <= 700 * (rate + 1) /\ (700 < rate -> 698 <= 700).
Proof.
  cbv zeta. apply (deposit_then_redeem 700 348 698 sample_reserve); [| |lia|]; vm_compute; reflexivity.
Defined.

(** A reserve on which redeeming pays more than the share of the tokens. *)
Definition thin_rate_reserve : Reserve :=
  with_collateral (with_supply 1000000000000000000 (collateral sample_reserve))
    (with_liquidity (with_borrowed 0 (with_available 3000000000000000000 (liquidity sample_reserve)))
       sample_reserve).

(** The exchange rate is rounded down before it divides, so a large
    redemption is paid more than its share and the remaining tokens lose
    value. *)
Lemma redeem_can_dilute :
  exists r' y, redeem_collateral 900000000000000000 thin_rate_reserve = (r', Ok y)
  /\ y * minted thin_rate_reserve * WAD > 900000000000000000 * supply_of thin_rate_reserve
  /\ ~ value_le thin_rate_reserve r'.
Proof. do 2 eexists. split; [vm_compute; reflexivity|]. split; vm_compute; congruence. Qed.
