(* ===== verification/SolendRates.v ===== *)
(** * Interest and fees of a Save reserve.

    The borrow-rate curve of [current_borrow_rate] is monotone and follows the
    segments between the configured rates, accrual never shrinks what borrowers owe, and fees
    are bounded by the amount they are taken from. *)

From Stdlib Require Import ZArith Lia.
From stdpp Require Import base option list.
From S2P Require Import Prelude StateErr CoreTypes SolendMath SolendState SolendReserve SolendOps.

Open Scope rust_scope.
Open Scope state_scope.

(** ** Linear interpolation in wads *)

(** Between [(lo, rlo)] and [(hi, rhi)], both divisions rounded down. *)
Definition interp (lo hi rlo rhi u : Z) : Z :=
  (u - lo) * WAD / (hi - lo) * (rhi - rlo) / WAD + rlo.

(** [rate] is on the straight line from [(lo, rlo)] to [(hi, rhi)] at [u], up to
    those roundings: never above the line, by less than one and the share of
    one last digit of the weight below it, between the two rates, and exact
    at the far end. *)
Record on_segment (lo hi rlo rhi u rate : Z) : Prop := {
  seg_between : rlo <= rate <= rhi;
  seg_end : u = hi -> rate = rhi;
  seg_below : (rate - rlo) * (hi - lo) <= (u - lo) * (rhi - rlo);
  seg_above : (u - lo) * (rhi - rlo) * WAD < ((rate - rlo + 1) * WAD + (rhi - rlo)) * (hi - lo)
}.

Section interpolation.
Context (lo hi rlo rhi : Z) (Hlo : lo < hi) (Hr : rlo <= rhi).

Lemma interp_weight u : lo <= u <= hi -> 0 <= (u - lo) * WAD / (hi - lo) <= WAD.
Proof.
  intros Hu. assert (0 < WAD) by done. split; [apply Z.div_pos; nia|].
  apply Z.div_le_upper_bound; [lia|]. nia.
Qed.

Lemma interp_bounds u : lo <= u <= hi -> rlo <= interp lo hi rlo rhi u <= rhi.
Proof.
  intros Hu. pose proof (interp_weight u Hu) as Hw. unfold interp.
  set (w := (u - lo) * WAD / (hi - lo)) in *.
  assert (0 <= w * (rhi - rlo) / WAD) by (apply Z.div_pos; [nia|done]).
  assert (w * (rhi - rlo) / WAD <= rhi - rlo) by (apply Z.div_le_upper_bound; [done|nia]). lia.
Qed.

Lemma interp_on_segment u : lo <= u <= hi -> on_segment lo hi rlo rhi u (interp lo hi rlo rhi u).
Proof.
  intros Hu. pose proof (interp_weight u Hu) as Hw. assert (HW : 0 < WAD) by done.
  pose proof (Z.mul_div_le ((u - lo) * WAD) (hi - lo) ltac:(lia)) as Hw1.
  pose proof (Z.mul_succ_div_gt ((u - lo) * WAD) (hi - lo) ltac:(lia)) as Hw2.
  split; [by apply interp_bounds| | |]; unfold interp.
  - intros ->. rewrite (Z.mul_comm (hi - lo) WAD), Z.div_mul by lia. rewrite (Z.mul_comm WAD), Z.div_mul by done. lia.
  - set (w := (u - lo) * WAD / (hi - lo)) in *.
    pose proof (Z.mul_div_le (w * (rhi - rlo)) WAD HW) as Hx. set (x := w * (rhi - rlo) / WAD) in *.
    assert (WAD * (x * (hi - lo)) <= WAD * ((u - lo) * (rhi - rlo))) by nia. nia.
  - set (w := (u - lo) * WAD / (hi - lo)) in *.
    pose proof (Z.mul_succ_div_gt (w * (rhi - rlo)) WAD HW) as Hx. set (x := w * (rhi - rlo) / WAD) in *.
    replace (x + rlo - rlo + 1) with (Z.succ x) by lia.
    assert ((u - lo) * WAD * (rhi - rlo) <= (hi - lo) * Z.succ w * (rhi - rlo)) by nia.
    assert (w * (rhi - rlo) * (hi - lo) < WAD * Z.succ x * (hi - lo)) by nia. lia.
Qed.

Lemma interp_mono u u' : u <= u' -> interp lo hi rlo rhi u <= interp lo hi rlo rhi u'.
Proof.
  intros Hu. unfold interp. apply Z.add_le_mono_r, Z.div_le_mono; [done|].
  apply Z.mul_le_mono_nonneg_r; [lia|]. apply Z.div_le_mono; [lia|]. unfold WAD. lia.
Qed.
End interpolation.

(** ** The borrow-rate curve *)

(** What a valid configuration guarantees of the curve's parameters. *)
Record curve_valid (c : ReserveConfig) : Prop := {
  cv_util : optimal_utilization_rate c <= max_utilization_rate c <= 100;
  cv_rates : min_borrow_rate c <= optimal_borrow_rate c <= max_borrow_rate c;
  cv_super : max_borrow_rate c <= super_max_borrow_rate c;
  cv_take : protocol_take_rate c <= 100
}.

Lemma validate_curve c : validate_reserve_config c = Ok tt -> curve_valid c.
Proof.
  unfold validate_reserve_config. intros H.
  repeat match type of H with
  | (if ?b then _ else _) = _ => destruct b eqn:?; [discriminate H|]
  end. constructor; lia.
Qed.

Record curve_typed (c : ReserveConfig) : Prop := {
  ct_optimal : is_u8 (optimal_utilization_rate c);
  ct_max_util : is_u8 (max_utilization_rate c);
  ct_min : is_u8 (min_borrow_rate c);
  ct_opt_rate : is_u8 (optimal_borrow_rate c);
  ct_max_rate : is_u8 (max_borrow_rate c);
  ct_super : is_u64 (super_max_borrow_rate c)
}.

Lemma config_curve_typed c : ReserveConfig_wf c -> curve_typed c.
Proof. intros [H8 H64 _ _ _]. forall_inv H8. forall_inv H64. by constructor. Qed.

(** The curve without the overflow checks. *)
Definition rate_curve (c : ReserveConfig) (u : Rate) : Rate :=
  let opt := rate_from_percent (optimal_utilization_rate c) in
  let max := rate_from_percent (max_utilization_rate c) in
  let r0 := rate_from_percent (min_borrow_rate c) in
  let r1 := rate_from_percent (optimal_borrow_rate c) in
  let r2 := rate_from_percent (max_borrow_rate c) in
  let r3 := rate_from_percent_u64 (super_max_borrow_rate c) in
  if u <=? opt then if opt =? 0 then r0 else interp 0 opt r0 r1 u
  else if u <=? max then interp opt max r1 r2 u
  else interp max WAD r2 r3 u.

(** One checked interpolation step of the source. *)
Lemma rate_interp lo hi rlo rhi u :
  0 <= lo <= u -> u <= hi -> lo < hi -> hi <= WAD -> 0 <= rlo <= rhi -> rhi < 2 ^ 63 ->
  (let? w := rate_try_div (u - lo) (hi - lo) in
   let? x := rate_try_mul w (rhi - rlo) in
   rate_try_add x rlo) = Ok (interp lo hi rlo rhi u).
Proof.
  intros Hlo Hu Hlt Hhi Hr Hb. unfold rate_try_div, rate_try_mul, rate_try_add, interp.
  pose proof (interp_weight lo hi Hlt u ltac:(lia)) as Hw.
  pose proof (interp_bounds lo hi rlo rhi Hlt ltac:(lia) u ltac:(lia)) as Hi. unfold interp in Hi.
  set (w := (u - lo) * WAD / (hi - lo)) in *.
  unfold checked_mul, checked_add. rewrite (to_u_in 128 ((u - lo) * WAD)) by (unfold in_u, WAD in *; lia).
  cbn [ok_or]. unfold checked_div. destruct (Z.eqb_spec (hi - lo) 0); [lia|]. cbn [ok_or]. fold w.
  rewrite to_u_in by (unfold in_u, WAD in *; nia). cbn [ok_or].
  change (WAD =? 0) with false. cbn [ok_or].
  by rewrite to_u_in by (unfold in_u; lia).
Qed.

Lemma percent_small p : is_u8 p -> 0 <= rate_from_percent p < 2 ^ 63.
Proof. unfold rate_from_percent, PERCENT_SCALER, in_u. lia. Qed.

Lemma percent_le p q : p <= q -> rate_from_percent p <= rate_from_percent q.
Proof. unfold rate_from_percent, PERCENT_SCALER. lia. Qed.

Lemma percent_hundred p : p <= 100 -> rate_from_percent p <= WAD.
Proof. unfold rate_from_percent, PERCENT_SCALER, WAD. lia. Qed.

Lemma percent_sub p q : rate_from_percent (p - q) = rate_from_percent p - rate_from_percent q.
Proof. unfold rate_from_percent. lia. Qed.

Lemma rate_try_sub_le x y : 0 <= y <= x -> x < 2 ^ 128 -> rate_try_sub x y = Ok (x - y).
Proof. intros Hy Hx. unfold rate_try_sub, checked_sub. by rewrite to_u_in by (unfold in_u; lia). Qed.

(** The last piece, which the source evaluates with [Decimal]s. *)
Lemma super_interp lo rlo rhi u :
  0 <= lo <= u -> u <= WAD -> lo < WAD -> 0 <= rlo <= rhi -> rhi < 2 ^ 118 ->
  (let? w := rate_try_div (u - lo) (WAD - lo) in
   let? x := dec_try_mul w (rhi - rlo) in
   let? y := dec_try_add x rlo in rate_try_from y) = Ok (interp lo WAD rlo rhi u).
Proof.
  intros Hlo Hu Hlt Hr Hb. unfold rate_try_div, dec_try_mul, dec_try_add, interp.
  pose proof (interp_weight lo WAD Hlt u ltac:(lia)) as Hw.
  pose proof (interp_bounds lo WAD rlo rhi Hlt ltac:(lia) u ltac:(lia)) as Hi. unfold interp in Hi.
  set (w := (u - lo) * WAD / (WAD - lo)) in *.
  unfold checked_mul, checked_add. rewrite (to_u_in 128 ((u - lo) * WAD)) by (unfold in_u, WAD in *; lia).
  cbn [ok_or]. unfold checked_div. destruct (Z.eqb_spec (WAD - lo) 0); [lia|]. cbn [ok_or]. fold w.
  rewrite to_u_in by (unfold in_u, WAD in *; nia). cbn [ok_or].
  change (WAD =? 0) with false. cbn [ok_or].
  rewrite to_u_in by (unfold in_u; lia). cbn [ok_or]. unfold rate_try_from, dec_to_scaled_val.
  by rewrite to_u_in by (unfold in_u; lia).
Qed.

Lemma borrow_rate_at_eq c u :
  curve_typed c -> curve_valid c -> 0 <= u <= WAD -> borrow_rate_at c u = Ok (rate_curve c u).
Proof.
  intros [T1 T2 T3 T4 T5 T6] [[V1 V2] [V3 V4] V5 V6] Hu. unfold borrow_rate_at, rate_curve. cbv zeta.
  pose proof (percent_small _ T1). pose proof (percent_small _ T2). pose proof (percent_small _ T3).
  pose proof (percent_small _ T4). pose proof (percent_small _ T5).
  pose proof (percent_hundred _ V2). pose proof (percent_le _ _ V1). pose proof (percent_le _ _ V3).
  pose proof (percent_le _ _ V4). change rate_zero with 0.
  set (opt := rate_from_percent (optimal_utilization_rate c)) in *.
  set (max := rate_from_percent (max_utilization_rate c)) in *.
  destruct (Z.leb_spec u opt).
  { destruct (Z.eqb_spec opt 0); [done|].
    unfold checked_sub. rewrite (to_u_in 8) by (unfold in_u in *; lia). cbn [ok_or].
    rewrite percent_sub. rewrite <- (Z.sub_0_r u) at 1. rewrite <- (Z.sub_0_r opt) at 1.
    apply rate_interp; lia. }
  destruct (Z.leb_spec u max).
  { rewrite !rate_try_sub_le by lia. apply rate_interp; lia. }
  rewrite !rate_try_sub_le; try lia.
  - unfold checked_sub. rewrite (to_u_in 8) by (unfold in_u in *; lia). cbn [ok_or].
    rewrite percent_sub. change (rate_from_percent 100) with WAD. fold max.
    apply super_interp; try lia; unfold in_u, rate_from_percent_u64, rate_from_percent, PERCENT_SCALER in *; lia.
  - unfold in_u, rate_from_percent_u64, rate_from_percent, PERCENT_SCALER in *; lia.
  - unfold in_u, rate_from_percent_u64, PERCENT_SCALER in *; lia.
  - unfold WAD in *. lia.
Qed.

Lemma rate_curve_bounds c u :
  curve_typed c -> curve_valid c -> 0 <= u <= WAD ->
  let opt := rate_from_percent (optimal_utilization_rate c) in
  let max := rate_from_percent (max_utilization_rate c) in
  let r0 := rate_from_percent (min_borrow_rate c) in
  let r1 := rate_from_percent (optimal_borrow_rate c) in
  let r2 := rate_from_percent (max_borrow_rate c) in
  let r3 := rate_from_percent_u64 (super_max_borrow_rate c) in
  (u <= opt -> r0 <= rate_curve c u <= r1) /\ (opt < u <= max -> r1 <= rate_curve c u <= r2)
  /\ (max < u -> r2 <= rate_curve c u <= r3).
Proof.
  intros [T1 T2 T3 T4 T5 T6] [[V1 V2] [V3 V4] V5 V6] Hu. cbv zeta. unfold rate_curve. cbv zeta.
  pose proof (percent_small _ T1). pose proof (percent_hundred _ V2).
  pose proof (percent_le _ _ V1). pose proof (percent_le _ _ V3). pose proof (percent_le _ _ V4).
  assert (rate_from_percent (max_borrow_rate c) <= rate_from_percent_u64 (super_max_borrow_rate c))
    by (unfold rate_from_percent, rate_from_percent_u64, PERCENT_SCALER; lia).
  set (opt := rate_from_percent (optimal_utilization_rate c)) in *.
  set (max := rate_from_percent (max_utilization_rate c)) in *.
  split_and!; intros Hreg.
  - destruct (Z.leb_spec u opt); [|lia]. destruct (Z.eqb_spec opt 0); [lia|].
    apply interp_bounds; lia.
  - destruct (Z.leb_spec u opt); [lia|]. destruct (Z.leb_spec u max); [|lia]. apply interp_bounds; lia.
  - destruct (Z.leb_spec u opt); [lia|]. destruct (Z.leb_spec u max); [lia|]. apply interp_bounds; lia.
Qed.

Lemma rate_curve_mono c u u' :
  curve_typed c -> curve_valid c -> 0 <= u <= u' -> u' <= WAD -> rate_curve c u <= rate_curve c u'.
Proof.
  intros Ht Hv Hu Hu'. pose proof (rate_curve_bounds c u Ht Hv ltac:(lia)) as (A1 & A2 & A3).
  pose proof (rate_curve_bounds c u' Ht Hv ltac:(lia)) as (B1 & B2 & B3).
  destruct Ht as [T1 T2 T3 T4 T5 T6]. destruct Hv as [[V1 V2] [V3 V4] V5 V6].
  pose proof (percent_small _ T1). pose proof (percent_hundred _ V2).
  pose proof (percent_le _ _ V1). pose proof (percent_le _ _ V3). pose proof (percent_le _ _ V4).
  assert (rate_from_percent (max_borrow_rate c) <= rate_from_percent_u64 (super_max_borrow_rate c))
    by (unfold rate_from_percent, rate_from_percent_u64, PERCENT_SCALER; lia).
  cbv zeta in *. unfold rate_curve in A1, A2, A3, B1, B2, B3 |- *. cbv zeta in *.
  set (opt := rate_from_percent (optimal_utilization_rate c)) in *.
  set (max := rate_from_percent (max_utilization_rate c)) in *.
  destruct (Z.leb_spec u opt), (Z.leb_spec u' opt), (Z.leb_spec u max), (Z.leb_spec u' max);
    try lia; try (apply interp_mono; lia); destruct (Z.eqb_spec opt 0); try lia.
  all: apply interp_mono; lia.
Qed.

Lemma utilization_rate_bounds l u :
  Liquidity_ty l -> utilization_rate l = Ok u -> 0 <= u <= WAD.
Proof.
  intros [[Ha _] [Hb _] _ _] H. unfold utilization_rate in H.
  destruct (total_supply l) as [s|]; [|done].
  destruct (_ || _) eqn:E; [injection H as <-; by vm_compute|].
  apply orb_false_iff in E as [_ E%Z.eqb_neq]. change dec_zero with 0 in E.
  destruct (dec_try_add _ _) as [d|] eqn:Ed; [|done]. apply dec_try_add_Ok in Ed as [-> _].
  destruct (dec_try_div _ _) as [q|] eqn:Eq; [|done]. apply dec_try_div_Ok in Eq as (_ & -> & _).
  apply rate_try_from_Ok in H as [-> _]. unfold dec_from_u64. assert (0 < WAD) by done.
  split; [apply Z.div_pos; nia|]. apply Z.div_le_upper_bound; nia.
Qed.

(** The curve's three segments. *)
Lemma rate_curve_segments c u :
  curve_typed c -> curve_valid c -> 0 <= u <= WAD ->
  let opt := rate_from_percent (optimal_utilization_rate c) in
  let max := rate_from_percent (max_utilization_rate c) in
  let r0 := rate_from_percent (min_borrow_rate c) in
  let r1 := rate_from_percent (optimal_borrow_rate c) in
  let r2 := rate_from_percent (max_borrow_rate c) in
  let r3 := rate_from_percent_u64 (super_max_borrow_rate c) in
  (u = 0 -> rate_curve c u = r0)
  /\ (0 < opt -> u <= opt -> on_segment 0 opt r0 r1 u (rate_curve c u))
  /\ (opt < u <= max -> on_segment opt max r1 r2 u (rate_curve c u))
  /\ (max < u -> on_segment max WAD r2 r3 u (rate_curve c u)).
Proof.
  intros [T1 T2 T3 T4 T5 T6] [[V1 V2] [V3 V4] V5 V6] Hu. cbv zeta. unfold rate_curve. cbv zeta.
  pose proof (percent_small _ T1). pose proof (percent_hundred _ V2).
  pose proof (percent_le _ _ V1). pose proof (percent_le _ _ V3). pose proof (percent_le _ _ V4).
  assert (rate_from_percent (max_borrow_rate c) <= rate_from_percent_u64 (super_max_borrow_rate c))
    by (unfold rate_from_percent, rate_from_percent_u64, PERCENT_SCALER; lia).
  set (opt := rate_from_percent (optimal_utilization_rate c)) in *.
  set (max := rate_from_percent (max_utilization_rate c)) in *.
  split_and!; intros; destruct (Z.leb_spec u opt); try lia.
  - destruct (Z.eqb_spec opt 0); [done|]. subst u. unfold interp. rewrite Z.sub_0_r. cbn [Z.mul].
    rewrite Zdiv_0_l. done.
  - destruct (Z.eqb_spec opt 0); [lia|]. apply interp_on_segment; lia.
  - destruct (Z.leb_spec u max); [|lia]. apply interp_on_segment; lia.
  - destruct (Z.leb_spec u max); [lia|]. apply interp_on_segment; lia.
Qed.

(** C18: on a well-typed reserve with a valid configuration the current borrow
    rate is defined whenever the utilization is. It is the minimum rate on an
    unused reserve, follows the straight line from there to the optimal rate
    at the optimal utilization, then to the maximum rate at the maximum
    utilization, then to the super-maximum rate at full utilization, up to
    the roundings of the interpolation and exactly at each of these points;
    and it grows with the utilization. *)
Theorem current_borrow_rate_spec r u :
  Liquidity_ty (liquidity r) -> ReserveConfig_wf (config r) ->
  validate_reserve_config (config r) = Ok tt -> utilization_rate (liquidity r) = Ok u ->
  let c := config r in
  let opt := rate_from_percent (optimal_utilization_rate c) in
  let max := rate_from_percent (max_utilization_rate c) in
  let r0 := rate_from_percent (min_borrow_rate c) in
  let r1 := rate_from_percent (optimal_borrow_rate c) in
  let r2 := rate_from_percent (max_borrow_rate c) in
  let r3 := rate_from_percent_u64 (super_max_borrow_rate c) in
  0 <= u <= WAD
  /\ exists rate, current_borrow_rate r = Ok rate
  /\ (u = 0 -> rate = r0)
  /\ (0 < opt -> u <= opt -> on_segment 0 opt r0 r1 u rate)
  /\ (opt < u <= max -> on_segment opt max r1 r2 u rate)
  /\ (max < u -> on_segment max WAD r2 r3 u rate)
  /\ forall r' u' rate', Liquidity_ty (liquidity r') -> config r' = config r ->
       utilization_rate (liquidity r') = Ok u' -> u <= u' ->
       current_borrow_rate r' = Ok rate' -> rate <= rate'.
Proof.
  intros Hl Hwf Hval Hu. pose proof (validate_curve _ Hval) as Hv.
  pose proof (config_curve_typed _ Hwf) as Ht. pose proof (utilization_rate_bounds _ _ Hl Hu) as Hb.
  cbv zeta. split; [done|].
  exists (rate_curve (config r) u). unfold current_borrow_rate. rewrite Hu.
  split; [by apply borrow_rate_at_eq|].
  destruct (rate_curve_segments (config r) u Ht Hv Hb) as (A0 & A1 & A2 & A3). split_and!; [done..|].
  intros r' u' rate' Hl' Hc Hu' Hle. rewrite Hc, Hu'.
  pose proof (utilization_rate_bounds _ _ Hl' Hu').
  rewrite borrow_rate_at_eq by done. intros [= <-]. apply rate_curve_mono; lia || done.
Qed.

Lemma current_borrow_rate_spec_witness :
  exists rate, current_borrow_rate sample_reserve = Ok rate
  /\ on_segment 0 (rate_from_percent 80) (rate_from_percent 0) (rate_from_percent 8) 2991026919242273 rate.
Proof.
  destruct (current_borrow_rate_spec sample_reserve 2991026919242273) as (_ & rate & Hr & _ & H1 & _).
  - concrete_wf.
  - apply (rs_wf_config sample_reserve), sample_reserve_wf.
  - reflexivity.
  - vm_compute. reflexivity.
  - exists rate. split; [exact Hr|]. apply H1; [reflexivity|vm_compute; discriminate].
Defined.

(* ------------------------------------------------------------------ *)
(** ** Accrual *)

Lemma mul_div_ge x q : 0 <= x -> WAD <= q -> x <= x * q / WAD.
Proof. intros Hx Hq. apply Z.div_le_lower_bound; [done|]. nia. Qed.

(** C19: accruing interest changes nothing within the slot of the last update,
    refuses an earlier slot, and otherwise multiplies the borrow index and
    the debt by one growth factor of at least 1, books between nothing and
    all of the new debt as protocol fees, and leaves the available amount
    alone. *)
Theorem accrue_interest_spec r slot r' res :
  Liquidity_ty (liquidity r) -> ReserveConfig_wf (config r) ->
  validate_reserve_config (config r) = Ok tt ->
  is_u64 slot -> is_u64 (lu_slot (last_update r)) ->
  Reserve_accrue_interest slot r = (r', res) ->
  (slot < lu_slot (last_update r) -> r' = r /\ res = Err overflow)
  /\ (slot = lu_slot (last_update r) -> r' = r /\ res = Ok tt)
  /\ (lu_slot (last_update r) < slot -> res = Ok tt ->
      exists rate q, current_borrow_rate r = Ok rate
      /\ rate_pow (WAD + rate / SLOTS_PER_YEAR) (slot - lu_slot (last_update r)) = Ok q /\ WAD <= q
      /\ let l := liquidity r in let l' := liquidity r' in
         available_amount l' = available_amount l
         /\ borrowed_amount_wads l' = borrowed_amount_wads l * q / WAD
         /\ cumulative_borrow_rate_wads l' = cumulative_borrow_rate_wads l * q / WAD
         /\ borrowed_amount_wads l <= borrowed_amount_wads l'
         /\ cumulative_borrow_rate_wads l <= cumulative_borrow_rate_wads l'
         /\ 0 <= accumulated_protocol_fees_wads l' - accumulated_protocol_fees_wads l
              <= borrowed_amount_wads l' - borrowed_amount_wads l).
Proof.
  intros Hl Hwf Hval Hs Hlu H. pose proof (cv_take _ (validate_curve _ Hval)) as Ht.
  unfold Reserve_accrue_interest, slots_elapsed, checked_sub in H.
  unfold st_bind at 1 in H. unfold st_get at 1 in H.
  destruct (Z_lt_le_dec slot (lu_slot (last_update r))) as [Hlt|Hge].
  { assert (E : to_u 64 (slot - lu_slot (last_update r)) = None) by (apply to_u_None; unfold in_u; lia).
    rewrite E in H. injection H as <- <-. split_and!; [done|lia|lia]. }
  rewrite to_u_in in H by u_lia. cbn [ok_or] in H.
  destruct (Z.gtb_spec (slot - lu_slot (last_update r)) 0) as [Hgt|Hle].
  2: { injection H as <- <-. split_and!; [lia|done|lia]. }
  split_and!; [lia|lia|]. intros _ ->. unfold on_liquidity in H. st_ok H. injection Hg0 as <-.
  exists a. destruct (utilization_rate (liquidity r)) as [u|] eqn:Eu;
    [|by unfold current_borrow_rate in Hg; rewrite Eu in Hg].
  assert (Hpos : 0 <= a).
  { unfold current_borrow_rate in Hg. rewrite Eu in Hg.
    pose proof (config_curve_typed _ Hwf) as Hct. pose proof (validate_curve _ Hval) as Hv.
    pose proof (utilization_rate_bounds _ _ Hl Eu) as Hub.
    rewrite borrow_rate_at_eq in Hg by done. injection Hg as <-.
    pose proof (rate_curve_mono _ 0 u Hct Hv ltac:(lia) ltac:(lia)).
    pose proof (rate_curve_bounds _ 0 Hct Hv ltac:(by vm_compute)) as [Hb _].
    pose proof (percent_small _ (ct_optimal _ Hct)). pose proof (percent_small _ (ct_min _ Hct)). lia. }
  apply compound_interest_Ok in Hz as (q & debt & Hq & Hq1 & Hd & Hd0 & ->). specialize (Hq1 Hpos).
  exists q. destruct Hl as [Ha [Hb _] [Hc _] Hf]. cbn. split_and!; try done; try lia.
  - by apply mul_div_ge.
  - replace (_ + _ - _) with (debt * rate_from_percent (protocol_take_rate (config r)) / WAD) by lia.
    apply Z.div_pos; [|done]. destruct Hwf as [H8 _ _ _ _]. forall_inv H8.
    unfold rate_from_percent, PERCENT_SCALER, in_u in *. nia.
  - assert (debt * rate_from_percent (protocol_take_rate (config r)) / WAD <= debt); [|lia].
    apply Z.div_le_upper_bound; [done|]. unfold rate_from_percent, PERCENT_SCALER, WAD. nia.
Qed.

Lemma accrue_interest_spec_witness :
  let r := sample_reserve in let r' := (Reserve_accrue_interest 90 r).1 in
  exists rate q, current_borrow_rate r = Ok rate
      /\ rate_pow (WAD + rate / SLOTS_PER_YEAR) (90 - 7) = Ok q /\ WAD <= q
      /\ let l := liquidity r in let l' := liquidity r' in
         available_amount l' = available_amount l
         /\ borrowed_amount_wads l' = borrowed_amount_wads l * q / WAD
         /\ cumulative_borrow_rate_wads l' = cumulative_borrow_rate_wads l * q / WAD
         /\ borrowed_amount_wads l <= borrowed_amount_wads l'
         /\ cumulative_borrow_rate_wads l <= cumulative_borrow_rate_wads l'
         /\ 0 <= accumulated_protocol_fees_wads l' - accumulated_protocol_fees_wads l
              <= borrowed_amount_wads l' - borrowed_amount_wads l.
Proof.
  cbv zeta.
  refine (proj2 (proj2 (accrue_interest_spec sample_reserve 90 _ (Ok tt) _ _ _ _ _ _)) _ _).
  - concrete_wf.
  - apply (rs_wf_config sample_reserve), sample_reserve_wf.
  - reflexivity.
  - split; by vm_compute.
  - split; by vm_compute.
  - vm_compute. reflexivity.
  - by vm_compute.
  - reflexivity.
Defined.

(** An overflow in the debt leaves the borrow index advanced and the debt as
    it was: the method is not atomic on failure. *)
Lemma compound_interest_not_atomic :
  let l := with_borrowed (2 ^ 132) (liquidity sample_reserve) in
  exists l', compound_interest (rate_from_percent 150) 63072000 0 l = (l', Err overflow)
  /\ borrowed_amount_wads l' = borrowed_amount_wads l
  /\ cumulative_borrow_rate_wads l < cumulative_borrow_rate_wads l'.
Proof. eexists. split; [vm_compute; reflexivity|]. split; by vm_compute. Qed.
