(* ===== verification/SolendGrowth.v ===== *)
(** * Interest over a year cannot get a Save reserve stuck.

    [Rate::try_pow] and the products of [compound_interest] are checked, so a
    large enough rate or debt makes [accrue_interest] fail, and a large enough
    result makes [pack] panic. Within a year, at rates of at most 255 percent
    and with debts of at most [u64::MAX] tokens, neither happens. *)

From Stdlib Require Import ZArith Lia.
From stdpp Require Import base option list.
From S2P Require Import Prelude StateErr CoreTypes SolendMath SolendState SolendReserve SolendOps SolendRates.

Open Scope rust_scope.
Open Scope state_scope.

(** ** The power loop, with every bit of the exponent set *)

(** [k] rounds of [try_pow] that square [base] and always multiply [ret], and
    the last round, which only squares: the largest values any exponent below
    [2 ^ (k + 1)] can produce, or [None] when one of them does not fit. *)
Fixpoint pow_worst (k : nat) (base ret : Z) : option Z :=
  match k with
  | O => if base * base <? 2 ^ 128 then Some ret else None
  | S k =>
      let b := base * base / WAD in
      if (base * base <? 2 ^ 128) && (ret * b <? 2 ^ 128) then pow_worst k b (ret * b / WAD) else None
  end.

Lemma mul_wad_ge x b : 0 <= x -> WAD <= b -> x <= x * b / WAD.
Proof. apply mul_div_ge. Qed.

Lemma mul_wad_mono x y b c :
  0 <= x <= y -> 0 <= b <= c -> 0 <= x * b <= y * c /\ 0 <= x * b / WAD <= y * c / WAD.
Proof.
  intros Hx Hb. assert (0 <= x * b <= y * c) by nia. split; [done|]. split.
  - apply Z.div_pos; [lia|done].
  - apply Z.div_le_mono; [done|lia].
Qed.

Lemma try_pow_loop_zero fuel base ret : try_pow_loop fuel 0 base ret = Some (Ok ret).
Proof. by destruct fuel. Qed.

Lemma half_bound exp n : 0 <= exp < 2 ^ Z.of_nat (S n) -> 0 <= exp / 2 < 2 ^ Z.of_nat n.
Proof.
  intros He. rewrite Nat2Z.inj_succ, Z.pow_succ_r in He by lia.
  split; [apply Z.div_pos; lia|]. apply Z.div_lt_upper_bound; lia.
Qed.

Lemma pow_worst_ge k B R R' : WAD <= B -> 0 <= R -> pow_worst k B R = Some R' -> R <= R'.
Proof.
  revert B R. induction k as [|k IH]; intros B R HB HR; cbn [pow_worst]; cbv zeta.
  { destruct (_ <? _); [|done]. intros [= ->]. lia. }
  destruct (_ && _); [|done]. intros HW. assert (0 < WAD) by done.
  pose proof (mul_wad_ge B B ltac:(lia) HB). pose proof (mul_wad_ge R (B * B / WAD) HR ltac:(lia)).
  pose proof (IH (B * B / WAD) (R * (B * B / WAD) / WAD) ltac:(lia) ltac:(lia) HW). lia.
Qed.

Lemma try_pow_loop_worst k fuel exp base ret B R R' :
  (k < fuel)%nat -> 0 <= exp < 2 ^ Z.of_nat (S k) -> WAD <= base <= B -> 0 <= ret <= R ->
  pow_worst k B R = Some R' ->
  exists r, try_pow_loop fuel exp base ret = Some (Ok r) /\ 0 <= r <= R'.
Proof.
  assert (0 < WAD) by done.
  revert fuel exp base ret B R. induction k as [|k IH]; intros fuel exp base ret B R Hk He Hb Hr HW;
    pose proof (pow_worst_ge _ B R R' ltac:(lia) ltac:(lia) HW) as HR';
    (destruct (Z.eq_dec exp 0) as [->|Hne]; [exists ret; rewrite try_pow_loop_zero; split; [done|lia]|]);
    (destruct fuel as [|fuel]; [lia|]); cbn [pow_worst] in HW; cbv zeta in HW;
    pose proof (half_bound _ _ He) as Hhalf; cbn [try_pow_loop];
    (destruct (Z.gtb_spec exp 0); [|lia]).
  - destruct (Z.ltb_spec (B * B) (2 ^ 128)); [|done]. injection HW as <-.
    rewrite rate_try_mul_fits by nia. change (2 ^ Z.of_nat 0) with 1 in Hhalf.
    assert (exp / 2 = 0) as -> by lia. cbn. exists ret. by rewrite try_pow_loop_zero.
  - destruct (_ && _) eqn:E in HW; [|done]. apply andb_true_iff in E as [E1%Z.ltb_lt E2%Z.ltb_lt].
    pose proof (mul_wad_mono base B base B ltac:(lia) ltac:(lia)) as [Hsq Hsq'].
    pose proof (mul_wad_ge base base ltac:(lia) ltac:(lia)) as Hge.
    pose proof (mul_wad_mono ret R (base * base / WAD) (B * B / WAD) Hr Hsq') as [Hm Hm'].
    pose proof (mul_wad_ge R (B * B / WAD) ltac:(lia) ltac:(lia)) as HR.
    rewrite (rate_try_mul_fits base base) by lia.
    destruct (negb _); [rewrite rate_try_mul_fits by lia|];
      (eapply (IH fuel); [lia|done| | |exact HW]; lia).
Qed.

(** Any positive exponent gives at least the base. *)
Lemma try_pow_loop_base fuel exp base ret r :
  WAD <= base -> WAD <= ret -> 2 <= exp ->
  try_pow_loop fuel exp base ret = Some (Ok r) -> base <= r.
Proof.
  revert exp base ret. induction fuel as [|fuel IH]; intros exp base ret Hb Hr He; cbn [try_pow_loop];
    (destruct (Z.gtb_spec exp 0); [|lia]); [done|].
  destruct (rate_try_mul base base) as [b|] eqn:E1; [|done]. apply rate_try_mul_Ok in E1 as [-> _].
  assert (0 < WAD) by done. pose proof (mul_wad_ge base base ltac:(lia) Hb).
  destruct (Z.eqb_spec (exp / 2 mod 2) 0) as [Hev|Hodd]; cbn [negb].
  - intros HH. apply IH in HH; [lia|lia|lia|]. pose proof (Z.div_mod (exp / 2) 2 ltac:(lia)).
    assert (1 <= exp / 2) by (apply Z.div_le_lower_bound; lia). lia.
  - destruct (rate_try_mul ret _) as [ret'|] eqn:E2; [|done]. apply rate_try_mul_Ok in E2 as [-> _].
    pose proof (mul_wad_ge (base * base / WAD) ret ltac:(lia) Hr) as Hge.
    rewrite (Z.mul_comm _ ret) in Hge.
    intros HH. apply try_pow_loop_lower in HH; lia.
Qed.

Lemma rate_pow_ge_base base exp r : WAD <= base -> 0 < exp -> rate_pow base exp = Ok r -> base <= r.
Proof.
  intros Hb He H. apply rate_pow_Ok in H. rewrite rate_try_pow_eq in H.
  destruct (Z.eq_dec exp 1) as [->|].
  - change (negb (1 mod 2 =? 0)) with true in H. cbv iota in H. by apply try_pow_loop_lower in H.
  - refine (try_pow_loop_base 64 exp base _ r Hb _ _ H); [by destruct (negb _)|lia].
Qed.

(** A year of slots is below [2 ^ 26]; growth stays below a factor of 16. *)
Definition MAX_YEARLY_GROWTH : Z := 16 * WAD.
Definition max_slot_base : Z := WAD + rate_from_percent u8_max / SLOTS_PER_YEAR.

Lemma pow_worst_year :
  exists R', pow_worst 25 max_slot_base max_slot_base = Some R' /\ R' <= MAX_YEARLY_GROWTH.
Proof. eexists. split; [vm_compute; reflexivity|]. by vm_compute. Qed.

Lemma rate_pow_worst base slots B R' :
  WAD <= base <= B -> 0 <= slots <= SLOTS_PER_YEAR -> pow_worst 25 B B = Some R' ->
  exists q, rate_pow base slots = Ok q /\ WAD <= q <= R' /\ (0 < slots -> base <= q).
Proof.
  intros Hb Hs HR. assert (HW : 0 < WAD) by done.
  destruct (try_pow_loop_worst 25 64 slots base (if negb (slots mod 2 =? 0) then base else WAD) B B R')
    as (q & Hq & Hq'); [lia| |done|destruct (negb _); lia|exact HR|].
  { unfold SLOTS_PER_YEAR in Hs. change (2 ^ Z.of_nat 26) with 67108864. lia. }
  assert (Hpow : rate_pow base slots = Ok q).
  { assert (Some (rate_pow base slots) = Some (Ok q)) as [= Heq]; [|exact Heq].
    rewrite <- rate_pow_total by (unfold in_u, SLOTS_PER_YEAR in *; lia). by rewrite rate_try_pow_eq. }
  exists q. split; [exact Hpow|].
  split; [split; [|lia]; apply (rate_pow_ge_one base slots); [lia|exact Hpow]|].
  intros Hpos. exact (rate_pow_ge_base base slots q (proj1 Hb) Hpos Hpow).
Qed.

Lemma rate_pow_year rate slots :
  0 <= rate <= rate_from_percent u8_max -> 0 <= slots <= SLOTS_PER_YEAR ->
  exists q, rate_pow (WAD + rate / SLOTS_PER_YEAR) slots = Ok q /\ WAD <= q <= MAX_YEARLY_GROWTH
  /\ (0 < slots -> WAD + rate / SLOTS_PER_YEAR <= q) /\ (rate = 0 -> q = WAD).
Proof.
  intros Hr Hs. destruct pow_worst_year as (R' & HR & Hle).
  assert (HS : 0 < SLOTS_PER_YEAR) by done.
  assert (Hbase : WAD <= WAD + rate / SLOTS_PER_YEAR <= max_slot_base).
  { unfold max_slot_base. pose proof (Z.div_pos rate _ (proj1 Hr) HS).
    pose proof (Z.div_le_mono rate (rate_from_percent u8_max) SLOTS_PER_YEAR HS (proj2 Hr)). lia. }
  destruct (rate_pow_worst _ slots _ R' Hbase Hs HR) as (q & Hq & Hq' & Hpos).
  exists q. split; [exact Hq|]. split; [lia|]. split; [exact Hpos|]. intros ->.
  destruct (rate_pow_worst WAD slots WAD WAD ltac:(lia) Hs eq_refl) as (q0 & Hq0 & Hle0 & _).
  change (WAD + 0 / SLOTS_PER_YEAR) with WAD in Hq. rewrite Hq in Hq0. injection Hq0 as <-. lia.
Qed.

(* ------------------------------------------------------------------ *)
(** ** Accrual *)

Lemma dec_try_mul_rate_fits x q : 0 <= x * q < 2 ^ 192 -> dec_try_mul_rate x q = Ok (x * q / WAD).
Proof. apply dec_try_mul_fits. Qed.
Lemma growth_bounds x q :
  0 <= x -> WAD <= q <= MAX_YEARLY_GROWTH -> x <= x * q / WAD <= 16 * x.
Proof.
  unfold MAX_YEARLY_GROWTH. intros Hx Hq. split; [apply mul_wad_ge; lia|].
  apply Z.div_le_upper_bound; [done|nia].
Qed.
Lemma cut_bounds x take : 0 <= x -> 0 <= take <= WAD -> 0 <= x * take / WAD <= x.
Proof.
  intros Hx Ht. assert (0 < WAD) by done.
  split; [apply Z.div_pos; nia|apply Z.div_le_upper_bound; nia].
Qed.

(** What a reserve with at most [u64::MAX] tokens of debt looks like. *)
Record moderate (l : ReserveLiquidity) : Prop := {
  md_available : is_u64 (available_amount l);
  md_borrowed : 0 <= borrowed_amount_wads l <= u64_max * WAD;
  md_cumulative : 0 <= cumulative_borrow_rate_wads l <= u64_max * WAD;
  md_fees : 0 <= accumulated_protocol_fees_wads l
            <= WAD * available_amount l + borrowed_amount_wads l
}.

Lemma moderate_typed l : moderate l -> Liquidity_ty l.
Proof.
  intros [Ha Hb Hc Hf]. unfold u64_max, WAD in *.
  constructor; unfold Decimal_wf, in_u in *; lia.
Qed.

Lemma utilization_defined l :
  is_u64 (available_amount l) -> 0 <= borrowed_amount_wads l < 2 ^ 128 ->
  0 <= accumulated_protocol_fees_wads l <= WAD * available_amount l + borrowed_amount_wads l ->
  exists u, utilization_rate l = Ok u /\ 0 <= u <= WAD.
Proof.
  intros Ha Hb Hf. unfold utilization_rate, total_supply, dec_from_u64, in_u in *.
  rewrite dec_try_add_fits by (unfold WAD in *; lia). rewrite dec_try_sub_fits by (unfold WAD in *; lia).
  destruct (_ || _) eqn:E; [eexists; split; [done|by vm_compute]|].
  apply orb_false_iff in E as [_ E%Z.eqb_neq].
  change dec_zero with 0 in E. rewrite dec_try_add_fits by (unfold WAD in *; lia).
  set (d := borrowed_amount_wads l + WAD * available_amount l). assert (0 < WAD) by done.
  rewrite dec_try_div_fits by (unfold d, WAD in *; lia).
  assert (Hu : 0 <= borrowed_amount_wads l * WAD / d <= WAD).
  { split; [apply Z.div_pos; unfold d; nia|apply Z.div_le_upper_bound; unfold d; nia]. }
  eexists. split; [|exact Hu]. apply rate_try_from_Ok. split; [done|]. unfold in_u, WAD in *. lia.
Qed.

(** One compounding step, with its results. *)
Lemma compound_interest_year rate slots take l :
  0 <= rate <= rate_from_percent u8_max -> 0 <= slots <= SLOTS_PER_YEAR -> 0 <= take <= WAD ->
  moderate l ->
  exists q, WAD <= q <= MAX_YEARLY_GROWTH /\ (0 < slots -> WAD + rate / SLOTS_PER_YEAR <= q)
  /\ (rate = 0 -> q = WAD)
  /\ let debt := borrowed_amount_wads l * q / WAD - borrowed_amount_wads l in
     compound_interest rate slots take l
     = (with_borrowed (borrowed_amount_wads l + debt)
          (with_fees (debt * take / WAD + accumulated_protocol_fees_wads l)
             (with_cumulative (cumulative_borrow_rate_wads l * q / WAD) l)), Ok tt).
Proof.
  intros Hr Hs Ht [Ha Hb Hc Hf]. destruct (rate_pow_year rate slots Hr Hs) as (q & Hq & Hq' & Hbase & Hzero).
  exists q. split; [done|]. split; [exact Hbase|]. split; [exact Hzero|]. cbv zeta. unfold u64_max, in_u in *.
  set (b := borrowed_amount_wads l) in *. set (c := cumulative_borrow_rate_wads l) in *.
  assert (HW : 0 < WAD) by done.
  pose proof (growth_bounds b q (proj1 Hb) Hq') as Hbq.
  set (debt := b * q / WAD - b). assert (Hdebt : 0 <= debt <= 15 * b) by lia.
  pose proof (cut_bounds debt take (proj1 Hdebt) Ht) as Hfee. unfold MAX_YEARLY_GROWTH in *.
  unfold compound_interest, st_bind, st_get, st_set, rate_try_div_u64, rate_try_add, checked_div, checked_add.
  change (SLOTS_PER_YEAR =? 0) with false. cbv iota. cbn [ok_or].
  change rate_one with WAD.
  assert (0 <= rate / SLOTS_PER_YEAR <= rate) as Hslot.
  { unfold SLOTS_PER_YEAR. split; [apply Z.div_pos; lia|apply Z.div_le_upper_bound; lia]. }
  rewrite to_u_in by (unfold in_u, rate_from_percent, PERCENT_SCALER, u8_max, WAD in *; lia).
  cbn [ok_or]. rewrite Hq. rewrite dec_try_mul_rate_fits by (fold c; unfold WAD in *; nia).
  cbn [with_cumulative borrowed_amount_wads accumulated_protocol_fees_wads]. fold b c.
  rewrite dec_try_mul_rate_fits by (unfold WAD in *; nia).
  rewrite dec_try_sub_fits by (unfold WAD in *; lia). fold debt.
  clearbody debt. rewrite dec_try_mul_rate_fits by (unfold WAD in *; nia).
  rewrite dec_try_add_fits by (unfold WAD in *; lia).
  cbn [with_fees with_cumulative borrowed_amount_wads]. fold b.
  rewrite dec_try_add_fits by (unfold WAD in *; lia).
  done.
Qed.

Lemma Reserve_pack_defined r dst :
  Reserve_wf r -> (RESERVE_LEN <= length dst)%nat -> exists out, Reserve_pack r dst = Done out.
Proof.
  intros [_ _ _ [_ _ _ Hbo Hcu Hfe Hpr Hsm Hex] _ _ _ Hlim Hat] Hlen.
  destruct (limiter_pack_Done _ Hlim) as (lim & Hlp & _).
  unfold Reserve_pack, array_ref, slice.
  destruct (Nat.leb_spec (0 + RESERVE_LEN) (length dst)); [|lia].
  assert (Hxt : is_u128 (default dec_zero (extra_market_price (liquidity r)))).
  { destruct (extra_market_price (liquidity r)); [by apply Hex|by vm_compute]. }
  cbv zeta. rewrite !pack_decimal_Done by done. rewrite Hlp. by eexists.
Qed.

(** The reserve stays well typed for packing when debt, index and fees fit. *)
Lemma with_accrued_wf r b f c :
  is_u128 b -> is_u128 f -> is_u128 c -> Reserve_wf r ->
  Reserve_wf (with_liquidity (with_borrowed b (with_fees f (with_cumulative c (liquidity r)))) r).
Proof.
  intros Hb Hf Hc [? ? ? [? ? ? ? ? ? ? ? ?] ? ? ? ? ?]. constructor; try done.
Qed.

(** The rate in force is below the super-maximum. *)
Lemma current_rate_range r u :
  curve_typed (config r) -> curve_valid (config r) -> super_max_borrow_rate (config r) <= u8_max ->
  utilization_rate (liquidity r) = Ok u -> 0 <= u <= WAD ->
  exists rate, current_borrow_rate r = Ok rate /\ 0 <= rate <= rate_from_percent u8_max.
Proof.
  intros Ht Hv Hs Hu Hb. unfold current_borrow_rate. rewrite Hu, borrow_rate_at_eq by done.
  eexists. split; [done|]. pose proof (rate_curve_bounds (config r) u Ht Hv Hb) as (A1 & A2 & A3).
  destruct Ht as [T1 T2 T3 T4 T5 T6], Hv as [[V1 V2] [V3 V4] V5 V6].
  unfold rate_from_percent, rate_from_percent_u64, PERCENT_SCALER, in_u in *.
  destruct (Z.leb_spec u (optimal_utilization_rate (config r) * 10000000000000000)); [lia|].
  destruct (Z.leb_spec u (max_utilization_rate (config r) * 10000000000000000)); lia.
Qed.

(** C20: on a well-typed reserve with a valid configuration, rates of at most
    255 percent and at most [u64::MAX] tokens of debt, accruing up to a year
    of interest succeeds, grows the debt at most 16 times, and leaves a
    reserve whose utilization is defined and which still packs. *)
Theorem accrue_interest_year r slot dst :
  Reserve_wf r -> moderate (liquidity r) -> validate_reserve_config (config r) = Ok tt ->
  super_max_borrow_rate (config r) <= u8_max -> is_u64 slot ->
  lu_slot (last_update r) <= slot <= lu_slot (last_update r) + SLOTS_PER_YEAR ->
  (RESERVE_LEN <= length dst)%nat ->
  exists r' u out, Reserve_accrue_interest slot r = (r', Ok tt)
  /\ borrowed_amount_wads (liquidity r) <= borrowed_amount_wads (liquidity r')
       <= 16 * borrowed_amount_wads (liquidity r)
  /\ utilization_rate (liquidity r') = Ok u /\ Reserve_pack r' dst = Done out.
Proof.
  intros Hwf Hm Hval Hsuper Hslot Hyear Hdst. pose proof (validate_curve _ Hval) as Hv.
  pose proof (config_curve_typed _ (rs_wf_config _ Hwf)) as Ht.
  pose proof (rs_wf_slot _ Hwf) as Hlu. pose proof Hm as [Ha Hb Hc Hf].
  destruct (utilization_defined (liquidity r)) as (u & Hu & Hur);
    [done|unfold u64_max, WAD in *; lia|done|].
  destruct (current_rate_range r u Ht Hv Hsuper Hu Hur) as (rate & Hrate & Hrange).
  unfold Reserve_accrue_interest, slots_elapsed, st_bind, st_get, checked_sub.
  rewrite to_u_in by (unfold in_u in *; lia). cbn [ok_or].
  destruct (Z.gtb_spec (slot - lu_slot (last_update r)) 0).
  2: { destruct (Reserve_pack_defined r dst Hwf Hdst) as [out Hout]. exists r, u, out.
       split_and!; try done; lia. }
  rewrite Hrate. set (take := rate_from_percent (protocol_take_rate (config r))).
  assert (Htake : 0 <= take <= WAD).
  { pose proof (cv_take _ Hv). destruct (rs_wf_config _ Hwf) as [H8 _ _ _ _]. forall_inv H8.
    unfold take, rate_from_percent, PERCENT_SCALER, WAD, in_u in *. lia. }
  destruct (compound_interest_year rate (slot - lu_slot (last_update r)) take (liquidity r))
    as (q & Hq & _ & _ & Hci); [done|lia|done|done|]; cbv zeta in Hci.
  unfold on_liquidity, zoom. rewrite Hci. clear Hci.
  set (b := borrowed_amount_wads (liquidity r)) in *.
  set (c := cumulative_borrow_rate_wads (liquidity r)) in *.
  pose proof (growth_bounds b q (proj1 Hb) Hq) as Hbq.
  pose proof (growth_bounds c q (proj1 Hc) Hq) as Hcq.
  pose proof (cut_bounds (b * q / WAD - b) take ltac:(lia) Htake) as Hfee.
  replace (b + (b * q / WAD - b)) with (b * q / WAD) by lia.
  set (fee := (b * q / WAD - b) * take / WAD) in *. unfold u64_max, in_u in Ha, Hb, Hc, Hf.
  match goal with |- context [(with_liquidity ?l0 r, _)] => set (l := l0) end.
  destruct (utilization_defined l) as (u' & Hu' & _);
    [done|cbn; unfold WAD in *; lia|cbn; fold b; unfold WAD in *; lia|].
  destruct (Reserve_pack_defined (with_liquidity l r) dst) as [out Hout]; [|exact Hdst|].
  { apply with_accrued_wf; [unfold in_u, WAD in *; lia..|exact Hwf]. }
  exists (with_liquidity l r), u', out. cbn. fold b. split_and!; try done; lia.
Qed.

Lemma accrue_interest_year_witness :
  exists r' u out, Reserve_accrue_interest 90 sample_reserve = (r', Ok tt)
  /\ borrowed_amount_wads (liquidity sample_reserve) <= borrowed_amount_wads (liquidity r')
       <= 16 * borrowed_amount_wads (liquidity sample_reserve)
  /\ utilization_rate (liquidity r') = Ok u /\ Reserve_pack r' (replicate 619 0) = Done out.
Proof.
  apply (accrue_interest_year sample_reserve 90 (replicate 619 0)).
  - apply sample_reserve_wf.
  - constructor; split; by vm_compute.
  - reflexivity.
  - by vm_compute.
  - split; by vm_compute.
  - split; by vm_compute.
  - by vm_compute.
Defined.
