(* ===== verification/SolendBorrow.v ===== *)
(** * Borrowing and fees of a Save reserve.

    Weights and scales never panic, fees stay within the amount they are
    taken from, the maximum borrow is exactly what the value, the reserve and
    its liquidity allow, and a given amount is held to its value. *)

From Stdlib Require Import ZArith Lia.
From stdpp Require Import base option list.
From S2P Require Import Prelude StateErr CoreTypes SolendMath SolendState SolendReserve SolendOps SolendRates.

Open Scope rust_scope.
Open Scope state_scope.

(** ** Weights *)

Lemma dec_from_bps_Done bps : dec_from_bps bps = Done (WAD * bps / 10000).
Proof. done. Qed.

Lemma dec_from_deca_bps_Done n : dec_from_deca_bps n = Done (WAD * n / 1000).
Proof. done. Qed.

Lemma borrow_weight_Done r :
  is_u64 (added_borrow_weight_bps (config r)) ->
  borrow_weight r = Done (WAD + WAD * added_borrow_weight_bps (config r) / 10000).
Proof.
  intros H. unfold borrow_weight. rewrite dec_from_bps_Done. unfold dec_try_add, checked_add, dec_one.
  set (w := WAD * _ / 10000).
  assert (0 <= w <= 2 ^ 128).
  { unfold w, in_u, WAD in *. split; [apply Z.div_pos; lia|apply Z.div_le_upper_bound; lia]. }
  by rewrite to_u_in by (unfold in_u, WAD; lia).
Qed.

(** Neither weight panics. The borrow weight is at least 1; the price scale
    is 1 plus the configured offset clamped to its range, so it lies between
    0.8 and 1.5, and it is below 1 exactly when the offset is negative. *)
Theorem weights_spec r :
  is_u64 (added_borrow_weight_bps (config r)) ->
  (exists w, borrow_weight r = Done w /\ WAD <= w)
  /\ exists p, price_scale r = Done p
     /\ 800000000000000000 <= p <= 1500000000000000000
     /\ (p < WAD <-> scaled_price_offset_bps (config r) < 0)
     /\ (-2000 <= scaled_price_offset_bps (config r) <= 5000 ->
           p * 10000 = WAD * (10000 + scaled_price_offset_bps (config r))).
Proof.
  intros H. split.
  - rewrite (borrow_weight_Done r H). eexists; split; [done|].
    assert (0 <= WAD * added_borrow_weight_bps (config r) / 10000); [|lia].
    unfold in_u, WAD in *. apply Z.div_pos; lia.
  - unfold price_scale, MAX_SCALED_PRICE_OFFSET_BPS, MIN_SCALED_PRICE_OFFSET_BPS.
    rewrite dec_from_bps_Done. set (o := scaled_price_offset_bps (config r)).
    set (w := 10000 + Z.min 5000 (Z.max (-2000) o)).
    assert (Hw : 8000 <= w <= 15000) by lia.
    rewrite wrap_small by (unfold in_u; lia). eexists; split; [done|].
    assert (HE : WAD * w / 10000 = 100000000000000 * w).
    { unfold WAD. replace (1000000000000000000 * w) with (100000000000000 * w * 10000) by lia.
      by apply Z.div_mul. }
    rewrite HE. unfold WAD. split_and!; lia.
Qed.

Lemma weights_spec_witness :
  (exists w, borrow_weight sample_reserve = Done w /\ WAD <= w)
  /\ exists p, price_scale sample_reserve = Done p
     /\ 800000000000000000 <= p <= 1500000000000000000
     /\ (p < WAD <-> -25 < 0)
     /\ (-2000 <= -25 <= 5000 -> p * 10000 = WAD * (10000 + -25)).
Proof. apply (weights_spec sample_reserve). split; by vm_compute. Defined.

(* ------------------------------------------------------------------ *)
(** ** Fees *)

(** The fee before rounding. *)
Definition fee_wads (amount : Decimal) (fee_wad : Z) (calc : FeeCalculation) : Z :=
  amount * (match calc with
            | Exclusive => fee_wad
            | Inclusive => fee_wad * WAD / (fee_wad + WAD)
            end) / WAD.

Lemma calculate_fees_Ok fees amount fee_wad calc fee host :
  calculate_fees fees amount fee_wad calc = Ok (fee, host) ->
  0 < fee_wad -> 0 < amount ->
  let minimum := if 0 <? host_fee_percentage fees then 2 else 1 in
  let exact := Z.max (fee_wads amount fee_wad calc) (WAD * minimum) in
  exact < amount /\ fee = (HALF_WAD + exact) / WAD /\ in_u 64 fee
  /\ host = (if 0 <? host_fee_percentage fees
             then Z.max ((HALF_WAD + exact * rate_from_percent (host_fee_percentage fees) / WAD) / WAD) 1
             else 0).
Proof.
  intros H Hf Ha. cbv zeta. unfold calculate_fees, rate_from_scaled_val in H.
  change rate_zero with 0 in H. change dec_zero with 0 in H.
  destruct (Z.gtb_spec fee_wad 0); [|lia]. destruct (Z.gtb_spec amount 0); [|lia]. cbn [andb] in H.
  assert (Hneed : (rate_from_percent (host_fee_percentage fees) >? 0) = (0 <? host_fee_percentage fees)).
  { unfold rate_from_percent, PERCENT_SCALER.
    destruct (Z.gtb_spec (host_fee_percentage fees * 10000000000000000) 0),
      (Z.ltb_spec 0 (host_fee_percentage fees)); lia. }
  rewrite Hneed in H.
  match type of H with match ?m with _ => _ end = _ => destruct m as [x|] eqn:Ex; [|done] end.
  assert (x = fee_wads amount fee_wad calc) as ->.
  { unfold fee_wads. destruct calc.
    - by apply dec_try_mul_Ok in Ex as [-> _].
    - unfold rate_try_add in Ex. destruct (ok_or _ _) as [d|] eqn:Ed in Ex; [|done].
      apply ok_or_Ok, to_u_Some in Ed as [-> _].
      destruct (rate_try_div _ _) as [q|] eqn:Eq in Ex; [|done].
      unfold rate_try_div in Eq. checked_ok Eq. subst. by apply dec_try_mul_Ok in Ex as [-> _]. }
  set (exact := Z.max _ _) in H.
  assert (Hexact : exact = Z.max (fee_wads amount fee_wad calc)
                     (WAD * (if 0 <? host_fee_percentage fees then 2 else 1))) by done.
  rewrite <- Hexact. destruct (Z.geb_spec exact amount); [done|].
  destruct (dec_try_round_u64 exact) as [n|] eqn:En; [|done].
  apply dec_try_round_u64_Ok in En as [-> Hn]. destruct (0 <? host_fee_percentage fees).
  - destruct (dec_try_mul_rate _ _) as [h|] eqn:Eh; [|done]. apply dec_try_mul_Ok in Eh as [-> _].
    destruct (dec_try_round_u64 _) as [k|] eqn:Ek; [|done]. apply dec_try_round_u64_Ok in Ek as [-> _].
    injection H as <- <-. split_and!; done.
  - injection H as <- <-. split_and!; done.
Qed.

Lemma round_bounds d : 2 * Z.abs ((HALF_WAD + d) / WAD * WAD - d) <= WAD.
Proof.
  pose proof (div_floor_bounds (HALF_WAD + d) WAD ltac:(done)). unfold HALF_WAD, WAD in *. lia.
Qed.

Lemma host_le_fee exact pct :
  2 * WAD <= exact -> 0 <= pct <= 100 ->
  Z.max ((HALF_WAD + exact * rate_from_percent pct / WAD) / WAD) 1 <= (HALF_WAD + exact) / WAD.
Proof.
  intros He Hp. apply Z.max_lub.
  - apply Z.div_le_mono; [done|]. apply Z.add_le_mono_l, Z.div_le_upper_bound; [done|].
    unfold rate_from_percent, PERCENT_SCALER, WAD in *. nia.
  - apply Z.div_le_lower_bound; [done|]. unfold HALF_WAD, WAD in *. lia.
Qed.

Lemma fees_none fees amount fee_wad calc fee host :
  calculate_fees fees amount fee_wad calc = Ok (fee, host) ->
  fee_wad <= 0 \/ amount <= 0 -> fee = 0 /\ host = 0.
Proof.
  intros H Hz. unfold calculate_fees, rate_from_scaled_val in H.
  change rate_zero with 0 in H. change dec_zero with 0 in H.
  destruct (Z.gtb_spec fee_wad 0), (Z.gtb_spec amount 0); try lia; by injection H as <- <-.
Qed.

Lemma fees_some fees amount fee_wad calc fee host :
  calculate_fees fees amount fee_wad calc = Ok (fee, host) ->
  0 < fee_wad -> 0 < amount -> 0 <= host_fee_percentage fees <= 100 ->
  let minimum := if 0 <? host_fee_percentage fees then 2 else 1 in
  let exact := Z.max (fee_wads amount fee_wad calc) (WAD * minimum) in
  exact < amount /\ 2 * Z.abs (fee * WAD - exact) <= WAD /\ minimum <= fee
  /\ (if 0 <? host_fee_percentage fees then 1 <= host <= fee else host = 0).
Proof.
  intros H Hf0 Ha0 Hp. pose proof (calculate_fees_Ok _ _ _ _ _ _ H Hf0 Ha0) as (Hlt & -> & _ & ->).
  cbv zeta in *. split_and!; [done|apply round_bounds| |].
  - apply Z.div_le_lower_bound; [done|]. unfold HALF_WAD, WAD in *. destruct (0 <? _); lia.
  - destruct (0 <? _) eqn:E; [|done]. split; [lia|]. apply host_le_fee; lia.
Qed.

Lemma fees_split fees amount fee_wad calc fee host :
  calculate_fees fees amount fee_wad calc = Ok (fee, host) ->
  0 <= host_fee_percentage fees <= 100 -> 0 <= host <= fee /\ in_u 64 fee.
Proof.
  intros H Hp. destruct (Z_le_gt_dec fee_wad 0) as [Hz|Hz];
    [destruct (fees_none _ _ _ _ _ _ H (or_introl Hz)) as [-> ->]; unfold in_u; lia|].
  destruct (Z_le_gt_dec amount 0) as [Hz'|Hz'];
    [destruct (fees_none _ _ _ _ _ _ H (or_intror Hz')) as [-> ->]; unfold in_u; lia|].
  pose proof (fees_some _ _ _ _ _ _ H ltac:(lia) ltac:(lia) Hp) as (_ & _ & Hm & Hh).
  pose proof (calculate_fees_Ok _ _ _ _ _ _ H ltac:(lia) ltac:(lia)) as (_ & _ & Hfee & _).
  split; [|done]. destruct (0 <? _); lia.
Qed.

(** No fee is charged without a rate or on nothing. Otherwise the fee is the
    exact one, or the minimum if that is larger, rounded to the nearest unit;
    before rounding it is smaller than the amount; the host's part is at
    least one unit and at most the fee when there is a host percentage; and
    the split of a flash-loan fee never underflows. *)
Theorem fees_spec fees amount fee_wad calc fee host :
  calculate_fees fees amount fee_wad calc = Ok (fee, host) ->
  0 <= host_fee_percentage fees <= 100 ->
  (fee_wad <= 0 \/ amount <= 0 -> fee = 0 /\ host = 0)
  /\ (0 < fee_wad -> 0 < amount ->
      let minimum := if 0 <? host_fee_percentage fees then 2 else 1 in
      let exact := Z.max (fee_wads amount fee_wad calc) (WAD * minimum) in
      exact < amount /\ 2 * Z.abs (fee * WAD - exact) <= WAD /\ minimum <= fee
      /\ (if 0 <? host_fee_percentage fees then 1 <= host <= fee else host = 0))
  /\ (calc = Exclusive -> fee_wad = flash_loan_fee_wad fees ->
      calculate_flash_loan_fees fees amount = Ok (fee - host, host)).
Proof.
  intros H Hp. split_and!; [by eapply fees_none|intros; by eapply fees_some|].
  intros -> ->. unfold calculate_flash_loan_fees. rewrite H. unfold checked_sub.
  apply fees_split in H as [Hh Hfee]; [|done]. by rewrite to_u_in by (unfold in_u in *; lia).
Qed.

Lemma fees_spec_witness :
  let fees := mkReserveFees 10 3000000000000000 20 in
  (3000000000000000 <= 0 \/ 1000 * WAD <= 0 -> 3 = 0 /\ 1 = 0)
  /\ (0 < 3000000000000000 -> 0 < 1000 * WAD ->
      let minimum := if 0 <? 20 then 2 else 1 in
      let exact := Z.max (fee_wads (1000 * WAD) 3000000000000000 Exclusive) (WAD * minimum) in
      exact < 1000 * WAD /\ 2 * Z.abs (3 * WAD - exact) <= WAD /\ minimum <= 3
      /\ (if 0 <? 20 then 1 <= 1 <= 3 else 1 = 0))
  /\ (Exclusive = Exclusive -> 3000000000000000 = 3000000000000000 ->
      calculate_flash_loan_fees fees (1000 * WAD) = Ok (3 - 1, 1)).
Proof.
  cbv zeta. apply (fees_spec (mkReserveFees 10 3000000000000000 20)); [vm_compute; reflexivity|..];
    cbn; lia.
Defined.

(** ** Borrowing *)

(** The largest amount whose value at the upper-bound price and weight is
    within [max_value], as the source rounds it: both divisions down. *)
Definition amount_within_value (max_value decimals price weight : Z) : Z :=
  max_value * decimals * WAD / price * WAD / weight.

Lemma amount_within_value_bound max_value decimals price weight :
  0 < price -> 0 < weight ->
  amount_within_value max_value decimals price weight * price * weight <= max_value * decimals * WAD * WAD.
Proof.
  intros Hp Hw. unfold amount_within_value.
  pose proof (Z.mul_div_le (max_value * decimals * WAD) price Hp) as H1.
  set (x := max_value * decimals * WAD / price) in *.
  pose proof (Z.mul_div_le (x * WAD) weight Hw) as H2. set (y := x * WAD / weight) in *.
  assert (weight * y * price <= x * WAD * price) by (apply Z.mul_le_mono_nonneg_r; lia).
  assert (price * x * WAD <= max_value * decimals * WAD * WAD) by (apply Z.mul_le_mono_nonneg_r; [done|lia]).
  lia.
Qed.

Lemma max_borrow_Ok decimals weight max_value remaining r b :
  calculate_max_borrow decimals weight max_value remaining r = Ok b ->
  0 <= host_fee_percentage (rcfg_fees (config r)) <= 100 ->
  price_upper_bound r <> 0
  /\ cb_borrow_amount b
     = Z.min (Z.min (amount_within_value max_value decimals (price_upper_bound r) weight) remaining)
         (available_amount (liquidity r) * WAD)
  /\ calculate_borrow_fees (rcfg_fees (config r)) (cb_borrow_amount b) Inclusive
     = Ok (cb_borrow_fee b, cb_host_fee b)
  /\ cb_receive_amount b = cb_borrow_amount b / WAD - cb_borrow_fee b
  /\ 0 <= cb_host_fee b <= cb_borrow_fee b /\ 0 <= cb_receive_amount b.
Proof.
  unfold calculate_max_borrow. intros H Hp.
  destruct (dec_try_mul_u64 _ _) as [x1|] eqn:E1; [|done]. apply dec_try_mul_u64_Ok in E1 as [-> _].
  destruct (dec_try_div _ (price_upper_bound r)) as [x2|] eqn:E2; [|done]. apply dec_try_div_Ok in E2 as (Hne & -> & _).
  destruct (dec_try_div _ weight) as [x3|] eqn:E3; [|done]. apply dec_try_div_Ok in E3 as (_ & -> & _).
  fold (amount_within_value max_value decimals (price_upper_bound r) weight) in H.
  set (amount := Z.min (Z.min _ remaining) _) in H.
  destruct (calculate_borrow_fees _ _ _) as [[fee host]|] eqn:Ef; [|done]. pose proof Ef as Ef'.
  apply fees_split in Ef' as [Hh _]; [|done].
  destruct (dec_try_floor_u64 amount) as [whole|] eqn:Ew; [|done]. apply dec_try_floor_u64_Ok in Ew as [-> _].
  destruct (ok_or _ _) as [receive|] eqn:Er; [|done]. apply ok_or_Ok, to_u_Some in Er as [-> [Hr _]].
  injection H as <-. cbn. split_and!; try done; try lia.
  unfold amount, dec_from_u64. by rewrite (Z.mul_comm WAD).
Qed.

Lemma exact_borrow_Ok amount weight max_value r b :
  calculate_exact_borrow amount weight max_value r = Ok b ->
  0 <= host_fee_percentage (rcfg_fees (config r)) <= 100 ->
  cb_receive_amount b = amount /\ cb_borrow_amount b = (amount + cb_borrow_fee b) * WAD
  /\ calculate_borrow_fees (rcfg_fees (config r)) (amount * WAD) Exclusive
     = Ok (cb_borrow_fee b, cb_host_fee b)
  /\ 0 <= cb_host_fee b <= cb_borrow_fee b
  /\ exists v value, market_value_upper_bound (cb_borrow_amount b) r = Ok v
     /\ dec_try_mul v weight = Ok value /\ value <= max_value.
Proof.
  unfold calculate_exact_borrow. intros H Hp.
  destruct (calculate_borrow_fees _ _ _) as [[fee host]|] eqn:Ef; [|done]. pose proof Ef as Ef'.
  apply fees_split in Ef' as [Hh _]; [|done]. unfold dec_from_u64 in Ef. rewrite (Z.mul_comm WAD) in Ef.
  destruct (dec_try_add _ _) as [total|] eqn:Et; [|done]. apply dec_try_add_Ok in Et as [-> _].
  destruct (market_value_upper_bound _ r) as [v|] eqn:Ev; [|done].
  destruct (dec_try_mul v weight) as [value|] eqn:Eval; [|done].
  destruct (Z.gtb_spec value max_value); [done|]. injection H as <-. cbn.
  split_and!; try done; try lia; [unfold dec_from_u64; lia|]. by exists v, value.
Qed.

(** C23: on a well-typed reserve with a positive price the borrow calculation
    never panics; what it returns pays out the request and the fees of the
    reserve within the amount added to the debt, and gives the host at most
    the fee. For a given amount the borrow is exactly the request and the fee,
    its value at the upper-bound price and the borrow weight is at most the
    maximum value, and a request above it is refused; the reserve's limit and
    liquidity are not looked at. For the maximum amount the borrow is the
    largest that the maximum value at that price and weight, the reserve's
    limit and its liquidity allow. *)
Theorem calculate_borrow_spec amount max_value remaining r :
  is_u64 (added_borrow_weight_bps (config r)) ->
  0 <= host_fee_percentage (rcfg_fees (config r)) <= 100 -> 0 <= price_upper_bound r ->
  let fees := calculate_borrow_fees (rcfg_fees (config r)) in
  let decimals := 10 ^ mint_decimals (liquidity r) in
  exists w res, borrow_weight r = Done w /\ WAD <= w
  /\ calculate_borrow amount max_value remaining r = Done res
  /\ (amount <> u64_max -> forall fee host v value,
        decimals < 2 ^ 64 -> 0 <= mint_decimals (liquidity r) ->
        fees (amount * WAD) Exclusive = Ok (fee, host) -> Decimal_wf ((amount + fee) * WAD) ->
        market_value_upper_bound ((amount + fee) * WAD) r = Ok v -> dec_try_mul v w = Ok value ->
        max_value < value -> res = Err (Custom BorrowTooLarge))
  /\ forall b, res = Ok b ->
     (cb_receive_amount b + cb_borrow_fee b) * WAD <= cb_borrow_amount b
     /\ 0 <= cb_host_fee b <= cb_borrow_fee b
     /\ (amount <> u64_max ->
           cb_receive_amount b = amount
           /\ fees (amount * WAD) Exclusive = Ok (cb_borrow_fee b, cb_host_fee b)
           /\ cb_borrow_amount b = (amount + cb_borrow_fee b) * WAD
           /\ exists v value, market_value_upper_bound (cb_borrow_amount b) r = Ok v
              /\ dec_try_mul v w = Ok value /\ value <= max_value)
     /\ (amount = u64_max ->
           let within := amount_within_value max_value decimals (price_upper_bound r) w in
           0 <= cb_receive_amount b
           /\ cb_receive_amount b = cb_borrow_amount b / WAD - cb_borrow_fee b
           /\ fees (cb_borrow_amount b) Inclusive = Ok (cb_borrow_fee b, cb_host_fee b)
           /\ cb_borrow_amount b = Z.min (Z.min within remaining) (available_amount (liquidity r) * WAD)
           /\ cb_borrow_amount b * price_upper_bound r * w <= max_value * decimals * WAD * WAD).
Proof.
  intros Hw Hh Hprice. cbv zeta. unfold calculate_borrow.
  assert (Hwpos : WAD <= WAD + WAD * added_borrow_weight_bps (config r) / 10000).
  { assert (0 <= WAD * added_borrow_weight_bps (config r) / 10000); [|lia].
    unfold in_u, WAD in *. apply Z.div_pos; lia. }
  rewrite (borrow_weight_Done r Hw). set (w := WAD + _ / 10000) in *. clearbody w. exists w.
  destruct (ok_or (checked_pow 64 10 _) overflow) as [decimals|e] eqn:Edec.
  2: { eexists; split; [done|split; [done|split; [done|split; [|intros b; discriminate]]]].
       intros _ fee host v value Hd Hd0. unfold checked_pow in Edec. rewrite to_u_in in Edec; [done|].
       split; [by apply Z.pow_nonneg|done]. }
  apply ok_or_Ok, to_u_Some in Edec as [-> _].
  eexists; split; [done|split; [done|split; [done|]]].
  destruct (Z.eqb_spec amount u64_max) as [->|Hne].
  - split; [done|]. intros b Hb. apply max_borrow_Ok in Hb as (Hp & Ha & Hf & Hr & Hfee & H0); [|done].
    pose proof (Z.mul_div_le (cb_borrow_amount b) WAD ltac:(done)).
    split_and!; try done; try lia. intros _. split_and!; try done.
    pose proof (amount_within_value_bound max_value (10 ^ mint_decimals (liquidity r))
                  (price_upper_bound r) w ltac:(lia) ltac:(unfold WAD in *; lia)) as Hbound.
    eapply Z.le_trans; [|exact Hbound]. apply Z.mul_le_mono_nonneg_r; [unfold WAD in *; lia|].
    apply Z.mul_le_mono_nonneg_r; lia.
  - split.
    + intros _ fee host v value _ _ Hf Hwf Hv Hval Hgt. unfold calculate_exact_borrow.
      unfold dec_from_u64. rewrite (Z.mul_comm WAD amount), Hf.
      replace (amount * WAD + WAD * fee) with ((amount + fee) * WAD) by lia.
      rewrite (proj2 (dec_try_add_Ok (amount * WAD) (WAD * fee) ((amount + fee) * WAD)))
        by (split; [lia|]; by replace (amount * WAD + WAD * fee) with ((amount + fee) * WAD) by lia).
      rewrite Hv, Hval. by destruct (Z.gtb_spec value max_value); [|lia].
    + intros b Hb. apply exact_borrow_Ok in Hb as (Hr & Ha & Hf & Hfee & v & value & Hv & Hm & Hle); [|done].
      split_and!; try done; try lia. intros _. split_and!; [done..|]. by exists v, value.
Qed.

Lemma calculate_borrow_spec_witness :
  (exists b, calculate_borrow 5 (1000 * WAD) (1000 * WAD) sample_reserve = Done (Ok b)
    /\ cb_receive_amount b = 5)
  /\ exists b w, calculate_borrow u64_max (1000 * WAD) (1000 * WAD) sample_reserve = Done (Ok b)
    /\ borrow_weight sample_reserve = Done w
    /\ cb_borrow_amount b * price_upper_bound sample_reserve * w
       <= 1000 * WAD * 10 ^ mint_decimals (liquidity sample_reserve) * WAD * WAD.
Proof.
  split.
  - destruct (calculate_borrow_spec 5 (1000 * WAD) (1000 * WAD) sample_reserve
      ltac:(by vm_compute) ltac:(by vm_compute) ltac:(by vm_compute)) as (w & res & _ & _ & Hr & _ & Hb).
    assert (Hok : exists b, calculate_borrow 5 (1000 * WAD) (1000 * WAD) sample_reserve = Done (Ok b))
      by (eexists; vm_compute; reflexivity).
    destruct Hok as [b Ho]. rewrite Ho in Hr. injection Hr as <-. exists b. split; [exact Ho|].
    destruct (Hb b eq_refl) as (_ & _ & He & _). exact (proj1 (He ltac:(by vm_compute))).
  - destruct (calculate_borrow_spec u64_max (1000 * WAD) (1000 * WAD) sample_reserve
      ltac:(by vm_compute) ltac:(by vm_compute) ltac:(by vm_compute)) as (w & res & Hw & _ & Hr & _ & Hb).
    assert (Hok : exists b, calculate_borrow u64_max (1000 * WAD) (1000 * WAD) sample_reserve = Done (Ok b))
      by (eexists; vm_compute; reflexivity).
    destruct Hok as [b Ho]. rewrite Ho in Hr. injection Hr as <-. exists b, w. split; [exact Ho|].
    split; [exact Hw|]. destruct (Hb b eq_refl) as (_ & _ & _ & Hm). apply (Hm eq_refl).
Defined.

(** A given amount may exceed both what the reserve may still lend and what it
    has available: neither is compared with it here. *)
Example exact_borrow_ignores_liquidity :
  exists b, calculate_borrow 1000 (10 ^ 30) 0 sample_reserve = Done (Ok b)
    /\ available_amount (liquidity sample_reserve) * WAD < cb_borrow_amount b.
Proof. eexists. split; vm_compute; reflexivity. Qed.
