(* ===== verification/SolendObligation.v ===== *)
(** * patches/solend-sdk/src/state/obligation.rs: a borrower's position.

    The deposits and borrows of an obligation, their methods, the limits on
    withdrawing and liquidating, and the 1300-byte layout. *)

From Stdlib Require Import ZArith Lia.
From stdpp Require Import base option list.
From S2P Require Import Prelude Lists StateErr CoreTypes SolendMath SolendState SolendReserve SolendOps.

Open Scope rust_scope.
Open Scope state_scope.

Definition LIQUIDATION_CLOSE_FACTOR : Z := 20.
Definition LIQUIDATION_CLOSE_AMOUNT : Z := 2.
Definition MAX_LIQUIDATABLE_VALUE_AT_ONCE : Z := 500000.
Definition MAX_OBLIGATION_RESERVES : nat := 10.

Record ObligationCollateral := mkObligationCollateral {
  oc_deposit_reserve : Pubkey;
  oc_deposited_amount : Z;
  oc_market_value : Decimal;
  oc_attributed_borrow_value : Decimal
}.

Record ObligationLiquidity := mkObligationLiquidity {
  ol_borrow_reserve : Pubkey;
  ol_cumulative_borrow_rate_wads : Decimal;
  ol_borrowed_amount_wads : Decimal;
  ol_market_value : Decimal
}.

Record Obligation := mkObligation {
  ob_version : Z;
  ob_last_update : LastUpdate;
  ob_lending_market : Pubkey;
  ob_owner : Pubkey;
  ob_deposits : list ObligationCollateral;
  ob_borrows : list ObligationLiquidity;
  ob_deposited_value : Decimal;
  ob_borrowed_value : Decimal;
  ob_unweighted_borrowed_value : Decimal;
  ob_borrowed_value_upper_bound : Decimal;
  ob_allowed_borrow_value : Decimal;
  ob_unhealthy_borrow_value : Decimal;
  ob_super_unhealthy_borrow_value : Decimal;
  ob_borrowing_isolated_asset : bool;
  ob_closeable : bool
}.

Definition with_deposits (ds : list ObligationCollateral) (o : Obligation) : Obligation :=
  mkObligation (ob_version o) (ob_last_update o) (ob_lending_market o) (ob_owner o) ds (ob_borrows o)
    (ob_deposited_value o) (ob_borrowed_value o) (ob_unweighted_borrowed_value o)
    (ob_borrowed_value_upper_bound o) (ob_allowed_borrow_value o) (ob_unhealthy_borrow_value o)
    (ob_super_unhealthy_borrow_value o) (ob_borrowing_isolated_asset o) (ob_closeable o).
Definition with_borrows (bs : list ObligationLiquidity) (o : Obligation) : Obligation :=
  mkObligation (ob_version o) (ob_last_update o) (ob_lending_market o) (ob_owner o) (ob_deposits o) bs
    (ob_deposited_value o) (ob_borrowed_value o) (ob_unweighted_borrowed_value o)
    (ob_borrowed_value_upper_bound o) (ob_allowed_borrow_value o) (ob_unhealthy_borrow_value o)
    (ob_super_unhealthy_borrow_value o) (ob_borrowing_isolated_asset o) (ob_closeable o).

Definition Obligation_is_initialized (o : Obligation) : bool :=
  negb (ob_version o =? UNINITIALIZED_VERSION).

(** [Obligation::default()]: the derived default of every field. *)
Definition default_pubkey : Pubkey := mkPubkey zero_key.
Definition Obligation_default : Obligation :=
  mkObligation 0 (mkLastUpdate 0 false) default_pubkey default_pubkey [] [] dec_zero dec_zero
    dec_zero dec_zero dec_zero dec_zero dec_zero false false.

Record InitObligationParams := mkInitObligationParams {
  io_current_slot : Z;
  io_lending_market : Pubkey;
  io_owner : Pubkey;
  io_deposits : list ObligationCollateral;
  io_borrows : list ObligationLiquidity
}.

(** [init] keeps the values and flags of the obligation it is called on. *)
Definition Obligation_init (p : InitObligationParams) (o : Obligation) : Obligation :=
  mkObligation PROGRAM_VERSION (LastUpdate_new (io_current_slot p)) (io_lending_market p)
    (io_owner p) (io_deposits p) (io_borrows p) (ob_deposited_value o) (ob_borrowed_value o)
    (ob_unweighted_borrowed_value o) (ob_borrowed_value_upper_bound o) (ob_allowed_borrow_value o)
    (ob_unhealthy_borrow_value o) (ob_super_unhealthy_borrow_value o)
    (ob_borrowing_isolated_asset o) (ob_closeable o).
Definition Obligation_new (p : InitObligationParams) : Obligation :=
  Obligation_init p Obligation_default.

(** ** ObligationCollateral *)

Definition with_deposited (v : Z) (c : ObligationCollateral) : ObligationCollateral :=
  mkObligationCollateral (oc_deposit_reserve c) v (oc_market_value c) (oc_attributed_borrow_value c).

Definition ObligationCollateral_new (deposit_reserve : Pubkey) : ObligationCollateral :=
  mkObligationCollateral deposit_reserve 0 dec_zero dec_zero.
Definition ObligationCollateral_deposit (collateral_amount : Z) : Method ObligationCollateral unit :=
  let* v := st_get (fun c => ok_or (checked_add 64 (oc_deposited_amount c) collateral_amount) overflow) in
  st_set (with_deposited v).
Definition ObligationCollateral_withdraw (collateral_amount : Z) : Method ObligationCollateral unit :=
  let* v := st_get (fun c => ok_or (checked_sub 64 (oc_deposited_amount c) collateral_amount) overflow) in
  st_set (with_deposited v).

(** ** ObligationLiquidity *)

Definition with_owed (v : Decimal) (l : ObligationLiquidity) : ObligationLiquidity :=
  mkObligationLiquidity (ol_borrow_reserve l) (ol_cumulative_borrow_rate_wads l) v (ol_market_value l).
Definition with_index (v : Decimal) (l : ObligationLiquidity) : ObligationLiquidity :=
  mkObligationLiquidity (ol_borrow_reserve l) v (ol_borrowed_amount_wads l) (ol_market_value l).

Definition ObligationLiquidity_new (borrow_reserve : Pubkey) (cumulative_borrow_rate_wads : Decimal)
    : ObligationLiquidity :=
  mkObligationLiquidity borrow_reserve cumulative_borrow_rate_wads dec_zero dec_zero.
Definition ObligationLiquidity_repay (settle_amount : Decimal) : Method ObligationLiquidity unit :=
  let* v := st_get (fun l => dec_try_sub (ol_borrowed_amount_wads l) settle_amount) in
  st_set (with_owed v).
Definition ObligationLiquidity_borrow (borrow_amount : Decimal) : Method ObligationLiquidity unit :=
  let* v := st_get (fun l => dec_try_add (ol_borrowed_amount_wads l) borrow_amount) in
  st_set (with_owed v).

Definition ObligationLiquidity_accrue_interest (cumulative_borrow_rate_wads : Decimal)
    : Method ObligationLiquidity unit := fun l =>
  match cumulative_borrow_rate_wads ?= ol_cumulative_borrow_rate_wads l with
  | Lt => st_fail (Custom NegativeInterestRate) l
  | Eq => st_ret tt l
  | Gt =>
      (let* compounded_interest_rate := st_get (fun l =>
         let? q := dec_try_div cumulative_borrow_rate_wads (ol_cumulative_borrow_rate_wads l) in
         rate_try_from q) in
       let* v := st_get (fun l => dec_try_mul_rate (ol_borrowed_amount_wads l) compounded_interest_rate) in
       do* st_set (with_owed v) in
       st_set (with_index cumulative_borrow_rate_wads)) l
  end.

(** ** Obligation *)

Definition loan_to_value (o : Obligation) : result Decimal ProgramError :=
  dec_try_div (ob_borrowed_value o) (ob_deposited_value o).

(** [Vec::remove]. *)
Definition vec_remove {A} (i : nat) (l : list A) : list A := take i l ++ drop (S i) l.

(** Indexing panics out of range; the error of the element's method leaves the
    element as the method leaves it (unchanged). *)
Definition Obligation_repay (settle_amount : Decimal) (liquidity_index : nat) (o : Obligation)
    : panicking (Obligation * result unit ProgramError) :=
  match ob_borrows o !! liquidity_index with
  | None => Panic
  | Some liquidity =>
      if settle_amount =? ol_borrowed_amount_wads liquidity
      then Done (with_borrows (vec_remove liquidity_index (ob_borrows o)) o, Ok tt)
      else
        let (liquidity, r) := ObligationLiquidity_repay settle_amount liquidity in
        Done (with_borrows (<[liquidity_index := liquidity]> (ob_borrows o)) o, r)
  end.

Definition Obligation_withdraw (withdraw_amount : Z) (collateral_index : nat) (o : Obligation)
    : panicking (Obligation * result unit ProgramError) :=
  match ob_deposits o !! collateral_index with
  | None => Panic
  | Some collateral =>
      if withdraw_amount =? oc_deposited_amount collateral
      then Done (with_deposits (vec_remove collateral_index (ob_deposits o)) o, Ok tt)
      else
        let (collateral, r) := ObligationCollateral_withdraw withdraw_amount collateral in
        Done (with_deposits (<[collateral_index := collateral]> (ob_deposits o)) o, r)
  end.

Definition max_withdraw_amount (collateral : ObligationCollateral) (withdraw_reserve : Reserve)
    (o : Obligation) : result Z ProgramError :=
  match ob_borrows o with
  | [] => Ok (oc_deposited_amount collateral)
  | _ =>
    if ob_allowed_borrow_value o <=? ob_borrowed_value_upper_bound o then Ok 0
    else
      let loan_to_value_ratio := Reserve_loan_to_value_ratio withdraw_reserve in
      if loan_to_value_ratio =? rate_zero then Ok (oc_deposited_amount collateral)
      else
        let? room := dec_try_sub (ob_allowed_borrow_value o) (ob_borrowed_value_upper_bound o) in
        let? max_withdraw_value := dec_try_div_rate room loan_to_value_ratio in
        let price := price_lower_bound withdraw_reserve in
        let? decimals := ok_or (checked_pow 64 10 (mint_decimals (liquidity withdraw_reserve))) overflow in
        let? x := dec_try_mul_u64 max_withdraw_value decimals in
        let? max_withdraw_liquidity_amount := dec_try_div x price in
        let? rate := collateral_exchange_rate withdraw_reserve in
        let? c := decimal_liquidity_to_collateral rate max_withdraw_liquidity_amount in
        let? whole := dec_try_floor_u64 c in
        Ok (Z.min whole (oc_deposited_amount collateral))
  end.

Definition remaining_borrow_value (o : Obligation) : result Decimal ProgramError :=
  dec_try_sub (ob_allowed_borrow_value o) (ob_borrowed_value_upper_bound o).

Definition max_liquidation_amount (liquidity : ObligationLiquidity) (o : Obligation)
    : result Decimal ProgramError :=
  let? x := dec_try_mul_rate (ob_borrowed_value o) (rate_from_percent LIQUIDATION_CLOSE_FACTOR) in
  let max_liquidation_value :=
    Z.min (Z.min x (ol_market_value liquidity)) (dec_from_u64 MAX_LIQUIDATABLE_VALUE_AT_ONCE) in
  let? max_liquidation_pct := dec_try_div max_liquidation_value (ol_market_value liquidity) in
  dec_try_mul (ol_borrowed_amount_wads liquidity) max_liquidation_pct.

(** [iter().position]. *)
Fixpoint position {A} (p : A -> bool) (l : list A) : option nat :=
  match l with
  | [] => None
  | x :: l => if p x then Some O else S <$> position p l
  end.

Definition find_collateral_index_in_deposits (deposit_reserve : Pubkey) (o : Obligation) : option nat :=
  position (fun c => bool_decide (oc_deposit_reserve c = deposit_reserve)) (ob_deposits o).
Definition find_liquidity_index_in_borrows (borrow_reserve : Pubkey) (o : Obligation) : option nat :=
  position (fun l => bool_decide (ol_borrow_reserve l = borrow_reserve)) (ob_borrows o).

(** The functions below return references into the vectors; the model
    returns the element and its index, through which the caller mutates. *)
Definition find_collateral_in_deposits (deposit_reserve : Pubkey) (o : Obligation)
    : panicking (result (ObligationCollateral * nat) ProgramError) :=
  match ob_deposits o with
  | [] => Done (Err (Custom ObligationDepositsEmpty))
  | _ =>
      match find_collateral_index_in_deposits deposit_reserve o with
      | None => Done (Err (Custom InvalidObligationCollateral))
      | Some i => match ob_deposits o !! i with Some c => Done (Ok (c, i)) | None => Panic end
      end
  end.

Definition find_or_add_collateral_to_deposits (deposit_reserve : Pubkey)
    : Method Obligation nat := fun o =>
  match find_collateral_index_in_deposits deposit_reserve o with
  | Some collateral_index => (o, Ok collateral_index)
  | None =>
      if (MAX_OBLIGATION_RESERVES <=? length (ob_deposits o) + length (ob_borrows o))%nat
      then (o, Err (Custom ObligationReserveLimit))
      else
        let collateral := ObligationCollateral_new deposit_reserve in
        (with_deposits (ob_deposits o ++ [collateral]) o, Ok (length (ob_deposits o)))
  end.

(** [find_liquidity_in_borrows] and [find_liquidity_in_borrows_mut]. *)
Definition find_liquidity_in_borrows (borrow_reserve : Pubkey) (o : Obligation)
    : panicking (result (ObligationLiquidity * nat) ProgramError) :=
  match ob_borrows o with
  | [] => Done (Err (Custom ObligationBorrowsEmpty))
  | _ =>
      match find_liquidity_index_in_borrows borrow_reserve o with
      | None => Done (Err (Custom InvalidObligationLiquidity))
      | Some i => match ob_borrows o !! i with Some l => Done (Ok (l, i)) | None => Panic end
      end
  end.

Definition find_or_add_liquidity_to_borrows (borrow_reserve : Pubkey)
    (cumulative_borrow_rate_wads : Decimal) : Method Obligation nat := fun o =>
  match find_liquidity_index_in_borrows borrow_reserve o with
  | Some liquidity_index => (o, Ok liquidity_index)
  | None =>
      if (MAX_OBLIGATION_RESERVES <=? length (ob_deposits o) + length (ob_borrows o))%nat
      then (o, Err (Custom ObligationReserveLimit))
      else
        let liquidity := ObligationLiquidity_new borrow_reserve cumulative_borrow_rate_wads in
        (with_borrows (ob_borrows o ++ [liquidity]) o, Ok (length (ob_borrows o)))
  end.

(* ------------------------------------------------------------------ *)
(** ** Layout *)

Definition OBLIGATION_COLLATERAL_LEN : nat := 88.
Definition OBLIGATION_LIQUIDITY_LEN : nat := 112.
Definition OBLIGATION_LEN : nat := 1300.
Definition OBLIGATION_DATA_LEN : nat := 1096.

(** The last field is [data_flat], 88 + 112 * 9 bytes. *)
Definition OBLIGATION_FIELDS : list nat :=
  [1; 8; 1; PUBKEY_BYTES; PUBKEY_BYTES; 16; 16; 16; 16; 16; 1; 16; 16; 1; 14; 1; 1;
   OBLIGATION_DATA_LEN]%nat.

Definition write_at (off : nat) (bs buf : list Z) : list Z :=
  take off buf ++ bs ++ drop (off + length bs) buf.

(** The two loops over [data_flat]: the element's fields are written into its
    window of [len] bytes, whose padding keeps its bytes. *)
Section entries.
Context {A : Type} (len : nat).

Fixpoint pack_entries (enc : A -> panicking (list Z)) (offset : nat) (xs : list A) (data_flat : list Z)
    : panicking (nat * list Z) :=
  match xs with
  | [] => Done (offset, data_flat)
  | x :: xs =>
      let! _ := array_ref data_flat offset len in
      let! bs := enc x in
      pack_entries enc (offset + len) xs (write_at offset bs data_flat)
  end.

Fixpoint unpack_entries (dec : list Z -> panicking A) (n : nat) (offset : nat) (data_flat : list Z)
    : panicking (nat * list A) :=
  match n with
  | O => Done (offset, [])
  | S n =>
      let! flat := array_ref data_flat offset len in
      let! x := dec flat in
      let! (offset, xs) := unpack_entries dec n (offset + len) data_flat in
      Done (offset, x :: xs)
  end.
End entries.

Definition pack_collateral (c : ObligationCollateral) : panicking (list Z) :=
  let! market_value := pack_decimal (oc_market_value c) in
  let! attributed := pack_decimal (oc_attributed_borrow_value c) in
  Done (concat [pk_bytes (oc_deposit_reserve c); to_le_bytes 8 (oc_deposited_amount c);
                market_value; attributed]).
Definition unpack_collateral (flat : list Z) : panicking ObligationCollateral :=
  match array_refs [PUBKEY_BYTES; 8; 16; 16; 16]%nat flat with
  | [deposit_reserve; deposited_amount; market_value; attributed_borrow_value; _padding] =>
      Done (mkObligationCollateral (mkPubkey deposit_reserve) (from_le_bytes deposited_amount)
              (unpack_decimal market_value) (unpack_decimal attributed_borrow_value))
  | _ => Panic
  end.

Definition pack_liquidity (l : ObligationLiquidity) : panicking (list Z) :=
  let! cumulative := pack_decimal (ol_cumulative_borrow_rate_wads l) in
  let! borrowed := pack_decimal (ol_borrowed_amount_wads l) in
  let! market_value := pack_decimal (ol_market_value l) in
  Done (concat [pk_bytes (ol_borrow_reserve l); cumulative; borrowed; market_value]).
Definition unpack_liquidity (flat : list Z) : panicking ObligationLiquidity :=
  match array_refs [PUBKEY_BYTES; 16; 16; 16; 32]%nat flat with
  | [borrow_reserve; cumulative_borrow_rate_wads; borrowed_amount_wads; market_value; _padding] =>
      Done (mkObligationLiquidity (mkPubkey borrow_reserve) (unpack_decimal cumulative_borrow_rate_wads)
              (unpack_decimal borrowed_amount_wads) (unpack_decimal market_value))
  | _ => Panic
  end.

(** [u8::try_from(len).unwrap()]. *)
Definition pack_len {A} (xs : list A) : panicking (list Z) :=
  match to_u 8 (Z.of_nat (length xs)) with
  | Some n => Done (to_le_bytes 1 n)
  | None => Panic
  end.

Definition Obligation_pack (o : Obligation) (dst : list Z) : panicking (list Z) :=
  let! out := array_ref dst 0 OBLIGATION_LEN in
  let! deposited := pack_decimal (ob_deposited_value o) in
  let! borrowed := pack_decimal (ob_borrowed_value o) in
  let! upper_bound := pack_decimal (ob_borrowed_value_upper_bound o) in
  let! allowed := pack_decimal (ob_allowed_borrow_value o) in
  let! unhealthy := pack_decimal (ob_unhealthy_borrow_value o) in
  let! super_unhealthy := pack_decimal (ob_super_unhealthy_borrow_value o) in
  let! unweighted := pack_decimal (ob_unweighted_borrowed_value o) in
  let! deposits_len := pack_len (ob_deposits o) in
  let! borrows_len := pack_len (ob_borrows o) in
  let! (offset, data_flat) :=
    pack_entries OBLIGATION_COLLATERAL_LEN pack_collateral 0 (ob_deposits o) (drop 204 out) in
  let! (_, data_flat) :=
    pack_entries OBLIGATION_LIQUIDITY_LEN pack_liquidity offset (ob_borrows o) data_flat in
  Done (concat
    [to_le_bytes 1 (ob_version o); to_le_bytes 8 (lu_slot (ob_last_update o));
     pack_bool (lu_stale (ob_last_update o)); pk_bytes (ob_lending_market o); pk_bytes (ob_owner o);
     deposited; borrowed; allowed; unhealthy; upper_bound;
     pack_bool (ob_borrowing_isolated_asset o); super_unhealthy; unweighted;
     pack_bool (ob_closeable o); take 14 (drop 188 out); deposits_len; borrows_len; data_flat]
    ++ drop OBLIGATION_LEN dst).

(** The struct literal evaluates the three flags last, in this order. *)
Definition Obligation_unpack (src : list Z) : panicking (result Obligation ProgramError) :=
  let! input := array_ref src 0 OBLIGATION_LEN in
  match array_refs OBLIGATION_FIELDS input with
  | [version; last_update_slot; last_update_stale; lending_market; owner; deposited_value;
     borrowed_value; allowed_borrow_value; unhealthy_borrow_value; borrowed_value_upper_bound;
     borrowing_isolated_asset; super_unhealthy_borrow_value; unweighted_borrowed_value; closeable;
     _padding; deposits_len; borrows_len; data_flat] =>
    let version := from_le_bytes version in
    if version >? PROGRAM_VERSION then Done (Err InvalidAccountData)
    else
      let! (offset, deposits) :=
        unpack_entries OBLIGATION_COLLATERAL_LEN unpack_collateral
          (Z.to_nat (from_le_bytes deposits_len)) 0 data_flat in
      let! (_, borrows) :=
        unpack_entries OBLIGATION_LIQUIDITY_LEN unpack_liquidity
          (Z.to_nat (from_le_bytes borrows_len)) offset data_flat in
      Done (
        let? stale := unpack_bool last_update_stale in
        let? isolated := unpack_bool borrowing_isolated_asset in
        let? closeable := unpack_bool closeable in
        Ok (mkObligation version (mkLastUpdate (from_le_bytes last_update_slot) stale)
              (mkPubkey lending_market) (mkPubkey owner) deposits borrows
              (unpack_decimal deposited_value) (unpack_decimal borrowed_value)
              (unpack_decimal unweighted_borrowed_value)
              (unpack_decimal borrowed_value_upper_bound) (unpack_decimal allowed_borrow_value)
              (unpack_decimal unhealthy_borrow_value) (unpack_decimal super_unhealthy_borrow_value)
              isolated closeable))
  | _ => Panic
  end.

(** ** Lemmas on the entry loops *)

Section entry_lemmas.
Context {A : Type} (len : nat) (enc : A -> panicking (list Z)) (dec : list Z -> panicking A).

Definition codec_ok (x : A) : Prop :=
  exists bs, enc x = Done bs /\ (length bs <= len)%nat
  /\ forall pad, length (bs ++ pad) = len -> dec (bs ++ pad) = Done x.

Lemma array_ref_mid (pre mid post : list Z) :
  array_ref (pre ++ mid ++ post) (length pre) (length mid) = Done mid.
Proof.
  unfold array_ref, slice. rewrite !length_app.
  destruct (Nat.leb_spec (length pre + length mid) (length pre + (length mid + length post))); [|lia].
  by rewrite drop_app_length, take_app_length.
Qed.

Lemma array_ref_panic (data : list Z) off n :
  array_ref data off n = Panic <-> (length data < off + n)%nat.
Proof. unfold array_ref, slice. destruct (Nat.leb_spec (off + n) (length data)); split; done || lia. Qed.

Lemma write_at_mid (pre bs old post : list Z) :
  (length bs <= length old)%nat ->
  write_at (length pre) bs (pre ++ old ++ post) = pre ++ (bs ++ drop (length bs) old) ++ post.
Proof.
  intros H. unfold write_at. rewrite take_app_length. rewrite <- drop_drop, drop_app_length.
  rewrite drop_app_le by done. by rewrite <- !app_assoc.
Qed.

Lemma pack_entries_Done xs pre data :
  Forall codec_ok xs -> (len * length xs <= length data)%nat ->
  exists body, pack_entries len enc (length pre) xs (pre ++ data)
      = Done (length pre + len * length xs, pre ++ body ++ drop (len * length xs) data)%nat
  /\ length body = (len * length xs)%nat
  /\ forall pre' post, length pre' = length pre ->
       unpack_entries len dec (length xs) (length pre') (pre' ++ body ++ post)
       = Done (length pre + len * length xs, xs)%nat.
Proof.
  intros Hxs. revert pre data. induction Hxs as [|x xs (bs & He & Hl & Hd) Hxs IH]; intros pre data Hlen.
  - exists []. cbn [pack_entries unpack_entries length app]. rewrite Nat.mul_0_r, drop_0, Nat.add_0_r.
    split_and!; [done|done|]. by intros pre' post ->.
  - cbn [length] in Hlen. rewrite Nat.mul_succ_r in Hlen.
    assert (exists old rest, data = old ++ rest /\ length old = len) as (old & rest & -> & Hol).
    { exists (take len data), (drop len data). rewrite take_drop, length_take. split; [done|lia]. }
    rewrite length_app in Hlen.
    set (w := bs ++ drop (length bs) old).
    assert (Hw : length w = len) by (unfold w; rewrite length_app, length_drop; lia).
    destruct (IH (pre ++ w) rest ltac:(lia)) as (body & Hp & Hb & Hu).
    exists (w ++ body). split_and!.
    + cbn [pack_entries length]. rewrite <- Hol at 1. rewrite array_ref_mid, He, write_at_mid by lia.
      fold w. replace (length pre + len)%nat with (length (pre ++ w)) by (rewrite length_app; lia).
      rewrite app_assoc, Hp. rewrite length_app, Hw.
      replace (len * S (length xs))%nat with (len + len * length xs)%nat by lia.
      rewrite Nat.add_assoc, <- drop_drop, drop_app_length' by done. by rewrite <- !app_assoc.
    + cbn [length]. rewrite length_app, Hw, Hb. lia.
    + intros pre' post Hpre'. cbn [unpack_entries length]. rewrite <- app_assoc.
      rewrite <- Hw at 1. rewrite array_ref_mid. unfold w at 1. rewrite Hd by (by fold w).
      replace (length pre' + len)%nat with (length (pre' ++ w)) by (rewrite length_app; lia).
      rewrite app_assoc, Hu by (rewrite !length_app; lia). rewrite length_app, Hw.
      do 2 f_equal. lia.
Qed.

Lemma pack_entries_panic xs off data :
  Forall codec_ok xs -> (length data < off + len * length xs)%nat -> xs <> [] ->
  pack_entries len enc off xs data = Panic.
Proof.
  intros Hxs. revert off data. induction Hxs as [|x xs (bs & He & Hl & Hd) Hxs IH]; intros off data Hlen Hne; [done|].
  cbn [pack_entries length] in *. rewrite Nat.mul_succ_r in Hlen.
  destruct (array_ref data off len) as [w|] eqn:Ew; [|done]. rewrite He.
  destruct (decide (xs = [])) as [->|Hxs0].
  { exfalso. cbn in Hlen. assert (array_ref data off len <> Panic) as Hn by (by rewrite Ew).
    apply Hn, array_ref_panic. lia. }
  assert (off + len <= length data)%nat.
  { destruct (Nat.le_gt_cases (off + len) (length data)) as [|H]; [done|].
    apply array_ref_panic in H. congruence. }
  apply IH; [|done]. unfold write_at. rewrite !length_app, length_take, length_drop. lia.
Qed.
End entry_lemmas.

(* ------------------------------------------------------------------ *)
(** ** Round trip *)

Record collateral_wf (c : ObligationCollateral) : Prop := {
  cw_key : key_wf (oc_deposit_reserve c);
  cw_amount : is_u64 (oc_deposited_amount c);
  cw_value : is_u128 (oc_market_value c);
  cw_attributed : is_u128 (oc_attributed_borrow_value c)
}.

Record liquidity_wf (l : ObligationLiquidity) : Prop := {
  lw_key : key_wf (ol_borrow_reserve l);
  lw_index : is_u128 (ol_cumulative_borrow_rate_wads l);
  lw_owed : is_u128 (ol_borrowed_amount_wads l);
  lw_value : is_u128 (ol_market_value l)
}.

Record Obligation_wf (o : Obligation) : Prop := {
  ow_version : 0 <= ob_version o <= PROGRAM_VERSION;
  ow_slot : is_u64 (lu_slot (ob_last_update o));
  ow_keys : key_wf (ob_lending_market o) /\ key_wf (ob_owner o);
  ow_deposits : Forall collateral_wf (ob_deposits o);
  ow_borrows : Forall liquidity_wf (ob_borrows o);
  ow_values : Forall is_u128
    [ob_deposited_value o; ob_borrowed_value o; ob_unweighted_borrowed_value o;
     ob_borrowed_value_upper_bound o; ob_allowed_borrow_value o; ob_unhealthy_borrow_value o;
     ob_super_unhealthy_borrow_value o]
}.

(** The bytes of [data_flat] that the entries need. *)
Definition entries_size (o : Obligation) : nat :=
  (OBLIGATION_COLLATERAL_LEN * length (ob_deposits o)
   + OBLIGATION_LIQUIDITY_LEN * length (ob_borrows o))%nat.

Lemma collateral_codec c :
  collateral_wf c -> codec_ok OBLIGATION_COLLATERAL_LEN pack_collateral unpack_collateral c.
Proof.
  intros [Hk Ha Hv Hb]. unfold codec_ok, pack_collateral. rewrite !pack_decimal_Done by done.
  eexists; split; [done|]. set (fs := [_; _; _; _]).
  assert (Hw : length <$> fs = [PUBKEY_BYTES; 8; 16; 16]%nat)
    by (unfold fs; cbn [fmap list_fmap]; rewrite !length_to_le_bytes, Hk; done).
  pose proof (length_concat_widths _ _ Hw) as Hl. change (sum_list _) with 72%nat in Hl.
  split; [rewrite Hl; unfold OBLIGATION_COLLATERAL_LEN; lia|]. intros pad Hpad.
  rewrite length_app, Hl in Hpad. unfold OBLIGATION_COLLATERAL_LEN in Hpad.
  assert (Hcat : concat fs ++ pad = concat (fs ++ [pad])) by (rewrite concat_app; cbn; by rewrite app_nil_r).
  assert (Hw' : length <$> (fs ++ [pad]) = [PUBKEY_BYTES; 8; 16; 16; 16]%nat)
    by (rewrite fmap_app, Hw; cbn [fmap list_fmap app]; repeat f_equal; lia).
  unfold unpack_collateral. rewrite Hcat, (array_refs_concat _ _ Hw'). unfold fs. cbn [app].
  rewrite !unpack_decimal_le, from_to_le_bytes by done. by destruct c as [[]].
Qed.

Lemma liquidity_codec l :
  liquidity_wf l -> codec_ok OBLIGATION_LIQUIDITY_LEN pack_liquidity unpack_liquidity l.
Proof.
  intros [Hk Ha Hv Hb]. unfold codec_ok, pack_liquidity. rewrite !pack_decimal_Done by done.
  eexists; split; [done|]. set (fs := [_; _; _; _]).
  assert (Hw : length <$> fs = [PUBKEY_BYTES; 16; 16; 16]%nat)
    by (unfold fs; cbn [fmap list_fmap]; rewrite !length_to_le_bytes, Hk; done).
  pose proof (length_concat_widths _ _ Hw) as Hl. change (sum_list _) with 80%nat in Hl.
  split; [rewrite Hl; unfold OBLIGATION_LIQUIDITY_LEN; lia|]. intros pad Hpad.
  rewrite length_app, Hl in Hpad. unfold OBLIGATION_LIQUIDITY_LEN in Hpad.
  assert (Hcat : concat fs ++ pad = concat (fs ++ [pad])) by (rewrite concat_app; cbn; by rewrite app_nil_r).
  assert (Hw' : length <$> (fs ++ [pad]) = [PUBKEY_BYTES; 16; 16; 16; 32]%nat)
    by (rewrite fmap_app, Hw; cbn [fmap list_fmap app]; repeat f_equal; lia).
  unfold unpack_liquidity. rewrite Hcat, (array_refs_concat _ _ Hw'). unfold fs. cbn [app].
  rewrite !unpack_decimal_le by done. by destruct l as [[]].
Qed.

Lemma entries_codec o :
  Obligation_wf o ->
  Forall (codec_ok OBLIGATION_COLLATERAL_LEN pack_collateral unpack_collateral) (ob_deposits o)
  /\ Forall (codec_ok OBLIGATION_LIQUIDITY_LEN pack_liquidity unpack_liquidity) (ob_borrows o).
Proof.
  intros [_ _ _ Hd Hb _]. split; eapply list.Forall_impl; [exact Hd|apply collateral_codec|exact Hb|apply liquidity_codec].
Qed.

(** Both loops on a [data_flat] that has room for the entries. *)
Lemma entries_roundtrip o data :
  Obligation_wf o -> (entries_size o <= length data)%nat ->
  exists off1 data1 off2 data2,
    pack_entries OBLIGATION_COLLATERAL_LEN pack_collateral 0 (ob_deposits o) data = Done (off1, data1)
    /\ pack_entries OBLIGATION_LIQUIDITY_LEN pack_liquidity off1 (ob_borrows o) data1 = Done (off2, data2)
    /\ length data2 = length data
    /\ unpack_entries OBLIGATION_COLLATERAL_LEN unpack_collateral (length (ob_deposits o)) 0 data2
       = Done (off1, ob_deposits o)
    /\ unpack_entries OBLIGATION_LIQUIDITY_LEN unpack_liquidity (length (ob_borrows o)) off1 data2
       = Done (off2, ob_borrows o).
Proof.
  intros Hwf Hlen. destruct (entries_codec o Hwf) as [Hd Hb]. unfold entries_size in Hlen.
  destruct (pack_entries_Done _ _ _ _ [] data Hd ltac:(lia)) as (b1 & Hp1 & Hl1 & Hu1).
  cbn [app length Nat.add] in *. set (rest := drop _ data) in *.
  assert (Hrest : (length rest = length data - OBLIGATION_COLLATERAL_LEN * length (ob_deposits o))%nat)
    by (unfold rest; by rewrite length_drop).
  destruct (pack_entries_Done _ _ _ _ b1 rest Hb ltac:(lia)) as (b2 & Hp2 & Hl2 & Hu2).
  rewrite Hl1 in Hp2, Hu2. do 4 eexists. split_and!; [exact Hp1|exact Hp2| | |].
  - rewrite !length_app, length_drop. lia.
  - apply (Hu1 [] _ eq_refl).
  - pose proof (Hu2 b1 (drop (OBLIGATION_LIQUIDITY_LEN * length (ob_borrows o)) rest) Hl1) as E.
    rewrite Hl1 in E. exact E.
Qed.

Lemma pack_len_Done {A} (xs : list A) :
  (length xs < 256)%nat -> pack_len xs = Done [Z.of_nat (length xs)].
Proof.
  intros H. unfold pack_len. assert (to_u 8 (Z.of_nat (length xs)) = Some (Z.of_nat (length xs))) as ->
    by (apply to_u_Some; unfold in_u; lia).
  cbn [to_le_bytes]. by rewrite Z.mod_small by lia.
Qed.

Lemma Obligation_pack_unpack o dst :
  Obligation_wf o -> (entries_size o <= OBLIGATION_DATA_LEN)%nat -> (OBLIGATION_LEN <= length dst)%nat ->
  exists out, Obligation_pack o dst = Done out
    /\ length out = length dst /\ drop OBLIGATION_LEN out = drop OBLIGATION_LEN dst
    /\ Obligation_unpack out = Done (Ok o).
Proof.
  intros Hwf Hfit Hlen. unfold Obligation_pack, array_ref at 1, slice.
  destruct (Nat.leb_spec (0 + OBLIGATION_LEN) (length dst)); [|lia]. rewrite drop_0.
  assert (Hdata : length (drop 204 (take OBLIGATION_LEN dst)) = OBLIGATION_DATA_LEN)
    by (rewrite length_drop, length_take, Nat.min_l by done; done).
  destruct (entries_roundtrip o (drop 204 (take OBLIGATION_LEN dst)) Hwf ltac:(lia))
    as (off1 & data1 & off2 & data2 & Hp1 & Hp2 & Hl2 & Hu1 & Hu2).
  rewrite Hdata in Hl2. destruct Hwf as [Hv Hs [Hk1 Hk2] Hd Hb Hvals]. forall_inv Hvals.
  unfold entries_size, OBLIGATION_DATA_LEN, OBLIGATION_COLLATERAL_LEN, OBLIGATION_LIQUIDITY_LEN in Hfit.
  rewrite !pack_decimal_Done, !pack_len_Done by (done || lia). rewrite Hp1, Hp2.
  eexists; split; [done|].
  set (fs := [to_le_bytes 1 (ob_version o); _; _; _; _; _; _; _; _; _; _; _; _; _; _; _; _; _]).
  assert (Hw : length <$> fs = OBLIGATION_FIELDS).
  { unfold fs, OBLIGATION_FIELDS. cbn [fmap list_fmap]. unfold key_wf in *.
    rewrite !length_to_le_bytes, Hk1, Hk2, Hl2, length_take, length_drop, length_take, !Nat.min_l
      by (try rewrite Nat.min_l; unfold OBLIGATION_LEN in *; lia). done. }
  pose proof (length_concat_widths _ _ Hw) as Hcl. change (sum_list _) with OBLIGATION_LEN in Hcl.
  split_and!.
  - rewrite length_app, length_drop, Hcl. lia.
  - rewrite drop_app_le by (rewrite Hcl; done).
    rewrite (drop_ge (concat fs)) by (rewrite Hcl; done). done.
  - unfold Obligation_unpack. rewrite <- Hcl, array_ref_app. cbv beta iota.
    rewrite (array_refs_concat _ _ Hw). unfold fs. cbv beta iota zeta.
    rewrite (from_to_le_bytes 1 (ob_version o)) by (unfold in_u, PROGRAM_VERSION in *; lia).
    destruct (Z.gtb_spec (ob_version o) PROGRAM_VERSION); [lia|].
    cbn [from_le_bytes]. rewrite !Z.mul_0_r, !Z.add_0_r, !Nat2Z.id, Hu1, Hu2.
    rewrite !unpack_pack_bool, !unpack_decimal_le, from_to_le_bytes by done.
    do 2 f_equal. destruct o as [? [] [] []]; done.
Qed.

(** C15: a well-typed obligation whose entries fit packs into any buffer of at
    least 1300 bytes, leaves the bytes after the record alone, and unpacks to
    itself; so no other such obligation, packed into any buffer, gives the same
    account. *)
Theorem obligation_roundtrip o dst :
  Obligation_wf o -> (entries_size o <= OBLIGATION_DATA_LEN)%nat -> (OBLIGATION_LEN <= length dst)%nat ->
  exists out, Obligation_pack o dst = Done out
    /\ length out = length dst /\ drop OBLIGATION_LEN out = drop OBLIGATION_LEN dst
    /\ Obligation_unpack out = Done (Ok o)
    /\ forall o' dst', Obligation_wf o' -> (entries_size o' <= OBLIGATION_DATA_LEN)%nat ->
         (OBLIGATION_LEN <= length dst')%nat -> Obligation_pack o' dst' = Done out -> o' = o.
Proof.
  intros Hwf Hfit Hlen. destruct (Obligation_pack_unpack o dst Hwf Hfit Hlen) as (out & Hp & Hl & Hd & Hu).
  exists out. split_and!; try done. intros o' dst' Hwf' Hfit' Hlen' Hp'.
  destruct (Obligation_pack_unpack o' dst' Hwf' Hfit' Hlen') as (out' & Hp2 & _ & _ & Hu2). congruence.
Qed.

Definition sample_obligation : Obligation :=
  mkObligation 1 (mkLastUpdate 7 false) (sample_key 1) (sample_key 2)
    [mkObligationCollateral (sample_key 3) 500 (100 * WAD) (3 * WAD)]
    [mkObligationLiquidity (sample_key 4) WAD (40 * WAD) (60 * WAD)]
    (100 * WAD) (60 * WAD) (60 * WAD) (61 * WAD) (75 * WAD) (80 * WAD) (85 * WAD) false true.

Lemma sample_obligation_wf : Obligation_wf sample_obligation.
Proof.
  constructor; [cbn; unfold PROGRAM_VERSION; lia|concrete_wf|concrete_wf|..];
    repeat constructor; concrete_wf.
Qed.

Lemma obligation_roundtrip_witness :
  exists out, Obligation_pack sample_obligation (replicate 1310 7) = Done out
    /\ length out = length (replicate 1310 7)
    /\ drop OBLIGATION_LEN out = drop OBLIGATION_LEN (replicate 1310 7)
    /\ Obligation_unpack out = Done (Ok sample_obligation)
    /\ forall o' dst', Obligation_wf o' -> (entries_size o' <= OBLIGATION_DATA_LEN)%nat ->
         (OBLIGATION_LEN <= length dst')%nat -> Obligation_pack o' dst' = Done out -> o' = sample_obligation.
Proof.
  apply (obligation_roundtrip sample_obligation (replicate 1310 7)).
  - exact sample_obligation_wf.
  - vm_compute. lia.
  - rewrite length_replicate. unfold OBLIGATION_LEN. lia.
Defined.

(** The layout reserves room for one deposit and nine borrows (or more
    deposits in place of borrows). *)
Lemma entries_within_limit o :
  (length (ob_deposits o) + length (ob_borrows o) <= MAX_OBLIGATION_RESERVES)%nat ->
  (OBLIGATION_DATA_LEN < entries_size o)%nat <-> length (ob_borrows o) = MAX_OBLIGATION_RESERVES.
Proof.
  unfold entries_size, OBLIGATION_DATA_LEN, OBLIGATION_COLLATERAL_LEN, OBLIGATION_LIQUIDITY_LEN,
    MAX_OBLIGATION_RESERVES. lia.
Qed.

(** Packing a well-typed obligation panics exactly when the buffer is too
    short or the entries do not fit. Within the limit of ten reserves that
    [find_or_add_liquidity_to_borrows] enforces, the entries of an obligation
    do not fit exactly when all ten are borrows. *)
Theorem obligation_pack_panics o dst :
  Obligation_wf o ->
  (Obligation_pack o dst = Panic <->
     (length dst < OBLIGATION_LEN)%nat \/ (OBLIGATION_DATA_LEN < entries_size o)%nat)
  /\ ((length (ob_deposits o) + length (ob_borrows o) <= MAX_OBLIGATION_RESERVES)%nat ->
      (OBLIGATION_LEN <= length dst)%nat ->
      (Obligation_pack o dst = Panic <-> length (ob_borrows o) = MAX_OBLIGATION_RESERVES)).
Proof.
  intros Hwf.
  assert (Hiff : Obligation_pack o dst = Panic <->
     (length dst < OBLIGATION_LEN)%nat \/ (OBLIGATION_DATA_LEN < entries_size o)%nat).
  2: { split; [done|]. intros Hlim Hlen. rewrite Hiff, <- entries_within_limit by done. lia. }
  unfold Obligation_pack, array_ref at 1, slice. rewrite drop_0.
  destruct (Nat.leb_spec (0 + OBLIGATION_LEN) (length dst)) as [Hl|Hs];
    [|split; [by left|done]].
  assert (Hdata : length (drop 204 (take OBLIGATION_LEN dst)) = OBLIGATION_DATA_LEN)
    by (rewrite length_drop, length_take, Nat.min_l by done; done).
  pose proof Hwf as [Hv _ _ _ _ Hvals]. forall_inv Hvals. rewrite !pack_decimal_Done by done.
  destruct (entries_codec o Hwf) as [Hcd Hcb].
  split.
  - intros Hp. right. destruct (Nat.lt_ge_cases OBLIGATION_DATA_LEN (entries_size o)) as [|Hfit]; [done|].
    exfalso. destruct (entries_roundtrip o _ Hwf ltac:(rewrite Hdata; exact Hfit))
      as (off1 & data1 & off2 & data2 & Hp1 & Hp2 & _).
    unfold entries_size, OBLIGATION_DATA_LEN, OBLIGATION_COLLATERAL_LEN, OBLIGATION_LIQUIDITY_LEN in Hfit.
    rewrite !pack_len_Done, Hp1, Hp2 in Hp by lia. done.
  - intros [|Hbig]; [lia|]. destruct (pack_len (ob_deposits o)) as [dl|]; [|done].
    destruct (pack_len (ob_borrows o)) as [bl|]; [|done]. unfold entries_size in Hbig.
    destruct (Nat.lt_ge_cases OBLIGATION_DATA_LEN (OBLIGATION_COLLATERAL_LEN * length (ob_deposits o))) as [Hd|Hd].
    + rewrite (pack_entries_panic _ _ _ _ _ _ Hcd); [done|lia|]. intros E. rewrite E in Hd. cbn in Hd. lia.
    + destruct (pack_entries_Done _ _ _ _ [] _ Hcd ltac:(rewrite Hdata; exact Hd)) as (b1 & Hp1 & Hl1 & _).
      cbn [app length Nat.add] in Hp1. rewrite Hp1.
      rewrite (pack_entries_panic _ _ _ _ _ _ Hcb); [done| |].
      * rewrite length_app, length_drop, Hdata. lia.
      * intros E. rewrite E in Hbig. cbn [length] in Hbig. lia.
Qed.

Lemma obligation_pack_panics_witness :
  let o := with_borrows (replicate 10 (mkObligationLiquidity (sample_key 4) WAD WAD WAD))
             (with_deposits [] sample_obligation) in
  Obligation_pack o (replicate 1300 0) = Panic <-> length (ob_borrows o) = MAX_OBLIGATION_RESERVES.
Proof.
  cbv zeta.
  refine (proj2 (obligation_pack_panics _ (replicate 1300 0) _) _ _).
  - constructor; [cbn; unfold PROGRAM_VERSION; lia|concrete_wf|concrete_wf|..];
      repeat constructor; concrete_wf.
  - cbn. unfold MAX_OBLIGATION_RESERVES. lia.
  - rewrite length_replicate. unfold OBLIGATION_LEN. lia.
Defined.
