(* ===== verification/SolendPosition.v ===== *)
(** * Invariants of an obligation's position.

    The reserves of an obligation stay distinct and at most ten along every
    history of its methods; withdrawing and repaying keep the amounts
    accounted for; the largest withdrawal leaves the position healthy. *)

From Stdlib Require Import ZArith Lia.
From stdpp Require Import base option list relations.
From S2P Require Import Prelude Lists StateErr CoreTypes SolendMath SolendState SolendReserve SolendOps SolendRates SolendAccounting SolendObligation.

Open Scope rust_scope.
Open Scope state_scope.

(** ** Searching *)

Lemma position_Some {A} (p : A -> bool) l i :
  position p l = Some i -> exists x, l !! i = Some x /\ p x = true.
Proof.
  revert i. induction l as [|x l IH]; intros i; cbn [position]; [done|].
  destruct (p x) eqn:Ep; [intros [= <-]; by exists x|].
  destruct (position p l) as [j|]; [|done]. intros [= <-]. apply (IH j eq_refl).
Qed.

Lemma position_None {A} (p : A -> bool) l :
  position p l = None <-> Forall (fun x => p x = false) l.
Proof.
  induction l as [|x l IH]; cbn [position]; [split; [constructor|done]|].
  rewrite list.Forall_cons, <- IH. destruct (p x); [split; [done|by intros [? _]]|].
  destruct (position p l); split; try done; by intros [_ ?].
Qed.

(** With distinct keys, the position of an element's key is its index. *)
Lemma position_key {A} (key : A -> Pubkey) l i x k :
  NoDup (key <$> l) -> l !! i = Some x -> key x = k ->
  position (fun y => bool_decide (key y = k)) l = Some i.
Proof.
  intros Hnd Hi <-. destruct (position _ l) as [j|] eqn:E.
  - apply position_Some in E as (y & Hj & Hy%bool_decide_eq_true). f_equal.
    eapply list.NoDup_lookup; [exact Hnd| |]; rewrite list_lookup_fmap.
    + by rewrite Hj.
    + by rewrite Hi; cbn; rewrite Hy.
  - apply position_None in E. rewrite list.Forall_forall in E.
    specialize (E x (list_elem_of_lookup_2 _ _ _ Hi)). by apply bool_decide_eq_false in E.
Qed.

Lemma position_key_None {A} (key : A -> Pubkey) l k :
  position (fun y => bool_decide (key y = k)) l = None -> k ∉ key <$> l.
Proof.
  rewrite position_None, list.Forall_forall. intros H (y & -> & Hy)%list_elem_of_fmap.
  by specialize (H y Hy); apply bool_decide_eq_false in H.
Qed.

Lemma NoDup_snoc {A} (l : list A) x : NoDup l -> x ∉ l -> NoDup (l ++ [x]).
Proof.
  intros Hl Hx. apply list.NoDup_app. split_and!; [done| |apply list.NoDup_singleton].
  intros y Hy Hy'. apply list_elem_of_singleton in Hy' as ->. done.
Qed.

Lemma fmap_insert_key {A} (key : A -> Pubkey) (l : list A) (i : nat) x y :
  l !! i = Some x -> key y = key x -> key <$> <[i := y]> l = key <$> l.
Proof.
  intros Hi Hk. rewrite list_fmap_insert, Hk. apply list_insert_id. by rewrite list_lookup_fmap, Hi.
Qed.

Lemma NoDup_vec_remove {A B} (f : A -> B) (l : list A) i : NoDup (f <$> l) -> NoDup (f <$> vec_remove i l).
Proof.
  intros H. eapply sublist_NoDup; [exact H|]. apply fmap_sublist. unfold vec_remove.
  rewrite <- (take_drop i l) at 3. apply sublist_app; [done|].
  replace (S i) with (i + 1)%nat by lia. rewrite <- drop_drop. apply sublist_drop.
Qed.

Lemma length_vec_remove {A} (l : list A) i : (length (vec_remove i l) <= length l)%nat.
Proof. unfold vec_remove. rewrite length_app, length_take, length_drop. lia. Qed.

(** ** Reserves stay distinct and within the limit *)

Record position_ok (o : Obligation) : Prop := {
  po_deposits : NoDup (oc_deposit_reserve <$> ob_deposits o);
  po_borrows : NoDup (ol_borrow_reserve <$> ob_borrows o);
  po_limit : (length (ob_deposits o) + length (ob_borrows o) <= MAX_OBLIGATION_RESERVES)%nat
}.

(** One successful use of the obligation by its program. *)
Inductive obligation_step : Obligation -> Obligation -> Prop :=
| os_deposit reserve amount o o1 i c c' :
    find_or_add_collateral_to_deposits reserve o = (o1, Ok i) ->
    ob_deposits o1 !! i = Some c ->
    ObligationCollateral_deposit amount c = (c', Ok tt) ->
    obligation_step o (with_deposits (<[i := c']> (ob_deposits o1)) o1)
| os_borrow reserve index amount o o1 i l l' :
    find_or_add_liquidity_to_borrows reserve index o = (o1, Ok i) ->
    ob_borrows o1 !! i = Some l ->
    ObligationLiquidity_borrow amount l = (l', Ok tt) ->
    obligation_step o (with_borrows (<[i := l']> (ob_borrows o1)) o1)
| os_accrue index o i l l' :
    ob_borrows o !! i = Some l ->
    ObligationLiquidity_accrue_interest index l = (l', Ok tt) ->
    obligation_step o (with_borrows (<[i := l']> (ob_borrows o)) o)
| os_repay settle i o o' :
    Obligation_repay settle i o = Done (o', Ok tt) -> obligation_step o o'
| os_withdraw amount i o o' :
    Obligation_withdraw amount i o = Done (o', Ok tt) -> obligation_step o o'.

(** The methods of the entries keep their reserve. *)
Lemma collateral_deposit_key n c c' r :
  ObligationCollateral_deposit n c = (c', Ok r) -> oc_deposit_reserve c' = oc_deposit_reserve c.
Proof. intros H. unfold ObligationCollateral_deposit in H. by st_ok H. Qed.
Lemma collateral_withdraw_key n c c' r :
  ObligationCollateral_withdraw n c = (c', Ok r) -> oc_deposit_reserve c' = oc_deposit_reserve c.
Proof. intros H. unfold ObligationCollateral_withdraw in H. by st_ok H. Qed.
Lemma liquidity_borrow_key d l l' r :
  ObligationLiquidity_borrow d l = (l', Ok r) -> ol_borrow_reserve l' = ol_borrow_reserve l.
Proof. intros H. unfold ObligationLiquidity_borrow in H. by st_ok H. Qed.
Lemma liquidity_repay_key d l l' r :
  ObligationLiquidity_repay d l = (l', Ok r) -> ol_borrow_reserve l' = ol_borrow_reserve l.
Proof. intros H. unfold ObligationLiquidity_repay in H. by st_ok H. Qed.
Lemma liquidity_accrue_key d l l' r :
  ObligationLiquidity_accrue_interest d l = (l', Ok r) -> ol_borrow_reserve l' = ol_borrow_reserve l.
Proof.
  unfold ObligationLiquidity_accrue_interest. destruct (d ?= _); intros H; [by injection H as <- _|done|].
  by st_ok H.
Qed.

Lemma find_or_add_collateral_ok reserve o o1 i :
  position_ok o -> find_or_add_collateral_to_deposits reserve o = (o1, Ok i) ->
  position_ok o1 /\ exists c, ob_deposits o1 !! i = Some c /\ oc_deposit_reserve c = reserve.
Proof.
  intros Ho. unfold find_or_add_collateral_to_deposits, find_collateral_index_in_deposits.
  destruct (position _ _) as [j|] eqn:E.
  - intros [= <- <-]. split; [done|]. apply position_Some in E as (c & Hc & Hk).
    exists c. split; [done|]. by apply bool_decide_eq_true in Hk.
  - destruct (Nat.leb_spec MAX_OBLIGATION_RESERVES (length (ob_deposits o) + length (ob_borrows o))) as [|Hlt]; [done|].
    intros [= <- <-]. apply position_key_None in E. destruct Ho as [Hd Hb Hl]. split.
    + constructor; cbn; [rewrite fmap_app; by apply NoDup_snoc|done|rewrite length_app; cbn; lia].
    + eexists; split; [cbn; by rewrite lookup_app_r, Nat.sub_diag|done].
Qed.

Lemma find_or_add_liquidity_ok reserve index o o1 i :
  position_ok o -> find_or_add_liquidity_to_borrows reserve index o = (o1, Ok i) ->
  position_ok o1 /\ exists l, ob_borrows o1 !! i = Some l /\ ol_borrow_reserve l = reserve.
Proof.
  intros Ho. unfold find_or_add_liquidity_to_borrows, find_liquidity_index_in_borrows.
  destruct (position _ _) as [j|] eqn:E.
  - intros [= <- <-]. split; [done|]. apply position_Some in E as (c & Hc & Hk).
    exists c. split; [done|]. by apply bool_decide_eq_true in Hk.
  - destruct (Nat.leb_spec MAX_OBLIGATION_RESERVES (length (ob_deposits o) + length (ob_borrows o))) as [|Hlt]; [done|].
    intros [= <- <-]. apply position_key_None in E. destruct Ho as [Hd Hb Hl]. split.
    + constructor; cbn; [done|rewrite fmap_app; by apply NoDup_snoc|rewrite length_app; cbn; lia].
    + eexists; split; [cbn; by rewrite lookup_app_r, Nat.sub_diag|done].
Qed.

Lemma update_deposit_ok o i c c' :
  position_ok o -> ob_deposits o !! i = Some c -> oc_deposit_reserve c' = oc_deposit_reserve c ->
  position_ok (with_deposits (<[i := c']> (ob_deposits o)) o).
Proof.
  intros [Hd Hb Hl] Hi Hk. constructor; cbn; [by erewrite fmap_insert_key|done|by rewrite length_insert].
Qed.
Lemma update_borrow_ok o i l l' :
  position_ok o -> ob_borrows o !! i = Some l -> ol_borrow_reserve l' = ol_borrow_reserve l ->
  position_ok (with_borrows (<[i := l']> (ob_borrows o)) o).
Proof.
  intros [Hd Hb Hl] Hi Hk. constructor; cbn; [done|by erewrite fmap_insert_key|by rewrite length_insert].
Qed.

Lemma obligation_step_ok o o' : obligation_step o o' -> position_ok o -> position_ok o'.
Proof.
  intros Hs Ho. destruct Hs as [k n o o1 i c c' Hf Hi Hc|k x n o o1 i l l' Hf Hi Hc|x o i l l' Hi Hc
                               |d i o o' H|n i o o' H].
  - destruct (find_or_add_collateral_ok _ _ _ _ Ho Hf) as [Ho1 _].
    eapply update_deposit_ok; [done..|by eapply collateral_deposit_key].
  - destruct (find_or_add_liquidity_ok _ _ _ _ _ Ho Hf) as [Ho1 _].
    eapply update_borrow_ok; [done..|by eapply liquidity_borrow_key].
  - eapply update_borrow_ok; [done..|by eapply liquidity_accrue_key].
  - unfold Obligation_repay in H. destruct (ob_borrows o !! i) as [l|] eqn:Hi; [|done].
    destruct (_ =? _).
    + injection H as <-. destruct Ho as [Hd Hb Hl]. constructor; cbn; [done|by apply NoDup_vec_remove|].
      pose proof (length_vec_remove (ob_borrows o) i). lia.
    + destruct (ObligationLiquidity_repay d l) as [l' r] eqn:El. injection H as <- ->.
      eapply update_borrow_ok; [done..|by eapply liquidity_repay_key].
  - unfold Obligation_withdraw in H. destruct (ob_deposits o !! i) as [c|] eqn:Hi; [|done].
    destruct (_ =? _).
    + injection H as <-. destruct Ho as [Hd Hb Hl]. constructor; cbn; [by apply NoDup_vec_remove|done|].
      pose proof (length_vec_remove (ob_deposits o) i). lia.
    + destruct (ObligationCollateral_withdraw n c) as [c' r] eqn:Ec. injection H as <- ->.
      eapply update_deposit_ok; [done..|by eapply collateral_withdraw_key].
Qed.

(** C10: along every history of deposits, borrows, interest, repayments and
    withdrawals, the deposit reserves of an obligation stay pairwise
    distinct, its borrow reserves too, and together they stay at most ten; in
    such a position a lookup finds exactly the entry of its reserve. *)
Theorem position_invariant o o' :
  position_ok o -> rtc obligation_step o o' ->
  position_ok o'
  /\ (forall i c, ob_deposits o' !! i = Some c ->
        find_collateral_in_deposits (oc_deposit_reserve c) o' = Done (Ok (c, i)))
  /\ (forall i l, ob_borrows o' !! i = Some l ->
        find_liquidity_in_borrows (ol_borrow_reserve l) o' = Done (Ok (l, i))).
Proof.
  intros Ho Hs. assert (Ho' : position_ok o').
  { induction Hs as [o|o o1 o' H _ IH]; [done|]. apply IH. by eapply obligation_step_ok. }
  destruct Ho' as [Hd Hb Hl]. split_and!; [done| |].
  - intros i c Hi. unfold find_collateral_in_deposits, find_collateral_index_in_deposits.
    rewrite (position_key _ _ i c _ Hd Hi eq_refl), Hi. by destruct (ob_deposits o').
  - intros i l Hi. unfold find_liquidity_in_borrows, find_liquidity_index_in_borrows.
    rewrite (position_key _ _ i l _ Hb Hi eq_refl), Hi. by destruct (ob_borrows o').
Qed.

(** Three stages of a position: a second borrow of five, the first repaid. *)
Definition position_added : Obligation :=
  with_borrows (ob_borrows sample_obligation ++ [ObligationLiquidity_new (sample_key 9) WAD]) sample_obligation.
Definition position_borrowed : Obligation :=
  with_borrows (<[1%nat := mkObligationLiquidity (sample_key 9) WAD (5 * WAD) 0]> (ob_borrows position_added))
    position_added.
Definition position_repaid : Obligation :=
  with_borrows (vec_remove 0 (ob_borrows position_borrowed)) position_borrowed.

Lemma position_invariant_witness :
  position_ok position_repaid
  /\ (forall i c, ob_deposits position_repaid !! i = Some c ->
        find_collateral_in_deposits (oc_deposit_reserve c) position_repaid = Done (Ok (c, i)))
  /\ (forall i l, ob_borrows position_repaid !! i = Some l ->
        find_liquidity_in_borrows (ol_borrow_reserve l) position_repaid = Done (Ok (l, i))).
Proof.
  apply (position_invariant sample_obligation).
  - constructor; cbn; [apply list.NoDup_singleton|apply list.NoDup_singleton|unfold MAX_OBLIGATION_RESERVES; lia].
  - apply (rtc_l _ _ position_borrowed).
    { apply (os_borrow (sample_key 9) WAD (5 * WAD) sample_obligation position_added 1%nat
               (ObligationLiquidity_new (sample_key 9) WAD)); vm_compute; reflexivity. }
    apply (rtc_l _ _ position_repaid); [|apply rtc_refl].
    apply (os_repay (40 * WAD) 0%nat). vm_compute. reflexivity.
Defined.

(** ** Interest on a borrow *)

(** A borrow refuses a borrow index below its own and ignores an equal one;
    a larger index multiplies the debt by the quotient of the indices, so the
    debt never shrinks and never grows faster than the reserve's index. Its
    failures leave the borrow as it was. *)
Theorem borrow_accrual_spec index l l' res :
  Decimal_wf index -> Decimal_wf (ol_borrowed_amount_wads l) -> 0 < ol_cumulative_borrow_rate_wads l ->
  ObligationLiquidity_accrue_interest index l = (l', res) ->
  (index < ol_cumulative_borrow_rate_wads l -> l' = l /\ res = Err (Custom NegativeInterestRate))
  /\ (index = ol_cumulative_borrow_rate_wads l -> l' = l /\ res = Ok tt)
  /\ (forall e, res = Err e -> l' = l)
  /\ (ol_cumulative_borrow_rate_wads l < index -> res = Ok tt ->
      ol_cumulative_borrow_rate_wads l' = index
      /\ ol_borrowed_amount_wads l <= ol_borrowed_amount_wads l'
      /\ ol_borrowed_amount_wads l' * ol_cumulative_borrow_rate_wads l
         <= ol_borrowed_amount_wads l * index).
Proof.
  intros [Hi _] [Hb _] Hc H. unfold ObligationLiquidity_accrue_interest in H.
  destruct (Z.compare_spec index (ol_cumulative_borrow_rate_wads l)) as [He|Hlt|Hgt].
  - injection H as <- <-. split_and!; [lia|done|done|lia].
  - injection H as <- <-. split_and!; [done|lia|done|lia].
  - split_and!; [lia|lia| |].
    + intros e ->. revert H. apply get_bind_atomic. intros q. apply get_bind_atomic. intros v s s' e'.
      unfold st_bind, st_set. congruence.
    + intros _ ->. st_ok H. destruct (dec_try_div _ _) as [q|] eqn:Eq; [|done].
      apply rate_try_from_Ok in Hg as [-> _]. apply dec_try_div_Ok in Eq as (_ & -> & _).
      apply dec_try_mul_Ok in Hg0 as [-> _]. unfold dec_from_rate, rate_to_scaled_val. cbn.
      set (old := ol_cumulative_borrow_rate_wads l) in *. set (owed := ol_borrowed_amount_wads l) in *.
      assert (HW : 0 < WAD) by done. set (q := index * WAD / old).
      assert (WAD <= q) by (apply Z.div_le_lower_bound; nia).
      pose proof (div_floor_bounds (index * WAD) old Hc) as [Hq _]. fold q in Hq.
      pose proof (div_floor_bounds (owed * q) WAD HW) as [Ho _].
      split_and!; [done|by apply mul_div_ge|].
      apply (Z.mul_le_mono_pos_r _ _ WAD); [done|]. nia.
Qed.

Lemma borrow_accrual_spec_witness :
  let l := mkObligationLiquidity (sample_key 4) WAD (40 * WAD) (60 * WAD) in
  let l' := (ObligationLiquidity_accrue_interest (3 * HALF_WAD) l).1 in
  ol_cumulative_borrow_rate_wads l' = 3 * HALF_WAD
  /\ ol_borrowed_amount_wads l <= ol_borrowed_amount_wads l'
  /\ ol_borrowed_amount_wads l' * WAD <= ol_borrowed_amount_wads l * (3 * HALF_WAD).
Proof.
  cbv zeta.
  refine (proj2 (proj2 (proj2 (borrow_accrual_spec (3 * HALF_WAD)
    (mkObligationLiquidity (sample_key 4) WAD (40 * WAD) (60 * WAD)) _ (Ok tt) _ _ _ _))) _ _).
  - split; by vm_compute.
  - split; by vm_compute.
  - by vm_compute.
  - vm_compute. reflexivity.
  - by vm_compute.
  - reflexivity.
Defined.

(** ** The largest withdrawal *)

Lemma max_withdraw_chain room ltv mwv units price liq rate n :
  0 <= room -> 0 < ltv -> 0 <= price -> 0 <= rate -> 0 <= units ->
  mwv = room * WAD / ltv -> price <> 0 -> liq = mwv * units * WAD / price ->
  n <= liq * rate / WAD / WAD -> n * price * ltv <= room * units * rate.
Proof.
  intros Hroom Hltv Hp Hr Hu -> Hp0 -> Hn. assert (HW : 0 < WAD) by done.
  pose proof (div_floor_bounds (room * WAD) ltv Hltv) as [H1 _]. set (mwv := room * WAD / ltv) in *.
  pose proof (div_floor_bounds (mwv * units * WAD) price ltac:(lia)) as [H2 _].
  set (liq := mwv * units * WAD / price) in *.
  pose proof (div_floor_bounds (liq * rate) WAD HW) as [H3 _].
  pose proof (div_floor_bounds (liq * rate / WAD) WAD HW) as [H4 _].
  assert (H5 : n * (WAD * WAD) <= liq * rate) by nia.
  assert (H6 : liq * price * (rate * ltv) <= mwv * units * WAD * (rate * ltv)) by (apply Z.mul_le_mono_nonneg_r; nia).
  assert (H7 : mwv * ltv * (units * WAD * rate) <= room * WAD * (units * WAD * rate))
    by (apply Z.mul_le_mono_nonneg_r; nia).
  assert (H8 : n * (WAD * WAD) * (price * ltv) <= liq * rate * (price * ltv)) by (apply Z.mul_le_mono_nonneg_r; nia).
  apply (Z.mul_le_mono_pos_r _ _ (WAD * WAD)); [lia|]. lia.
Qed.

(** C25: the largest withdrawal is at most the deposit; everything without debt
    or for a reserve that backs no debt, nothing when the debt has reached
    its limit, and otherwise the borrowing power of what is withdrawn
    (its value at the lower price times the loan-to-value ratio) is at most
    the room left below the limit. *)
Theorem max_withdraw_spec c r o n :
  max_withdraw_amount c r o = Ok n ->
  0 <= oc_deposited_amount c -> 0 <= price_lower_bound r -> 0 <= minted r ->
  0 <= loan_to_value_ratio (config r) ->
  n <= oc_deposited_amount c
  /\ (ob_borrows o = [] -> n = oc_deposited_amount c)
  /\ (ob_borrows o <> [] ->
      (ob_allowed_borrow_value o <= ob_borrowed_value_upper_bound o -> n = 0)
      /\ (ob_borrowed_value_upper_bound o < ob_allowed_borrow_value o ->
          (loan_to_value_ratio (config r) = 0 -> n = oc_deposited_amount c)
          /\ (0 < loan_to_value_ratio (config r) ->
              exists rate, collateral_exchange_rate r = Ok rate
              /\ n * price_lower_bound r * Reserve_loan_to_value_ratio r
                 <= (ob_allowed_borrow_value o - ob_borrowed_value_upper_bound o)
                    * 10 ^ mint_decimals (liquidity r) * rate))).
Proof.
  intros H Hdep Hp HM Hltv. unfold max_withdraw_amount in H.
  destruct (ob_borrows o) as [|b bs]; [injection H as <-; by split_and!|].
  destruct (Z.leb_spec (ob_allowed_borrow_value o) (ob_borrowed_value_upper_bound o)) as [Hle|Hlt].
  { injection H as <-. split_and!; [done|done|]. intros _. split; [done|lia]. }
  change rate_zero with 0 in H.
  destruct (Z.eqb_spec (Reserve_loan_to_value_ratio r) 0) as [Hz|Hz].
  { unfold Reserve_loan_to_value_ratio, rate_from_percent, PERCENT_SCALER in Hz.
    injection H as <-. split_and!; [done|done|]. intros _. split; [lia|]. intros _. split; [done|lia]. }
  assert (Hltv0 : 0 < Reserve_loan_to_value_ratio r /\ loan_to_value_ratio (config r) <> 0)
    by (unfold Reserve_loan_to_value_ratio, rate_from_percent, PERCENT_SCALER in *; lia).
  destruct (dec_try_sub _ _) as [room|] eqn:E1; [|done]. apply dec_try_sub_Ok in E1 as [-> _].
  destruct (dec_try_div_rate _ _) as [mwv|] eqn:E2; [|done]. apply dec_try_div_Ok in E2 as (_ & E2 & _).
  destruct (ok_or (checked_pow _ _ _) _) as [units|] eqn:E3; [|done].
  apply ok_or_Ok, to_u_Some in E3 as [-> [Hu _]].
  destruct (dec_try_mul_u64 _ _) as [x|] eqn:E4; [|done]. apply dec_try_mul_u64_Ok in E4 as [-> _].
  destruct (dec_try_div _ _) as [liq|] eqn:E5; [|done]. apply dec_try_div_Ok in E5 as (Hp0 & E5 & _).
  destruct (collateral_exchange_rate r) as [rate|] eqn:E6; [|done].
  destruct (decimal_liquidity_to_collateral _ _) as [d|] eqn:E7; [|done].
  apply dec_try_mul_Ok in E7 as [-> _].
  destruct (dec_try_floor_u64 _) as [whole|] eqn:E8; [|done]. apply dec_try_floor_u64_Ok in E8 as [-> _].
  injection H as <-. split_and!; [lia|done|]. intros _. split; [lia|]. intros _. split; [lia|]. intros _.
  exists rate. split; [done|].
  eapply max_withdraw_chain; [lia|lia|done|by eapply exchange_rate_nonneg|done|exact E2|done|exact E5|].
  unfold dec_from_rate, rate_to_scaled_val. lia.
Qed.

Lemma max_withdraw_spec_witness :
  exists rate, collateral_exchange_rate sample_reserve = Ok rate
  /\ 500 * price_lower_bound sample_reserve * Reserve_loan_to_value_ratio sample_reserve
     <= (ob_allowed_borrow_value sample_obligation - ob_borrowed_value_upper_bound sample_obligation)
        * 10 ^ mint_decimals (liquidity sample_reserve) * rate.
Proof.
  pose proof (max_withdraw_spec (mkObligationCollateral (sample_key 3) 500 (100 * WAD) (3 * WAD))
    sample_reserve sample_obligation 500) as H.
  apply H; first [vm_compute; congruence|vm_compute; reflexivity].
Defined.
