(* ===== verification/SolendLiquidation.v ===== *)
(** * Liquidation of an obligation against a Save reserve (reserve.rs).

    The bonus, the amounts to settle, repay and withdraw, which are exactly
    the proportional ones ([liquidated]), and the protocol's cut. *)

From Stdlib Require Import ZArith Lia.
From stdpp Require Import base option list.
From S2P Require Import Prelude StateErr CoreTypes SolendMath SolendState SolendReserve SolendOps SolendRates SolendBorrow SolendObligation.

Open Scope rust_scope.

Record Bonus := mkBonus {
  total_bonus : Decimal;
  bonus_protocol_liquidation_fee : Decimal
}.

(** [unwrap_or_else]: the overflow of a nearly zero denominator counts as
    full weight. *)
Definition bonus_weight (o : Obligation) : result Decimal ProgramError :=
  let? over := dec_try_sub (ob_borrowed_value o) (ob_unhealthy_borrow_value o) in
  let? range := dec_try_sub (ob_super_unhealthy_borrow_value o) (ob_unhealthy_borrow_value o) in
  Ok (Z.min (match dec_try_div over range with Ok w => w | Err _ => dec_one end) dec_one).

Definition calculate_bonus (o : Obligation) (r : Reserve) : panicking (result Bonus ProgramError) :=
  if ob_borrowed_value o <? ob_unhealthy_borrow_value o then
    if ob_closeable o then Done (Ok (mkBonus dec_zero dec_zero))
    else Done (Err (Custom ObligationHealthy))
  else
    let bonus := dec_from_percent (liquidation_bonus (config r)) in
    let max_bonus := dec_from_percent (max_liquidation_bonus (config r)) in
    let! fee := dec_from_deca_bps (protocol_liquidation_fee (config r)) in
    Done (
      if ob_unhealthy_borrow_value o =? ob_super_unhealthy_borrow_value o then
        let? x := dec_try_add bonus fee in
        Ok (mkBonus (Z.min x (dec_from_percent MAX_BONUS_PCT)) fee)
      else
        let? weight := bonus_weight o in
        let? range := dec_try_sub max_bonus bonus in
        let? extra := dec_try_mul weight range in
        let? x := dec_try_add bonus extra in
        let? x := dec_try_add x fee in
        Ok (mkBonus (Z.min x (dec_from_percent MAX_BONUS_PCT)) fee)).

Record CalculateLiquidationResult := mkCalculateLiquidationResult {
  cl_settle_amount : Decimal;
  cl_repay_amount : Z;
  cl_withdraw_amount : Z
}.

(** The two cases that take the whole collateral. *)
Definition liquidate_capped (liquidation_amount liquidation_value : Decimal)
    (collateral : ObligationCollateral) : result CalculateLiquidationResult ProgramError :=
  let? repay_pct := dec_try_div (oc_market_value collateral) liquidation_value in
  let? settle_amount := dec_try_mul liquidation_amount repay_pct in
  let? repay_amount := dec_try_ceil_u64 settle_amount in
  Ok (mkCalculateLiquidationResult settle_amount repay_amount (oc_deposited_amount collateral)).
Definition liquidate_exact (liquidation_amount : Decimal) (collateral : ObligationCollateral)
    : result CalculateLiquidationResult ProgramError :=
  let? repay_amount := dec_try_ceil_u64 liquidation_amount in
  Ok (mkCalculateLiquidationResult liquidation_amount repay_amount (oc_deposited_amount collateral)).
(** The part of the collateral that the liquidated value buys. *)
Definition withdraw_share (withdraw_pct : Decimal)
    (collateral : ObligationCollateral) : result Z ProgramError :=
  let? x := dec_try_mul (dec_from_u64 (oc_deposited_amount collateral)) withdraw_pct in
  dec_try_floor_u64 x.

(** A borrow worth at most one unit of the quote currency is closed whole. *)
Definition liquidate_dust (bonus_rate : Decimal) (liquidity : ObligationLiquidity)
    (collateral : ObligationCollateral) : result CalculateLiquidationResult ProgramError :=
  let? liquidation_value := dec_try_mul (ol_market_value liquidity) bonus_rate in
  match liquidation_value ?= oc_market_value collateral with
  | Gt => liquidate_capped (ol_borrowed_amount_wads liquidity) liquidation_value collateral
  | Eq => liquidate_exact (ol_borrowed_amount_wads liquidity) collateral
  | Lt =>
      let? withdraw_pct := dec_try_div liquidation_value (oc_market_value collateral) in
      let settle_amount := ol_borrowed_amount_wads liquidity in
      let? repay_amount := dec_try_ceil_u64 settle_amount in
      if repay_amount =? 0 then Err (Custom LiquidationTooSmall)
      else
        let? share := withdraw_share withdraw_pct collateral in
        Ok (mkCalculateLiquidationResult settle_amount repay_amount (Z.max share 1))
  end.

Definition liquidate_partial (max_amount bonus_rate : Decimal) (o : Obligation)
    (liquidity : ObligationLiquidity) (collateral : ObligationCollateral)
    : result CalculateLiquidationResult ProgramError :=
  let? limit := max_liquidation_amount liquidity o in
  let liquidation_amount := Z.min limit max_amount in
  let? liquidation_pct := dec_try_div liquidation_amount (ol_borrowed_amount_wads liquidity) in
  let? x := dec_try_mul (ol_market_value liquidity) liquidation_pct in
  let? liquidation_value := dec_try_mul x bonus_rate in
  match liquidation_value ?= oc_market_value collateral with
  | Gt => liquidate_capped liquidation_amount liquidation_value collateral
  | Eq => liquidate_exact liquidation_amount collateral
  | Lt =>
      let? withdraw_pct := dec_try_div liquidation_value (oc_market_value collateral) in
      let? repay_amount := dec_try_ceil_u64 liquidation_amount in
      let? share := withdraw_share withdraw_pct collateral in
      Ok (mkCalculateLiquidationResult liquidation_amount repay_amount share)
  end.

Definition calculate_liquidation (amount_to_liquidate : Z) (o : Obligation)
    (liquidity : ObligationLiquidity) (collateral : ObligationCollateral) (bonus : Bonus)
    : result CalculateLiquidationResult ProgramError :=
  if total_bonus bonus >? dec_from_percent MAX_BONUS_PCT then Err (Custom InvalidAmount)
  else
    let? bonus_rate := dec_try_add (total_bonus bonus) dec_one in
    let max_amount :=
      if amount_to_liquidate =? u64_max then ol_borrowed_amount_wads liquidity
      else Z.min (dec_from_u64 amount_to_liquidate) (ol_borrowed_amount_wads liquidity) in
    if ol_market_value liquidity <=? dec_one
    then liquidate_dust bonus_rate liquidity collateral
    else liquidate_partial max_amount bonus_rate o liquidity collateral.

Definition calculate_protocol_liquidation_fee (amount_liquidated : Z) (bonus : Bonus)
    : result Z ProgramError :=
  if total_bonus bonus >? dec_from_percent MAX_BONUS_PCT then Err (Custom InvalidAmount)
  else
    let? d := dec_try_add dec_one (total_bonus bonus) in
    let? nonbonus_amount := dec_try_div (dec_from_u64 amount_liquidated) d in
    let? x := dec_try_mul nonbonus_amount (bonus_protocol_liquidation_fee bonus) in
    let? fee := dec_try_ceil_u64 x in
    Ok (Z.max fee 1).

(* ------------------------------------------------------------------ *)
(** ** Bonus *)

Lemma validate_bonus c :
  validate_reserve_config c = Ok tt ->
  liquidation_bonus c <= max_liquidation_bonus c
  /\ max_liquidation_bonus c * 100 + protocol_liquidation_fee c * 10 <= MAX_BONUS_PCT * 100.
Proof.
  unfold validate_reserve_config. intros H.
  repeat match type of H with
  | (if ?b then _ else _) = _ => destruct b eqn:?; [discriminate H|]
  end. lia.
Qed.

Lemma bonus_weight_Ok o :
  0 <= ob_unhealthy_borrow_value o <= ob_borrowed_value o -> ob_borrowed_value o < 2 ^ 192 ->
  ob_unhealthy_borrow_value o < ob_super_unhealthy_borrow_value o < 2 ^ 192 ->
  exists w, bonus_weight o = Ok w /\ 0 <= w <= WAD
  /\ (ob_super_unhealthy_borrow_value o <= ob_borrowed_value o -> w = WAD).
Proof.
  intros H1 H2 H3. unfold bonus_weight, dec_try_sub, checked_sub.
  rewrite !to_u_in by (unfold in_u; lia). cbn [ok_or]. eexists; split; [done|].
  set (over := ob_borrowed_value o - _). set (range := ob_super_unhealthy_borrow_value o - _).
  assert (Hr : 0 < range) by (unfold range; lia). assert (Ho : 0 <= over) by (unfold over; lia).
  change dec_one with WAD. destruct (dec_try_div over range) as [w|] eqn:Ew.
  - apply dec_try_div_Ok in Ew as (_ & -> & _).
    assert (0 <= over * WAD / range) by (apply Z.div_pos; [unfold WAD|]; lia).
    split; [unfold WAD in *; lia|]. intros Hs. apply Z.min_r, Z.div_le_lower_bound; [done|].
    unfold over, range, WAD in *. lia.
  - unfold WAD. lia.
Qed.

(** C24: on a well-typed reserve with a valid configuration the bonus calculation
    never panics. A healthy obligation gets none, and an error unless it is
    closeable; a liquidatable one whose thresholds are ordered always gets a
    bonus between the configured bonus and the maximum bonus (plus the
    protocol fee), at most 25 percent, and the maximum once the debt reaches
    the super-unhealthy value. *)
Theorem calculate_bonus_spec o r :
  ReserveConfig_wf (config r) -> validate_reserve_config (config r) = Ok tt ->
  0 <= ob_unhealthy_borrow_value o <= ob_super_unhealthy_borrow_value o ->
  ob_super_unhealthy_borrow_value o < 2 ^ 192 -> ob_borrowed_value o < 2 ^ 192 ->
  let fee := protocol_liquidation_fee (config r) * 1000000000000000 in
  (ob_borrowed_value o < ob_unhealthy_borrow_value o ->
     calculate_bonus o r
     = Done (if ob_closeable o then Ok (mkBonus 0 0) else Err (Custom ObligationHealthy)))
  /\ (ob_unhealthy_borrow_value o <= ob_borrowed_value o ->
     exists total, calculate_bonus o r = Done (Ok (mkBonus total fee))
     /\ dec_from_percent (liquidation_bonus (config r)) + fee <= total
     /\ total <= dec_from_percent (max_liquidation_bonus (config r)) + fee
     /\ total <= dec_from_percent MAX_BONUS_PCT
     /\ (ob_super_unhealthy_borrow_value o <= ob_borrowed_value o ->
         ob_unhealthy_borrow_value o <> ob_super_unhealthy_borrow_value o ->
         total = dec_from_percent (max_liquidation_bonus (config r)) + fee)).
Proof.
  intros Hwf Hval Hu Hs Hb. cbv zeta. destruct (validate_bonus _ Hval) as [Hle Hcap].
  destruct Hwf as [H8 _ _ _ _]. forall_inv H8. unfold calculate_bonus.
  destruct (Z.ltb_spec (ob_borrowed_value o) (ob_unhealthy_borrow_value o)).
  { split; [|lia]. by destruct (ob_closeable o). }
  split; [lia|]. intros _. rewrite dec_from_deca_bps_Done.
  assert (Hfee : WAD * protocol_liquidation_fee (config r) / 1000
                 = protocol_liquidation_fee (config r) * 1000000000000000).
  { unfold WAD. replace (1000000000000000000 * protocol_liquidation_fee (config r))
      with (protocol_liquidation_fee (config r) * 1000000000000000 * 1000) by lia. by apply Z.div_mul. }
  rewrite Hfee. set (fee := _ * 1000000000000000).
  set (lo := dec_from_percent (liquidation_bonus (config r))).
  set (hi := dec_from_percent (max_liquidation_bonus (config r))).
  assert (Hnum : 0 <= lo <= hi /\ 0 <= fee /\ hi + fee <= dec_from_percent MAX_BONUS_PCT
                 /\ dec_from_percent MAX_BONUS_PCT = 250000000000000000).
  { unfold lo, hi, fee, dec_from_percent, PERCENT_SCALER, MAX_BONUS_PCT, in_u in *. lia. }
  destruct (Z.eqb_spec (ob_unhealthy_borrow_value o) (ob_super_unhealthy_borrow_value o)) as [He|Hne].
  { unfold dec_try_add, checked_add. rewrite to_u_in by (unfold in_u; lia). cbn [ok_or].
    rewrite Z.min_l by lia. eexists; split; [done|]. split_and!; try lia. }
  destruct (bonus_weight_Ok o) as (w & -> & Hw & Hmax); [lia..|].
  unfold dec_try_sub, dec_try_mul, dec_try_add, checked_sub, checked_mul, checked_add, checked_div.
  rewrite (to_u_in 192 (hi - lo)) by (unfold in_u; lia). cbn [ok_or].
  rewrite (to_u_in 192 (w * (hi - lo))) by (unfold in_u, WAD in *; nia). cbn [ok_or].
  change (WAD =? 0) with false. cbn [ok_or].
  set (extra := w * (hi - lo) / WAD).
  assert (Hx : 0 <= extra <= hi - lo).
  { unfold extra. split; [apply Z.div_pos; [nia|done]|apply Z.div_le_upper_bound; [done|nia]]. }
  rewrite (to_u_in 192 (lo + extra)) by (unfold in_u; lia). cbn [ok_or].
  rewrite to_u_in by (unfold in_u; lia). cbn [ok_or]. rewrite Z.min_l by lia.
  eexists; split; [done|]. split_and!; try lia. intros Hsup _. specialize (Hmax Hsup). subst w.
  assert (extra = hi - lo); [|lia]. unfold extra. rewrite Z.mul_comm. by apply Z.div_mul.
Qed.

Lemma calculate_bonus_spec_witness :
  let o := with_borrows [] (mkObligation 1 (mkLastUpdate 7 false) (sample_key 1) (sample_key 2) [] []
    (100 * WAD) (84 * WAD) (84 * WAD) (84 * WAD) (75 * WAD) (80 * WAD) (85 * WAD) false false) in
  exists total, calculate_bonus o sample_reserve = Done (Ok (mkBonus total (10 * 1000000000000000)))
     /\ dec_from_percent 5 + 10 * 1000000000000000 <= total
     /\ total <= dec_from_percent 10 + 10 * 1000000000000000
     /\ total <= dec_from_percent MAX_BONUS_PCT
     /\ (ob_super_unhealthy_borrow_value o <= ob_borrowed_value o ->
         ob_unhealthy_borrow_value o <> ob_super_unhealthy_borrow_value o ->
         total = dec_from_percent 10 + 10 * 1000000000000000).
Proof.
  cbv zeta.
  refine (proj2 (calculate_bonus_spec _ sample_reserve _ _ _ _ _) _).
  - apply (rs_wf_config sample_reserve), sample_reserve_wf.
  - reflexivity.
  - split; vm_compute; congruence.
  - by vm_compute.
  - by vm_compute.
  - vm_compute. congruence.
Defined.

(* ------------------------------------------------------------------ *)
(** ** Amounts *)

(** The largest amount of one call: at most the debt, and worth at most a fifth
    of all debt and the per-call cap. *)
Lemma max_liquidation_amount_Ok l o a :
  max_liquidation_amount l o = Ok a ->
  0 <= ol_borrowed_amount_wads l -> 0 < ol_market_value l -> 0 <= ob_borrowed_value o ->
  let cap := Z.min (ob_borrowed_value o * (20 * PERCENT_SCALER) / WAD) (500000 * WAD) in
  0 <= a <= ol_borrowed_amount_wads l
  /\ a * ol_market_value l <= ol_borrowed_amount_wads l * cap.
Proof.
  intros H Hb Hm Hv. cbv zeta. unfold max_liquidation_amount in H.
  destruct (dec_try_mul_rate _ _) as [x|] eqn:Ex; [|done]. apply dec_try_mul_Ok in Ex as [-> _].
  unfold dec_from_rate, rate_to_scaled_val, rate_from_percent, LIQUIDATION_CLOSE_FACTOR in H.
  set (x := ob_borrowed_value o * _ / WAD) in *.
  assert (Hx : 0 <= x) by (apply Z.div_pos; [unfold PERCENT_SCALER; lia|done]).
  set (v := Z.min _ _) in H.
  assert (Hvb : 0 <= v <= ol_market_value l /\ v <= Z.min x (500000 * WAD))
    by (unfold v, dec_from_u64, MAX_LIQUIDATABLE_VALUE_AT_ONCE, WAD in *; lia).
  destruct (dec_try_div v _) as [p|] eqn:Ep; [|done]. apply dec_try_div_Ok in Ep as (_ & -> & _).
  apply dec_try_mul_Ok in H as [-> _]. assert (HW : 0 < WAD) by done.
  set (p := v * WAD / ol_market_value l).
  pose proof (div_floor_bounds (v * WAD) _ Hm) as [Hp _]. fold p in Hp.
  assert (Hp0 : 0 <= p <= WAD) by (unfold p; split; [apply Z.div_pos; nia|apply Z.div_le_upper_bound; nia]).
  pose proof (div_floor_bounds (ol_borrowed_amount_wads l * p) WAD HW) as [Ha _].
  split_and!; [apply Z.div_pos; nia|apply Z.div_le_upper_bound; nia|].
  set (a := ol_borrowed_amount_wads l * p / WAD) in *. set (owed := ol_borrowed_amount_wads l) in *.
  set (mv := ol_market_value l) in *. apply (Z.mul_le_mono_pos_r _ _ WAD); [done|].
  assert (H1 : a * WAD * mv <= owed * p * mv) by (apply Z.mul_le_mono_nonneg_r; lia).
  assert (H2 : owed * (p * mv) <= owed * (v * WAD)) by (apply Z.mul_le_mono_nonneg_l; lia).
  assert (H3 : owed * v <= owed * Z.min x (500000 * WAD)) by (apply Z.mul_le_mono_nonneg_l; lia).
  apply Z.le_trans with (owed * v * WAD); [lia|]. apply Z.mul_le_mono_nonneg_r; lia.
Qed.

Lemma liquidate_capped_Ok amount value c res :
  liquidate_capped amount value c = Ok res ->
  0 <= amount -> 0 <= oc_market_value c < value ->
  cl_settle_amount res = amount * (oc_market_value c * WAD / value) / WAD
  /\ 0 <= cl_settle_amount res <= amount
  /\ cl_settle_amount res <= cl_repay_amount res * WAD < cl_settle_amount res + WAD
  /\ cl_withdraw_amount res = oc_deposited_amount c.
Proof.
  unfold liquidate_capped. intros H Ha Hv.
  destruct (dec_try_div _ _) as [p|] eqn:Ep; [|done]. apply dec_try_div_Ok in Ep as (_ & -> & _).
  destruct (dec_try_mul _ _) as [s|] eqn:Es; [|done]. apply dec_try_mul_Ok in Es as [-> _].
  destruct (dec_try_ceil_u64 _) as [n|] eqn:En; [|done]. apply dec_try_ceil_u64_Ok in En as [Hn _].
  injection H as <-. cbn. assert (HW : 0 < WAD) by done.
  assert (0 <= oc_market_value c * WAD / value <= WAD)
    by (split; [apply Z.div_pos; nia|apply Z.div_le_upper_bound; nia]).
  split_and!; try done; try lia; [apply Z.div_pos; nia|apply Z.div_le_upper_bound; nia].
Qed.

Lemma withdraw_share_Ok value c p n :
  dec_try_div value (oc_market_value c) = Ok p -> withdraw_share p c = Ok n ->
  n = oc_deposited_amount c * (value * WAD / oc_market_value c) / WAD.
Proof.
  unfold withdraw_share, dec_from_u64. intros Hp H. apply dec_try_div_Ok in Hp as (_ & -> & _).
  destruct (dec_try_mul _ _) as [x|] eqn:Ex; [|done]. apply dec_try_mul_Ok in Ex as [-> _].
  apply dec_try_floor_u64_Ok in H as [-> _]. f_equal.
  replace (WAD * oc_deposited_amount c * (value * WAD / oc_market_value c))
    with (oc_deposited_amount c * (value * WAD / oc_market_value c) * WAD) by lia. by apply Z.div_mul.
Qed.

(** The chain of rounded products that prices a partial liquidation. *)
Lemma liquidation_value_chain owed mv la br :
  0 < owed -> 0 <= mv -> 0 <= la -> 0 <= br ->
  let value := mv * (la * WAD / owed) / WAD * br / WAD in
  0 <= value /\ value * WAD * owed <= mv * br * la.
Proof.
  intros Ho Hm Hl Hb. cbv zeta. assert (HW : 0 < WAD) by done.
  set (pct := la * WAD / owed). set (x := mv * pct / WAD). set (value := x * br / WAD).
  assert (Hp0 : 0 <= pct) by (apply Z.div_pos; nia). assert (Hx0 : 0 <= x) by (apply Z.div_pos; nia).
  assert (Hv0 : 0 <= value) by (apply Z.div_pos; nia). split; [done|].
  pose proof (div_floor_bounds (la * WAD) owed Ho) as [H1 _]. fold pct in H1.
  pose proof (div_floor_bounds (mv * pct) WAD HW) as [H2 _]. fold x in H2.
  pose proof (div_floor_bounds (x * br) WAD HW) as [H3 _]. fold value in H3.
  apply (Z.mul_le_mono_pos_r _ _ WAD); [done|].
  assert (A : value * WAD * (owed * WAD) <= x * br * (owed * WAD)) by (apply Z.mul_le_mono_nonneg_r; nia).
  assert (B : x * WAD * (br * owed) <= mv * pct * (br * owed)) by (apply Z.mul_le_mono_nonneg_r; nia).
  assert (C : pct * owed * (mv * br) <= la * WAD * (mv * br)) by (apply Z.mul_le_mono_nonneg_r; nia).
  lia.
Qed.

Section liquidation.
Context (o : Obligation) (l : ObligationLiquidity) (c : ObligationCollateral).
Context (Hborrowed : 0 <= ob_borrowed_value o) (Howed : 0 <= ol_borrowed_amount_wads l).
Context (Hvalue : 0 <= ol_market_value l) (Hcollateral : 0 <= oc_market_value c).
Context (Hdeposited : 0 <= oc_deposited_amount c).

(** What is repaid is what is settled, rounded up to whole units. *)
Definition settled (res : CalculateLiquidationResult) : Prop :=
  0 <= cl_settle_amount res <= ol_borrowed_amount_wads l
  /\ cl_settle_amount res <= cl_repay_amount res * WAD < cl_settle_amount res + WAD.

(** The value, with the bonus, of liquidating [amount] of the debt. A dust
    borrow is priced whole. *)
Definition liquidation_value (dust : bool) (amount br : Z) : Z :=
  if dust then ol_market_value l * br / WAD
  else ol_market_value l * (amount * WAD / ol_borrowed_amount_wads l) / WAD * br / WAD.

(** The collateral covers the value: the whole amount is settled and the
    value's share of the deposit withdrawn, at least one unit for dust. It
    does not: the whole deposit goes, and only its share of the amount is
    settled. *)
Definition liquidated (dust : bool) (amount value : Z) (res : CalculateLiquidationResult) : Prop :=
  let covered := oc_market_value c in
  let share := oc_deposited_amount c * (value * WAD / covered) / WAD in
  cl_settle_amount res = (if value <=? covered then amount else amount * (covered * WAD / value) / WAD)
  /\ cl_withdraw_amount res
     = (if covered <=? value then oc_deposited_amount c else if dust then Z.max share 1 else share).

(** The withdrawn part of the collateral's value is at most the settled part
    of the debt's value plus the bonus, up to the rounding of the settled
    amount. *)
Definition fair_withdrawal (br : Z) (res : CalculateLiquidationResult) : Prop :=
  let owed := ol_borrowed_amount_wads l in
  cl_withdraw_amount res * oc_market_value c * owed * WAD * WAD
  <= oc_deposited_amount c * ol_market_value l * br * ((cl_settle_amount res + 1) * WAD + owed).

Lemma share_bounds value :
  0 <= value < oc_market_value c ->
  let share := oc_deposited_amount c * (value * WAD / oc_market_value c) / WAD in
  0 <= share <= oc_deposited_amount c /\ share * oc_market_value c <= oc_deposited_amount c * value.
Proof.
  intros Hv. cbv zeta. assert (HW : 0 < WAD) by done.
  set (mv := oc_market_value c) in *. set (d := oc_deposited_amount c) in *. set (p := value * WAD / mv).
  assert (Hp : 0 <= p <= WAD) by (unfold p; split; [apply Z.div_pos; nia|apply Z.div_le_upper_bound; nia]).
  pose proof (div_floor_bounds (value * WAD) mv ltac:(lia)) as [Hpv _]. fold p in Hpv.
  pose proof (div_floor_bounds (d * p) WAD HW) as [Hn _].
  split_and!; [apply Z.div_pos; nia|apply Z.div_le_upper_bound; nia|].
  set (n := d * p / WAD) in *. apply (Z.mul_le_mono_pos_r _ _ WAD); [done|]. nia.
Qed.

(** Seizing everything settles the amount's share of the collateral's value. *)
Lemma capped_settlement amount value :
  0 <= oc_market_value c < value -> 0 <= amount ->
  let s := amount * (oc_market_value c * WAD / value) / WAD in
  amount * oc_market_value c * WAD <= ((s + 1) * WAD + amount) * value.
Proof.
  intros Hv Ha. cbv zeta. set (mv := oc_market_value c) in *. set (p := mv * WAD / value).
  pose proof (div_floor_bounds (mv * WAD) value ltac:(lia)) as [_ Hp]. fold p in Hp.
  pose proof (div_floor_bounds (amount * p) WAD ltac:(done)) as [_ Hs]. set (s := amount * p / WAD) in *.
  assert (A : amount * (mv * WAD) <= amount * ((p + 1) * value)) by (apply Z.mul_le_mono_nonneg_l; lia).
  assert (B : amount * p * value <= (s + 1) * WAD * value) by (apply Z.mul_le_mono_nonneg_r; lia). lia.
Qed.

Lemma liquidated_fair dust amount value br res :
  0 <= value -> 0 <= amount <= ol_borrowed_amount_wads l -> 0 <= br ->
  value * WAD * ol_borrowed_amount_wads l <= ol_market_value l * br * amount ->
  liquidated dust amount value res ->
  0 <= cl_withdraw_amount res <= Z.max (oc_deposited_amount c) 1
  /\ (dust = false -> cl_withdraw_amount res <= oc_deposited_amount c)
  /\ ((dust = true /\ cl_withdraw_amount res <= 1) \/ fair_withdrawal br res).
Proof.
  intros Hv Ha Hbr Hchain [Hs Hw]. assert (HW : 0 < WAD) by done.
  unfold fair_withdrawal. set (owed := ol_borrowed_amount_wads l) in *. set (lmv := ol_market_value l) in *.
  set (mv := oc_market_value c) in *. set (d := oc_deposited_amount c) in *.
  assert (Hscale : forall k s, 0 <= k -> 0 <= s -> k * mv <= d * value -> amount <= s ->
    k * mv * owed * WAD * WAD <= d * lmv * br * ((s + 1) * WAD + owed)).
  { intros k s Hk Hs0 Hkv Hsa.
    assert (A : k * mv * (owed * WAD * WAD) <= d * value * (owed * WAD * WAD))
      by (apply Z.mul_le_mono_nonneg_r; nia).
    assert (B : d * WAD * (value * WAD * owed) <= d * WAD * (lmv * br * amount))
      by (apply Z.mul_le_mono_nonneg_l; nia).
    assert (C : d * lmv * br * (amount * WAD) <= d * lmv * br * ((s + 1) * WAD + owed))
      by (apply Z.mul_le_mono_nonneg_l; [apply Z.mul_nonneg_nonneg; nia|nia]). lia. }
  destruct (Z.leb_spec mv value) as [Hge|Hlt]; rewrite Hw.
  - split; [lia|]. split; [lia|]. right. destruct (Z.leb_spec value mv) as [Hle|Hgt].
    + rewrite Hs. apply Hscale; nia.
    + pose proof (capped_settlement amount value ltac:(lia) ltac:(lia)) as Hcap. cbv zeta in Hcap.
      fold mv in Hcap. rewrite <- Hs in Hcap. set (s := cl_settle_amount res) in *.
      destruct (Z.eq_dec amount 0) as [->|Ha0].
      { assert (owed = 0 \/ 0 < owed) as [->|Ho] by lia; nia. }
      apply (Z.mul_le_mono_pos_r _ _ amount); [lia|].
      assert (A : amount * mv * WAD * (owed * WAD) <= ((s + 1) * WAD + amount) * value * (owed * WAD))
        by (apply Z.mul_le_mono_nonneg_r; nia).
      assert (Hs0 : 0 <= s).
      { rewrite Hs. apply Z.div_pos; [|done]. apply Z.mul_nonneg_nonneg; [lia|]. apply Z.div_pos; nia. }
      assert (B : ((s + 1) * WAD + amount) * (value * WAD * owed)
                  <= ((s + 1) * WAD + amount) * (lmv * br * amount))
        by (apply Z.mul_le_mono_nonneg_l; nia).
      assert (C : ((s + 1) * WAD + amount) * (lmv * br * amount) <= ((s + 1) * WAD + owed) * (lmv * br * amount))
        by (apply Z.mul_le_mono_nonneg_r; nia).
      assert (D : d * (amount * mv * WAD * (owed * WAD)) <= d * (((s + 1) * WAD + owed) * (lmv * br * amount)))
        by (apply Z.mul_le_mono_nonneg_l; lia). lia.
  - destruct (share_bounds value ltac:(fold mv; lia)) as [Hk Hkv]. fold mv d in Hk, Hkv.
    set (share := d * (value * WAD / mv) / WAD) in *.
    assert (Hset : cl_settle_amount res = amount) by (rewrite Hs; destruct (Z.leb_spec value mv); lia).
    rewrite Hset. assert (Hfair := Hscale share amount ltac:(lia) ltac:(lia) Hkv ltac:(lia)).
    destruct dust; [|split_and!; [lia..|by right]].
    split; [lia|]. split; [done|]. destruct (Z.max_spec share 1) as [[? ->]|[? ->]]; [left; lia|by right].
Qed.

Lemma liquidate_dust_Ok br res :
  liquidate_dust br l c = Ok res -> 0 <= br ->
  settled res /\ liquidated true (ol_borrowed_amount_wads l) (liquidation_value true (ol_borrowed_amount_wads l) br) res.
Proof.
  unfold liquidate_dust, settled, liquidated, liquidation_value. intros H Hbr.
  destruct (dec_try_mul _ br) as [v|] eqn:Ev; [|done]. apply dec_try_mul_Ok in Ev as [-> _].
  set (v := ol_market_value l * br / WAD) in *.
  assert (Hv : 0 <= v) by (apply Z.div_pos; [nia|done]).
  destruct (Z.compare_spec v (oc_market_value c)) as [He|Hlt|Hgt];
    destruct (Z.leb_spec v (oc_market_value c)), (Z.leb_spec (oc_market_value c) v); try lia.
  - unfold liquidate_exact in H. destruct (dec_try_ceil_u64 _) as [n|] eqn:En; [|done].
    apply dec_try_ceil_u64_Ok in En as [Hn _]. injection H as <-. cbn. split_and!; done || lia.
  - destruct (dec_try_div _ _) as [p|] eqn:Ep; [|done].
    destruct (dec_try_ceil_u64 _) as [n|] eqn:En; [|done]. apply dec_try_ceil_u64_Ok in En as [Hn _].
    destruct (n =? 0); [done|]. destruct (withdraw_share _ _) as [k|] eqn:Ek; [|done].
    pose proof (withdraw_share_Ok _ _ _ _ Ep Ek) as ->. injection H as <-. cbn. split_and!; done || lia.
  - apply liquidate_capped_Ok in H as (-> & ? & ? & ->); [|done|lia]. split_and!; done || lia.
Qed.

Lemma liquidate_partial_Ok max_amount br res :
  liquidate_partial max_amount br o l c = Ok res -> 0 <= br -> 0 <= max_amount -> 0 < ol_market_value l ->
  exists limit, max_liquidation_amount l o = Ok limit
  /\ let amount := Z.min limit max_amount in
     let value := liquidation_value false amount br in
     settled res /\ liquidated false amount value res /\ 0 < ol_borrowed_amount_wads l
     /\ 0 <= amount <= limit /\ 0 <= value.
Proof.
  unfold liquidate_partial, settled, liquidated, liquidation_value. intros H Hbr Hmax Hmv.
  destruct (max_liquidation_amount l o) as [limit|] eqn:El; [|done]. exists limit. split; [done|]. cbv zeta.
  apply max_liquidation_amount_Ok in El as [Hlim _]; [|done..].
  set (la := Z.min limit max_amount) in *.
  assert (Hla : 0 <= la <= limit) by (unfold la; lia).
  destruct (dec_try_div la _) as [pct|] eqn:E1; [|done]. apply dec_try_div_Ok in E1 as (Hne & -> & _).
  destruct (dec_try_mul (ol_market_value l) _) as [x|] eqn:E2; [|done]. apply dec_try_mul_Ok in E2 as [-> _].
  destruct (dec_try_mul _ br) as [v|] eqn:E3; [|done]. apply dec_try_mul_Ok in E3 as [-> _].
  destruct (liquidation_value_chain (ol_borrowed_amount_wads l) (ol_market_value l) la br) as [Hv _]; [lia..|].
  set (v := ol_market_value l * _ / WAD * br / WAD) in *.
  destruct (Z.compare_spec v (oc_market_value c)) as [He|Hlt|Hgt];
    destruct (Z.leb_spec v (oc_market_value c)), (Z.leb_spec (oc_market_value c) v); try lia.
  - unfold liquidate_exact in H. destruct (dec_try_ceil_u64 _) as [n|] eqn:En; [|done].
    apply dec_try_ceil_u64_Ok in En as [Hn _]. injection H as <-. cbn. split_and!; done || lia.
  - destruct (dec_try_div v _) as [p|] eqn:Ep; [|done].
    destruct (dec_try_ceil_u64 _) as [n|] eqn:En; [|done]. apply dec_try_ceil_u64_Ok in En as [Hn _].
    destruct (withdraw_share _ _) as [k|] eqn:Ek; [|done].
    pose proof (withdraw_share_Ok _ _ _ _ Ep Ek) as ->. injection H as <-. cbn. split_and!; done || lia.
  - apply liquidate_capped_Ok in H as (-> & ? & ? & ->); [|lia|lia]. split_and!; done || lia.
Qed.

(** C5: a successful liquidation settles at most the debt and repays what it
    settles rounded up. The amount it goes for is the whole debt of a dust
    borrow (one worth at most one quote unit) and otherwise the largest
    amount that respects the request, the debt, the close factor of a fifth
    of all debt and the cap per call. Priced with the bonus of at most 25
    percent, the amount is settled whole and its share of the deposit
    withdrawn while the collateral covers it, and the whole deposit is
    withdrawn, with a proportional settlement, when it does not: in every
    case the liquidator's share of the collateral is worth at most the
    settled share of the debt plus the bonus, but for one unit on dust. *)
Theorem calculate_liquidation_spec request bonus res :
  calculate_liquidation request o l c bonus = Ok res -> 0 <= total_bonus bonus -> 0 <= request ->
  let owed := ol_borrowed_amount_wads l in
  let cap := Z.min (ob_borrowed_value o * (20 * PERCENT_SCALER) / WAD) (500000 * WAD) in
  let br := total_bonus bonus + WAD in
  let dust := ol_market_value l <=? WAD in
  total_bonus bonus <= dec_from_percent 25
  /\ settled res
  /\ (exists amount,
        0 <= amount <= owed
        /\ liquidated dust amount (liquidation_value dust amount br) res
        /\ if dust then amount = owed
           else amount * ol_market_value l <= owed * cap
                /\ exists limit, max_liquidation_amount l o = Ok limit
                   /\ amount = Z.min limit (if request =? u64_max then owed else Z.min (request * WAD) owed))
  /\ 0 <= cl_withdraw_amount res <= Z.max (oc_deposited_amount c) 1
  /\ (dust = false -> cl_withdraw_amount res <= oc_deposited_amount c)
  /\ ((dust = true /\ cl_withdraw_amount res <= 1) \/ fair_withdrawal br res).
Proof.
  cbv zeta. intros H Hb Ha. unfold calculate_liquidation in H. unfold MAX_BONUS_PCT in H.
  destruct (Z.gtb_spec (total_bonus bonus) (dec_from_percent 25)); [done|]. split; [lia|].
  destruct (dec_try_add _ _) as [br|] eqn:Ebr; [|done]. apply dec_try_add_Ok in Ebr as [-> _].
  change dec_one with WAD in H. assert (HW : 0 < WAD) by done. set (br := total_bonus bonus + WAD) in *.
  assert (Hbr : 0 <= br) by (unfold br; lia). clearbody br.
  destruct (Z.leb_spec (ol_market_value l) WAD).
  - apply liquidate_dust_Ok in H as (Hs & Hl); [|lia]. split; [exact Hs|].
    split; [exists (ol_borrowed_amount_wads l); by split_and!|].
    assert (Hv : 0 <= liquidation_value true (ol_borrowed_amount_wads l) br) by (apply Z.div_pos; [nia|done]).
    refine (liquidated_fair _ _ _ _ _ Hv _ Hbr _ Hl); [lia|].
    unfold liquidation_value. apply Z.mul_le_mono_nonneg_r; [done|].
    rewrite Z.mul_comm. by apply Z.mul_div_le.
  - set (request_wads := if request =? u64_max then _ else _).
    assert (Hreq : 0 <= request_wads <= ol_borrowed_amount_wads l).
    { unfold request_wads. destruct (request =? u64_max); lia. }
    replace (if request =? u64_max then ol_borrowed_amount_wads l
             else Z.min (dec_from_u64 request) (ol_borrowed_amount_wads l)) with request_wads in H.
    2: { unfold request_wads, dec_from_u64. destruct (request =? u64_max); [done|]. by rewrite Z.mul_comm. }
    apply liquidate_partial_Ok in H as (limit & Hlim & Hs & Hl & Ho & Ham & Hv); [|lia..].
    pose proof Hlim as Hmax. apply max_liquidation_amount_Ok in Hmax as [Hlo Hcap]; [|done || lia..].
    cbv zeta in Hcap. set (amount := Z.min limit request_wads) in *. split; [exact Hs|].
    split; [exists amount; split; [lia|]; split; [exact Hl|]; split; [nia|by exists limit]|].
    refine (liquidated_fair _ _ _ _ _ Hv _ Hbr _ Hl); [lia|].
    apply (liquidation_value_chain (ol_borrowed_amount_wads l) (ol_market_value l) amount br); lia.
Qed.
End liquidation.

(** A liquidation for eight units of a debt of forty withdraws 66 of 500
    units of collateral. *)
Lemma calculate_liquidation_spec_witness :
  let l := mkObligationLiquidity (sample_key 4) WAD (40 * WAD) (60 * WAD) in
  let c := mkObligationCollateral (sample_key 3) 500 (100 * WAD) (3 * WAD) in
  let res := mkCalculateLiquidationResult (8 * WAD) 8 66 in
  settled l res /\ fair_withdrawal l c (10 * PERCENT_SCALER + WAD) res.
Proof.
  cbv zeta.
  destruct (calculate_liquidation_spec sample_obligation
    (mkObligationLiquidity (sample_key 4) WAD (40 * WAD) (60 * WAD))
    (mkObligationCollateral (sample_key 3) 500 (100 * WAD) (3 * WAD))
    ltac:(by vm_compute) ltac:(by vm_compute) ltac:(by vm_compute) ltac:(by vm_compute) ltac:(by vm_compute)
    50 (mkBonus (10 * PERCENT_SCALER) (PERCENT_SCALER)) (mkCalculateLiquidationResult (8 * WAD) 8 66)
    ltac:(vm_compute; reflexivity) ltac:(by vm_compute) ltac:(by vm_compute))
    as (_ & Hs & _ & _ & _ & [[Hd _]|Hf]); [discriminate Hd|].
  split; [exact Hs|exact Hf].
Defined.

(** ** The protocol's cut *)

(** The protocol takes at least one unit and at most what was liquidated, and
    (above that minimum) at most its fee rate on the part without the bonus,
    rounded up; a bonus above the maximum is refused. *)
Theorem protocol_fee_spec amount bonus :
  1 <= amount -> 0 <= total_bonus bonus -> 0 <= bonus_protocol_liquidation_fee bonus <= WAD ->
  (dec_from_percent MAX_BONUS_PCT < total_bonus bonus ->
     calculate_protocol_liquidation_fee amount bonus = Err (Custom InvalidAmount))
  /\ forall fee, calculate_protocol_liquidation_fee amount bonus = Ok fee ->
     1 <= fee <= amount
     /\ (1 < fee -> (fee - 1) * (WAD + total_bonus bonus) < amount * bonus_protocol_liquidation_fee bonus).
Proof.
  intros Ha Hb Hf. unfold calculate_protocol_liquidation_fee.
  destruct (Z.gtb_spec (total_bonus bonus) (dec_from_percent MAX_BONUS_PCT)) as [?|Hcap]; [by split|].
  split; [lia|]. intros fee H.
  destruct (dec_try_add _ _) as [d|] eqn:Ed; [|done]. apply dec_try_add_Ok in Ed as [-> _].
  change dec_one with WAD in H.
  destruct (dec_try_div _ _) as [nb|] eqn:E1; [|done]. apply dec_try_div_Ok in E1 as (_ & -> & _).
  destruct (dec_try_mul _ _) as [x|] eqn:E2; [|done]. apply dec_try_mul_Ok in E2 as [-> _].
  destruct (dec_try_ceil_u64 _) as [n|] eqn:E3; [|done]. apply dec_try_ceil_u64_Ok in E3 as [Hn _].
  injection H as <-. unfold dec_from_u64 in *. set (p := bonus_protocol_liquidation_fee bonus) in *.
  set (d := WAD + total_bonus bonus) in *. assert (HW : 0 < WAD) by done.
  assert (Hd : WAD <= d) by (unfold d; lia).
  pose proof (div_floor_bounds (WAD * amount * WAD) d ltac:(lia)) as [H1 _].
  set (nb := WAD * amount * WAD / d) in *.
  assert (Hnb : 0 <= nb <= amount * WAD)
    by (unfold nb; split; [apply Z.div_pos; nia|apply Z.div_le_upper_bound; nia]).
  pose proof (div_floor_bounds (nb * p) WAD HW) as [H2 _]. set (x := nb * p / WAD) in *.
  assert (Hx : 0 <= x <= amount * WAD)
    by (unfold x; split; [apply Z.div_pos; nia|apply Z.div_le_upper_bound; nia]).
  split; [nia|]. intros Hgt. assert (Hmax : Z.max n 1 = n) by lia. rewrite Hmax in *.
  apply (Z.mul_lt_mono_pos_r (WAD * WAD)); [lia|].
  assert (A : (n - 1) * WAD * (WAD * d) < x * (WAD * d)) by (apply Z.mul_lt_mono_pos_r; nia).
  assert (B : x * WAD * d <= nb * p * d) by (apply Z.mul_le_mono_nonneg_r; lia).
  assert (C : nb * d * p <= WAD * amount * WAD * p) by (apply Z.mul_le_mono_nonneg_r; lia). lia.
Qed.

Lemma protocol_fee_spec_witness :
  1 <= 10 <= 1000
  /\ (1 < 10 -> (10 - 1) * (WAD + 10 * PERCENT_SCALER) < 1000 * PERCENT_SCALER).
Proof.
  refine (proj2 (protocol_fee_spec 1000 (mkBonus (10 * PERCENT_SCALER) PERCENT_SCALER) _ _ _) 10 _).
  - lia.
  - by vm_compute.
  - split; by vm_compute.
  - vm_compute. reflexivity.
Defined.
