(* ===== verification/SolendReserveTests.v ===== *)
(** * The tests of reserve.rs.

    The unit tests are evaluated; the property tests are theorems over every
    input of their generators, and where an assertion is not true of every
    input the theorem says for which inputs the test passes. *)

From Stdlib Require Import ZArith Lia.
From stdpp Require Import base option list.
From S2P Require Import Prelude StateErr Harness CoreTypes SolendMath SolendState SolendReserve SolendOps SolendRates SolendBorrow SolendObligation SolendLiquidation.

Open Scope rust_scope.

(** ** Derived defaults, equality and struct update *)

Definition LastUpdate_default : LastUpdate := mkLastUpdate 0 false.
Definition ReserveFees_default : ReserveFees := mkReserveFees 0 0 0.
Definition ReserveLiquidity_default : ReserveLiquidity :=
  mkReserveLiquidity default_pubkey 0 default_pubkey default_pubkey default_pubkey 0 dec_zero
    dec_zero dec_zero dec_zero dec_zero None.
Definition ReserveCollateral_default : ReserveCollateral :=
  mkReserveCollateral default_pubkey 0 default_pubkey.
Definition ReserveType_default : ReserveType := Regular.
Definition ReserveConfig_default : ReserveConfig :=
  mkReserveConfig 0 0 0 0 0 0 0 0 0 0 0 ReserveFees_default 0 0 default_pubkey 0 0 0
    ReserveType_default 0 None 0 0.
Definition Reserve_default : Reserve :=
  mkReserve 0 LastUpdate_default default_pubkey ReserveLiquidity_default ReserveCollateral_default
    ReserveConfig_default RateLimiter_default dec_zero.

#[global] Instance LastUpdate_eq_dec : EqDecision LastUpdate.
Proof. solve_decision. Defined.
#[global] Instance RateLimiterConfig_eq_dec : EqDecision RateLimiterConfig.
Proof. solve_decision. Defined.
#[global] Instance RateLimiter_eq_dec : EqDecision RateLimiter.
Proof. solve_decision. Defined.
#[global] Instance ReserveType_eq_dec : EqDecision ReserveType.
Proof. solve_decision. Defined.
#[global] Instance ReserveFees_eq_dec : EqDecision ReserveFees.
Proof. solve_decision. Defined.
#[global] Instance ReserveConfig_eq_dec : EqDecision ReserveConfig.
Proof. solve_decision. Defined.
#[global] Instance ReserveLiquidity_eq_dec : EqDecision ReserveLiquidity.
Proof. solve_decision. Defined.
#[global] Instance ReserveCollateral_eq_dec : EqDecision ReserveCollateral.
Proof. solve_decision. Defined.
#[global] Instance Reserve_eq_dec : EqDecision Reserve.
Proof. solve_decision. Defined.
#[global] Instance Bonus_eq_dec : EqDecision Bonus.
Proof. solve_decision. Defined.
#[global] Instance CalculateBorrowResult_eq_dec : EqDecision CalculateBorrowResult.
Proof. solve_decision. Defined.
#[global] Instance CalculateLiquidationResult_eq_dec : EqDecision CalculateLiquidationResult.
Proof. solve_decision. Defined.

#[global] Instance eta_ReserveConfig : Eta ReserveConfig := fun r =>
  mkReserveConfig (optimal_utilization_rate r) (max_utilization_rate r) (loan_to_value_ratio r)
    (liquidation_bonus r) (max_liquidation_bonus r) (liquidation_threshold r)
    (max_liquidation_threshold r) (min_borrow_rate r) (optimal_borrow_rate r) (max_borrow_rate r)
    (super_max_borrow_rate r) (rcfg_fees r) (deposit_limit r) (borrow_limit r) (fee_receiver r)
    (protocol_liquidation_fee r) (protocol_take_rate r) (added_borrow_weight_bps r)
    (reserve_type r) (scaled_price_offset_bps r) (extra_oracle_pubkey r)
    (attributed_borrow_limit_open r) (attributed_borrow_limit_close r).
#[global] Instance eta_ReserveLiquidity : Eta ReserveLiquidity := fun r =>
  mkReserveLiquidity (liq_mint_pubkey r) (mint_decimals r) (liq_supply_pubkey r)
    (pyth_oracle_pubkey r) (switchboard_oracle_pubkey r) (available_amount r)
    (borrowed_amount_wads r) (cumulative_borrow_rate_wads r) (accumulated_protocol_fees_wads r)
    (market_price r) (smoothed_market_price r) (extra_market_price r).
#[global] Instance eta_ReserveCollateral : Eta ReserveCollateral := fun r =>
  mkReserveCollateral (col_mint_pubkey r) (mint_total_supply r) (col_supply_pubkey r).
#[global] Instance eta_Reserve : Eta Reserve := fun r =>
  mkReserve (version r) (last_update r) (lending_market r) (liquidity r) (collateral r) (config r)
    (rate_limiter r) (attributed_borrow_value r).
#[global] Instance eta_ObligationCollateral : Eta ObligationCollateral := fun r =>
  mkObligationCollateral (oc_deposit_reserve r) (oc_deposited_amount r) (oc_market_value r)
    (oc_attributed_borrow_value r).
#[global] Instance eta_ObligationLiquidity : Eta ObligationLiquidity := fun r =>
  mkObligationLiquidity (ol_borrow_reserve r) (ol_cumulative_borrow_rate_wads r)
    (ol_borrowed_amount_wads r) (ol_market_value r).
#[global] Instance eta_Obligation : Eta Obligation := fun r =>
  mkObligation (ob_version r) (ob_last_update r) (ob_lending_market r) (ob_owner r)
    (ob_deposits r) (ob_borrows r) (ob_deposited_value r) (ob_borrowed_value r)
    (ob_unweighted_borrowed_value r) (ob_borrowed_value_upper_bound r) (ob_allowed_borrow_value r)
    (ob_unhealthy_borrow_value r) (ob_super_unhealthy_borrow_value r)
    (ob_borrowing_isolated_asset r) (ob_closeable r).

Definition LAMPORTS_PER_SOL : Z := 1000000000.

(* ------------------------------------------------------------------ *)
(** ** Fees *)

Definition fees_1pct (host_fee_percentage : Z) : ReserveFees :=
  mkReserveFees 10000000000000000 0 host_fee_percentage.

Definition borrow_fee_calculation_min_host : test :=
  let fees := fees_1pct 20 in
  let! err := unwrap_err (calculate_borrow_fees fees (dec_from_u64 2) Exclusive) in
  do! assert_eq err (Custom BorrowTooSmall) in
  let! err := unwrap_err (calculate_borrow_fees fees dec_one Exclusive) in
  do! assert_eq err (Custom BorrowTooSmall) in
  let! (total_fee, host_fee) := unwrap (calculate_borrow_fees fees dec_zero Exclusive) in
  do! assert_eq total_fee 0 in
  assert_eq host_fee 0.

Definition borrow_fee_calculation_min_no_host : test :=
  let fees := fees_1pct 0 in
  let! (total_fee, host_fee) := unwrap (calculate_borrow_fees fees (dec_from_u64 2) Exclusive) in
  do! assert_eq total_fee 1 in
  do! assert_eq host_fee 0 in
  let! err := unwrap_err (calculate_borrow_fees fees dec_one Exclusive) in
  do! assert_eq err (Custom BorrowTooSmall) in
  let! (total_fee, host_fee) := unwrap (calculate_borrow_fees fees dec_zero Exclusive) in
  do! assert_eq total_fee 0 in
  assert_eq host_fee 0.

Definition borrow_fee_calculation_host : test :=
  let! (total_fee, host_fee) :=
    unwrap (calculate_borrow_fees (fees_1pct 20) (dec_from_u64 1000) Exclusive) in
  do! assert_eq total_fee 10 in
  assert_eq host_fee 2.

Definition borrow_fee_calculation_no_host : test :=
  let! (total_fee, host_fee) :=
    unwrap (calculate_borrow_fees (fees_1pct 0) (dec_from_u64 1000) Exclusive) in
  do! assert_eq total_fee 10 in
  assert_eq host_fee 0.

(** [reserve.calculate_protocol_liquidation_fee] only reads the bonus. *)
Definition calculate_protocol_liquidation_fee_test : test :=
  let case amount bonus fee expected :=
    let! n := unwrap (calculate_protocol_liquidation_fee amount
                        (mkBonus (dec_from_percent bonus) (dec_from_percent fee))) in
    assert_eq n expected in
  do! case 105 5 1 1 in
  do! case 105 5 2 2 in
  do! case 10000 5 0 1 in
  case 10000 1 1 100.

(* ------------------------------------------------------------------ *)
(** ** Prices and market values *)

Definition price_test_reserve : Reserve :=
  Reserve_default
    <| liquidity := ReserveLiquidity_default
         <| mint_decimals := 9 |>
         <| market_price := dec_from_u64 25 |>
         <| smoothed_market_price := dec_from_u64 50 |> |>.
Definition with_extra_price (price : Decimal) (r : Reserve) : Reserve :=
  r <| liquidity := (liquidity r) <| extra_market_price := Some price |> |>.

Definition price : test :=
  let reserve := price_test_reserve in
  do! assert_eq (price_upper_bound reserve) (dec_from_u64 50) in
  do! assert_eq (price_lower_bound reserve) (dec_from_u64 25) in
  let reserve := with_extra_price (dec_from_u64 75) reserve in
  do! assert_eq (price_upper_bound reserve) (dec_from_u64 75) in
  let reserve := with_extra_price (dec_from_u64 10) reserve in
  assert_eq (price_lower_bound reserve) (dec_from_u64 10).

Definition market_value : test :=
  let ten_sol := dec_from_u64 (10 * LAMPORTS_PER_SOL) in
  let check actual expected := let! v := unwrap actual in assert_eq v expected in
  let reserve := price_test_reserve in
  let! one_lamport := unwrap (dec_try_div_u64 (dec_from_u64 25) 1000000000) in
  do! check (Reserve_market_value (dec_from_u64 1) reserve) one_lamport in
  do! check (Reserve_market_value ten_sol reserve) (dec_from_u64 250) in
  do! check (market_value_lower_bound ten_sol reserve) (dec_from_u64 250) in
  do! check (market_value_upper_bound ten_sol reserve) (dec_from_u64 500) in
  let reserve := with_extra_price (dec_from_u64 100) reserve in
  do! check (market_value_upper_bound ten_sol reserve) (dec_from_u64 1000) in
  let reserve := with_extra_price (dec_from_u64 10) reserve in
  do! check (market_value_lower_bound ten_sol reserve) (dec_from_u64 100) in
  check (Reserve_market_value (dec_from_u64 1) reserve) one_lamport.

Definition usd_to_liquidity_amount_lower_bound_test : test :=
  let! v := unwrap (usd_to_liquidity_amount_lower_bound (dec_from_u64 100) price_test_reserve) in
  assert_eq v (dec_from_u64 (2 * LAMPORTS_PER_SOL)).

(* ------------------------------------------------------------------ *)
(** ** Validation of the configuration *)

Definition reserve_config_test_cases : list (ReserveConfig * result unit ProgramError) :=
  let invalid := Err (Custom InvalidConfig) in
  let d := ReserveConfig_default in
  [(d <| reserve_type := Isolated |> <| loan_to_value_ratio := 1 |>, invalid);
   (d <| reserve_type := Isolated |> <| liquidation_threshold := 1 |>, invalid);
   (d <| reserve_type := Isolated |> <| loan_to_value_ratio := 0 |> <| liquidation_threshold := 0 |>,
    Ok tt);
   (d <| liquidation_threshold := 85 |> <| max_liquidation_threshold := 75 |>, invalid);
   (d <| max_liquidation_bonus := 5 |> <| liquidation_bonus := 10 |>, invalid);
   (d <| max_liquidation_bonus := 20 |> <| protocol_liquidation_fee := 50 |>, Ok tt);
   (d <| max_liquidation_bonus := 20 |> <| protocol_liquidation_fee := 60 |>, invalid);
   (d <| protocol_liquidation_fee := 51 |>, invalid);
   (d <| scaled_price_offset_bps := 5001 |>, invalid);
   (d <| scaled_price_offset_bps := 1999 |> <| attributed_borrow_limit_open := 50 |>
      <| attributed_borrow_limit_close := 51 |>, Ok tt);
   (d <| scaled_price_offset_bps := -2001 |>, invalid);
   (d <| scaled_price_offset_bps := -1999 |>, Ok tt);
   (d <| attributed_borrow_limit_open := 51 |> <| attributed_borrow_limit_close := 50 |>, invalid)].

Definition test_validate_reserve_config (test_case : ReserveConfig * result unit ProgramError) : test :=
  assert_eq (validate_reserve_config test_case.1) test_case.2.

(* ------------------------------------------------------------------ *)
(** ** Liquidation bonus *)

Record LiquidationBonusTestCase := mkBonusCase {
  lbt_borrowed_value : Decimal;
  lbt_unhealthy_borrow_value : Decimal;
  lbt_super_unhealthy_borrow_value : Decimal;
  lbt_closeable : bool;
  lbt_liquidation_bonus : Z;
  lbt_max_liquidation_bonus : Z;
  lbt_protocol_liquidation_fee : Z;
  lbt_result : result Bonus ProgramError
}.

Definition calculate_bonus_test_cases : list LiquidationBonusTestCase :=
  let d := dec_from_u64 in
  let ok bonus fee := Ok (mkBonus (dec_from_percent bonus) (dec_from_percent fee)) in
  [mkBonusCase (d 100) (d 101) (d 150) false 10 20 10 (Err (Custom ObligationHealthy));
   mkBonusCase (d 100) (d 101) (d 150) true 10 20 10 (Ok (mkBonus dec_zero dec_zero));
   mkBonusCase (d 100) (d 100) (d 150) true 10 20 10 (ok 11 1);
   mkBonusCase (d 100) (d 100) (d 150) false 10 20 10 (ok 11 1);
   mkBonusCase (d 100) (d 50) (d 150) false 10 20 10 (ok 16 1);
   mkBonusCase (d 100) (d 50) (d 100) false 10 20 10 (ok 21 1);
   mkBonusCase (d 200) (d 50) (d 100) false 10 20 10 (ok 21 1);
   mkBonusCase (d 60) (d 50) (d 50) false 10 20 10 (ok 11 1);
   mkBonusCase (d 60) (d 40) (d 60) false 10 30 10 (ok 25 1);
   mkBonusCase (d 60) (d 40) (d 60) false 30 30 30 (ok 25 3)].

Definition calculate_bonus_test (test_case : LiquidationBonusTestCase) : test :=
  let reserve := Reserve_default
    <| config := ReserveConfig_default
         <| liquidation_bonus := lbt_liquidation_bonus test_case |>
         <| max_liquidation_bonus := lbt_max_liquidation_bonus test_case |>
         <| protocol_liquidation_fee := lbt_protocol_liquidation_fee test_case |> |> in
  let obligation := Obligation_default
    <| ob_borrowed_value := lbt_borrowed_value test_case |>
    <| ob_unhealthy_borrow_value := lbt_unhealthy_borrow_value test_case |>
    <| ob_super_unhealthy_borrow_value := lbt_super_unhealthy_borrow_value test_case |>
    <| ob_closeable := lbt_closeable test_case |> in
  let! bonus := calculate_bonus obligation reserve in
  assert_eq bonus (lbt_result test_case).

(* ------------------------------------------------------------------ *)
(** ** Liquidation amounts *)

Record LiquidationTestCase := mkLiquidationCase {
  lt_deposit_amount : Z;
  lt_deposit_market_value : Decimal;
  lt_borrow_amount : Z;
  lt_borrow_market_value : Decimal;
  lt_bonus : Bonus;
  lt_liquidation_result : CalculateLiquidationResult
}.

(** The first case computes its expectation with [unwrap]s. *)
Definition calculate_liquidation_test_cases : panicking (list LiquidationTestCase) :=
  let d := dec_from_u64 in
  let close_factor : Decimal := dec_from_rate (rate_from_percent LIQUIDATION_CLOSE_FACTOR) in
  let! bonus_rate := unwrap (rate_try_add (rate_from_percent 5) rate_one) in
  let liquidation_bonus : Decimal := dec_from_rate bonus_rate in
  let bonus := mkBonus (dec_from_percent 5) (dec_from_percent 1) in
  let closed := 8000 * LIQUIDATION_CLOSE_FACTOR in
  let! settle := unwrap (dec_try_mul close_factor (d 800)) in
  let! repay := unwrap (dec_try_ceil_u64 settle) in
  let! withdraw_rate := unwrap (dec_try_mul close_factor liquidation_bonus) in
  let! withdraw := unwrap (dec_try_mul withdraw_rate (d 800)) in
  let! withdraw := unwrap (dec_try_floor_u64 withdraw) in
  let! small_value := dec_from_bps 5250 in
  Done
    [mkLiquidationCase 1000 (d 100) 800 (d 80) bonus
       (mkCalculateLiquidationResult settle repay withdraw);
     mkLiquidationCase (closed * 105 / 10000) (d (closed * 105 / 10000)) 8000 (d 8000) bonus
       (mkCalculateLiquidationResult (d (closed / 100)) (closed / 100) (closed * 105 / 10000));
     mkLiquidationCase (closed * 105 / 10000 / 2) (d (closed * 105 / 10000 / 2)) 8000 (d 8000) bonus
       (mkCalculateLiquidationResult (d (closed / 100 / 2)) (closed / 100 / 2)
          (closed * 105 / 10000 / 2));
     mkLiquidationCase 100 (d 1) 100 (dec_from_percent 50) bonus
       (mkCalculateLiquidationResult (d 100) 100 52);
     mkLiquidationCase 1000 (dec_from_percent 105) 1 (d 1) bonus
       (mkCalculateLiquidationResult (d 1) 1 1000);
     mkLiquidationCase 10 small_value 10 dec_one bonus
       (mkCalculateLiquidationResult (d 5) 5 10);
     mkLiquidationCase 1 (d 10) 1 dec_one bonus (mkCalculateLiquidationResult (d 1) 1 1);
     mkLiquidationCase 100 (d 100) 100 (d 100) (mkBonus dec_zero dec_zero)
       (mkCalculateLiquidationResult (d 20) 20 20)].

(** [Pubkey::new_unique] yields keys the calculation does not read. *)
Definition calculate_liquidation_test (deposit_reserve borrow_reserve : Pubkey)
    (test_case : LiquidationTestCase) : test :=
  let deposit := mkObligationCollateral deposit_reserve (lt_deposit_amount test_case)
    (lt_deposit_market_value test_case) (lt_borrow_market_value test_case) in
  let borrow := mkObligationLiquidity borrow_reserve dec_one
    (dec_from_u64 (lt_borrow_amount test_case)) (lt_borrow_market_value test_case) in
  let obligation := Obligation_default
    <| ob_deposits := [deposit] |>
    <| ob_borrows := [borrow] |>
    <| ob_borrowed_value := lt_borrow_market_value test_case |>
    <| ob_unhealthy_borrow_value := lt_borrow_market_value test_case |>
    <| ob_super_unhealthy_borrow_value := lt_borrow_market_value test_case |> in
  let! res := unwrap (calculate_liquidation u64_max obligation borrow deposit (lt_bonus test_case)) in
  assert_eq res (lt_liquidation_result test_case).

(* ------------------------------------------------------------------ *)
(** ** Borrowing *)

Record CalculateBorrowTestCase := mkBorrowCase {
  cbt_borrow_amount : Z;
  cbt_remaining_borrow_value : Decimal;
  cbt_remaining_reserve_capacity : Decimal;
  cbt_market_price : Decimal;
  cbt_smoothed_market_price : Decimal;
  cbt_extra_market_price : option Decimal;
  cbt_decimal : Z;
  cbt_added_borrow_weight_bps : Z;
  cbt_borrow_fee_wad : Z;
  cbt_host_fee : Z;
  cbt_result : result CalculateBorrowResult ProgramError
}.

Definition calculate_borrow_test_cases : list CalculateBorrowTestCase :=
  let d := dec_from_u64 in
  let sol := LAMPORTS_PER_SOL in
  let ok amount receive fee host := Ok (mkCalculateBorrowResult (d amount) receive fee host) in
  let pct := 10000000000000000 in
  [mkBorrowCase sol (d 10) (d (sol * 10)) (d 1) (d 1) None 9 0 pct 20
     (ok (sol * 101 / 100) sol (sol / 100) (sol / 100 / 100 * 20));
   mkBorrowCase u64_max (d 10) (d (sol * 101 / 100)) (d 1) (d 1) None 9 0 pct 20
     (ok (sol * 101 / 100) sol (sol / 100) (sol / 100 / 100 * 20));
   mkBorrowCase (sol / 2) (d 1) (d sol) (d 1) (d 1) None 9 10000 0 0 (ok (sol / 2) (sol / 2) 0 0);
   mkBorrowCase u64_max (d 1) (d sol) (d 1) (d 1) None 9 10000 0 0 (ok (sol / 2) (sol / 2) 0 0);
   mkBorrowCase u64_max (d 100) (d (100 * sol)) (d 10) (d 20) None 9 0 0 0
     (ok (5 * sol) (5 * sol) 0 0);
   mkBorrowCase u64_max (d 100) (d (100 * sol)) (d 20) (d 10) None 9 0 0 0
     (ok (5 * sol) (5 * sol) 0 0);
   mkBorrowCase (7 * sol) (d 100) (d (100 * sol)) (d 10) (d 20) None 9 0 0 0
     (Err (Custom BorrowTooLarge));
   mkBorrowCase (7 * sol) (d 100) (d (100 * sol)) (d 10) (d 10) (Some (d 20)) 9 0 0 0
     (Err (Custom BorrowTooLarge))].

(** The available amount is the scaled capacity cut to 64 bits by [as u64]. *)
Definition calculate_borrow_test (test_case : CalculateBorrowTestCase) : test :=
  let! capacity := unwrap (dec_to_scaled_val (cbt_remaining_reserve_capacity test_case)) in
  let reserve := Reserve_default
    <| config := ReserveConfig_default
         <| added_borrow_weight_bps := cbt_added_borrow_weight_bps test_case |>
         <| rcfg_fees := mkReserveFees (cbt_borrow_fee_wad test_case) 0 (cbt_host_fee test_case) |> |>
    <| liquidity := ReserveLiquidity_default
         <| mint_decimals := cbt_decimal test_case |>
         <| market_price := cbt_market_price test_case |>
         <| smoothed_market_price := cbt_smoothed_market_price test_case |>
         <| extra_market_price := cbt_extra_market_price test_case |>
         <| available_amount := wrap 64 capacity |> |> in
  let! res := calculate_borrow (cbt_borrow_amount test_case) (cbt_remaining_borrow_value test_case)
                (cbt_remaining_reserve_capacity test_case) reserve in
  assert_eq res (cbt_result test_case).

(** The unit tests and the table-driven property tests. *)
Definition reserve_unit_tests : list test :=
  [borrow_fee_calculation_min_host; borrow_fee_calculation_min_no_host; borrow_fee_calculation_host;
   borrow_fee_calculation_no_host; calculate_protocol_liquidation_fee_test; price; market_value;
   usd_to_liquidity_amount_lower_bound_test;
   for_each reserve_config_test_cases test_validate_reserve_config;
   for_each calculate_bonus_test_cases calculate_bonus_test;
   (let! cases := calculate_liquidation_test_cases in
    for_each cases (calculate_liquidation_test default_pubkey (mkPubkey [1])));
   for_each calculate_borrow_test_cases calculate_borrow_test].

(** Every unit test and every row of the test tables of reserve.rs passes. *)
Lemma reserve_unit_tests_pass : forallb passes reserve_unit_tests = true.
Proof. vm_compute. reflexivity. Qed.

(* ------------------------------------------------------------------ *)
(** ** Property tests: generators and bodies *)

Definition MAX_LIQUIDITY : Z := u64_max / 5.

(** What the strategies produce. *)
Definition utilizations (optimal max : Z) : Prop := 0 <= optimal <= max /\ max <= 100.
Definition borrow_rates (min optimal max super_max : Z) : Prop :=
  0 <= min <= optimal /\ optimal <= max <= u8_max /\ max <= super_max <= u64_max.

(** A pool of [total_liquidity], of which [borrowed_percent] wads are lent. *)
Definition lend (total_liquidity borrowed_percent : Z) : panicking (Decimal * Z) :=
  let! borrowed := unwrap (dec_try_mul_rate (dec_from_u64 total_liquidity)
                             (rate_from_scaled_val borrowed_percent)) in
  let! rounded := unwrap (dec_try_round_u64 borrowed) in
  let! available := debug_sub 64 total_liquidity rounded in
  Done (borrowed, available).
Definition lent_liquidity (borrowed : Decimal) (available : Z) : ReserveLiquidity :=
  ReserveLiquidity_default <| borrowed_amount_wads := borrowed |> <| available_amount := available |>.

Definition current_borrow_rate_test
    (total_liquidity borrowed_percent optimal_util max_util min_rate optimal_rate max_rate
     super_max_rate : Z) : test :=
  let! (borrowed, available) := lend total_liquidity borrowed_percent in
  let reserve := Reserve_default
    <| liquidity := lent_liquidity borrowed available |>
    <| config := ReserveConfig_default
         <| optimal_utilization_rate := optimal_util |>
         <| max_utilization_rate := max_util |>
         <| min_borrow_rate := min_rate |>
         <| optimal_borrow_rate := optimal_rate |>
         <| max_borrow_rate := max_rate |>
         <| super_max_borrow_rate := super_max_rate |> |> in
  let! rate := unwrap (current_borrow_rate reserve) in
  do! assert (rate >=? rate_from_percent min_rate) in
  do! assert (rate <=? rate_from_percent_u64 super_max_rate) in
  let! current_rate := unwrap (utilization_rate (liquidity reserve)) in
  if current_rate <=? rate_from_percent optimal_util then
    assert (rate <=? rate_from_percent optimal_rate)
  else if current_rate <=? rate_from_percent max_util then
    do! assert (rate >=? rate_from_percent optimal_rate) in
    assert (rate <=? rate_from_percent max_rate)
  else
    do! assert (rate >=? rate_from_percent max_rate) in
    assert (rate <=? rate_from_percent_u64 super_max_rate).

Definition current_utilization_rate_test (total_liquidity borrowed_percent : Z) : test :=
  let! (borrowed, available) := lend total_liquidity borrowed_percent in
  let! current_rate := unwrap (utilization_rate (lent_liquidity borrowed available)) in
  assert (current_rate <=? rate_one).

Definition collateral_exchange_rate_test
    (total_liquidity borrowed_percent collateral_multiplier borrow_rate : Z) : test :=
  let! (borrowed, available) := lend total_liquidity borrowed_percent in
  let! supply := unwrap (dec_try_mul_rate (dec_from_u64 total_liquidity)
                           (rate_from_scaled_val collateral_multiplier)) in
  let! supply := unwrap (dec_try_round_u64 supply) in
  let reserve := Reserve_default
    <| collateral := ReserveCollateral_default <| mint_total_supply := supply |> |>
    <| liquidity := lent_liquidity borrowed available |>
    <| config := ReserveConfig_default
         <| min_borrow_rate := borrow_rate |>
         <| optimal_borrow_rate := borrow_rate |>
         <| optimal_utilization_rate := 100 |> |> in
  let! exchange_rate := unwrap (collateral_exchange_rate reserve) in
  do! assert (rate_to_scaled_val exchange_rate <=? 5 * WAD) in
  let (reserve, res) := Reserve_accrue_interest 1 reserve in
  let! _ := unwrap res in
  let! new_exchange_rate := unwrap (collateral_exchange_rate reserve) in
  if (borrow_rate >? 0) && (total_liquidity >? 0) && (borrowed_percent >? 0)
  then assert (new_exchange_rate <? exchange_rate)
  else assert_eq new_exchange_rate exchange_rate.

(** One iteration of the loop of [compound_interest]. *)
Definition compound_step (borrow_rate take_rate : Rate) (slots_elapsed : Z) (_ : Z) (reserve : Reserve)
    : panicking Reserve :=
  let (l, res) := compound_interest borrow_rate slots_elapsed take_rate (liquidity reserve) in
  let! _ := unwrap res in
  let! _ := unwrap (dec_to_scaled_val (cumulative_borrow_rate_wads l)) in
  let! _ := unwrap (dec_to_scaled_val (accumulated_protocol_fees_wads l)) in
  Done (reserve <| liquidity := l |>).
Definition compound_interest_test (slots_elapsed borrow_rate take_rate : Z) : test :=
  let! _ := for_state (range 0 1000)
              (compound_step (rate_from_percent borrow_rate) (rate_from_percent take_rate) slots_elapsed)
              Reserve_default in
  Done tt.

Definition reserve_accrue_interest_test (slots_elapsed borrowed_liquidity borrow_rate : Z) : test :=
  let borrowed := dec_from_u64 borrowed_liquidity in
  let reserve := Reserve_default
    <| liquidity := ReserveLiquidity_default <| borrowed_amount_wads := borrowed |> |>
    <| config := ReserveConfig_default
         <| min_borrow_rate := borrow_rate |>
         <| optimal_borrow_rate := borrow_rate |>
         <| max_borrow_rate := borrow_rate |>
         <| super_max_borrow_rate := borrow_rate |> |> in
  let (reserve, res) := Reserve_accrue_interest slots_elapsed reserve in
  let! _ := unwrap res in
  if (borrow_rate >? 0) && (slots_elapsed >? 0)
  then assert (borrowed_amount_wads (liquidity reserve) >? borrowed)
  else assert (borrowed_amount_wads (liquidity reserve) =? borrowed).

Definition borrow_fee_calculation_test (fee_wad flash_fee_wad host_pct borrow_amount : Z) : test :=
  let fees := mkReserveFees fee_wad flash_fee_wad host_pct in
  let! (total_fee, host_fee) :=
    unwrap (calculate_borrow_fees fees (dec_from_u64 borrow_amount) Exclusive) in
  do! assert (total_fee <=? borrow_amount) in
  do! assert (host_fee <=? total_fee) in
  do! (if fee_wad >? 0 then assert (total_fee >? 0) else Done tt) in
  do! (if host_pct =? 100 then assert_eq host_fee total_fee else Done tt) in
  if (host_pct >? 0) && (fee_wad >? 0) then assert (host_fee >? 0) else assert_eq host_fee 0.

Definition flash_loan_fee_calculation_test (fee_wad flash_fee_wad host_pct borrow_amount : Z) : test :=
  let fees := mkReserveFees fee_wad flash_fee_wad host_pct in
  let! (origination_fee, host_fee) :=
    unwrap (calculate_flash_loan_fees fees (dec_from_u64 borrow_amount)) in
  let! sum := debug_add 64 origination_fee host_fee in
  do! assert (sum <=? borrow_amount) in
  do! (if fee_wad >? 0 then assert (sum >? 0) else Done tt) in
  do! (if host_pct =? 100 then assert_eq origination_fee 0 else Done tt) in
  if (host_pct >? 0) && (fee_wad >? 0) then assert (host_fee >? 0) else assert_eq host_fee 0.
