(* ===== verification/SolendReserveProps.v ===== *)
(** * The property tests of reserve.rs, on every input of their generators.

    Four of them hold for all generated inputs. Two hold on a part of the
    inputs, which is determined here, and one has assertions that fail on
    boundary inputs; the random runs do not reach them. *)

From Stdlib Require Import ZArith Lia.
From stdpp Require Import base option list.
From S2P Require Import Prelude StateErr Harness CoreTypes SolendMath SolendState SolendReserve SolendOps SolendRates SolendGrowth SolendBorrow SolendObligation SolendReserveTests.

Open Scope rust_scope.

(** ** The generated pool *)

Lemma lend_Done total percent :
  0 <= total <= MAX_LIQUIDITY -> 0 <= percent <= WAD ->
  exists available, lend total percent = Done (total * percent, available)
  /\ is_u64 available /\ 0 <= total * percent <= total * WAD.
Proof.
  intros Ht Hp. change MAX_LIQUIDITY with 3689348814741910323 in Ht.
  assert (Hb : 0 <= total * percent <= total * WAD) by (unfold WAD in *; nia).
  unfold lend, dec_from_u64, rate_from_scaled_val.
  rewrite dec_try_mul_rate_fits by (unfold WAD in *; nia). cbn [unwrap].
  replace (WAD * total * percent / WAD) with (total * percent)
    by (replace (WAD * total * percent) with (total * percent * WAD) by lia; by rewrite Z.div_mul).
  assert (Hr : 0 <= (HALF_WAD + total * percent) / WAD <= total).
  { split; [apply Z.div_pos; unfold HALF_WAD; [lia|done]|].
    apply Z.lt_succ_r, Z.div_lt_upper_bound; [done|]. unfold HALF_WAD, WAD in *. lia. }
  rewrite dec_try_round_fits by (unfold u64_max, WAD in *; lia). cbn [unwrap].
  unfold debug_sub, checked_sub. rewrite to_u_in by (unfold in_u; lia). cbn [unwrap_option].
  eexists. split; [reflexivity|]. split; [unfold in_u; lia|exact Hb].
Qed.

Lemma lent_utilization borrowed available :
  is_u64 available -> 0 <= borrowed <= MAX_LIQUIDITY * WAD ->
  exists u, utilization_rate (lent_liquidity borrowed available) = Ok u /\ 0 <= u <= WAD.
Proof.
  intros Ha Hb. change MAX_LIQUIDITY with 3689348814741910323 in Hb.
  apply utilization_defined; cbn; [done|unfold WAD in *; lia|].
  change dec_zero with 0. unfold in_u, WAD in *. lia.
Qed.

(** ** Tests that pass on every input *)

Lemma current_utilization_rate_passes total percent :
  0 <= total <= MAX_LIQUIDITY -> 0 <= percent <= WAD ->
  passes (current_utilization_rate_test total percent) = true.
Proof.
  intros Ht Hp. destruct (lend_Done total percent Ht Hp) as (a & Hl & Ha & Hb).
  destruct (lent_utilization (total * percent) a Ha) as (u & Hu & Hu'); [unfold WAD in *; lia|].
  unfold current_utilization_rate_test. rewrite Hl, Hu. apply assert_pass, Z.leb_le.
  change rate_one with WAD. lia.
Qed.

Lemma current_borrow_rate_passes total percent ou mu r0 r1 r2 r3 :
  0 <= total <= MAX_LIQUIDITY -> 0 <= percent <= WAD ->
  utilizations ou mu -> borrow_rates r0 r1 r2 r3 ->
  passes (current_borrow_rate_test total percent ou mu r0 r1 r2 r3) = true.
Proof.
  intros Ht Hp [Hou Hmu] (Hr01 & Hr12 & Hr3).
  destruct (lend_Done total percent Ht Hp) as (a & Hl & Ha & Hb).
  destruct (lent_utilization (total * percent) a Ha) as (u & Hu & Hu'); [unfold WAD in *; lia|].
  unfold current_borrow_rate_test. rewrite Hl. cbv zeta.
  match goal with |- context [current_borrow_rate ?r] => set (reserve := r) end.
  assert (Hty : curve_typed (config reserve)).
  { constructor; cbn; unfold in_u, u8_max, u64_max in *; lia. }
  assert (Hv : curve_valid (config reserve)) by (constructor; cbn; lia).
  pose proof (rate_curve_bounds (config reserve) u Hty Hv Hu') as (A1 & A2 & A3).
  change (liquidity reserve) with (lent_liquidity (total * percent) a) in *.
  unfold current_borrow_rate. change (liquidity reserve) with (lent_liquidity (total * percent) a).
  rewrite Hu, borrow_rate_at_eq by done. cbn [unwrap].
  set (rate := rate_curve (config reserve) u) in *. clearbody rate. cbn in A1, A2, A3.
  clear Hl Hu Hty Hv. clearbody reserve. unfold rate_from_percent, rate_from_percent_u64, PERCENT_SCALER in *.
  test_steps; lia.
Qed.

(** ** Fees *)

Section fees.
Context (fees : ReserveFees) (amount fee_wad : Z).
Context (Ha : 3 <= amount <= u64_max) (Hf : 0 <= fee_wad < WAD).
Context (Hp : 0 <= host_fee_percentage fees <= 100).

(** Without a rate there is no fee; with one below 1 the fee is defined. *)
Lemma exclusive_fee :
  exists fee host, calculate_fees fees (dec_from_u64 amount) fee_wad Exclusive = Ok (fee, host)
  /\ 0 <= host <= fee /\ fee <= amount
  /\ (fee_wad = 0 -> fee = 0 /\ host = 0)
  /\ (0 < fee_wad -> 0 < fee /\ (host = 0 <-> host_fee_percentage fees = 0)
        /\ (host_fee_percentage fees = 100 -> host = fee)).
Proof.
  destruct (Z.eq_dec fee_wad 0) as [->|Hne].
  { exists 0, 0. split; [done|]. split_and!; try done; lia. }
  unfold calculate_fees, rate_from_scaled_val. change rate_zero with 0. change dec_zero with 0.
  assert (HW : 0 < WAD) by done. unfold dec_from_u64.
  destruct (Z.gtb_spec fee_wad 0); [|lia]. destruct (Z.gtb_spec (WAD * amount) 0); [|lia]. cbn [andb].
  rewrite dec_try_mul_rate_fits by (unfold u64_max, WAD in *; nia).
  replace (WAD * amount * fee_wad) with (amount * fee_wad * WAD) by lia. rewrite Z.div_mul by done.
  set (pct := host_fee_percentage fees) in *.
  assert (Hpct : (rate_from_percent pct >? 0) = (0 <? pct)).
  { unfold rate_from_percent, PERCENT_SCALER. destruct (Z.gtb_spec (pct * 10000000000000000) 0),
      (Z.ltb_spec 0 pct); lia. }
  rewrite Hpct. set (exact := Z.max _ _).
  assert (Hex : WAD * (if 0 <? pct then 2 else 1) <= exact < WAD * amount).
  { unfold exact. destruct (0 <? pct); nia. }
  destruct (Z.geb_spec exact (WAD * amount)); [lia|].
  rewrite dec_try_round_fits by (unfold u64_max, WAD in *; destruct (0 <? pct); lia).
  assert (Hfee : 1 <= (HALF_WAD + exact) / WAD <= amount).
  { split; [apply Z.div_le_lower_bound; [done|]; unfold HALF_WAD; destruct (0 <? pct); lia|].
    apply Z.lt_succ_r, Z.div_lt_upper_bound; [done|]. unfold HALF_WAD, WAD in *. lia. }
  destruct (Z.ltb_spec 0 pct) as [Hpos|Hz].
  2: { do 2 eexists. split; [reflexivity|]. split_and!; try lia. }
  rewrite dec_try_mul_rate_fits
    by (unfold u64_max, rate_from_percent, PERCENT_SCALER, WAD in *; nia).
  pose proof (cut_bounds exact (rate_from_percent pct) ltac:(lia)
                ltac:(unfold rate_from_percent, PERCENT_SCALER, WAD; lia)) as Hcut.
  rewrite dec_try_round_fits by (unfold u64_max, WAD in *; lia).
  pose proof (host_le_fee exact pct ltac:(lia) Hp). do 2 eexists. split; [reflexivity|].
  split_and!; try lia. intros _. split; [lia|]. split; [lia|]. intros ->.
  change (rate_from_percent 100) with WAD. rewrite Z.div_mul by done. lia.
Qed.
End fees.

Lemma borrow_fee_calculation_passes fee_wad flash_fee_wad pct amount :
  0 <= fee_wad < WAD -> 0 <= pct <= 100 -> 3 <= amount <= u64_max ->
  passes (borrow_fee_calculation_test fee_wad flash_fee_wad pct amount) = true.
Proof.
  intros Hf Hp Ha. unfold borrow_fee_calculation_test, calculate_borrow_fees. cbv zeta.
  destruct (exclusive_fee (mkReserveFees fee_wad flash_fee_wad pct) amount fee_wad Ha Hf Hp)
    as (fee & host & Hfee & Hh & Hle & Hz & Hpos).
  cbn [borrow_fee_wad host_fee_percentage] in *. rewrite Hfee. cbn [unwrap].
  destruct (Z.eq_dec fee_wad 0) as [Heq|]; [destruct (Hz Heq) as [-> ->]|destruct Hpos as (? & ? & ?); [lia|]];
    test_steps; try lia.
Qed.

(** The flash-loan test asks its questions of the borrow rate although the
    fee is computed from the flash-loan rate. *)
Lemma flash_loan_fee_calculation_domain fee_wad flash_fee_wad pct amount :
  0 <= fee_wad < WAD -> 0 <= flash_fee_wad < WAD -> 0 <= pct <= 100 -> 3 <= amount <= u64_max ->
  passes (flash_loan_fee_calculation_test fee_wad flash_fee_wad pct amount)
  = (if flash_fee_wad =? 0 then fee_wad =? 0 else (pct =? 0) || negb (fee_wad =? 0)).
Proof.
  intros Hf Hff Hp Ha. unfold flash_loan_fee_calculation_test, calculate_flash_loan_fees. cbv zeta.
  destruct (exclusive_fee (mkReserveFees fee_wad flash_fee_wad pct) amount flash_fee_wad Ha Hff Hp)
    as (fee & host & Hfee & Hh & Hle & Hz & Hpos).
  cbn [flash_loan_fee_wad host_fee_percentage] in *. rewrite Hfee. unfold checked_sub.
  unfold u64_max in *. rewrite to_u_in by (unfold in_u; lia). cbn [ok_or unwrap].
  unfold debug_add, checked_add. replace (fee - host + host) with fee by lia.
  rewrite to_u_in by (unfold in_u; lia). cbn [unwrap_option].
  autorewrite with gyr. change (passes (Done tt)) with true.
  destruct (Z.eqb_spec flash_fee_wad 0) as [Heq|].
  - destruct (Hz Heq) as [-> ->]. clear -Hf Ha.
    destruct (Z.eqb_spec fee_wad 0), (Z.gtb_spec fee_wad 0), (Z.leb_spec 0 amount), (pct =? 100), (pct >? 0);
      try lia; done.
  - destruct Hpos as (Hpos & Hhost & Hfull); [lia|]. clear Hz Hfee.
    destruct (Z.leb_spec fee amount), (Z.gtb_spec fee 0), (Z.gtb_spec host 0), (Z.eqb_spec host 0),
      (Z.eqb_spec pct 0), (Z.gtb_spec pct 0), (Z.eqb_spec fee_wad 0), (Z.gtb_spec fee_wad 0),
      (Z.eqb_spec pct 100), (Z.eqb_spec (fee - host) 0); try lia; done.
Qed.

(** ** Accrual *)

(** The pool is lent out entirely at a flat rate. Interest accrues in every
    case the test asks for it, except on an empty pool, whose debt stays 0. *)
Lemma reserve_accrue_interest_domain slots borrowed rate :
  0 <= slots <= SLOTS_PER_YEAR -> 0 <= borrowed <= u64_max -> is_u8 rate ->
  passes (reserve_accrue_interest_test slots borrowed rate)
  = negb ((0 <? slots) && (0 <? rate) && (borrowed =? 0)).
Proof.
  intros Hs Hb Hr. unfold reserve_accrue_interest_test. cbv zeta.
  match goal with |- context [Reserve_accrue_interest _ ?r] => set (reserve := r) end.
  set (l := liquidity reserve).
  assert (Hm : moderate l).
  { unfold u64_max in Hb. constructor; cbn; change dec_zero with 0; unfold dec_from_u64, in_u, u64_max, WAD; lia. }
  destruct (utilization_defined l (md_available _ Hm)) as (u & Hu & Hu');
    [pose proof (md_borrowed _ Hm); unfold u64_max, WAD in *; lia|apply Hm|].
  assert (Hty : curve_typed (config reserve)) by (constructor; cbn; unfold in_u in *; lia).
  assert (Hv : curve_valid (config reserve)) by (constructor; cbn; lia).
  assert (Hrate : current_borrow_rate reserve = Ok (rate_from_percent rate)).
  { unfold current_borrow_rate. fold l. rewrite Hu, borrow_rate_at_eq by done. f_equal.
    pose proof (rate_curve_bounds (config reserve) u Hty Hv Hu') as (A1 & _ & A3).
    set (x := rate_curve (config reserve) u) in *. clearbody x. cbn in A1, A3.
    unfold rate_from_percent, rate_from_percent_u64 in *. lia. }
  destruct (compound_interest_year (rate_from_percent rate) slots 0 l) as (q & Hq & Hbase & Hzero & Hci);
    [unfold rate_from_percent, PERCENT_SCALER, u8_max, in_u in *; lia|done|by split|exact Hm|].
  cbv zeta in Hci. unfold Reserve_accrue_interest, slots_elapsed, st_bind, st_get, checked_sub.
  change (lu_slot (last_update reserve)) with 0. rewrite Z.sub_0_r.
  rewrite to_u_in by (unfold in_u, SLOTS_PER_YEAR in *; lia). cbn [ok_or].
  destruct (Z.gtb_spec slots 0) as [Hpos|Hnp].
  2: { unfold st_ret. cbn [unwrap]. rewrite andb_false_r, passes_assert.
       destruct (Z.ltb_spec 0 slots); [lia|]. apply Z.eqb_refl. }
  rewrite Hrate. unfold on_liquidity, zoom. fold l.
  change (rate_from_percent (protocol_take_rate (config reserve))) with 0. rewrite Hci. clear Hci.
  cbn [unwrap]. cbn [with_liquidity liquidity with_borrowed borrowed_amount_wads].
  change (borrowed_amount_wads l) with (WAD * borrowed). change (dec_from_u64 borrowed) with (WAD * borrowed).
  replace (WAD * borrowed * q) with (borrowed * q * WAD) by lia. rewrite Z.div_mul by done.
  rewrite andb_true_r, passes_if, !passes_assert. destruct (Z.ltb_spec 0 slots); [|lia].
  specialize (Hbase Hpos). unfold rate_from_percent, PERCENT_SCALER, SLOTS_PER_YEAR, in_u, u64_max in *.
  destruct (Z.gtb_spec rate 0), (Z.ltb_spec 0 rate); cbn [andb negb]; [|lia|lia|].
  - assert (1 <= rate * 10000000000000000 / 63072000) by (apply Z.div_le_lower_bound; lia).
    apply eq_true_iff_eq. rewrite Z.gtb_lt, negb_true_iff, Z.eqb_neq. nia.
  - assert (q = WAD) as -> by (apply Hzero; lia). apply Z.eqb_eq. lia.
Qed.

(** ** Compounding for a thousand years *)

(** The loop starts from [Reserve::default()], whose debt and borrow index
    are zero, and zero is all it ever compounds: no step fails. *)
Lemma compound_default_step rate take slots i :
  is_u8 rate -> 0 <= take <= 100 -> 0 <= slots <= SLOTS_PER_YEAR ->
  compound_step (rate_from_percent rate) (rate_from_percent take) slots i Reserve_default
  = Done Reserve_default.
Proof.
  intros Hr Ht Hs. unfold compound_step.
  destruct (compound_interest_year (rate_from_percent rate) slots (rate_from_percent take)
              (liquidity Reserve_default)) as (q & _ & _ & _ & Hci).
  - unfold rate_from_percent, PERCENT_SCALER, u8_max, in_u in *. lia.
  - exact Hs.
  - unfold rate_from_percent, PERCENT_SCALER, WAD. lia.
  - constructor; cbn; split; by vm_compute.
  - rewrite Hci. cbn [unwrap]. reflexivity.
Qed.

Lemma compound_interest_passes slots rate take :
  0 <= slots <= SLOTS_PER_YEAR -> is_u8 rate -> 0 <= take <= 100 ->
  passes (compound_interest_test slots rate take) = true.
Proof.
  intros Hs Hr Ht. unfold compound_interest_test.
  assert (forall l, for_state l (compound_step (rate_from_percent rate) (rate_from_percent take) slots)
            Reserve_default = Done Reserve_default) as Hloop.
  { induction l as [|i l IH]; cbn [for_state]; [done|]. by rewrite compound_default_step. }
  by rewrite Hloop.
Qed.

(** ** The exchange-rate test *)

(** With one token, half of it lent, rounding leaves nothing available and
    the exchange rate of the largest multiplier is 10, above the asserted 5;
    with a multiplier of 0 no collateral exists, the rate is the initial one
    before and after accrual, and the asserted decrease fails. *)
Lemma collateral_exchange_rate_fails :
  passes (collateral_exchange_rate_test 1 (WAD / 2) (5 * WAD) 1) = false
  /\ passes (collateral_exchange_rate_test 1000 (WAD / 2) 0 1) = false.
Proof. split; vm_compute; reflexivity. Qed.

(** ** The two summaries *)

(** C36: lending any part of a pool of at most a fifth of [u64::MAX], the
    utilization is at most 1 and the borrow rate between the configured
    rates of its region; the exclusive borrow fee of at least 3 units is
    defined, at most the amount, positive with a positive rate, and shared
    with the host as asserted; and compounding from the default reserve never
    fails: four of the seven property tests pass on every generated input. *)
Theorem reserve_property_tests_pass :
  (forall total percent, 0 <= total <= MAX_LIQUIDITY -> 0 <= percent <= WAD ->
     passes (current_utilization_rate_test total percent) = true)
  /\ (forall total percent ou mu r0 r1 r2 r3, 0 <= total <= MAX_LIQUIDITY -> 0 <= percent <= WAD ->
     utilizations ou mu -> borrow_rates r0 r1 r2 r3 ->
     passes (current_borrow_rate_test total percent ou mu r0 r1 r2 r3) = true)
  /\ (forall fee_wad flash_fee_wad pct amount, 0 <= fee_wad < WAD -> 0 <= pct <= 100 ->
     3 <= amount <= u64_max ->
     passes (borrow_fee_calculation_test fee_wad flash_fee_wad pct amount) = true)
  /\ (forall slots rate take, 0 <= slots <= SLOTS_PER_YEAR -> is_u8 rate -> 0 <= take <= 100 ->
     passes (compound_interest_test slots rate take) = true).
Proof.
  split_and!; intros;
    [by apply current_utilization_rate_passes|by apply current_borrow_rate_passes
    |by apply borrow_fee_calculation_passes|by apply compound_interest_passes].
Qed.

Lemma reserve_property_tests_pass_witness :
  passes (current_utilization_rate_test 1000000 (WAD / 3)) = true
  /\ passes (current_borrow_rate_test 1000000 (WAD / 3) 50 80 2 10 30 150) = true.
Proof.
  destruct reserve_property_tests_pass as (H1 & H2 & _). split.
  - apply H1; vm_compute; split; congruence.
  - apply H2; vm_compute; repeat split; congruence.
Defined.

(** The other three do not pass on all of their inputs. The accrual test
    fails exactly on an empty pool with a positive rate and elapsed time; the
    flash-loan test, which asks its questions of the borrow rate, fails
    whenever the two rates are not both zero or both positive, except that
    without a host share a flash-loan rate alone is enough; and the
    exchange-rate test fails on a pool of one token and on one without
    collateral. *)
Theorem reserve_property_tests_fail :
  (forall slots borrowed rate, 0 <= slots <= SLOTS_PER_YEAR -> 0 <= borrowed <= u64_max -> is_u8 rate ->
     passes (reserve_accrue_interest_test slots borrowed rate)
     = negb ((0 <? slots) && (0 <? rate) && (borrowed =? 0)))
  /\ (forall fee_wad flash_fee_wad pct amount, 0 <= fee_wad < WAD -> 0 <= flash_fee_wad < WAD ->
     0 <= pct <= 100 -> 3 <= amount <= u64_max ->
     passes (flash_loan_fee_calculation_test fee_wad flash_fee_wad pct amount)
     = (if flash_fee_wad =? 0 then fee_wad =? 0 else (pct =? 0) || negb (fee_wad =? 0)))
  /\ passes (collateral_exchange_rate_test 1 (WAD / 2) (5 * WAD) 1) = false
  /\ passes (collateral_exchange_rate_test 1000 (WAD / 2) 0 1) = false.
Proof.
  split; [intros; by apply reserve_accrue_interest_domain|].
  split; [intros; by apply flash_loan_fee_calculation_domain|apply collateral_exchange_rate_fails].
Qed.
