(* ===== verification/SolendObligationTests.v ===== *)
(** * The tests of obligation.rs. *)

From Stdlib Require Import ZArith Lia.
From stdpp Require Import base option list.
From S2P Require Import Prelude StateErr Harness CoreTypes SolendMath SolendState SolendReserve SolendOps SolendGrowth SolendObligation SolendReserveTests.

Open Scope rust_scope.

#[global] Instance ObligationCollateral_eq_dec : EqDecision ObligationCollateral.
Proof. solve_decision. Defined.
#[global] Instance ObligationLiquidity_eq_dec : EqDecision ObligationLiquidity.
Proof. solve_decision. Defined.
#[global] Instance Obligation_eq_dec : EqDecision Obligation.
Proof. solve_decision. Defined.

Definition ObligationCollateral_default : ObligationCollateral :=
  mkObligationCollateral default_pubkey 0 dec_zero dec_zero.
Definition ObligationLiquidity_default : ObligationLiquidity :=
  mkObligationLiquidity default_pubkey dec_zero dec_zero dec_zero.

Definition MAX_COMPOUNDED_INTEREST : Z := 100.
Definition MAX_BORROWED : Z := u64_max * WAD.

(* ------------------------------------------------------------------ *)
(** ** Unit tests *)

Definition obligation_accrue_interest_failure : test :=
  let case l rate e :=
    assert_eq (ObligationLiquidity_accrue_interest rate l).2 (Err (Custom e)) in
  let d := ObligationLiquidity_default in
  do! case (d <| ol_cumulative_borrow_rate_wads := dec_zero |>) dec_one MathOverflow in
  do! case (d <| ol_cumulative_borrow_rate_wads := dec_from_u64 2 |>) dec_one NegativeInterestRate in
  case (d <| ol_cumulative_borrow_rate_wads := dec_one |>
          <| ol_borrowed_amount_wads := dec_from_u64 u64_max |>)
    (dec_from_u64 (10 * MAX_COMPOUNDED_INTEREST)) MathOverflow.

(** The three [max_liquidation_amount] tests differ in the debt, the values
    and the expected amount. *)
Definition max_liquidation_amount_case (borrowed market_value value : Z) (expected : Decimal) : test :=
  let liquidity := ObligationLiquidity_default
    <| ol_borrowed_amount_wads := dec_from_u64 borrowed |>
    <| ol_market_value := dec_from_u64 market_value |> in
  let obligation := Obligation_default
    <| ob_deposited_value := dec_from_u64 value |>
    <| ob_borrowed_value := dec_from_u64 value |>
    <| ob_borrows := [liquidity] |> in
  let! amount := unwrap (max_liquidation_amount liquidity obligation) in
  assert_eq amount expected.

Definition max_liquidation_amount_normal : test :=
  let! x := unwrap (dec_try_mul (dec_from_u64 50) (dec_from_u64 LIQUIDATION_CLOSE_FACTOR)) in
  let! expected_collateral := unwrap (dec_try_div_u64 x 100) in
  max_liquidation_amount_case 50 100 100 expected_collateral.
Definition max_liquidation_amount_low_liquidity : test :=
  max_liquidation_amount_case 100 1 100 (dec_from_u64 100).
Definition max_liquidation_amount_big_whale : test :=
  max_liquidation_amount_case 1000000000 1000000000 1000000000
    (dec_from_u64 MAX_LIQUIDATABLE_VALUE_AT_ONCE).

(** ** The withdrawal table *)

Record MaxWithdrawAmountTestCase := mkMaxWithdrawCase {
  mwt_obligation : Obligation;
  mwt_reserve : Reserve;
  mwt_expected_max_withdraw_amount : Z
}.

Definition deposit_of (amount : Z) : list ObligationCollateral :=
  [ObligationCollateral_default <| oc_deposited_amount := amount |>].
Definition borrow_of_ten : list ObligationLiquidity :=
  [ObligationLiquidity_default <| ol_borrowed_amount_wads := dec_from_u64 10 |>].
Definition half_ltv : Reserve :=
  Reserve_default <| config := ReserveConfig_default <| loan_to_value_ratio := 50 |> |>.
Definition priced_reserve (market smoothed : Z) (extra : option Decimal) : Reserve :=
  half_ltv
    <| liquidity := ReserveLiquidity_default
         <| available_amount := 100 * LAMPORTS_PER_SOL |>
         <| borrowed_amount_wads := dec_zero |>
         <| market_price := dec_from_u64 market |>
         <| smoothed_market_price := dec_from_u64 smoothed |>
         <| extra_market_price := extra |>
         <| mint_decimals := 9 |> |>
    <| collateral := ReserveCollateral_default <| mint_total_supply := 50 * LAMPORTS_PER_SOL |> |>.

Definition max_withdraw_amount_test_cases : list MaxWithdrawAmountTestCase :=
  let d := dec_from_u64 in
  let sol := LAMPORTS_PER_SOL in
  let position deposit borrows allowed upper := Obligation_default
    <| ob_deposits := deposit_of deposit |> <| ob_borrows := borrows |>
    <| ob_allowed_borrow_value := d allowed |> <| ob_borrowed_value_upper_bound := upper |> in
  [mkMaxWithdrawCase
     ((position (20 * sol) borrow_of_ten 50 (d 50)) <| ob_deposited_value := d 100 |>) half_ltv 0;
   mkMaxWithdrawCase (position (20 * sol) borrow_of_ten 100 (d 50)) (priced_reserve 10 5 None)
     (10 * sol);
   mkMaxWithdrawCase (position (20 * sol) borrow_of_ten 100 (d 50))
     (priced_reserve 10 10 (Some (d 5))) (10 * sol);
   mkMaxWithdrawCase (position (2 * sol) borrow_of_ten 100 (d 50)) (priced_reserve 10 5 None)
     (2 * sol);
   mkMaxWithdrawCase (position (100 * sol) [] 100 dec_zero) half_ltv (100 * sol);
   mkMaxWithdrawCase (position (100 * sol) borrow_of_ten 100 (d 50)) Reserve_default (100 * sol);
   mkMaxWithdrawCase (position (100 * sol) borrow_of_ten 100 (d 100)) Reserve_default 0].

Definition max_withdraw_amount_test (test_case : MaxWithdrawAmountTestCase) : test :=
  let! deposit := unwrap_option (ob_deposits (mwt_obligation test_case) !! 0%nat) in
  let! amount := unwrap (max_withdraw_amount deposit (mwt_reserve test_case) (mwt_obligation test_case)) in
  assert_eq amount (mwt_expected_max_withdraw_amount test_case).

Definition obligation_unit_tests : list test :=
  [obligation_accrue_interest_failure; max_liquidation_amount_normal;
   max_liquidation_amount_low_liquidity; max_liquidation_amount_big_whale;
   for_each max_withdraw_amount_test_cases max_withdraw_amount_test].

(** Every unit test and every row of the test table of obligation.rs passes. *)
Lemma obligation_unit_tests_pass : forallb passes obligation_unit_tests = true.
Proof. vm_compute. reflexivity. Qed.

(* ------------------------------------------------------------------ *)
(** ** Property tests *)

(** What the strategies produce. *)
Definition cumulative_rates (rate max_new_rate : Z) : Prop :=
  1 <= rate <= u128_max /\ rate <= max_new_rate <= sat_mul 128 rate MAX_COMPOUNDED_INTEREST.
Definition repay_partial_amounts (repay_amount borrowed_amount : Z) : Prop :=
  exists amount, 1 <= amount <= u64_max /\ repay_amount = WAD * amount
  /\ WAD * amount + 1 <= borrowed_amount <= MAX_BORROWED.
Definition repay_full_amounts (repay_amount borrowed_amount : Z) : Prop :=
  exists amount, 1 <= amount <= u64_max /\ repay_amount = WAD * amount /\ borrowed_amount = repay_amount.

Definition obligation_owing (borrowed : Decimal) : Obligation :=
  Obligation_default
    <| ob_borrows := [ObligationLiquidity_default <| ol_borrowed_amount_wads := borrowed |>] |>.

Definition repay_partial_test (repay_amount borrowed_amount : Z) : test :=
  let borrowed := dec_from_scaled_val borrowed_amount in
  let! (obligation, res) :=
    Obligation_repay (dec_from_scaled_val repay_amount) 0 (obligation_owing borrowed) in
  let! _ := unwrap res in
  let! liquidity := unwrap_option (ob_borrows obligation !! 0%nat) in
  do! assert (ol_borrowed_amount_wads liquidity <? borrowed) in
  assert (ol_borrowed_amount_wads liquidity >? dec_zero).

Definition repay_full_test (repay_amount borrowed_amount : Z) : test :=
  let! (obligation, res) := Obligation_repay (dec_from_scaled_val repay_amount) 0
    (obligation_owing (dec_from_scaled_val borrowed_amount)) in
  let! _ := unwrap res in
  assert_eq (length (ob_borrows obligation)) 0%nat.

Definition accrue_interest_test (current_borrow_rate new_borrow_rate borrowed_amount : Z) : test :=
  let! cumulative := unwrap (dec_try_add dec_one (dec_from_scaled_val current_borrow_rate)) in
  let borrowed := dec_from_u64 borrowed_amount in
  let liquidity := ObligationLiquidity_default
    <| ol_cumulative_borrow_rate_wads := cumulative |> <| ol_borrowed_amount_wads := borrowed |> in
  let! next := unwrap (dec_try_add dec_one (dec_from_scaled_val new_borrow_rate)) in
  let (liquidity, res) := ObligationLiquidity_accrue_interest next liquidity in
  let! _ := unwrap res in
  if next >? cumulative then assert (ol_borrowed_amount_wads liquidity >? borrowed)
  else assert (ol_borrowed_amount_wads liquidity =? borrowed).

Lemma repay_partial_passes repay borrowed :
  repay_partial_amounts repay borrowed -> passes (repay_partial_test repay borrowed) = true.
Proof.
  intros (amount & Ha & -> & Hb). unfold repay_partial_test, Obligation_repay, dec_from_scaled_val.
  cbn. assert (0 < WAD) by done. unfold MAX_BORROWED, u64_max in *.
  destruct (Z.eqb_spec (WAD * amount) borrowed); [lia|].
  rewrite dec_try_sub_fits by (unfold WAD in *; lia). cbn. change dec_zero with 0.
  test_steps; lia.
Qed.

Lemma repay_full_passes repay borrowed :
  repay_full_amounts repay borrowed -> passes (repay_full_test repay borrowed) = true.
Proof.
  intros (amount & Ha & -> & ->). unfold repay_full_test, Obligation_repay, dec_from_scaled_val. cbn.
  by rewrite Z.eqb_refl.
Qed.

(** The debt only grows when it is positive and the two indices differ by
    more than the rounding of their quotient. *)
Lemma accrue_interest_domain rate new_rate borrowed :
  cumulative_rates rate new_rate -> 0 <= borrowed <= u64_max ->
  passes (accrue_interest_test rate new_rate borrowed)
  = ((new_rate =? rate) || ((0 <? borrowed) && (WAD + rate <=? (new_rate - rate) * WAD))).
Proof.
  intros [Hr Hn] Hb. unfold sat_mul, MAX_COMPOUNDED_INTEREST, u128_max, u64_max in *.
  unfold accrue_interest_test, dec_from_scaled_val. change dec_one with WAD.
  rewrite !dec_try_add_fits by (unfold WAD; lia). cbn [unwrap]. unfold dec_from_u64.
  unfold ObligationLiquidity_accrue_interest. cbn.
  destruct (Z.compare_spec (WAD + new_rate) (WAD + rate)) as [Heq|Hlt|Hgt]; [| lia |].
  { assert (new_rate = rate) as -> by lia. rewrite Z.eqb_refl. cbn.
    destruct (Z.gtb_spec (WAD + rate) (WAD + rate)); [lia|]. by rewrite passes_assert, Z.eqb_refl. }
  unfold st_bind, st_get, st_set. cbn. assert (0 < WAD) by done.
  rewrite dec_try_div_fits by (unfold WAD in *; lia).
  set (q := (WAD + new_rate) * WAD / (WAD + rate)).
  assert (Hq : WAD <= q <= 100 * WAD).
  { split; [apply Z.div_le_lower_bound; nia|apply Z.div_le_upper_bound; nia]. }
  assert (Hfrom : rate_try_from q = Ok q) by (apply rate_try_from_Ok; split; [done|unfold in_u, WAD in *; lia]).
  rewrite Hfrom, dec_try_mul_rate_fits by (unfold WAD in *; nia). cbn.
  replace (WAD * borrowed * q) with (borrowed * q * WAD) by lia. rewrite Z.div_mul by done.
  destruct (Z.gtb_spec (WAD + new_rate) (WAD + rate)); [|lia]. rewrite passes_assert.
  destruct (Z.eqb_spec new_rate rate); [lia|]. cbn [orb].
  assert (Hstrict : WAD < q <-> WAD + rate <= (new_rate - rate) * WAD).
  { unfold q. rewrite <- Z.le_succ_l. unfold Z.succ. split; intros HH.
    - pose proof (Z.mul_div_le ((WAD + new_rate) * WAD) (WAD + rate) ltac:(lia)). nia.
    - apply Z.div_le_lower_bound; nia. }
  apply eq_true_iff_eq. rewrite Z.gtb_lt, andb_true_iff, Z.ltb_lt, Z.leb_le, <- Hstrict. nia.
Qed.

(** C37: repaying less than the debt leaves a smaller positive debt, and repaying
    it all removes the entry, on every generated pair of amounts. The accrual
    test only passes when the index is unchanged, or when the debt is positive
    and the index grows by at least one part in 10^18: a smaller growth is
    rounded away although the test asserts that the debt increases. *)
Theorem obligation_property_tests :
  (forall repay borrowed, repay_partial_amounts repay borrowed ->
     passes (repay_partial_test repay borrowed) = true)
  /\ (forall repay borrowed, repay_full_amounts repay borrowed ->
     passes (repay_full_test repay borrowed) = true)
  /\ (forall rate new_rate borrowed, cumulative_rates rate new_rate -> 0 <= borrowed <= u64_max ->
     passes (accrue_interest_test rate new_rate borrowed)
     = ((new_rate =? rate) || ((0 <? borrowed) && (WAD + rate <=? (new_rate - rate) * WAD)))).
Proof.
  split_and!; intros; [by apply repay_partial_passes|by apply repay_full_passes|by apply accrue_interest_domain].
Qed.

Lemma obligation_property_tests_witness :
  passes (repay_partial_test (500 * WAD) (1000 * WAD)) = true
  /\ passes (accrue_interest_test WAD (WAD + 1) 1000) = false.
Proof.
  destruct obligation_property_tests as (H1 & _ & H3). split.
  - apply H1. exists 500. split_and!; vm_compute; congruence.
  - rewrite H3; [vm_compute; reflexivity|split_and!; vm_compute; congruence|split; vm_compute; congruence].
Defined.
