(* ===== verification/Router.v ===== *)
(** * crates/router/src/lib.rs: the flash-source router.

    The reserve table is a finite map; [HashMap] iterates in an unspecified
    order, so the operations that iterate take the order as a function
    [iter] with [iter m ≡ₚ map_to_list m], and the theorems hold for every
    such order. The Kamino account decoder and its fixed-point type belong
    to the klend crate and are parameters; the Save decoder is the one of
    [SolendReserve]. *)

From Stdlib Require Import ZArith Lia Sorted.
From stdpp Require Import base gmap list option sorting.
From S2P Require Import Prelude Lists F64 CoreTypes SolendMath SolendState SolendReserve.

Open Scope rust_scope.

(** ** Fees *)

(** [u64::MAX] marks a Kamino reserve's flash loan as disabled. *)
Definition KAMINO_FLASH_LOAN_DISABLED : Z := u64_max.

Definition f64_10_000 : f64 := f64_of_Z 10000.

(** [save_fee_bps_from_wad]. *)
Definition save_fee_bps_from_wad (flash_loan_fee_wad : Z) : Z :=
  let rate := (f64_of_Z flash_loan_fee_wad / f64_of_Z (10 ^ 18))%f64 in
  f64_to_u 32 (f64_round (rate * f64_10_000)%f64).

Inductive FlashProvider := FPKamino | FPSolend.
#[global] Instance FlashProvider_eq_dec : EqDecision FlashProvider.
Proof. solve_decision. Defined.

Record ReserveInfo := mkReserveInfo {
  ri_provider : FlashProvider;
  ri_mint : Pubkey;
  ri_available_liquidity : Z;
  ri_fee_bps : option Z
}.

Record MultiSourceRouter := mkMultiSourceRouter {
  reserves : gmap Pubkey ReserveInfo;
  save_live_verified : bool
}.

Definition MultiSourceRouter_new : MultiSourceRouter := mkMultiSourceRouter ∅ false.

Definition add_reserve (reserve : Pubkey) (provider : FlashProvider) (mint : Pubkey)
    (available_liquidity : Z) (fee_bps : option Z) (r : MultiSourceRouter) : MultiSourceRouter :=
  mkMultiSourceRouter
    (<[reserve := mkReserveInfo provider mint available_liquidity fee_bps]> (reserves r))
    (save_live_verified r).

Definition set_save_live_verified (verified : bool) (r : MultiSourceRouter) : MultiSourceRouter :=
  mkMultiSourceRouter (reserves r) verified.

Definition is_save_live_verified (r : MultiSourceRouter) : bool := save_live_verified r.

Definition tracked_reserve_count (r : MultiSourceRouter) : Z := Z.of_nat (size (reserves r)).

(** [observe_save_account]: [Err] is a no-op, a panic of the decoder is a
    panic of the caller. *)
Definition observe_save_account (pubkey : Pubkey) (data : list Z) (r : MultiSourceRouter)
    : panicking MultiSourceRouter :=
  let! res := Reserve_unpack data in
  match res with
  | Err _ => Done r
  | Ok reserve =>
      Done (mkMultiSourceRouter
        (<[pubkey := mkReserveInfo FPSolend (liq_mint_pubkey (liquidity reserve))
             (available_amount (liquidity reserve))
             (Some (save_fee_bps_from_wad (flash_loan_fee_wad (rcfg_fees (config reserve)))))]>
           (reserves r))
        (save_live_verified r))
  end.

Section kamino.
(** klend: the fixed-point type's conversion, the reserve discriminator, and
    the decoder with the three values the router reads from a reserve. *)
Context (fraction_bits_to_f64 : Z -> f64) (KaminoReserve_discriminator : list Z).
Record KaminoReserveView := mkKaminoReserveView {
  kr_mint : Pubkey;
  kr_available_liquidity : Z;
  kr_flash_loan_fee_sf : Z
}.
Context (kamino_from_account_data : list Z -> option KaminoReserveView).

Definition kamino_fee_bps_from_sf (flash_loan_fee_sf : Z) : option Z :=
  if flash_loan_fee_sf =? KAMINO_FLASH_LOAN_DISABLED then None
  else
    let rate := fraction_bits_to_f64 flash_loan_fee_sf in
    Some (f64_to_u 32 (f64_round (rate * f64_10_000)%f64)).

Definition observe_kamino_account (pubkey : Pubkey) (data : list Z) (r : MultiSourceRouter)
    : MultiSourceRouter :=
  if (length data <? 8)%nat || negb (bool_decide (take 8 data = KaminoReserve_discriminator))
  then r
  else
    match kamino_from_account_data data with
    | None => r
    | Some reserve =>
        mkMultiSourceRouter
          (<[pubkey := mkReserveInfo FPKamino (kr_mint reserve) (kr_available_liquidity reserve)
               (kamino_fee_bps_from_sf (kr_flash_loan_fee_sf reserve))]> (reserves r))
          (save_live_verified r)
    end.
End kamino.

(** ** Ranking *)

Section ranking.
Context (iter : gmap Pubkey ReserveInfo -> list (Pubkey * ReserveInfo)).

(** [rank_all_sources]: no Save gating. The comparator looks the depth up
    again in the table. *)
Definition source_of (fee : Z) (k : Pubkey) : FlashSource := mkFlashSource Kamino k fee.

Definition depth_of (r : MultiSourceRouter) (k : Pubkey) : Z :=
  default 0 (ri_available_liquidity <$> reserves r !! k).

Definition rank_cmp (r : MultiSourceRouter) (a b : FlashSource) : comparison :=
  then_cmp (fs_fee_bps a ?= fs_fee_bps b)
           (depth_of r (fs_reserve b) ?= depth_of r (fs_reserve a)).

Definition rank_candidates (r : MultiSourceRouter) (mint : Pubkey) (amount : Z)
    : list FlashSource :=
  omap (fun '(k, info) => (fun fee => source_of fee k) <$> ri_fee_bps info)
    (filter (fun p => amount <= ri_available_liquidity p.2)
      (filter (fun p => ri_mint p.2 = mint) (iter (reserves r)))).

Definition rank_all_sources (r : MultiSourceRouter) (mint : Pubkey) (amount : Z)
    : list FlashSource :=
  sort_by (rank_cmp r) (rank_candidates r mint amount).

(** [FlashSourceRouter::route]. *)
Definition provider_cmp (a b : FlashProvider) : comparison :=
  match a, b with
  | FPKamino, FPSolend => Lt
  | FPSolend, FPKamino => Gt
  | _, _ => Eq
  end.

Definition route_cmp (a b : Pubkey * ReserveInfo * Z) : comparison :=
  then_cmp (a.2 ?= b.2)
    (then_cmp (provider_cmp (ri_provider a.1.2) (ri_provider b.1.2))
       (ri_available_liquidity b.1.2 ?= ri_available_liquidity a.1.2)).

Definition route_candidates (r : MultiSourceRouter) (mint : Pubkey) (amount : Z)
    : list (Pubkey * ReserveInfo * Z) :=
  omap (fun '(k, info) => (fun fee => (k, info, fee)) <$> ri_fee_bps info)
    (filter (fun p => ri_provider p.2 <> FPSolend \/ save_live_verified r = true)
      (filter (fun p => amount <= ri_available_liquidity p.2)
        (filter (fun p => ri_mint p.2 = mint) (iter (reserves r))))).

Definition MultiSourceRouter_route (r : MultiSourceRouter) (mint : Pubkey) (amount : Z)
    : option FlashSource :=
  (fun '(k, _, fee) => source_of fee k) <$> min_by route_cmp (route_candidates r mint amount).

#[global] Instance MultiSourceRouter_is_router : FlashSourceRouter MultiSourceRouter :=
  {| route := MultiSourceRouter_route |}.
End ranking.

(* ------------------------------------------------------------------ *)
(** ** Specification *)

(** A reserve that may serve the loan. *)
Definition eligible (r : MultiSourceRouter) (mint : Pubkey) (amount : Z)
    (k : Pubkey) (info : ReserveInfo) (fee : Z) : Prop :=
  reserves r !! k = Some info /\ ri_mint info = mint /\ amount <= ri_available_liquidity info
  /\ (ri_provider info <> FPSolend \/ save_live_verified r = true) /\ ri_fee_bps info = Some fee.

(** [(fee, info)] is at least as good as [(fee', info')]: cheaper, or as cheap
    and primary, or as cheap, of the same provider and at least as deep. *)
Definition at_least_as_good (fee : Z) (info : ReserveInfo) (fee' : Z) (info' : ReserveInfo) : Prop :=
  fee < fee'
  \/ fee = fee' /\ (provider_cmp (ri_provider info) (ri_provider info') = Lt
     \/ ri_provider info = ri_provider info'
        /\ ri_available_liquidity info' <= ri_available_liquidity info).

Lemma route_cmp_le a b :
  cmp_le route_cmp a b <-> at_least_as_good a.2 a.1.2 b.2 b.1.2.
Proof.
  unfold cmp_le, route_cmp, at_least_as_good. destruct a as [[ka ia] fa], b as [[kb ib] fb]; cbn.
  destruct (Z.compare_spec fa fb); cbn; [|split; [by left|done]|split; [done|lia]].
  destruct (ri_provider ia), (ri_provider ib); cbn;
    try (destruct (Z.compare_spec (ri_available_liquidity ib) (ri_available_liquidity ia)); cbn);
    split; intros Hc; try done; try (right; split; [done|]; (by left) || (right; split; [done|lia]));
    destruct Hc as [?|[_ [?|[? ?]]]]; try done; lia.
Qed.

Lemma route_cmp_preorder : cmp_preorder (fun _ => True) route_cmp.
Proof.
  split.
  - intros [[ka ia] fa] [[kb ib] fb] _ _. unfold route_cmp; cbn.
    apply then_cmp_flip; [apply Z.compare_antisym|].
    apply then_cmp_flip; [by destruct (ri_provider ia), (ri_provider ib)|apply Z.compare_antisym].
  - intros a b c _ _ _ Hab Hbc.
    apply (route_cmp_le a b) in Hab. apply (route_cmp_le b c) in Hbc. apply (route_cmp_le a c).
    unfold at_least_as_good in *. destruct a as [[ka ia] fa], b as [[kb ib] fb], c as [[kc ic] fc];
      cbn in *.
    destruct Hab as [?|[-> Hab]], Hbc as [?|[-> Hbc]]; try (left; lia). right. split; [done|].
    destruct (ri_provider ia), (ri_provider ib), (ri_provider ic); cbn in *;
      destruct Hab as [?|[? ?]], Hbc as [?|[? ?]]; try done; try (by left);
      right; (split; [done|lia]).
Qed.

Section properties.
Context (iter : gmap Pubkey ReserveInfo -> list (Pubkey * ReserveInfo)).
Context (Hiter : forall m, iter m ≡ₚ map_to_list m).

Lemma elem_of_iter m k info : (k, info) ∈ iter m <-> m !! k = Some info.
Proof. rewrite Hiter. apply elem_of_map_to_list. Qed.

Lemma elem_of_route_candidates r mint amount k info fee :
  (k, info, fee) ∈ route_candidates iter r mint amount <-> eligible r mint amount k info fee.
Proof.
  unfold route_candidates, eligible. rewrite list_elem_of_omap. split.
  - intros ([k' info'] & Hin & Hf). rewrite !list_elem_of_filter in Hin.
    destruct (ri_fee_bps info') eqn:Ef; [|done]. injection Hf as -> -> ->.
    destruct Hin as (? & ? & ? & ?%elem_of_iter). done.
  - intros (Hk & Hm & Ha & Hp & Hf). exists (k, info). rewrite Hf. split; [|done].
    rewrite !list_elem_of_filter. split_and!; try done. by apply elem_of_iter.
Qed.

Lemma route_min r mint amount fs :
  MultiSourceRouter_route iter r mint amount = Some fs ->
  exists info, eligible r mint amount (fs_reserve fs) info (fs_fee_bps fs)
    /\ fs_protocol fs = Kamino
    /\ forall k' info' fee', eligible r mint amount k' info' fee' ->
       at_least_as_good (fs_fee_bps fs) info fee' info'.
Proof.
  unfold MultiSourceRouter_route. intros H.
  destruct (min_by route_cmp _) as [[[k info] fee]|] eqn:Hmin; [|done]. injection H as <-.
  apply (min_by_Some route_cmp route_cmp_preorder) in Hmin as [Hin Hle];
    [|by apply list.Forall_forall].
  exists info. apply elem_of_route_candidates in Hin. split_and!; [done|done|].
  intros k' info' fee' He. rewrite list.Forall_forall in Hle.
  apply (route_cmp_le (k, info, fee) (k', info', fee')). apply Hle.
  by apply elem_of_route_candidates.
Qed.

(** C7: a routed source is an observed, enabled, ungated reserve of the mint
    deep enough for the loan, at its observed fee, and no other eligible
    reserve is cheaper, or equally cheap with a better provider or more
    depth. *)
Theorem route_optimal r mint amount fs :
  MultiSourceRouter_route iter r mint amount = Some fs ->
  exists info, eligible r mint amount (fs_reserve fs) info (fs_fee_bps fs)
    /\ fs_protocol fs = Kamino
    /\ forall k' info' fee', eligible r mint amount k' info' fee' ->
       at_least_as_good (fs_fee_bps fs) info fee' info'.
Proof. apply route_min. Qed.

(** The router answers [None] exactly when no reserve is eligible; in
    particular a mint served only by unverified Save reserves is never
    routed. *)
Theorem route_complete r mint amount :
  (MultiSourceRouter_route iter r mint amount = None <->
     forall k info fee, ~ eligible r mint amount k info fee)
  /\ (save_live_verified r = false ->
      (forall k info, reserves r !! k = Some info -> ri_mint info = mint ->
         ri_provider info = FPSolend) ->
      MultiSourceRouter_route iter r mint amount = None).
Proof.
  assert (Hnone : MultiSourceRouter_route iter r mint amount = None <->
            forall k info fee, ~ eligible r mint amount k info fee).
  { unfold MultiSourceRouter_route. rewrite fmap_None, min_by_None. split.
    - intros Hnil k info fee He. apply elem_of_route_candidates in He. rewrite Hnil in He.
      set_solver.
    - intros H. destruct (route_candidates iter r mint amount) as [|[[k info] fee] l] eqn:E; [done|].
      exfalso. apply (H k info fee). apply elem_of_route_candidates. rewrite E. set_solver. }
  split; [done|]. intros Hv Hall. apply Hnone. intros k info fee (Hk & Hm & _ & Hp & _).
  specialize (Hall k info Hk Hm). rewrite Hv in Hp. naive_solver.
Qed.
End properties.

(** Which reserve wins may depend on the table's iteration order, but its
    fee, provider and depth do not. *)
Theorem route_order_independent iter iter' r mint amount fs fs' :
  (forall m, iter m ≡ₚ map_to_list m) -> (forall m, iter' m ≡ₚ map_to_list m) ->
  MultiSourceRouter_route iter r mint amount = Some fs ->
  MultiSourceRouter_route iter' r mint amount = Some fs' ->
  fs_fee_bps fs = fs_fee_bps fs'
  /\ exists info info', reserves r !! fs_reserve fs = Some info
     /\ reserves r !! fs_reserve fs' = Some info'
     /\ ri_provider info = ri_provider info'
     /\ ri_available_liquidity info = ri_available_liquidity info'.
Proof.
  intros Hi Hi' H H'.
  destruct (route_min iter Hi _ _ _ _ H) as (info & He & _ & Hbest).
  destruct (route_min iter' Hi' _ _ _ _ H') as (info' & He' & _ & Hbest').
  specialize (Hbest _ _ _ He'). specialize (Hbest' _ _ _ He).
  unfold at_least_as_good in *. split; [lia|]. exists info, info'.
  destruct He as [? _], He' as [? _]. split_and!; try done.
  - destruct (ri_provider info), (ri_provider info'); cbn in *; try done;
      naive_solver lia.
  - destruct (ri_provider info), (ri_provider info'); cbn in *; naive_solver lia.
Qed.

(** ** Ungated ranking and its relation to live routing *)

Section rank.
Context (iter : gmap Pubkey ReserveInfo -> list (Pubkey * ReserveInfo)).
Context (Hiter : forall m, iter m ≡ₚ map_to_list m).

Lemma rank_cmp_preorder r : cmp_preorder (fun _ => True) (rank_cmp r).
Proof.
  split.
  - intros a b _ _. unfold rank_cmp.
    apply then_cmp_flip; apply Z.compare_antisym.
  - intros a b c _ _ _. unfold rank_cmp.
    repeat match goal with |- context [?x ?= ?y] => destruct (Z.compare_spec x y) end;
      cbn; intros; try done; lia.
Qed.

Lemma elem_of_rank r mint amount fs :
  fs ∈ rank_all_sources iter r mint amount <->
  exists info, reserves r !! fs_reserve fs = Some info /\ ri_mint info = mint
    /\ amount <= ri_available_liquidity info /\ ri_fee_bps info = Some (fs_fee_bps fs)
    /\ fs_protocol fs = Kamino.
Proof.
  unfold rank_all_sources. rewrite sort_by_perm. unfold rank_candidates.
  rewrite list_elem_of_omap. split.
  - intros ([k info] & Hin & Hf). rewrite !list_elem_of_filter in Hin.
    destruct (ri_fee_bps info) eqn:Ef; [|done]. injection Hf as <-. cbn.
    destruct Hin as (? & ? & ?%(elem_of_iter iter Hiter)). by exists info.
  - intros (info & Hk & Hm & Ha & Hf & Hp).
    destruct fs as [[] k fee]. cbn in *. exists (k, info). rewrite Hf. split; [|done].
    rewrite !list_elem_of_filter. split_and!; try done. by apply (elem_of_iter iter Hiter).
Qed.

(** The telemetry ranking lists exactly the observed, enabled, deep enough
    reserves of the mint, verified or not, cheapest first and deepest first
    among equal fees; its head is never dearer than the live route. *)
Theorem rank_all_sources_spec r mint amount :
  (forall fs, fs ∈ rank_all_sources iter r mint amount <->
     exists info, reserves r !! fs_reserve fs = Some info /\ ri_mint info = mint
       /\ amount <= ri_available_liquidity info /\ ri_fee_bps info = Some (fs_fee_bps fs)
       /\ fs_protocol fs = Kamino)
  /\ StronglySorted (fun a b => fs_fee_bps a < fs_fee_bps b
       \/ fs_fee_bps a = fs_fee_bps b /\ depth_of r (fs_reserve b) <= depth_of r (fs_reserve a))
       (rank_all_sources iter r mint amount)
  /\ (forall fs, MultiSourceRouter_route iter r mint amount = Some fs ->
      exists best, head (rank_all_sources iter r mint amount) = Some best
        /\ fs_fee_bps best <= fs_fee_bps fs).
Proof.
  assert (Hsort : StronglySorted (fun a b => fs_fee_bps a < fs_fee_bps b
       \/ fs_fee_bps a = fs_fee_bps b /\ depth_of r (fs_reserve b) <= depth_of r (fs_reserve a))
       (rank_all_sources iter r mint amount)).
  { eapply sorted_impl; [|apply (sort_by_sorted _ (rank_cmp_preorder r))];
      [|by apply list.Forall_forall].
    intros a b. unfold cmp_le, rank_cmp.
    repeat match goal with |- context [?x ?= ?y] => destruct (Z.compare_spec x y) end;
      cbn; intros; try done; lia. }
  split_and!; [apply elem_of_rank|done|].
  intros fs H. destruct (route_min iter Hiter _ _ _ _ H) as (info & (Hk & Hm & Ha & _ & Hf) & Hp & _).
  assert (Hin : fs ∈ rank_all_sources iter r mint amount)
    by (apply elem_of_rank; by exists info).
  destruct (rank_all_sources iter r mint amount) as [|best l]; [set_solver|].
  exists best. split; [done|]. inversion_clear Hsort as [|? ? _ Hall].
  apply elem_of_cons in Hin as [->|Hin]; [lia|].
  rewrite list.Forall_forall in Hall. destruct (Hall _ Hin); lia.
Qed.
End rank.

(** Feeding an account of the Save program to the router panics when it is
    shorter than a reserve record, or is record-sized with valid header and
    flags and an unknown asset type; any other account either changes nothing
    or records the mint, depth and flash fee read at their fixed offsets. *)
Theorem observe_save_outcome pubkey data r :
  Forall is_u8 data ->
  (observe_save_account pubkey data r = Panic <->
     (length data < RESERVE_LEN)%nat
     \/ (version_byte data <= PROGRAM_VERSION /\ stale_byte data <= 1
         /\ extra_flag_byte data <= 1 /\ 1 < asset_type_byte data))
  /\ forall r', observe_save_account pubkey data r = Done r' ->
     r' = r
     \/ r' = add_reserve pubkey FPSolend (mkPubkey (take 32 (drop 42 data)))
              (from_le_bytes (take 8 (drop 171 data)))
              (Some (save_fee_bps_from_wad (from_le_bytes (take 8 (drop 314 data))))) r.
Proof.
  intros Hb. unfold observe_save_account.
  destruct (Nat.lt_ge_cases (length data) RESERVE_LEN) as [Hs|Hl].
  { rewrite Reserve_unpack_short by done. split; [|done]. split; [by left|done]. }
  destruct (Reserve_unpack_cases data Hb Hl)
    as [[? ->]|[(? & ? & ->)|[(? & ? & ? & ? & ->)|(? & ? & ? & ? & x & -> & _ & Hm & Ha & Hf)]]].
  - split; [split; [done|lia]|]. intros r' [= <-]. by left.
  - split; [split; [done|lia]|]. intros r' [= <-]. by left.
  - split; [|done]. split; [by right|done].
  - split; [split; [done|lia]|]. intros r' [= <-]. right. by rewrite Hm, Ha, Hf.
Qed.

(* ------------------------------------------------------------------ *)
(** ** Witnesses: a Save reserve at 3 bps, two Kamino reserves at 10 bps *)

Definition rkey (b : Z) : Pubkey := sample_key b.
Definition sample_router (verified : bool) : MultiSourceRouter :=
  set_save_live_verified verified
    (add_reserve (rkey 3) FPKamino (rkey 9) 2000 (Some 10)
      (add_reserve (rkey 2) FPSolend (rkey 9) 1000 (Some 3)
        (add_reserve (rkey 1) FPKamino (rkey 9) 1000 (Some 10) MultiSourceRouter_new))).

Lemma route_optimal_witness :
  exists info, eligible (sample_router false) (rkey 9) 500 (rkey 3) info 10
    /\ Kamino = Kamino
    /\ forall k' info' fee', eligible (sample_router false) (rkey 9) 500 k' info' fee' ->
       at_least_as_good 10 info fee' info'.
Proof.
  apply (route_optimal map_to_list (fun m => reflexivity _) (sample_router false) (rkey 9) 500
           (mkFlashSource Kamino (rkey 3) 10)).
  vm_compute. reflexivity.
Defined.

Lemma route_complete_witness :
  (MultiSourceRouter_route map_to_list (sample_router false) (rkey 9) 5000 = None <->
     forall k info fee, ~ eligible (sample_router false) (rkey 9) 5000 k info fee)
  /\ (save_live_verified (sample_router false) = false ->
      (forall k info, reserves (sample_router false) !! k = Some info -> ri_mint info = rkey 9 ->
         ri_provider info = FPSolend) ->
      MultiSourceRouter_route map_to_list (sample_router false) (rkey 9) 5000 = None).
Proof. apply (route_complete map_to_list (fun m => reflexivity _)). Defined.

Lemma route_order_independent_witness :
  3 = 3
  /\ exists info info', reserves (sample_router true) !! rkey 2 = Some info
     /\ reserves (sample_router true) !! rkey 2 = Some info'
     /\ ri_provider info = ri_provider info'
     /\ ri_available_liquidity info = ri_available_liquidity info'.
Proof.
  apply (route_order_independent map_to_list (fun m => rev (map_to_list m)) (sample_router true)
           (rkey 9) 500 (mkFlashSource Kamino (rkey 2) 3) (mkFlashSource Kamino (rkey 2) 3)).
  - reflexivity.
  - intros m. symmetry. apply Permutation_rev.
  - vm_compute. reflexivity.
  - vm_compute. reflexivity.
Defined.

Lemma rank_all_sources_spec_witness :
  (forall fs, fs ∈ rank_all_sources map_to_list (sample_router false) (rkey 9) 500 <->
     exists info, reserves (sample_router false) !! fs_reserve fs = Some info
       /\ ri_mint info = rkey 9 /\ 500 <= ri_available_liquidity info
       /\ ri_fee_bps info = Some (fs_fee_bps fs) /\ fs_protocol fs = Kamino).
Proof. apply (rank_all_sources_spec map_to_list (fun m => reflexivity _)). Defined.

Lemma observe_save_outcome_witness :
  observe_save_account (rkey 1) (replicate 100 0) (sample_router false) = Panic.
Proof.
  apply (observe_save_outcome (rkey 1) (replicate 100 0) (sample_router false)).
  - apply Forall_replicate. unfold in_u. split; vm_compute; congruence.
  - left. rewrite length_replicate. unfold RESERVE_LEN. lia.
Defined.
