(* ===== verification/DexRouter.v ===== *)
(** * crates/router/src/dex.rs: venue selection for a swap.

    The quote book maps an ordered pair of mints to the quotes registered
    for it, in registration order. *)

From Stdlib Require Import ZArith Lia Sorted.
From stdpp Require Import base gmap list option strings.
From S2P Require Import Prelude Lists F64 CoreTypes.

Inductive DexVenue := RaydiumClmm | OrcaWhirlpool | Sanctum | Marinade.
#[global] Instance DexVenue_eq_dec : EqDecision DexVenue.
Proof. solve_decision. Defined.

Definition is_direct (v : DexVenue) : bool := true.

Definition DexVenue_program_id (v : DexVenue) : string :=
  match v with
  | RaydiumClmm => "CAMMCzo5YL8w4VFF8KVHrK22GGUsp5VTaW7grrKgrWqK"
  | OrcaWhirlpool => "whirLbMiicVdio4qvUfM5KAg6Ct8VwpYzGff3uctyCc"
  | Sanctum => "5ocnV1qiCgaQR8Jb8xWnVbApNzpWCDveWUig21uT3J9z"
  | Marinade => "MarBmsSgKXdrN1egZf5sqe1TMai9K1rChYNDJgjq7aD"
  end.

Record MarketQuote := mkMarketQuote {
  mq_venue : DexVenue;
  mq_market_address : Pubkey;
  mq_available_depth : Z;
  mq_expected_out_amount : Z;
  mq_fee_bps : Z;
  mq_price_impact_bps : Z
}.

Record DexRouteDecision := mkDexRouteDecision {
  dd_selected_venue : DexVenue;
  dd_market_address : Pubkey;
  dd_expected_out_amount : Z;
  dd_effective_price : f64;
  dd_considered_venues : list MarketQuote;
  dd_fallback_used : bool
}.

Record DexRouter := mkDexRouter {
  max_price_impact_bps : Z;
  markets : gmap (Pubkey * Pubkey) (list MarketQuote)
}.

Definition DexRouter_new (max_price_impact_bps : Z) : DexRouter :=
  mkDexRouter max_price_impact_bps ∅.

(** [entry(..).or_default().push(quote)]. *)
Definition register_market_quote (input_mint output_mint : Pubkey) (quote : MarketQuote)
    (r : DexRouter) : DexRouter :=
  mkDexRouter (max_price_impact_bps r)
    (<[(input_mint, output_mint) := default [] (markets r !! (input_mint, output_mint)) ++ [quote]]>
       (markets r)).

(** The filter of [select_route], and its comparator on indexed quotes. *)
Definition usable (r : DexRouter) (amount_in : Z) (q : MarketQuote) : bool :=
  is_direct (mq_venue q) && (amount_in <=? mq_available_depth q)
  && (mq_price_impact_bps q <=? max_price_impact_bps r).

Definition quote_cmp (a b : nat * MarketQuote) : comparison :=
  then_cmp (mq_expected_out_amount b.2 ?= mq_expected_out_amount a.2) (a.1 ?= b.1)%nat.

Definition select_route (r : DexRouter) (input_mint output_mint : Pubkey) (amount_in : Z)
    : option DexRouteDecision :=
  match markets r !! (input_mint, output_mint) with
  | None => None
  | Some [] => None
  | Some quotes =>
      let candidates :=
        filter (fun p => usable r amount_in p.2 = true) (imap (fun i q => (i, q)) quotes) in
      match sort_by quote_cmp candidates with
      | [] => None
      | (_, winner) :: _ =>
          let effective_price :=
            if amount_in >? 0
            then (f64_of_Z (mq_expected_out_amount winner) / f64_of_Z amount_in)%f64
            else f64_zero in
          Some (mkDexRouteDecision (mq_venue winner) (mq_market_address winner)
                  (mq_expected_out_amount winner) effective_price quotes false)
      end
  end.

(* ------------------------------------------------------------------ *)

Lemma quote_cmp_preorder : cmp_preorder (fun _ => True) quote_cmp.
Proof.
  split.
  - intros [i a] [j b] _ _. unfold quote_cmp; cbn.
    apply then_cmp_flip; [apply Z.compare_antisym|apply Nat.compare_antisym].
  - intros [i a] [j b] [k c] _ _ _. unfold quote_cmp; cbn.
    repeat match goal with
           | |- context [(?x ?= ?y)%Z] => destruct (Z.compare_spec x y)
           | |- context [(?x ?= ?y)%nat] => destruct (Nat.compare_spec x y) end;
      cbn; intros; try done; lia.
Qed.

Definition quotes_of (r : DexRouter) (a b : Pubkey) : list MarketQuote :=
  default [] (markets r !! (a, b)).

(** The candidate list, whichever of the two early returns is taken. *)
Definition indexed_candidates (r : DexRouter) (amount_in : Z) (quotes : list MarketQuote) :=
  filter (fun p : nat * MarketQuote => usable r amount_in p.2 = true) (imap (fun i q => (i, q)) quotes).

Lemma elem_of_candidates r amount_in quotes i q :
  (i, q) ∈ indexed_candidates r amount_in quotes <->
  quotes !! i = Some q /\ usable r amount_in q = true.
Proof.
  unfold indexed_candidates. rewrite list_elem_of_filter, list_elem_of_lookup. cbn. split.
  - intros [Hu [j Hj]]. rewrite list_lookup_imap in Hj.
    destruct (quotes !! j) eqn:E; [|done]. injection Hj as <- <-. done.
  - intros [Hi Hu]. split; [done|]. exists i. by rewrite list_lookup_imap, Hi.
Qed.

Lemma select_route_winner r a b amount_in :
  select_route r a b amount_in
  = (fun w => mkDexRouteDecision (mq_venue w.2) (mq_market_address w.2)
       (mq_expected_out_amount w.2)
       (if amount_in >? 0 then (f64_of_Z (mq_expected_out_amount w.2) / f64_of_Z amount_in)%f64
        else f64_zero) (quotes_of r a b) false)
    <$> head (sort_by quote_cmp (indexed_candidates r amount_in (quotes_of r a b))).
Proof.
  unfold select_route, quotes_of, indexed_candidates.
  destruct (markets r !! (a, b)) as [[|q qs]|]; [done| |done]. cbn [default].
  by destruct (sort_by quote_cmp _) as [|[i w] l].
Qed.

(** A selected venue comes from the pair's book, is deep enough, within the
    impact limit, and gives the most output of all usable quotes, the earliest
    registered of equals; [None] means no usable quote; the audit trail is the
    whole book. *)
Theorem select_route_spec r a b amount_in :
  match select_route r a b amount_in with
  | Some d => exists i w,
      quotes_of r a b !! i = Some w /\ usable r amount_in w = true
      /\ dd_selected_venue d = mq_venue w /\ dd_market_address d = mq_market_address w
      /\ dd_expected_out_amount d = mq_expected_out_amount w
      /\ dd_considered_venues d = quotes_of r a b
      /\ forall j q, quotes_of r a b !! j = Some q -> usable r amount_in q = true ->
         mq_expected_out_amount q < mq_expected_out_amount w
         \/ mq_expected_out_amount q = mq_expected_out_amount w /\ (i <= j)%nat
  | None => forall j q, quotes_of r a b !! j = Some q -> usable r amount_in q = false
  end.
Proof.
  rewrite select_route_winner. set (cs := indexed_candidates r amount_in (quotes_of r a b)).
  pose proof (sort_by_sorted _ quote_cmp_preorder cs ltac:(by apply list.Forall_forall)) as Hs.
  pose proof (sort_by_perm quote_cmp cs) as Hp.
  destruct (sort_by quote_cmp cs) as [|[i w] l] eqn:E; cbn [head fmap option_fmap option_map].
  - intros j q Hj. destruct (usable r amount_in q) eqn:Hu; [|done].
    assert (Hin : (j, q) ∈ cs) by (by apply elem_of_candidates). rewrite <- Hp in Hin. set_solver.
  - assert (Hin : (i, w) ∈ cs) by (rewrite <- Hp; set_solver).
    apply elem_of_candidates in Hin as [Hi Hu]. exists i, w. cbn. split_and!; try done.
    intros j q Hj Huq. assert (Hjq : (j, q) ∈ (i, w) :: l)
      by (rewrite Hp; by apply elem_of_candidates).
    inversion_clear Hs as [|? ? _ Hall]. rewrite list.Forall_forall in Hall.
    apply elem_of_cons in Hjq as [[= -> ->]|Hjq]; [right; split; [done|lia]|].
    specialize (Hall _ Hjq). unfold cmp_le, quote_cmp in Hall. cbn in Hall.
    destruct (Z.compare_spec (mq_expected_out_amount q) (mq_expected_out_amount w)); cbn in Hall;
      [right; split; [done|]|by left|done].
    destruct (Nat.compare_spec i j); try done; lia.
Qed.
