(* ===== verification/RoutingTests.v ===== *)
(** * The tests of crates/router.

    The tests of the flash-source router hold for every iteration order of
    its table and for every Kamino decoder that reads back what its encoder
    writes; Save accounts go through the Solend SDK's own [pack] and
    [unpack]. The DEX router's tests are evaluated. *)

From Stdlib Require Import ZArith Lia.
From stdpp Require Import base gmap list option.
From S2P Require Import Prelude Harness F64 CoreTypes SolendMath SolendState SolendReserve SolendReserveTests Router DexRouter.

Open Scope rust_scope.

Definition router_pk (b : Z) : Pubkey := Pubkey_new (replicate 32 b).

(** ** lib.rs: fixtures *)

#[global] Instance eta_ReserveFees : Eta ReserveFees := fun r =>
  mkReserveFees (borrow_fee_wad r) (flash_loan_fee_wad r) (host_fee_percentage r).

Definition encode_save (reserve : Reserve) : panicking (list Z) :=
  Reserve_pack reserve (replicate 619 0).

Definition sample_save_reserve (mint : Pubkey) (available fee_bps : Z) : Reserve :=
  Reserve_default
    <| liquidity := (liquidity Reserve_default) <| liq_mint_pubkey := mint |>
                                                <| available_amount := available |> |>
    <| config := (config Reserve_default)
         <| rcfg_fees := (rcfg_fees (config Reserve_default))
              <| flash_loan_fee_wad := f64_to_u 64 (f64_of_Z fee_bps / f64_10_000 * f64_of_Z (10 ^ 18))%f64 |> |> |>.

Definition observe_save (k : Pubkey) (reserve : Reserve) (r : MultiSourceRouter)
    : panicking MultiSourceRouter :=
  let! data := encode_save reserve in observe_save_account k data r.

(** The fee of a sample, in klend's fixed point. *)
Definition flash_loan_fee_sf (fee_bps : option Z) : Z :=
  match fee_bps with
  | None => KAMINO_FLASH_LOAN_DISABLED
  | Some bps => f64_to_u 64 (f64_of_Z bps / f64_10_000 * f64_of_Z (2 ^ 60))%f64
  end.

Definition sample_kamino_reserve (mint : Pubkey) (available : Z) (fee_bps : option Z)
    : KaminoReserveView :=
  mkKaminoReserveView mint available (flash_loan_fee_sf fee_bps).

(** [Fraction::from_bits(bits).to_num::<f64>()]: sixty fractional bits. *)
Definition fraction_60 (bits : Z) : f64 := (f64_of_Z bits / f64_of_Z (2 ^ 60))%f64.

Section tests.
Context (iter : gmap Pubkey ReserveInfo -> list (Pubkey * ReserveInfo)).
Context (fraction_bits_to_f64 : Z -> f64) (discriminator : list Z)
  (from_account_data : list Z -> option KaminoReserveView)
  (encode_kamino : KaminoReserveView -> list Z).

Definition observe_kamino (k : Pubkey) (reserve : KaminoReserveView) (r : MultiSourceRouter)
    : MultiSourceRouter :=
  observe_kamino_account fraction_bits_to_f64 discriminator from_account_data k (encode_kamino reserve) r.

Definition expect_source (r : MultiSourceRouter) (mint : Pubkey) (amount : Z)
    (reserve : Pubkey) (fee_bps : Z) : test :=
  let! source := unwrap_option (MultiSourceRouter_route iter r mint amount) in
  do! assert_eq (fs_protocol source) Kamino in
  do! assert_eq (fs_fee_bps source) fee_bps in
  assert_eq (fs_reserve source) reserve.

Definition expect_reserve (r : MultiSourceRouter) (mint : Pubkey) (amount : Z)
    (reserve : Pubkey) : test :=
  let! source := unwrap_option (MultiSourceRouter_route iter r mint amount) in
  do! assert_eq (fs_protocol source) Kamino in
  assert_eq (fs_reserve source) reserve.

Definition routes_across_both_protocols_picking_lowest_fee : test :=
  let router := observe_kamino (router_pk 1)
    (sample_kamino_reserve (router_pk 9) 1000000 (Some 10)) MultiSourceRouter_new in
  let! router := observe_save (router_pk 2) (sample_save_reserve (router_pk 9) 1000000 3) router in
  do! expect_source router (router_pk 9) 500000 (router_pk 1) 10 in
  let all_sources := rank_all_sources iter router (router_pk 9) 500000 in
  do! assert_eq (length all_sources) 2%nat in
  let! first := unwrap_option (all_sources !! 0%nat) in
  do! assert_eq (fs_reserve first) (router_pk 2) in
  do! assert_eq (fs_fee_bps first) 3 in
  let router := set_save_live_verified true router in
  expect_source router (router_pk 9) 500000 (router_pk 2) 3.

Definition falls_back_to_kamino_when_save_lacks_depth : test :=
  let router := set_save_live_verified true MultiSourceRouter_new in
  let router := observe_kamino (router_pk 1)
    (sample_kamino_reserve (router_pk 9) 1000000 (Some 10)) router in
  let! router := observe_save (router_pk 2) (sample_save_reserve (router_pk 9) 100 3) router in
  expect_reserve router (router_pk 9) 500000 (router_pk 1).

Definition skips_kamino_reserves_with_flash_loans_disabled : test :=
  let router := observe_kamino (router_pk 1)
    (sample_kamino_reserve (router_pk 9) 1000000 None) MultiSourceRouter_new in
  let! router := observe_save (router_pk 2) (sample_save_reserve (router_pk 9) 1000000 7) router in
  do! assert (negb (is_some (MultiSourceRouter_route iter router (router_pk 9) 500000))) in
  let router := set_save_live_verified true router in
  expect_source router (router_pk 9) 500000 (router_pk 2) 7.

Definition tracked_reserve_count_reflects_both_protocols : test :=
  let router := observe_kamino (router_pk 1)
    (sample_kamino_reserve (router_pk 9) 1 (Some 1)) MultiSourceRouter_new in
  let! router := observe_save (router_pk 2) (sample_save_reserve (router_pk 9) 1 1) router in
  assert_eq (tracked_reserve_count router) 2.

Definition returns_none_for_unknown_mint : test :=
  assert (negb (is_some (MultiSourceRouter_route iter MultiSourceRouter_new (router_pk 42) 1))).

Definition test_unverified_save_is_bypassed_in_favor_of_kamino : test :=
  let router := MultiSourceRouter_new in
  do! assert (negb (is_save_live_verified router)) in
  let router := observe_kamino (router_pk 1)
    (sample_kamino_reserve (router_pk 5) 2000000 (Some 5)) router in
  let! router := observe_save (router_pk 2) (sample_save_reserve (router_pk 5) 10000000 1) router in
  do! expect_source router (router_pk 5) 1000000 (router_pk 1) 5 in
  let router := set_save_live_verified true router in
  do! assert (is_save_live_verified router) in
  expect_source router (router_pk 5) 1000000 (router_pk 2) 1.

Definition test_unverified_save_sole_source_returns_none : test :=
  let! router := observe_save (router_pk 2) (sample_save_reserve (router_pk 7) 5000000 2)
    MultiSourceRouter_new in
  do! assert (negb (is_some (MultiSourceRouter_route iter router (router_pk 7) 100000))) in
  let router := set_save_live_verified true router in
  expect_reserve router (router_pk 7) 100000 (router_pk 2).

Definition test_prefers_kamino_over_save_on_equal_fee : test :=
  let router := set_save_live_verified true MultiSourceRouter_new in
  let! router := observe_save (router_pk 2) (sample_save_reserve (router_pk 10) 1000000 0) router in
  let router := observe_kamino (router_pk 1)
    (sample_kamino_reserve (router_pk 10) 1000000 (Some 0)) router in
  let! pick := unwrap_option (MultiSourceRouter_route iter router (router_pk 10) 500000) in
  assert_eq (fs_reserve pick) (router_pk 1).

Definition router_unit_tests : list test :=
  [routes_across_both_protocols_picking_lowest_fee; falls_back_to_kamino_when_save_lacks_depth;
   skips_kamino_reserves_with_flash_loans_disabled; tracked_reserve_count_reflects_both_protocols;
   returns_none_for_unknown_mint; test_unverified_save_is_bypassed_in_favor_of_kamino;
   test_unverified_save_sole_source_returns_none; test_prefers_kamino_over_save_on_equal_fee].
End tests.

(** ** dex.rs *)

Definition expect_venue (r : DexRouter) (a b : Pubkey) (amount_in : Z)
    (body : DexRouteDecision -> test) : test :=
  let! decision := unwrap_option (select_route r a b amount_in) in body decision.

Definition test_select_route_picks_best_net_price_not_deepest : test :=
  let router := DexRouter_new 200 in
  let router := register_market_quote (router_pk 1) (router_pk 2)
    (mkMarketQuote OrcaWhirlpool (router_pk 10) 100000000 950000 30 50) router in
  let router := register_market_quote (router_pk 1) (router_pk 2)
    (mkMarketQuote RaydiumClmm (router_pk 20) 2000000 990000 5 10) router in
  expect_venue router (router_pk 1) (router_pk 2) 1000000 (fun decision =>
    do! assert_eq (dd_selected_venue decision) RaydiumClmm in
    do! assert_eq (dd_expected_out_amount decision) 990000 in
    do! assert (negb (dd_fallback_used decision)) in
    assert_eq (length (dd_considered_venues decision)) 2%nat).

Definition test_select_route_breaks_ties_by_registration_order : test :=
  let router := DexRouter_new 200 in
  let router := register_market_quote (router_pk 3) (router_pk 4)
    (mkMarketQuote RaydiumClmm (router_pk 30) 5000000 980000 20 20) router in
  let router := register_market_quote (router_pk 3) (router_pk 4)
    (mkMarketQuote OrcaWhirlpool (router_pk 40) 5000000 980000 20 20) router in
  expect_venue router (router_pk 3) (router_pk 4) 1000000 (fun decision =>
    do! assert_eq (dd_selected_venue decision) RaydiumClmm in
    assert_eq (dd_market_address decision) (router_pk 30)).

Definition test_select_route_returns_none_when_venues_lack_depth : test :=
  let router := register_market_quote (router_pk 5) (router_pk 6)
    (mkMarketQuote Sanctum (router_pk 50) 3000000 2900000 25 30) (DexRouter_new 200) in
  assert (negb (is_some (select_route router (router_pk 5) (router_pk 6) 10000000))).

Definition test_select_route_audit_trail_records_rejected_venues : test :=
  let router := DexRouter_new 200 in
  let router := register_market_quote (router_pk 7) (router_pk 8)
    (mkMarketQuote Sanctum (router_pk 70) 10000000 995000 5 2) router in
  let router := register_market_quote (router_pk 7) (router_pk 8)
    (mkMarketQuote OrcaWhirlpool (router_pk 71) 10000000 980000 20 10) router in
  expect_venue router (router_pk 7) (router_pk 8) 1000000 (fun decision =>
    do! assert_eq (length (dd_considered_venues decision)) 2%nat in
    do! assert (existsb (fun q => bool_decide (mq_venue q = Sanctum)) (dd_considered_venues decision)) in
    assert (existsb (fun q => bool_decide (mq_venue q = OrcaWhirlpool)) (dd_considered_venues decision))).

Definition dex_unit_tests : list test :=
  [test_select_route_picks_best_net_price_not_deepest;
   test_select_route_breaks_ties_by_registration_order;
   test_select_route_returns_none_when_venues_lack_depth;
   test_select_route_audit_trail_records_rejected_venues].

(* ------------------------------------------------------------------ *)

Lemma dex_unit_tests_pass : forallb passes dex_unit_tests = true.
Proof. vm_compute. reflexivity. Qed.

(** A source is offered whatever the order, when it is for both orders of a
    table of two reserves. *)
Lemma short_permutation {A} (l k : list A) :
  (length l <= 2)%nat -> k ≡ₚ l -> k = l \/ k = reverse l.
Proof.
  intros Hl Hp. destruct l as [|x [|y [|z l]]]; cbn in Hl; try lia.
  - apply Permutation_nil_r in Hp. by left.
  - apply Permutation_singleton_r in Hp. by left.
  - assert (Hlen : length k = 2%nat) by (by rewrite Hp).
    destruct k as [|a [|b [|c k]]]; cbn in Hlen; try lia.
    apply Permutation_length_2 in Hp as [[-> ->]|[-> ->]]; [by left|by right].
Qed.

Section proofs.
Context (iter : gmap Pubkey ReserveInfo -> list (Pubkey * ReserveInfo)).
Context (Hiter : forall m, iter m ≡ₚ map_to_list m).

Definition in_order (m : gmap Pubkey ReserveInfo) : list (Pubkey * ReserveInfo) := map_to_list m.
Definition in_reverse (m : gmap Pubkey ReserveInfo) : list (Pubkey * ReserveInfo) :=
  reverse (map_to_list m).

Lemma for_both_orders {A} (f : (gmap Pubkey ReserveInfo -> list (Pubkey * ReserveInfo)) -> A)
    (m : gmap Pubkey ReserveInfo) (x : A) :
  (forall i j : gmap Pubkey ReserveInfo -> list (Pubkey * ReserveInfo), i m = j m -> f i = f j) ->
  (length (map_to_list m) <=? 2)%nat = true ->
  f in_order = x -> f in_reverse = x -> f iter = x.
Proof.
  intros Hf Hl H1 H2. apply Nat.leb_le in Hl.
  destruct (short_permutation _ _ Hl (Hiter m)) as [E|E].
  - rewrite <- H1. by apply Hf.
  - rewrite <- H2. by apply Hf.
Qed.

Lemma route_is r mint amount x :
  (length (map_to_list (reserves r)) <=? 2)%nat = true ->
  MultiSourceRouter_route in_order r mint amount = x ->
  MultiSourceRouter_route in_reverse r mint amount = x ->
  MultiSourceRouter_route iter r mint amount = x.
Proof.
  apply (for_both_orders (fun i => MultiSourceRouter_route i r mint amount) (reserves r)).
  intros i j E. unfold MultiSourceRouter_route, route_candidates. by rewrite E.
Qed.

Lemma rank_is r mint amount x :
  (length (map_to_list (reserves r)) <=? 2)%nat = true ->
  rank_all_sources in_order r mint amount = x ->
  rank_all_sources in_reverse r mint amount = x ->
  rank_all_sources iter r mint amount = x.
Proof.
  apply (for_both_orders (fun i => rank_all_sources i r mint amount) (reserves r)).
  intros i j E. unfold rank_all_sources, rank_candidates. by rewrite E.
Qed.

(** *** The samples read back as the table entries they stand for *)

Definition save_sample_reads_back (mint : Pubkey) (available bps : Z) : bool :=
  match (let! data := encode_save (sample_save_reserve mint available bps) in Reserve_unpack data) with
  | Done (Ok r) =>
      bool_decide (liq_mint_pubkey (liquidity r) = mint)
      && (available_amount (liquidity r) =? available)
      && (save_fee_bps_from_wad (flash_loan_fee_wad (rcfg_fees (config r))) =? bps)
  | _ => false
  end.

Lemma observe_save_sample k mint available bps r :
  save_sample_reads_back mint available bps = true ->
  observe_save k (sample_save_reserve mint available bps) r
    = Done (add_reserve k FPSolend mint available (Some bps) r).
Proof.
  unfold save_sample_reads_back, observe_save, observe_save_account.
  destruct (encode_save _) as [data|]; cbn; [|done].
  destruct (Reserve_unpack data) as [[res|]|]; cbn; try done.
  intros ((<-%bool_decide_eq_true & <-%Z.eqb_eq)%andb_true_iff & <-%Z.eqb_eq)%andb_true_iff. done.
Qed.

Context (fraction_bits_to_f64 : Z -> f64) (discriminator : list Z)
  (from_account_data : list Z -> option KaminoReserveView)
  (encode_kamino : KaminoReserveView -> list Z).
Context (Hfraction : forall bits, fraction_bits_to_f64 bits = fraction_60 bits).
Context (Htag : forall v, take 8 (encode_kamino v) = discriminator).
Context (Hlength : forall v, (8 <= length (encode_kamino v))%nat).
Context (Hdecode : forall v, from_account_data (encode_kamino v) = Some v).

Lemma observe_kamino_sample k mint available fee r :
  kamino_fee_bps_from_sf fraction_60 (flash_loan_fee_sf fee) = fee ->
  observe_kamino fraction_bits_to_f64 discriminator from_account_data encode_kamino k
    (sample_kamino_reserve mint available fee) r
    = add_reserve k FPKamino mint available fee r.
Proof.
  intros Hfee. unfold observe_kamino, observe_kamino_account.
  destruct (Nat.ltb_spec (length (encode_kamino (sample_kamino_reserve mint available fee))) 8) as [Hlt|_].
  { specialize (Hlength (sample_kamino_reserve mint available fee)). lia. }
  rewrite Htag, bool_decide_true, Hdecode by done. cbn -[flash_loan_fee_sf].
  unfold add_reserve. do 3 f_equal. rewrite <- Hfee at 2.
  unfold kamino_fee_bps_from_sf. by rewrite Hfraction.
Qed.

Ltac observe_samples :=
  cbv zeta;
  repeat (first [rewrite observe_kamino_sample by (vm_compute; reflexivity)
                |rewrite observe_save_sample by (vm_compute; reflexivity)]; cbv beta iota zeta).
Ltac routed :=
  match goal with
  | |- context [MultiSourceRouter_route iter ?r ?m ?a] =>
      let x := eval vm_compute in (MultiSourceRouter_route in_order r m a) in
      rewrite (route_is r m a x) by (vm_compute; reflexivity)
  | |- context [rank_all_sources iter ?r ?m ?a] =>
      let x := eval vm_compute in (rank_all_sources in_order r m a) in
      rewrite (rank_is r m a x) by (vm_compute; reflexivity)
  end.
Ltac router_test := unfold expect_source, expect_reserve; observe_samples; repeat routed; vm_compute; reflexivity.

(** Every test of lib.rs passes, whatever the table's iteration order. *)
Lemma router_unit_tests_pass :
  forallb passes (router_unit_tests iter fraction_bits_to_f64 discriminator from_account_data encode_kamino)
    = true.
Proof.
  assert (Hand : forall t l, passes t = true -> forallb passes l = true -> forallb passes (t :: l) = true)
    by (intros t l H1 H2; cbn; by rewrite H1).
  unfold router_unit_tests. repeat apply Hand; [..|done].
  - unfold routes_across_both_protocols_picking_lowest_fee. router_test.
  - unfold falls_back_to_kamino_when_save_lacks_depth. router_test.
  - unfold skips_kamino_reserves_with_flash_loans_disabled. router_test.
  - unfold tracked_reserve_count_reflects_both_protocols. router_test.
  - unfold returns_none_for_unknown_mint. router_test.
  - unfold test_unverified_save_is_bypassed_in_favor_of_kamino. router_test.
  - unfold test_unverified_save_sole_source_returns_none. router_test.
  - unfold test_prefers_kamino_over_save_on_equal_fee. router_test.
Qed.
End proofs.

(** The hypotheses hold of an encoding that writes a tag and the three fields,
    and of the table's own order. *)
Definition toy_encode (v : KaminoReserveView) : list Z :=
  replicate 8 1 ++ kr_available_liquidity v :: kr_flash_loan_fee_sf v :: pk_bytes (kr_mint v).
Definition toy_decode (bs : list Z) : option KaminoReserveView :=
  match drop 8 bs with
  | available :: fee :: mint => Some (mkKaminoReserveView (mkPubkey mint) available fee)
  | _ => None
  end.

Lemma router_unit_tests_example :
  forallb passes (router_unit_tests map_to_list fraction_60 (replicate 8 1) toy_decode toy_encode) = true.
Proof.
  apply router_unit_tests_pass; try done.
  - intros v. cbn. lia.
  - by intros [[m] a f].
Qed.
