(* ===== verification/Bundler.v ===== *)
(** * crates/bundler: transaction assembly, lookup tables, token accounts.

    [SolanaSdk] is the interface of the Solana SDK the crate calls: PDA and
    ATA derivation, message compilation, signing and serialization. The
    library's public structs are records; everything it computes is a field
    of the class, so every theorem holds for any behaviour of the SDK. *)

From Stdlib Require Import ZArith Lia.
From stdpp Require Import base gmap list strings option.
From S2P Require Import Prelude Lists CoreTypes.

Open Scope rust_scope.

Record AccountMeta := mkAccountMeta {
  am_pubkey : Pubkey;
  am_is_signer : bool;
  am_is_writable : bool
}.
(** [AccountMeta::new] and [AccountMeta::new_readonly]. *)
Definition meta (k : Pubkey) (signer : bool) : AccountMeta := mkAccountMeta k signer true.
Definition meta_readonly (k : Pubkey) (signer : bool) : AccountMeta := mkAccountMeta k signer false.

Record Instruction := mkInstruction {
  ix_program_id : Pubkey;
  ix_accounts : list AccountMeta;
  ix_data : list Z
}.

Record AddressLookupTableAccount := mkAddressLookupTableAccount {
  alt_key : Pubkey;
  alt_addresses : list Pubkey
}.

Definition Hash : Type := list Z.
Definition default_signature : list Z := replicate 64 0.

(** The SDK: types and functions the crate uses. *)
Class SolanaSdk := {
  Message : Type;
  CompileError : Type;
  SignerError : Type;
  Signer : Type;
  num_required_signatures : Message -> Z;
  (** [v0::Message::try_compile]. *)
  try_compile : Pubkey -> list Instruction -> list AddressLookupTableAccount -> Hash ->
                result Message CompileError;
  (** The signatures [VersionedTransaction::try_new] puts on a message. *)
  sign : Message -> Signer -> result (list (list Z)) SignerError;
  (** [bincode::serialize] of a transaction. *)
  bincode_serialize : list (list Z) -> Message -> option (list Z);
  set_compute_unit_limit : Z -> Instruction;
  set_compute_unit_price : Z -> Instruction;
  create_lookup_table : Pubkey -> Pubkey -> Z -> Instruction * Pubkey;
  extend_lookup_table : Pubkey -> Pubkey -> option Pubkey -> list Pubkey -> Instruction;
  get_associated_token_address : Pubkey -> Pubkey -> Pubkey -> Pubkey;
  create_associated_token_account_idempotent : Pubkey -> Pubkey -> Pubkey -> Pubkey -> Instruction;
  find_program_address : list (list Z) -> Pubkey -> Pubkey;
  (** [str::parse::<Pubkey>], the instructions sysvar and the system program. *)
  parse_pubkey : string -> option Pubkey;
  sysvar_instructions_id : Pubkey;
  system_program_id : Pubkey
}.

Record VersionedTransaction `{SolanaSdk} := mkVersionedTransaction {
  tx_signatures : list (list Z);
  tx_message : Message
}.
Definition serialize `{SolanaSdk} (tx : VersionedTransaction) : option (list Z) :=
  bincode_serialize (tx_signatures tx) (tx_message tx).

(** ** lib.rs *)

Definition MAX_TX_BYTES : Z := 1232.

Section assemble.
Context `{SolanaSdk}.

Inductive BundleError :=
| BundleCompileMessage (e : CompileError)
| BundleSign (e : SignerError)
| BundleSerialize
| ExceedsMaxSize (actual : Z).

Record BundleParams := mkBundleParams {
  bp_instructions : list Instruction;
  bp_cu_limit : Z;
  bp_cu_price_micro_lamports : option Z;
  bp_payer : Pubkey;
  bp_recent_blockhash : Hash;
  bp_address_lookup_tables : list AddressLookupTableAccount
}.

Definition budgeted_instructions (params : BundleParams) : list Instruction :=
  [set_compute_unit_limit (bp_cu_limit params)]
  ++ match bp_cu_price_micro_lamports params with
     | Some price => [set_compute_unit_price price]
     | None => []
     end
  ++ bp_instructions params.

Definition assemble (params : BundleParams) (signer : Signer)
    : result VersionedTransaction BundleError :=
  match try_compile (bp_payer params) (budgeted_instructions params)
          (bp_address_lookup_tables params) (bp_recent_blockhash params) with
  | Err e => Err (BundleCompileMessage e)
  | Ok message =>
      match sign message signer with
      | Err e => Err (BundleSign e)
      | Ok sigs =>
          let tx := mkVersionedTransaction _ sigs message in
          match serialize tx with
          | None => Err BundleSerialize
          | Some bytes =>
              if Z.of_nat (length bytes) >? MAX_TX_BYTES
              then Err (ExceedsMaxSize (Z.of_nat (length bytes)))
              else Ok tx
          end
      end
  end.

Definition to_core_bundle_bytes (tx : VersionedTransaction) : result (list Z) BundleError :=
  ok_or (serialize tx) BundleSerialize.

(** An assembled transaction carries the message compiled from the
    compute-unit limit, the optional price and the given instructions in
    this order, and serializes to at most 1232 bytes; an oversized one is
    reported with its exact size, and only then. *)
Theorem assemble_fits params signer :
  (forall tx, assemble params signer = Ok tx ->
     try_compile (bp_payer params) (budgeted_instructions params)
       (bp_address_lookup_tables params) (bp_recent_blockhash params) = Ok (tx_message tx)
     /\ exists bytes, to_core_bundle_bytes tx = Ok bytes
        /\ Z.of_nat (length bytes) <= MAX_TX_BYTES)
  /\ (forall n, assemble params signer = Err (ExceedsMaxSize n) ->
      MAX_TX_BYTES < n /\ exists m sigs bytes,
        try_compile (bp_payer params) (budgeted_instructions params)
          (bp_address_lookup_tables params) (bp_recent_blockhash params) = Ok m
        /\ sign m signer = Ok sigs /\ bincode_serialize sigs m = Some bytes
        /\ n = Z.of_nat (length bytes)).
Proof.
  unfold assemble, to_core_bundle_bytes, serialize.
  destruct (try_compile _ _ _ _) as [m|] eqn:Ec; [|done].
  destruct (sign m signer) as [sigs|] eqn:Es; [|done].
  cbn [tx_signatures tx_message]. destruct (bincode_serialize sigs m) as [bytes|] eqn:Eb; [|done].
  destruct (Z.gtb_spec (Z.of_nat (length bytes)) MAX_TX_BYTES); (split; [|try done]).
  - done.
  - intros n [= <-]. split; [lia|]. by exists m, sigs, bytes.
  - intros tx [= <-]. cbn. split; [done|]. exists bytes. rewrite Eb. done.
Qed.
End assemble.

(** ** alt.rs *)

Definition LOOKUP_TABLE_MAX_ADDRESSES : Z := 256.
Definition ADDRESSES_PER_EXTEND_INSTRUCTION : nat := 20.

Inductive AltError := ExceedsTableCapacity (n : Z).

Section alt.
Context `{SolanaSdk}.

Definition build_create_instruction (authority payer : Pubkey) (recent_slot : Z)
    : Pubkey * Instruction :=
  let '(ix, pubkey) := create_lookup_table authority payer recent_slot in (pubkey, ix).

Definition build_extend_instructions (alt_address authority payer : Pubkey)
    (addresses : list Pubkey) : result (list Instruction) AltError :=
  if Z.of_nat (length addresses) >? LOOKUP_TABLE_MAX_ADDRESSES
  then Err (ExceedsTableCapacity (Z.of_nat (length addresses)))
  else Ok ((fun chunk => extend_lookup_table alt_address authority (Some payer) chunk)
           <$> chunks ADDRESSES_PER_EXTEND_INSTRUCTION addresses).

(** Extending a table covers every address exactly once and in order, in
    batches of at most 20 and at most 13 instructions, and is refused
    exactly when the table's capacity of 256 would be exceeded. *)
Theorem build_extend_instructions_spec alt_address authority payer addresses :
  match build_extend_instructions alt_address authority payer addresses with
  | Ok ixs => Z.of_nat (length addresses) <= LOOKUP_TABLE_MAX_ADDRESSES
      /\ exists batches,
         ixs = extend_lookup_table alt_address authority (Some payer) <$> batches
         /\ concat batches = addresses
         /\ Forall (fun b => 0 < length b <= ADDRESSES_PER_EXTEND_INSTRUCTION)%nat batches
         /\ Z.of_nat (length ixs) = (Z.of_nat (length addresses) + 19) / 20
         /\ Z.of_nat (length ixs) <= 13
  | Err (ExceedsTableCapacity n) =>
      n = Z.of_nat (length addresses) /\ LOOKUP_TABLE_MAX_ADDRESSES < n
  end.
Proof.
  unfold build_extend_instructions.
  destruct (Z.gtb_spec (Z.of_nat (length addresses)) LOOKUP_TABLE_MAX_ADDRESSES) as [Hgt|Hle];
    [by split; [|lia]|].
  assert (Hp : (0 < ADDRESSES_PER_EXTEND_INSTRUCTION)%nat) by (unfold ADDRESSES_PER_EXTEND_INSTRUCTION; lia).
  pose proof (chunks_count _ Hp addresses) as Hc.
  split; [done|]. eexists; split; [reflexivity|]. split_and!.
  - by apply chunks_concat.
  - by apply chunks_bounds.
  - rewrite length_fmap, Hc. f_equal. unfold ADDRESSES_PER_EXTEND_INSTRUCTION. lia.
  - rewrite length_fmap, Hc. unfold ADDRESSES_PER_EXTEND_INSTRUCTION, LOOKUP_TABLE_MAX_ADDRESSES in *.
    apply Z.lt_succ_r, Z.div_lt_upper_bound; lia.
Qed.
End alt.

(** ** alt_manager.rs: the cache behind its lock, as a map; a poisoned lock
    (a panic while it is held) cannot arise from these operations. *)

Definition AltManager : Type := gmap Pubkey AddressLookupTableAccount.
Definition AltManager_new : AltManager := ∅.
Definition register_table (table : AddressLookupTableAccount) (m : AltManager) : AltManager :=
  <[alt_key table := table]> m.
Definition get_table (m : AltManager) (key : Pubkey) : option AddressLookupTableAccount := m !! key.
Definition get_lookup_tables (m : AltManager) (keys : list Pubkey) : list AddressLookupTableAccount :=
  omap (fun k => m !! k) keys.
(** [values()], in the map's unspecified order. *)
Definition get_all_tables (iter : AltManager -> list (Pubkey * AddressLookupTableAccount))
    (m : AltManager) : list AddressLookupTableAccount := snd <$> iter m.

Definition plan_create_and_populate `{SolanaSdk} (payer authority : Pubkey) (recent_slot : Z)
    (addresses : list Pubkey) : result (Pubkey * Instruction * list Instruction) AltError :=
  let '(alt_pubkey, create_ix) := build_create_instruction authority payer recent_slot in
  let? extend_ixs := build_extend_instructions alt_pubkey authority payer addresses in
  Ok (alt_pubkey, create_ix, extend_ixs).

(** ** ata.rs *)

Section ata.
Context `{SolanaSdk}.

Definition spl_token_program_id : panicking Pubkey :=
  match parse_pubkey "TokenkegQfeZyiNwAJbNbGKPFXCWuBvf9Ss623VQ5DA" with
  | Some k => Done k | None => Panic end.
Definition spl_token_2022_program_id : panicking Pubkey :=
  match parse_pubkey "TokenzQdBNbLqP5VEhdkAS6EPFLC1PHnBqCXEpPxuEb" with
  | Some k => Done k | None => Panic end.

(** [u64 * u16] in 128 bits; [as u64] truncates. *)
Definition calculate_token_2022_transfer_fee (pre_fee_amount fee_basis_points max_fee : Z) : Z :=
  let numerator := wmul 128 pre_fee_amount fee_basis_points in
  let fee := wrap 64 (numerator / 10000) in
  Z.min fee max_fee.

Definition required_atas (owner : Pubkey) (mints : list Pubkey) (token_program : Pubkey)
    : list Pubkey :=
  dedup_by_key id []
    ((fun mint => get_associated_token_address owner mint token_program) <$> mints).

Definition create_ata_idempotent_instruction (payer owner mint token_program : Pubkey)
    : Instruction :=
  create_associated_token_account_idempotent payer owner mint token_program.

Definition create_all_atas_idempotent (payer owner : Pubkey) (mints : list Pubkey)
    (token_program : Pubkey) : list Instruction :=
  (fun mint => create_ata_idempotent_instruction payer owner mint token_program)
  <$> dedup_by_key id [] mints.

Definition ata_of (owner : Pubkey) (p : Pubkey * Pubkey) : Pubkey :=
  get_associated_token_address owner p.1 p.2.

Definition required_atas_with_programs (owner : Pubkey)
    (mints_and_programs : list (Pubkey * Pubkey)) : list Pubkey :=
  dedup_by_key id [] (ata_of owner <$> mints_and_programs).

(** The deduplication here is by mint alone. *)
Definition create_all_atas_with_programs_idempotent (payer owner : Pubkey)
    (mints_and_programs : list (Pubkey * Pubkey)) : list Instruction :=
  (fun p => create_ata_idempotent_instruction payer owner p.1 p.2)
  <$> dedup_by_key fst [] mints_and_programs.

(** A transfer fee at a rate of at most 100% is the rounded-down rate,
    capped, and never exceeds the amount. *)
Theorem transfer_fee_bounds pre bps max_fee :
  is_u64 pre -> 0 <= bps <= 10000 -> is_u64 max_fee ->
  calculate_token_2022_transfer_fee pre bps max_fee = Z.min (pre * bps / 10000) max_fee
  /\ 0 <= calculate_token_2022_transfer_fee pre bps max_fee <= pre
  /\ calculate_token_2022_transfer_fee pre bps max_fee <= max_fee.
Proof.
  intros [Hp0 Hp1] Hb [Hm0 _]. unfold calculate_token_2022_transfer_fee, wmul.
  rewrite (wrap_small 128) by (unfold in_u; nia).
  assert (Hq : pre * bps / 10000 <= pre) by (apply Z.div_le_upper_bound; nia).
  assert (0 <= pre * bps / 10000) by (apply Z.div_pos; nia).
  rewrite wrap_small by (unfold in_u; lia). split; [done|lia].
Qed.

(** The required token accounts are those of the listed mints, each once;
    every one of them gets a creation instruction as long as each mint is
    listed with one token program. *)
Theorem atas_provisioned owner payer mps :
  NoDup (required_atas_with_programs owner mps)
  /\ (forall a, a ∈ required_atas_with_programs owner mps <-> exists p, p ∈ mps /\ a = ata_of owner p)
  /\ ((forall p q, p ∈ mps -> q ∈ mps -> p.1 = q.1 -> p.2 = q.2) ->
      forall p, p ∈ mps ->
        create_ata_idempotent_instruction payer owner p.1 p.2
          ∈ create_all_atas_with_programs_idempotent payer owner mps).
Proof.
  unfold required_atas_with_programs, create_all_atas_with_programs_idempotent. split_and!.
  - pose proof (dedup_by_key_NoDup (@id Pubkey) [] (ata_of owner <$> mps)) as Hnd.
    by rewrite list_fmap_id in Hnd.
  - intros a. split.
    + intros Ha%dedup_by_key_elem. destruct Ha as [(p & -> & Hp)%list_elem_of_fmap _].
      by exists p.
    + intros (p & Hp & ->).
      destruct (dedup_by_key_covers (@id Pubkey) [] (ata_of owner <$> mps) (ata_of owner p))
        as (y & Hy & Hk); [by apply list_elem_of_fmap_2|set_solver|].
      unfold id in Hk. by subst y.
  - intros Hfun p Hp. apply list_elem_of_fmap.
    destruct (dedup_by_key_covers fst [] mps p Hp) as (q & Hq & Hk); [set_solver|].
    exists q. split; [|done]. pose proof (dedup_by_key_elem fst [] mps q Hq) as [Hq' _].
    rewrite Hk. f_equal. symmetry. by apply Hfun.
Qed.

(** A mint listed under two token programs needs two token accounts but
    only the first gets a creation instruction. *)
Theorem second_program_ata_not_created owner payer mint prog prog' :
  get_associated_token_address owner mint prog <> get_associated_token_address owner mint prog' ->
  required_atas_with_programs owner [(mint, prog); (mint, prog')]
    = [get_associated_token_address owner mint prog; get_associated_token_address owner mint prog']
  /\ create_all_atas_with_programs_idempotent payer owner [(mint, prog); (mint, prog')]
    = [create_associated_token_account_idempotent payer owner mint prog].
Proof.
  intros Hne. unfold required_atas_with_programs, create_all_atas_with_programs_idempotent, ata_of.
  cbn [fmap list_fmap dedup_by_key fst snd]. split.
  - rewrite !decide_False by set_solver. done.
  - rewrite decide_False, decide_True by set_solver. done.
Qed.
End ata.

(** ** A concrete SDK for the witnesses: a message is its instruction list,
    one byte per account and data byte. *)

#[local] Instance toy_sdk : SolanaSdk := {|
  Message := list Instruction;
  CompileError := unit;
  SignerError := unit;
  Signer := Pubkey;
  num_required_signatures _ := 1;
  try_compile _ ixs _ _ := Ok ixs;
  sign _ _ := Ok [default_signature];
  bincode_serialize sigs ixs :=
    Some (concat sigs ++ concat ((fun ix => replicate (length (ix_accounts ix)) 0 ++ ix_data ix) <$> ixs));
  set_compute_unit_limit n := mkInstruction Pubkey_default [] (to_le_bytes 4 n);
  set_compute_unit_price n := mkInstruction Pubkey_default [] (to_le_bytes 8 n);
  create_lookup_table a p s := (mkInstruction Pubkey_default [meta a true; meta p true] (to_le_bytes 8 s), a);
  extend_lookup_table t a p ks := mkInstruction Pubkey_default [meta t false; meta a true] (concat (pk_bytes <$> ks));
  get_associated_token_address o m t := mkPubkey (pk_bytes o ++ pk_bytes m ++ pk_bytes t);
  create_associated_token_account_idempotent p o m t :=
    mkInstruction t [meta p true; meta_readonly o false; meta_readonly m false] [1];
  find_program_address seeds p := mkPubkey (concat seeds ++ pk_bytes p);
  parse_pubkey _ := Some Pubkey_default;
  sysvar_instructions_id := Pubkey_default;
  system_program_id := Pubkey_default
|}.

Lemma transfer_fee_bounds_witness :
  calculate_token_2022_transfer_fee 1000000 250 5000 = Z.min (1000000 * 250 / 10000) 5000
  /\ 0 <= calculate_token_2022_transfer_fee 1000000 250 5000 <= 1000000
  /\ calculate_token_2022_transfer_fee 1000000 250 5000 <= 5000.
Proof. apply (transfer_fee_bounds 1000000 250 5000); unfold in_u; lia. Defined.

Lemma second_program_ata_not_created_witness :
  let k := fun b => mkPubkey [b] in
  required_atas_with_programs (k 1) [(k 2, k 3); (k 2, k 4)]
    = [get_associated_token_address (k 1) (k 2) (k 3); get_associated_token_address (k 1) (k 2) (k 4)]
  /\ create_all_atas_with_programs_idempotent (k 9) (k 1) [(k 2, k 3); (k 2, k 4)]
    = [create_associated_token_account_idempotent (k 9) (k 1) (k 2) (k 3)].
Proof.
  cbv zeta. apply (second_program_ata_not_created (mkPubkey [1]) (mkPubkey [9]) (mkPubkey [2])
                     (mkPubkey [3]) (mkPubkey [4])).
  vm_compute. congruence.
Defined.
