(* ===== verification/Instructions.v ===== *)
(** * crates/bundler/src/{liquidations,swaps}.rs: the instruction builders.

    Each builder concatenates a discriminator and little-endian arguments
    and lists its accounts in the on-chain program's order. Program
    addresses are parsed from base58 literals; a parse failure is the
    [unwrap] panic. *)

From Stdlib Require Import ZArith Lia.
From stdpp Require Import base list strings.
From S2P Require Import Prelude Lists CoreTypes Bundler.

Open Scope rust_scope.

Definition SWAP_DISCRIMINATOR : list Z := [0xf8; 0xc6; 0x9e; 0x91; 0xe1; 0x75; 0x87; 0xc8].

Section builders.
Context `{SolanaSdk}.

(** *** liquidations.rs *)

Definition kamino_program_id : panicking Pubkey :=
  unwrap_option (parse_pubkey "KLend2g3cP87fffoy8q1mQqGKjrxjC8boSyAYavgmjD").
Definition save_program_id : panicking Pubkey :=
  unwrap_option (parse_pubkey "So1endDq2YkqhipRh3WViPa8hdiSpxWy6z3Z6tMCpAo").
Definition programs_spl_token_program_id : panicking Pubkey :=
  unwrap_option (parse_pubkey "TokenkegQfeZyiNwAJbNbGKPFXCWuBvf9Ss623VQ5DA").

Record KaminoLiquidateParams := mkKaminoLiquidateParams {
  klp_lending_market : Pubkey;
  klp_obligation : Pubkey;
  klp_repay_reserve : Pubkey;
  klp_repay_reserve_liquidity_supply : Pubkey;
  klp_withdraw_reserve : Pubkey;
  klp_withdraw_reserve_collateral_supply : Pubkey;
  klp_user_source_liquidity : Pubkey;
  klp_user_destination_collateral : Pubkey;
  klp_user_destination_liquidity : Pubkey;
  klp_obligation_owner : Pubkey;
  klp_liquidator : Pubkey;
  klp_token_program : Pubkey;
  klp_liquidity_amount : Z;
  klp_min_acceptable_received_collateral : Z;
  klp_remaining_accounts : list AccountMeta
}.

Definition LIQUIDATE_DISCRIMINATOR : list Z := [0xb1; 0x47; 0x9a; 0xbc; 0xe2; 0x85; 0x4a; 0x37].

Definition build_kamino_liquidate_instruction (p : KaminoLiquidateParams)
    : panicking Instruction :=
  let data := LIQUIDATE_DISCRIMINATOR ++ to_le_bytes 8 (klp_liquidity_amount p)
              ++ to_le_bytes 8 (klp_min_acceptable_received_collateral p) in
  let! program := kamino_program_id in
  let lending_market_authority :=
    find_program_address [take 32 (pk_bytes (klp_lending_market p))] program in
  Done (mkInstruction program
    ([meta (klp_liquidator p) true;
      meta (klp_obligation p) false;
      meta_readonly (klp_lending_market p) false;
      meta_readonly lending_market_authority false;
      meta (klp_repay_reserve p) false;
      meta (klp_repay_reserve_liquidity_supply p) false;
      meta (klp_withdraw_reserve p) false;
      meta (klp_withdraw_reserve_collateral_supply p) false;
      meta (klp_user_source_liquidity p) false;
      meta (klp_user_destination_collateral p) false;
      meta (klp_user_destination_liquidity p) false;
      meta_readonly (klp_token_program p) false] ++ klp_remaining_accounts p)
    data).

Definition build_flash_borrow_instruction (program borrow_reserve liquidity_supply
    destination_liquidity token_program : Pubkey) (amount : Z) : Instruction :=
  mkInstruction program
    [meta borrow_reserve false; meta liquidity_supply false;
     meta destination_liquidity false; meta_readonly token_program false]
    ([14] ++ to_le_bytes 8 amount).

Definition build_flash_repay_instruction (program repay_reserve source_liquidity
    liquidity_supply user_authority token_program : Pubkey)
    (amount borrow_instruction_index : Z) : Instruction :=
  mkInstruction program
    [meta repay_reserve false; meta source_liquidity false; meta liquidity_supply false;
     meta_readonly user_authority true; meta_readonly token_program false]
    ([15] ++ to_le_bytes 8 amount ++ [borrow_instruction_index]).

Definition build_save_flash_borrow_instruction (program : Pubkey) (liquidity_amount : Z)
    (source_liquidity destination_liquidity reserve lending_market : Pubkey)
    : panicking Instruction :=
  let lending_market_authority :=
    find_program_address [take 32 (pk_bytes lending_market)] program in
  let! token := programs_spl_token_program_id in
  Done (mkInstruction program
    [meta source_liquidity false; meta destination_liquidity false; meta reserve false;
     meta_readonly lending_market false; meta_readonly lending_market_authority false;
     meta_readonly sysvar_instructions_id false; meta_readonly token false]
    ([14] ++ to_le_bytes 8 liquidity_amount)).

Definition build_save_flash_repay_instruction (program : Pubkey)
    (liquidity_amount borrow_instruction_index : Z)
    (source_liquidity destination_liquidity fee_receiver host_fee_receiver reserve
     lending_market user_transfer_authority : Pubkey) : panicking Instruction :=
  let! token := programs_spl_token_program_id in
  Done (mkInstruction program
    [meta source_liquidity false; meta destination_liquidity false; meta fee_receiver false;
     meta host_fee_receiver false; meta reserve false; meta_readonly lending_market false;
     meta_readonly user_transfer_authority true; meta_readonly sysvar_instructions_id false;
     meta_readonly token false]
    ([15] ++ to_le_bytes 8 liquidity_amount ++ [borrow_instruction_index])).

Definition FLASH_BORROW_DISCRIMINATOR : list Z := [0x87; 0xe7; 0x34; 0xa7; 0x07; 0x34; 0xd4; 0xc1].
Definition FLASH_REPAY_DISCRIMINATOR : list Z := [0xb9; 0x75; 0x00; 0xcb; 0x60; 0xf5; 0xb4; 0xba].

Definition build_kamino_flash_borrow_instruction (program : Pubkey) (liquidity_amount : Z)
    (reserve lending_market reserve_source_liquidity user_destination_liquidity
     token_program : Pubkey) : Instruction :=
  let lending_market_authority :=
    find_program_address [take 32 (pk_bytes lending_market)] program in
  mkInstruction program
    [meta user_destination_liquidity false; meta reserve_source_liquidity false;
     meta reserve false; meta_readonly lending_market false;
     meta_readonly lending_market_authority false;
     meta_readonly sysvar_instructions_id false; meta_readonly token_program false]
    (FLASH_BORROW_DISCRIMINATOR ++ to_le_bytes 8 liquidity_amount).

Definition build_kamino_flash_repay_instruction (program : Pubkey)
    (liquidity_amount borrow_instruction_index : Z)
    (reserve lending_market user_source_liquidity reserve_destination_liquidity
     user_transfer_authority token_program : Pubkey) : Instruction :=
  mkInstruction program
    [meta user_source_liquidity false; meta reserve_destination_liquidity false;
     meta reserve false; meta_readonly lending_market false;
     meta_readonly user_transfer_authority true;
     meta_readonly sysvar_instructions_id false; meta_readonly token_program false]
    (FLASH_REPAY_DISCRIMINATOR ++ to_le_bytes 8 liquidity_amount ++ [borrow_instruction_index]).

(** *** swaps.rs *)

Definition raydium_clmm_program_id : panicking Pubkey :=
  unwrap_option (parse_pubkey "CAMMCzo5YL8w4VFF8KVHrK22GGUsp5VTaW7grrKgrWqK").
Definition orca_whirlpool_program_id : panicking Pubkey :=
  unwrap_option (parse_pubkey "whirLbMiicVdio4qvUfM5KAg6Ct8VwpYzGff3uctyCc").
Definition sanctum_program_id : panicking Pubkey :=
  unwrap_option (parse_pubkey "5ocnV1qiCgaQR8Jb8xWnVbApNzpWCDveWUig21uT3J9z").
Definition marinade_program_id : panicking Pubkey :=
  unwrap_option (parse_pubkey "MarBmsSgKXdrN1egZf5sqe1TMai9K1rChYNDJgjq7aD").

Record RaydiumClmmSwapParams := mkRaydiumClmmSwapParams {
  ray_clmm_program : Pubkey;
  ray_payer : Pubkey;
  ray_pool_state : Pubkey;
  ray_input_token_account : Pubkey;
  ray_output_token_account : Pubkey;
  ray_input_vault : Pubkey;
  ray_output_vault : Pubkey;
  ray_observation_state : Pubkey;
  ray_token_program : Pubkey;
  ray_amount_in : Z;
  ray_min_amount_out : Z;
  ray_amm_config : option Pubkey;
  ray_tick_arrays : list Pubkey
}.

Definition build_raydium_clmm_swap_instruction (p : RaydiumClmmSwapParams)
    : panicking Instruction :=
  let data := SWAP_DISCRIMINATOR ++ to_le_bytes 8 (ray_amount_in p)
              ++ to_le_bytes 8 (ray_min_amount_out p) in
  let accounts :=
    [meta_readonly (ray_payer p) true;
     meta_readonly (ray_clmm_program p) false;
     meta (ray_pool_state p) false;
     meta (ray_input_token_account p) false;
     meta (ray_output_token_account p) false;
     meta (ray_input_vault p) false;
     meta (ray_output_vault p) false;
     meta (ray_observation_state p) false;
     meta_readonly (ray_token_program p) false]
    ++ match ray_amm_config p with Some c => [meta_readonly c false] | None => [] end
    ++ ((fun t => meta t false) <$> ray_tick_arrays p) in
  let! program := raydium_clmm_program_id in
  Done (mkInstruction program accounts data).

Record OrcaWhirlpoolSwapParams := mkOrcaWhirlpoolSwapParams {
  orca_whirlpool_program : Pubkey;
  orca_token_authority : Pubkey;
  orca_whirlpool : Pubkey;
  orca_token_owner_account_a : Pubkey;
  orca_token_vault_a : Pubkey;
  orca_token_owner_account_b : Pubkey;
  orca_token_vault_b : Pubkey;
  orca_tick_array_0 : Pubkey;
  orca_tick_array_1 : Pubkey;
  orca_tick_array_2 : Pubkey;
  orca_oracle : Pubkey;
  orca_token_program : Pubkey;
  orca_amount : Z;
  orca_other_amount_threshold : Z;
  orca_sqrt_price_limit : Z;
  orca_amount_specified_is_input : bool;
  orca_a_to_b : bool
}.

Definition build_orca_whirlpool_swap_instruction (p : OrcaWhirlpoolSwapParams)
    : panicking Instruction :=
  let data := SWAP_DISCRIMINATOR ++ to_le_bytes 8 (orca_amount p)
              ++ to_le_bytes 8 (orca_other_amount_threshold p)
              ++ to_le_bytes 16 (orca_sqrt_price_limit p)
              ++ [if orca_amount_specified_is_input p then 1 else 0]
              ++ [if orca_a_to_b p then 1 else 0] in
  let accounts :=
    [meta_readonly (orca_token_program p) false;
     meta_readonly (orca_token_authority p) true;
     meta (orca_whirlpool p) false;
     meta (orca_token_owner_account_a p) false;
     meta (orca_token_vault_a p) false;
     meta (orca_token_owner_account_b p) false;
     meta (orca_token_vault_b p) false;
     meta (orca_tick_array_0 p) false;
     meta (orca_tick_array_1 p) false;
     meta (orca_tick_array_2 p) false;
     meta_readonly (orca_oracle p) false] in
  let! program := orca_whirlpool_program_id in
  Done (mkInstruction program accounts data).

Record SanctumSwapParams := mkSanctumSwapParams {
  san_sanctum_program : Pubkey;
  san_user : Pubkey;
  san_src_token_account : Pubkey;
  san_dst_token_account : Pubkey;
  san_pool : Pubkey;
  san_token_program : Pubkey;
  san_amount_in : Z;
  san_min_amount_out : Z
}.

Definition build_sanctum_swap_instruction (p : SanctumSwapParams) : panicking Instruction :=
  let data := SWAP_DISCRIMINATOR ++ to_le_bytes 8 (san_amount_in p)
              ++ to_le_bytes 8 (san_min_amount_out p) in
  let accounts :=
    [meta_readonly (san_user p) true; meta (san_pool p) false;
     meta (san_src_token_account p) false; meta (san_dst_token_account p) false;
     meta_readonly (san_token_program p) false] in
  let! program := sanctum_program_id in
  Done (mkInstruction program accounts data).

Record MarinadeSwapParams := mkMarinadeSwapParams {
  mar_marinade_program : Pubkey;
  mar_state : Pubkey;
  mar_msol_mint : Pubkey;
  mar_liq_pool_sol_leg_pda : Pubkey;
  mar_liq_pool_msol_leg : Pubkey;
  mar_liq_pool_msol_leg_authority : Pubkey;
  mar_transfer_from : Pubkey;
  mar_transfer_to : Pubkey;
  mar_transfer_from_authority : Pubkey;
  mar_token_program : Pubkey;
  mar_msol_amount : Z;
  mar_min_sol_receive : Z
}.

Definition build_marinade_swap_instruction (p : MarinadeSwapParams) : panicking Instruction :=
  let data := [14] ++ to_le_bytes 8 (mar_msol_amount p) ++ to_le_bytes 8 (mar_min_sol_receive p) in
  let accounts :=
    [meta (mar_state p) false; meta (mar_msol_mint p) false;
     meta (mar_liq_pool_sol_leg_pda p) false; meta (mar_liq_pool_msol_leg p) false;
     meta_readonly (mar_liq_pool_msol_leg_authority p) false;
     meta (mar_transfer_from p) false; meta (mar_transfer_to p) false;
     meta_readonly (mar_transfer_from_authority p) true;
     meta_readonly system_program_id false; meta_readonly (mar_token_program p) false] in
  let! program := marinade_program_id in
  Done (mkInstruction program accounts data).
End builders.

(* ------------------------------------------------------------------ *)
(** ** What the programs read back *)

(** The [u64] argument at byte [off], and the accounts that must sign. *)
Definition read_u64 (off : nat) (data : list Z) : Z := from_le_bytes (take 8 (drop off data)).
Definition read_u128 (off : nat) (data : list Z) : Z := from_le_bytes (take 16 (drop off data)).
Definition signers (ix : Instruction) : list Pubkey :=
  am_pubkey <$> filter (fun a => am_is_signer a = true) (ix_accounts ix).

Lemma read_le_app n pre a post :
  in_u (8 * Z.of_nat n) a ->
  from_le_bytes (take n (drop (length pre) (pre ++ to_le_bytes n a ++ post))) = a.
Proof.
  intros Ha. rewrite drop_app_length.
  rewrite <- (length_to_le_bytes n a) at 1. rewrite take_app_length. by apply from_to_le_bytes.
Qed.

Lemma read_u64_at off pre a post :
  is_u64 a -> length pre = off -> read_u64 off (pre ++ to_le_bytes 8 a ++ post) = a.
Proof. intros Ha <-. by apply (read_le_app 8). Qed.

Lemma read_u64_last off pre a :
  is_u64 a -> length pre = off -> read_u64 off (pre ++ to_le_bytes 8 a) = a.
Proof. intros Ha Hl. rewrite <- (app_nil_r (to_le_bytes 8 a)). by apply read_u64_at. Qed.

Lemma read_u128_at off pre a post :
  is_u128 a -> length pre = off -> read_u128 off (pre ++ to_le_bytes 16 a ++ post) = a.
Proof. intros Ha <-. by apply (read_le_app 16). Qed.

(** Reads a field after two leading pieces. *)
Lemma read_u64_at2 off pre mid a post :
  is_u64 a -> (length pre + length mid)%nat = off ->
  read_u64 off (pre ++ mid ++ to_le_bytes 8 a ++ post) = a.
Proof. intros Ha <-. rewrite app_assoc. apply read_u64_at; [done|apply length_app]. Qed.

Lemma read_u64_last2 off pre mid a :
  is_u64 a -> (length pre + length mid)%nat = off ->
  read_u64 off (pre ++ mid ++ to_le_bytes 8 a) = a.
Proof. intros Ha <-. rewrite app_assoc. apply read_u64_last; [done|apply length_app]. Qed.

(** A builder returns an instruction with [P], unless the program id it needs
    does not parse. *)
Definition builds (r : panicking Instruction) (id : panicking Pubkey) (P : Instruction -> Prop) : Prop :=
  match r with Done ix => P ix | Panic => id = Panic end.

Section decode.
Context `{SolanaSdk}.

(** The flash-loan builders of both providers encode an amount that reads
    back exactly after the discriminator; the repay ends with the borrow's
    instruction index; only the repaying authority signs, and a borrow
    needs no signature. A builder panics only if a program id does not parse. *)
Theorem flash_instructions_decode program amount index reserve market src dst auth token fee host :
  is_u64 amount ->
  let kb := build_kamino_flash_borrow_instruction program amount reserve market src dst token in
  let kr := build_kamino_flash_repay_instruction program amount index reserve market src dst auth token in
  (read_u64 8 (ix_data kb) = amount /\ take 8 (ix_data kb) = FLASH_BORROW_DISCRIMINATOR
   /\ length (ix_data kb) = 16%nat /\ signers kb = [])
  /\ (read_u64 8 (ix_data kr) = amount /\ take 8 (ix_data kr) = FLASH_REPAY_DISCRIMINATOR
      /\ drop 16 (ix_data kr) = [index] /\ signers kr = [auth])
  /\ builds (build_save_flash_borrow_instruction program amount src dst reserve market)
        programs_spl_token_program_id (fun sb =>
      head (ix_data sb) = Some 14 /\ read_u64 1 (ix_data sb) = amount
      /\ length (ix_data sb) = 9%nat /\ signers sb = [])
  /\ builds (build_save_flash_repay_instruction program amount index src dst fee host reserve market auth)
        programs_spl_token_program_id (fun sr =>
      head (ix_data sr) = Some 15 /\ read_u64 1 (ix_data sr) = amount
      /\ drop 9 (ix_data sr) = [index] /\ signers sr = [auth]).
Proof.
  intros Ha. cbv zeta. split_and!; try done.
  - by apply read_u64_last.
  - by apply read_u64_at.
  - unfold builds, build_save_flash_borrow_instruction.
    destruct programs_spl_token_program_id; [|done]. cbv beta iota zeta.
    split_and!; try done. by apply (read_u64_last 1 [14]).
  - unfold builds, build_save_flash_repay_instruction.
    destruct programs_spl_token_program_id; [|done]. cbv beta iota zeta.
    split_and!; try done. by apply (read_u64_at 1 [15]).
Qed.

(** Every swap builder and the liquidation builder encode the input amount
    and the minimum output so that they read back exactly at the offsets
    after the discriminator, and exactly the trading authority signs; a
    builder panics only if its program id does not parse. *)
Theorem trade_instructions_decode (k : KaminoLiquidateParams) (r : RaydiumClmmSwapParams)
    (o : OrcaWhirlpoolSwapParams) (s : SanctumSwapParams) (m : MarinadeSwapParams) :
  Forall is_u64 [klp_liquidity_amount k; klp_min_acceptable_received_collateral k;
    ray_amount_in r; ray_min_amount_out r; orca_amount o; orca_other_amount_threshold o;
    san_amount_in s; san_min_amount_out s; mar_msol_amount m; mar_min_sol_receive m] ->
  is_u128 (orca_sqrt_price_limit o) ->
  builds (build_kamino_liquidate_instruction k) kamino_program_id (fun ix =>
     read_u64 8 (ix_data ix) = klp_liquidity_amount k
     /\ read_u64 16 (ix_data ix) = klp_min_acceptable_received_collateral k
     /\ signers ix = klp_liquidator k :: signers (mkInstruction (ix_program_id ix) (klp_remaining_accounts k) []))
  /\ builds (build_raydium_clmm_swap_instruction r) raydium_clmm_program_id (fun ix =>
     read_u64 8 (ix_data ix) = ray_amount_in r /\ read_u64 16 (ix_data ix) = ray_min_amount_out r
     /\ signers ix = [ray_payer r])
  /\ builds (build_orca_whirlpool_swap_instruction o) orca_whirlpool_program_id (fun ix =>
     read_u64 8 (ix_data ix) = orca_amount o /\ read_u64 16 (ix_data ix) = orca_other_amount_threshold o
     /\ read_u128 24 (ix_data ix) = orca_sqrt_price_limit o
     /\ drop 40 (ix_data ix) = [if orca_amount_specified_is_input o then 1 else 0;
                                if orca_a_to_b o then 1 else 0]
     /\ signers ix = [orca_token_authority o])
  /\ builds (build_sanctum_swap_instruction s) sanctum_program_id (fun ix =>
     read_u64 8 (ix_data ix) = san_amount_in s /\ read_u64 16 (ix_data ix) = san_min_amount_out s
     /\ signers ix = [san_user s])
  /\ builds (build_marinade_swap_instruction m) marinade_program_id (fun ix =>
     head (ix_data ix) = Some 14 /\ read_u64 1 (ix_data ix) = mar_msol_amount m
     /\ read_u64 9 (ix_data ix) = mar_min_sol_receive m
     /\ signers ix = [mar_transfer_from_authority m]).
Proof.
  intros HF H128. assert (HF' := HF). rewrite list.Forall_forall in HF'.
  rename HF' into Hu. clear HF.
  split_and!.
  - unfold builds, build_kamino_liquidate_instruction. destruct kamino_program_id; [|done].
    cbv beta iota zeta. split_and!.
    + apply (read_u64_at 8 LIQUIDATE_DISCRIMINATOR); [apply Hu; set_solver|done].
    + apply (read_u64_last2 16 LIQUIDATE_DISCRIMINATOR); [apply Hu; set_solver|done].
    + done.
  - unfold builds, build_raydium_clmm_swap_instruction. destruct raydium_clmm_program_id; [|done].
    cbv beta iota zeta. split_and!.
    + apply (read_u64_at 8 SWAP_DISCRIMINATOR); [apply Hu; set_solver|done].
    + apply (read_u64_last2 16 SWAP_DISCRIMINATOR); [apply Hu; set_solver|done].
    + unfold signers. cbn [ix_accounts]. rewrite !list.filter_app, !fmap_app.
      assert (Ht : filter (fun a => am_is_signer a = true) ((fun t => meta t false) <$> ray_tick_arrays r) = []).
      { apply filter_none. by intros x (t & -> & _)%list_elem_of_fmap. }
      rewrite Ht. by destruct (ray_amm_config r).
  - unfold builds, build_orca_whirlpool_swap_instruction. destruct orca_whirlpool_program_id; [|done].
    cbv beta iota zeta. split_and!; try done.
    + apply (read_u64_at 8 SWAP_DISCRIMINATOR); [apply Hu; set_solver|done].
    + apply (read_u64_at2 16 SWAP_DISCRIMINATOR); [apply Hu; set_solver|done].
    + cbn [ix_data]. rewrite 2!app_assoc. by apply (read_u128_at 24).
  - unfold builds, build_sanctum_swap_instruction. destruct sanctum_program_id; [|done].
    cbv beta iota zeta. split_and!; try done.
    + apply (read_u64_at 8 SWAP_DISCRIMINATOR); [apply Hu; set_solver|done].
    + apply (read_u64_last2 16 SWAP_DISCRIMINATOR); [apply Hu; set_solver|done].
  - unfold builds, build_marinade_swap_instruction. destruct marinade_program_id; [|done].
    cbv beta iota zeta. split_and!; try done.
    + apply (read_u64_at 1 [14]); [apply Hu; set_solver|done].
    + apply (read_u64_last2 9 [14]); [apply Hu; set_solver|done].
Qed.
End decode.

(** ** Witnesses, on the SDK of [Bundler] *)

Definition ikey (b : Z) : Pubkey := mkPubkey (replicate 32 b).

Lemma flash_instructions_decode_witness :
  let kb := @build_kamino_flash_borrow_instruction toy_sdk (ikey 1) 5000000 (ikey 2) (ikey 3)
              (ikey 4) (ikey 5) (ikey 7) in
  read_u64 8 (ix_data kb) = 5000000 /\ take 8 (ix_data kb) = FLASH_BORROW_DISCRIMINATOR
  /\ length (ix_data kb) = 16%nat /\ signers kb = [].
Proof.
  apply (@flash_instructions_decode toy_sdk (ikey 1) 5000000 0 (ikey 2) (ikey 3) (ikey 4) (ikey 5)
           (ikey 6) (ikey 7) (ikey 8) (ikey 9)).
  unfold in_u. lia.
Defined.

Definition sample_swap : SanctumSwapParams :=
  mkSanctumSwapParams (ikey 1) (ikey 2) (ikey 3) (ikey 4) (ikey 5) (ikey 6) 700 650.

Lemma trade_instructions_decode_witness :
  builds (@build_sanctum_swap_instruction toy_sdk sample_swap) (@sanctum_program_id toy_sdk)
    (fun ix => read_u64 8 (ix_data ix) = 700 /\ read_u64 16 (ix_data ix) = 650 /\ signers ix = [ikey 2]).
Proof.
  destruct (@trade_instructions_decode toy_sdk
    (mkKaminoLiquidateParams (ikey 1) (ikey 2) (ikey 3) (ikey 4) (ikey 5) (ikey 6) (ikey 7) (ikey 8)
       (ikey 9) (ikey 10) (ikey 11) (ikey 12) 100 90 [])
    (mkRaydiumClmmSwapParams (ikey 1) (ikey 2) (ikey 3) (ikey 4) (ikey 5) (ikey 6) (ikey 7) (ikey 8)
       (ikey 9) 100 90 None [ikey 10])
    (mkOrcaWhirlpoolSwapParams (ikey 1) (ikey 2) (ikey 3) (ikey 4) (ikey 5) (ikey 6) (ikey 7) (ikey 8)
       (ikey 9) (ikey 10) (ikey 11) (ikey 12) 100 90 80 true false)
    sample_swap
    (mkMarinadeSwapParams (ikey 1) (ikey 2) (ikey 3) (ikey 4) (ikey 5) (ikey 6) (ikey 7) (ikey 8)
       (ikey 9) (ikey 10) 100 90)) as (_ & _ & _ & Hs & _).
  - cbn. repeat (constructor; [unfold in_u; lia|]). constructor.
  - unfold in_u. cbn. lia.
  - exact Hs.
Defined.
