(* ===== verification/BundlerTests.v ===== *)
(** * The tests of crates/bundler.

    [new_unique] draws distinct keys: [unique i] is the [i]-th. The tests hold
    for every SDK whose program-id literals parse and whose derived addresses
    do not collide; the two assembly tests are decided by the serialized size
    alone. *)

From Stdlib Require Import ZArith Lia.
From stdpp Require Import base gmap list strings option.
From S2P Require Import Prelude Lists Harness CoreTypes Bundler Instructions.

Open Scope rust_scope.

Section tests.
Context `{SolanaSdk} (unique : nat -> Pubkey).

(** The keys [unique from .. unique (from + n - 1)]. *)
Definition uniques (from n : nat) : list Pubkey := unique <$> seq from n.

(** ** alt.rs and alt_manager.rs *)

Definition create_instruction_derives_a_deterministic_alt_address : test :=
  let alt_a := (build_create_instruction (unique 0) (unique 1) 1000).1 in
  let alt_b := (build_create_instruction (unique 0) (unique 1) 1000).1 in
  assert_eq alt_a alt_b.
Definition different_recent_slot_derives_a_different_alt_address : test :=
  let alt_a := (build_create_instruction (unique 0) (unique 1) 1000).1 in
  let alt_b := (build_create_instruction (unique 0) (unique 1) 2000).1 in
  assert_ne alt_a alt_b.
Definition splits_addresses_into_batches_of_the_configured_size : test :=
  let! instructions := unwrap (build_extend_instructions (unique 0) (unique 1) (unique 2) (uniques 3 45)) in
  assert_eq (length instructions) 3%nat.
Definition rejects_more_addresses_than_a_single_table_can_hold : test :=
  match build_extend_instructions (unique 0) (unique 1) (unique 2) (uniques 3 300) with
  | Err (ExceedsTableCapacity n) => assert_eq n 300
  | Ok _ => Panic
  end.

Definition test_alt_manager_lifecycle (alt_program_id : Pubkey) : test :=
  let addrs := uniques 2 50 in
  let! planned := unwrap (plan_create_and_populate (unique 0) (unique 1) 100 addrs) in
  let '(alt_key, create_ix, extend_ixs) := planned in
  do! assert_eq (length extend_ixs) 3%nat in
  do! assert_eq (ix_program_id create_ix) alt_program_id in
  let manager := register_table (mkAddressLookupTableAccount alt_key addrs) AltManager_new in
  let! retrieved := unwrap_option (get_table manager alt_key) in
  assert_eq (length (alt_addresses retrieved)) 50%nat.

(** ** ata.rs *)

Definition derives_the_same_address_as_the_official_spl_helper : test :=
  let! token_program := spl_token_program_id in
  let derived := required_atas (unique 0) [unique 1] token_program in
  let expected := get_associated_token_address (unique 0) (unique 1) token_program in
  assert_eq derived [expected].
Definition deduplicates_repeated_mints : test :=
  let! token_program := spl_token_program_id in
  assert_eq (length (required_atas (unique 0) [unique 1; unique 1; unique 1] token_program)) 1%nat.
Definition different_mints_produce_different_atas : test :=
  let! token_program := spl_token_program_id in
  let derived := required_atas (unique 0) [unique 1; unique 2] token_program in
  do! assert_eq (length derived) 2%nat in
  let! a := unwrap_option (derived !! 0%nat) in
  let! b := unwrap_option (derived !! 1%nat) in
  assert_ne a b.
Definition create_all_atas_idempotent_produces_one_instruction_per_unique_mint : test :=
  let! token_program := spl_token_program_id in
  let instructions := create_all_atas_idempotent (unique 0) (unique 1)
    [unique 2; unique 3; unique 2] token_program in
  assert_eq (length instructions) 2%nat.

(** ** lib.rs *)

Definition small_params (transfer : Instruction) (payer : Pubkey) : BundleParams :=
  mkBundleParams [transfer] 5000 (Some 1000) payer (replicate 32 0) [].
Definition assembles_a_small_transaction_under_the_size_ceiling (transfer : Instruction)
    (payer_key : Pubkey) (payer : Signer) : test :=
  let! tx := unwrap (assemble (small_params transfer payer_key) payer) in
  let! bytes := unwrap (to_core_bundle_bytes tx) in
  assert (Z.of_nat (length bytes) <=? MAX_TX_BYTES).

Definition oversized_params (transfer : Pubkey -> Instruction) (payer : Pubkey) : BundleParams :=
  mkBundleParams (transfer <$> uniques 1 40) 200000 None payer (replicate 32 0) [].
Definition oversized_instruction_set_is_rejected_not_truncated (transfer : Pubkey -> Instruction)
    (payer_key : Pubkey) (payer : Signer) : test :=
  match assemble (oversized_params transfer payer_key) payer with
  | Err (ExceedsMaxSize actual) => assert (actual >? MAX_TX_BYTES)
  | _ => Panic
  end.

(** ** liquidations.rs; every key is the same dummy *)

Definition expect_ix (built : panicking Instruction) (program : panicking Pubkey)
    (accounts data : nat) (prefix : list Z) (body : list Z -> test) : test :=
  let! ix := built in
  let! program_id := program in
  do! assert_eq (ix_program_id ix) program_id in
  do! assert_eq (length (ix_accounts ix)) accounts in
  do! assert_eq (length (ix_data ix)) data in
  do! assert_eq (take (length prefix) (ix_data ix)) prefix in
  body (ix_data ix).
Definition no_more (_ : list Z) : test := Done tt.

Definition test_build_kamino_liquidate_instruction (dummy : Pubkey) : test :=
  expect_ix (build_kamino_liquidate_instruction
      (mkKaminoLiquidateParams dummy dummy dummy dummy dummy dummy dummy dummy dummy dummy dummy dummy
         1000000 500000 []))
    kamino_program_id 12 24 [0xb1; 0x47; 0x9a; 0xbc; 0xe2; 0x85; 0x4a; 0x37] no_more.

Definition test_build_save_flash_borrow_and_repay_instructions (dummy : Pubkey) : test :=
  let! program_id := save_program_id in
  do! expect_ix (build_save_flash_borrow_instruction program_id 1000000 dummy dummy dummy dummy)
        save_program_id 7 9 [14] (fun data =>
        assert_eq (take 8 (drop 1 data)) (to_le_bytes 8 1000000)) in
  expect_ix (build_save_flash_repay_instruction program_id 1000300 0 dummy dummy dummy dummy dummy dummy dummy)
    save_program_id 9 10 [15] (fun data =>
    do! assert_eq (take 8 (drop 1 data)) (to_le_bytes 8 1000300) in
    assert_eq (data !! 9%nat) (Some 0)).

Definition test_build_kamino_flash_borrow_and_repay_instructions (dummy : Pubkey) : test :=
  let! program_id := kamino_program_id in
  do! expect_ix (Done (build_kamino_flash_borrow_instruction program_id 5000000 dummy dummy dummy dummy dummy))
        kamino_program_id 7 16 [0x87; 0xe7; 0x34; 0xa7; 0x07; 0x34; 0xd4; 0xc1] no_more in
  expect_ix (Done (build_kamino_flash_repay_instruction program_id 5001500 1 dummy dummy dummy dummy dummy dummy))
    kamino_program_id 7 17 [0xb9; 0x75; 0x00; 0xcb; 0x60; 0xf5; 0xb4; 0xba] no_more.

(** ** swaps.rs *)

Definition test_build_raydium_clmm_swap_instruction (dummy : Pubkey) : test :=
  expect_ix (build_raydium_clmm_swap_instruction
      (mkRaydiumClmmSwapParams dummy dummy dummy dummy dummy dummy dummy dummy dummy 1000000 990000 None []))
    raydium_clmm_program_id 9 24 [] no_more.
Definition test_build_orca_whirlpool_swap_instruction (dummy : Pubkey) : test :=
  let! whirlpool_program := orca_whirlpool_program_id in
  expect_ix (build_orca_whirlpool_swap_instruction
      (mkOrcaWhirlpoolSwapParams whirlpool_program dummy dummy dummy dummy dummy dummy dummy dummy dummy
         dummy dummy 500000 495000 0 true true))
    orca_whirlpool_program_id 11 42 [] no_more.
Definition test_build_sanctum_swap_instruction (dummy : Pubkey) : test :=
  let! sanctum_program := sanctum_program_id in
  expect_ix (build_sanctum_swap_instruction
      (mkSanctumSwapParams sanctum_program dummy dummy dummy dummy dummy 2000000 1995000))
    sanctum_program_id 5 24 [] no_more.
Definition test_build_marinade_swap_instruction (dummy : Pubkey) : test :=
  let! marinade_program := marinade_program_id in
  expect_ix (build_marinade_swap_instruction
      (mkMarinadeSwapParams marinade_program dummy dummy dummy dummy dummy dummy dummy dummy dummy
         3000000 2990000))
    marinade_program_id 10 17 [14] no_more.

(* -------------------------------------------------------------- *)

Context (Hunique : forall i j, unique i = unique j -> i = j).

Lemma alt_tests_pass :
  (forall a p s s', (create_lookup_table a p s).2 = (create_lookup_table a p s').2 -> s = s') ->
  forallb passes [create_instruction_derives_a_deterministic_alt_address;
                  different_recent_slot_derives_a_different_alt_address;
                  splits_addresses_into_batches_of_the_configured_size;
                  rejects_more_addresses_than_a_single_table_can_hold] = true.
Proof.
  intros Hslot. cbn [forallb]. rewrite !andb_true_iff. split_and!; [..|done].
  - by apply assert_eq_pass.
  - apply passes_assert_ne. unfold build_create_instruction.
    specialize (Hslot (unique 0) (unique 1) 1000 2000).
    destruct (create_lookup_table _ _ 1000), (create_lookup_table _ _ 2000). cbn in *. naive_solver.
  - vm_compute. reflexivity.
  - vm_compute. reflexivity.
Qed.

Lemma alt_manager_test_passes alt_program_id :
  (forall a p s, ix_program_id (create_lookup_table a p s).1 = alt_program_id) ->
  passes (test_alt_manager_lifecycle alt_program_id) = true.
Proof.
  intros Hid. unfold test_alt_manager_lifecycle, plan_create_and_populate, build_create_instruction.
  specialize (Hid (unique 1) (unique 0) 100).
  destruct (create_lookup_table _ _ _) as [ix key]. cbn in Hid.
  assert (Hext : exists ixs, build_extend_instructions key (unique 1) (unique 0) (uniques 2 50) = Ok ixs
                             /\ length ixs = 3%nat).
  { unfold build_extend_instructions. eexists. split; [reflexivity|]. reflexivity. }
  destruct Hext as (ixs & -> & Hl). cbn [unwrap].
  set (table := mkAddressLookupTableAccount key (uniques 2 50)).
  assert (get_table (register_table table AltManager_new) key = Some table) as ->
    by exact (lookup_insert_eq (M := gmap Pubkey) ∅ key table).
  cbn [unwrap_option].
  test_steps; done.
Qed.

(** Equality tests on distinct keys. *)
Lemma unique_decide i j : bool_decide (unique i = unique j) = (i =? j)%nat.
Proof.
  destruct (Nat.eqb_spec i j) as [->|Hne]; [by apply bool_decide_eq_true|].
  apply bool_decide_eq_false. by intros ?%Hunique.
Qed.

Lemma dedup_repeated (a : Pubkey) : dedup_by_key id [] [a; a; a] = [a].
Proof. cbn. repeat case_decide; set_solver. Qed.
Lemma dedup_distinct (a b : Pubkey) : a <> b -> dedup_by_key id [] [a; b] = [a; b].
Proof. intros Hab. cbn. repeat case_decide; set_solver. Qed.
Lemma dedup_returning (a b : Pubkey) : a <> b -> dedup_by_key id [] [a; b; a] = [a; b].
Proof. intros Hab. cbn. repeat case_decide; set_solver. Qed.

Lemma ata_tests_pass :
  is_some (parse_pubkey "TokenkegQfeZyiNwAJbNbGKPFXCWuBvf9Ss623VQ5DA") = true ->
  (forall o m m' p, get_associated_token_address o m p = get_associated_token_address o m' p -> m = m') ->
  forallb passes [derives_the_same_address_as_the_official_spl_helper; deduplicates_repeated_mints;
                  different_mints_produce_different_atas;
                  create_all_atas_idempotent_produces_one_instruction_per_unique_mint] = true.
Proof.
  intros Hparse Hata. unfold derives_the_same_address_as_the_official_spl_helper,
    deduplicates_repeated_mints, different_mints_produce_different_atas,
    create_all_atas_idempotent_produces_one_instruction_per_unique_mint, spl_token_program_id.
  destruct (parse_pubkey _) as [tp|]; [|done].
  assert (Hab : get_associated_token_address (unique 0) (unique 1) tp
                <> get_associated_token_address (unique 0) (unique 2) tp)
    by (by intros ?%Hata%Hunique).
  unfold required_atas, create_all_atas_idempotent. cbn [fmap list_fmap].
  rewrite dedup_repeated, dedup_returning by (by intros ?%Hunique).
  rewrite dedup_distinct by done. cbn [forallb]. rewrite !andb_true_iff. split_and!; [..|done].
  - by apply assert_eq_pass.
  - done.
  - cbn. test_steps; [done|]. by apply passes_assert_ne.
  - done.
Qed.

(** The two assembly tests, once the message compiles and is signed: the
    serialized size decides. *)
Lemma assembly_tests_by_size transfer payer_key payer m sigs bytes :
  try_compile payer_key (budgeted_instructions (small_params transfer payer_key)) [] (replicate 32 0) = Ok m ->
  sign m payer = Ok sigs -> bincode_serialize sigs m = Some bytes ->
  passes (assembles_a_small_transaction_under_the_size_ceiling transfer payer_key payer)
  = (Z.of_nat (length bytes) <=? MAX_TX_BYTES).
Proof.
  intros Hm Hs Hb. unfold assembles_a_small_transaction_under_the_size_ceiling, assemble, to_core_bundle_bytes, serialize.
  cbn [bp_payer bp_address_lookup_tables bp_recent_blockhash small_params] in *. rewrite Hm, Hs. cbn [tx_signatures tx_message].
  rewrite Hb, Z.gtb_ltb, Z.leb_antisym. destruct (MAX_TX_BYTES <? _) eqn:E; cbn; [done|].
  rewrite Hb. cbn. by rewrite passes_assert, Z.leb_antisym, E.
Qed.

Lemma oversized_test_by_size transfer payer_key payer m sigs bytes :
  try_compile payer_key (budgeted_instructions (oversized_params transfer payer_key)) [] (replicate 32 0) = Ok m ->
  sign m payer = Ok sigs -> bincode_serialize sigs m = Some bytes ->
  passes (oversized_instruction_set_is_rejected_not_truncated transfer payer_key payer)
  = (MAX_TX_BYTES <? Z.of_nat (length bytes)).
Proof.
  intros Hm Hs Hb. unfold oversized_instruction_set_is_rejected_not_truncated, assemble, serialize.
  cbn [bp_payer bp_address_lookup_tables bp_recent_blockhash oversized_params] in *. rewrite Hm, Hs. cbn [tx_signatures tx_message].
  rewrite Hb, Z.gtb_ltb. destruct (MAX_TX_BYTES <? _) eqn:E; [|done].
  by rewrite passes_assert, Z.gtb_ltb.
Qed.

(** The builders need the program ids to parse. *)
Lemma builder_tests_pass dummy :
  (forall id, id ∈ [kamino_program_id; save_program_id; programs_spl_token_program_id;
                    raydium_clmm_program_id; orca_whirlpool_program_id; sanctum_program_id;
                    marinade_program_id] -> exists k, id = Done k) ->
  forallb passes [test_build_kamino_liquidate_instruction dummy;
                  test_build_save_flash_borrow_and_repay_instructions dummy;
                  test_build_kamino_flash_borrow_and_repay_instructions dummy;
                  test_build_raydium_clmm_swap_instruction dummy;
                  test_build_orca_whirlpool_swap_instruction dummy;
                  test_build_sanctum_swap_instruction dummy;
                  test_build_marinade_swap_instruction dummy] = true.
Proof.
  intros Hids. cbn [forallb]. rewrite !andb_true_iff.
  unfold test_build_kamino_liquidate_instruction, test_build_save_flash_borrow_and_repay_instructions,
    test_build_kamino_flash_borrow_and_repay_instructions, test_build_raydium_clmm_swap_instruction,
    test_build_orca_whirlpool_swap_instruction, test_build_sanctum_swap_instruction,
    test_build_marinade_swap_instruction, expect_ix,
    build_kamino_liquidate_instruction, build_save_flash_borrow_instruction,
    build_save_flash_repay_instruction, build_raydium_clmm_swap_instruction,
    build_orca_whirlpool_swap_instruction, build_sanctum_swap_instruction, build_marinade_swap_instruction.
  destruct (Hids kamino_program_id ltac:(set_solver)) as [k1 ->].
  destruct (Hids save_program_id ltac:(set_solver)) as [k2 ->].
  destruct (Hids programs_spl_token_program_id ltac:(set_solver)) as [k3 ->].
  destruct (Hids raydium_clmm_program_id ltac:(set_solver)) as [k4 ->].
  destruct (Hids orca_whirlpool_program_id ltac:(set_solver)) as [k5 ->].
  destruct (Hids sanctum_program_id ltac:(set_solver)) as [k6 ->].
  destruct (Hids marinade_program_id ltac:(set_solver)) as [k7 ->].
  split_and!; [..|done]; unfold no_more; cbv zeta; test_steps; reflexivity.
Qed.
End tests.
