(* ===== verification/CuProfile.v ===== *)
(** * crates/sim/src/cu_profile.rs: profiling a transaction in LiteSVM.

    [LiteSvm] is what the profiler uses of LiteSVM and the SDK: a virtual
    machine with airdrops and transactions, message and transaction
    construction, and the printed form of errors. [profile_instructions] is
    the whole function over it. *)

From Stdlib Require Import ZArith Lia.
From stdpp Require Import base gmap list strings option.
From S2P Require Import Prelude Lists Harness CoreTypes Bundler.

Open Scope rust_scope.

Record TransactionMetadata := mkTransactionMetadata {
  tm_compute_units_consumed : Z;
  tm_logs : list string
}.

Class LiteSvm := {
  Vm : Type;
  VmError : Type;
  VmKeypair : Type;
  VmMessage : Type;
  VmTransaction : Type;
  svm_new : Vm;
  airdrop : Pubkey -> Z -> Vm -> result Vm VmError;
  latest_blockhash : Vm -> Hash;
  send_transaction : VmTransaction -> Vm -> result TransactionMetadata VmError;
  keypair_pubkey : VmKeypair -> Pubkey;
  message_new : list Instruction -> option Pubkey -> VmMessage;
  (** [Transaction::new] panics when the signers do not cover the message. *)
  transaction_new : list VmKeypair -> VmMessage -> Hash -> panicking VmTransaction;
  debug_error : VmError -> string
}.

Record CuProfile := mkCuProfile { compute_units_consumed : Z; logs : list string }.

Inductive ProfileError := SimulationFailed (reason : string).
#[global] Instance CuProfile_eq_dec : EqDecision CuProfile.
Proof. solve_decision. Defined.
#[global] Instance ProfileError_eq_dec : EqDecision ProfileError.
Proof. solve_decision. Defined.

Section profile.
Context `{LiteSvm}.

Definition simulation_failed {A} (r : result A VmError) : result A ProfileError :=
  match r with Ok a => Ok a | Err e => Err (SimulationFailed (debug_error e)) end.

(** The [for] loop over the accounts to fund, with its early return. *)
Fixpoint fund (accounts : list (Pubkey * Z)) (svm : Vm) : result Vm ProfileError :=
  match accounts with
  | [] => Ok svm
  | (pubkey, lamports) :: accounts =>
      let? svm := simulation_failed (airdrop pubkey lamports svm) in fund accounts svm
  end.

Definition PAYER_LAMPORTS : Z := 10000000000.

Definition profile_instructions (instructions : list Instruction) (payer : VmKeypair)
    (funded_accounts : list (Pubkey * Z)) : panicking (result CuProfile ProfileError) :=
  let svm := svm_new in
  match simulation_failed (airdrop (keypair_pubkey payer) PAYER_LAMPORTS svm) with
  | Err e => Done (Err e)
  | Ok svm =>
      match fund funded_accounts svm with
      | Err e => Done (Err e)
      | Ok svm =>
          let message := message_new instructions (Some (keypair_pubkey payer)) in
          let blockhash := latest_blockhash svm in
          let! tx := transaction_new [payer] message blockhash in
          Done (let? res := simulation_failed (send_transaction tx svm) in
                Ok (mkCuProfile (tm_compute_units_consumed res) (tm_logs res)))
      end
  end.

(** The module's own tests. *)
Definition measures_real_cu_for_a_known_cheap_instruction (ix : Instruction) (payer : VmKeypair) : test :=
  let! profiled := profile_instructions [ix] payer [] in
  let! profile := unwrap profiled in
  do! assert (compute_units_consumed profile >? 0) in
  assert (compute_units_consumed profile <? 50000).
Definition multiple_instructions_in_one_transaction_are_profiled_together
    (instructions : list Instruction) (payer : VmKeypair) : test :=
  let! single := profile_instructions (take 1 instructions) payer [] in
  let! single := unwrap single in
  let! double := profile_instructions instructions payer [] in
  let! double := unwrap double in
  assert (compute_units_consumed single <=? compute_units_consumed double).

(** ** Specification *)

(** The airdrops asked for, the payer's first. *)
Definition requests (payer : VmKeypair) (funded_accounts : list (Pubkey * Z)) : list (Pubkey * Z) :=
  (keypair_pubkey payer, PAYER_LAMPORTS) :: funded_accounts.

(** [svm'] is [svm] after granting the requests in order. *)
Inductive granted : list (Pubkey * Z) -> Vm -> Vm -> Prop :=
| granted_nil svm : granted [] svm svm
| granted_cons k n rs svm svm1 svm' :
    airdrop k n svm = Ok svm1 -> granted rs svm1 svm' -> granted ((k, n) :: rs) svm svm'.

(** The first refused request of a list, after the granted ones before it. *)
Definition refused (rs : list (Pubkey * Z)) (svm : Vm) (e : VmError) : Prop :=
  exists before k n after svm', rs = before ++ (k, n) :: after
    /\ granted before svm svm' /\ airdrop k n svm' = Err e.

Lemma fund_spec rs svm :
  match fund rs svm with
  | Ok svm' => granted rs svm svm'
  | Err (SimulationFailed s) => exists e, refused rs svm e /\ s = debug_error e
  end.
Proof.
  revert svm. induction rs as [|[k n] rs IH]; intros svm; cbn [fund]; [constructor|].
  destruct (airdrop k n svm) as [svm1|e] eqn:E; cbn [simulation_failed].
  - specialize (IH svm1). destruct (fund rs svm1) as [svm'|[s]]; [by econstructor|].
    destruct IH as (e & (before & k' & n' & after & svm' & -> & Hg & He) & ->).
    exists e. split; [|done]. exists ((k, n) :: before), k', n', after, svm'.
    split_and!; [done|by econstructor|done].
  - exists e. split; [|done]. exists [], k, n, rs, svm. split_and!; [done|constructor|done].
Qed.

Lemma profile_funds_first instructions payer funded :
  profile_instructions instructions payer funded
  = match fund (requests payer funded) svm_new with
    | Err e => Done (Err e)
    | Ok svm =>
        let! tx := transaction_new [payer] (message_new instructions (Some (keypair_pubkey payer)))
                     (latest_blockhash svm) in
        Done (let? res := simulation_failed (send_transaction tx svm) in
              Ok (mkCuProfile (tm_compute_units_consumed res) (tm_logs res)))
    end.
Proof.
  unfold profile_instructions, requests. cbn [fund]. by destruct (simulation_failed _).
Qed.

(** Whatever the virtual machine does: a profile is what the machine measured
    for one transaction with exactly the given instructions, paid and signed by
    the payer, sent after the payer and then every listed account were funded
    in order; an error is the printed refusal of the first refused airdrop or
    of that transaction; a panic is a message the payer alone cannot sign. *)
Theorem profile_instructions_spec instructions payer funded :
  let message := message_new instructions (Some (keypair_pubkey payer)) in
  match profile_instructions instructions payer funded with
  | Done (Ok p) => exists svm tx res,
      granted (requests payer funded) svm_new svm
      /\ transaction_new [payer] message (latest_blockhash svm) = Done tx
      /\ send_transaction tx svm = Ok res
      /\ compute_units_consumed p = tm_compute_units_consumed res /\ logs p = tm_logs res
  | Done (Err (SimulationFailed s)) => exists e, s = debug_error e
      /\ (refused (requests payer funded) svm_new e
          \/ exists svm tx, granted (requests payer funded) svm_new svm
             /\ transaction_new [payer] message (latest_blockhash svm) = Done tx
             /\ send_transaction tx svm = Err e)
  | Panic => exists svm, granted (requests payer funded) svm_new svm
      /\ transaction_new [payer] message (latest_blockhash svm) = Panic
  end.
Proof.
  cbv zeta. rewrite profile_funds_first.
  pose proof (fund_spec (requests payer funded) svm_new) as Hf.
  destruct (fund _ _) as [svm|[s]].
  2: { destruct Hf as (e & Hr & ->). exists e. split; [done|by left]. }
  destruct (transaction_new _ _ _) as [tx|] eqn:Et; [|by exists svm].
  destruct (send_transaction tx svm) as [res|e] eqn:Es; cbn [simulation_failed].
  - exists svm, tx, res. done.
  - exists e. split; [done|]. right. by exists svm, tx.
Qed.
End profile.

(** ** A concrete machine: balances, 150 compute units an instruction, and a
    fee the payer must afford *)

#[local] Instance toy_svm : LiteSvm := {|
  Vm := gmap Pubkey Z;
  VmError := string;
  VmKeypair := Pubkey;
  VmMessage := list Instruction * option Pubkey;
  VmTransaction := list Instruction * Pubkey;
  svm_new := ∅;
  airdrop k n svm := if n <=? 0 then Err "no lamports" else Ok (<[k := n]> svm);
  latest_blockhash _ := [];
  send_transaction tx svm :=
    if 5000 <=? default 0 (svm !! tx.2)
    then Ok (mkTransactionMetadata (150 * Z.of_nat (length tx.1)) ["success"])
    else Err "insufficient funds";
  keypair_pubkey k := k;
  message_new ixs payer := (ixs, payer);
  transaction_new signers m _ :=
    match m.2, signers with
    | Some k, [s] => if decide (k = s) then Done (m.1, k) else Panic
    | _, _ => Panic
    end;
  debug_error e := e
|}.

Definition toy_transfer (to : Pubkey) : Instruction := mkInstruction Pubkey_default [meta to false] [2].
Definition vm_key (b : Z) : Pubkey := Pubkey_new (replicate 32 b).

Example toy_profile_tests :
  forallb passes
    [measures_real_cu_for_a_known_cheap_instruction (toy_transfer (vm_key 2)) (vm_key 1);
     multiple_instructions_in_one_transaction_are_profiled_together
       [toy_transfer (vm_key 2); toy_transfer (vm_key 3)] (vm_key 1)] = true.
Proof. vm_compute. reflexivity. Qed.

(** A refused airdrop stops the run before anything is sent. *)
Example toy_profile_refused :
  profile_instructions [toy_transfer (vm_key 2)] (vm_key 1) [(vm_key 4, 7); (vm_key 5, 0); (vm_key 6, 1)]
  = Done (Err (SimulationFailed "no lamports")).
Proof. vm_compute. reflexivity. Qed.
