(* ===== verification/SolendMarket.v ===== *)
(** * patches/solend-sdk/src/state/{lending_market,lending_market_metadata}.rs:
    the lending market account, its 290-byte layout, and the market metadata
    account that is a plain byte image of its struct. *)

From Stdlib Require Import ZArith Lia.
From stdpp Require Import base list option.
From S2P Require Import Prelude Lists CoreTypes SolendMath SolendState SolendReserve.

Open Scope rust_scope.

(** ** lending_market.rs *)

Record LendingMarket := mkLendingMarket {
  lm_version : Z;
  lm_bump_seed : Z;
  lm_owner : Pubkey;
  lm_quote_currency : list Z;
  lm_token_program_id : Pubkey;
  lm_oracle_program_id : Pubkey;
  lm_switchboard_oracle_program_id : Pubkey;
  lm_rate_limiter : RateLimiter;
  lm_whitelisted_liquidator : option Pubkey;
  lm_risk_authority : Pubkey
}.

Record InitLendingMarketParams := mkInitLendingMarketParams {
  ilm_bump_seed : Z;
  ilm_owner : Pubkey;
  ilm_quote_currency : list Z;
  ilm_token_program_id : Pubkey;
  ilm_oracle_program_id : Pubkey;
  ilm_switchboard_oracle_program_id : Pubkey
}.

(** Every field of the struct is assigned, so the previous value is unused. *)
Definition LendingMarket_init (params : InitLendingMarketParams) (m : LendingMarket) : LendingMarket :=
  mkLendingMarket PROGRAM_VERSION (ilm_bump_seed params) (ilm_owner params)
    (ilm_quote_currency params) (ilm_token_program_id params) (ilm_oracle_program_id params)
    (ilm_switchboard_oracle_program_id params) RateLimiter_default None (ilm_owner params).

Definition LendingMarket_default : LendingMarket :=
  let zero := mkPubkey zero_key in
  mkLendingMarket 0 0 zero zero_key zero zero zero RateLimiter_default None zero.

Definition LendingMarket_new (params : InitLendingMarketParams) : LendingMarket :=
  LendingMarket_init params LendingMarket_default.

Definition LendingMarket_is_initialized (m : LendingMarket) : bool :=
  negb (lm_version m =? UNINITIALIZED_VERSION).

Definition LENDING_MARKET_LEN : nat := 290.
(** The last field is [_padding]. *)
Definition LENDING_MARKET_FIELDS : list nat :=
  [1; 1; PUBKEY_BYTES; 32; PUBKEY_BYTES; PUBKEY_BYTES; PUBKEY_BYTES; RATE_LIMITER_LEN;
   PUBKEY_BYTES; PUBKEY_BYTES; 8]%nat.

Definition LendingMarket_pack (m : LendingMarket) (output : list Z) : panicking (list Z) :=
  let! out := array_ref output 0 LENDING_MARKET_LEN in
  let! limiter := limiter_pack (lm_rate_limiter m) in
  Done (concat
    [to_le_bytes 1 (lm_version m); to_le_bytes 1 (lm_bump_seed m); pk_bytes (lm_owner m);
     lm_quote_currency m; pk_bytes (lm_token_program_id m); pk_bytes (lm_oracle_program_id m);
     pk_bytes (lm_switchboard_oracle_program_id m); limiter;
     match lm_whitelisted_liquidator m with Some pubkey => pk_bytes pubkey | None => zero_key end;
     pk_bytes (lm_risk_authority m); drop 282 out]
    ++ drop LENDING_MARKET_LEN output).

Definition LendingMarket_unpack (input : list Z) : panicking (result LendingMarket ProgramError) :=
  let! input := array_ref input 0 LENDING_MARKET_LEN in
  match array_refs LENDING_MARKET_FIELDS input with
  | [version; bump_seed; owner; quote_currency; token_program_id; oracle_program_id;
     switchboard_oracle_program_id; rate_limiter; whitelisted_liquidator; risk_authority;
     _padding] =>
      let version := from_le_bytes version in
      if version >? PROGRAM_VERSION then Done (Err InvalidAccountData)
      else
        let owner_pubkey := mkPubkey owner in
        match limiter_unpack rate_limiter with
        | Panic => Panic
        | Done (Err e) => Done (Err e)
        | Done (Ok limiter) =>
            Done (Ok (mkLendingMarket version (from_le_bytes bump_seed) owner_pubkey quote_currency
              (mkPubkey token_program_id) (mkPubkey oracle_program_id)
              (mkPubkey switchboard_oracle_program_id) limiter
              (if decide (whitelisted_liquidator = zero_key) then None
               else Some (mkPubkey whitelisted_liquidator))
              (if decide (risk_authority = zero_key) then owner_pubkey else mkPubkey risk_authority)))
        end
  | _ => Panic
  end.

(** ** lending_market_metadata.rs *)

Definition MARKET_NAME_SIZE : nat := 50.
Definition MARKET_DESCRIPTION_SIZE : nat := 300.
Definition MARKET_IMAGE_URL_SIZE : nat := 250.
Definition PADDING_SIZE : nat := 100.

Record LendingMarketMetadata := mkLendingMarketMetadata {
  mm_bump_seed : Z;
  mm_market_name : list Z;
  mm_market_description : list Z;
  mm_market_image_url : list Z;
  mm_lookup_tables : list Pubkey;
  mm_padding : list Z
}.

(** [repr(C)] with byte-aligned fields: no gaps. *)
Definition METADATA_FIELDS : list nat :=
  [1; MARKET_NAME_SIZE; MARKET_DESCRIPTION_SIZE; MARKET_IMAGE_URL_SIZE;
   PUBKEY_BYTES; PUBKEY_BYTES; PUBKEY_BYTES; PUBKEY_BYTES; PADDING_SIZE]%nat.
Definition METADATA_LEN : nat := 829.

(** [bytemuck::bytes_of]: the struct's memory. *)
Definition metadata_bytes_of (m : LendingMarketMetadata) : list Z :=
  concat ([[mm_bump_seed m]; mm_market_name m; mm_market_description m; mm_market_image_url m]
          ++ map pk_bytes (mm_lookup_tables m) ++ [mm_padding m]).

(** [new_from_bytes]: the first byte is skipped (indexing panics when there is
    none) and the rest must be exactly the struct. *)
Definition metadata_new_from_bytes (data : list Z)
    : panicking (result LendingMarketMetadata ProgramError) :=
  match data with
  | [] => Panic
  | _ :: image =>
      if negb (length image =? METADATA_LEN)%nat then Done (Err (Custom InstructionUnpackError))
      else match array_refs METADATA_FIELDS image with
           | [bump_seed; name; description; image_url; t1; t2; t3; t4; padding] =>
               Done (Ok (mkLendingMarketMetadata (from_le_bytes bump_seed) name description image_url
                 [mkPubkey t1; mkPubkey t2; mkPubkey t3; mkPubkey t4] padding))
           | _ => Panic
           end
  end.

(* ------------------------------------------------------------------ *)
(** ** The market account *)

Record LendingMarket_wf (m : LendingMarket) : Prop := {
  lm_wf_version : is_u8 (lm_version m);
  lm_wf_bump : is_u8 (lm_bump_seed m);
  lm_wf_quote : length (lm_quote_currency m) = 32%nat;
  lm_wf_keys : Forall key_wf [lm_owner m; lm_token_program_id m; lm_oracle_program_id m;
                              lm_switchboard_oracle_program_id m; lm_risk_authority m];
  lm_wf_limiter : RateLimiter_wf (lm_rate_limiter m);
  lm_wf_liquidator : forall p, lm_whitelisted_liquidator m = Some p -> key_wf p
}.

(** What decoding makes of a market: the all-zero key stands for no liquidator
    and for a risk authority that is the owner. *)
Definition normalize (m : LendingMarket) : LendingMarket :=
  mkLendingMarket (lm_version m) (lm_bump_seed m) (lm_owner m) (lm_quote_currency m)
    (lm_token_program_id m) (lm_oracle_program_id m) (lm_switchboard_oracle_program_id m)
    (lm_rate_limiter m)
    (match lm_whitelisted_liquidator m with
     | Some p => if decide (pk_bytes p = zero_key) then None else Some p
     | None => None
     end)
    (if decide (pk_bytes (lm_risk_authority m) = zero_key) then lm_owner m else lm_risk_authority m).

Lemma RateLimiter_default_wf : RateLimiter_wf RateLimiter_default.
Proof. concrete_wf. Qed.

Lemma mkPubkey_eta p : mkPubkey (pk_bytes p) = p.
Proof. by destruct p. Qed.

Lemma liquidator_unpack k :
  let bs := match k with Some p => pk_bytes p | None => zero_key end in
  (if decide (bs = zero_key) then None else Some (mkPubkey bs))
  = match k with
    | Some p => if decide (pk_bytes p = zero_key) then None else Some p
    | None => None
    end.
Proof. destruct k as [p|]; cbn; case_decide; try done. by rewrite mkPubkey_eta. Qed.

Lemma market_pack_Done m dst :
  LendingMarket_wf m -> (LENDING_MARKET_LEN <= length dst)%nat ->
  exists out, LendingMarket_pack m dst = Done out
    /\ length out = length dst /\ drop 282 out = drop 282 dst
    /\ LendingMarket_unpack out
       = if lm_version m >? PROGRAM_VERSION then Done (Err InvalidAccountData)
         else Done (Ok (normalize m)).
Proof.
  intros [Hv Hb Hq Hk Hl Hw] Hlen. forall_inv Hk. destruct (limiter_pack_Done _ Hl) as (lim & Hlp & Hll & Hlu).
  unfold LendingMarket_pack, array_ref, slice.
  destruct (Nat.leb_spec (0 + LENDING_MARKET_LEN) (length dst)); [|lia]. rewrite drop_0, Hlp.
  eexists; split; [done|]. set (fs := [to_le_bytes 1 (lm_version m); _; _; _; _; _; _; _; _; _; _]).
  assert (Hw' : length <$> fs = LENDING_MARKET_FIELDS).
  { unfold fs, LENDING_MARKET_FIELDS, key_wf in *. cbn [fmap list_fmap].
    rewrite !length_to_le_bytes, Hr, Hr0, Hr1, Hr2, Hr3, Hq, Hll by done.
    replace (length (match lm_whitelisted_liquidator m with Some p => _ | None => _ end)) with PUBKEY_BYTES
      by (destruct (lm_whitelisted_liquidator m); [by rewrite Hw|done]).
    rewrite length_drop, length_take, Nat.min_l by done. done. }
  pose proof (length_concat_widths _ _ Hw') as Hcl. change (sum_list _) with LENDING_MARKET_LEN in Hcl.
  split_and!.
  - rewrite length_app, length_drop, Hcl. unfold LENDING_MARKET_LEN in *. lia.
  - unfold LENDING_MARKET_LEN in *. rewrite drop_app_le by lia.
    assert (Hhead : concat fs = concat (take 10 fs) ++ drop 282 (take 290 dst))
      by (unfold fs; cbn [take concat]; by rewrite <- !app_assoc, app_nil_r).
    assert (Hhl : length (concat (take 10 fs)) = 282%nat).
    { pose proof (f_equal length Hhead) as Hl'. rewrite length_app, length_drop, length_take in Hl'. lia. }
    rewrite Hhead, <- Hhl, drop_app_length, Hhl, <- drop_app_le by (rewrite length_take; lia).
    by rewrite take_drop.
  - unfold LendingMarket_unpack. rewrite <- Hcl, array_ref_app. cbv beta iota.
    rewrite (array_refs_concat _ _ Hw'). unfold fs. cbv beta iota zeta. rewrite !u8_le, Hlu by done.
    by rewrite liquidator_unpack, !mkPubkey_eta.
Qed.

(** C39: a well-typed market packs into any buffer of at least 290 bytes,
    touching only the first 282; decoding gives [InvalidAccountData] for a
    later version and otherwise the market with an all-zero liquidator read as
    none and an all-zero risk authority as the owner. A market made by
    [new] is initialized and comes back unchanged, as does anything decoded
    once. *)
Theorem market_roundtrip m dst :
  LendingMarket_wf m -> (LENDING_MARKET_LEN <= length dst)%nat ->
  exists out, LendingMarket_pack m dst = Done out
    /\ length out = length dst /\ drop 282 out = drop 282 dst
    /\ LendingMarket_unpack out
       = (if lm_version m >? PROGRAM_VERSION then Done (Err InvalidAccountData)
          else Done (Ok (normalize m)))
    /\ normalize (normalize m) = normalize m
    /\ (forall params, m = LendingMarket_new params -> pk_bytes (ilm_owner params) <> zero_key ->
        LendingMarket_is_initialized m = true /\ LendingMarket_unpack out = Done (Ok m)
        /\ lm_risk_authority m = ilm_owner params).
Proof.
  intros Hwf Hlen. destruct (market_pack_Done m dst Hwf Hlen) as (out & Hp & Hl & Hd & Hu).
  exists out. split_and!; try done.
  - unfold normalize; destruct m as [? ? ow ? ? ? ? ? [p|] ra]; cbn; f_equal; repeat case_decide; done.
  - intros params -> Hz. split_and!; [done| |done]. rewrite Hu. cbn [lm_version LendingMarket_new LendingMarket_init].
    change (PROGRAM_VERSION >? PROGRAM_VERSION) with false. do 2 f_equal.
    unfold normalize, LendingMarket_new, LendingMarket_init; cbn. by rewrite decide_False.
Qed.

Lemma market_roundtrip_witness :
  let params := mkInitLendingMarketParams 254 (sample_key 1) (replicate 32 85) (sample_key 2)
                  (sample_key 3) (sample_key 4) in
  let m := LendingMarket_new params in
  exists out, LendingMarket_pack m (replicate 300 9) = Done out
    /\ length out = length (replicate 300 9) /\ drop 282 out = drop 282 (replicate 300 9)
    /\ LendingMarket_unpack out
       = (if lm_version m >? PROGRAM_VERSION then Done (Err InvalidAccountData)
          else Done (Ok (normalize m)))
    /\ normalize (normalize m) = normalize m
    /\ (forall params, m = LendingMarket_new params -> pk_bytes (ilm_owner params) <> zero_key ->
        LendingMarket_is_initialized m = true /\ LendingMarket_unpack out = Done (Ok m)
        /\ lm_risk_authority m = ilm_owner params).
Proof.
  cbv zeta. apply market_roundtrip; [concrete_wf|]. rewrite length_replicate. unfold LENDING_MARKET_LEN. lia.
Defined.

(* ------------------------------------------------------------------ *)
(** ** The metadata account *)

Record LendingMarketMetadata_wf (m : LendingMarketMetadata) : Prop := {
  mm_wf_bump : is_u8 (mm_bump_seed m);
  mm_wf_name : length (mm_market_name m) = MARKET_NAME_SIZE;
  mm_wf_description : length (mm_market_description m) = MARKET_DESCRIPTION_SIZE;
  mm_wf_image : length (mm_market_image_url m) = MARKET_IMAGE_URL_SIZE;
  mm_wf_tables : length (mm_lookup_tables m) = 4%nat;
  mm_wf_table_keys : Forall key_wf (mm_lookup_tables m);
  mm_wf_padding : length (mm_padding m) = PADDING_SIZE
}.

Lemma metadata_image m tag :
  LendingMarketMetadata_wf m ->
  length (metadata_bytes_of m) = METADATA_LEN
  /\ metadata_new_from_bytes (tag :: metadata_bytes_of m) = Done (Ok m).
Proof.
  intros [Hb Hn Hd Hi Ht Hk Hp].
  destruct m as [bump name desc image tables pad]; cbn [mm_bump_seed mm_market_name
    mm_market_description mm_market_image_url mm_lookup_tables mm_padding] in *.
  destruct tables as [|[t1] [|[t2] [|[t3] [|[t4] [|]]]]]; try done. forall_inv Hk.
  unfold metadata_bytes_of. cbn [mm_bump_seed mm_market_name mm_market_description mm_market_image_url
    mm_lookup_tables mm_padding map app pk_bytes].
  set (fs := [[bump]; _; _; _; _; _; _; _; _]).
  assert (Hw : length <$> fs = METADATA_FIELDS).
  { unfold fs, METADATA_FIELDS. cbn [fmap list_fmap length]. unfold key_wf in *. cbn [pk_bytes] in *.
    by rewrite Hn, Hd, Hi, Hr, Hr0, Hr1, Hr2, Hp. }
  pose proof (length_concat_widths _ _ Hw) as Hcl. change (sum_list _) with METADATA_LEN in Hcl.
  split; [done|]. cbn [metadata_new_from_bytes]. rewrite Hcl, Nat.eqb_refl. cbn [negb].
  rewrite (array_refs_concat _ _ Hw). unfold fs. cbv beta iota.
  unfold from_le_bytes. do 3 f_equal. lia.
Qed.

(** Reading a metadata account panics on empty data and fails on any other size. *)
Lemma metadata_wrong_size data :
  length data <> S METADATA_LEN ->
  metadata_new_from_bytes data
  = if decide (data = []) then Panic else Done (Err (Custom InstructionUnpackError)).
Proof.
  destruct data as [|b image]; [done|]. cbn [length metadata_new_from_bytes]. intros H.
  rewrite decide_False by done. destruct (Nat.eqb_spec (length image) METADATA_LEN); [congruence|done].
Qed.
