(* ===== verification/SolendInstruction.v ===== *)
(** * patches/solend-sdk/src/instruction.rs: the instructions of the Save program.

    The enum, its decoder, whose [unwrap] of an unknown asset type is a panic,
    and its encoder. The client-side builders are in [SolendClient]. *)

From Stdlib Require Import ZArith Lia.
From stdpp Require Import base list option.
From S2P Require Import Prelude Lists CoreTypes SolendMath SolendState SolendReserve.

Open Scope rust_scope.

Inductive LendingInstruction :=
| InitLendingMarket (owner : Pubkey) (quote_currency : list Z)
| SetLendingMarketOwnerAndConfig (new_owner : Pubkey) (rate_limiter_config : RateLimiterConfig)
    (whitelisted_liquidator : option Pubkey) (risk_authority : Pubkey)
| InitReserve (liquidity_amount : Z) (config : ReserveConfig)
| RefreshReserve
| DepositReserveLiquidity (liquidity_amount : Z)
| RedeemReserveCollateral (collateral_amount : Z)
| InitObligation
| RefreshObligation
| DepositObligationCollateral (collateral_amount : Z)
| WithdrawObligationCollateral (collateral_amount : Z)
| BorrowObligationLiquidity (liquidity_amount : Z)
| RepayObligationLiquidity (liquidity_amount : Z)
| LiquidateObligation (liquidity_amount : Z)
| FlashLoan (amount : Z)
| DepositReserveLiquidityAndObligationCollateral (liquidity_amount : Z)
| WithdrawObligationCollateralAndRedeemReserveCollateral (collateral_amount : Z)
| UpdateReserveConfig (config : ReserveConfig) (rate_limiter_config : RateLimiterConfig)
| LiquidateObligationAndRedeemReserveCollateral (liquidity_amount : Z)
| RedeemFees
| FlashBorrowReserveLiquidity (liquidity_amount : Z)
| FlashRepayReserveLiquidity (liquidity_amount borrow_instruction_index : Z)
| ForgiveDebt (liquidity_amount : Z)
| UpdateMarketMetadata
| SetObligationCloseabilityStatus (closeable : bool)
| DonateToReserve (liquidity_amount : Z).

Definition unpack_error : ProgramError := Custom InstructionUnpackError.

(** ** Readers: the value and the rest of the input *)

Definition read {A} (n : nat) (f : list Z -> A) (input : list Z) : result (A * list Z) ProgramError :=
  if (length input <? n)%nat then Err unpack_error else Ok (f (take n input), drop n input).
Definition unpack_u64 : list Z -> result (Z * list Z) ProgramError := read 8 from_le_bytes.
Definition unpack_i64 : list Z -> result (Z * list Z) ProgramError := read 8 i64_from_le_bytes.
Definition unpack_u8 : list Z -> result (Z * list Z) ProgramError := read 1 from_le_bytes.
Definition unpack_bytes32 : list Z -> result (list Z * list Z) ProgramError := read 32 (fun bs => bs).
Definition unpack_pubkey : list Z -> result (Pubkey * list Z) ProgramError := read PUBKEY_BYTES mkPubkey.

(** A flag byte and, when it is one, a key. *)
Definition unpack_option_pubkey (input : list Z) : result (option Pubkey * list Z) ProgramError :=
  let? (flag, rest) := unpack_u8 input in
  if flag =? 0 then Ok (None, rest)
  else if flag =? 1 then let? (pubkey, rest) := unpack_pubkey rest in Ok (Some pubkey, rest)
  else Err unpack_error.

(** The configuration fields of tags 2 and 16. The asset type is converted,
    with an [unwrap], only when the struct is built. *)
Definition unpack_config (rest : list Z)
    : result ((Z * (ReserveType -> ReserveConfig)) * list Z) ProgramError :=
  let? (optimal_utilization_rate, rest) := unpack_u8 rest in
  let? (max_utilization_rate, rest) := unpack_u8 rest in
  let? (loan_to_value_ratio, rest) := unpack_u8 rest in
  let? (liquidation_bonus, rest) := unpack_u8 rest in
  let? (liquidation_threshold, rest) := unpack_u8 rest in
  let? (min_borrow_rate, rest) := unpack_u8 rest in
  let? (optimal_borrow_rate, rest) := unpack_u8 rest in
  let? (max_borrow_rate, rest) := unpack_u8 rest in
  let? (super_max_borrow_rate, rest) := unpack_u64 rest in
  let? (borrow_fee_wad, rest) := unpack_u64 rest in
  let? (flash_loan_fee_wad, rest) := unpack_u64 rest in
  let? (host_fee_percentage, rest) := unpack_u8 rest in
  let? (deposit_limit, rest) := unpack_u64 rest in
  let? (borrow_limit, rest) := unpack_u64 rest in
  let? (fee_receiver, rest) := unpack_pubkey rest in
  let? (protocol_liquidation_fee, rest) := unpack_u8 rest in
  let? (protocol_take_rate, rest) := unpack_u8 rest in
  let? (added_borrow_weight_bps, rest) := unpack_u64 rest in
  let? (asset_type, rest) := unpack_u8 rest in
  let? (max_liquidation_bonus, rest) := unpack_u8 rest in
  let? (max_liquidation_threshold, rest) := unpack_u8 rest in
  let? (scaled_price_offset_bps, rest) := unpack_i64 rest in
  let? (extra_oracle_pubkey, rest) := unpack_option_pubkey rest in
  let? (attributed_borrow_limit_open, rest) := unpack_u64 rest in
  let? (attributed_borrow_limit_close, rest) := unpack_u64 rest in
  Ok ((asset_type, fun reserve_type =>
    mkReserveConfig optimal_utilization_rate max_utilization_rate loan_to_value_ratio
      liquidation_bonus max_liquidation_bonus liquidation_threshold max_liquidation_threshold
      min_borrow_rate optimal_borrow_rate max_borrow_rate super_max_borrow_rate
      (mkReserveFees borrow_fee_wad flash_loan_fee_wad host_fee_percentage) deposit_limit
      borrow_limit fee_receiver protocol_liquidation_fee protocol_take_rate
      added_borrow_weight_bps reserve_type scaled_price_offset_bps extra_oracle_pubkey
      attributed_borrow_limit_open attributed_borrow_limit_close), rest).

(** [ReserveType::from_u8(asset_type).unwrap()]. *)
Definition with_asset_type (asset_type : Z) (k : ReserveType -> LendingInstruction)
    : panicking (result LendingInstruction ProgramError) :=
  match reserve_type_from_u8 asset_type with Some t => Done (Ok (k t)) | None => Panic end.

Definition unpack_amount (k : Z -> LendingInstruction) (rest : list Z)
    : panicking (result LendingInstruction ProgramError) :=
  Done (let? (amount, _) := unpack_u64 rest in Ok (k amount)).

(** Tags 2 and 16. *)
Definition unpack_init_reserve (rest : list Z) : panicking (result LendingInstruction ProgramError) :=
  match unpack_u64 rest with
  | Err e => Done (Err e)
  | Ok (liquidity_amount, rest) =>
      match unpack_config rest with
      | Err e => Done (Err e)
      | Ok ((asset_type, config), _) =>
          with_asset_type asset_type (fun t => InitReserve liquidity_amount (config t))
      end
  end.
Definition unpack_update_reserve_config (rest : list Z)
    : panicking (result LendingInstruction ProgramError) :=
  match unpack_config rest with
  | Err e => Done (Err e)
  | Ok ((asset_type, config), rest) =>
      match (let? (window_duration, rest) := unpack_u64 rest in
             let? (max_outflow, _) := unpack_u64 rest in
             Ok (mkRateLimiterConfig window_duration max_outflow)) with
      | Err e => Done (Err e)
      | Ok limiter => with_asset_type asset_type (fun t => UpdateReserveConfig (config t) limiter)
      end
  end.

Definition LendingInstruction_unpack (input : list Z)
    : panicking (result LendingInstruction ProgramError) :=
  match input with
  | [] => Done (Err unpack_error)
  | tag :: rest =>
      match tag with
      | 0 => Done (
          let? (owner, rest) := unpack_pubkey rest in
          let? (quote_currency, _) := unpack_bytes32 rest in
          Ok (InitLendingMarket owner quote_currency))
      | 1 => Done (
          let? (new_owner, rest) := unpack_pubkey rest in
          let? (window_duration, rest) := unpack_u64 rest in
          let? (max_outflow, rest) := unpack_u64 rest in
          let? (whitelisted_liquidator, rest) := unpack_option_pubkey rest in
          let? (risk_authority, _) := unpack_pubkey rest in
          Ok (SetLendingMarketOwnerAndConfig new_owner (mkRateLimiterConfig window_duration max_outflow)
                whitelisted_liquidator risk_authority))
      | 2 => unpack_init_reserve rest
      | 3 => Done (Ok RefreshReserve)
      | 4 => unpack_amount DepositReserveLiquidity rest
      | 5 => unpack_amount RedeemReserveCollateral rest
      | 6 => Done (Ok InitObligation)
      | 7 => Done (Ok RefreshObligation)
      | 8 => unpack_amount DepositObligationCollateral rest
      | 9 => unpack_amount WithdrawObligationCollateral rest
      | 10 => unpack_amount BorrowObligationLiquidity rest
      | 11 => unpack_amount RepayObligationLiquidity rest
      | 12 => unpack_amount LiquidateObligation rest
      | 13 => unpack_amount FlashLoan rest
      | 14 => unpack_amount DepositReserveLiquidityAndObligationCollateral rest
      | 15 => unpack_amount WithdrawObligationCollateralAndRedeemReserveCollateral rest
      | 16 => unpack_update_reserve_config rest
      | 17 => unpack_amount LiquidateObligationAndRedeemReserveCollateral rest
      | 18 => Done (Ok RedeemFees)
      | 19 => unpack_amount FlashBorrowReserveLiquidity rest
      | 20 => Done (
          let? (liquidity_amount, rest) := unpack_u64 rest in
          let? (borrow_instruction_index, _) := unpack_u8 rest in
          Ok (FlashRepayReserveLiquidity liquidity_amount borrow_instruction_index))
      | 21 => unpack_amount ForgiveDebt rest
      | 22 => Done (Ok UpdateMarketMetadata)
      | 23 => Done (
          let? (flag, _) := unpack_u8 rest in
          if flag =? 0 then Ok (SetObligationCloseabilityStatus false)
          else if flag =? 1 then Ok (SetObligationCloseabilityStatus true)
          else Err unpack_error)
      | 24 => unpack_amount DonateToReserve rest
      | _ => Done (Err unpack_error)
      end
  end.

(** ** Packing *)

Definition pack_option_pubkey (k : option Pubkey) : list Z :=
  match k with Some pubkey => 1 :: pk_bytes pubkey | None => [0] end.

(** The same fields for [InitReserve] and [UpdateReserveConfig]. *)
Definition pack_config (c : ReserveConfig) : list Z :=
  to_le_bytes 1 (optimal_utilization_rate c) ++ to_le_bytes 1 (max_utilization_rate c)
  ++ to_le_bytes 1 (loan_to_value_ratio c) ++ to_le_bytes 1 (liquidation_bonus c)
  ++ to_le_bytes 1 (liquidation_threshold c) ++ to_le_bytes 1 (min_borrow_rate c)
  ++ to_le_bytes 1 (optimal_borrow_rate c) ++ to_le_bytes 1 (max_borrow_rate c)
  ++ to_le_bytes 8 (super_max_borrow_rate c) ++ to_le_bytes 8 (borrow_fee_wad (rcfg_fees c))
  ++ to_le_bytes 8 (flash_loan_fee_wad (rcfg_fees c))
  ++ to_le_bytes 1 (host_fee_percentage (rcfg_fees c)) ++ to_le_bytes 8 (deposit_limit c)
  ++ to_le_bytes 8 (borrow_limit c) ++ pk_bytes (fee_receiver c)
  ++ to_le_bytes 1 (protocol_liquidation_fee c) ++ to_le_bytes 1 (protocol_take_rate c)
  ++ to_le_bytes 8 (added_borrow_weight_bps c)
  ++ to_le_bytes 1 (reserve_type_to_u8 (reserve_type c)) ++ to_le_bytes 1 (max_liquidation_bonus c)
  ++ to_le_bytes 1 (max_liquidation_threshold c) ++ to_le_bytes 8 (scaled_price_offset_bps c)
  ++ pack_option_pubkey (extra_oracle_pubkey c) ++ to_le_bytes 8 (attributed_borrow_limit_open c)
  ++ to_le_bytes 8 (attributed_borrow_limit_close c).

Definition LendingInstruction_pack (i : LendingInstruction) : list Z :=
  match i with
  | InitLendingMarket owner quote_currency => 0 :: pk_bytes owner ++ quote_currency
  | SetLendingMarketOwnerAndConfig new_owner c whitelisted_liquidator risk_authority =>
      1 :: pk_bytes new_owner ++ to_le_bytes 8 (window_duration c) ++ to_le_bytes 8 (max_outflow c)
        ++ pack_option_pubkey whitelisted_liquidator ++ pk_bytes risk_authority
  | InitReserve liquidity_amount c => 2 :: to_le_bytes 8 liquidity_amount ++ pack_config c
  | RefreshReserve => [3]
  | DepositReserveLiquidity amount => 4 :: to_le_bytes 8 amount
  | RedeemReserveCollateral amount => 5 :: to_le_bytes 8 amount
  | InitObligation => [6]
  | RefreshObligation => [7]
  | DepositObligationCollateral amount => 8 :: to_le_bytes 8 amount
  | WithdrawObligationCollateral amount => 9 :: to_le_bytes 8 amount
  | BorrowObligationLiquidity amount => 10 :: to_le_bytes 8 amount
  | RepayObligationLiquidity amount => 11 :: to_le_bytes 8 amount
  | LiquidateObligation amount => 12 :: to_le_bytes 8 amount
  | FlashLoan amount => 13 :: to_le_bytes 8 amount
  | DepositReserveLiquidityAndObligationCollateral amount => 14 :: to_le_bytes 8 amount
  | WithdrawObligationCollateralAndRedeemReserveCollateral amount => 15 :: to_le_bytes 8 amount
  | UpdateReserveConfig c limiter =>
      16 :: pack_config c ++ to_le_bytes 8 (window_duration limiter) ++ to_le_bytes 8 (max_outflow limiter)
  | LiquidateObligationAndRedeemReserveCollateral amount => 17 :: to_le_bytes 8 amount
  | RedeemFees => [18]
  | FlashBorrowReserveLiquidity amount => 19 :: to_le_bytes 8 amount
  | FlashRepayReserveLiquidity amount index => 20 :: to_le_bytes 8 amount ++ to_le_bytes 1 index
  | ForgiveDebt amount => 21 :: to_le_bytes 8 amount
  | UpdateMarketMetadata => []
  | SetObligationCloseabilityStatus closeable => 23 :: to_le_bytes 1 (if closeable then 1 else 0)
  | DonateToReserve amount => 24 :: to_le_bytes 8 amount
  end.

(* ------------------------------------------------------------------ *)
(** ** Round trip *)

Lemma read_app {A} n (f : list Z -> A) bs rest :
  length bs = n -> read n f (bs ++ rest) = Ok (f bs, rest).
Proof.
  intros <-. unfold read. rewrite length_app.
  destruct (Nat.ltb_spec (length bs + length rest) (length bs)); [lia|].
  by rewrite take_app_length, drop_app_length.
Qed.

Lemma read_u64 x rest : is_u64 x -> unpack_u64 (to_le_bytes 8 x ++ rest) = Ok (x, rest).
Proof. intros H. unfold unpack_u64. rewrite read_app by done. by rewrite u64_le. Qed.
Lemma read_u8 x rest : is_u8 x -> unpack_u8 (to_le_bytes 1 x ++ rest) = Ok (x, rest).
Proof. intros H. unfold unpack_u8. rewrite read_app by done. by rewrite u8_le. Qed.
Lemma read_i64 x rest : is_i64 x -> unpack_i64 (to_le_bytes 8 x ++ rest) = Ok (x, rest).
Proof. intros H. unfold unpack_i64. rewrite read_app by done. by rewrite i64_le. Qed.
Lemma read_pubkey k rest : key_wf k -> unpack_pubkey (pk_bytes k ++ rest) = Ok (k, rest).
Proof. intros H. unfold unpack_pubkey. rewrite read_app by done. by destruct k. Qed.
Lemma read_option_pubkey k rest :
  (forall p, k = Some p -> key_wf p) ->
  unpack_option_pubkey (pack_option_pubkey k ++ rest) = Ok (k, rest).
Proof.
  intros H. unfold unpack_option_pubkey. destruct k as [p|]; cbn [pack_option_pubkey].
  - change ((1 :: pk_bytes p) ++ rest) with (to_le_bytes 1 1 ++ (pk_bytes p ++ rest)).
    rewrite read_u8 by (unfold in_u; lia). cbn [Z.eqb]. by rewrite read_pubkey by auto.
  - change ([0] ++ rest) with (to_le_bytes 1 0 ++ rest). by rewrite read_u8 by (unfold in_u; lia).
Qed.

Lemma asset_type_u8 t : is_u8 (reserve_type_to_u8 t).
Proof. destruct t; unfold in_u; cbn; lia. Qed.

Lemma asset_type_roundtrip t : reserve_type_from_u8 (reserve_type_to_u8 t) = Some t.
Proof. by destruct t. Qed.

(** Runs the readers over the packed fields, one by one. *)
Ltac reads :=
  repeat first
    [ rewrite read_u8 by (done || apply asset_type_u8)
    | rewrite read_u64 by done
    | rewrite read_i64 by done
    | rewrite read_pubkey by done
    | rewrite read_option_pubkey by done ].

Lemma unpack_pack_config c rest :
  ReserveConfig_wf c ->
  exists k, unpack_config (pack_config c ++ rest) = Ok ((reserve_type_to_u8 (reserve_type c), k), rest)
  /\ k (reserve_type c) = c.
Proof.
  intros [H8 H64 Hoff Hrec Hora]. forall_inv H8. forall_inv H64.
  unfold unpack_config, pack_config. rewrite <- !app_assoc. reads.
  eexists; split; [done|]. by destruct c as [? ? ? ? ? ? ? ? ? ? ? []].
Qed.

Definition limiter_config_wf (c : RateLimiterConfig) : Prop :=
  is_u64 (window_duration c) /\ is_u64 (max_outflow c).

(** The Rust types of the arguments. *)
Definition instruction_wf (i : LendingInstruction) : Prop :=
  match i with
  | InitLendingMarket owner quote_currency => key_wf owner /\ length quote_currency = 32%nat
  | SetLendingMarketOwnerAndConfig new_owner c liquidator risk_authority =>
      key_wf new_owner /\ limiter_config_wf c /\ (forall p, liquidator = Some p -> key_wf p)
      /\ key_wf risk_authority
  | InitReserve amount c => is_u64 amount /\ ReserveConfig_wf c
  | UpdateReserveConfig c limiter => ReserveConfig_wf c /\ limiter_config_wf limiter
  | FlashRepayReserveLiquidity amount index => is_u64 amount /\ is_u8 index
  | DepositReserveLiquidity n | RedeemReserveCollateral n | DepositObligationCollateral n
  | WithdrawObligationCollateral n | BorrowObligationLiquidity n | RepayObligationLiquidity n
  | LiquidateObligation n | FlashLoan n | DepositReserveLiquidityAndObligationCollateral n
  | WithdrawObligationCollateralAndRedeemReserveCollateral n
  | LiquidateObligationAndRedeemReserveCollateral n | FlashBorrowReserveLiquidity n
  | ForgiveDebt n | DonateToReserve n => is_u64 n
  | RefreshReserve | InitObligation | RefreshObligation | RedeemFees | UpdateMarketMetadata
  | SetObligationCloseabilityStatus _ => True
  end.

Lemma unpack_pack i extra :
  instruction_wf i -> i <> UpdateMarketMetadata ->
  LendingInstruction_unpack (LendingInstruction_pack i ++ extra) = Done (Ok i).
Proof.
  intros Hwf Hne. destruct i; cbn [instruction_wf LendingInstruction_pack] in *; try done;
    cbn [app LendingInstruction_unpack];
    unfold unpack_amount, unpack_init_reserve, unpack_update_reserve_config; rewrite <- ?app_assoc.
  all: try (by reads).
  - destruct Hwf as [Ho Hq]. reads. unfold unpack_bytes32. by rewrite read_app.
  - destruct Hwf as (Ho & [Hd Hm] & Hl & Hr). reads. by destruct rate_limiter_config.
  - destruct Hwf as [Ha Hc]. reads. destruct (unpack_pack_config config extra Hc) as (k & -> & Hk).
    unfold with_asset_type. by rewrite asset_type_roundtrip, Hk.
  - destruct Hwf as [Hc [Hd Hm]].
    destruct (unpack_pack_config config (to_le_bytes 8 (window_duration rate_limiter_config)
      ++ to_le_bytes 8 (max_outflow rate_limiter_config) ++ extra) Hc) as (k & -> & Hk).
    reads. unfold with_asset_type. rewrite asset_type_roundtrip, Hk. by destruct rate_limiter_config.
  - destruct Hwf as [Ha Hi]. by reads.
  - by destruct closeable; reads.
Qed.

(** C16: every well-typed instruction but [UpdateMarketMetadata] unpacks from its
    packed bytes, whatever bytes follow; packing is injective on them. The
    exception packs to no bytes at all, which do not unpack. *)
Theorem instruction_roundtrip i extra :
  instruction_wf i -> i <> UpdateMarketMetadata ->
  LendingInstruction_unpack (LendingInstruction_pack i ++ extra) = Done (Ok i)
  /\ (forall j, instruction_wf j -> LendingInstruction_pack j = LendingInstruction_pack i -> j = i)
  /\ LendingInstruction_unpack (LendingInstruction_pack UpdateMarketMetadata) = Done (Err unpack_error).
Proof.
  intros Hwf Hne. split_and!; [by apply unpack_pack| |done]. intros j Hj He.
  assert (j <> UpdateMarketMetadata) as Hjn.
  { intros ->. cbn in He. destruct i; cbn in He; done. }
  pose proof (unpack_pack i [] Hwf Hne) as H1. pose proof (unpack_pack j [] Hj Hjn) as H2.
  rewrite He, H1 in H2. congruence.
Qed.

Lemma instruction_roundtrip_witness :
  let i := UpdateReserveConfig (config sample_reserve) (mkRateLimiterConfig 10 100) in
  LendingInstruction_unpack (LendingInstruction_pack i ++ [7; 7]) = Done (Ok i)
  /\ (forall j, instruction_wf j -> LendingInstruction_pack j = LendingInstruction_pack i -> j = i)
  /\ LendingInstruction_unpack (LendingInstruction_pack UpdateMarketMetadata) = Done (Err unpack_error).
Proof.
  cbv zeta. apply (instruction_roundtrip _ [7; 7]); [|done]. split.
  - apply (rs_wf_config sample_reserve), sample_reserve_wf.
  - split; split; by vm_compute.
Defined.

Lemma read_Err {A} n (f : list Z -> A) input e : read n f input = Err e -> e = unpack_error.
Proof. unfold read. destruct (_ <? _)%nat; [by intros [= <-]|done]. Qed.

(** Errors of a chain of readers. *)
Ltac reader_errors :=
  repeat match goal with
  | H : read _ _ _ = Err _ |- _ => apply read_Err in H; subst
  | H : Err _ = Err _ |- _ => injection H as <-
  | H : (match ?x with Ok _ => _ | Err _ => _ end) = Err _ |- _ =>
      let E := fresh "E" in destruct x as [[? ?]|?] eqn:E
  | H : (if ?b then _ else _) = Err _ |- _ => destruct b
  | H : Ok _ = Err _ |- _ => discriminate H
  end; try done.

Lemma unpack_option_pubkey_Err input e : unpack_option_pubkey input = Err e -> e = unpack_error.
Proof. unfold unpack_option_pubkey, unpack_u8, unpack_pubkey. intros H. reader_errors. Qed.

Lemma unpack_config_Err input e : unpack_config input = Err e -> e = unpack_error.
Proof.
  unfold unpack_config, unpack_u8, unpack_u64, unpack_i64, unpack_pubkey. intros H.
  repeat match type of H with
  | (match read ?n ?f ?x with _ => _ end) = _ =>
      let E := fresh "E" in destruct (read n f x) as [[? ?]|?] eqn:E;
        [clear E|injection H as <-; by apply read_Err in E]
  | (match unpack_option_pubkey ?x with _ => _ end) = _ =>
      let E := fresh "E" in destruct (unpack_option_pubkey x) as [[? ?]|?] eqn:E;
        [clear E|injection H as <-; by apply unpack_option_pubkey_Err in E]
  end. done.
Qed.

(** A decoder that cannot panic and whose only error is [unpack_error]. *)
Definition clean (r : panicking (result LendingInstruction ProgramError)) : Prop :=
  exists x, r = Done x /\ forall e, x = Err e -> e = unpack_error.

Lemma clean_ret x : (forall e, x = Err e -> e = unpack_error) -> clean (Done x).
Proof. by exists x. Qed.

Lemma clean_amount k rest : clean (unpack_amount k rest).
Proof. apply clean_ret. unfold unpack_u64. intros e H. reader_errors. Qed.

(** What decoding a configuration can do: panic only on its asset type. *)
Definition panics_on_asset_type (r : panicking (result LendingInstruction ProgramError))
    (config_bytes : list Z) : Prop :=
  clean r \/ r = Panic /\ exists asset_type k after,
    unpack_config config_bytes = Ok ((asset_type, k), after) /\ asset_type <> 0 /\ asset_type <> 1.

Lemma with_asset_type_outcome a k :
  clean (with_asset_type a k) \/ with_asset_type a k = Panic /\ a <> 0 /\ a <> 1.
Proof.
  unfold with_asset_type, reserve_type_from_u8.
  destruct (Z.eqb_spec a 0); [left; by apply clean_ret|].
  destruct (Z.eqb_spec a 1); [left; by apply clean_ret|by right].
Qed.

Lemma unpack_init_reserve_outcome rest :
  clean (LendingInstruction_unpack (2 :: rest))
  \/ panics_on_asset_type (LendingInstruction_unpack (2 :: rest)) (drop 8 rest).
Proof.
  cbn [LendingInstruction_unpack]. unfold unpack_init_reserve, unpack_u64, read at 1 2.
  destruct (length rest <? 8)%nat; [left; apply clean_ret; by intros e [= <-]|].
  destruct (unpack_config (drop 8 rest)) as [[[a k] after]|e] eqn:E.
  - right. destruct (with_asset_type_outcome a (fun t => InitReserve (from_le_bytes (take 8 rest)) (k t)))
      as [Hc|[Hp Ha]]; [by left|right]. rewrite E. eauto 8.
  - left. apply clean_ret. intros e' [= <-]. eauto using unpack_config_Err.
Qed.

Lemma unpack_update_config_outcome rest :
  clean (LendingInstruction_unpack (16 :: rest))
  \/ panics_on_asset_type (LendingInstruction_unpack (16 :: rest)) rest.
Proof.
  cbn [LendingInstruction_unpack]. unfold unpack_update_reserve_config.
  destruct (unpack_config rest) as [[[a k] after]|e] eqn:E.
  - destruct (let? (_, _) := unpack_u64 after in _) as [l|e] eqn:El.
    + right. destruct (with_asset_type_outcome a (fun t => UpdateReserveConfig (k t) l))
        as [Hc|[Hp Ha]]; [by left|right]. rewrite E. eauto 8.
    + left. apply clean_ret. intros e' [= <-]. unfold unpack_u64 in El. reader_errors.
  - left. apply clean_ret. intros e' [= <-]. eauto using unpack_config_Err.
Qed.

Lemma unpack_other_outcome tag rest :
  tag <> 2 -> tag <> 16 -> clean (LendingInstruction_unpack (tag :: rest)).
Proof.
  intros H2 H16. destruct tag as [|p|p];
    do 5 try (destruct p as [p|p|]); try done; cbn [LendingInstruction_unpack];
    try apply clean_amount; apply clean_ret; try done;
    unfold unpack_u64, unpack_pubkey, unpack_bytes32, unpack_u8; intros e H; reader_errors.
  eauto using unpack_option_pubkey_Err.
Qed.

(** C30: decoding instruction data always ends: with an instruction, with
    [InstructionUnpackError] and no other error, or with a panic, which takes
    a complete reserve configuration whose asset-type byte is unknown. *)
Theorem instruction_unpack_outcome input :
  (exists x, LendingInstruction_unpack input = Done x /\ forall e, x = Err e -> e = unpack_error)
  \/ LendingInstruction_unpack input = Panic
     /\ exists tag rest asset_type k after,
          input = tag :: rest
          /\ (tag = 2 /\ unpack_config (drop 8 rest) = Ok ((asset_type, k), after)
              \/ tag = 16 /\ unpack_config rest = Ok ((asset_type, k), after))
          /\ asset_type <> 0 /\ asset_type <> 1.
Proof.
  destruct input as [|tag rest]; [left; apply clean_ret; by intros e [= <-]|].
  destruct (decide (tag = 2)) as [->|H2].
  { destruct (unpack_init_reserve_outcome rest) as [H|[H|[Hp (a & k & x & Hu & Ha)]]]; [by left..|].
    right. split; [done|]. exists 2, rest, a, k, x. eauto. }
  destruct (decide (tag = 16)) as [->|H16].
  { destruct (unpack_update_config_outcome rest) as [H|[H|[Hp (a & k & x & Hu & Ha)]]]; [by left..|].
    right. split; [done|]. exists 16, rest, a, k, x. eauto. }
  left. by apply unpack_other_outcome.
Qed.
