(* ===== verification/SolendClient.v ===== *)
(** * patches/solend-sdk/src/instruction.rs: the client-side instruction builders.

    One definition per builder, the account lists of the enum's doc comments
    ([documented_accounts]: which account, in which role, in which order), and
    the relation [sdk_builds] from an instruction of the enum and its named
    accounts to what its builder emits. Address derivation is
    the SDK's: [find_program_address] of [SolanaSdk] and the bump seed, which
    is a variable here as are the token program and the rent sysvar. *)

From Stdlib Require Import ZArith Lia.
From stdpp Require Import base list strings option.
From S2P Require Import Prelude Lists CoreTypes SolendMath SolendState SolendReserve Bundler Instructions SolendMarket SolendInstruction.

Open Scope rust_scope.

(** One writable, unsigned meta per key. *)
Definition writable_metas (ks : list Pubkey) : list AccountMeta := map (fun pubkey => meta pubkey false) ks.

(** [b"MetaData"]. *)
Definition METADATA_SEED : list Z := [77; 101; 116; 97; 68; 97; 116; 97].

Section client.
Context `{SolanaSdk}.
Variable spl_token_id sysvar_rent_id : Pubkey.
Variable find_bump_seed : list (list Z) -> Pubkey -> Z.

Definition market_authority (lending_market_pubkey program_id : Pubkey) : Pubkey :=
  find_program_address [take PUBKEY_BYTES (pk_bytes lending_market_pubkey)] program_id.

Definition token_program : AccountMeta := meta_readonly spl_token_id false.

Definition init_lending_market (program_id owner : Pubkey) (quote_currency : list Z)
    (lending_market_pubkey oracle_program_id switchboard_oracle_program_id : Pubkey) : Instruction :=
  mkInstruction program_id
    [meta lending_market_pubkey false; meta_readonly sysvar_rent_id false; token_program;
     meta_readonly oracle_program_id false; meta_readonly switchboard_oracle_program_id false]
    (LendingInstruction_pack (InitLendingMarket owner quote_currency)).

Definition set_lending_market_owner_and_config (program_id lending_market_pubkey
    lending_market_owner new_owner : Pubkey) (rate_limiter_config : RateLimiterConfig)
    (whitelisted_liquidator : option Pubkey) (risk_authority : Pubkey) : Instruction :=
  mkInstruction program_id
    [meta lending_market_pubkey false; meta_readonly lending_market_owner true]
    (LendingInstruction_pack (SetLendingMarketOwnerAndConfig new_owner rate_limiter_config
       whitelisted_liquidator risk_authority)).

(** The optional trailing oracle of three builders. *)
Definition oracle_meta (extra_oracle_pubkey : option Pubkey) : list AccountMeta :=
  match extra_oracle_pubkey with Some k => [meta_readonly k false] | None => [] end.

Definition init_reserve (program_id : Pubkey) (liquidity_amount : Z) (config : ReserveConfig)
    (source_liquidity_pubkey destination_collateral_pubkey reserve_pubkey
     reserve_liquidity_mint_pubkey reserve_liquidity_supply_pubkey reserve_collateral_mint_pubkey
     reserve_collateral_supply_pubkey pyth_product_pubkey pyth_price_pubkey
     switchboard_feed_pubkey lending_market_pubkey lending_market_owner_pubkey
     user_transfer_authority_pubkey : Pubkey) : Instruction :=
  mkInstruction program_id
    ([meta source_liquidity_pubkey false; meta destination_collateral_pubkey false;
      meta reserve_pubkey false; meta_readonly reserve_liquidity_mint_pubkey false;
      meta reserve_liquidity_supply_pubkey false; meta (fee_receiver config) false;
      meta reserve_collateral_mint_pubkey false; meta reserve_collateral_supply_pubkey false;
      meta_readonly pyth_product_pubkey false; meta_readonly pyth_price_pubkey false;
      meta_readonly switchboard_feed_pubkey false; meta_readonly lending_market_pubkey false;
      meta_readonly (market_authority lending_market_pubkey program_id) false;
      meta_readonly lending_market_owner_pubkey true;
      meta_readonly user_transfer_authority_pubkey true; meta_readonly sysvar_rent_id false;
      token_program] ++ oracle_meta (extra_oracle_pubkey config))
    (LendingInstruction_pack (InitReserve liquidity_amount config)).

Definition refresh_reserve (program_id reserve_pubkey reserve_liquidity_pyth_oracle_pubkey
    reserve_liquidity_switchboard_oracle_pubkey : Pubkey) (extra_oracle_pubkey : option Pubkey)
    : Instruction :=
  mkInstruction program_id
    ([meta reserve_pubkey false; meta_readonly reserve_liquidity_pyth_oracle_pubkey false;
      meta_readonly reserve_liquidity_switchboard_oracle_pubkey false]
     ++ oracle_meta extra_oracle_pubkey)
    (LendingInstruction_pack RefreshReserve).

Definition deposit_reserve_liquidity (program_id : Pubkey) (liquidity_amount : Z)
    (source_liquidity_pubkey destination_collateral_pubkey reserve_pubkey
     reserve_liquidity_supply_pubkey reserve_collateral_mint_pubkey lending_market_pubkey
     user_transfer_authority_pubkey : Pubkey) : Instruction :=
  mkInstruction program_id
    [meta source_liquidity_pubkey false; meta destination_collateral_pubkey false;
     meta reserve_pubkey false; meta reserve_liquidity_supply_pubkey false;
     meta reserve_collateral_mint_pubkey false; meta_readonly lending_market_pubkey false;
     meta_readonly (market_authority lending_market_pubkey program_id) false;
     meta_readonly user_transfer_authority_pubkey true; token_program]
    (LendingInstruction_pack (DepositReserveLiquidity liquidity_amount)).

Definition redeem_reserve_collateral (program_id : Pubkey) (collateral_amount : Z)
    (source_collateral_pubkey destination_liquidity_pubkey reserve_pubkey
     reserve_collateral_mint_pubkey reserve_liquidity_supply_pubkey lending_market_pubkey
     user_transfer_authority_pubkey : Pubkey) : Instruction :=
  mkInstruction program_id
    [meta source_collateral_pubkey false; meta destination_liquidity_pubkey false;
     meta reserve_pubkey false; meta reserve_collateral_mint_pubkey false;
     meta reserve_liquidity_supply_pubkey false; meta lending_market_pubkey false;
     meta_readonly (market_authority lending_market_pubkey program_id) false;
     meta_readonly user_transfer_authority_pubkey true; token_program]
    (LendingInstruction_pack (RedeemReserveCollateral collateral_amount)).

Definition init_obligation (program_id obligation_pubkey lending_market_pubkey
    obligation_owner_pubkey : Pubkey) : Instruction :=
  mkInstruction program_id
    [meta obligation_pubkey false; meta_readonly lending_market_pubkey false;
     meta_readonly obligation_owner_pubkey true; meta_readonly sysvar_rent_id false; token_program]
    (LendingInstruction_pack InitObligation).

Definition refresh_obligation (program_id obligation_pubkey : Pubkey)
    (reserve_pubkeys : list Pubkey) : Instruction :=
  mkInstruction program_id
    ([meta obligation_pubkey false] ++ writable_metas reserve_pubkeys)
    (LendingInstruction_pack RefreshObligation).

Definition deposit_obligation_collateral (program_id : Pubkey) (collateral_amount : Z)
    (source_collateral_pubkey destination_collateral_pubkey deposit_reserve_pubkey
     obligation_pubkey lending_market_pubkey obligation_owner_pubkey
     user_transfer_authority_pubkey : Pubkey) : Instruction :=
  mkInstruction program_id
    [meta source_collateral_pubkey false; meta destination_collateral_pubkey false;
     meta deposit_reserve_pubkey false; meta obligation_pubkey false;
     meta_readonly lending_market_pubkey false; meta_readonly obligation_owner_pubkey true;
     meta_readonly user_transfer_authority_pubkey true; token_program]
    (LendingInstruction_pack (DepositObligationCollateral collateral_amount)).

Definition deposit_reserve_liquidity_and_obligation_collateral (program_id : Pubkey)
    (liquidity_amount : Z)
    (source_liquidity_pubkey user_collateral_pubkey reserve_pubkey
     reserve_liquidity_supply_pubkey reserve_collateral_mint_pubkey lending_market_pubkey
     destination_deposit_collateral_pubkey obligation_pubkey obligation_owner_pubkey
     reserve_liquidity_pyth_oracle_pubkey reserve_liquidity_switchboard_oracle_pubkey
     user_transfer_authority_pubkey : Pubkey) : Instruction :=
  mkInstruction program_id
    [meta source_liquidity_pubkey false; meta user_collateral_pubkey false;
     meta reserve_pubkey false; meta reserve_liquidity_supply_pubkey false;
     meta reserve_collateral_mint_pubkey false; meta_readonly lending_market_pubkey false;
     meta_readonly (market_authority lending_market_pubkey program_id) false;
     meta destination_deposit_collateral_pubkey false; meta obligation_pubkey false;
     meta obligation_owner_pubkey true;
     meta_readonly reserve_liquidity_pyth_oracle_pubkey false;
     meta_readonly reserve_liquidity_switchboard_oracle_pubkey false;
     meta_readonly user_transfer_authority_pubkey true; token_program]
    (LendingInstruction_pack (DepositReserveLiquidityAndObligationCollateral liquidity_amount)).

Definition withdraw_obligation_collateral_and_redeem_reserve_collateral (program_id : Pubkey)
    (collateral_amount : Z)
    (source_collateral_pubkey destination_collateral_pubkey withdraw_reserve_pubkey
     obligation_pubkey lending_market_pubkey destination_liquidity_pubkey
     reserve_collateral_mint_pubkey reserve_liquidity_supply_pubkey obligation_owner_pubkey
     user_transfer_authority_pubkey : Pubkey) (collateral_reserves : list Pubkey) : Instruction :=
  mkInstruction program_id
    ([meta source_collateral_pubkey false; meta destination_collateral_pubkey false;
      meta withdraw_reserve_pubkey false; meta obligation_pubkey false;
      meta lending_market_pubkey false;
      meta_readonly (market_authority lending_market_pubkey program_id) false;
      meta destination_liquidity_pubkey false; meta reserve_collateral_mint_pubkey false;
      meta reserve_liquidity_supply_pubkey false; meta_readonly obligation_owner_pubkey true;
      meta_readonly user_transfer_authority_pubkey true; token_program]
     ++ writable_metas collateral_reserves)
    (LendingInstruction_pack (WithdrawObligationCollateralAndRedeemReserveCollateral collateral_amount)).

Definition withdraw_obligation_collateral (program_id : Pubkey) (collateral_amount : Z)
    (source_collateral_pubkey destination_collateral_pubkey withdraw_reserve_pubkey
     obligation_pubkey lending_market_pubkey obligation_owner_pubkey : Pubkey)
    (collateral_reserves : list Pubkey) : Instruction :=
  mkInstruction program_id
    ([meta source_collateral_pubkey false; meta destination_collateral_pubkey false;
      meta_readonly withdraw_reserve_pubkey false; meta obligation_pubkey false;
      meta_readonly lending_market_pubkey false;
      meta_readonly (market_authority lending_market_pubkey program_id) false;
      meta_readonly obligation_owner_pubkey true; token_program]
     ++ writable_metas collateral_reserves)
    (LendingInstruction_pack (WithdrawObligationCollateral collateral_amount)).

Definition borrow_obligation_liquidity (program_id : Pubkey) (liquidity_amount : Z)
    (source_liquidity_pubkey destination_liquidity_pubkey borrow_reserve_pubkey
     borrow_reserve_liquidity_fee_receiver_pubkey obligation_pubkey lending_market_pubkey
     obligation_owner_pubkey : Pubkey) (collateral_reserves : list Pubkey)
    (host_fee_receiver_pubkey : option Pubkey) : Instruction :=
  mkInstruction program_id
    ([meta source_liquidity_pubkey false; meta destination_liquidity_pubkey false;
      meta borrow_reserve_pubkey false; meta borrow_reserve_liquidity_fee_receiver_pubkey false;
      meta obligation_pubkey false; meta lending_market_pubkey false;
      meta_readonly (market_authority lending_market_pubkey program_id) false;
      meta_readonly obligation_owner_pubkey true; token_program]
     ++ writable_metas collateral_reserves
     ++ match host_fee_receiver_pubkey with Some k => [meta k false] | None => [] end)
    (LendingInstruction_pack (BorrowObligationLiquidity liquidity_amount)).

Definition repay_obligation_liquidity (program_id : Pubkey) (liquidity_amount : Z)
    (source_liquidity_pubkey destination_liquidity_pubkey repay_reserve_pubkey obligation_pubkey
     lending_market_pubkey user_transfer_authority_pubkey : Pubkey) : Instruction :=
  mkInstruction program_id
    [meta source_liquidity_pubkey false; meta destination_liquidity_pubkey false;
     meta repay_reserve_pubkey false; meta obligation_pubkey false;
     meta_readonly lending_market_pubkey false;
     meta_readonly user_transfer_authority_pubkey true; token_program]
    (LendingInstruction_pack (RepayObligationLiquidity liquidity_amount)).

Definition liquidate_obligation (program_id : Pubkey) (liquidity_amount : Z)
    (source_liquidity_pubkey destination_collateral_pubkey repay_reserve_pubkey
     repay_reserve_liquidity_supply_pubkey withdraw_reserve_pubkey
     withdraw_reserve_collateral_supply_pubkey obligation_pubkey lending_market_pubkey
     user_transfer_authority_pubkey : Pubkey) : Instruction :=
  mkInstruction program_id
    [meta source_liquidity_pubkey false; meta destination_collateral_pubkey false;
     meta repay_reserve_pubkey false; meta repay_reserve_liquidity_supply_pubkey false;
     meta_readonly withdraw_reserve_pubkey false;
     meta withdraw_reserve_collateral_supply_pubkey false; meta obligation_pubkey false;
     meta_readonly lending_market_pubkey false;
     meta_readonly (market_authority lending_market_pubkey program_id) false;
     meta_readonly user_transfer_authority_pubkey true; token_program]
    (LendingInstruction_pack (LiquidateObligation liquidity_amount)).

Definition update_reserve_config (program_id : Pubkey) (config : ReserveConfig)
    (rate_limiter_config : RateLimiterConfig)
    (reserve_pubkey lending_market_pubkey lending_market_owner_pubkey pyth_product_pubkey
     pyth_price_pubkey switchboard_feed_pubkey : Pubkey) : Instruction :=
  mkInstruction program_id
    ([meta reserve_pubkey false; meta_readonly lending_market_pubkey false;
      meta_readonly (market_authority lending_market_pubkey program_id) false;
      meta_readonly lending_market_owner_pubkey true; meta_readonly pyth_product_pubkey false;
      meta_readonly pyth_price_pubkey false; meta_readonly switchboard_feed_pubkey false]
     ++ oracle_meta (extra_oracle_pubkey config))
    (LendingInstruction_pack (UpdateReserveConfig config rate_limiter_config)).

Definition liquidate_obligation_and_redeem_reserve_collateral (program_id : Pubkey)
    (liquidity_amount : Z)
    (source_liquidity_pubkey destination_collateral_pubkey destination_liquidity_pubkey
     repay_reserve_pubkey repay_reserve_liquidity_supply_pubkey withdraw_reserve_pubkey
     withdraw_reserve_collateral_mint_pubkey withdraw_reserve_collateral_supply_pubkey
     withdraw_reserve_liquidity_supply_pubkey withdraw_reserve_liquidity_fee_receiver_pubkey
     obligation_pubkey lending_market_pubkey user_transfer_authority_pubkey : Pubkey)
    : Instruction :=
  mkInstruction program_id
    [meta source_liquidity_pubkey false; meta destination_collateral_pubkey false;
     meta destination_liquidity_pubkey false; meta repay_reserve_pubkey false;
     meta repay_reserve_liquidity_supply_pubkey false; meta withdraw_reserve_pubkey false;
     meta withdraw_reserve_collateral_mint_pubkey false;
     meta withdraw_reserve_collateral_supply_pubkey false;
     meta withdraw_reserve_liquidity_supply_pubkey false;
     meta withdraw_reserve_liquidity_fee_receiver_pubkey false; meta obligation_pubkey false;
     meta lending_market_pubkey false;
     meta_readonly (market_authority lending_market_pubkey program_id) false;
     meta_readonly user_transfer_authority_pubkey true; token_program]
    (LendingInstruction_pack (LiquidateObligationAndRedeemReserveCollateral liquidity_amount)).

Definition redeem_fees (program_id reserve_pubkey reserve_liquidity_fee_receiver_pubkey
    reserve_supply_liquidity_pubkey lending_market_pubkey : Pubkey) : Instruction :=
  mkInstruction program_id
    [meta reserve_pubkey false; meta reserve_liquidity_fee_receiver_pubkey false;
     meta reserve_supply_liquidity_pubkey false; meta_readonly lending_market_pubkey false;
     meta_readonly (market_authority lending_market_pubkey program_id) false; token_program]
    (LendingInstruction_pack RedeemFees).

Definition flash_borrow_reserve_liquidity (program_id : Pubkey) (liquidity_amount : Z)
    (source_liquidity_pubkey destination_liquidity_pubkey reserve_pubkey
     lending_market_pubkey : Pubkey) : Instruction :=
  mkInstruction program_id
    [meta source_liquidity_pubkey false; meta destination_liquidity_pubkey false;
     meta reserve_pubkey false; meta_readonly lending_market_pubkey false;
     meta_readonly (market_authority lending_market_pubkey program_id) false;
     meta_readonly sysvar_instructions_id false; token_program]
    (LendingInstruction_pack (FlashBorrowReserveLiquidity liquidity_amount)).

Definition flash_repay_reserve_liquidity (program_id : Pubkey)
    (liquidity_amount borrow_instruction_index : Z)
    (source_liquidity_pubkey destination_liquidity_pubkey reserve_liquidity_fee_receiver_pubkey
     host_fee_receiver_pubkey reserve_pubkey lending_market_pubkey
     user_transfer_authority_pubkey : Pubkey) : Instruction :=
  mkInstruction program_id
    [meta source_liquidity_pubkey false; meta destination_liquidity_pubkey false;
     meta reserve_liquidity_fee_receiver_pubkey false; meta host_fee_receiver_pubkey false;
     meta reserve_pubkey false; meta_readonly lending_market_pubkey false;
     meta_readonly user_transfer_authority_pubkey true;
     meta_readonly sysvar_instructions_id false; token_program]
    (LendingInstruction_pack (FlashRepayReserveLiquidity liquidity_amount borrow_instruction_index)).

Definition forgive_debt (program_id : Pubkey) (liquidity_amount : Z)
    (reserve_pubkey obligation_pubkey lending_market_pubkey lending_market_owner : Pubkey)
    : Instruction :=
  mkInstruction program_id
    [meta obligation_pubkey false; meta reserve_pubkey false;
     meta_readonly lending_market_pubkey false; meta_readonly lending_market_owner true]
    (LendingInstruction_pack (ForgiveDebt liquidity_amount)).

Definition metadata_seeds (lending_market_pubkey : Pubkey) : list (list Z) :=
  [take PUBKEY_BYTES (pk_bytes lending_market_pubkey); METADATA_SEED].

(** The bump seed found for the metadata address is written into the struct,
    whose bytes follow the tag. *)
Definition with_bump_seed (bump_seed : Z) (m : LendingMarketMetadata) : LendingMarketMetadata :=
  mkLendingMarketMetadata bump_seed (mm_market_name m) (mm_market_description m)
    (mm_market_image_url m) (mm_lookup_tables m) (mm_padding m).

Definition update_market_metadata (program_id : Pubkey) (metadata : LendingMarketMetadata)
    (lending_market_pubkey lending_market_owner : Pubkey) : Instruction :=
  let seeds := metadata_seeds lending_market_pubkey in
  let lending_market_metadata_pubkey := find_program_address seeds program_id in
  let metadata := with_bump_seed (find_bump_seed seeds program_id) metadata in
  mkInstruction program_id
    [meta_readonly lending_market_pubkey false; meta lending_market_owner true;
     meta lending_market_metadata_pubkey false; meta_readonly system_program_id false]
    (22 :: metadata_bytes_of metadata).

Definition set_obligation_closeability_status (program_id obligation_pubkey reserve_pubkey
    lending_market_pubkey risk_authority : Pubkey) (closeable : bool) : Instruction :=
  mkInstruction program_id
    [meta obligation_pubkey false; meta_readonly lending_market_pubkey false;
     meta_readonly reserve_pubkey false; meta_readonly risk_authority true]
    (LendingInstruction_pack (SetObligationCloseabilityStatus closeable)).

Definition donate_to_reserve (program_id : Pubkey) (liquidity_amount : Z)
    (source_liquidity_pubkey destination_liquidity_pubkey reserve_pubkey lending_market_pubkey
     user_transfer_authority_pubkey : Pubkey) : Instruction :=
  mkInstruction program_id
    [meta source_liquidity_pubkey false; meta destination_liquidity_pubkey false;
     meta reserve_pubkey false; meta_readonly lending_market_pubkey false;
     meta_readonly user_transfer_authority_pubkey true; token_program]
    (LendingInstruction_pack (DonateToReserve liquidity_amount)).

(* ------------------------------------------------------------------ *)
(** ** The accounts the instruction enum documents *)

(** A documented account: read-only, writable, signing, or both. *)
Inductive Role := RO | RW | SG | SW.
Definition role_writable (r : Role) : bool := match r with RW | SW => true | _ => false end.
Definition role_signer (r : Role) : bool := match r with SG | SW => true | _ => false end.

(** What the comments call the accounts. [Reserve] is the only reserve of its
    instruction (deposit, borrow, repay or withdraw); liquidations have two. *)
Inductive AccountName :=
| LendingMarketAccount | DerivedAuthority | MarketOwner | RiskAuthority | MarketMetadata
| RentSysvar | ClockSysvar | InstructionsSysvar | TokenProgram | SystemProgram
| OracleProgram | SwitchboardOracleProgram | PythProduct | PythPrice | SwitchboardFeed
| SourceLiquidity | DestinationLiquidity | SourceCollateral | DestinationCollateral
| UserTransferAuthority | HostFeeReceiver | FlashLoanReceiverProgram
| ReserveAccount | ReserveLiquidityMint | ReserveLiquiditySupply | ReserveFeeReceiver
| ReserveCollateralMint | ReserveCollateralSupply
| RepayReserve | RepayReserveLiquiditySupply | WithdrawReserve | WithdrawReserveLiquiditySupply
| WithdrawReserveFeeReceiver | WithdrawReserveCollateralMint | WithdrawReserveCollateralSupply
| ObligationAccount | ObligationOwner | DepositReserves | BorrowReserves | ReceiverAccounts.

#[global] Instance AccountName_eq_dec : EqDecision AccountName.
Proof. solve_decision. Defined.

(** One line of a comment: an account, an optional account, or one account per
    item of a sequence, in order. *)
Inductive DocAccount :=
| Req (name : AccountName) (role : Role)
| Opt (name : AccountName) (role : Role)
| Each (name : AccountName) (role : Role).

Definition documented_accounts (i : LendingInstruction) : list DocAccount :=
  match i with
  | InitLendingMarket _ _ =>
      [Req LendingMarketAccount RW; Req RentSysvar RO; Req TokenProgram RO; Req OracleProgram RO;
       Req SwitchboardOracleProgram RO]
  | SetLendingMarketOwnerAndConfig _ _ _ _ => [Req LendingMarketAccount RW; Req MarketOwner SG]
  | InitReserve _ _ =>
      [Req SourceLiquidity RW; Req DestinationCollateral RW; Req ReserveAccount RW;
       Req ReserveLiquidityMint RO; Req ReserveLiquiditySupply RW; Req ReserveFeeReceiver RW;
       Req ReserveCollateralMint RW; Req ReserveCollateralSupply RW; Req PythProduct RO;
       Req PythPrice RO; Req SwitchboardFeed RO; Req LendingMarketAccount RO; Req DerivedAuthority RO;
       Req MarketOwner SG; Req UserTransferAuthority SG; Opt ClockSysvar RO; Req RentSysvar RO;
       Req TokenProgram RO]
  | RefreshReserve =>
      [Req ReserveAccount RW; Req PythPrice RO; Req SwitchboardFeed RO; Opt ClockSysvar RO]
  | DepositReserveLiquidity _ =>
      [Req SourceLiquidity RW; Req DestinationCollateral RW; Req ReserveAccount RW;
       Req ReserveLiquiditySupply RW; Req ReserveCollateralMint RW; Req LendingMarketAccount RO;
       Req DerivedAuthority RO; Req UserTransferAuthority SG; Opt ClockSysvar RO; Req TokenProgram RO]
  | RedeemReserveCollateral _ =>
      [Req SourceCollateral RW; Req DestinationLiquidity RW; Req ReserveAccount RW;
       Req ReserveCollateralMint RW; Req ReserveLiquiditySupply RW; Req LendingMarketAccount RO;
       Req DerivedAuthority RO; Req UserTransferAuthority SG; Opt ClockSysvar RO; Req TokenProgram RO]
  | InitObligation =>
      [Req ObligationAccount RW; Req LendingMarketAccount RO; Req ObligationOwner SG;
       Opt ClockSysvar RO; Req RentSysvar RO; Req TokenProgram RO]
  | RefreshObligation =>
      [Req ObligationAccount RW; Opt ClockSysvar RO; Each DepositReserves RW; Each BorrowReserves RO]
  | DepositObligationCollateral _ =>
      [Req SourceCollateral RW; Req ReserveCollateralSupply RW; Req ReserveAccount RW;
       Req ObligationAccount RW; Req LendingMarketAccount RO; Req ObligationOwner SG;
       Req UserTransferAuthority SG; Opt ClockSysvar RO; Req TokenProgram RO]
  | WithdrawObligationCollateral _ =>
      [Req ReserveCollateralSupply RW; Req DestinationCollateral RW; Req ReserveAccount RO;
       Req ObligationAccount RW; Req LendingMarketAccount RO; Req DerivedAuthority RO;
       Req ObligationOwner SG; Opt ClockSysvar RO; Req TokenProgram RO]
  | BorrowObligationLiquidity _ =>
      [Req ReserveLiquiditySupply RW; Req DestinationLiquidity RW; Req ReserveAccount RW;
       Req ReserveFeeReceiver RW; Req ObligationAccount RW; Req LendingMarketAccount RO;
       Req DerivedAuthority RO; Req ObligationOwner SG; Opt ClockSysvar RO; Req TokenProgram RO;
       Opt HostFeeReceiver RW]
  | RepayObligationLiquidity _ =>
      [Req SourceLiquidity RW; Req ReserveLiquiditySupply RW; Req ReserveAccount RW;
       Req ObligationAccount RW; Req LendingMarketAccount RO; Req UserTransferAuthority SG;
       Opt ClockSysvar RO; Req TokenProgram RO]
  | LiquidateObligation _ =>
      [Req SourceLiquidity RW; Req DestinationCollateral RW; Req RepayReserve RW;
       Req RepayReserveLiquiditySupply RW; Req WithdrawReserve RO;
       Req WithdrawReserveCollateralSupply RW; Req ObligationAccount RW; Req LendingMarketAccount RO;
       Req DerivedAuthority RO; Req UserTransferAuthority SG; Opt ClockSysvar RO; Req TokenProgram RO]
  | FlashLoan _ =>
      [Req SourceLiquidity RW; Req DestinationLiquidity RW; Req ReserveAccount RW;
       Req ReserveFeeReceiver RW; Req HostFeeReceiver RW; Req LendingMarketAccount RO;
       Req DerivedAuthority RO; Req TokenProgram RO; Req FlashLoanReceiverProgram RO;
       Each ReceiverAccounts RO]
  | DepositReserveLiquidityAndObligationCollateral _ =>
      [Req SourceLiquidity RW; Req DestinationCollateral RW; Req ReserveAccount RW;
       Req ReserveLiquiditySupply RW; Req ReserveCollateralMint RW; Req LendingMarketAccount RO;
       Req DerivedAuthority RO; Req ReserveCollateralSupply RW; Req ObligationAccount RW;
       Req ObligationOwner SG; Req PythPrice RO; Req SwitchboardFeed RO;
       Req UserTransferAuthority SG; Opt ClockSysvar RO; Req TokenProgram RO]
  | WithdrawObligationCollateralAndRedeemReserveCollateral _ =>
      [Req ReserveCollateralSupply RW; Req DestinationCollateral RW; Req ReserveAccount RW;
       Req ObligationAccount RW; Req LendingMarketAccount RO; Req DerivedAuthority RO;
       Req DestinationLiquidity RW; Req ReserveCollateralMint RW; Req ReserveLiquiditySupply RW;
       Req ObligationOwner SG; Req UserTransferAuthority SG; Opt ClockSysvar RO; Req TokenProgram RO]
  | UpdateReserveConfig _ _ =>
      [Req ReserveAccount RW; Req LendingMarketAccount RO; Req DerivedAuthority RO; Req MarketOwner SG;
       Req PythProduct RO; Req PythPrice RO; Req SwitchboardFeed RO]
  | LiquidateObligationAndRedeemReserveCollateral _ =>
      [Req SourceLiquidity RW; Req DestinationCollateral RW; Req DestinationLiquidity RW;
       Req RepayReserve RW; Req RepayReserveLiquiditySupply RW; Req WithdrawReserve RW;
       Req WithdrawReserveCollateralMint RW; Req WithdrawReserveCollateralSupply RW;
       Req WithdrawReserveLiquiditySupply RW; Req WithdrawReserveFeeReceiver RW;
       Req ObligationAccount RW; Req LendingMarketAccount RO; Req DerivedAuthority RO;
       Req UserTransferAuthority SG; Req TokenProgram RO]
  | RedeemFees =>
      [Req ReserveAccount RW; Req ReserveFeeReceiver RW; Req ReserveLiquiditySupply RW;
       Req LendingMarketAccount RO; Req DerivedAuthority RO; Req TokenProgram RO]
  | FlashBorrowReserveLiquidity _ =>
      [Req SourceLiquidity RW; Req DestinationLiquidity RW; Req ReserveAccount RW;
       Req LendingMarketAccount RO; Req DerivedAuthority RO; Req InstructionsSysvar RO;
       Req TokenProgram RO; Opt ClockSysvar RO]
  | FlashRepayReserveLiquidity _ _ =>
      [Req SourceLiquidity RW; Req DestinationLiquidity RW; Req ReserveFeeReceiver RW;
       Req HostFeeReceiver RW; Req ReserveAccount RW; Req LendingMarketAccount RO;
       Req UserTransferAuthority SG; Req InstructionsSysvar RO; Req TokenProgram RO]
  | ForgiveDebt _ =>
      [Req ObligationAccount RW; Req ReserveAccount RW; Req LendingMarketAccount RO; Req MarketOwner SG]
  | UpdateMarketMetadata =>
      [Req LendingMarketAccount RO; Req MarketOwner SG; Req MarketMetadata RW; Req SystemProgram RO]
  | SetObligationCloseabilityStatus _ =>
      [Req ObligationAccount RW; Req LendingMarketAccount RO; Req ReserveAccount RO; Req RiskAuthority SG]
  | DonateToReserve _ =>
      [Req SourceLiquidity RW; Req ReserveLiquiditySupply RW; Req ReserveAccount RW;
       Req LendingMarketAccount RO; Req UserTransferAuthority SG; Req TokenProgram RO]
  end.

Definition required_accounts (i : LendingInstruction) : list (AccountName * Role) :=
  omap (fun d => match d with Req name role => Some (name, role) | _ => None end) (documented_accounts i).

(** Where the comments and the builders disagree: the accounts a builder makes
    writable although its comment does not. *)
Definition undocumented_writable (i : LendingInstruction) : list AccountName :=
  match i with
  | RedeemReserveCollateral _ | BorrowObligationLiquidity _
  | WithdrawObligationCollateralAndRedeemReserveCollateral _
  | LiquidateObligationAndRedeemReserveCollateral _ => [LendingMarketAccount]
  | DepositReserveLiquidityAndObligationCollateral _ => [ObligationOwner]
  | UpdateMarketMetadata => [MarketOwner]
  | _ => []
  end.

(** The keys of the named accounts: the well-known and the derived ones, and
    for the others what the caller names. *)
Definition account_key_of (program : Pubkey) (named : AccountName -> Pubkey) (name : AccountName) : Pubkey :=
  match name with
  | DerivedAuthority => market_authority (named LendingMarketAccount) program
  | MarketMetadata => find_program_address (metadata_seeds (named LendingMarketAccount)) program
  | TokenProgram => spl_token_id
  | RentSysvar => sysvar_rent_id
  | InstructionsSysvar => sysvar_instructions_id
  | SystemProgram => system_program_id
  | _ => named name
  end.

Definition account_key (ix : Instruction) (n : nat) : option Pubkey := am_pubkey <$> (ix_accounts ix !! n).

(** What a builder emits for an instruction of the enum when its parameters
    are the keys of the accounts they are named after, and the accounts it
    appends to the listed ones. *)
Inductive sdk_builds (program : Pubkey) (k : AccountName -> Pubkey)
    : LendingInstruction -> list AccountMeta -> Instruction -> Prop :=
| sb_init_market o q :
    sdk_builds program k (InitLendingMarket o q) []
      (init_lending_market program o q (k LendingMarketAccount) (k OracleProgram) (k SwitchboardOracleProgram))
| sb_set_owner n c l r :
    sdk_builds program k (SetLendingMarketOwnerAndConfig n c l r) []
      (set_lending_market_owner_and_config program (k LendingMarketAccount) (k MarketOwner) n c l r)
| sb_init_reserve n c :
    k ReserveFeeReceiver = fee_receiver c ->
    sdk_builds program k (InitReserve n c) (oracle_meta (extra_oracle_pubkey c))
      (init_reserve program n c (k SourceLiquidity) (k DestinationCollateral) (k ReserveAccount)
         (k ReserveLiquidityMint) (k ReserveLiquiditySupply) (k ReserveCollateralMint)
         (k ReserveCollateralSupply) (k PythProduct) (k PythPrice) (k SwitchboardFeed)
         (k LendingMarketAccount) (k MarketOwner) (k UserTransferAuthority))
| sb_refresh_reserve x :
    sdk_builds program k RefreshReserve (oracle_meta x)
      (refresh_reserve program (k ReserveAccount) (k PythPrice) (k SwitchboardFeed) x)
| sb_deposit n :
    sdk_builds program k (DepositReserveLiquidity n) []
      (deposit_reserve_liquidity program n (k SourceLiquidity) (k DestinationCollateral) (k ReserveAccount)
         (k ReserveLiquiditySupply) (k ReserveCollateralMint) (k LendingMarketAccount)
         (k UserTransferAuthority))
| sb_redeem n :
    sdk_builds program k (RedeemReserveCollateral n) []
      (redeem_reserve_collateral program n (k SourceCollateral) (k DestinationLiquidity) (k ReserveAccount)
         (k ReserveCollateralMint) (k ReserveLiquiditySupply) (k LendingMarketAccount)
         (k UserTransferAuthority))
| sb_init_obligation :
    sdk_builds program k InitObligation []
      (init_obligation program (k ObligationAccount) (k LendingMarketAccount) (k ObligationOwner))
| sb_refresh_obligation reserves :
    sdk_builds program k RefreshObligation (writable_metas reserves)
      (refresh_obligation program (k ObligationAccount) reserves)
| sb_deposit_collateral n :
    sdk_builds program k (DepositObligationCollateral n) []
      (deposit_obligation_collateral program n (k SourceCollateral) (k ReserveCollateralSupply)
         (k ReserveAccount) (k ObligationAccount) (k LendingMarketAccount) (k ObligationOwner)
         (k UserTransferAuthority))
| sb_deposit_both n :
    sdk_builds program k (DepositReserveLiquidityAndObligationCollateral n) []
      (deposit_reserve_liquidity_and_obligation_collateral program n (k SourceLiquidity)
         (k DestinationCollateral) (k ReserveAccount) (k ReserveLiquiditySupply) (k ReserveCollateralMint)
         (k LendingMarketAccount) (k ReserveCollateralSupply) (k ObligationAccount) (k ObligationOwner)
         (k PythPrice) (k SwitchboardFeed) (k UserTransferAuthority))
| sb_withdraw_redeem n reserves :
    sdk_builds program k (WithdrawObligationCollateralAndRedeemReserveCollateral n) (writable_metas reserves)
      (withdraw_obligation_collateral_and_redeem_reserve_collateral program n (k ReserveCollateralSupply)
         (k DestinationCollateral) (k ReserveAccount) (k ObligationAccount) (k LendingMarketAccount)
         (k DestinationLiquidity) (k ReserveCollateralMint) (k ReserveLiquiditySupply) (k ObligationOwner)
         (k UserTransferAuthority) reserves)
| sb_withdraw n reserves :
    sdk_builds program k (WithdrawObligationCollateral n) (writable_metas reserves)
      (withdraw_obligation_collateral program n (k ReserveCollateralSupply) (k DestinationCollateral)
         (k ReserveAccount) (k ObligationAccount) (k LendingMarketAccount) (k ObligationOwner) reserves)
| sb_borrow n reserves host :
    sdk_builds program k (BorrowObligationLiquidity n) (writable_metas (reserves ++ option_list host))
      (borrow_obligation_liquidity program n (k ReserveLiquiditySupply) (k DestinationLiquidity)
         (k ReserveAccount) (k ReserveFeeReceiver) (k ObligationAccount) (k LendingMarketAccount)
         (k ObligationOwner) reserves host)
| sb_repay n :
    sdk_builds program k (RepayObligationLiquidity n) []
      (repay_obligation_liquidity program n (k SourceLiquidity) (k ReserveLiquiditySupply) (k ReserveAccount)
         (k ObligationAccount) (k LendingMarketAccount) (k UserTransferAuthority))
| sb_liquidate n :
    sdk_builds program k (LiquidateObligation n) []
      (liquidate_obligation program n (k SourceLiquidity) (k DestinationCollateral) (k RepayReserve)
         (k RepayReserveLiquiditySupply) (k WithdrawReserve) (k WithdrawReserveCollateralSupply)
         (k ObligationAccount) (k LendingMarketAccount) (k UserTransferAuthority))
| sb_update_config c l :
    sdk_builds program k (UpdateReserveConfig c l) (oracle_meta (extra_oracle_pubkey c))
      (update_reserve_config program c l (k ReserveAccount) (k LendingMarketAccount) (k MarketOwner)
         (k PythProduct) (k PythPrice) (k SwitchboardFeed))
| sb_liquidate_redeem n :
    sdk_builds program k (LiquidateObligationAndRedeemReserveCollateral n) []
      (liquidate_obligation_and_redeem_reserve_collateral program n (k SourceLiquidity)
         (k DestinationCollateral) (k DestinationLiquidity) (k RepayReserve) (k RepayReserveLiquiditySupply)
         (k WithdrawReserve) (k WithdrawReserveCollateralMint) (k WithdrawReserveCollateralSupply)
         (k WithdrawReserveLiquiditySupply) (k WithdrawReserveFeeReceiver) (k ObligationAccount)
         (k LendingMarketAccount) (k UserTransferAuthority))
| sb_redeem_fees :
    sdk_builds program k RedeemFees []
      (redeem_fees program (k ReserveAccount) (k ReserveFeeReceiver) (k ReserveLiquiditySupply)
         (k LendingMarketAccount))
| sb_flash_borrow n :
    sdk_builds program k (FlashBorrowReserveLiquidity n) []
      (flash_borrow_reserve_liquidity program n (k SourceLiquidity) (k DestinationLiquidity)
         (k ReserveAccount) (k LendingMarketAccount))
| sb_flash_repay n b :
    sdk_builds program k (FlashRepayReserveLiquidity n b) []
      (flash_repay_reserve_liquidity program n b (k SourceLiquidity) (k DestinationLiquidity)
         (k ReserveFeeReceiver) (k HostFeeReceiver) (k ReserveAccount) (k LendingMarketAccount)
         (k UserTransferAuthority))
| sb_forgive n :
    sdk_builds program k (ForgiveDebt n) []
      (forgive_debt program n (k ReserveAccount) (k ObligationAccount) (k LendingMarketAccount) (k MarketOwner))
| sb_metadata m :
    sdk_builds program k UpdateMarketMetadata []
      (update_market_metadata program m (k LendingMarketAccount) (k MarketOwner))
| sb_closeable b :
    sdk_builds program k (SetObligationCloseabilityStatus b) []
      (set_obligation_closeability_status program (k ObligationAccount) (k ReserveAccount)
         (k LendingMarketAccount) (k RiskAuthority) b)
| sb_donate n :
    sdk_builds program k (DonateToReserve n) []
      (donate_to_reserve program n (k SourceLiquidity) (k ReserveLiquiditySupply) (k ReserveAccount)
         (k LendingMarketAccount) (k UserTransferAuthority)).

(** The meta of a documented account. *)
Definition expected_meta (program : Pubkey) (k : AccountName -> Pubkey) (i : LendingInstruction)
    (account : AccountName * Role) : AccountMeta :=
  let '(name, role) := account in
  mkAccountMeta (account_key_of program k name) (role_signer role)
    (role_writable role || bool_decide (name ∈ undocumented_writable i)).

Lemma sdk_builds_accounts program k i extra ix :
  sdk_builds program k i extra ix ->
  ix_accounts ix = (expected_meta program k i <$> required_accounts i) ++ extra.
Proof.
  intros Hb. destruct Hb; try reflexivity.
  - cbn. by rewrite H0.
  - unfold borrow_obligation_liquidity. cbn [ix_accounts]. unfold writable_metas. rewrite map_app.
    by destruct host.
Qed.

Lemma sdk_builds_data program k i extra ix :
  sdk_builds program k i extra ix ->
  ix_program_id ix = program
  /\ (i <> UpdateMarketMetadata /\ ix_data ix = LendingInstruction_pack i
      \/ i = UpdateMarketMetadata /\ exists m, ix_data ix = 22 :: metadata_bytes_of m).
Proof. intros Hb. destruct Hb; (split; [done|]); first [left; done|right; split; [done|by eexists]]. Qed.

Lemma undocumented_writable_diverges i name role :
  (name, role) ∈ required_accounts i -> name ∈ undocumented_writable i -> role_writable role = false.
Proof.
  intros Hr Hu. unfold required_accounts in Hr.
  destruct i; cbn in Hr, Hu; try (by apply not_elem_of_nil in Hu); apply list_elem_of_singleton in Hu as ->;
    repeat (apply elem_of_cons in Hr as [Hr|Hr]; [try discriminate Hr; by injection Hr as ->|]);
    by apply not_elem_of_nil in Hr.
Qed.

(** C6: an instruction made by any of the SDK's builders from named keys
    decodes, in the program, to the instruction it was built for, and lists
    the required accounts of the enum's comment: the key of each documented
    account, in the documented order, signing exactly when documented, the
    market authority and the metadata account derived from the lending market
    named. Every account documented as writable is writable; so are, against
    the comment, the lending market of four instructions and the paying owner
    of two, and nothing else. What follows the listed accounts never signs:
    the extra oracle, the reserves of a refresh, of a withdrawal or of a
    borrow, and the host's fee receiver. The optional clock is never passed,
    and only the deprecated flash loan has no builder. *)
Theorem sdk_builders_conform program k i extra ix :
  sdk_builds program k i extra ix -> instruction_wf i ->
  ix_program_id ix = program
  /\ LendingInstruction_unpack (ix_data ix) = Done (Ok i)
  /\ ix_accounts ix = (expected_meta program k i <$> required_accounts i) ++ extra
  /\ (forall name role, (name, role) ∈ required_accounts i -> name ∈ undocumented_writable i ->
       role_writable role = false)
  /\ Forall (fun m => am_is_signer m = false) extra
  /\ (forall n, i <> FlashLoan n).
Proof.
  intros Hb Hwf. destruct (sdk_builds_data _ _ _ _ _ Hb) as [Hp Hd]. split_and!; [done| |..].
  - destruct Hd as [[Hne ->]|[-> [m ->]]]; [|done].
    rewrite <- (app_nil_r (LendingInstruction_pack i)). by apply unpack_pack.
  - by apply sdk_builds_accounts.
  - apply undocumented_writable_diverges.
  - assert (Hw : forall ks, Forall (fun m => am_is_signer m = false) (writable_metas ks)).
    { intros ks. induction ks; by constructor. }
    assert (Ho : forall o, Forall (fun m => am_is_signer m = false) (oracle_meta o)).
    { intros [o|]; repeat constructor. }
    destruct Hb; auto.
  - destruct Hb; discriminate.
Qed.

(** The comment of [RefreshObligation] lists the deposit reserves as writable
    and the borrow reserves as read-only; the builder makes all of them
    writable. *)
Theorem refresh_obligation_borrows_writable program obligation deposits borrows :
  documented_accounts RefreshObligation
  = [Req ObligationAccount RW; Opt ClockSysvar RO; Each DepositReserves RW; Each BorrowReserves RO]
  /\ ix_accounts (refresh_obligation program obligation (deposits ++ borrows))
     = mkAccountMeta obligation false true
       :: ((fun key => mkAccountMeta key false true) <$> deposits)
       ++ ((fun key => mkAccountMeta key false true) <$> borrows).
Proof.
  split; [done|]. unfold refresh_obligation, writable_metas. cbn [ix_accounts app]. rewrite map_app. done.
Qed.

(** The metadata instruction carries the market's metadata with the bump
    seed of its own address, byte for byte: reading its data as the metadata
    account does returns exactly that, and the address written to is the one
    derived from the market. *)
Theorem market_metadata_roundtrip program metadata market owner :
  LendingMarketMetadata_wf metadata ->
  is_u8 (find_bump_seed (metadata_seeds market) program) ->
  let ix := update_market_metadata program metadata market owner in
  metadata_new_from_bytes (ix_data ix)
  = Done (Ok (with_bump_seed (find_bump_seed (metadata_seeds market) program) metadata))
  /\ length (ix_data ix) = 830%nat
  /\ account_key ix 2 = Some (find_program_address (metadata_seeds market) program)
  /\ LendingInstruction_unpack (ix_data ix) = Done (Ok UpdateMarketMetadata).
Proof.
  intros [Hb Hn Hd Hi Ht Hk Hp] Hu. cbv zeta.
  destruct (metadata_image (with_bump_seed (find_bump_seed (metadata_seeds market) program) metadata) 22)
    as [Hl Hr]; [by constructor|].
  split_and!; [exact Hr| |done|done]. unfold update_market_metadata. cbn [ix_data length].
  by rewrite Hl.
Qed.

(* ------------------------------------------------------------------ *)
(** ** The bundler's own Save flash-loan builders *)

(** C31: the bundler's flash-borrow and flash-repay builders list exactly the
    accounts of the SDK's builders, but their tags 14 and 15 are not the
    SDK's 19 and 20: the program decodes them as the deposit and the
    withdrawal instruction of the same amount, which expect more accounts
    than are listed. *)
Theorem save_flash_wrong_tag program amount index src dst fee host reserve market auth :
  is_u64 amount -> is_u8 index -> programs_spl_token_program_id = Done spl_token_id ->
  let borrow := flash_borrow_reserve_liquidity program amount src dst reserve market in
  let repay := flash_repay_reserve_liquidity program amount index src dst fee host reserve market auth in
  exists b r,
    build_save_flash_borrow_instruction program amount src dst reserve market = Done b
    /\ build_save_flash_repay_instruction program amount index src dst fee host reserve market auth = Done r
    /\ ix_accounts b = ix_accounts borrow /\ ix_accounts r = ix_accounts repay
    /\ LendingInstruction_unpack (ix_data borrow) = Done (Ok (FlashBorrowReserveLiquidity amount))
    /\ LendingInstruction_unpack (ix_data repay) = Done (Ok (FlashRepayReserveLiquidity amount index))
    /\ LendingInstruction_unpack (ix_data b)
       = Done (Ok (DepositReserveLiquidityAndObligationCollateral amount))
    /\ LendingInstruction_unpack (ix_data r)
       = Done (Ok (WithdrawObligationCollateralAndRedeemReserveCollateral amount))
    /\ (length (ix_accounts b)
        < length (required_accounts (DepositReserveLiquidityAndObligationCollateral amount)))%nat
    /\ (length (ix_accounts r)
        < length (required_accounts (WithdrawObligationCollateralAndRedeemReserveCollateral amount)))%nat.
Proof.
  intros Ha Hi Ht. cbv zeta.
  unfold build_save_flash_borrow_instruction, build_save_flash_repay_instruction. rewrite Ht.
  do 2 eexists. do 2 (split; [reflexivity|]). split_and!; try done; try (cbn; lia).
  - apply (unpack_pack (FlashBorrowReserveLiquidity amount) []); done.
  - rewrite <- (app_nil_r (ix_data _)).
    apply (unpack_pack (FlashRepayReserveLiquidity amount index) []); done.
  - apply (unpack_pack (DepositReserveLiquidityAndObligationCollateral amount) []); done.
  - apply (unpack_pack (WithdrawObligationCollateralAndRedeemReserveCollateral amount) [index]); done.
Qed.
End client.

(** ** Witnesses, on the SDK of [Bundler] *)

(** A key per name, all of them different where the witness looks. *)
Definition toy_named (name : AccountName) : Pubkey :=
  match name with
  | SourceLiquidity => ikey 2
  | DestinationLiquidity => ikey 3
  | ReserveFeeReceiver => ikey 4
  | HostFeeReceiver => ikey 5
  | ReserveAccount => ikey 6
  | LendingMarketAccount => ikey 7
  | UserTransferAuthority => ikey 8
  | _ => ikey 9
  end.

Lemma sdk_builders_conform_witness :
  let i := FlashRepayReserveLiquidity 500 1 in
  let ix := @flash_repay_reserve_liquidity toy_sdk (ikey 11) (ikey 1) 500 1 (ikey 2) (ikey 3) (ikey 4)
              (ikey 5) (ikey 6) (ikey 7) (ikey 8) in
  LendingInstruction_unpack (ix_data ix) = Done (Ok i)
  /\ ix_accounts ix
     = (@expected_meta toy_sdk (ikey 11) (ikey 12) (ikey 1) toy_named i <$> required_accounts i) ++ [].
Proof.
  cbv zeta.
  destruct (@sdk_builders_conform toy_sdk (ikey 11) (ikey 12) (fun _ _ => 255) (ikey 1) toy_named
              (FlashRepayReserveLiquidity 500 1) []
              (@flash_repay_reserve_liquidity toy_sdk (ikey 11) (ikey 1) 500 1 (ikey 2) (ikey 3) (ikey 4)
                 (ikey 5) (ikey 6) (ikey 7) (ikey 8))) as (_ & Hu & Hc & _).
  - apply (@sb_flash_repay toy_sdk (ikey 11) (ikey 12) (fun _ _ => 255) (ikey 1) toy_named).
  - split; by vm_compute.
  - by split.
Defined.

Definition sample_metadata : LendingMarketMetadata :=
  mkLendingMarketMetadata 0 (replicate 50 77) (replicate 300 100) (replicate 250 104)
    [ikey 1; ikey 2; ikey 3; ikey 4] (replicate 100 0).

Lemma market_metadata_roundtrip_witness :
  let ix := @update_market_metadata toy_sdk (fun _ _ => 254) (ikey 9) sample_metadata (ikey 1) (ikey 2) in
  metadata_new_from_bytes (ix_data ix) = Done (Ok (with_bump_seed 254 sample_metadata)).
Proof.
  cbv zeta. apply (@market_metadata_roundtrip toy_sdk (fun _ _ => 254) (ikey 9) sample_metadata (ikey 1) (ikey 2)).
  - constructor; try by vm_compute. repeat constructor; by vm_compute.
  - by vm_compute.
Defined.

Lemma save_flash_wrong_tag_witness :
  exists b, @build_save_flash_borrow_instruction toy_sdk (ikey 1) 5000 (ikey 2) (ikey 3) (ikey 4) (ikey 5) = Done b
  /\ LendingInstruction_unpack (ix_data b)
     = Done (Ok (DepositReserveLiquidityAndObligationCollateral 5000)).
Proof.
  destruct (@save_flash_wrong_tag toy_sdk Pubkey_default (ikey 1) 5000 0 (ikey 2) (ikey 3) (ikey 6)
              (ikey 7) (ikey 4) (ikey 5) (ikey 8)) as (b & _ & Hb & _ & _ & _ & _ & _ & Hd & _).
  - by vm_compute.
  - by vm_compute.
  - reflexivity.
  - by exists b.
Defined.
