(* ===== verification/Readiness.v ===== *)
(** * crates/gyrfalcon-bin/src/bin/readiness-check.rs: the readiness gate.

    The file system is a record of what [std::fs] answers. The [detail] text
    of a result is only printed and is not modelled. *)

From Stdlib Require Import ZArith Lia.
From stdpp Require Import base list option strings.
From S2P Require Import Prelude Lists F64 Config.

Open Scope rust_scope.

Inductive Status := Verified | Manual | Missing.
#[global] Instance Status_eq_dec : EqDecision Status.
Proof. solve_decision. Defined.

Definition label (s : Status) : string :=
  match s with Verified => "VERIFIED" | Manual => "MANUAL  " | Missing => "MISSING " end.

Record CheckResult := mkCheckResult { item : string; cr_status : Status }.

(** [Path::exists], the length from [std::fs::metadata] when it succeeds, and
    [std::fs::read_to_string]. *)
Record Filesystem := mkFilesystem {
  path_exists : string -> bool;
  metadata_len : string -> option Z;
  read_file : string -> option string
}.

Definition check_replay_fixtures (fs : Filesystem) : CheckResult :=
  let path := "tests/fixtures/liquidations.jsonl"%string in
  let item := "Historical replay fixtures populated (Stage B item 5)"%string in
  if path_exists fs path && match metadata_len fs path with Some len => 0 <? len | None => false end
  then mkCheckResult item Verified
  else mkCheckResult item Manual.

Definition check_cu_table (fs : Filesystem) : CheckResult :=
  mkCheckResult "Per-route CU profiling table built from real LiteSVM runs"
    (if path_exists fs "tests/fixtures/cu_table.csv" then Verified else Missing).

Definition check_config (toml_from_str : string -> option Config) (fs : Filesystem)
    (config_path : string) : list CheckResult :=
  match load (read_file fs) toml_from_str config_path with
  | Err _ => [mkCheckResult "Config loads and validates" Missing]
  | Ok _ =>
      [mkCheckResult "Config loads and validates" Verified;
       mkCheckResult "Treasury wallet funded above treasury.min_balance_sol" Manual]
  end.

Definition static_checklist_items : list CheckResult :=
  [mkCheckResult "Current IDL for Kamino Lend pulled from the deployed program" Manual;
   mkCheckResult "Kamino native flash-borrow and Solend fallback fee schedules confirmed at current bps, per reserve" Manual;
   mkCheckResult "Kamino program bytecode hash matches expected on-chain bytecode" Manual;
   mkCheckResult "Oracle freshness for 4 Pyth feeds within 1s heartbeat" Manual;
   mkCheckResult "Oracle-DEX spot price consistency within 1% deviation" Manual;
   mkCheckResult "DEX exit-route pool liquidity verified across 4 venues" Manual;
   mkCheckResult "Jito Block Engine regional relay liveness verified" Manual;
   mkCheckResult "Oracle staleness/confidence handling verified for Kamino (Pyth)" Verified;
   mkCheckResult "ALTs built and warmed for every route intended to fire on day one" Manual;
   mkCheckResult "Empirical write-lock contention map built from observed slot data" Manual;
   mkCheckResult "ATA pre-provisioning complete for every mint combination" Manual;
   mkCheckResult "Staked-send + Jito dual submission tested end-to-end on devnet" Manual;
   mkCheckResult "Tip-curve constant k and contention map calibrated from observe-mode data" Manual;
   mkCheckResult "All four circuit breakers verified to actually halt submission" Verified].

(** The argument after the first [--config], or the default path. *)
Definition config_path_of (args : list string) : string :=
  match list_find (fun a => a = "--config"%string) args with
  | Some (i, _) => default "config/gyrfalcon.toml"%string (args !! (i + 1)%nat)
  | None => "config/gyrfalcon.toml"%string
  end.

Definition readiness_results (toml_from_str : string -> option Config) (fs : Filesystem)
    (args : list string) : list CheckResult :=
  check_config toml_from_str fs (config_path_of args)
  ++ [check_replay_fixtures fs] ++ [check_cu_table fs] ++ static_checklist_items.

(** The counting loop. *)
Definition count_statuses (results : list CheckResult) : Z * Z * Z :=
  fold_left (fun '(verified, manual, missing) r =>
    match cr_status r with
    | Verified => (verified + 1, manual, missing)
    | Manual => (verified, manual + 1, missing)
    | Missing => (verified, manual, missing + 1)
    end) results (0, 0, 0).

Definition verdict (results : list CheckResult) : ExitCode :=
  let '(_, manual, missing) := count_statuses results in
  if (missing >? 0) || (manual >? 0) then ExitFailure else ExitSuccess.

Definition readiness_main (toml_from_str : string -> option Config) (fs : Filesystem)
    (args : list string) : ExitCode :=
  verdict (readiness_results toml_from_str fs args).

(* ------------------------------------------------------------------ *)

Definition count_status (s : Status) (results : list CheckResult) : Z :=
  Z.of_nat (length (filter (fun r => cr_status r = s) results)).

Lemma triple_eq (a b c a' b' c' : Z) : a = a' -> b = b' -> c = c' -> (a, b, c) = (a', b', c').
Proof. congruence. Qed.

Lemma count_statuses_spec results :
  count_statuses results
  = (count_status Verified results, count_status Manual results, count_status Missing results).
Proof.
  unfold count_statuses.
  enough (H : forall v m x, fold_left (fun '(verified, manual, missing) r =>
      match cr_status r with
      | Verified => (verified + 1, manual, missing)
      | Manual => (verified, manual + 1, missing)
      | Missing => (verified, manual, missing + 1)
      end) results (v, m, x)
    = (v + count_status Verified results, m + count_status Manual results,
       x + count_status Missing results)) by (by rewrite H).
  induction results as [|r rs IH]; intros v m x; [unfold count_status; cbn; apply triple_eq; lia|].
  cbn [fold_left]. unfold count_status in *. rewrite !filter_cons.
  destruct r as [it []]; cbn [cr_status]; rewrite IH; repeat case_decide; try done; cbn [length];
    apply triple_eq; lia.
Qed.

Lemma count_status_0 s results :
  count_status s results = 0 <-> Forall (fun r => cr_status r <> s) results.
Proof.
  unfold count_status. split.
  - intros H. assert (Hn : filter (fun r => cr_status r = s) results = []) by
      (apply nil_length_inv; lia).
    apply list.Forall_forall. intros r Hr Hs.
    assert (Hin : r ∈ filter (fun r => cr_status r = s) results) by (by apply list_elem_of_filter).
    rewrite Hn in Hin. by apply not_elem_of_nil in Hin.
  - intros H. rewrite filter_none; [done|]. intros r Hr. rewrite list.Forall_forall in H. by apply H.
Qed.

Lemma verdict_SUCCESS results :
  verdict results = ExitSuccess <-> Forall (fun r => cr_status r = Verified) results.
Proof.
  unfold verdict. rewrite count_statuses_spec.
  destruct (Z.gtb_spec (count_status Missing results) 0) as [Hx|Hx]; cbn [orb].
  { split; [done|]. intros H. assert (count_status Missing results = 0); [|lia].
    apply count_status_0. eapply list.Forall_impl; [exact H|]. by intros r ->. }
  destruct (Z.gtb_spec (count_status Manual results) 0) as [Hm|Hm].
  { split; [done|]. intros H. assert (count_status Manual results = 0); [|lia].
    apply count_status_0. eapply list.Forall_impl; [exact H|]. by intros r ->. }
  split; [intros _|done].
  assert (Hx0 : count_status Missing results = 0) by (unfold count_status in *; lia).
  assert (Hm0 : count_status Manual results = 0) by (unfold count_status in *; lia).
  apply count_status_0 in Hx0, Hm0. rewrite list.Forall_forall in *.
  intros r Hr. specialize (Hx0 r Hr). specialize (Hm0 r Hr). by destruct (cr_status r).
Qed.

(** The gate succeeds exactly when every evaluated item is verified, and
    the three counts it prints add up to the items. As the checklist is
    written it always fails: eighteen items are evaluated with a loadable
    configuration (seventeen without), of which at least twelve are manual,
    whatever the file system and the configuration hold. *)
Theorem readiness_gate toml_from_str fs args :
  let results := readiness_results toml_from_str fs args in
  let '(verified, manual, missing) := count_statuses results in
  verified + manual + missing = Z.of_nat (length results)
  /\ (verdict results = ExitSuccess <-> Forall (fun r => cr_status r = Verified) results)
  /\ readiness_main toml_from_str fs args = ExitFailure
  /\ (length results = 18%nat <-> exists c, load (read_file fs) toml_from_str (config_path_of args) = Ok c)
  /\ (length results = 17%nat <-> exists e, load (read_file fs) toml_from_str (config_path_of args) = Err e)
  /\ 12 <= manual.
Proof.
  cbv zeta. pose proof (verdict_SUCCESS (readiness_results toml_from_str fs args)) as HV.
  rewrite count_statuses_spec. unfold readiness_main.
  assert (HF : verdict (readiness_results toml_from_str fs args) = ExitFailure).
  { destruct (verdict _); [|done]. destruct HV as [HV _]. specialize (HV eq_refl).
    unfold readiness_results in HV. rewrite !list.Forall_app in HV. destruct HV as (_ & _ & _ & HV).
    apply Forall_inv in HV. done. }
  unfold readiness_results, check_config, count_status in *.
  destruct (load _ _ _) as [c|e]; unfold check_replay_fixtures, check_cu_table in *;
    destruct (path_exists fs "tests/fixtures/cu_table.csv");
    destruct (path_exists fs "tests/fixtures/liquidations.jsonl" && _);
    (split_and!; [done|done|done| | |done]); (split; [intros; try discriminate; by eexists|by intros [? ?]]).
Qed.
