(* ===== verification/Sizing.v ===== *)
(** * crates/strategy/src/sizing.rs: position sizing.

    [size_position_with_feasibility] is the source's [loop] run with fuel;
    [sizing_fuel] attempts are always enough, because the step is a tenth of
    the initial size. The transaction compiler and its serialized length
    come from the [SolanaSdk] interface of [Bundler]. *)

From Stdlib Require Import ZArith Lia.
From stdpp Require Import base gmap list option.
From S2P Require Import Prelude Lists F64 CoreTypes Config Tip Router Bundler.

Open Scope rust_scope.

Definition MAX_TX_CU : Z := 1400000.

Inductive BindingConstraint := CloseFactor | FlashDepth | ByteLimit | ComputeBudget.
#[global] Instance BindingConstraint_eq_dec : EqDecision BindingConstraint.
Proof. solve_decision. Defined.

(** ** Gas regimes *)

Inductive GasRegime := GasNormal | GasHigh | GasSpike.

Definition tx_cost_usd (g : GasRegime) : f64 :=
  match g with
  | GasNormal => f64_lit 15 10000
  | GasHigh => f64_lit 31 1000
  | GasSpike => f64_lit 14 100
  end.
Definition break_even_debt_usd (g : GasRegime) : option f64 :=
  match g with
  | GasNormal => Some (f64_lit 2 100)
  | GasHigh => None
  | GasSpike => Some (f64_lit 43 10)
  end.
Definition min_clip_usd (g : GasRegime) : f64 :=
  match g with GasNormal => f64_of_Z 100 | GasHigh => f64_of_Z 250 | GasSpike => f64_of_Z 250 end.
Definition net_profit_at_min_clip_usd (g : GasRegime) : option f64 :=
  match g with
  | GasNormal => Some (f64_of_Z 5)
  | GasHigh => None
  | GasSpike => Some (f64_lit 1228 100)
  end.

(** ** Routes *)

Record SizingDecision := mkSizingDecision {
  sd_initial_size : Z;
  sd_final_size : Z;
  sd_used_alt : bool;
  sd_step_downs : Z;
  sd_binding_constraint : option BindingConstraint
}.

(** [trait RouteFeasibilityProvider] and its implementations: a function of
    the size (with the default estimate), a static route, and a pair of
    functions. *)
Class RouteFeasibilityProvider (R : Type) := {
  build_instructions : R -> Z -> list Instruction;
  estimate_cu : R -> Z -> Z
}.

Definition DEFAULT_CU_ESTIMATE : Z := 250000.

Record FnRoute := mkFnRoute { fn_route : Z -> list Instruction }.
#[global] Instance FnRoute_provider : RouteFeasibilityProvider FnRoute :=
  {| build_instructions r repay_amount := fn_route r repay_amount;
     estimate_cu _ _ := DEFAULT_CU_ESTIMATE |}.

Record StaticRoute := mkStaticRoute { st_instructions : list Instruction; st_estimated_cu : Z }.
#[global] Instance StaticRoute_provider : RouteFeasibilityProvider StaticRoute :=
  {| build_instructions r _ := st_instructions r; estimate_cu r _ := st_estimated_cu r |}.

Record DynamicRoute := mkDynamicRoute { dy_builder : Z -> list Instruction; dy_cu_estimator : Z -> Z }.
#[global] Instance DynamicRoute_provider : RouteFeasibilityProvider DynamicRoute :=
  {| build_instructions r repay_amount := dy_builder r repay_amount;
     estimate_cu r repay_amount := dy_cu_estimator r repay_amount |}.

(** [size_position]. *)
Definition size_position (candidate : BreachCandidate) (flash_source_available : Z) : Z :=
  Z.min (bc_close_factor_max_repay candidate) flash_source_available.

(** ** [size_and_route] *)

Section route.
Context {R : Type} `{FlashSourceRouter R}.
Local Open Scope f64_scope.

Definition estimate_profit (repay_amount fee_bps : Z) (risk : RiskConfig)
    : panicking ProfitEstimate :=
  let bonus_rate := f64_lit 5 100 in
  let repay_scale := f64_of_Z repay_amount / f64_of_Z 1000000 in
  let bonus_usd := f64_max (repay_scale * bonus_rate * f64_of_Z 20) (f64_of_Z 12) in
  let est_slippage_usd := f64_max (repay_scale * f64_lit 3 1000 * f64_of_Z 20) (f64_lit 10 100) in
  let flash_fee_usd :=
    f64_max (repay_scale * f64_of_Z 20 * (f64_of_Z fee_bps / f64_of_Z 10000)) (f64_lit 1 100) in
  let est_cu_cost_usd := f64_lit 50 100 in
  let! bid_tip_usd := static_tip_bid bonus_usd risk in
  let net_usd := bonus_usd - est_slippage_usd - flash_fee_usd - est_cu_cost_usd - bid_tip_usd in
  Done (mkProfitEstimate bonus_usd est_slippage_usd flash_fee_usd est_cu_cost_usd
          bid_tip_usd net_usd).

Definition size_and_route (candidate : BreachCandidate) (router : R) (risk : RiskConfig)
    (flash_depth : Z) : panicking (option RoutedCandidate) :=
  let repay_amount := size_position candidate flash_depth in
  if (repay_amount =? 0)%Z then Done None
  else
    match route router (bc_debt_mint candidate) repay_amount with
    | None => Done None
    | Some flash_source =>
        let! est := estimate_profit repay_amount (fs_fee_bps flash_source) risk in
        if pe_net_usd est <? rk_min_profit_usd risk then Done None
        else Done (Some (mkRoutedCandidate candidate repay_amount flash_source est))
    end.
End route.

(** ** Feasibility *)

Section feasibility.
Context `{SolanaSdk} {R : Type} `{RouteFeasibilityProvider R} (route : R).
Context (table_iter : AltManager -> list (Pubkey * AddressLookupTableAccount)).
Context (alt_manager : option AltManager) (payer : Pubkey) (recent_blockhash : Hash).

(** Length of the transaction compiled against [tables], with default
    signatures; [None] is the source's [usize::MAX]. *)
Definition unsigned_len (ixs : list Instruction) (tables : list AddressLookupTableAccount)
    : option Z :=
  match try_compile payer ixs tables recent_blockhash with
  | Err _ => None
  | Ok msg =>
      let sigs := replicate (Z.to_nat (num_required_signatures msg)) default_signature in
      (fun b => Z.of_nat (length b)) <$> bincode_serialize sigs msg
  end.

Definition len_fits (l : option Z) : bool :=
  match l with Some n => n <=? MAX_TX_BYTES | None => false end.

Definition feasible_instructions (repay_amount : Z) : list Instruction :=
  set_compute_unit_limit (Z.min (estimate_cu route repay_amount) MAX_TX_CU)
    :: build_instructions route repay_amount.

(** [check_feasibility]: [Ok used_alt] or the binding constraint. *)
Definition check_feasibility (repay_amount : Z) : result bool BindingConstraint :=
  if estimate_cu route repay_amount >? MAX_TX_CU then Err ComputeBudget
  else
    let ixs := feasible_instructions repay_amount in
    if len_fits (unsigned_len ixs []) then Ok false
    else
      match alt_manager with
      | None => Err ByteLimit
      | Some mgr =>
          let tables := get_all_tables table_iter mgr in
          match tables with
          | [] => Err ByteLimit
          | _ => if len_fits (unsigned_len ixs tables) then Ok true else Err ByteLimit
          end
      end.

(** What fitting means, for the theorems. *)
Definition fits (repay_amount : Z) (used_alt : bool) : Prop :=
  estimate_cu route repay_amount <= MAX_TX_CU
  /\ exists tables n,
     unsigned_len (feasible_instructions repay_amount) tables = Some n /\ n <= MAX_TX_BYTES
     /\ (used_alt = false -> tables = []).

Lemma check_feasibility_Ok repay_amount used_alt :
  check_feasibility repay_amount = Ok used_alt -> fits repay_amount used_alt.
Proof.
  unfold check_feasibility, fits.
  destruct (Z.gtb_spec (estimate_cu route repay_amount) MAX_TX_CU); [done|].
  assert (Hlen : forall l, len_fits l = true -> exists n, l = Some n /\ n <= MAX_TX_BYTES)
    by (intros [n|] Hn; [apply Z.leb_le in Hn; by exists n|done]).
  destruct (len_fits (unsigned_len _ [])) eqn:E1.
  - intros [= <-]. split; [lia|]. destruct (Hlen _ E1) as (n & ? & ?). by exists [], n.
  - destruct alt_manager as [mgr|]; [|done].
    destruct (get_all_tables table_iter mgr) as [|t ts]; [done|].
    destruct (len_fits (unsigned_len _ (t :: ts))) eqn:E2; [|done].
    intros [= <-]. split; [lia|]. destruct (Hlen _ E2) as (n & ? & ?).
    by exists (t :: ts), n.
Qed.

(** The [loop]: sizes go down by [step] from [current]. *)
Fixpoint sizing_loop (fuel : nat) (max_repay initial_size step_decrement current_size step_downs : Z)
    (last_overflow : option BindingConstraint) : option SizingDecision :=
  match fuel with
  | O => None
  | S fuel =>
      match check_feasibility current_size with
      | Ok used_alt =>
          let binding_constraint :=
            if current_size <? initial_size then last_overflow
            else if initial_size =? max_repay then Some CloseFactor
            else Some FlashDepth in
          Some (mkSizingDecision initial_size current_size used_alt step_downs binding_constraint)
      | Err constraint =>
          let step_downs := wadd 32 step_downs 1 in
          if current_size <=? step_decrement
          then Some (mkSizingDecision initial_size 0 false step_downs (Some constraint))
          else sizing_loop fuel max_repay initial_size step_decrement
                 (current_size - step_decrement) step_downs (Some constraint)
      end
  end.

Definition sizing_fuel : nat := 19.

Definition size_position_with_feasibility (candidate : BreachCandidate)
    (flash_source_available : Z) : option SizingDecision :=
  let max_repay := bc_close_factor_max_repay candidate in
  let initial_size := Z.min max_repay flash_source_available in
  if initial_size =? 0 then
    Some (mkSizingDecision 0 0 false 0
            (if max_repay =? 0 then Some CloseFactor else Some FlashDepth))
  else
    let step_decrement := Z.max (initial_size / 10) 1 in
    sizing_loop sizing_fuel max_repay initial_size step_decrement initial_size 0 None.

Definition size_position_stepped (candidate : BreachCandidate) (flash_source_available : Z)
    : option Z := sd_final_size <$> size_position_with_feasibility candidate flash_source_available.

(* -------------------------------------------------------------- *)
(** *** The loop's result *)

Definition infeasible (size : Z) : Prop := exists c, check_feasibility size = Err c.

Lemma sizing_loop_spec fuel max_repay initial step k last :
  0 < step -> 0 <= k < 1000 -> 0 < initial - k * step ->
  initial - k * step <= step * Z.of_nat fuel ->
  (forall j, 0 <= j < k -> infeasible (initial - j * step)) ->
  (0 < k -> exists c, last = Some c /\ check_feasibility (initial - (k - 1) * step) = Err c) ->
  Z.of_nat fuel + k < 1000 ->
  exists d, sizing_loop fuel max_repay initial step (initial - k * step) k last = Some d
    /\ sd_initial_size d = initial /\ 0 <= sd_step_downs d <= k + Z.of_nat fuel
    /\ (forall j, 0 <= j < sd_step_downs d -> infeasible (initial - j * step))
    /\ ((0 < sd_final_size d /\ sd_final_size d = initial - sd_step_downs d * step
         /\ check_feasibility (sd_final_size d) = Ok (sd_used_alt d)
         /\ (sd_step_downs d = 0 ->
             sd_binding_constraint d = Some (if initial =? max_repay then CloseFactor else FlashDepth))
         /\ (0 < sd_step_downs d -> exists c, sd_binding_constraint d = Some c
             /\ check_feasibility (sd_final_size d + step) = Err c))
        \/ (sd_final_size d = 0 /\ 0 < sd_step_downs d /\ sd_used_alt d = false
            /\ initial - sd_step_downs d * step <= 0
            /\ exists c, sd_binding_constraint d = Some c
               /\ check_feasibility (initial - (sd_step_downs d - 1) * step) = Err c)).
Proof.
  intros Hstep. revert k last. induction fuel as [|fuel IH]; intros k last Hk Hpos Hfuel Hinf Hlast Hb;
    [lia|]. cbn [sizing_loop].
  destruct (check_feasibility (initial - k * step)) as [alt|c] eqn:Hc.
  - eexists; split; [done|]. cbn. split_and!; [done|lia|lia|done|]. left.
    split_and!; [done|done|done| |].
    + intros ->. rewrite Z.mul_0_l, Z.sub_0_r. destruct (Z.ltb_spec initial initial); [lia|].
      by destruct (initial =? max_repay).
    + intros Hk0. destruct (Hlast Hk0) as (c & -> & Hcc).
      destruct (Z.ltb_spec (initial - k * step) initial); [|nia].
      exists c. split; [done|]. rewrite <- Hcc. f_equal. lia.
  - assert (Hw : wadd 32 k 1 = k + 1) by (unfold wadd; apply wrap_small; unfold in_u; lia).
    rewrite Hw.
    assert (Hinf' : forall j, 0 <= j < k + 1 -> infeasible (initial - j * step)).
    { intros j Hj. destruct (Z.eq_dec j k) as [->|]; [by exists c|apply Hinf; lia]. }
    destruct (Z.leb_spec (initial - k * step) step).
    + eexists; split; [done|]. cbn. split_and!; [done|lia|lia|done|]. right.
      split_and!; [done|lia|done|lia|]. exists c. split; [done|]. rewrite <- Hc. f_equal. lia.
    + replace (initial - k * step - step) with (initial - (k + 1) * step) by lia.
      destruct (IH (k + 1) (Some c)) as (d & Hd & Hd1 & Hd2 & Hd3); try lia; try done.
      { intros _. exists c. split; [done|]. rewrite <- Hc. f_equal. lia. }
      exists d. split; [done|]. split; [done|]. split; [lia|exact Hd3].
Qed.

(** C9: feasibility sizing terminates within 19 step-downs. The final size is
    within the close factor and the flash depth; when positive it fits the
    transaction limits and every larger size tried did not; when zero no
    size tried fits. The reported constraint is the one that failed at the
    next larger size, or the bound of the initial size. *)
Theorem sizing_spec candidate depth :
  0 <= bc_close_factor_max_repay candidate -> 0 <= depth ->
  let initial := Z.min (bc_close_factor_max_repay candidate) depth in
  let step := Z.max (initial / 10) 1 in
  exists d, size_position_with_feasibility candidate depth = Some d
    /\ sd_initial_size d = initial /\ 0 <= sd_step_downs d <= 19
    /\ (forall j, 0 <= j < sd_step_downs d -> infeasible (initial - j * step))
    /\ ((0 < sd_final_size d /\ sd_final_size d = initial - sd_step_downs d * step
         /\ fits (sd_final_size d) (sd_used_alt d)
         /\ (sd_step_downs d = 0 -> sd_binding_constraint d
               = Some (if initial =? bc_close_factor_max_repay candidate then CloseFactor else FlashDepth))
         /\ (0 < sd_step_downs d -> exists c, sd_binding_constraint d = Some c
             /\ check_feasibility (sd_final_size d + step) = Err c))
        \/ (sd_final_size d = 0 /\ initial - sd_step_downs d * step <= 0)).
Proof.
  intros Hm Hd initial step. unfold size_position_with_feasibility. fold initial. fold step.
  destruct (Z.eqb_spec initial 0) as [Hz|Hnz].
  { eexists; split; [done|]. cbn. split_and!; try done; try lia. }
  assert (Hpos : 0 < initial) by (subst initial; lia).
  assert (Hq : 0 <= initial / 10) by (apply Z.div_pos; lia).
  pose proof (Z.div_mod initial 10 ltac:(lia)). pose proof (Z.mod_pos_bound initial 10 ltac:(lia)).
  destruct (sizing_loop_spec sizing_fuel (bc_close_factor_max_repay candidate) initial step 0 None)
    as (d & Hrun & Hi & Hsd & Hinf & Hcase); unfold sizing_fuel in *; try lia.
  rewrite Z.mul_0_l, Z.sub_0_r in Hrun. exists d. split_and!; try done; try lia.
  destruct Hcase as [(Hf & Hfe & Hok & Hbc)|(Hf & _ & _ & Hle & _)]; [left|right; by split].
  split_and!; try done; try apply Hbc. by apply check_feasibility_Ok.
Qed.
End feasibility.

(** ** Sizing against the router *)

(** What a sized candidate went through. *)
Lemma size_and_route_inv {R} `{FlashSourceRouter R} candidate (router : R) risk depth rc :
  size_and_route candidate router risk depth = Done (Some rc) ->
  rc_candidate rc = candidate
  /\ rc_repay_amount rc = Z.min (bc_close_factor_max_repay candidate) depth /\ rc_repay_amount rc <> 0
  /\ CoreTypes.route router (bc_debt_mint candidate) (rc_repay_amount rc) = Some (rc_flash_source rc)
  /\ estimate_profit (rc_repay_amount rc) (fs_fee_bps (rc_flash_source rc)) risk = Done (rc_expected rc)
  /\ (pe_net_usd (rc_expected rc) <? rk_min_profit_usd risk)%f64 = false.
Proof.
  unfold size_and_route, size_position.
  destruct (Z.eqb_spec (Z.min (bc_close_factor_max_repay candidate) depth) 0); [done|].
  destruct (CoreTypes.route _ _ _) as [fs|] eqn:Hr; [|done].
  destruct (estimate_profit _ _ risk) as [est|] eqn:He; [|done].
  destruct (pe_net_usd est <? rk_min_profit_usd risk)%f64 eqn:Hn; [done|].
  intros [= <-]. cbn. split_and!; done.
Qed.

Lemma size_and_route_route {R} `{FlashSourceRouter R} candidate (router : R) risk depth rc :
  size_and_route candidate router risk depth = Done (Some rc) ->
  CoreTypes.route router (bc_debt_mint candidate) (rc_repay_amount rc) = Some (rc_flash_source rc).
Proof. by intros (_ & _ & _ & ? & _)%size_and_route_inv. Qed.

Lemma size_and_route_bounds {R} `{FlashSourceRouter R} candidate (router : R) risk depth rc :
  0 <= bc_close_factor_max_repay candidate -> 0 <= depth ->
  size_and_route candidate router risk depth = Done (Some rc) ->
  rc_candidate rc = candidate
  /\ 0 < rc_repay_amount rc <= bc_close_factor_max_repay candidate /\ rc_repay_amount rc <= depth.
Proof. intros Hm Hd (Hc & Ha & Hne & _)%size_and_route_inv. split_and!; [done|lia..]. Qed.

(** C21: a sized candidate repays a positive amount within its close factor and
    the flash depth, borrows it from an eligible reserve, carries the profit
    estimate of that amount and fee, and its estimated net profit is not below
    the floor. *)
Theorem sized_route_is_funded iter candidate router risk depth rc :
  (forall m, iter m ≡ₚ map_to_list m) ->
  0 <= bc_close_factor_max_repay candidate -> 0 <= depth ->
  @size_and_route _ (MultiSourceRouter_is_router iter) candidate router risk depth = Done (Some rc) ->
  rc_candidate rc = candidate
  /\ 0 < rc_repay_amount rc <= bc_close_factor_max_repay candidate /\ rc_repay_amount rc <= depth
  /\ (exists info, eligible router (bc_debt_mint candidate) (rc_repay_amount rc)
        (fs_reserve (rc_flash_source rc)) info (fs_fee_bps (rc_flash_source rc)))
  /\ estimate_profit (rc_repay_amount rc) (fs_fee_bps (rc_flash_source rc)) risk = Done (rc_expected rc)
  /\ (pe_net_usd (rc_expected rc) <? rk_min_profit_usd risk)%f64 = false.
Proof.
  intros Hiter Hm Hd Hs.
  pose proof (@size_and_route_inv _ (MultiSourceRouter_is_router iter) _ _ _ _ _ Hs) as (_ & _ & _ & Hr & ? & ?).
  apply (@size_and_route_bounds _ (MultiSourceRouter_is_router iter)) in Hs as (? & ? & ?); [|done|done].
  split_and!; try done; try lia.
  destruct (route_min iter Hiter _ _ _ _ Hr) as (info & Hel & _). by exists info.
Qed.

(** ** Witnesses *)

Definition sample_candidate : BreachCandidate :=
  mkBreachCandidate Kamino (rkey 30) (rkey 8) (rkey 9) (f64_lit 9 10) 1000 42.
(** A route whose instruction data grows with the size: 1100 + size / 4. *)
Definition sample_route : DynamicRoute :=
  mkDynamicRoute (fun n => [mkInstruction (rkey 1) [] (replicate (Z.to_nat (1100 + n / 4)) 0)])
    (fun _ => 300000).
Definition sample_risk : RiskConfig :=
  mkRiskConfig f64_one f64_one 5 f64_one (f64_of_Z 10) (f64_of_Z 30) (f64_lit 1 2) (f64_of_Z 100) 3.

Lemma sizing_spec_witness :
  exists d, @size_position_with_feasibility toy_sdk DynamicRoute DynamicRoute_provider sample_route
      map_to_list None (rkey 1) [] sample_candidate 500 = Some d
    /\ sd_initial_size d = 500 /\ 0 <= sd_step_downs d <= 19.
Proof.
  destruct (@sizing_spec toy_sdk DynamicRoute DynamicRoute_provider sample_route
              map_to_list None (rkey 1) [] sample_candidate 500 ltac:(cbn; lia) ltac:(lia))
    as (d & Hd & Hi & Hs & _).
  exists d. split; [exact Hd|]. split; [exact Hi|exact Hs].
Defined.

(** The toy route is cut from 500 to 250 in five steps. *)
Example sizing_steps_down :
  sd_final_size <$> @size_position_with_feasibility toy_sdk DynamicRoute DynamicRoute_provider
    sample_route map_to_list None (rkey 1) [] sample_candidate 500 = Some 250.
Proof. vm_compute. reflexivity. Qed.

Definition sample_routed : RoutedCandidate :=
  match @size_and_route _ (MultiSourceRouter_is_router map_to_list) sample_candidate
          (sample_router false) sample_risk 800 with
  | Done (Some rc) => rc
  | _ => mkRoutedCandidate sample_candidate 0 (mkFlashSource Kamino (rkey 0) 0)
           (mkProfitEstimate f64_zero f64_zero f64_zero f64_zero f64_zero f64_zero)
  end.

Lemma sized_route_is_funded_witness :
  rc_repay_amount sample_routed = 800
  /\ exists info, eligible (sample_router false) (rkey 9) 800 (fs_reserve (rc_flash_source sample_routed))
       info (fs_fee_bps (rc_flash_source sample_routed)).
Proof.
  split; [vm_compute; reflexivity|].
  apply (sized_route_is_funded map_to_list sample_candidate (sample_router false) sample_risk 800
           sample_routed); try (cbn; lia).
  - reflexivity.
  - vm_compute. reflexivity.
Defined.
