(* ===== verification/StrategyTests.v ===== *)
(** * The tests of crates/strategy.

    Unit tests are evaluated on the definitions; the tests of route
    feasibility hold for every SDK under which the compiled transactions have
    the sizes the tests rely on. *)

From Stdlib Require Import ZArith Lia.
From stdpp Require Import base gmap list option.
From S2P Require Import Prelude Harness F64 CoreTypes Config TreasuryCheck Tip Breakers Arbitration Bundler Sizing.

Open Scope rust_scope.

Definition pk (b : Z) : Pubkey := Pubkey_new (replicate 32 b).

#[global] Instance eta_RiskConfig : Eta RiskConfig := fun r =>
  mkRiskConfig (rk_min_profit_usd r) (rk_min_tip_usd r) (rk_sync_lag_halt_slots r)
    (rk_contention_ceiling r) (rk_max_tip_per_tx_usd r) (rk_max_tip_per_slot_usd r)
    (rk_max_tip_pct_of_bonus r) (rk_max_drawdown_usd r) (rk_consecutive_revert_limit r).

Definition risk : RiskConfig :=
  mkRiskConfig (f64_of_Z 5) f64_zero 3 (f64_lit 8 10) (f64_of_Z 150) (f64_of_Z 600) (f64_lit 4 10)
    (f64_of_Z 1000) 3.
Definition treasury (min_balance_sol : f64) : TreasuryConfig :=
  mkTreasuryConfig "/tmp/wallet.json" min_balance_sol "1h".
Definition treasury_config : TreasuryConfig := treasury f64_one.

(** ** arbitration.rs *)

Definition arb_candidate (reserve_byte : Z) (net_usd : f64) : RoutedCandidate :=
  mkRoutedCandidate
    (mkBreachCandidate Kamino (pk reserve_byte) (pk 1) (pk 2) (f64_lit 9 10) 1000000 100)
    500000 (mkFlashSource Kamino (pk reserve_byte) 5)
    (mkProfitEstimate (f64_of_Z 40) (f64_of_Z 2) f64_one (f64_lit 5 10) (f64_of_Z 10) net_usd).

Definition is_fire (o : ArbitrationOutcome) : bool := match o with Fire _ => true | _ => false end.
Definition is_discarded (o : ArbitrationOutcome) : bool := match o with Discarded => true | _ => false end.
Definition is_reserve_conflict (o : ArbitrationOutcome) : bool :=
  match o with DeferredReserveConflict => true | _ => false end.
Definition is_deferred_budget (o : ArbitrationOutcome) : bool :=
  match o with DeferredBudget _ => true | _ => false end.

(** [results[i]] panics out of range. *)
Definition index {A} (l : list A) (i : nat) : panicking A := unwrap_option (l !! i).
Definition outcome_satisfies (results : list ArbitratedCandidate) (i : nat)
    (p : ArbitrationOutcome -> bool) : test :=
  let! r := index results i in assert (p (ac_outcome r)).
Definition net_is (results : list ArbitratedCandidate) (i : nat) (usd : f64) : test :=
  let! r := index results i in assert (net_of (ac_routed r) =? usd)%f64.

Definition ranks_and_fires_all_when_no_conflicts_or_budget_pressure : test :=
  let candidates := [arb_candidate 1 (f64_of_Z 10); arb_candidate 2 (f64_of_Z 30);
                     arb_candidate 3 (f64_of_Z 20)] in
  let results := arbitrate risk treasury_config (f64_of_Z 5) (fun _ => f64_of_Z 10) candidates in
  do! assert_eq (length results) 3%nat in
  do! net_is results 0 (f64_of_Z 30) in
  do! net_is results 1 (f64_of_Z 20) in
  do! net_is results 2 (f64_of_Z 10) in
  for_each results (fun r => assert (is_fire (ac_outcome r))).

Definition discards_candidates_at_or_below_min_profit : test :=
  let candidates := [arb_candidate 1 (f64_of_Z 5); arb_candidate 2 (f64_lit 49 10)] in
  let results := arbitrate risk treasury_config (f64_of_Z 5) (fun _ => f64_one) candidates in
  assert (forallb (fun r => is_discarded (ac_outcome r)) results).

Definition lower_ev_candidate_on_same_reserve_is_deferred_not_fired : test :=
  let candidates := [arb_candidate 1 (f64_of_Z 30); arb_candidate 1 (f64_of_Z 20)] in
  let results := arbitrate risk treasury_config (f64_of_Z 5) (fun _ => f64_of_Z 10) candidates in
  do! outcome_satisfies results 0 is_fire in
  outcome_satisfies results 1 is_reserve_conflict.

Definition exhausted_slot_budget_defers_remaining_candidates : test :=
  let candidates := [arb_candidate 1 (f64_of_Z 30); arb_candidate 2 (f64_of_Z 25);
                     arb_candidate 3 (f64_of_Z 20)] in
  let r := risk <| rk_max_tip_per_tx_usd := f64_of_Z 300 |> in
  let results := arbitrate r treasury_config (f64_of_Z 5) (fun _ => f64_of_Z 250) candidates in
  do! outcome_satisfies results 0 is_fire in
  do! outcome_satisfies results 1 is_fire in
  outcome_satisfies results 2 is_deferred_budget.

(** ** breakers.rs *)

Definition test_route (byte : Z) : RouteKey := mkRouteKey Kamino (pk byte) (pk (byte + 1)).

Definition allows_by_default : test :=
  assert_eq (allows BreakerState_new Kamino (test_route 1)) Allowed.

Definition consecutive_reverts_take_only_that_route_out_of_rotation : test :=
  let r1 := test_route 1 in
  let r2 := test_route 2 in
  let state := record_revert r1 3 (record_revert r1 3 BreakerState_new) in
  do! assert_eq (allows state Kamino r1) Allowed in
  let state := record_revert r1 3 state in
  do! assert_eq (allows state Kamino r1) (Halted ConsecutiveRevert) in
  assert_eq (allows state Kamino r2) Allowed.

Definition a_success_resets_the_consecutive_counter : test :=
  let r := test_route 1 in
  let state := record_revert r 3 (record_revert r 3 BreakerState_new) in
  let state := record_revert r 3 (record_success r state) in
  assert_eq (allows state Kamino r) Allowed.

Definition sync_lag_halts_only_the_affected_protocol : test :=
  let state := set_protocol_sync_lag_halted Kamino true BreakerState_new in
  do! assert_eq (allows state Kamino (test_route 1)) (Halted SyncLag) in
  let state := set_protocol_sync_lag_halted Kamino false state in
  assert_eq (allows state Kamino (test_route 1)) Allowed.

Definition drawdown_halts_the_whole_engine_regardless_of_protocol : test :=
  let state := set_drawdown_tripped BreakerState_new in
  do! assert_eq (allows state Kamino (test_route 1)) (Halted Drawdown) in
  assert_eq (allows state Kamino (test_route 2)) (Halted Drawdown).

Definition drawdown_requires_manual_rearm_not_automatic_reset : test :=
  let state := rearm_drawdown (set_drawdown_tripped BreakerState_new) in
  assert_eq (allows state Kamino (test_route 1)) Allowed.

Definition treasury_floor_halts_whole_engine_and_clears_automatically : test :=
  let state := set_treasury_below_floor true BreakerState_new in
  do! assert_eq (allows state Kamino (test_route 1)) (Halted TreasuryFloor) in
  let state := set_treasury_below_floor false state in
  assert_eq (allows state Kamino (test_route 1)) Allowed.

(** ** tip.rs *)

Definition tip_risk (max_tip_pct_of_bonus max_tip_per_tx_usd : f64) : RiskConfig :=
  risk <| rk_max_tip_per_tx_usd := max_tip_per_tx_usd |>
       <| rk_max_tip_pct_of_bonus := max_tip_pct_of_bonus |>.

Definition tip_never_exceeds_pct_of_bonus_ceiling : test :=
  let! tip := static_tip_bid (f64_of_Z 10) (tip_risk (f64_lit 4 10) (f64_of_Z 1000)) in
  assert (tip <=? f64_lit 4 10 * f64_of_Z 10)%f64.
Definition tip_never_exceeds_absolute_per_tx_ceiling_even_on_a_huge_bonus : test :=
  let! tip := static_tip_bid (f64_of_Z 10000) (tip_risk (f64_lit 4 10) (f64_of_Z 50)) in
  assert (tip <=? f64_of_Z 50)%f64.
Definition tip_is_never_negative : test :=
  let! tip := static_tip_bid f64_zero (tip_risk (f64_lit 4 10) (f64_of_Z 150)) in
  assert (tip >=? f64_zero)%f64.

(** ** treasury_check.rs *)

Definition approves_a_candidate_comfortably_within_all_caps : test :=
  assert_eq (SlotBudget_check SlotBudget_new (f64_of_Z 50) (f64_of_Z 5) risk treasury_config) Approved.
Definition rejects_below_minimum_treasury_balance_before_anything_else : test :=
  assert_eq (SlotBudget_check SlotBudget_new (f64_of_Z 10) (f64_lit 5 10) risk treasury_config)
    BelowMinimumBalance.
Definition rejects_tip_exceeding_per_tx_cap_regardless_of_bonus_size : test :=
  assert_eq (SlotBudget_check SlotBudget_new (f64_of_Z 200) (f64_of_Z 5) risk treasury_config)
    ExceedsPerTxCap.
Definition rejects_once_committed_spend_plus_new_tip_exceeds_slot_budget : test :=
  let budget := SlotBudget_commit SlotBudget_new (f64_of_Z 580) in
  assert_eq (SlotBudget_check budget (f64_of_Z 50) (f64_of_Z 5) risk treasury_config)
    ExceedsPerSlotBudget.
Definition commit_accumulates_across_multiple_candidates_in_the_same_slot : test :=
  let budget := SlotBudget_commit (SlotBudget_commit SlotBudget_new (f64_of_Z 100)) (f64_of_Z 200) in
  assert (committed_usd budget =? f64_of_Z 300)%f64.

(** ** dynamic_tip.rs *)

Definition contention_model_computes_fraction_contested : test :=
  let reserve := pk 1 in
  let model := foldl (fun m contested => observe m reserve contested) ContentionModel_new
                 [true; true; false; false] in
  assert (contention model reserve =? f64_lit 5 10)%f64.

Definition unobserved_reserve_has_zero_contention_not_an_error : test :=
  assert (contention ContentionModel_new (pk 99) =? f64_zero)%f64.

Definition calibration_refuses_too_few_observations : test :=
  let! res := calibrate [mkObserveRecord (pk 1) true (f64_of_Z 5) (f64_of_Z 40)] f64_zero in
  let! e := unwrap_err res in
  match e with InsufficientData n => assert_eq n 1 end.

(** Forty records of one reserve, of which [tenths] in ten are contested. *)
Definition synthetic (reserve : Pubkey) (tenths : Z) (share bonus floor true_k : f64)
    : list ObserveRecord :=
  (fun i => mkObserveRecord reserve (i mod 10 <? tenths)
              (floor + true_k * share * bonus)%f64 bonus) <$> range 0 40.
Definition calibration_recovers_a_known_k_from_synthetic_data : test :=
  let true_k := f64_lit 5 10 in
  let floor := f64_one in
  let records := synthetic (pk 1) 7 (f64_lit 7 10) (f64_of_Z 40) floor true_k
                 ++ synthetic (pk 2) 2 (f64_lit 2 10) (f64_of_Z 25) floor true_k in
  let! res := calibrate records floor in
  let! curve := unwrap res in
  assert (f64_abs (tc_k curve - true_k) <? f64_lit 5 100)%f64.

Definition bid_respects_ceiling_even_with_high_contention : test :=
  let curve := mkTipCurve f64_one (f64_of_Z 10) in
  let! b := bid curve f64_one (f64_of_Z 1000) (risk <| rk_max_tip_per_tx_usd := f64_of_Z 50 |>) f64_zero in
  assert (b <=? f64_of_Z 50)%f64.

(** ** sizing.rs *)

Definition sizing_candidate (close_factor_max_repay : Z) : BreachCandidate :=
  mkBreachCandidate Kamino (pk 1) (pk 2) (pk 3) (f64_lit 9 10) close_factor_max_repay 100.

Definition repays_full_close_factor_when_flash_depth_is_sufficient : test :=
  assert_eq (size_position (sizing_candidate 1000000) 5000000) 1000000.
Definition caps_at_flash_source_depth_when_shallower_than_close_factor : test :=
  assert_eq (size_position (sizing_candidate 1000000) 400000) 400000.
Definition never_sizes_down_below_available_depth_purely_to_reduce_risk : test :=
  assert_eq (size_position (sizing_candidate 250000) u64_max) 250000.

Definition strategy_unit_tests : list test :=
  [ranks_and_fires_all_when_no_conflicts_or_budget_pressure; discards_candidates_at_or_below_min_profit;
   lower_ev_candidate_on_same_reserve_is_deferred_not_fired;
   exhausted_slot_budget_defers_remaining_candidates; allows_by_default;
   consecutive_reverts_take_only_that_route_out_of_rotation; a_success_resets_the_consecutive_counter;
   sync_lag_halts_only_the_affected_protocol; drawdown_halts_the_whole_engine_regardless_of_protocol;
   drawdown_requires_manual_rearm_not_automatic_reset;
   treasury_floor_halts_whole_engine_and_clears_automatically; tip_never_exceeds_pct_of_bonus_ceiling;
   tip_never_exceeds_absolute_per_tx_ceiling_even_on_a_huge_bonus; tip_is_never_negative;
   approves_a_candidate_comfortably_within_all_caps;
   rejects_below_minimum_treasury_balance_before_anything_else;
   rejects_tip_exceeding_per_tx_cap_regardless_of_bonus_size;
   rejects_once_committed_spend_plus_new_tip_exceeds_slot_budget;
   commit_accumulates_across_multiple_candidates_in_the_same_slot;
   contention_model_computes_fraction_contested; unobserved_reserve_has_zero_contention_not_an_error;
   calibration_refuses_too_few_observations; calibration_recovers_a_known_k_from_synthetic_data;
   bid_respects_ceiling_even_with_high_contention;
   repays_full_close_factor_when_flash_depth_is_sufficient;
   caps_at_flash_source_depth_when_shallower_than_close_factor;
   never_sizes_down_below_available_depth_purely_to_reduce_risk].

Lemma strategy_unit_tests_pass : forallb passes strategy_unit_tests = true.
Proof. vm_compute. reflexivity. Qed.

(** ** sizing.rs: feasibility *)

Section feasibility_tests.
Context `{SolanaSdk} (table_iter : AltManager -> list (Pubkey * AddressLookupTableAccount)).
Context (payer program_id : Pubkey) (blockhash : Hash).

Definition expect_decision {R} `{RouteFeasibilityProvider R} (route : R) (alt : option AltManager)
    (final_size : Z) (used_alt : bool) (step_downs : Z) (binding : BindingConstraint) : test :=
  let! d := unwrap_option (size_position_with_feasibility route table_iter alt payer blockhash
                             (sizing_candidate 1000000) 5000000) in
  do! assert_eq (sd_initial_size d) 1000000 in
  do! assert_eq (sd_final_size d) final_size in
  do! assert_eq (sd_used_alt d) used_alt in
  do! assert_eq (sd_step_downs d) step_downs in
  assert_eq (sd_binding_constraint d) (Some binding).

Definition feasible_route (account : Pubkey) : StaticRoute :=
  mkStaticRoute [mkInstruction program_id [meta payer true; meta account false]
                   (replicate 16 0)] 200000.
Definition repays_full_close_factor_when_route_is_feasible_without_alts (account : Pubkey) : test :=
  expect_decision (feasible_route account) None 1000000 false 0 CloseFactor.

Definition wide_route (accounts : list Pubkey) : StaticRoute :=
  mkStaticRoute [mkInstruction program_id ((fun a => meta a false) <$> accounts)
                   (replicate 32 1)] 250000.
Definition synthetic_candidate_uses_alt_when_uncompressed_exceeds_max_tx_bytes
    (alt_key : Pubkey) (accounts : list Pubkey) : test :=
  let route := wide_route accounts in
  let! no_alt := unwrap_option (size_position_with_feasibility route table_iter None payer blockhash
                                  (sizing_candidate 1000000) 5000000) in
  do! assert_eq (sd_final_size no_alt) 0 in
  do! assert_eq (sd_binding_constraint no_alt) (Some ByteLimit) in
  let alt_manager := register_table (mkAddressLookupTableAccount alt_key accounts) AltManager_new in
  expect_decision route (Some alt_manager) 1000000 true 0 CloseFactor.

Definition stepping_route : DynamicRoute :=
  mkDynamicRoute (fun _ => [mkInstruction program_id [meta payer true] (replicate 8 0)])
    (fun repay => if repay >? 700000 then 1600000 else 450000).
Definition synthetic_candidate_steps_down_when_infeasible_at_large_size : test :=
  expect_decision stepping_route None 700000 false 3 ComputeBudget.

Definition synthetic_hopelessly_infeasible_route_steps_down_to_zero : test :=
  expect_decision (mkStaticRoute [] 2000000) None 0 false 10 ComputeBudget.

(** What the SDK makes of the instructions at the size asked for. *)
Definition fits_at {R} `{RouteFeasibilityProvider R} (route : R) (repay : Z)
    (tables : list AddressLookupTableAccount) : bool :=
  len_fits (unsigned_len payer blockhash (feasible_instructions route repay) tables).

Lemma static_check ixs cu alt size :
  check_feasibility (mkStaticRoute ixs cu) table_iter alt payer blockhash size
  = check_feasibility (mkStaticRoute ixs cu) table_iter alt payer blockhash 1000000.
Proof. reflexivity. Qed.

(** A static route that does not fit steps down ten times, to nothing. *)
Lemma static_infeasible ixs cu alt c :
  check_feasibility (mkStaticRoute ixs cu) table_iter alt payer blockhash 1000000 = Err c ->
  size_position_with_feasibility (mkStaticRoute ixs cu) table_iter alt payer blockhash
    (sizing_candidate 1000000) 5000000 = Some (mkSizingDecision 1000000 0 false 10 (Some c)).
Proof.
  intros Hc. unfold size_position_with_feasibility, sizing_fuel.
  cbn [bc_close_factor_max_repay sizing_candidate].
  change (Z.min 1000000 5000000) with 1000000. change (1000000 =? 0) with false.
  cbv zeta iota. cbn [sizing_loop].
  assert (Hall : forall size,
    check_feasibility (mkStaticRoute ixs cu) table_iter alt payer blockhash size = Err c)
    by (intros size; by rewrite static_check).
  rewrite !Hall. reflexivity.
Qed.

Lemma static_feasible ixs cu alt used :
  check_feasibility (mkStaticRoute ixs cu) table_iter alt payer blockhash 1000000 = Ok used ->
  size_position_with_feasibility (mkStaticRoute ixs cu) table_iter alt payer blockhash
    (sizing_candidate 1000000) 5000000 = Some (mkSizingDecision 1000000 1000000 used 0 (Some CloseFactor)).
Proof.
  intros Hc. unfold size_position_with_feasibility, sizing_fuel.
  cbn [bc_close_factor_max_repay sizing_candidate].
  change (Z.min 1000000 5000000) with 1000000. change (1000000 =? 0) with false.
  cbv zeta iota. cbn [sizing_loop]. rewrite Hc. reflexivity.
Qed.

Lemma feasible_without_alts_passes account :
  fits_at (feasible_route account) 1000000 [] = true ->
  passes (repays_full_close_factor_when_route_is_feasible_without_alts account) = true.
Proof.
  intros Hf. unfold repays_full_close_factor_when_route_is_feasible_without_alts, expect_decision.
  unfold feasible_route in *. rewrite (static_feasible _ _ _ false); [reflexivity|].
  unfold check_feasibility. cbn [estimate_cu StaticRoute_provider st_estimated_cu].
  change (200000 >? MAX_TX_CU) with false. cbv zeta. unfold fits_at in Hf. by rewrite Hf.
Qed.

(** Thirty-eight accounts that only fit through a lookup table. *)
Lemma uses_alt_passes key accounts :
  let table := mkAddressLookupTableAccount key accounts in
  (forall m : AltManager, table_iter m ≡ₚ map_to_list m) ->
  fits_at (wide_route accounts) 1000000 [] = false ->
  fits_at (wide_route accounts) 1000000 [table] = true ->
  passes (synthetic_candidate_uses_alt_when_uncompressed_exceeds_max_tx_bytes key accounts) = true.
Proof.
  cbv zeta. intros Hiter Hno Hyes.
  unfold synthetic_candidate_uses_alt_when_uncompressed_exceeds_max_tx_bytes, expect_decision.
  unfold wide_route, fits_at in *.
  rewrite (static_infeasible _ _ None ByteLimit).
  2: { unfold check_feasibility. cbn [estimate_cu StaticRoute_provider st_estimated_cu].
       change (250000 >? MAX_TX_CU) with false. cbv zeta. by rewrite Hno. }
  rewrite (static_feasible _ _ _ true); [reflexivity|].
  unfold check_feasibility. cbn [estimate_cu StaticRoute_provider st_estimated_cu].
  change (250000 >? MAX_TX_CU) with false. cbv zeta. rewrite Hno.
  assert (Hall : get_all_tables table_iter
      (register_table (mkAddressLookupTableAccount key accounts) AltManager_new)
      = [mkAddressLookupTableAccount key accounts]).
  { unfold get_all_tables, register_table, AltManager_new. cbn [alt_key].
    assert (Hp : table_iter (<[key := mkAddressLookupTableAccount key accounts]> ∅)
                 ≡ₚ [(key, mkAddressLookupTableAccount key accounts)]).
    { etransitivity; [apply Hiter|]. unfold AltManager. rewrite insert_empty. by rewrite map_to_list_singleton. }
    apply Permutation_sym, Permutation_length_1_inv in Hp. by rewrite Hp. }
  rewrite Hall, Hyes. reflexivity.
Qed.

(** The estimate alone stops the larger sizes. *)
Lemma steps_down_passes :
  fits_at stepping_route 700000 [] = true ->
  passes synthetic_candidate_steps_down_when_infeasible_at_large_size = true.
Proof.
  intros Hf. unfold synthetic_candidate_steps_down_when_infeasible_at_large_size, expect_decision.
  unfold size_position_with_feasibility, sizing_fuel.
  cbn [bc_close_factor_max_repay sizing_candidate].
  change (Z.min 1000000 5000000) with 1000000. change (1000000 =? 0) with false. cbv zeta iota.
  assert (Hbig : forall s, 700000 < s ->
    check_feasibility stepping_route table_iter None payer blockhash s = Err ComputeBudget).
  { intros s Hs. unfold check_feasibility. cbn [estimate_cu DynamicRoute_provider dy_cu_estimator stepping_route].
    by destruct (Z.gtb_spec s 700000); [|lia]. }
  assert (Hfit : check_feasibility stepping_route table_iter None payer blockhash 700000 = Ok false).
  { unfold check_feasibility. change (estimate_cu stepping_route 700000 >? MAX_TX_CU) with false.
    cbv zeta. unfold fits_at in Hf. by rewrite Hf. }
  cbn [sizing_loop]. rewrite !Hbig by done.
  change (1000000 - Z.max (1000000 / 10) 1 - Z.max (1000000 / 10) 1 - Z.max (1000000 / 10) 1) with 700000.
  rewrite Hfit. reflexivity.
Qed.

Lemma hopeless_passes : passes synthetic_hopelessly_infeasible_route_steps_down_to_zero = true.
Proof.
  unfold synthetic_hopelessly_infeasible_route_steps_down_to_zero, expect_decision.
  by rewrite (static_infeasible _ _ _ ComputeBudget).
Qed.
End feasibility_tests.
