(* ===== verification/Kamino.v ===== *)
(** * crates/health/src/adapters/kamino.rs: the Kamino health adapter.

    [KlendInterface] is what the adapter uses of the klend-interface crate:
    the program id, the account discriminators, the decoders with the fields
    the adapter reads, and the fixed-point conversion. [KaminoAdapter] is an
    instance of [HealthAdapter]. *)

From Stdlib Require Import ZArith Lia.
From stdpp Require Import base gmap list option.
From S2P Require Import Prelude Lists F64 CoreTypes.

(** ** klend accounts, as far as the adapter reads them *)

Record KlendReserve := mkKlendReserve {
  kl_mint_pubkey : Pubkey;
  kl_market_price : Z;
  kl_mint_decimals : Z;
  kl_market_price_last_updated_ts : Z;
  kl_max_age_price_seconds : Z
}.

Record KlendLendingMarket := mkKlendLendingMarket {
  kl_liquidation_max_debt_close_factor_pct : Z;
  kl_max_liquidatable_debt_market_value_at_once : Z
}.

Record KlendObligationLiquidity := mkKlendObligationLiquidity {
  ko_borrow_reserve : Pubkey;
  ko_liquidity_market_value : Z;
  ko_borrowed_amount : Z;
  ko_liquidity_is_active : bool
}.

Record KlendObligationCollateral := mkKlendObligationCollateral {
  ko_deposit_reserve : Pubkey;
  ko_collateral_market_value : Z;
  ko_collateral_is_active : bool
}.

Record KlendObligation := mkKlendObligation {
  ko_lending_market : Pubkey;
  ko_borrow_factor_adjusted_debt_value : Z;
  ko_unhealthy_borrow_value : Z;
  ko_borrows : list KlendObligationLiquidity;
  ko_deposits : list KlendObligationCollateral
}.

Class KlendInterface := {
  KLEND_PROGRAM_ID : Pubkey;
  Reserve_discriminator : list Z;
  LendingMarket_discriminator : list Z;
  Obligation_discriminator : list Z;
  reserve_from_account_data : list Z -> option KlendReserve;
  lending_market_from_account_data : list Z -> option KlendLendingMarket;
  obligation_from_account_data : list Z -> option KlendObligation;
  (** [Fraction::from_bits(sf).to_num::<f64>()]. *)
  sf_to_f64 : Z -> f64
}.

(** ** State *)

Record ReserveSnapshot := mkReserveSnapshot {
  rsn_liquidity_mint : Pubkey;
  rsn_market_price_sf : Z;
  rsn_mint_decimals : Z;
  rsn_slot : Z;
  rsn_market_price_last_updated_ts : Z;
  rsn_max_age_price_seconds : Z
}.

Record LendingMarketSnapshot := mkLendingMarketSnapshot {
  lms_liquidation_max_debt_close_factor_pct : Z;
  lms_max_liquidatable_debt_market_value_at_once : Z;
  lms_slot : Z
}.

Record ObligationSnapshot := mkObligationSnapshot {
  ob_slot : Z;
  ob_close_factor_max_repay : Z
}.

Record KaminoAdapter := mkKaminoAdapter {
  ka_reserves : gmap Pubkey ReserveSnapshot;
  ka_lending_markets : gmap Pubkey LendingMarketSnapshot;
  ka_known_obligations : gmap Pubkey ObligationSnapshot;
  ka_last_synced_slot : Z;
  ka_current_slot : Z
}.

Definition KaminoAdapter_new : KaminoAdapter := mkKaminoAdapter ∅ ∅ ∅ 0 0.

Definition set_known (pubkey : Pubkey) (s : ObligationSnapshot) (a : KaminoAdapter) : KaminoAdapter :=
  mkKaminoAdapter (ka_reserves a) (ka_lending_markets a) (<[pubkey := s]> (ka_known_obligations a))
    (ka_last_synced_slot a) (ka_current_slot a).
Definition set_last_synced (slot : Z) (a : KaminoAdapter) : KaminoAdapter :=
  mkKaminoAdapter (ka_reserves a) (ka_lending_markets a) (ka_known_obligations a)
    slot (ka_current_slot a).
Definition bump_current (slot : Z) (a : KaminoAdapter) : KaminoAdapter :=
  mkKaminoAdapter (ka_reserves a) (ka_lending_markets a) (ka_known_obligations a)
    (ka_last_synced_slot a) (Z.max (ka_current_slot a) slot).

(** [x as i32] of a [u32]. *)
Definition as_i32 (x : Z) : Z := if x <? 2 ^ 31 then x else x - 2 ^ 32.

Section adapter.
Context `{KlendInterface}.
Local Open Scope f64_scope.

Definition handle_reserve (pubkey : Pubkey) (data : list Z) (slot : Z) (a : KaminoAdapter)
    : KaminoAdapter :=
  match reserve_from_account_data data with
  | None => a
  | Some reserve =>
      mkKaminoAdapter
        (<[pubkey := mkReserveSnapshot (kl_mint_pubkey reserve) (kl_market_price reserve)
             (wrap 32 (kl_mint_decimals reserve)) slot
             (kl_market_price_last_updated_ts reserve) (kl_max_age_price_seconds reserve)]>
           (ka_reserves a))
        (ka_lending_markets a) (ka_known_obligations a) (ka_last_synced_slot a) (ka_current_slot a)
  end.

Definition reserve_price_is_stale (a : KaminoAdapter) (reserve : Pubkey) (current_unix_ts : Z)
    : option bool :=
  match ka_reserves a !! reserve with
  | None => None
  | Some snapshot =>
      let age := sat_sub current_unix_ts (rsn_market_price_last_updated_ts snapshot) in
      Some (age >? rsn_max_age_price_seconds snapshot)%Z
  end.

Definition handle_lending_market (pubkey : Pubkey) (data : list Z) (slot : Z) (a : KaminoAdapter)
    : KaminoAdapter :=
  match lending_market_from_account_data data with
  | None => a
  | Some market =>
      mkKaminoAdapter (ka_reserves a)
        (<[pubkey := mkLendingMarketSnapshot (kl_liquidation_max_debt_close_factor_pct market)
             (kl_max_liquidatable_debt_market_value_at_once market) slot]> (ka_lending_markets a))
        (ka_known_obligations a) (ka_last_synced_slot a) (ka_current_slot a)
  end.

(** The value [max_repay_native_amount] truncates, once the price is usable. *)
Definition max_repay_value (market : LendingMarketSnapshot) (debt_reserve : ReserveSnapshot)
    (liquidity : KlendObligationLiquidity) : f64 :=
  let debt_mv := sf_to_f64 (ko_liquidity_market_value liquidity) in
  let close_factor_rate :=
    f64_of_Z (lms_liquidation_max_debt_close_factor_pct market) / f64_of_Z 100 in
  let by_close_factor_mv := debt_mv * close_factor_rate in
  let market_cap_mv := f64_of_Z (lms_max_liquidatable_debt_market_value_at_once market) in
  let capped_mv := f64_min by_close_factor_mv market_cap_mv in
  let price := sf_to_f64 (rsn_market_price_sf debt_reserve) in
  let native := capped_mv / price * f64_powi (f64_of_Z 10) (as_i32 (rsn_mint_decimals debt_reserve)) in
  let borrowed_native := sf_to_f64 (ko_borrowed_amount liquidity) in
  f64_max (f64_min native borrowed_native) f64_zero.

Definition max_repay_native_amount (market : LendingMarketSnapshot)
    (debt_reserve : ReserveSnapshot) (liquidity : KlendObligationLiquidity) : Z :=
  let price := sf_to_f64 (rsn_market_price_sf debt_reserve) in
  if (price <=? f64_zero) || negb (is_finite price) then 0%Z
  else f64_to_u 64 (max_repay_value market debt_reserve liquidity).

(** [max_by] on the market values: the last of several largest. *)
Definition largest_borrow (o : KlendObligation) : option KlendObligationLiquidity :=
  max_by (fun a b => ko_liquidity_market_value a ?= ko_liquidity_market_value b)%Z
    (filter (fun b => ko_liquidity_is_active b = true) (ko_borrows o)).
Definition largest_deposit (o : KlendObligation) : option KlendObligationCollateral :=
  max_by (fun a b => ko_collateral_market_value a ?= ko_collateral_market_value b)%Z
    (filter (fun d => ko_collateral_is_active d = true) (ko_deposits o)).

(** What the [?] chain of [handle_obligation] resolves, in its order. *)
Definition resolve_breach (a : KaminoAdapter) (o : KlendObligation)
    : option (LendingMarketSnapshot * KlendObligationLiquidity * ReserveSnapshot * ReserveSnapshot) :=
  match ka_lending_markets a !! ko_lending_market o with
  | None => None
  | Some lending_market =>
      match largest_borrow o with
      | None => None
      | Some liquidity =>
          match ka_reserves a !! ko_borrow_reserve liquidity with
          | None => None
          | Some debt_reserve =>
              match largest_deposit o with
              | None => None
              | Some collateral =>
                  match ka_reserves a !! ko_deposit_reserve collateral with
                  | None => None
                  | Some collateral_reserve =>
                      Some (lending_market, liquidity, debt_reserve, collateral_reserve)
                  end
              end
          end
      end
  end.

Definition handle_obligation (pubkey : Pubkey) (data : list Z) (slot : Z) (a : KaminoAdapter)
    : KaminoAdapter * option BreachCandidate :=
  match obligation_from_account_data data with
  | None => (a, None)
  | Some obligation =>
      let not_breached := (set_known pubkey (mkObligationSnapshot slot 0) a, None) in
      let debt := sf_to_f64 (ko_borrow_factor_adjusted_debt_value obligation) in
      if debt <=? f64_zero then not_breached
      else
        let unhealthy := sf_to_f64 (ko_unhealthy_borrow_value obligation) in
        if unhealthy <=? f64_zero then not_breached
        else
          let health_factor := unhealthy / debt in
          if health_factor >=? f64_one then not_breached
          else
            match resolve_breach a obligation with
            | None => (a, None)
            | Some (lending_market, liquidity, debt_reserve, collateral_reserve) =>
                let close_factor_max_repay :=
                  max_repay_native_amount lending_market debt_reserve liquidity in
                (set_known pubkey (mkObligationSnapshot slot close_factor_max_repay) a,
                 Some (mkBreachCandidate Kamino pubkey (rsn_liquidity_mint collateral_reserve)
                         (rsn_liquidity_mint debt_reserve) health_factor
                         close_factor_max_repay slot))
            end
  end.

Definition kamino_on_account_update (a : KaminoAdapter) (update : AccountUpdate)
    : KaminoAdapter * option BreachCandidate :=
  if decide (au_owner update <> KLEND_PROGRAM_ID) then (a, None)
  else
    let a := bump_current (au_slot update) a in
    let data := au_data update in
    if (length data <? 8)%nat then (a, None)
    else
      let discriminator := take 8 data in
      if decide (discriminator = Reserve_discriminator) then
        (set_last_synced (au_slot update) (handle_reserve (au_pubkey update) data (au_slot update) a),
         None)
      else if decide (discriminator = LendingMarket_discriminator) then
        (set_last_synced (au_slot update)
           (handle_lending_market (au_pubkey update) data (au_slot update) a), None)
      else if decide (discriminator = Obligation_discriminator) then
        handle_obligation (au_pubkey update) data (au_slot update)
          (set_last_synced (au_slot update) a)
      else (a, None).

Definition kamino_close_factor (a : KaminoAdapter) (position_id : Pubkey) : Z :=
  default 0%Z (ob_close_factor_max_repay <$> ka_known_obligations a !! position_id).
Definition kamino_position_count (a : KaminoAdapter) : Z := Z.of_nat (size (ka_known_obligations a)).
Definition kamino_sync_lag_slots (a : KaminoAdapter) : Z :=
  sat_sub (ka_current_slot a) (ka_last_synced_slot a).

#[global] Instance KaminoAdapter_is_adapter : HealthAdapter KaminoAdapter := {|
  on_account_update := kamino_on_account_update;
  close_factor := kamino_close_factor;
  position_count := kamino_position_count;
  sync_lag_slots := kamino_sync_lag_slots
|}.
End adapter.

(* ------------------------------------------------------------------ *)
(** ** Properties *)

Section properties.
Context `{KlendInterface}.

(** A conversion of a fixed-point value is finite. *)
Context (Hfinite : forall sf, is_finite (sf_to_f64 sf) = true).

Lemma handle_obligation_Some k data slot a a' c :
  handle_obligation k data slot a = (a', Some c) ->
  exists o lm liq dr cr,
    obligation_from_account_data data = Some o /\ resolve_breach a o = Some (lm, liq, dr, cr)
    /\ (sf_to_f64 (ko_borrow_factor_adjusted_debt_value o) <=? f64_zero)%f64 = false
    /\ (sf_to_f64 (ko_unhealthy_borrow_value o) <=? f64_zero)%f64 = false
    /\ (sf_to_f64 (ko_unhealthy_borrow_value o)
        / sf_to_f64 (ko_borrow_factor_adjusted_debt_value o) >=? f64_one)%f64 = false
    /\ a' = set_known k (mkObligationSnapshot slot (max_repay_native_amount lm dr liq)) a
    /\ c = mkBreachCandidate Kamino k (rsn_liquidity_mint cr) (rsn_liquidity_mint dr)
             (sf_to_f64 (ko_unhealthy_borrow_value o)
              / sf_to_f64 (ko_borrow_factor_adjusted_debt_value o))%f64
             (max_repay_native_amount lm dr liq) slot.
Proof.
  unfold handle_obligation. destruct (obligation_from_account_data data) as [o|]; [|done].
  set (debt := sf_to_f64 (ko_borrow_factor_adjusted_debt_value o)).
  set (unhealthy := sf_to_f64 (ko_unhealthy_borrow_value o)).
  destruct (debt <=? f64_zero)%f64 eqn:E1; [done|].
  destruct (unhealthy <=? f64_zero)%f64 eqn:E2; [done|].
  destruct (unhealthy / debt >=? f64_one)%f64 eqn:E3; [done|].
  destruct (resolve_breach a o) as [[[[lm liq] dr] cr]|] eqn:Er; [|done].
  intros [= <- <-]. by exists o, lm, liq, dr, cr.
Qed.

Lemma on_update_Some a u a' c :
  kamino_on_account_update a u = (a', Some c) ->
  au_owner u = KLEND_PROGRAM_ID /\ take 8 (au_data u) = Obligation_discriminator
  /\ (8 <= length (au_data u))%nat
  /\ handle_obligation (au_pubkey u) (au_data u) (au_slot u)
       (set_last_synced (au_slot u) (bump_current (au_slot u) a)) = (a', Some c).
Proof.
  unfold kamino_on_account_update. case_decide as Ho; [done|].
  destruct (Nat.ltb_spec (length (au_data u)) 8); [done|].
  case_decide; [done|]. case_decide; [done|]. case_decide; [|done].
  intros Hu. done.
Qed.

(** The maximal entries by a key, among those that pass a filter. *)
Lemma max_by_key_spec {A} (f : A -> Z) (p : A -> bool) (l : list A) x :
  max_by (fun a b => f a ?= f b) (filter (fun a => p a = true) l) = Some x ->
  x ∈ l /\ p x = true /\ forall y, y ∈ l -> p y = true -> f y <= f x.
Proof.
  intros Hb.
  assert (Hpre : cmp_preorder (fun _ : A => True) (fun a b => f a ?= f b)).
  { split; [intros; apply Z.compare_antisym|]. intros u v w _ _ _.
    repeat match goal with |- context [?p ?= ?q] => destruct (Z.compare_spec p q) end;
      intros; try done; lia. }
  apply (max_by_Some _ Hpre) in Hb as [Hin Hle]; [|by apply list.Forall_forall].
  apply list_elem_of_filter in Hin as [Ha Hin]. split_and!; [done|done|]. intros y Hy Hp.
  rewrite list.Forall_forall in Hle. specialize (Hle y). rewrite list_elem_of_filter in Hle.
  specialize (Hle (conj Hp Hy)). unfold cmp_le in Hle. by destruct (Z.compare_spec (f y) (f x)); try lia.
Qed.

Lemma breach_health_below_one o :
  (sf_to_f64 (ko_borrow_factor_adjusted_debt_value o) <=? f64_zero)%f64 = false ->
  (sf_to_f64 (ko_unhealthy_borrow_value o) <=? f64_zero)%f64 = false ->
  let h := (sf_to_f64 (ko_unhealthy_borrow_value o)
            / sf_to_f64 (ko_borrow_factor_adjusted_debt_value o))%f64 in
  (h >=? f64_one)%f64 = false -> (f64_zero <=? h)%f64 = true /\ (h <? f64_one)%f64 = true.
Proof.
  intros Hd Hu h Hh.
  assert (Hnum : forall sf, num (sf_to_f64 sf)).
  { intros sf. specialize (Hfinite sf). by destruct (sf_to_f64 sf). }
  apply f64_leb_false in Hd; [|apply Hnum|done]. apply f64_leb_false in Hu; [|apply Hnum|done].
  assert (Hn : nonneg h) by (by apply f64_div_pos_nonneg).
  split; [exact Hn|]. apply f64_leb_false; [done|by apply nonneg_num|done].
Qed.

(** C8: every candidate comes from a decoded klend obligation whose
    borrow-factor adjusted debt and unhealthy limit are both positive, and its
    health factor is the limit divided by the debt, in [0, 1); its mints are
    those of the observed reserves of the largest active borrow and the
    largest active deposit by market value, and its repay amount is the close
    factor of the obligation's market for that borrow; it is stamped with the
    update's slot and account, and the adapter's close factor for the position
    is the candidate's. *)
Theorem candidate_sound a u a' c :
  kamino_on_account_update a u = (a', Some c) ->
  au_owner u = KLEND_PROGRAM_ID
  /\ bc_position_id c = au_pubkey u /\ bc_slot c = au_slot u /\ bc_protocol c = Kamino
  /\ (f64_zero <=? bc_health_factor c)%f64 = true /\ (bc_health_factor c <? f64_one)%f64 = true
  /\ kamino_close_factor a' (bc_position_id c) = bc_close_factor_max_repay c
  /\ exists o b d dr cr lm,
       obligation_from_account_data (au_data u) = Some o
       /\ (let debt := sf_to_f64 (ko_borrow_factor_adjusted_debt_value o) in
           let unhealthy := sf_to_f64 (ko_unhealthy_borrow_value o) in
           (f64_zero <? debt)%f64 = true /\ (f64_zero <? unhealthy)%f64 = true
           /\ bc_health_factor c = (unhealthy / debt)%f64)
       /\ (forall b', b' ∈ ko_borrows o -> ko_liquidity_is_active b' = true ->
           ko_liquidity_market_value b' <= ko_liquidity_market_value b)
       /\ b ∈ ko_borrows o /\ ko_liquidity_is_active b = true
       /\ ka_reserves a !! ko_borrow_reserve b = Some dr /\ bc_debt_mint c = rsn_liquidity_mint dr
       /\ (forall d', d' ∈ ko_deposits o -> ko_collateral_is_active d' = true ->
           ko_collateral_market_value d' <= ko_collateral_market_value d)
       /\ d ∈ ko_deposits o /\ ko_collateral_is_active d = true
       /\ ka_reserves a !! ko_deposit_reserve d = Some cr
       /\ bc_collateral_mint c = rsn_liquidity_mint cr
       /\ ka_lending_markets a !! ko_lending_market o = Some lm
       /\ bc_close_factor_max_repay c = max_repay_native_amount lm dr b.
Proof.
  intros Hu. apply on_update_Some in Hu as (Howner & _ & _ & Hh).
  apply handle_obligation_Some in Hh as (o & lm & liq & dr & cr & Ho & Hr & Hd & Hun & Hf & -> & ->).
  destruct (breach_health_below_one o Hd Hun Hf) as [Hh0 Hh1].
  assert (Hnum : forall sf, num (sf_to_f64 sf)).
  { intros sf. specialize (Hfinite sf). by destruct (sf_to_f64 sf). }
  apply f64_leb_false in Hd; [|apply Hnum|done]. apply f64_leb_false in Hun; [|apply Hnum|done].
  unfold resolve_breach in Hr. cbn [ka_reserves ka_lending_markets set_last_synced bump_current] in Hr.
  walk Hr. injection Hr as -> -> -> ->.
  match goal with E : largest_borrow o = Some _ |- _ =>
    apply (max_by_key_spec ko_liquidity_market_value) in E as (Hb1 & Hb2 & Hb3) end.
  match goal with E : largest_deposit o = Some ?d |- _ =>
    apply (max_by_key_spec ko_collateral_market_value) in E as (Hd1 & Hd2 & Hd3); rename d into dep end.
  cbn. split_and!; try done.
  - unfold kamino_close_factor, set_known. cbn. by rewrite lookup_insert_eq.
  - exists o, liq, dep, dr, cr, lm. by split_and!.
Qed.

(** The close-factor amount is a 64-bit integer: zero for a non-positive
    or non-finite price, otherwise the truncation of a value between zero
    and the larger of zero and the borrowed amount. *)
Theorem max_repay_bounds lm dr liq :
  is_u64 (max_repay_native_amount lm dr liq)
  /\ (((sf_to_f64 (rsn_market_price_sf dr) <=? f64_zero)%f64 = true
       /\ max_repay_native_amount lm dr liq = 0)
      \/ (exists v, max_repay_native_amount lm dr liq = f64_to_u 64 v
          /\ (f64_zero <=? v)%f64 = true
          /\ (v <=? f64_max (sf_to_f64 (ko_borrowed_amount liq)) f64_zero)%f64 = true)).
Proof.
  assert (Hnum : forall sf, num (sf_to_f64 sf)).
  { intros sf. specialize (Hfinite sf). by destruct (sf_to_f64 sf). }
  unfold max_repay_native_amount. rewrite Hfinite. cbn [negb]. rewrite orb_false_r.
  destruct (_ <=? _)%f64 eqn:Ep; [split; [unfold in_u; lia|by left]|].
  split; [by apply f64_to_u_in|]. right. eexists; split; [reflexivity|].
  unfold max_repay_value. set (native := (_ * _)%f64).
  set (b := sf_to_f64 (ko_borrowed_amount liq)).
  assert (Hm : (f64_min native b <=? b)%f64 = true) by (apply f64_min_le_r, Hnum).
  split; [by apply f64_max_ge_r|].
  destruct (f64_max_cases (f64_min native b) f64_zero) as [-> | ->].
  - eapply f64_le_trans; [exact Hm|]. apply f64_max_ge_l, Hnum.
  - by apply f64_max_ge_r.
Qed.

(** *** The clock of the adapter over a sequence of updates *)

Definition kamino_run (a : KaminoAdapter) (us : list AccountUpdate) : KaminoAdapter :=
  foldl (fun a u => (kamino_on_account_update a u).1) a us.

(** An account of the program, and one of a kind the adapter decodes. *)
Definition owned (u : AccountUpdate) : bool := bool_decide (au_owner u = KLEND_PROGRAM_ID).
Definition recognised (u : AccountUpdate) : bool :=
  owned u && (8 <=? length (au_data u))%nat
  && (bool_decide (take 8 (au_data u) = Reserve_discriminator)
      || bool_decide (take 8 (au_data u) = LendingMarket_discriminator)
      || bool_decide (take 8 (au_data u) = Obligation_discriminator)).

Lemma handle_obligation_clock k data slot a :
  ka_current_slot (handle_obligation k data slot a).1 = ka_current_slot a
  /\ ka_last_synced_slot (handle_obligation k data slot a).1 = ka_last_synced_slot a.
Proof.
  unfold handle_obligation. destruct (obligation_from_account_data data) as [o|]; [|done].
  set (debt := sf_to_f64 (ko_borrow_factor_adjusted_debt_value o)).
  set (unhealthy := sf_to_f64 (ko_unhealthy_borrow_value o)).
  destruct (debt <=? f64_zero)%f64; [done|]. destruct (unhealthy <=? f64_zero)%f64; [done|].
  destruct (unhealthy / debt >=? f64_one)%f64; [done|].
  by destruct (resolve_breach a o) as [[[[]]]|].
Qed.

Lemma on_update_clock a u :
  ka_current_slot (kamino_on_account_update a u).1
    = (if owned u then Z.max (ka_current_slot a) (au_slot u) else ka_current_slot a)
  /\ ka_last_synced_slot (kamino_on_account_update a u).1
    = (if recognised u then au_slot u else ka_last_synced_slot a).
Proof.
  unfold kamino_on_account_update, recognised, owned.
  destruct (decide (au_owner u = KLEND_PROGRAM_ID)) as [Ho|Ho].
  2: { rewrite decide_True by done. by rewrite bool_decide_eq_false_2 by done. }
  rewrite decide_False by (by intros Hx). rewrite (bool_decide_eq_true_2 _ Ho).
  destruct (Nat.ltb_spec (length (au_data u)) 8); destruct (Nat.leb_spec 8 (length (au_data u)));
    try lia; [done|]. cbn [andb].
  case_decide as E1.
  { rewrite (bool_decide_eq_true_2 _ E1). unfold handle_reserve.
    by destruct (reserve_from_account_data _). }
  rewrite (bool_decide_eq_false_2 _ E1). case_decide as E2.
  { rewrite (bool_decide_eq_true_2 _ E2). unfold handle_lending_market.
    by destruct (lending_market_from_account_data _). }
  rewrite (bool_decide_eq_false_2 _ E2). case_decide as E3.
  { rewrite (bool_decide_eq_true_2 _ E3).
    by destruct (handle_obligation_clock (au_pubkey u) (au_data u) (au_slot u)
                   (set_last_synced (au_slot u) (bump_current (au_slot u) a))) as [-> ->]. }
  by rewrite (bool_decide_eq_false_2 _ E3).
Qed.

(** After any sequence of updates the current slot is the largest slot of
    the program's updates, the synced slot is that of the last recognised
    update, wherever it lies, and the reported lag is their difference. *)
Theorem sync_lag_spec us :
  let a := kamino_run KaminoAdapter_new us in
  Forall (fun u => is_u64 (au_slot u)) us ->
  ka_current_slot a = foldl Z.max 0 (au_slot <$> filter (fun u => owned u = true) us)
  /\ ka_last_synced_slot a = default 0 (list.last (au_slot <$> filter (fun u => recognised u = true) us))
  /\ ka_last_synced_slot a <= ka_current_slot a
  /\ kamino_sync_lag_slots a = ka_current_slot a - ka_last_synced_slot a.
Proof.
  intros a Hslots. subst a.
  assert (Hrun : ka_current_slot (kamino_run KaminoAdapter_new us)
            = foldl Z.max 0 (au_slot <$> filter (fun u => owned u = true) us)
          /\ ka_last_synced_slot (kamino_run KaminoAdapter_new us)
            = default 0 (list.last (au_slot <$> filter (fun u => recognised u = true) us))
          /\ 0 <= ka_last_synced_slot (kamino_run KaminoAdapter_new us)
               <= ka_current_slot (kamino_run KaminoAdapter_new us)).
  { induction us as [|u us IH] using rev_ind; [done|].
    apply Forall_app in Hslots as [Hus Hu]. inversion_clear Hu as [|? ? [Hu0 _] _].
    destruct (IH Hus) as (IHc & IHs & IHle). clear IH.
    unfold kamino_run in *. rewrite foldl_app. cbn [foldl].
    set (a := foldl _ _ us) in *. destruct (on_update_clock a u) as [-> ->].
    rewrite !list.filter_app, !fmap_app, foldl_app, last_app. rewrite IHc in *.
    rewrite !filter_cons, !filter_nil. split_and!.
    - by destruct (owned u).
    - destruct (recognised u) eqn:Er; cbn; [done|by rewrite IHs].
    - destruct (recognised u); lia.
    - unfold recognised in *. destruct (owned u); cbn [andb] in *; [|lia].
      destruct (_ && _); lia. }
  destruct Hrun as (? & ? & ?). split_and!; try done; [lia|].
  unfold kamino_sync_lag_slots, sat_sub. lia.
Qed.

(** An undercollateralised obligation whose market or reserves have not
    been observed changes nothing: a new position is not counted and a known
    one keeps its previous close factor. *)
Theorem unresolved_breach_inert a k data slot o :
  obligation_from_account_data data = Some o ->
  (sf_to_f64 (ko_borrow_factor_adjusted_debt_value o) <=? f64_zero)%f64 = false ->
  (sf_to_f64 (ko_unhealthy_borrow_value o) <=? f64_zero)%f64 = false ->
  (sf_to_f64 (ko_unhealthy_borrow_value o)
   / sf_to_f64 (ko_borrow_factor_adjusted_debt_value o) >=? f64_one)%f64 = false ->
  resolve_breach a o = None ->
  handle_obligation k data slot a = (a, None).
Proof.
  intros Ho Hd Hu Hh Hr. unfold handle_obligation. by rewrite Ho, Hd, Hu, Hh, Hr.
Qed.

(** An update that is not of the program, is too short, or has an unknown
    discriminator yields no candidate and changes no reserve, market or
    obligation entry. *)
Theorem unrecognised_inert a u :
  recognised u = false ->
  (kamino_on_account_update a u).2 = None
  /\ ka_reserves (kamino_on_account_update a u).1 = ka_reserves a
  /\ ka_lending_markets (kamino_on_account_update a u).1 = ka_lending_markets a
  /\ ka_known_obligations (kamino_on_account_update a u).1 = ka_known_obligations a.
Proof.
  unfold kamino_on_account_update, recognised, owned. intros Hr.
  destruct (decide (au_owner u = KLEND_PROGRAM_ID)) as [Ho'|Ho]; [|by rewrite decide_True].
  rewrite decide_False by (by intros Hx).
  destruct (Nat.ltb_spec (length (au_data u)) 8); [done|].
  rewrite (bool_decide_eq_true_2 _ Ho') in Hr.
  destruct (Nat.leb_spec 8 (length (au_data u))); [|lia]. cbn [andb] in Hr.
  apply orb_false_iff in Hr as [[Hr1 Hr2]%orb_false_iff Hr3].
  apply bool_decide_eq_false in Hr1, Hr2, Hr3.
  by rewrite !decide_False.
Qed.
End properties.

(* ------------------------------------------------------------------ *)
(** ** Witnesses: an interface whose accounts are a discriminator byte
    repeated eight times and one key byte *)

Definition kkey (b : Z) : Pubkey := mkPubkey (replicate 32 b).
Definition toy_sf (sf : Z) : f64 :=
  if sf =? 900 then f64_of_Z 900 else if sf =? 1000 then f64_of_Z 1000
  else if sf =? 400 then f64_of_Z 400 else f64_one.

#[local] Instance toy_klend : KlendInterface := {|
  KLEND_PROGRAM_ID := kkey 77;
  Reserve_discriminator := replicate 8 1;
  LendingMarket_discriminator := replicate 8 2;
  Obligation_discriminator := replicate 8 3;
  reserve_from_account_data data := Some (mkKlendReserve (kkey (nth 8 data 0)) 1 0 1000000 60);
  lending_market_from_account_data _ := Some (mkKlendLendingMarket 20 500000);
  obligation_from_account_data _ :=
    Some (mkKlendObligation (kkey 1) 1000 900
            [mkKlendObligationLiquidity (kkey 2) 1000 400 true]
            [mkKlendObligationCollateral (kkey 3) 1000 true]);
  sf_to_f64 := toy_sf
|}.

Lemma toy_finite sf : is_finite (sf_to_f64 sf) = true.
Proof. cbn. unfold toy_sf. repeat case_match_goal; by vm_compute. Qed.

Definition sample_update (k disc mint slot : Z) : AccountUpdate :=
  mkAccountUpdate (kkey k) (kkey 77) (replicate 8 disc ++ [mint]) slot.
Definition sample_updates : list AccountUpdate :=
  [sample_update 1 2 0 100; sample_update 2 1 9 100; sample_update 3 1 8 100].
Definition sample_adapter : KaminoAdapter := kamino_run KaminoAdapter_new sample_updates.

(** A $1000 debt at a 20% close factor and $1 price repays 200 units. *)
Example sample_breach :
  (fun c => (bc_collateral_mint c, bc_debt_mint c, bc_close_factor_max_repay c))
    <$> (kamino_on_account_update sample_adapter (sample_update 42 3 0 101)).2
  = Some (kkey 8, kkey 9, 200).
Proof. vm_compute. reflexivity. Qed.

Lemma candidate_sound_witness :
  let r := kamino_on_account_update sample_adapter (sample_update 42 3 0 101) in
  match r.2 with
  | Some c => (bc_health_factor c <? f64_one)%f64 = true
              /\ kamino_close_factor r.1 (bc_position_id c) = bc_close_factor_max_repay c
  | None => False
  end.
Proof.
  cbv zeta. destruct (kamino_on_account_update sample_adapter (sample_update 42 3 0 101))
    as [a' [c|]] eqn:E; [|vm_compute in E; discriminate E].
  destruct (candidate_sound toy_finite _ _ _ _ E) as (_ & _ & _ & _ & _ & Hh & Hc & _).
  split; [exact Hh|exact Hc].
Defined.

Lemma max_repay_bounds_witness :
  is_u64 (max_repay_native_amount (mkLendingMarketSnapshot 20 500000 1)
            (mkReserveSnapshot (kkey 9) 1 0 1 0 60) (mkKlendObligationLiquidity (kkey 2) 1000 400 true)).
Proof. apply (max_repay_bounds toy_finite). Defined.

Lemma sync_lag_spec_witness :
  kamino_sync_lag_slots sample_adapter = ka_current_slot sample_adapter - ka_last_synced_slot sample_adapter.
Proof.
  apply (sync_lag_spec sample_updates). unfold sample_updates.
  repeat (constructor; [unfold in_u; cbn; lia|]). constructor.
Defined.

Lemma unrecognised_inert_witness :
  (kamino_on_account_update sample_adapter (sample_update 42 9 0 101)).2 = None.
Proof.
  apply (unrecognised_inert sample_adapter (sample_update 42 9 0 101)). vm_compute. reflexivity.
Defined.

Lemma unresolved_breach_inert_witness :
  handle_obligation (kkey 42) [] 101 KaminoAdapter_new = (KaminoAdapter_new, None).
Proof.
  apply (unresolved_breach_inert KaminoAdapter_new (kkey 42) [] 101
    (mkKlendObligation (kkey 1) 1000 900 [mkKlendObligationLiquidity (kkey 2) 1000 400 true]
       [mkKlendObligationCollateral (kkey 3) 1000 true])); vm_compute; reflexivity.
Defined.
