(* ===== verification/KaminoTests.v ===== *)
(** * The tests of crates/health/src/adapters/kamino.rs.

    klend's accounts are encoded as a discriminator followed by the account's
    bytes; the tests hold for every encoding the decoders read back, with
    klend's fixed point of sixty fractional bits. *)

From Stdlib Require Import ZArith Lia.
From stdpp Require Import base gmap list option.
From S2P Require Import Prelude Lists Harness F64 CoreTypes Kamino.

Open Scope rust_scope.

Definition hpk (b : Z) : Pubkey := Pubkey_new (replicate 32 b).

(** [U68F60]: 1.0 is 2^60. *)
Definition FRACTION_ONE : f64 := f64_of_Z (2 ^ 60).
Definition to_sf (value : f64) : Z := f64_to_u 128 (value * FRACTION_ONE)%f64.
Definition from_sf (bits : Z) : f64 := (f64_of_Z bits / FRACTION_ONE)%f64.

Definition sample_reserve (mint : Pubkey) (price_usd : f64) (decimals : Z) : KlendReserve :=
  mkKlendReserve mint (to_sf price_usd) decimals 1000000 60.
Definition sample_lending_market (close_factor_pct cap_usd : Z) : KlendLendingMarket :=
  mkKlendLendingMarket close_factor_pct cap_usd.

(** Slots left zeroed are inactive. *)
Definition zeroed_liquidity : KlendObligationLiquidity :=
  mkKlendObligationLiquidity Pubkey_default 0 0 false.
Definition zeroed_collateral : KlendObligationCollateral :=
  mkKlendObligationCollateral Pubkey_default 0 false.
Definition breached_obligation (lending_market debt_reserve collateral_reserve : Pubkey)
    (debt_usd unhealthy_usd : f64) (borrowed_native : Z) : KlendObligation :=
  mkKlendObligation lending_market (to_sf debt_usd) (to_sf unhealthy_usd)
    (mkKlendObligationLiquidity debt_reserve (to_sf debt_usd) (to_sf (f64_of_Z borrowed_native)) true
       :: replicate 4 zeroed_liquidity)
    (mkKlendObligationCollateral collateral_reserve (to_sf (debt_usd * f64_lit 11 10)%f64) true
       :: replicate 7 zeroed_collateral).

Section tests.
Context (program_id : Pubkey) (reserve_tag market_tag obligation_tag : list Z)
  (read_reserve : list Z -> option KlendReserve)
  (read_market : list Z -> option KlendLendingMarket)
  (read_obligation : list Z -> option KlendObligation).

#[local] Instance klend : KlendInterface := {|
  KLEND_PROGRAM_ID := program_id;
  Reserve_discriminator := reserve_tag;
  LendingMarket_discriminator := market_tag;
  Obligation_discriminator := obligation_tag;
  reserve_from_account_data := read_reserve;
  lending_market_from_account_data := read_market;
  obligation_from_account_data := read_obligation;
  sf_to_f64 := from_sf
|}.

(** The bytes of an account behind its discriminator. *)
Context (reserve_bytes : KlendReserve -> list Z) (market_bytes : KlendLendingMarket -> list Z)
  (obligation_bytes : KlendObligation -> list Z).

Definition update_of (key : Z) (tag bytes : list Z) (slot : Z) : AccountUpdate :=
  mkAccountUpdate (hpk key) program_id (tag ++ bytes) slot.
Definition see_reserve (key : Z) (r : KlendReserve) (slot : Z) (a : KaminoAdapter) : KaminoAdapter :=
  (kamino_on_account_update a (update_of key reserve_tag (reserve_bytes r) slot)).1.
Definition see_market (key : Z) (m : KlendLendingMarket) (slot : Z) (a : KaminoAdapter) : KaminoAdapter :=
  (kamino_on_account_update a (update_of key market_tag (market_bytes m) slot)).1.
Definition see_obligation (key : Z) (o : KlendObligation) (slot : Z) (a : KaminoAdapter)
    : KaminoAdapter * option BreachCandidate :=
  kamino_on_account_update a (update_of key obligation_tag (obligation_bytes o) slot).

(** A market (key 1) and the debt and collateral reserves (keys 2 and 3). *)
Definition observed (market : KlendLendingMarket) (collateral : KlendReserve) (slot : Z) : KaminoAdapter :=
  see_reserve 3 collateral slot
    (see_reserve 2 (sample_reserve (hpk 9) f64_one 6) slot
       (see_market 1 market slot KaminoAdapter_new)).

Definition healthy_obligation_produces_no_candidate : test :=
  let adapter := observed (sample_lending_market 20 500000) (sample_reserve (hpk 8) f64_one 6) 100 in
  let obligation := breached_obligation (hpk 1) (hpk 2) (hpk 3) (f64_of_Z 500) (f64_of_Z 1000) 500000000 in
  assert (negb (is_some (see_obligation 42 obligation 101 adapter).2)).

Definition breached_obligation_produces_candidate_with_correct_close_factor : test :=
  let adapter := observed (sample_lending_market 20 500000)
                   (sample_reserve (hpk 8) (f64_of_Z 100) 9) 200 in
  let obligation := breached_obligation (hpk 1) (hpk 2) (hpk 3) (f64_of_Z 1200) (f64_of_Z 1000)
                      1200000000 in
  let! candidate := unwrap_option (see_obligation 42 obligation 201 adapter).2 in
  do! assert_eq (bc_protocol candidate) Kamino in
  do! assert (bc_health_factor candidate <? f64_one)%f64 in
  do! assert (f64_abs (bc_health_factor candidate - f64_of_Z 1000 / f64_of_Z 1200)
              <? f64_lit 1 1000000000)%f64 in
  do! assert_eq (bc_debt_mint candidate) (hpk 9) in
  do! assert_eq (bc_collateral_mint candidate) (hpk 8) in
  let expected_repay := 240000000 in
  let tolerance := expected_repay / 1000 in
  assert (Z.abs (bc_close_factor_max_repay candidate - expected_repay) <=? tolerance).

Definition close_factor_repay_is_capped_by_market_wide_ceiling_not_just_percentage : test :=
  let adapter := observed (sample_lending_market 20 100) (sample_reserve (hpk 8) (f64_of_Z 100) 9) 300 in
  let obligation := breached_obligation (hpk 1) (hpk 2) (hpk 3) (f64_of_Z 1000000) f64_one 5000000000 in
  let! candidate := unwrap_option (see_obligation 99 obligation 301 adapter).2 in
  assert (bc_close_factor_max_repay candidate <=? 100500000).

Definition non_kamino_owner_is_ignored : test :=
  let '(adapter, result) := kamino_on_account_update KaminoAdapter_new
    (mkAccountUpdate (hpk 1) (hpk 255) (replicate 64 0) 1) in
  do! assert (negb (is_some result)) in
  assert_eq (kamino_position_count adapter) 0.

Definition sync_lag_tracks_slots_since_last_klend_account_seen : test :=
  let adapter := see_market 1 (sample_lending_market 20 500000) 1000 KaminoAdapter_new in
  assert_eq (kamino_sync_lag_slots adapter) 0.

Definition reserve_price_is_stale_within_max_age_window : test :=
  let adapter := see_reserve 2 (sample_reserve (hpk 9) f64_one 6) 100 KaminoAdapter_new in
  do! assert_eq (reserve_price_is_stale adapter (hpk 2) 1000030) (Some false) in
  assert_eq (reserve_price_is_stale adapter (hpk 2) 1000090) (Some true).

Definition reserve_price_staleness_is_unknown_for_an_unobserved_reserve : test :=
  assert_eq (reserve_price_is_stale KaminoAdapter_new (hpk 99) 1000000) None.

Definition kamino_unit_tests : list test :=
  [healthy_obligation_produces_no_candidate;
   breached_obligation_produces_candidate_with_correct_close_factor;
   close_factor_repay_is_capped_by_market_wide_ceiling_not_just_percentage;
   non_kamino_owner_is_ignored; sync_lag_tracks_slots_since_last_klend_account_seen;
   reserve_price_is_stale_within_max_age_window;
   reserve_price_staleness_is_unknown_for_an_unobserved_reserve].

(* -------------------------------------------------------------- *)

Context (Hreserve : forall r, read_reserve (reserve_tag ++ reserve_bytes r) = Some r)
  (Hmarket : forall m, read_market (market_tag ++ market_bytes m) = Some m)
  (Hobligation : forall o, read_obligation (obligation_tag ++ obligation_bytes o) = Some o)
  (Hlengths : length reserve_tag = 8%nat /\ length market_tag = 8%nat /\ length obligation_tag = 8%nat)
  (Hdistinct : market_tag <> reserve_tag /\ obligation_tag <> reserve_tag /\ obligation_tag <> market_tag).

(** What the adapter does with an account of each kind. *)
Lemma tagged_update a key tag bytes slot :
  length tag = 8%nat ->
  kamino_on_account_update a (update_of key tag bytes slot)
  = (let a := bump_current slot a in
     let data := tag ++ bytes in
     if decide (tag = reserve_tag) then
       (set_last_synced slot (handle_reserve (hpk key) data slot a), None)
     else if decide (tag = market_tag) then
       (set_last_synced slot (handle_lending_market (hpk key) data slot a), None)
     else if decide (tag = obligation_tag) then
       handle_obligation (hpk key) data slot (set_last_synced slot a)
     else (a, None)).
Proof.
  intros Hl. unfold kamino_on_account_update, update_of. cbn [au_owner au_slot au_data au_pubkey].
  rewrite decide_False by (intros Hne; by apply Hne).
  destruct (Nat.ltb_spec (length (tag ++ bytes)) 8) as [Hlt|_]; [rewrite length_app in Hlt; lia|].
  rewrite <- Hl, take_app_length. reflexivity.
Qed.

Lemma see_reserve_eq key r slot a :
  see_reserve key r slot a
  = set_last_synced slot (mkKaminoAdapter
      (<[hpk key := mkReserveSnapshot (kl_mint_pubkey r) (kl_market_price r) (wrap 32 (kl_mint_decimals r))
           slot (kl_market_price_last_updated_ts r) (kl_max_age_price_seconds r)]> (ka_reserves a))
      (ka_lending_markets a) (ka_known_obligations a) (ka_last_synced_slot a)
      (Z.max (ka_current_slot a) slot)).
Proof.
  unfold see_reserve. rewrite tagged_update by apply Hlengths. rewrite decide_True by done.
  unfold handle_reserve. cbn [reserve_from_account_data klend]. by rewrite Hreserve.
Qed.

Lemma see_market_eq key m slot a :
  see_market key m slot a
  = set_last_synced slot (mkKaminoAdapter (ka_reserves a)
      (<[hpk key := mkLendingMarketSnapshot (kl_liquidation_max_debt_close_factor_pct m)
           (kl_max_liquidatable_debt_market_value_at_once m) slot]> (ka_lending_markets a))
      (ka_known_obligations a) (ka_last_synced_slot a) (Z.max (ka_current_slot a) slot)).
Proof.
  unfold see_market. rewrite tagged_update by apply Hlengths.
  rewrite decide_False by apply Hdistinct. rewrite decide_True by done.
  unfold handle_lending_market. cbn [lending_market_from_account_data klend]. by rewrite Hmarket.
Qed.

(** The obligation's own handler, over a decoder that always gives it. *)
Definition klend_reading (o : KlendObligation) : KlendInterface := {|
  KLEND_PROGRAM_ID := Pubkey_default; Reserve_discriminator := []; LendingMarket_discriminator := [];
  Obligation_discriminator := []; reserve_from_account_data _ := None;
  lending_market_from_account_data _ := None;
  obligation_from_account_data _ := Some o; sf_to_f64 := from_sf
|}.

Lemma see_obligation_eq key o slot a :
  see_obligation key o slot a
  = @handle_obligation (klend_reading o) (hpk key) [] slot (set_last_synced slot (bump_current slot a)).
Proof.
  unfold see_obligation. rewrite tagged_update by apply Hlengths.
  destruct Hdistinct as (_ & H1 & H2). rewrite !decide_False, decide_True by done.
  unfold handle_obligation. cbn [obligation_from_account_data klend klend_reading].
  by rewrite Hobligation.
Qed.

Ltac observed_accounts :=
  unfold observed; cbv zeta; rewrite ?see_obligation_eq, ?see_reserve_eq, ?see_market_eq;
  vm_compute; reflexivity.

Lemma kamino_unit_tests_pass :
  program_id <> hpk 255 -> forallb passes kamino_unit_tests = true.
Proof.
  intros Hid. cbn [kamino_unit_tests forallb]. rewrite !andb_true_iff. split_and!; [..|done].
  - unfold healthy_obligation_produces_no_candidate. observed_accounts.
  - unfold breached_obligation_produces_candidate_with_correct_close_factor. observed_accounts.
  - unfold close_factor_repay_is_capped_by_market_wide_ceiling_not_just_percentage. observed_accounts.
  - unfold non_kamino_owner_is_ignored, kamino_on_account_update. cbn [au_owner KLEND_PROGRAM_ID klend].
    rewrite decide_True by done. vm_compute. reflexivity.
  - unfold sync_lag_tracks_slots_since_last_klend_account_seen. observed_accounts.
  - unfold reserve_price_is_stale_within_max_age_window. observed_accounts.
  - vm_compute. reflexivity.
Qed.
End tests.
