(* ===== verification/Text.v ===== *)
(** * Strings and files of the standard library: lines, trimming, searching,
    parsing of integers, writing a file.

    A Rust [str] is its UTF-8 bytes, an Rocq [string]. Whitespace is the ASCII
    part of the Unicode property. *)

From Stdlib Require Import ZArith Lia.
From stdpp Require Import base list strings option.
From S2P Require Import Prelude.

Open Scope rust_scope.

(** Strings: [str::lines] and [trim] on ASCII whitespace. *)
Definition is_ws (c : Ascii.ascii) : bool :=
  match Ascii.nat_of_ascii c with 9 | 10 | 11 | 12 | 13 | 32 => true | _ => false end%nat.
Fixpoint trim_start (s : string) : string :=
  match s with
  | EmptyString => EmptyString
  | String c s' => if is_ws c then trim_start s' else s
  end.
Fixpoint string_rev_app (s acc : string) : string :=
  match s with EmptyString => acc | String c s => string_rev_app s (String c acc) end.
Definition string_reverse (s : string) : string := string_rev_app s EmptyString.
Definition trim (s : string) : string :=
  string_reverse (trim_start (string_reverse (trim_start s))).

Definition newline : Ascii.ascii := Ascii.ascii_of_nat 10.
Definition carriage_return : Ascii.ascii := Ascii.ascii_of_nat 13.

(** Splits at newlines; a final newline ends the last line. [cur] is the
    current line, reversed. *)
Definition finish_line (cur : string) : string :=
  match cur with
  | String c cur' => if Ascii.eqb c carriage_return then string_reverse cur' else string_reverse cur
  | EmptyString => EmptyString
  end.
Fixpoint lines_from (cur s : string) : list string :=
  match s with
  | EmptyString => match cur with EmptyString => [] | _ => [string_reverse cur] end
  | String c s =>
      if Ascii.eqb c newline then finish_line cur :: lines_from EmptyString s
      else lines_from (String c cur) s
  end.
Definition str_lines (s : string) : list string := lines_from EmptyString s.

Fixpoint str_starts_with (p s : string) : bool :=
  match p, s with
  | EmptyString, _ => true
  | String a p, String b s => Ascii.eqb a b && str_starts_with p s
  | _, _ => false
  end.
Fixpoint str_contains (p s : string) : bool :=
  str_starts_with p s || match s with EmptyString => false | String _ s => str_contains p s end.

(** [a.parse::<u64>()]: an optional plus sign and at least one digit, within
    64 bits. *)
Definition digit_value (c : Ascii.ascii) : option Z :=
  let n := Z.of_nat (Ascii.nat_of_ascii c) in
  if (48 <=? n) && (n <=? 57) then Some (n - 48) else None.
Definition plus_sign : Ascii.ascii := Ascii.ascii_of_nat 43.
(** Drops one leading plus sign. *)
Definition strip_plus (s : string) : string :=
  match s with
  | String c s' => if Ascii.eqb c plus_sign then s' else s
  | EmptyString => EmptyString
  end.
Fixpoint digits_value (acc : Z) (s : string) : option Z :=
  match s with
  | EmptyString => Some acc
  | String c s =>
      match digit_value c with
      | Some d => match to_u 64 (acc * 10 + d) with
                  | Some acc => digits_value acc s
                  | None => None
                  end
      | None => None
      end
  end.
Definition parse_u64 (s : string) : option Z :=
  match strip_plus s with EmptyString => None | digits => digits_value 0 digits end.

(** The last byte of a string and what precedes it. *)
Fixpoint split_last (s : string) : option (string * Ascii.ascii) :=
  match s with
  | EmptyString => None
  | String c s =>
      match split_last s with
      | None => Some (EmptyString, c)
      | Some (p, l) => Some (String c p, l)
      end
  end.

(** A UTF-8 continuation byte: no character starts there. *)
Definition is_continuation (c : Ascii.ascii) : bool :=
  let n := Z.of_nat (Ascii.nat_of_ascii c) in (128 <=? n) && (n <? 192).

Lemma digits_value_u64 acc s v : is_u64 acc -> digits_value acc s = Some v -> is_u64 v.
Proof.
  revert acc. induction s as [|c s IH]; intros acc Hacc; cbn [digits_value].
  - by intros [= <-].
  - destruct (digit_value c); [|done]. destruct (to_u 64 _) as [acc'|] eqn:E; [|done].
    apply to_u_Some in E as [-> E]. by apply IH.
Qed.

Lemma parse_u64_range s v : parse_u64 s = Some v -> is_u64 v.
Proof.
  unfold parse_u64. intros H. assert (is_u64 0) by (unfold in_u; lia).
  destruct (strip_plus s); [done|].
  by eapply digits_value_u64.
Qed.

Lemma split_last_app s c : split_last (s +:+ String c EmptyString) = Some (s, c).
Proof.
  induction s as [|d s IH]; [done|].
  change (String d s +:+ String c EmptyString) with (String d (s +:+ String c EmptyString)).
  cbn [split_last]. by rewrite IH.
Qed.

Lemma split_last_Some s p c : split_last s = Some (p, c) -> s = p +:+ String c EmptyString.
Proof.
  revert p. induction s as [|d s IH]; intros p; cbn; [done|].
  destruct (split_last s) as [[p' l]|] eqn:E; intros [= <- <-].
  - by rewrite (IH p' eq_refl).
  - destruct s as [|e s]; [done|]. cbn in E. by destruct (split_last s) as [[? ?]|].
Qed.

(** *** Lines *)

Fixpoint has_newline (s : string) : bool :=
  match s with EmptyString => false | String c s => Ascii.eqb c newline || has_newline s end.
(** A line whose text survives [lines]: no newline, and no carriage return at
    the end. *)
Definition line_ok (s : string) : Prop :=
  has_newline s = false /\ forall p, s <> p +:+ String carriage_return EmptyString.

Definition one_newline : string := String newline EmptyString.
Definition unlines (ls : list string) : string :=
  foldr (fun l acc => l +:+ one_newline +:+ acc) EmptyString ls.

Lemma string_rev_app_app s a : string_rev_app s a = string_reverse s +:+ a.
Proof.
  revert a. assert (Hgen : forall s a b, string_rev_app s (a +:+ b) = string_rev_app s a +:+ b).
  { clear. intros s. induction s as [|c s IH]; intros a b; cbn [string_rev_app]; [done|].
    change (String c (a +:+ b)) with (String c a +:+ b). apply IH. }
  intros a. unfold string_reverse. change a with (EmptyString +:+ a) at 1. by rewrite Hgen.
Qed.

Lemma string_app_nil_r (s : string) : s +:+ EmptyString = s.
Proof. induction s as [|c s IH]; [done|]. change (String c (s +:+ EmptyString) = String c s). by rewrite IH. Qed.
Lemma string_app_assoc (a b c : string) : (a +:+ b) +:+ c = a +:+ (b +:+ c).
Proof.
  induction a as [|d a IH]; [done|].
  change (String d ((a +:+ b) +:+ c) = String d (a +:+ (b +:+ c))). by rewrite IH.
Qed.
Lemma string_length_app (a b : string) :
  String.length (a +:+ b) = (String.length a + String.length b)%nat.
Proof.
  induction a as [|c a IH]; [done|].
  change (S (String.length (a +:+ b)) = S (String.length a + String.length b)). by rewrite IH.
Qed.

Lemma string_reverse_cons c s : string_reverse (String c s) = string_reverse s +:+ String c EmptyString.
Proof. unfold string_reverse at 1. cbn [string_rev_app]. apply string_rev_app_app. Qed.

(** Reading a newline-free piece extends the current line. *)
Lemma lines_from_piece cur s rest :
  has_newline s = false ->
  lines_from cur (s +:+ one_newline +:+ rest)
  = finish_line (string_rev_app s cur) :: lines_from EmptyString rest.
Proof.
  revert cur. induction s as [|c s IH]; intros cur Hs; cbn [String.append lines_from string_rev_app].
  - done.
  - cbn [has_newline] in Hs. apply orb_false_iff in Hs as [Hc Hs].
    change (lines_from cur (String c (s +:+ one_newline +:+ rest))
            = finish_line (string_rev_app s (String c cur)) :: lines_from EmptyString rest).
    cbn [lines_from]. rewrite Hc. by apply IH.
Qed.

Lemma finish_line_ok s : line_ok s -> finish_line (string_reverse s) = s.
Proof.
  intros [_ Hcr]. assert (Hinv : forall s, string_reverse (string_reverse s) = s).
  { clear. intros s. induction s as [|c s IH]; [done|]. rewrite string_reverse_cons.
    assert (Happ : forall a c, string_reverse (a +:+ String c EmptyString) = String c (string_reverse a)).
    { clear. intros a c. induction a as [|d a IHa]; [done|].
      change (String d a +:+ String c EmptyString) with (String d (a +:+ String c EmptyString)).
      by rewrite !string_reverse_cons, IHa. }
    by rewrite Happ, IH. }
  destruct (string_reverse s) as [|c r] eqn:E; cbn [finish_line].
  - rewrite <- (Hinv s), E. done.
  - destruct (Ascii.eqb_spec c carriage_return) as [->|].
    + exfalso. apply (Hcr (string_reverse r)). by rewrite <- string_reverse_cons, <- E, Hinv.
    + by rewrite <- E, Hinv.
Qed.

Lemma str_lines_unlines ls : Forall line_ok ls -> str_lines (unlines ls) = ls.
Proof.
  unfold str_lines. induction 1 as [|l ls [Hn Hcr] _ IH]; cbn [unlines foldr]; [done|].
  rewrite lines_from_piece by done. fold (unlines ls). rewrite IH. f_equal.
  by apply finish_line_ok.
Qed.

Lemma unlines_app a b : unlines (a ++ b) = unlines a +:+ unlines b.
Proof.
  induction a as [|l a IH]; cbn; [done|]. fold (unlines (a ++ b)) (unlines a). rewrite IH.
  by rewrite !string_app_assoc.
Qed.

(** *** Line-oriented files *)

(** [for (i, line) in contents.lines().enumerate()], skipping blank lines and
    stopping at the first error; [f] gets the 1-based line number. *)
Fixpoint for_lines {A E} (f : Z -> string -> result A E) (i : Z) (ls : list string)
    : result (list A) E :=
  match ls with
  | [] => Ok []
  | line :: ls =>
      match trim line with
      | EmptyString => for_lines f (i + 1) ls
      | _ =>
          let? record := f (i + 1) line in
          let? records := for_lines f (i + 1) ls in
          Ok (record :: records)
      end
  end.

(** The non-blank lines with their 1-based numbers. *)
Fixpoint numbered (i : Z) (ls : list string) : list (Z * string) :=
  match ls with
  | [] => []
  | line :: ls =>
      match trim line with
      | EmptyString => numbered (i + 1) ls
      | _ => (i + 1, line) :: numbered (i + 1) ls
      end
  end.

Lemma for_lines_spec {A E} (f : Z -> string -> result A E) i ls :
  match for_lines f i ls with
  | Ok rs => Forall2 (fun p r => f p.1 p.2 = Ok r) (numbered i ls) rs
  | Err e => exists before p after rs, numbered i ls = before ++ p :: after
      /\ Forall2 (fun p r => f p.1 p.2 = Ok r) before rs /\ f p.1 p.2 = Err e
  end.
Proof.
  revert i. induction ls as [|line ls IH]; intros i; cbn [for_lines numbered]; [constructor|].
  specialize (IH (i + 1)). destruct (trim line); [done|].
  destruct (f (i + 1) line) as [r|e] eqn:E1.
  - destruct (for_lines f (i + 1) ls) as [rs|e'] eqn:E2.
    + by constructor.
    + destruct IH as (before & p & after & rs & Hn & Hb & Hp).
      exists ((i + 1, line) :: before), p, after, (r :: rs). rewrite Hn.
      split_and!; [done|by constructor|done].
  - exists [], (i + 1, line), (numbered (i + 1) ls), []. split_and!; [done|constructor|done].
Qed.

(** *** Files *)

(** The system's answer to one write: done, refused when the file was opened,
    or failed after [n] bytes. *)
Inductive WriteOutcome := Written | OpenFailed | Torn (n : nat).
Definition untorn (o : WriteOutcome) : bool := match o with Torn _ => false | _ => true end.

(** [std::fs::write]: truncates the file, then writes; the file afterwards and
    whether the call succeeded. *)
Definition fs_write (o : WriteOutcome) (contents : string) (file : option string)
    : option string * bool :=
  match o with
  | Written => (Some contents, true)
  | OpenFailed => (file, false)
  | Torn n => (Some (String.substring 0 n contents), false)
  end.
