(* ===== verification/SolendDisplay.v ===== *)
(** * patches/solend-sdk/src/math: how [Decimal] and [Rate] print. *)

From Stdlib Require Import ZArith Lia.
From Stdlib Require Import Ascii.
From stdpp Require Import base strings.
From S2P Require Import Prelude Text SolendMath.

Open Scope rust_scope.

Definition digit_char (d : Z) : Ascii.ascii := Ascii.ascii_of_nat (Z.to_nat (48 + d)).

(** [to_string] of an unsigned integer; [fuel] digits at most. *)
Fixpoint push_digits (fuel : nat) (n : Z) (acc : string) : string :=
  match fuel with
  | O => acc
  | S fuel =>
      let acc := String (digit_char (n mod 10)) acc in
      if n / 10 =? 0 then acc else push_digits fuel (n / 10) acc
  end.
(** A 192-bit integer has at most 58 digits, a 128-bit one at most 39. *)
Definition to_string (n : Z) : string := push_digits 58 n EmptyString.

Fixpoint zeros (n : nat) : string :=
  match n with O => EmptyString | S n => String "0"%char (zeros n) end.

(** [String::insert] of a one-byte character; past the end it panics, which
    [display] excludes. *)
Fixpoint insert_char (n : nat) (c : Ascii.ascii) (s : string) : string :=
  match n, s with
  | O, _ => String c s
  | S n, String d s => String d (insert_char n c s)
  | S _, EmptyString => EmptyString
  end.

(** [fmt::Display]: the digits with a point before the last [SCALE], padded
    with zeros when there are no more than that. The same text for both
    types. *)
Definition display (scaled_val : Z) : string :=
  let s := to_string scaled_val in
  let len := String.length s in
  if (len <=? SCALE)%nat then "0." +:+ (zeros (SCALE - len) +:+ s)
  else insert_char (len - SCALE) "."%char s.

Definition Decimal_fmt (d : Decimal) : string := display d.
Definition Rate_fmt (r : Rate) : string := display r.

(* ------------------------------------------------------------------ *)
(** ** Reading digits back *)

Definition digit_of (c : Ascii.ascii) : Z := Z.of_nat (Ascii.nat_of_ascii c) - 48.
Fixpoint value_from (acc : Z) (s : string) : Z :=
  match s with EmptyString => acc | String c s => value_from (10 * acc + digit_of c) s end.
Fixpoint all_digits (s : string) : Prop :=
  match s with EmptyString => True | String c s => 0 <= digit_of c < 10 /\ all_digits s end.

Lemma digit_of_char d : 0 <= d < 10 -> digit_of (digit_char d) = d.
Proof. intros H. unfold digit_of, digit_char. rewrite Ascii.nat_ascii_embedding by lia. lia. Qed.

Lemma push_digits_spec fuel n acc :
  0 <= n < 10 ^ Z.of_nat fuel -> fuel <> 0%nat -> all_digits acc ->
  value_from 0 (push_digits fuel n acc) = value_from n acc /\ all_digits (push_digits fuel n acc).
Proof.
  revert n acc. induction fuel as [|fuel IH]; intros n acc Hn Hf Hacc; [done|]. cbn [push_digits].
  pose proof (Z.mod_pos_bound n 10 ltac:(lia)). pose proof (Z.div_mod n 10 ltac:(lia)).
  assert (Hd : all_digits (String (digit_char (n mod 10)) acc)) by (split; [by rewrite digit_of_char|done]).
  destruct (Z.eqb_spec (n / 10) 0) as [Hz|Hz].
  - split; [|done]. cbn [value_from]. rewrite digit_of_char by done. f_equal. lia.
  - destruct (IH (n / 10) (String (digit_char (n mod 10)) acc)) as [Hv Ha]; [| |done|].
    + rewrite Nat2Z.inj_succ, Z.pow_succ_r in Hn by lia. split; [apply Z.div_pos; lia|].
      apply Z.div_lt_upper_bound; lia.
    + intros ->. cbn in Hn. lia.
    + split; [|done]. rewrite Hv. cbn [value_from]. rewrite digit_of_char by done. f_equal. lia.
Qed.

Lemma value_from_app acc a b : value_from acc (a +:+ b) = value_from (value_from acc a) b.
Proof. revert acc. induction a as [|c a IH]; intros acc; [done|]. apply (IH (10 * acc + digit_of c)). Qed.

Lemma value_from_shift acc s :
  all_digits s ->
  value_from acc s = acc * 10 ^ Z.of_nat (String.length s) + value_from 0 s
  /\ 0 <= value_from 0 s < 10 ^ Z.of_nat (String.length s).
Proof.
  revert acc. induction s as [|c s IH]; intros acc Hs; [cbn; lia|].
  destruct Hs as [Hc Hs]. cbn [value_from String.length]. rewrite Nat2Z.inj_succ, Z.pow_succ_r by lia.
  destruct (IH (10 * acc + digit_of c) Hs) as [-> Hb]. destruct (IH (10 * 0 + digit_of c) Hs) as [-> _].
  nia.
Qed.

Lemma zeros_spec n : all_digits (zeros n) /\ value_from 0 (zeros n) = 0 /\ String.length (zeros n) = n.
Proof.
  induction n as [|n (Hd & Hv & Hl)]; [done|]. cbn [zeros all_digits value_from String.length].
  split; [split; [by vm_compute|done]|]. split; [exact Hv|by rewrite Hl].
Qed.

Lemma all_digits_app a b : all_digits (a +:+ b) <-> all_digits a /\ all_digits b.
Proof.
  induction a as [|c a IH]; [by split; [split|intros [_ ?]]|].
  change (all_digits (String c (a +:+ b)) <-> all_digits (String c a) /\ all_digits b).
  cbn [all_digits]. rewrite IH. tauto.
Qed.

Lemma insert_char_spec n c s :
  (n <= String.length s)%nat ->
  exists a b, s = a +:+ b /\ String.length a = n /\ insert_char n c s = a +:+ String c b.
Proof.
  revert n. induction s as [|d s IH]; intros [|n] Hn; cbn [String.length] in Hn; try lia.
  - by exists EmptyString, EmptyString.
  - by exists EmptyString, (String d s).
  - destruct (IH n ltac:(lia)) as (a & b & -> & <- & Hi). exists (String d a), b.
    split_and!; [done|done|]. cbn [insert_char]. by rewrite Hi.
Qed.

Lemma to_string_spec n :
  0 <= n < 10 ^ 58 -> value_from 0 (to_string n) = n /\ all_digits (to_string n).
Proof. intros H. by apply (push_digits_spec 58 n EmptyString). Qed.

(** C40: a printed [Decimal] (192 bits) or [Rate] (128 bits) is its whole part, a
    point and exactly eighteen more digits, and these digits read back are
    the value's quotient and remainder by the scale: nothing is lost and
    nothing is rounded. *)
Theorem display_roundtrip x :
  0 <= x < 2 ^ 192 ->
  Decimal_fmt x = display x /\ Rate_fmt x = display x
  /\ exists whole frac, display x = whole +:+ String "."%char frac
     /\ String.length frac = SCALE /\ whole <> EmptyString
     /\ all_digits whole /\ all_digits frac
     /\ value_from 0 whole = x / WAD /\ value_from 0 frac = x mod WAD
     /\ value_from 0 (whole +:+ frac) = x.
Proof.
  intros Hx. split_and!; [done..|].
  destruct (to_string_spec x) as [Hv Hd]; [assert (2 ^ 192 < 10 ^ 58) by done; lia|].
  unfold display. set (s := to_string x) in *. clearbody s.
  enough (H : exists whole frac, (if (String.length s <=? SCALE)%nat then "0." +:+ (zeros (SCALE - String.length s) +:+ s)
      else insert_char (String.length s - SCALE) "."%char s) = whole +:+ String "."%char frac
     /\ String.length frac = SCALE /\ whole <> EmptyString
     /\ all_digits whole /\ all_digits frac /\ value_from 0 (whole +:+ frac) = x).
  { destruct H as (w & f & He & Hl & Hw & Hdw & Hdf & Hval). exists w, f.
    rewrite value_from_app in Hval. destruct (value_from_shift (value_from 0 w) f Hdf) as [Hs Hb].
    rewrite Hl in Hs, Hb. change (10 ^ Z.of_nat SCALE) with WAD in Hs, Hb.
    split_and!; try done; rewrite <- Hval, Hs.
    - rewrite Z.add_comm, Z.div_add by done. rewrite Z.div_small by lia. lia.
    - rewrite Z.add_comm, Z.mod_add by done. by rewrite Z.mod_small by lia.
    - by rewrite value_from_app, <- Hs. }
  destruct (Nat.leb_spec (String.length s) SCALE) as [Hle|Hgt].
  - destruct (zeros_spec (SCALE - String.length s)) as (Hzd & Hzv & Hzl).
    exists "0", (zeros (SCALE - String.length s) +:+ s). split_and!; try done.
    + rewrite string_length_app, Hzl. lia.
    + by apply all_digits_app.
    + change ("0" +:+ ?t) with (String "0"%char t). cbn [value_from].
      change (10 * 0 + digit_of "0"%char) with 0. by rewrite value_from_app, Hzv.
  - destruct (insert_char_spec (String.length s - SCALE) "."%char s ltac:(lia)) as (a & b & -> & Hla & ->).
    rewrite string_length_app in Hla, Hgt. apply all_digits_app in Hd as [Hda Hdb].
    exists a, b. split_and!; try done; [lia|].
    intros ->. cbn [String.length] in *. lia.
Qed.

Lemma display_roundtrip_witness :
  display 1500000000000000000 = "1.500000000000000000"
  /\ exists whole frac, display 1500000000000000000 = whole +:+ String "."%char frac
     /\ value_from 0 whole = 1 /\ value_from 0 frac = 500000000000000000.
Proof.
  split; [vm_compute; reflexivity|].
  destruct (display_roundtrip 1500000000000000000) as (_ & _ & w & f & He & _ & _ & _ & _ & Hw & Hf & _).
  - split; vm_compute; [discriminate|reflexivity].
  - exists w, f. split; [exact He|]. split; [exact Hw|exact Hf].
Defined.
