(* ===== verification/SolendSdkTests.v ===== *)
(** * The tests of decimal.rs, rate.rs, state/mod.rs, rate_limiter.rs and
    instruction.rs. *)

From Stdlib Require Import ZArith Lia.
From stdpp Require Import base option list strings.
From S2P Require Import Prelude StateErr Harness CoreTypes SolendMath SolendState SolendReserve SolendOps SolendInstruction SolendReserveTests SolendDisplay.

Open Scope rust_scope.

(** ** decimal.rs *)

(** The limbs of a [U192]. *)
Definition limbs (n : Z) : list Z := [n mod 2 ^ 64; n / 2 ^ 64 mod 2 ^ 64; n / 2 ^ 128].

Definition test_scaler : test := assert_eq (10 ^ Z.of_nat SCALE) WAD.

Definition test_u192 : test :=
  do! assert_eq (limbs 1) [1; 0; 0] in
  do! assert_eq (limbs WAD) [WAD; 0; 0] in
  assert_eq (limbs (dec_from_u64 100)) [7766279631452241920; 5; 0].

Definition test_from_percent : test :=
  let v := dec_from_percent 20 in
  let! expected := unwrap (dec_try_div (dec_from_u64 20) (dec_from_u64 100)) in
  assert_eq v expected.

Definition test_from_deca_bps : test :=
  let! v := dec_from_deca_bps 250 in
  assert_eq v (dec_from_percent 25).

Definition test_from_bps : test :=
  let! v := dec_from_bps 190000 in
  assert_eq v (dec_from_u64 19).

Definition test_to_scaled_val : test :=
  let! v := unwrap (dec_to_scaled_val u128_max) in
  do! assert_eq v u128_max in
  let! d := unwrap (dec_try_add u128_max 1) in
  assert_eq (dec_to_scaled_val d) (Err (Custom MathOverflow)).

Definition test_round_floor_ceil_u64 : test :=
  let check val round floor ceil :=
    let! n := unwrap (dec_try_round_u64 val) in
    do! assert_eq n round in
    let! n := unwrap (dec_try_floor_u64 val) in
    do! assert_eq n floor in
    let! n := unwrap (dec_try_ceil_u64 val) in
    assert_eq n ceil in
  let val := dec_one in
  do! check val 1 1 1 in
  let! val := unwrap (dec_try_add val (dec_from_scaled_val (HALF_WAD - 1))) in
  do! check val 1 1 2 in
  let! val := unwrap (dec_try_add val (dec_from_scaled_val 1)) in
  check val 2 1 2.

Definition decimal_test_display : test :=
  do! assert_eq (Decimal_fmt (dec_from_u64 1)) "1.000000000000000000" in
  assert_eq (Decimal_fmt (dec_from_scaled_val 1)) "0.000000000000000001".

Definition test_saturating_sub : test :=
  do! assert_eq (dec_saturating_sub (dec_from_u64 1) (dec_from_u64 2)) dec_zero in
  assert_eq (dec_saturating_sub (dec_from_u64 2) (dec_from_u64 1)) dec_one.

(** ** rate.rs *)

Definition test_scaled_val : test :=
  assert_eq (rate_to_scaled_val (rate_from_percent 50)) HALF_WAD.

Definition checked_pow_test : test :=
  let! one := unwrap (rate_pow rate_one u64_max) in
  do! assert_eq rate_one one in
  let! v := unwrap (rate_pow (rate_from_percent 200) 7) in
  let! expected := unwrap (rate_try_from (dec_from_u64 128)) in
  assert_eq v expected.

Definition rate_test_display : test :=
  let! third := unwrap (rate_try_div_u64 rate_one 3) in
  assert_eq (Rate_fmt third) "0.333333333333333333".

Definition test_basic_arithmetic : test :=
  let! r := unwrap (rate_try_add rate_one rate_one) in
  do! assert_eq r (rate_from_scaled_val (2 * WAD)) in
  let! r := unwrap (rate_try_sub rate_one rate_one) in
  do! assert_eq r rate_zero in
  let! r := unwrap (rate_try_mul (rate_from_percent 240) (rate_from_percent 50)) in
  do! assert_eq r (rate_from_percent 120) in
  let! r := unwrap (rate_try_mul_u64 (rate_from_percent 240) 10) in
  let! expected := unwrap (rate_try_from (dec_from_u64 24)) in
  do! assert_eq r expected in
  let! r := unwrap (rate_try_div (rate_from_percent 240) (rate_from_percent 60)) in
  assert_eq r (rate_from_scaled_val (4 * WAD)).

(** ** state/mod.rs *)

Definition INITIAL_COLLATERAL_RATIO : Z := 1.
Definition initial_collateral_rate_sanity : test :=
  let! v := unwrap_option (checked_mul 64 INITIAL_COLLATERAL_RATIO WAD) in
  assert_eq v INITIAL_COLLATERAL_RATE.

(** ** rate_limiter.rs *)

Section limiter.

(** [assert_eq!] on the result of a method call; the state goes on. *)
Definition expect_update (slot : Z) (qty : Z) (expected : result unit ProgramError) (l : RateLimiter)
    : panicking RateLimiter :=
  let (l, res) := limiter_update slot (dec_from_u64 qty) l in
  do! assert_eq res expected in Done l.
Definition expect_remaining (slot : Z) (expected : Z) (l : RateLimiter) : panicking RateLimiter :=
  let (l, res) := remaining_outflow slot l in
  do! assert_eq res (Ok (dec_from_u64 expected)) in Done l.

Definition exceeded : result unit ProgramError := Err (Custom OutflowRateLimitExceeded).

Definition test_rate_limiter : test :=
  let l := RateLimiter_new (mkRateLimiterConfig 10 100) 10 in
  let! l := expect_update 9 1 (Err (Custom InvalidAccountInput)) l in
  let! l := expect_update 10 101 exceeded l in
  let! l := expect_remaining 10 100 l in
  let! l := expect_update 10 100 (Ok tt) l in
  let! l := expect_remaining 10 0 l in
  let! l := for_state (range 11 20) (fun i l =>
    let! l := expect_update i 1 exceeded l in
    expect_remaining i 0 l) l in
  let! l := for_state (range 20 30) (fun i l =>
    let! l := expect_update i 11 exceeded l in
    let! l := expect_remaining i 10 l in
    let! l := expect_update i 10 (Ok tt) l in
    let! l := expect_remaining i 0 l in
    expect_update i 1 exceeded l) l in
  let! l := expect_remaining 100 100 l in
  let! l := expect_update 100 10 (Ok tt) l in
  let! _ := for_state (range 101 109) (fun i l =>
    let! before := debug_sub 64 100 (10 * (i - 100)) in
    let! l := expect_remaining i before l in
    let! l := expect_update i 10 (Ok tt) l in
    let! after := debug_sub 64 90 (10 * (i - 100)) in
    expect_remaining i after l) l in
  Done tt.
End limiter.

(** ** instruction.rs *)

#[global] Instance LendingInstruction_eq_dec : EqDecision LendingInstruction.
Proof. solve_decision. Defined.

(** One round of the loop, on the instruction it generates. *)
Definition pack_and_unpack_instruction (instruction : LendingInstruction) : test :=
  let packed := LendingInstruction_pack instruction in
  let! res := LendingInstruction_unpack packed in
  let! unpacked := unwrap res in
  assert_eq instruction unpacked.

(** The loop's random generator: the draws of each type, by position. *)
Record Draws := mkDraws {
  draw_u8 : nat -> Z;
  draw_u64 : nat -> Z;
  draw_u128 : nat -> Z;
  draw_i64 : nat -> Z;
  draw_bool : nat -> bool;
  draw_key : nat -> Pubkey
}.

Definition draws_wf (rng : Draws) : Prop :=
  (forall i, is_u8 (draw_u8 rng i)) /\ (forall i, is_u64 (draw_u64 rng i))
  /\ (forall i, is_u128 (draw_u128 rng i)) /\ (forall i, is_i64 (draw_i64 rng i))
  /\ (forall i, key_wf (draw_key rng i)).

(** [if rng.gen_bool(0.5) { None } else { Some(Pubkey::new_unique()) }]; the
    other order is the same up to the draw. *)
Definition draw_option_key (rng : Draws) (i : nat) : option Pubkey :=
  if draw_bool rng i then None else Some (draw_key rng i).

Definition draw_config (rng : Draws) (i : nat) : panicking ReserveConfig :=
  let! asset_type := unwrap_option (reserve_type_from_u8 (draw_u8 rng (i + 15) mod 2)) in
  Done (mkReserveConfig (draw_u8 rng i) (draw_u8 rng (i + 1)) (draw_u8 rng (i + 2)) (draw_u8 rng (i + 3))
    (draw_u8 rng (i + 4)) (draw_u8 rng (i + 5)) (draw_u8 rng (i + 6)) (draw_u8 rng (i + 7))
    (draw_u8 rng (i + 8)) (draw_u8 rng (i + 9)) (draw_u64 rng i)
    (mkReserveFees (draw_u64 rng (i + 1)) (draw_u64 rng (i + 2)) (draw_u8 rng (i + 10)))
    (draw_u64 rng (i + 3)) (draw_u64 rng (i + 4)) (draw_key rng i) (draw_u8 rng (i + 11))
    (draw_u8 rng (i + 12)) (draw_u64 rng (i + 5)) asset_type (draw_i64 rng i)
    (draw_option_key rng (i + 1)) (draw_u64 rng (i + 6)) (draw_u64 rng (i + 7))).

(** The blocks of the loop's body, in order. *)
Definition pack_and_unpack_market_and_reserve (rng : Draws) : test :=
  do! pack_and_unpack_instruction (InitLendingMarket (draw_key rng 0) (replicate 32 (draw_u8 rng 0))) in
  do! pack_and_unpack_instruction (SetLendingMarketOwnerAndConfig (draw_key rng 1)
        (mkRateLimiterConfig (draw_u64 rng 0) (draw_u64 rng 1)) (draw_option_key rng 2) (draw_key rng 3)) in
  let! config := draw_config rng 10 in
  do! pack_and_unpack_instruction (InitReserve (draw_u64 rng 2) config) in
  do! pack_and_unpack_instruction RefreshReserve in
  do! pack_and_unpack_instruction (DepositReserveLiquidity (draw_u64 rng 3)) in
  do! pack_and_unpack_instruction (RedeemReserveCollateral (draw_u64 rng 4)) in
  do! pack_and_unpack_instruction InitObligation in
  do! pack_and_unpack_instruction RefreshObligation in
  do! pack_and_unpack_instruction (DepositObligationCollateral (draw_u64 rng 5)) in
  do! pack_and_unpack_instruction (BorrowObligationLiquidity (draw_u64 rng 6)) in
  pack_and_unpack_instruction (RepayObligationLiquidity (draw_u64 rng 7)).

Definition pack_and_unpack_liquidation_and_flash (rng : Draws) : test :=
  do! pack_and_unpack_instruction (LiquidateObligation (draw_u64 rng 8)) in
  do! pack_and_unpack_instruction (FlashLoan (draw_u64 rng 9)) in
  do! pack_and_unpack_instruction (DepositReserveLiquidityAndObligationCollateral (draw_u64 rng 30)) in
  do! pack_and_unpack_instruction (WithdrawObligationCollateralAndRedeemReserveCollateral (draw_u64 rng 31)) in
  let! config := draw_config rng 40 in
  do! pack_and_unpack_instruction
        (UpdateReserveConfig config (mkRateLimiterConfig (draw_u64 rng 32) (draw_u64 rng 33))) in
  do! pack_and_unpack_instruction (LiquidateObligationAndRedeemReserveCollateral (draw_u64 rng 34)) in
  do! pack_and_unpack_instruction RedeemFees in
  do! pack_and_unpack_instruction (FlashBorrowReserveLiquidity (draw_u64 rng 35)) in
  do! pack_and_unpack_instruction (FlashRepayReserveLiquidity (draw_u64 rng 36) (draw_u8 rng 60)) in
  do! pack_and_unpack_instruction (ForgiveDebt (draw_u64 rng 37)) in
  pack_and_unpack_instruction (SetObligationCloseabilityStatus (draw_bool rng 60)).

Definition sdk_unit_tests : list test :=
  [test_scaler; test_u192; test_from_percent; test_from_deca_bps; test_from_bps; test_to_scaled_val;
   test_round_floor_ceil_u64; decimal_test_display; test_saturating_sub; test_scaled_val;
   rate_test_display; test_basic_arithmetic; checked_pow_test; initial_collateral_rate_sanity;
   test_rate_limiter].

Lemma sdk_unit_tests_pass : forallb passes sdk_unit_tests = true.
Proof. vm_compute. reflexivity. Qed.

Lemma pack_and_unpack_passes i :
  instruction_wf i -> i <> UpdateMarketMetadata -> passes (pack_and_unpack_instruction i) = true.
Proof.
  intros Hwf Hne. pose proof (unpack_pack i [] Hwf Hne) as H. rewrite app_nil_r in H.
  unfold pack_and_unpack_instruction. rewrite H. cbn [unwrap]. by apply assert_eq_pass.
Qed.

Lemma draw_config_wf rng i : draws_wf rng -> exists c, draw_config rng i = Done c /\ ReserveConfig_wf c.
Proof.
  intros (H8 & H64 & _ & Hi & Hk). unfold draw_config.
  assert (Ht : exists t, reserve_type_from_u8 (draw_u8 rng (i + 15) mod 2) = Some t).
  { assert (Hm := Z.mod_pos_bound (draw_u8 rng (i + 15)) 2 ltac:(lia)).
    assert (draw_u8 rng (i + 15) mod 2 = 0 \/ draw_u8 rng (i + 15) mod 2 = 1) as [-> | ->] by lia;
      by eexists. }
  destruct Ht as [t ->]. eexists. split; [reflexivity|].
  split; cbn; try done; try (repeat (constructor; [first [apply H8|apply H64]|]); constructor).
  unfold draw_option_key. intros p. destruct (draw_bool rng (i + 1)); [done|]. by intros [= <-].
Qed.

(** Every round of the loop passes, whatever is drawn. *)
Lemma pack_and_unpack_instructions_pass rng :
  draws_wf rng ->
  passes (pack_and_unpack_market_and_reserve rng) = true
  /\ passes (pack_and_unpack_liquidation_and_flash rng) = true.
Proof.
  intros Hwf. destruct (draw_config_wf rng 10 Hwf) as (c1 & E1 & Hc1).
  destruct (draw_config_wf rng 40 Hwf) as (c2 & E2 & Hc2).
  unfold pack_and_unpack_market_and_reserve, pack_and_unpack_liquidation_and_flash.
  rewrite E1, E2. destruct Hwf as (H8 & H64 & _ & _ & Hk).
  split; repeat (apply do_pass); (apply pack_and_unpack_passes; [cbn|done]);
    unfold limiter_config_wf; cbn; split_and?; try done; try (by rewrite length_replicate).
  unfold draw_option_key. intros p. destruct (draw_bool rng 2); [done|]. by intros [= <-].
Qed.
