(* ===== verification/SolendPackTests.v ===== *)
(** * The tests of the account codecs: [pack_and_unpack_*] of reserve.rs,
    obligation.rs and lending_market.rs, for everything their random
    generators can draw.

    A reserve with a zero attributed-borrow limit does not survive the codec,
    which reads it as the largest [u64]: the reserve test holds exactly when
    neither limit is drawn as zero. *)

From Stdlib Require Import ZArith Lia.
From stdpp Require Import base option list strings.
From S2P Require Import Prelude Harness CoreTypes SolendMath SolendState SolendReserve SolendObligation SolendMarket SolendReserveTests SolendObligationTests SolendSdkTests.

Open Scope rust_scope.

Definition rand_rate_limiter (rng : Draws) (i : nat) : RateLimiter :=
  mkRateLimiter (mkRateLimiterConfig (draw_u64 rng i) (draw_u64 rng (i + 1)))
    (draw_u128 rng i) (draw_u64 rng (i + 2)) (draw_u128 rng (i + 1)).

(** [new_unique] never gives the all-zero key. *)
Definition keys_nonzero (rng : Draws) : Prop := forall i, pk_bytes (draw_key rng i) <> zero_key.

(** ** reserve.rs *)

Definition random_reserve (rng : Draws) : panicking Reserve :=
  let optimal_utilization_rate := draw_u8 rng 0 in
  let liquidation_bonus := draw_u8 rng 1 in
  let liquidation_threshold := draw_u8 rng 2 in
  let extra_oracle_pubkey := if draw_bool rng 0 then Some (draw_key rng 0) else None in
  let extra_market_price := match extra_oracle_pubkey with Some _ => Some (draw_u128 rng 0) | None => None end in
  let! asset_type := unwrap_option (reserve_type_from_u8 (draw_u8 rng 20 mod 2)) in
  Done (mkReserve PROGRAM_VERSION (mkLastUpdate (draw_u64 rng 0) (draw_bool rng 1)) (draw_key rng 1)
    (mkReserveLiquidity (draw_key rng 2) (draw_u8 rng 3) (draw_key rng 3) (draw_key rng 4) (draw_key rng 5)
       (draw_u64 rng 1) (draw_u128 rng 1) (draw_u128 rng 2) (draw_u128 rng 3) (draw_u128 rng 4)
       (draw_u128 rng 5) extra_market_price)
    (mkReserveCollateral (draw_key rng 6) (draw_u64 rng 2) (draw_key rng 7))
    (mkReserveConfig optimal_utilization_rate (Z.max optimal_utilization_rate (draw_u8 rng 4))
       (draw_u8 rng 5) liquidation_bonus (Z.max liquidation_bonus (draw_u8 rng 6))
       liquidation_threshold (Z.max liquidation_threshold (draw_u8 rng 7))
       (draw_u8 rng 8) (draw_u8 rng 9) (draw_u8 rng 10) (Z.max 255 (draw_u64 rng 3))
       (mkReserveFees (draw_u64 rng 4) (draw_u64 rng 5) (draw_u8 rng 11))
       (draw_u64 rng 6) (draw_u64 rng 7) (draw_key rng 8)
       (Z.min (draw_u8 rng 12) MAX_PROTOCOL_LIQUIDATION_FEE_DECA_BPS) (draw_u8 rng 13)
       (draw_u64 rng 8) asset_type (draw_i64 rng 0) extra_oracle_pubkey (draw_u64 rng 9) (draw_u64 rng 10))
    (rand_rate_limiter rng 20) (draw_u128 rng 6)).

Definition pack_and_unpack_reserve (rng : Draws) : test :=
  let! reserve := random_reserve rng in
  let! packed := Reserve_pack reserve (replicate RESERVE_LEN 0) in
  let! res := Reserve_unpack packed in
  let! unpacked := unwrap res in
  assert_eq reserve unpacked.

(** ** obligation.rs *)

Definition random_obligation (rng : Draws) : Obligation :=
  mkObligation PROGRAM_VERSION (mkLastUpdate (draw_u64 rng 0) (draw_bool rng 0)) (draw_key rng 0)
    (draw_key rng 1)
    [mkObligationCollateral (draw_key rng 2) (draw_u64 rng 1) (draw_u128 rng 0) (draw_u128 rng 1)]
    [mkObligationLiquidity (draw_key rng 3) (draw_u128 rng 2) (draw_u128 rng 3) (draw_u128 rng 4)]
    (draw_u128 rng 5) (draw_u128 rng 6) (draw_u128 rng 7) (draw_u128 rng 8) (draw_u128 rng 9)
    (draw_u128 rng 10) (draw_u128 rng 11) (draw_bool rng 1) (draw_bool rng 2).

Definition pack_and_unpack_obligation (rng : Draws) : test :=
  let obligation := random_obligation rng in
  let! packed := Obligation_pack obligation (replicate OBLIGATION_LEN 0) in
  let! res := Obligation_unpack packed in
  let! unpacked := unwrap res in
  assert_eq obligation unpacked.

(** ** lending_market.rs *)

#[global] Instance LendingMarket_eq_dec : EqDecision LendingMarket.
Proof. solve_decision. Defined.

Definition random_lending_market (rng : Draws) : LendingMarket :=
  mkLendingMarket PROGRAM_VERSION (draw_u8 rng 0) (draw_key rng 0) (replicate 32 (draw_u8 rng 1))
    (draw_key rng 1) (draw_key rng 2) (draw_key rng 3) (rand_rate_limiter rng 0)
    (draw_option_key rng 4) (draw_key rng 5).

Definition pack_and_unpack_lending_market (rng : Draws) : test :=
  let lending_market := random_lending_market rng in
  let! packed := LendingMarket_pack lending_market (replicate LENDING_MARKET_LEN 0) in
  let! res := LendingMarket_unpack packed in
  let! unpacked := unwrap res in
  assert_eq unpacked lending_market.

(* ------------------------------------------------------------------ *)

Section draws.
Context (rng : Draws) (Hwf : draws_wf rng) (Hkeys : keys_nonzero rng).

Lemma draw_u8_wf i : is_u8 (draw_u8 rng i). Proof. apply Hwf. Qed.
Lemma draw_u64_wf i : is_u64 (draw_u64 rng i). Proof. apply Hwf. Qed.
Lemma draw_u128_wf i : is_u128 (draw_u128 rng i). Proof. apply Hwf. Qed.
Lemma draw_i64_wf i : is_i64 (draw_i64 rng i). Proof. apply Hwf. Qed.
Lemma draw_key_wf i : key_wf (draw_key rng i). Proof. apply Hwf. Qed.
Lemma max_u8_wf i j : is_u8 (Z.max (draw_u8 rng i) (draw_u8 rng j)).
Proof. pose proof (draw_u8_wf i). pose proof (draw_u8_wf j). unfold in_u in *. lia. Qed.

Ltac drawn1 :=
  first [apply draw_u8_wf|apply draw_u64_wf|apply draw_u128_wf|apply draw_i64_wf|apply draw_key_wf
        |apply max_u8_wf].
Ltac drawn :=
  cbn; lazymatch goal with
  | |- Forall _ _ => repeat first [apply List.Forall_nil | apply List.Forall_cons; [drawn1|]]
  | |- _ /\ _ => split_and!; drawn1
  | |- _ => drawn1
  end.

Lemma rand_rate_limiter_wf i : RateLimiter_wf (rand_rate_limiter rng i).
Proof. split; drawn. Qed.

Lemma pack_and_unpack_obligation_passes : passes (pack_and_unpack_obligation rng) = true.
Proof.
  assert (Howf : Obligation_wf (random_obligation rng)).
  { split; try drawn; [done|..]; (constructor; [|constructor]); split; drawn. }
  destruct (Obligation_pack_unpack (random_obligation rng) (replicate OBLIGATION_LEN 0) Howf)
    as (out & Hp & _ & _ & Hu); [vm_compute; lia|by rewrite length_replicate|].
  unfold pack_and_unpack_obligation. rewrite Hp, Hu. by apply assert_eq_pass.
Qed.

Lemma pack_and_unpack_lending_market_passes : passes (pack_and_unpack_lending_market rng) = true.
Proof.
  set (m := random_lending_market rng).
  assert (Hmwf : LendingMarket_wf m).
  { split; try drawn; [done|apply length_replicate|apply rand_rate_limiter_wf|].
    cbn. unfold draw_option_key. intros p. destruct (draw_bool rng 4); [done|]. intros [= <-]. drawn. }
  destruct (market_pack_Done m (replicate LENDING_MARKET_LEN 0) Hmwf) as (out & Hp & _ & _ & Hu);
    [by rewrite length_replicate|].
  assert (Hn : normalize m = m).
  { unfold m, normalize, random_lending_market, draw_option_key. cbn.
    destruct (draw_bool rng 4); rewrite !decide_False by apply Hkeys; reflexivity. }
  unfold pack_and_unpack_lending_market. fold m. rewrite Hp, Hu, Hn. by apply assert_eq_pass.
Qed.

(** The reserve test: the two attributed-borrow limits decide. *)
Lemma random_reserve_wf :
  exists r, random_reserve rng = Done r /\ Reserve_wf r
    /\ (draw_u64 rng 9 <> 0 -> draw_u64 rng 10 <> 0 -> Reserve_canonical r)
    /\ attributed_borrow_limit_open (config r) = draw_u64 rng 9
    /\ attributed_borrow_limit_close (config r) = draw_u64 rng 10.
Proof.
  unfold random_reserve.
  assert (Ht : exists t, reserve_type_from_u8 (draw_u8 rng 20 mod 2) = Some t).
  { assert (Hm := Z.mod_pos_bound (draw_u8 rng 20) 2 ltac:(lia)).
    assert (draw_u8 rng 20 mod 2 = 0 \/ draw_u8 rng 20 mod 2 = 1) as [-> | ->] by lia; by eexists. }
  destruct Ht as [t ->]. eexists. split; [reflexivity|]. split_and!; try done.
  - pose proof (rand_rate_limiter_wf 20) as Hlim.
    split; try drawn; try done; split; try drawn; cbn.
    + intros p. destruct (draw_bool rng 0); [|done]. intros [= <-]. drawn.
    + repeat first [apply List.Forall_nil | apply List.Forall_cons; [try drawn1|]].
      pose proof (draw_u8_wf 12). unfold in_u, MAX_PROTOCOL_LIQUIDATION_FEE_DECA_BPS in *. lia.
    + repeat first [apply List.Forall_nil | apply List.Forall_cons; [try drawn1|]].
      pose proof (draw_u64_wf 3). unfold in_u in *. lia.
    + intros p. destruct (draw_bool rng 0); [|done]. intros [= <-]. drawn.
  - intros H9 H10. pose proof (draw_u8_wf 10) as H8. split; cbn; try lia; try done.
    + unfold in_u in H8. lia.
    + destruct (draw_bool rng 0); [|done]. intros [= E]. apply (Hkeys 0%nat). by rewrite E.
Qed.

Lemma Reserve_unpack_limits bs r :
  Reserve_unpack bs = Done (Ok r) ->
  attributed_borrow_limit_open (config r) <> 0 /\ attributed_borrow_limit_close (config r) <> 0.
Proof.
  assert (Hl : forall bytes, limit_or_max bytes <> 0)
    by (intros bytes; unfold limit_or_max; by case_match_goal; [|apply Z.eqb_neq]).
  unfold Reserve_unpack. intros H. repeat (case_match; try discriminate H). injection H as <-.
  cbn. split; apply Hl.
Qed.

(** The test passes exactly when neither limit is drawn as zero. *)
Lemma pack_and_unpack_reserve_passes :
  passes (pack_and_unpack_reserve rng) = true <-> draw_u64 rng 9 <> 0 /\ draw_u64 rng 10 <> 0.
Proof.
  destruct random_reserve_wf as (r & Hr & Hrwf & Hcan & Ho & Hc).
  unfold pack_and_unpack_reserve. rewrite Hr. split.
  - destruct (Reserve_pack r _) as [packed|]; [|done]. destruct (Reserve_unpack packed) as [[u|]|] eqn:Eu; try done.
    cbn [unwrap]. intros <-%passes_assert_eq. rewrite <- Ho, <- Hc. by eapply Reserve_unpack_limits.
  - intros [H9 H10]. destruct (Reserve_pack_unpack r (replicate RESERVE_LEN 0) Hrwf (Hcan H9 H10))
      as (out & Hp & _ & _ & Hu); [by rewrite length_replicate|].
    rewrite Hp, Hu. by apply assert_eq_pass.
Qed.
End draws.
