(* ===== verification/Ingestion.v ===== *)
(** * crates/ingestion: feeds, the owner filter, the ring buffer and the
    pipeline between them.

    [BoundedQueue] is the contract of the lock-free queue the ring buffer
    wraps (crossbeam's [ArrayQueue]): a bounded FIFO. The ring buffer and the
    pipeline are verified against the contract; [ListQueue] implements it.
    [MpscChannel] is, likewise, the contract of tokio's bounded channel, which
    joins the live feed and its background task; [ListChannel] implements it. *)

From Stdlib Require Import ZArith Lia.
From stdpp Require Import base gmap list strings option.
From S2P Require Import Prelude Lists Text CoreTypes.

Open Scope rust_scope.

(** ** ring_buffer.rs *)

Class BoundedQueue (Q A : Type) := {
  q_new : nat -> panicking Q;
  q_push : A -> Q -> option Q;
  q_pop : Q -> option (A * Q);
  q_items : Q -> list A;
  q_capacity : Q -> nat
}.

Class BoundedQueueLaws (Q A : Type) `{BoundedQueue Q A} := {
  q_new_zero : q_new 0 = Panic;
  q_new_pos n : (0 < n)%nat -> exists q, q_new n = Done q /\ q_items q = [] /\ q_capacity q = n;
  q_push_full a q : (q_capacity q <= length (q_items q))%nat -> q_push a q = None;
  q_push_room a q : (length (q_items q) < q_capacity q)%nat ->
    exists q', q_push a q = Some q' /\ q_items q' = q_items q ++ [a] /\ q_capacity q' = q_capacity q;
  q_pop_empty q : q_items q = [] -> q_pop q = None;
  q_pop_head q a l : q_items q = a :: l ->
    exists q', q_pop q = Some (a, q') /\ q_items q' = l /\ q_capacity q' = q_capacity q
}.

Inductive PushError := Full.

Section ring.
Context {Q : Type} `{BoundedQueue Q AccountUpdate}.

Definition with_capacity (capacity : nat) : panicking Q := q_new capacity.
(** [handle] shares the queue: the state is the same. *)
Definition ring_handle (r : Q) : Q := r.
Definition ring_push (update : AccountUpdate) (r : Q) : Q * result unit PushError :=
  match q_push update r with
  | Some r' => (r', Ok tt)
  | None => (r, Err Full)
  end.
Definition ring_pop (r : Q) : Q * option AccountUpdate :=
  match q_pop r with
  | Some (u, r') => (r', Some u)
  | None => (r, None)
  end.
Definition ring_len (r : Q) : nat := length (q_items r).
Definition ring_is_empty (r : Q) : bool := (ring_len r =? 0)%nat.
Definition ring_capacity (r : Q) : nat := q_capacity r.
End ring.

(** ** decode.rs *)

Record RawAccount := mkRawAccount {
  ra_pubkey : Pubkey;
  ra_owner : Pubkey;
  ra_data : list Z;
  ra_slot : Z
}.

Section zero_copy.
(** [bytemuck::try_pod_read_unaligned] at one layout. *)
Context {T : Type} (try_pod_read_unaligned : list Z -> option T).

(** [ZeroCopyAccount::decode] with the layout's [DISCRIMINATOR]. *)
Definition zero_copy_decode (DISCRIMINATOR : option (list Z)) (data : list Z) : option T :=
  match DISCRIMINATOR with
  | Some disc =>
      if (length data <? length disc)%nat || negb (bool_decide (take (length disc) data = disc))
      then None
      else try_pod_read_unaligned (drop (length disc) data)
  | None => try_pod_read_unaligned data
  end.
End zero_copy.

Definition DecoderRegistry : Type := gset Pubkey.
Definition DecoderRegistry_new : DecoderRegistry := ∅.
Definition watch (owner : Pubkey) (r : DecoderRegistry) : DecoderRegistry := {[owner]} ∪ r.
Definition is_watched (r : DecoderRegistry) (owner : Pubkey) : bool := bool_decide (owner ∈ r).

(** ** feed.rs *)

(** [trait AccountSource]. *)
Class AccountSource (S : Type) := { next : S -> S * option RawAccount }.

Record RecordedAccountLine := mkRecordedAccountLine {
  ral_pubkey : string;
  ral_owner : string;
  ral_data_base64 : string;
  ral_slot : Z
}.

Inductive RecordedFeedError :=
| FeedIo (path : string)
| FeedJson (line_no : Z)
| BadPubkey (line_no : Z)
| InvalidBase64.

Section feed.
(** The serde_json, base64 and bs58 crates, and the file system. *)
Context (json_line : string -> option RecordedAccountLine).
Context (base64_standard_decode : string -> option (list Z)).
Context (bs58_decode : string -> option (list Z)).
Context (read_to_string : string -> option string).

Definition base64_decode (s : string) : result (list Z) RecordedFeedError :=
  match s with
  | EmptyString => Ok []
  | _ => ok_or (base64_standard_decode (trim s)) InvalidBase64
  end.

(** The body of the loop for one non-blank line. *)
Definition parse_line (line_no : Z) (line : string) : result RawAccount RecordedFeedError :=
  let? parsed := ok_or (json_line line) (FeedJson line_no) in
  match from_base58 bs58_decode (ral_pubkey parsed) with
  | Err _ => Err (BadPubkey line_no)
  | Ok pubkey =>
      match from_base58 bs58_decode (ral_owner parsed) with
      | Err _ => Err (BadPubkey line_no)
      | Ok owner =>
          let? data := base64_decode (ral_data_base64 parsed) in
          Ok (mkRawAccount pubkey owner data (ral_slot parsed))
      end
  end.

(** A feed is the records not yet handed out. *)
Record RecordedFeed := mkRecordedFeed { rf_records : list RawAccount }.

Definition RecordedFeed_parse (contents : string) : result RecordedFeed RecordedFeedError :=
  let? records := for_lines parse_line 0 (str_lines contents) in
  Ok (mkRecordedFeed records).

Definition RecordedFeed_load (path : string) : result RecordedFeed RecordedFeedError :=
  match read_to_string path with
  | None => Err (FeedIo path)
  | Some contents => RecordedFeed_parse contents
  end.
End feed.

#[global] Instance RecordedFeed_source : AccountSource RecordedFeed := {|
  next f := match rf_records f with
            | [] => (f, None)
            | r :: rs => (mkRecordedFeed rs, Some r)
            end
|}.

(** *** GeyserFeed *)

Inductive GeyserFeedError :=
| InvalidEndpoint (msg : string)
| ConnectionFailed (msg : string).

(** What polling the receiving half of a channel gives. *)
Inductive Recv (A : Type) :=
| Received (a : A)
| Closed
| Pending.
Arguments Received {A}. Arguments Closed {A}. Arguments Pending {A}.

(** [tokio::sync::mpsc]'s bounded channel with its two kinds of handles. *)
Class MpscChannel (C A : Type) := {
  chan_new : Z -> panicking C;
  chan_try_send : A -> C -> option C;
  chan_poll_recv : C -> C * Recv A;
  chan_drop_sender : C -> C;
  chan_is_closed : C -> bool;
  chan_items : C -> list A;
  chan_capacity : C -> Z;
  chan_senders : C -> nat;
  chan_receiver_alive : C -> bool
}.

(** Its documentation: creating one without room panics; a send succeeds when
    there is room and the receiver is alive; receiving takes the oldest value,
    is [None] when the channel is empty and every sender has been dropped, and
    otherwise waits; a sender sees the channel closed when the receiver is
    gone. *)
Class MpscChannelLaws (C A : Type) `{MpscChannel C A} := {
  chan_new_zero : chan_new 0 = Panic;
  chan_new_pos n : 0 < n -> exists c, chan_new n = Done c
    /\ chan_items c = [] /\ chan_capacity c = n /\ chan_senders c = 1%nat /\ chan_receiver_alive c = true;
  chan_send_room a c : chan_receiver_alive c = true -> Z.of_nat (length (chan_items c)) < chan_capacity c ->
    exists c', chan_try_send a c = Some c'
      /\ chan_items c' = chan_items c ++ [a] /\ chan_capacity c' = chan_capacity c
      /\ chan_senders c' = chan_senders c /\ chan_receiver_alive c' = true;
  chan_recv_item a l c : chan_items c = a :: l -> exists c', chan_poll_recv c = (c', Received a)
    /\ chan_items c' = l /\ chan_capacity c' = chan_capacity c
    /\ chan_senders c' = chan_senders c /\ chan_receiver_alive c' = chan_receiver_alive c;
  chan_recv_closed c : chan_items c = [] -> chan_senders c = O -> chan_poll_recv c = (c, Closed);
  chan_recv_pending c : chan_items c = [] -> chan_senders c <> O -> chan_poll_recv c = (c, Pending);
  chan_drop_sender_spec c : chan_items (chan_drop_sender c) = chan_items c
    /\ chan_capacity (chan_drop_sender c) = chan_capacity c
    /\ chan_senders (chan_drop_sender c) = pred (chan_senders c)
    /\ chan_receiver_alive (chan_drop_sender c) = chan_receiver_alive c;
  chan_is_closed_spec c : chan_is_closed c = negb (chan_receiver_alive c)
}.

Definition GEYSER_CHANNEL_CAPACITY : Z := 65536.

Section geyser.
Context {C : Type} `{MpscChannel C RawAccount}.

(** The receiving half of a bounded channel, and the endpoint. *)
Record GeyserFeed := mkGeyserFeed {
  gf_receiver : C;
  gf_endpoint : string
}.

(** The task [connect] spawns, which owns the sending half; [ct_delay] is its
    [reconnect_delay], in milliseconds. *)
Record ConnectTask := mkConnectTask { ct_delay : Z }.

(** The feed whose sending half goes to the caller. *)
Definition GeyserFeed_mock : panicking GeyserFeed :=
  let! channel := chan_new GEYSER_CHANNEL_CAPACITY in
  Done (mkGeyserFeed channel "mock://yellowstone").

(** Returning without having spawned the task drops the sending half. *)
Definition GeyserFeed_connect (runtime_available : bool) (endpoint : string)
    : panicking (result (GeyserFeed * option ConnectTask) GeyserFeedError) :=
  match endpoint with
  | EmptyString => Done (Err (InvalidEndpoint "endpoint URL cannot be empty"))
  | _ =>
      let! channel := chan_new GEYSER_CHANNEL_CAPACITY in
      if str_contains "example.com" endpoint || str_starts_with "mock" endpoint
      then Done (Ok (mkGeyserFeed (chan_drop_sender channel) endpoint, None))
      else if runtime_available
           then Done (Ok (mkGeyserFeed channel endpoint, Some (mkConnectTask 500)))
           else Done (Ok (mkGeyserFeed (chan_drop_sender channel) endpoint, None))
  end.

(** One iteration of the task's loop, from its sleep on; leaving the loop
    drops the sending half. *)
Definition connect_task_turn (task : ConnectTask) (f : GeyserFeed) : GeyserFeed * option ConnectTask :=
  let delay := Z.min (ct_delay task * 2) 5000 in
  if chan_is_closed (gf_receiver f)
  then (mkGeyserFeed (chan_drop_sender (gf_receiver f)) (gf_endpoint f), None)
  else (f, Some (mkConnectTask delay)).

(** Polling [next_account]. *)
Definition next_account (f : GeyserFeed) : GeyserFeed * Recv RawAccount :=
  let '(channel, r) := chan_poll_recv (gf_receiver f) in
  (mkGeyserFeed channel (gf_endpoint f), r).
End geyser.
Arguments GeyserFeed : clear implicits.

(** The delay before the task's attempt [n], in milliseconds. *)
Fixpoint reconnect_delay (n : nat) : Z :=
  match n with O => 500 | S n => Z.min (reconnect_delay n * 2) 5000 end.

(** ** pipeline.rs *)

Record DrainStats := mkDrainStats { forwarded : Z; unwatched : Z; buffer_full : Z }.

Definition to_update (raw : RawAccount) : AccountUpdate :=
  mkAccountUpdate (ra_pubkey raw) (ra_owner raw) (ra_data raw) (ra_slot raw).

Section drain.
Context {S Q : Type} `{AccountSource S} `{BoundedQueue Q AccountUpdate}.

(** [while let Some(raw) = source.next()]; [None] is an exhausted fuel. *)
Fixpoint drain_loop (fuel : nat) (source : S) (registry : DecoderRegistry) (ring : Q)
    (stats : DrainStats) : option (S * Q * DrainStats) :=
  match next source with
  | (source, None) => Some (source, ring, stats)
  | (source, Some raw) =>
      match fuel with
      | O => None
      | Datatypes.S fuel =>
          if negb (is_watched registry (ra_owner raw)) then
            drain_loop fuel source registry ring
              (mkDrainStats (forwarded stats) (unwatched stats + 1) (buffer_full stats))
          else
            match ring_push (to_update raw) ring with
            | (ring, Ok _) =>
                drain_loop fuel source registry ring
                  (mkDrainStats (forwarded stats + 1) (unwatched stats) (buffer_full stats))
            | (ring, Err Full) =>
                drain_loop fuel source registry ring
                  (mkDrainStats (forwarded stats) (unwatched stats) (buffer_full stats + 1))
            end
      end
  end.

Definition drain_into_ring_buffer (fuel : nat) (source : S) (registry : DecoderRegistry) (ring : Q)
    : option (S * Q * DrainStats) :=
  drain_loop fuel source registry ring (mkDrainStats 0 0 0).
End drain.

(* ------------------------------------------------------------------ *)
(** ** The list implementation of the queue contract *)

Record ListQueue (A : Type) := mkListQueue { lq_items : list A; lq_capacity : nat }.
Arguments mkListQueue {A}. Arguments lq_items {A}. Arguments lq_capacity {A}.

#[global] Instance ListQueue_queue {A} : BoundedQueue (ListQueue A) A := {|
  q_new n := if (n =? 0)%nat then Panic else Done (mkListQueue [] n);
  q_push a q := if (length (lq_items q) <? lq_capacity q)%nat
                then Some (mkListQueue (lq_items q ++ [a]) (lq_capacity q)) else None;
  q_pop q := match lq_items q with
             | [] => None
             | a :: l => Some (a, mkListQueue l (lq_capacity q))
             end;
  q_items := lq_items;
  q_capacity := lq_capacity
|}.

#[global] Instance ListQueue_laws {A} : BoundedQueueLaws (ListQueue A) A.
Proof.
  split; cbn -[Nat.ltb]; try done.
  - intros [|n] Hn; [lia|]. by eexists.
  - intros a q Hfull. by destruct (Nat.ltb_spec (length (lq_items q)) (lq_capacity q)); [lia|].
  - intros a q Hroom. destruct (Nat.ltb_spec (length (lq_items q)) (lq_capacity q)); [|lia].
    by eexists.
  - by intros q ->.
  - intros q a l ->. by eexists.
Qed.

(* ------------------------------------------------------------------ *)
(** ** The list implementation of the channel contract *)

Record ListChannel (A : Type) := mkListChannel {
  lc_items : list A;
  lc_capacity : Z;
  lc_senders : nat;
  lc_receiver_alive : bool
}.
Arguments mkListChannel {A}. Arguments lc_items {A}. Arguments lc_capacity {A}.
Arguments lc_senders {A}. Arguments lc_receiver_alive {A}.

#[global] Instance ListChannel_channel {A} : MpscChannel (ListChannel A) A := {|
  chan_new n := if n =? 0 then Panic else Done (mkListChannel [] n 1 true);
  chan_try_send a c :=
    if lc_receiver_alive c && (Z.of_nat (length (lc_items c)) <? lc_capacity c)
    then Some (mkListChannel (lc_items c ++ [a]) (lc_capacity c) (lc_senders c) true) else None;
  chan_poll_recv c :=
    match lc_items c with
    | a :: l => (mkListChannel l (lc_capacity c) (lc_senders c) (lc_receiver_alive c), Received a)
    | [] => (c, if (lc_senders c =? 0)%nat then Closed else Pending)
    end;
  chan_drop_sender c :=
    mkListChannel (lc_items c) (lc_capacity c) (pred (lc_senders c)) (lc_receiver_alive c);
  chan_is_closed c := negb (lc_receiver_alive c);
  chan_items := lc_items;
  chan_capacity := lc_capacity;
  chan_senders := lc_senders;
  chan_receiver_alive := lc_receiver_alive
|}.

#[global] Instance ListChannel_laws {A} : MpscChannelLaws (ListChannel A) A.
Proof.
  split; cbn -[Z.ltb Z.eqb Nat.eqb]; try done.
  - intros n Hn. destruct (Z.eqb_spec n 0); [lia|]. by eexists.
  - intros a c -> Hroom. rewrite (proj2 (Z.ltb_lt _ _) Hroom). by eexists.
  - intros a l c ->. by eexists.
  - by intros c -> ->.
  - intros c -> Hs. by destruct (Nat.eqb_spec (lc_senders c) 0).
Qed.

(* ------------------------------------------------------------------ *)
(** ** Ring buffer: any interleaving of producers and the consumer *)

Inductive RingOp := OpPush (u : AccountUpdate) | OpPop.

Section ring_properties.
Context {Q : Type} `{BoundedQueueLaws Q AccountUpdate}.

(** State, accepted pushes and popped updates, in order. *)
Definition ring_step (st : Q * list AccountUpdate * list AccountUpdate) (op : RingOp) :=
  let '(r, accepted, popped) := st in
  match op with
  | OpPush u =>
      match ring_push u r with
      | (r, Ok _) => (r, accepted ++ [u], popped)
      | (r, Err _) => (r, accepted, popped)
      end
  | OpPop =>
      match ring_pop r with
      | (r, Some u) => (r, accepted, popped ++ [u])
      | (r, None) => (r, accepted, popped)
      end
  end.

Lemma ring_push_spec u r :
  exists r' res, ring_push u r = (r', res) /\ q_capacity r' = q_capacity r
  /\ ((res = Ok tt /\ (length (q_items r) < q_capacity r)%nat /\ q_items r' = q_items r ++ [u])
      \/ (res = Err Full /\ (q_capacity r <= length (q_items r))%nat /\ q_items r' = q_items r)).
Proof.
  unfold ring_push. destruct (Nat.lt_ge_cases (length (q_items r)) (q_capacity r)) as [Hlt|Hge].
  - destruct (q_push_room u r Hlt) as (r' & -> & Hi & Hc). exists r', (Ok tt).
    split_and!; [done|done|]. by left.
  - rewrite (q_push_full u r Hge). exists r, (Err Full). split_and!; [done|done|]. by right.
Qed.

Lemma ring_pop_spec r :
  exists r' res, ring_pop r = (r', res) /\ q_capacity r' = q_capacity r
  /\ match res with Some u => q_items r = u :: q_items r' | None => q_items r = [] /\ r' = r end.
Proof.
  unfold ring_pop. destruct (q_items r) as [|u l] eqn:E.
  - rewrite (q_pop_empty r E). by exists r, None.
  - destruct (q_pop_head r u l E) as (r' & -> & Hi & Hc). exists r', (Some u). by rewrite Hi.
Qed.

(** Under any interleaving of pushes and pops the updates popped so far
    followed by the ones in the buffer are the accepted pushes in order, the
    buffer never exceeds its capacity, and a zero capacity is refused with
    a panic. *)
Theorem ring_fifo n ops r0 :
  with_capacity n = Done r0 ->
  let '(r, accepted, popped) := foldl ring_step (r0, [], []) ops in
  popped ++ q_items r = accepted /\ (ring_len r <= n)%nat /\ ring_capacity r = n /\ (0 < n)%nat.
Proof.
  unfold with_capacity. intros Hnew. destruct n as [|n]; [by rewrite q_new_zero in Hnew|].
  destruct (q_new_pos (S n) ltac:(lia)) as (q & Hq & Hi & Hc). rewrite Hq in Hnew.
  injection Hnew as <-.
  induction ops as [|op ops IH] using rev_ind.
  { cbn. unfold ring_len, ring_capacity. rewrite Hi. cbn. split_and!; try done; lia. }
  rewrite foldl_app. cbn [foldl]. destruct (foldl ring_step (q, [], []) ops) as [[r acc] pop].
  destruct IH as (IH1 & IH2 & IH3 & _). unfold ring_len, ring_capacity in *.
  destruct op as [u|]; cbn [ring_step].
  - destruct (ring_push_spec u r) as (r' & res & -> & Hcap & [(-> & Hlt & Hit)|(-> & Hge & Hit)]).
    + rewrite Hit, Hcap, length_app. cbn. split_and!; try lia. by rewrite <- IH1, app_assoc.
    + rewrite Hit, Hcap. split_and!; try done; lia.
  - destruct (ring_pop_spec r) as (r' & res & -> & Hcap & Hres). destruct res as [u|].
    + rewrite Hcap, Hres in *. cbn in *. split_and!; try lia. by rewrite <- IH1, <- app_assoc.
    + destruct Hres as [_ ->]. split_and!; try done; lia.
Qed.
End ring_properties.

(* ------------------------------------------------------------------ *)
(** ** Draining a source *)

(** A source that hands out exactly [l] and then reports exhaustion. *)
Fixpoint yields {S} `{AccountSource S} (source : S) (l : list RawAccount) : Prop :=
  match l with
  | [] => (next source).2 = None
  | raw :: l => (next source).2 = Some raw /\ yields (next source).1 l
  end.

Lemma RecordedFeed_yields rs : yields (mkRecordedFeed rs) rs.
Proof. induction rs as [|r rs IH]; cbn; [done|]. by split. Qed.

Section drain_properties.
Context {S Q : Type} `{AccountSource S} `{BoundedQueueLaws Q AccountUpdate}.

Definition watched_updates (registry : DecoderRegistry) (l : list RawAccount) : list AccountUpdate :=
  to_update <$> filter (fun raw => is_watched registry (ra_owner raw) = true) l.
Definition room (ring : Q) : nat := q_capacity ring - length (q_items ring).

Lemma drain_loop_spec fuel source registry ring stats l :
  yields source l -> (length l <= fuel)%nat -> (length (q_items ring) <= q_capacity ring)%nat ->
  let w := watched_updates registry l in
  let k := Nat.min (room ring) (length w) in
  exists source' ring',
    drain_loop fuel source registry ring stats
    = Some (source', ring', mkDrainStats (forwarded stats + Z.of_nat k)
        (unwatched stats + (Z.of_nat (length l) - Z.of_nat (length w)))
        (buffer_full stats + (Z.of_nat (length w) - Z.of_nat k)))
    /\ q_items ring' = q_items ring ++ take k w /\ q_capacity ring' = q_capacity ring.
Proof.
  revert fuel source ring stats. induction l as [|raw l IH]; intros fuel source ring stats Hy Hf Hcap.
  { cbn in *. exists (next source).1, ring. rewrite Nat.min_0_r, !Z.add_0_r, take_0, app_nil_r.
    split_and!; try done. destruct fuel; cbn; destruct (next source) as [s [|]]; cbn in *;
      try done; by destruct stats. }
  destruct Hy as [Hn Hy]. destruct fuel as [|fuel]; cbn in Hf; [lia|]. cbn [drain_loop].
  destruct (next source) as [source' o]. cbn in Hn, Hy. subst o.
  unfold watched_updates. cbn zeta.
  destruct (is_watched registry (ra_owner raw)) eqn:Ew; cbn [negb].
  2: { rewrite filter_cons_False by congruence. destruct (IH fuel source' ring (mkDrainStats (forwarded stats) (unwatched stats + 1)
         (buffer_full stats)) Hy ltac:(lia) Hcap) as (s & r & Hrun & Hit & Hc).
       fold (watched_updates registry l). exists s, r. split_and!; [|done|done].
       rewrite Hrun. cbn [forwarded unwatched buffer_full length]. do 2 f_equal. f_equal; lia. }
  rewrite filter_cons_True by done. cbn [fmap list_fmap].
  fold (watched_updates registry l).
  destruct (ring_push_spec (to_update raw) ring)
    as (r1 & res & -> & Hc1 & [(-> & Hlt & Hit1)|(-> & Hge & Hit1)]).
  - destruct (IH fuel source' r1 (mkDrainStats (forwarded stats + 1) (unwatched stats)
      (buffer_full stats)) Hy ltac:(lia) ltac:(rewrite Hit1, Hc1, length_app; cbn; lia))
      as (s & r & Hrun & Hit & Hc).
    exists s, r. unfold room in *. rewrite Hc1, Hit1, length_app in *. cbn [length] in *.
    set (n := length (watched_updates registry l)) in *.
    replace (Nat.min (q_capacity ring - length (q_items ring)) (Datatypes.S n))
      with (Datatypes.S (Nat.min (q_capacity ring - (length (q_items ring) + 1)) n)) by lia.
    rewrite Hrun. cbn [take forwarded unwatched buffer_full]. split_and!.
    + do 2 f_equal. f_equal; lia.
    + rewrite Hit, <- app_assoc. done.
    + by rewrite Hc.
  - destruct (IH fuel source' r1 (mkDrainStats (forwarded stats) (unwatched stats)
      (buffer_full stats + 1)) Hy ltac:(lia) ltac:(rewrite Hit1, Hc1; lia))
      as (s & r & Hrun & Hit & Hc).
    exists s, r. unfold room in *. rewrite Hc1, Hit1 in *.
    replace (q_capacity ring - length (q_items ring))%nat with O in * by lia. cbn [Nat.min take] in *.
    rewrite Hrun. cbn [forwarded unwatched buffer_full length]. split_and!; [|done|done].
    do 2 f_equal. f_equal; lia.
Qed.

(** C35: draining a source that hands out [l] terminates; every record is
    counted once as forwarded, unwatched or dropped; the ring gains, in
    order, the first watched records up to its free room and keeps what it
    held; records are dropped only once the ring is full. *)
Theorem drain_conserves source registry ring l :
  yields source l -> (length (q_items ring) <= q_capacity ring)%nat ->
  let w := watched_updates registry l in
  exists source' ring' stats,
    drain_into_ring_buffer (length l) source registry ring = Some (source', ring', stats)
    /\ forwarded stats + unwatched stats + buffer_full stats = Z.of_nat (length l)
    /\ q_items ring' = q_items ring ++ take (Z.to_nat (forwarded stats)) w
    /\ forwarded stats = Z.min (Z.of_nat (room ring)) (Z.of_nat (length w))
    /\ buffer_full stats = Z.of_nat (length w) - forwarded stats
    /\ (0 < buffer_full stats -> length (q_items ring') = q_capacity ring').
Proof.
  intros Hy Hcap w.
  destruct (drain_loop_spec (length l) source registry ring (mkDrainStats 0 0 0) l Hy ltac:(lia) Hcap)
    as (s & r & Hrun & Hit & Hc). fold w in Hrun, Hit.
  eexists s, r, _. split; [exact Hrun|]. cbn [forwarded unwatched buffer_full].
  assert (Hw : (length w <= length l)%nat).
  { unfold w, watched_updates. rewrite length_fmap. apply length_filter. }
  split_and!; try lia.
  - rewrite Hit. f_equal. f_equal. lia.
  - intros Hb. rewrite Hit, Hc, length_app, length_take. unfold room in *. lia.
Qed.
End drain_properties.

(* ------------------------------------------------------------------ *)
(** ** Recorded feeds *)

Section parse.
Context (json_line : string -> option RecordedAccountLine).
Context (base64_standard_decode bs58_decode : string -> option (list Z)).
Let parse1 (p : Z * string) := parse_line json_line base64_standard_decode bs58_decode p.1 p.2.
Let parse := RecordedFeed_parse json_line base64_standard_decode bs58_decode.

(** A recorded feed loads exactly when every non-blank line decodes, and
    then hands out one record per non-blank line, in order; otherwise it
    reports the error of the first line that does not decode. *)
Theorem parse_spec contents :
  match parse contents with
  | Ok feed => exists rs, Forall2 (fun p r => parse1 p = Ok r) (numbered 0 (str_lines contents)) rs
      /\ yields feed rs
  | Err e => exists before p after rs, numbered 0 (str_lines contents) = before ++ p :: after
      /\ Forall2 (fun p r => parse1 p = Ok r) before rs /\ parse1 p = Err e
  end.
Proof.
  unfold parse, RecordedFeed_parse.
  pose proof (for_lines_spec (parse_line json_line base64_standard_decode bs58_decode) 0 (str_lines contents)) as Hp.
  destruct (for_lines _ 0 (str_lines contents)) as [rs|e]; [|done].
  exists rs. split; [done|]. apply RecordedFeed_yields.
Qed.
End parse.

(** The reconnect delay doubles from half a second up to five seconds. *)
Lemma reconnect_delay_spec n : reconnect_delay n = Z.min (500 * 2 ^ Z.of_nat n) 5000.
Proof.
  induction n as [|n IH]; [done|]. cbn [reconnect_delay].
  rewrite IH, Nat2Z.inj_succ, Z.pow_succ_r by apply Zle_0_nat.
  assert (Hp : 0 < 2 ^ Z.of_nat n) by (apply Z.pow_pos_nonneg; lia).
  set (p := 2 ^ Z.of_nat n) in *. clearbody p. lia.
Qed.

(** ** The live feed *)

Section geyser_properties.
Context {C : Type} `{MpscChannelLaws C RawAccount}.

(** Nobody is left to send, or the task holds the only sending half. *)
Definition abandoned (f : GeyserFeed C) : Prop :=
  chan_items (gf_receiver f) = [] /\ chan_senders (gf_receiver f) = O.
Definition held_open (f : GeyserFeed C) : Prop :=
  chan_items (gf_receiver f) = [] /\ chan_senders (gf_receiver f) = 1%nat
  /\ chan_receiver_alive (gf_receiver f) = true.

Lemma abandoned_next f : abandoned f -> next_account f = (f, Closed).
Proof. intros [Hi Hs]. unfold next_account. rewrite chan_recv_closed by done. by destruct f. Qed.
Lemma held_open_next f : held_open f -> next_account f = (f, Pending).
Proof. intros (Hi & Hs & _). unfold next_account. rewrite chan_recv_pending by congruence. by destruct f. Qed.
(** The task never leaves its loop while the feed's owner keeps the feed. *)
Lemma held_open_turn task f :
  held_open f -> connect_task_turn task f = (f, Some (mkConnectTask (Z.min (ct_delay task * 2) 5000))).
Proof. intros (_ & _ & Ha). unfold connect_task_turn. by rewrite chan_is_closed_spec, Ha. Qed.

(** Connecting never panics. An empty endpoint is refused; a mock or example
    endpoint, or any without a runtime, leaves a channel nobody can send on;
    on any other a task holds the sending half. *)
Theorem connect_spec runtime endpoint :
  exists res, GeyserFeed_connect (C := C) runtime endpoint = Done res
  /\ match res with
     | Err e => endpoint = EmptyString /\ e = InvalidEndpoint "endpoint URL cannot be empty"
     | Ok (f, task) =>
         endpoint <> EmptyString /\ gf_endpoint f = endpoint
         /\ if runtime && negb (str_contains "example.com" endpoint || str_starts_with "mock" endpoint)
            then held_open f /\ task = Some (mkConnectTask (reconnect_delay 0))
            else abandoned f /\ task = None
     end.
Proof.
  unfold GeyserFeed_connect. destruct endpoint as [|c s]; [by eexists|].
  destruct (chan_new_pos GEYSER_CHANNEL_CAPACITY) as (ch & -> & Hi & _ & Hs & Ha); [done|].
  assert (Hdrop : abandoned (mkGeyserFeed (chan_drop_sender ch) (String c s))).
  { destruct (chan_drop_sender_spec ch) as (Hi' & _ & Hs' & _). split; cbn; [congruence|]. by rewrite Hs', Hs. }
  cbn. destruct (orb _ _); [|destruct runtime]; cbn; eexists; (split; [done|]); cbn;
    rewrite ?andb_false_r; by split_and!.
Qed.
End geyser_properties.

(* ------------------------------------------------------------------ *)
(** ** Witnesses *)

Definition nkey (b : Z) : Pubkey := mkPubkey (replicate 32 b).
Definition sample_raw (owner slot : Z) : RawAccount := mkRawAccount (nkey 1) (nkey owner) [1; 2; 3] slot.
Definition sample_raws : list RawAccount :=
  [sample_raw 9 1; sample_raw 8 2; sample_raw 9 3; sample_raw 9 4].

Lemma ring_fifo_witness :
  match @with_capacity (ListQueue AccountUpdate) _ 1 with
  | Done r0 =>
      let '(r, accepted, popped) :=
        foldl ring_step (r0, [], []) [OpPush (to_update (sample_raw 9 1)); OpPush (to_update (sample_raw 9 2));
                                      OpPop; OpPop] in
      popped ++ q_items r = accepted /\ (ring_len r <= 1)%nat /\ ring_capacity r = 1%nat /\ (0 < 1)%nat
  | Panic => False
  end.
Proof.
  destruct (@with_capacity (ListQueue AccountUpdate) _ 1) as [r0|] eqn:E;
    [|vm_compute in E; discriminate E].
  exact (ring_fifo 1 _ r0 E).
Defined.

Lemma drain_conserves_witness :
  exists source' (ring' : ListQueue AccountUpdate) stats,
    drain_into_ring_buffer 4 (mkRecordedFeed sample_raws) (watch (nkey 9) DecoderRegistry_new)
      (mkListQueue [] 2) = Some (source', ring', stats)
    /\ forwarded stats + unwatched stats + buffer_full stats = 4.
Proof.
  destruct (@drain_conserves RecordedFeed (ListQueue AccountUpdate) RecordedFeed_source
              ListQueue_queue ListQueue_laws (mkRecordedFeed sample_raws)
              (watch (nkey 9) DecoderRegistry_new) (mkListQueue [] 2) sample_raws
              (RecordedFeed_yields sample_raws) (Nat.le_0_l 2))
    as (s & r & st & Hrun & Hsum & _).
  exists s, r, st. split; [exact Hrun|exact Hsum].
Defined.
