(* ===== verification/Treasury.v ===== *)
(** * crates/treasury: the realized-PnL ledger and the sweep schedule. *)

From Stdlib Require Import ZArith Lia Sorted.
From stdpp Require Import base list strings option.
From S2P Require Import Prelude Lists F64 Text.

Open Scope rust_scope.

(** ** pnl_ledger.rs *)

Record Entry := mkEntry { en_slot : Z; en_net_usd : f64 }.
#[global] Instance Entry_eq_dec : EqDecision Entry.
Proof. solve_decision. Defined.

(** The [VecDeque], front first. *)
Record PnlLedger := mkPnlLedger { entries : list Entry }.

Definition PnlLedger_new : PnlLedger := mkPnlLedger [].

Definition pnl_record (slot : Z) (net_usd : f64) (l : PnlLedger) : PnlLedger :=
  mkPnlLedger (entries l ++ [mkEntry slot net_usd]).

Definition in_window (cutoff current_slot : Z) (e : Entry) : bool :=
  (cutoff <=? en_slot e) && (en_slot e <=? current_slot).

Definition windowed_sum (l : PnlLedger) (current_slot window_slots : Z) : f64 :=
  let cutoff := sat_sub current_slot window_slots in
  f64_sum (en_net_usd <$> filter (fun e => in_window cutoff current_slot e = true) (entries l)).

(** The [while let Some(front)] loop. *)
Fixpoint prune_loop (cutoff : Z) (es : list Entry) : list Entry :=
  match es with
  | [] => []
  | front :: rest => if en_slot front <? cutoff then prune_loop cutoff rest else es
  end.
Definition prune_older_than (current_slot window_slots : Z) (l : PnlLedger) : PnlLedger :=
  let cutoff := sat_sub current_slot window_slots in
  mkPnlLedger (prune_loop cutoff (entries l)).

Definition pnl_len (l : PnlLedger) : Z := Z.of_nat (length (entries l)).
Definition pnl_is_empty (l : PnlLedger) : bool := match entries l with [] => true | _ => false end.

Definition drawdown_breached (windowed_sum_usd max_drawdown_usd : f64) : bool :=
  (windowed_sum_usd <=? f64_neg (f64_abs max_drawdown_usd))%f64.

(** Snapshot and restore: serde_json is a parameter, and what the system
    answers to the write an argument. *)
Section persistence.
Context (to_json : list Entry -> option string) (from_json : string -> option (list Entry)).

Inductive IoError := InvalidData | OtherIo.

Definition pnl_snapshot (o : WriteOutcome) (file : option string) (l : PnlLedger)
    : option string * result unit IoError :=
  match to_json (entries l) with
  | None => (file, Err InvalidData)
  | Some json =>
      let '(file, written) := fs_write o json file in
      (file, if written then Ok tt else Err OtherIo)
  end.
Definition pnl_restore (file : option string) : result PnlLedger IoError :=
  match file with
  | None => Err OtherIo
  | Some json => match from_json json with Some es => Ok (mkPnlLedger es) | None => Err InvalidData end
  end.
End persistence.

(** ** sweep.rs *)

Definition is_below_minimum_balance (current_balance_sol min_balance_sol : f64) : bool :=
  (current_balance_sol <? min_balance_sol)%f64.

Inductive SweepIntervalError :=
| SweepEmpty
| SweepMalformed (interval : string)
| SweepUnknownUnit (unit : string).

Definition unit_seconds (unit : Ascii.ascii) : option Z :=
  match Ascii.nat_of_ascii unit with
  | 115%nat => Some 1
  | 109%nat => Some 60
  | 104%nat => Some 3600
  | 100%nat => Some 86400
  | _ => None
  end.

(** [split_at(len - 1)] panics inside a character; the multiplications by the
    unit wrap in the release build. *)
Definition parse_sweep_interval_slots (interval : string) (avg_slot_ms : Z)
    : panicking (result Z SweepIntervalError) :=
  match split_last interval with
  | None => Done (Err SweepEmpty)
  | Some (num_str, unit) =>
      if is_continuation unit then Panic
      else
        match parse_u64 num_str with
        | None => Done (Err (SweepMalformed interval))
        | Some value =>
            match unit_seconds unit with
            | None => Done (Err (SweepUnknownUnit (String unit EmptyString)))
            | Some mult =>
                let seconds := wmul 64 value mult in
                let ms := sat_mul 64 seconds 1000 in
                Done (Ok (ms / Z.max avg_slot_ms 1))
            end
        end
  end.

Definition sweep_due (current_slot last_swept_slot interval_slots : Z) : bool :=
  interval_slots <=? sat_sub current_slot last_swept_slot.

(* ------------------------------------------------------------------ *)
(** ** Properties *)

Lemma prune_loop_split cutoff es :
  exists pruned, es = pruned ++ prune_loop cutoff es /\ Forall (fun e => en_slot e < cutoff) pruned
  /\ match prune_loop cutoff es with [] => True | e :: _ => cutoff <= en_slot e end.
Proof.
  induction es as [|e es IH]; cbn [prune_loop]; [by exists []|].
  destruct (Z.ltb_spec (en_slot e) cutoff).
  - destruct IH as (p & Hp & Hall & Hh). exists (e :: p). rewrite <- app_comm_cons, <- Hp.
    split_and!; [done|by constructor|done].
  - exists []. split_and!; [done|constructor|done].
Qed.

Lemma prune_loop_sorted cutoff es :
  StronglySorted (fun a b => en_slot a <= en_slot b) es ->
  prune_loop cutoff es = filter (fun e => cutoff <= en_slot e) es.
Proof.
  induction 1 as [|e es Hs IH Hall]; cbn [prune_loop]; [done|].
  destruct (Z.ltb_spec (en_slot e) cutoff).
  - rewrite filter_cons_False by lia. done.
  - symmetry. clear IH. rewrite filter_cons_True by lia. f_equal.
    induction Hall as [|x es Hx Hall IHa]; [done|]. inversion_clear Hs.
    rewrite filter_cons_True by lia. f_equal. auto.
Qed.

(** Pruning never changes a windowed sum taken later or over a shorter
    window; it removes only entries older than the cutoff, keeps the rest in
    order, and on a ledger recorded in slot order keeps exactly the entries
    from the cutoff on. *)
Theorem prune_preserves_window l c w c' w' :
  sat_sub c w <= sat_sub c' w' ->
  windowed_sum (prune_older_than c w l) c' w' = windowed_sum l c' w'
  /\ (exists pruned, entries l = pruned ++ entries (prune_older_than c w l)
      /\ Forall (fun e => en_slot e < sat_sub c w) pruned)
  /\ (StronglySorted (fun a b => en_slot a <= en_slot b) (entries l) ->
      entries (prune_older_than c w l) = filter (fun e => sat_sub c w <= en_slot e) (entries l)).
Proof.
  intros Hcut. unfold windowed_sum, prune_older_than. cbn [entries].
  destruct (prune_loop_split (sat_sub c w) (entries l)) as (pruned & Heq & Hall & _).
  split_and!; [|by exists pruned|by apply prune_loop_sorted].
  rewrite Heq at 2. rewrite list.filter_app, (filter_none _ pruned); [done|].
  intros e He. rewrite list.Forall_forall in Hall. specialize (Hall e He).
  unfold in_window. destruct (Z.leb_spec (sat_sub c' w') (en_slot e)); [lia|done].
Qed.

Lemma prune_preserves_window_witness :
  let l := mkPnlLedger [mkEntry 5 f64_one; mkEntry 30 f64_one; mkEntry 10 f64_one] in
  windowed_sum (prune_older_than 40 20 l) 45 10 = windowed_sum l 45 10.
Proof.
  cbv zeta. apply (prune_preserves_window
    (mkPnlLedger [mkEntry 5 f64_one; mkEntry 30 f64_one; mkEntry 10 f64_one]) 40 20 45 10).
  vm_compute. congruence.
Defined.

(** A ledger whose entries the serializer reads back as they are survives a
    restart: a snapshot that reports success restores
    to the same entries; a failed one leaves the previous file, unless the
    write failed midway, when the previous snapshot is already truncated. *)
Theorem pnl_snapshot_roundtrip to_json from_json file o l :
  (forall j, to_json (entries l) = Some j -> from_json j = Some (entries l)) ->
  match pnl_snapshot to_json o file l with
  | (file', Ok _) => o = Written /\ pnl_restore from_json file' = Ok l
  | (file', Err _) =>
      file' = file
      \/ exists n json, o = Torn n /\ to_json (entries l) = Some json
         /\ file' = Some (String.substring 0 n json)
  end.
Proof.
  intros Hrt. unfold pnl_snapshot. destruct (to_json (entries l)) as [j|] eqn:E; [|by left].
  destruct o as [| |n]; cbn; [|by left|right; by exists n, j]. split; [done|]. rewrite (Hrt _ eq_refl). by destruct l.
Qed.

(** A codec that knows one ledger. *)
Definition sample_entries : list Entry := [mkEntry 5 f64_one; mkEntry 7 f64_zero].
Definition toy_entries_to_json (es : list Entry) : option string :=
  if decide (es = sample_entries) then Some "[5,7]" else None.
Definition toy_entries_from_json (s : string) : option (list Entry) :=
  if decide (s = "[5,7]") then Some sample_entries else None.

Lemma pnl_snapshot_roundtrip_witness :
  pnl_restore toy_entries_from_json
    (pnl_snapshot toy_entries_to_json Written None (mkPnlLedger sample_entries)).1
  = Ok (mkPnlLedger sample_entries).
Proof.
  refine (proj2 (pnl_snapshot_roundtrip toy_entries_to_json toy_entries_from_json None Written
                   (mkPnlLedger sample_entries) _)).
  intros j Hj. vm_compute in Hj. injection Hj as <-. vm_compute. reflexivity.
Defined.

(** An interval of [num] and a unit whose milliseconds fit 64 bits parses to
    that many milliseconds in slots, rounded down, with a zero slot time read
    as one; parsing panics exactly when the text ends inside a multi-byte
    character, and accepts only numbers followed by s, m, h or d. *)
Theorem sweep_interval_spec num unit avg_slot_ms :
  let interval := (num +:+ String unit EmptyString) in
  (parse_sweep_interval_slots interval avg_slot_ms = Panic <-> is_continuation unit = true)
  /\ (is_continuation unit = false ->
      forall value mult, parse_u64 num = Some value -> unit_seconds unit = Some mult ->
      value * mult * 1000 < 2 ^ 64 ->
      parse_sweep_interval_slots interval avg_slot_ms
      = Done (Ok (value * mult * 1000 / Z.max avg_slot_ms 1)))
  /\ (forall slots, parse_sweep_interval_slots interval avg_slot_ms = Done (Ok slots) ->
      is_Some (parse_u64 num) /\ is_Some (unit_seconds unit)).
Proof.
  cbv zeta. unfold parse_sweep_interval_slots. rewrite split_last_app.
  destruct (is_continuation unit).
  { split_and!; [done|done|done]. }
  split_and!.
  - split; [|done]. destruct (parse_u64 num); [|done]. by destruct (unit_seconds unit).
  - intros _ value mult Hv Hm Hfit. rewrite Hv, Hm. apply parse_u64_range in Hv as [Hv0 _].
    assert (Hmult : 0 <= mult).
    { unfold unit_seconds in Hm. repeat (case_match_in Hm; try discriminate Hm).
      all: injection Hm as <-; lia. }
    unfold wmul. rewrite wrap_small by (unfold in_u; nia).
    unfold sat_mul. rewrite Z.min_r by lia. done.
  - intros slots. destruct (parse_u64 num); [|done]. by destruct (unit_seconds unit).
Qed.

(** The release build wraps a large interval. *)
Example sweep_interval_wraps :
  parse_sweep_interval_slots "5124095576030432h" 400 = Done (Ok 8960).
Proof. vm_compute. reflexivity. Qed.
