(* ===== verification/Store.v ===== *)
(** * crates/store: the position book and the append-only liquidation log.

    Serialization (serde_json, [Debug] and float formatting) is a parameter.
    A file is its text, [None] when absent; what the system answers to a write
    is an argument, so every theorem covers every pattern of I/O failures.

    serde_json prints a number that is not finite as [null] and, without its
    [float_roundtrip] feature, which the workspace does not enable, parses
    floats only approximately. [json_lines] is that contract: a finite record
    reads back up to its floats, a record with a NaN or an infinity does not
    read back at all. *)

From Stdlib Require Import ZArith Lia.
From stdpp Require Import base gmap list strings option.
From S2P Require Import Prelude Lists F64 Text CoreTypes.

Open Scope rust_scope.

Inductive StoreError :=
| StoreIo (path : string)
| StoreSerde
| CapacityExceeded (details : string).

(** ** position_book.rs *)

Record PositionRecord := mkPositionRecord {
  pr_protocol : Protocol;
  pr_position_id : Pubkey;
  pr_collateral_mint : Pubkey;
  pr_debt_mint : Pubkey;
  pr_health_factor : f64;
  pr_last_updated_slot : Z
}.

Abbreviation PositionBook := (gmap Pubkey PositionRecord).
Definition PositionBook_new : PositionBook := ∅.
Definition upsert (record : PositionRecord) (b : PositionBook) : PositionBook :=
  <[pr_position_id record := record]> b.
Definition book_get (b : PositionBook) (position_id : Pubkey) : option PositionRecord := b !! position_id.
Definition book_remove (position_id : Pubkey) (b : PositionBook) : PositionBook * option PositionRecord :=
  (delete position_id b, b !! position_id).
Definition book_len (b : PositionBook) : Z := Z.of_nat (size b).

Section book_persistence.
Context (to_json : list PositionRecord -> option string).
Context (from_json : string -> option (list PositionRecord)).
(** [HashMap::values], in an unspecified order. *)
Context (values : PositionBook -> list PositionRecord).

Definition book_snapshot (path : string) (o : WriteOutcome) (file : option string) (b : PositionBook)
    : option string * result unit StoreError :=
  match to_json (values b) with
  | None => (file, Err StoreSerde)
  | Some json =>
      let '(file, written) := fs_write o json file in
      (file, if written then Ok tt else Err (StoreIo path))
  end.

Definition book_restore (path : string) (file : option string) : result PositionBook StoreError :=
  match file with
  | None => Err (StoreIo path)
  | Some json =>
      match from_json json with
      | None => Err StoreSerde
      | Some records => Ok (foldl (fun b r => upsert r b) PositionBook_new records)
      end
  end.

(** Entries are filed under their own id. *)
Definition book_wf (b : PositionBook) : Prop := map_Forall (fun k r => pr_position_id r = k) b.

Lemma book_wf_upsert r b : book_wf b -> book_wf (upsert r b).
Proof. intros Hb. by apply map_Forall_insert_2. Qed.

Lemma upsert_all_lookup rs b k r :
  book_wf b -> NoDup (pr_position_id <$> rs) ->
  (forall x, x ∈ rs -> b !! pr_position_id x = None) ->
  foldl (fun b r => upsert r b) b rs !! k = Some r <->
  (r ∈ rs /\ pr_position_id r = k) \/ b !! k = Some r.
Proof.
  revert b. induction rs as [|x rs IH]; intros b Hb Hnd Hfresh; cbn [foldl].
  - split; [by right|]. intros [[Hin _]|?]; [set_solver|done].
  - cbn in Hnd. inversion_clear Hnd as [|? ? Hx Hnd']. rewrite IH; [|by apply book_wf_upsert|done|].
    + unfold upsert. split.
      * intros [[Hin Hk]|Hl]; [left; split; [set_solver|done]|].
        apply lookup_insert_Some in Hl as [[<- <-]|[_ Hl]]; [left; split; [set_solver|done]|by right].
      * intros [[[->|Hin]%elem_of_cons Hk]|Hl].
        -- right. rewrite <- Hk. apply lookup_insert_eq.
        -- left. by split.
        -- right. rewrite lookup_insert_ne; [done|]. intros <-.
           rewrite (Hfresh x) in Hl by set_solver. done.
    + intros y Hy. unfold upsert. rewrite lookup_insert_ne; [apply Hfresh; set_solver|].
      intros Heq. apply Hx. rewrite Heq. apply list_elem_of_fmap_2. done.
Qed.

(** A book built by [upsert] and [remove], whose records the serializer reads
    back as they are, survives a restart: what a successful snapshot wrote
    restores to the same book, whatever order the map was iterated in. A failed snapshot leaves the old file unless the
    write itself fails midway: the old snapshot is then already truncated. *)
Theorem book_roundtrip path o file b :
  (forall m, values m ≡ₚ (map_to_list m).*2) ->
  (forall j, to_json (values b) = Some j -> from_json j = Some (values b)) ->
  book_wf b ->
  match book_snapshot path o file b with
  | (file', Ok _) => o = Written /\ book_restore path file' = Ok b
  | (file', Err _) =>
      file' = file
      \/ exists n json, o = Torn n /\ to_json (values b) = Some json
         /\ file' = Some (String.substring 0 n json)
  end.
Proof.
  intros Hval Hrt Hwf. unfold book_snapshot.
  destruct (to_json (values b)) as [j|] eqn:E; [|by left].
  destruct o as [| |n]; cbn; [|by left|right; by exists n, j].
  split; [done|]. cbn [book_restore]. rewrite (Hrt _ eq_refl). f_equal.
  assert (Hin : forall r, r ∈ values b <-> b !! pr_position_id r = Some r).
  { intros r. rewrite Hval, list_elem_of_fmap. split.
    - intros ([k r'] & -> & Hl%elem_of_map_to_list). cbn. by rewrite (Hwf k r' Hl).
    - intros Hl. exists (pr_position_id r, r). split; [done|]. by apply elem_of_map_to_list. }
  assert (Hids : pr_position_id <$> (map_to_list b).*2 = (map_to_list b).*1).
  { rewrite <- list_fmap_compose. apply list_fmap_ext. intros i [k r] Hl.
    apply list_elem_of_lookup_2, elem_of_map_to_list in Hl. cbn. by apply (Hwf k r). }
  apply map_eq. intros k. apply option_eq. intros r.
  rewrite upsert_all_lookup.
  - rewrite Hin. unfold PositionBook_new. rewrite lookup_empty. split.
    + by intros [[? <-]|?].
    + intros Hl. left. by rewrite (Hwf k r Hl).
  - done.
  - rewrite Hval, Hids. apply NoDup_fst_map_to_list.
  - intros x _. apply lookup_empty.
Qed.
End book_persistence.

(** ** liquidation_log.rs *)

(** *** What serde_json keeps of a record *)

Definition record_floats (r : LiquidationRecord) : list f64 :=
  let e := rc_expected (lr_routed r) in
  [bc_health_factor (rc_candidate (lr_routed r)); pe_bonus_usd e; pe_est_slippage_usd e;
   pe_flash_fee_usd e; pe_est_cu_cost_usd e; pe_bid_tip_usd e; pe_net_usd e]
  ++ match lr_outcome r with Landed _ actual => [actual] | _ => [] end.

(** The record with its floats forgotten. *)
Definition record_shape (r : LiquidationRecord) : LiquidationRecord :=
  let rc := lr_routed r in
  let c := rc_candidate rc in
  mkLiquidationRecord
    (mkRoutedCandidate
       (mkBreachCandidate (bc_protocol c) (bc_position_id c) (bc_collateral_mint c) (bc_debt_mint c)
          f64_zero (bc_close_factor_max_repay c) (bc_slot c))
       (rc_repay_amount rc) (rc_flash_source rc)
       (mkProfitEstimate f64_zero f64_zero f64_zero f64_zero f64_zero f64_zero))
    (match lr_outcome r with Landed slot _ => Landed slot f64_zero | o => o end)
    (lr_submitted_at_slot r) (lr_resolved_at_slot r).

(** Far enough from the largest number for an approximate parse not to
    overflow. *)
Definition readable_f64 (x : f64) : bool := f64_leb (f64_abs x) (f64_of_Z (2 ^ 1023)).
Definition readable (r : LiquidationRecord) : bool := forallb readable_f64 (record_floats r).
(** Has a number that is printed as [null]. *)
Definition has_null (r : LiquidationRecord) : bool :=
  existsb (fun x => negb (is_finite x)) (record_floats r).

Definition non_blank (line : string) : bool :=
  match trim line with EmptyString => false | _ => true end.

(** The documented contract of [serde_json::to_string] and [from_str]. *)
Record json_lines (to_json : LiquidationRecord -> option string)
    (from_json : string -> option LiquidationRecord) : Prop := {
  json_one_line r j : to_json r = Some j -> line_ok j /\ non_blank j = true;
  json_reads r j : to_json r = Some j -> readable r = true ->
    exists r', from_json j = Some r' /\ record_shape r' = record_shape r;
  json_null r j : to_json r = Some j -> has_null r = true -> from_json j = None
}.

Inductive ExportFormat := Csv | Json.

Record LiquidationLog := mkLiquidationLog {
  log_records : list LiquidationRecord;
  log_backing_file : option string
}.

Definition log_in_memory : LiquidationLog := mkLiquidationLog [] None.
Definition log_len (l : LiquidationLog) : Z := Z.of_nat (length (log_records l)).

Section log.
Context (to_json : LiquidationRecord -> option string).
Context (from_json : string -> option LiquidationRecord).

Fixpoint parse_records (ls : list string) : option (list LiquidationRecord) :=
  match ls with
  | [] => Some []
  | line :: ls =>
      match from_json line with
      | None => None
      | Some r => (fun rs => r :: rs) <$> parse_records ls
      end
  end.

Definition log_open (path : string) (read_ok : bool) (file : option string)
    : result LiquidationLog StoreError :=
  match file with
  | None => Ok (mkLiquidationLog [] (Some path))
  | Some contents =>
      if read_ok then
        match parse_records (filter (fun l => non_blank l = true) (str_lines contents)) with
        | None => Err StoreSerde
        | Some rs => Ok (mkLiquidationLog rs (Some path))
        end
      else Err (StoreIo path)
  end.

(** [append]: opening for append creates the file. [writeln!] on an
    unbuffered file: a failing write leaves a prefix of the line behind, and
    the record is not pushed. *)
Definition log_append (o : WriteOutcome) (record : LiquidationRecord)
    (st : LiquidationLog * option string) : (LiquidationLog * option string) * result unit StoreError :=
  let '(l, file) := st in
  let push := mkLiquidationLog (log_records l ++ [record]) (log_backing_file l) in
  match log_backing_file l with
  | None => ((push, file), Ok tt)
  | Some path =>
      match to_json record with
      | None => ((l, file), Err StoreSerde)
      | Some line =>
          let contents := default EmptyString file in
          match o with
          | OpenFailed => ((l, file), Err (StoreIo path))
          | Torn n =>
              ((l, Some (contents +:+ String.substring 0 n (line +:+ one_newline))), Err (StoreIo path))
          | Written => ((push, Some (contents +:+ line +:+ one_newline)), Ok tt)
          end
      end
  end.

(** The CSV row of a record; number and [Debug] formatting are parameters. *)
Context (fmt_u64 : Z -> string) (fmt_f64_2 : f64 -> string) (debug_reason : RevertReason -> string).
Context (fmt_pubkey : Pubkey -> string).
Context (to_json_all : list LiquidationRecord -> option string).

Definition csv_header : string :=
  "protocol,position_id,repay_amount,flash_source_protocol,net_usd_expected,submitted_at_slot,resolved_at_slot,outcome"
  +:+ one_newline.
Definition fmt_outcome (o : SubmitOutcome) : string :=
  match o with
  | Landed slot actual => "landed@" +:+ fmt_u64 slot +:+ ":" +:+ fmt_f64_2 actual
  | Reverted reason => "reverted:" +:+ debug_reason reason
  | NotIncluded => "not_included"
  end.
Definition csv_row (r : LiquidationRecord) : string :=
  let rc := lr_routed r in
  Protocol_fmt (bc_protocol (rc_candidate rc)) +:+ "," +:+ fmt_pubkey (bc_position_id (rc_candidate rc))
  +:+ "," +:+ fmt_u64 (rc_repay_amount rc) +:+ ","
  +:+ Protocol_fmt (fs_protocol (rc_flash_source rc)) +:+ ","
  +:+ fmt_f64_2 (pe_net_usd (rc_expected rc)) +:+ "," +:+ fmt_u64 (lr_submitted_at_slot r) +:+ ","
  +:+ fmt_u64 (lr_resolved_at_slot r) +:+ "," +:+ fmt_outcome (lr_outcome r) +:+ one_newline.

Definition in_slot_range (start stop : Z) (r : LiquidationRecord) : bool :=
  (start <=? lr_submitted_at_slot r) && (lr_submitted_at_slot r <? stop).

Definition log_export (l : LiquidationLog) (start stop : Z) (format : ExportFormat)
    : result string StoreError :=
  let filtered := filter (fun r => in_slot_range start stop r = true) (log_records l) in
  match format with
  | Json => ok_or (to_json_all filtered) StoreSerde
  | Csv => Ok (foldl (fun out r => out +:+ csv_row r) csv_header filtered)
  end.

(* -------------------------------------------------------------- *)

Context (Hjson : json_lines to_json from_json).

Inductive log_rep (path : string) (st : LiquidationLog * option string) : Prop :=
  log_rep_intro lines :
    log_backing_file st.1 = Some path ->
    (st.2 = Some (unlines lines) \/ (st.2 = None /\ lines = [])) ->
    Forall2 (fun line r => to_json r = Some line) lines (log_records st.1) ->
    log_rep path st.

Lemma log_append_records o record st :
  log_records (log_append o record st).1.1
  = log_records st.1 ++ (if is_ok (log_append o record st).2 then [record] else []).
Proof.
  destruct st as [l file]. unfold log_append. cbn.
  destruct (log_backing_file l); [destruct (to_json record); [destruct o|]|]; cbn; by rewrite ?app_nil_r.
Qed.

Lemma log_rep_append path o record st :
  untorn o = true -> log_rep path st -> log_rep path (log_append o record st).1.
Proof.
  intros Ho [lines Hp Hf Hl]. destruct st as [l file]. cbn in *. unfold log_append. rewrite Hp.
  destruct (to_json record) as [line|] eqn:Ej; [|by exists lines].
  assert (Hdef : default EmptyString file = unlines lines).
  { destruct Hf as [->|[-> ->]]; done. }
  destruct o; [|by exists lines|done]. exists (lines ++ [line]); cbn; [done| |].
  - left. rewrite Hdef, unlines_app. cbn. by rewrite string_app_nil_r.
  - apply Forall2_app; [done|]. by repeat constructor.
Qed.

(** Opening a file the log wrote parses the lines of its records. *)
Lemma log_rep_open path st :
  log_rep path st ->
  exists lines, Forall2 (fun line r => to_json r = Some line) lines (log_records st.1)
    /\ default EmptyString st.2 = unlines lines
    /\ log_open path true st.2
       = match parse_records lines with
         | Some rs => Ok (mkLiquidationLog rs (Some path))
         | None => Err StoreSerde
         end.
Proof.
  intros [lines Hp Hf Hl]. exists lines. split; [done|].
  destruct Hf as [->|[-> ->]]; [|by inversion Hl]. split; [done|]. unfold log_open.
  assert (Hok : Forall line_ok lines /\ Forall (fun l => non_blank l = true) lines).
  { clear -Hjson Hl.
    split; induction Hl as [|line r ls rs Hj _ IH]; constructor; try done; by destruct (json_one_line _ _ Hjson _ _ Hj). }
  destruct Hok as [Hok Hnb]. rewrite str_lines_unlines by done.
  assert (filter (fun l => non_blank l = true) lines = lines) as ->; [|done].
  clear -Hnb. induction Hnb as [|l ls Hl _ IH]; [done|]. by rewrite filter_cons_True, IH.
Qed.

Lemma parse_records_readable lines rs :
  Forall2 (fun line r => to_json r = Some line) lines rs -> Forall (fun r => readable r = true) rs ->
  exists rs', parse_records lines = Some rs' /\ record_shape <$> rs' = record_shape <$> rs.
Proof.
  induction 1 as [|line r ls rs Hj _ IH]; intros Hr; [by exists []|]. apply Forall_cons_1 in Hr as [Hr Hrs].
  destruct (IH Hrs) as (rs' & Hp & Hs). destruct (json_reads _ _ Hjson _ _ Hj Hr) as (r' & Hf & Hsh).
  exists (r' :: rs'). cbn [parse_records]. rewrite Hf, Hp. split; [done|]. cbn [fmap list_fmap]. congruence.
Qed.

Lemma parse_records_null lines rs :
  Forall2 (fun line r => to_json r = Some line) lines rs -> Exists (fun r => has_null r = true) rs ->
  parse_records lines = None.
Proof.
  induction 1 as [|line r ls rs Hj _ IH]; intros Hr; [by inversion Hr|]. cbn [parse_records].
  apply Exists_cons in Hr as [Hr|Hr]; [by rewrite (json_null _ _ Hjson _ _ Hj Hr)|].
  destruct (from_json line); [|done]. by rewrite (IH Hr).
Qed.

(** A run of appends, each with the system's answer. *)
Definition log_run (st : LiquidationLog * option string)
    (ops : list (WriteOutcome * LiquidationRecord)) : LiquidationLog * option string :=
  foldl (fun st '(o, r) => (log_append o r st).1) st ops.

(** The records whose append succeeds: written in full and serialized. *)
Definition appended (ops : list (WriteOutcome * LiquidationRecord)) : list LiquidationRecord :=
  omap (fun '(o, r) => match o, to_json r with Written, Some _ => Some r | _, _ => None end) ops.

Lemma log_run_records path st ops :
  log_backing_file st.1 = Some path ->
  log_records (log_run st ops).1 = log_records st.1 ++ appended ops
  /\ log_backing_file (log_run st ops).1 = Some path.
Proof.
  revert st. induction ops as [|[o r] ops IH]; intros st Hp; [by rewrite app_nil_r|].
  cbn [log_run foldl]. fold (log_run (log_append o r st).1 ops).
  destruct (IH (log_append o r st).1) as [-> ->].
  - destruct st as [l file]. unfold log_append. cbn in Hp. rewrite Hp.
    by destruct (to_json r); [destruct o|].
  - rewrite log_append_records, <- app_assoc. split; [|done]. f_equal. destruct st as [l file].
    unfold log_append, appended. cbn in Hp |- *. rewrite Hp. by destruct o, (to_json r).
Qed.

Lemma log_rep_run path st ops :
  Forall (fun '(o, _) => untorn o = true) ops -> log_rep path st -> log_rep path (log_run st ops).
Proof.
  intros Hops. revert st. induction Hops as [|[o r] ops Ho _ IH]; intros st H0; [done|].
  cbn [log_run foldl]. by apply IH, log_rep_append.
Qed.

(** C27: the log holds exactly the records whose append succeeded, in order,
    and later appends keep them in place. As long as no write was cut short
    the file holds one line per record, in that order, and what reopening it
    gives depends on the records' floats alone: when all of them are in
    range, the same records up to the floats the parser rounds; when one of
    them is a NaN or an infinity, an error, the whole log being lost. *)
Theorem log_durable path ops ops' :
  let st := log_run (mkLiquidationLog [] (Some path), None) ops in
  log_records st.1 = appended ops
  /\ log_records (log_run st ops').1 = log_records st.1 ++ appended ops'
  /\ (Forall (fun '(o, _) => untorn o = true) ops ->
      (exists lines, Forall2 (fun line r => to_json r = Some line) lines (log_records st.1)
         /\ default EmptyString st.2 = unlines lines)
      /\ (Forall (fun r => readable r = true) (log_records st.1) ->
          exists rs, log_open path true st.2 = Ok (mkLiquidationLog rs (Some path))
            /\ record_shape <$> rs = record_shape <$> log_records st.1)
      /\ (Exists (fun r => has_null r = true) (log_records st.1) ->
          log_open path true st.2 = Err StoreSerde)).
Proof.
  intros st. destruct (log_run_records path (mkLiquidationLog [] (Some path), None) ops eq_refl) as [Hr Hp].
  split; [exact Hr|]. split; [by apply (log_run_records path)|]. intros Hops.
  assert (H0 : log_rep path (mkLiquidationLog [] (Some path), None)) by (exists []; [done|by right|constructor]).
  destruct (log_rep_open path st (log_rep_run path _ ops Hops H0)) as (lines & Hl & Hf & Ho).
  split; [by exists lines|]. rewrite Ho. split; intros Hq.
  - destruct (parse_records_readable _ _ Hl Hq) as (rs & -> & Hs). by exists rs.
  - by rewrite (parse_records_null _ _ Hl Hq).
Qed.

(** A CSV export is the header followed by one row per record submitted in
    the half-open slot range, in log order. *)
Theorem export_csv_rows l start stop :
  log_export l start stop Csv
  = Ok (csv_header +:+ foldr (fun r acc => csv_row r +:+ acc) EmptyString
          (filter (fun r => in_slot_range start stop r = true) (log_records l))).
Proof.
  unfold log_export. f_equal. generalize csv_header.
  induction (filter _ _) as [|r rs IH]; intros h; cbn [foldl foldr]; [by rewrite string_app_nil_r|].
  rewrite IH. by rewrite string_app_assoc.
Qed.
End log.

(** ** The asynchronous writer: a bounded channel and a background task *)

Record AsyncLiquidationWriter := mkAsyncWriter {
  aw_queue : list LiquidationRecord;
  aw_capacity : Z;
  aw_receiver_alive : bool;
  aw_file : string
}.

(** [spawn], given what the file at the path holds already, nothing when there
    is none: the task only ever appends. The buffer size must be positive. *)
Definition writer_spawn (file : string) (buffer_size : Z) : AsyncLiquidationWriter :=
  mkAsyncWriter [] buffer_size true file.

Definition aw_push (record : LiquidationRecord) (w : AsyncLiquidationWriter) : AsyncLiquidationWriter :=
  mkAsyncWriter (aw_queue w ++ [record]) (aw_capacity w) (aw_receiver_alive w) (aw_file w).

(** [try_record]: [try_send] on the channel. *)
Definition try_record (record : LiquidationRecord) (w : AsyncLiquidationWriter)
    : AsyncLiquidationWriter * result unit StoreError :=
  if negb (aw_receiver_alive w) then (w, Err (CapacityExceeded "Async log channel full: channel closed"))
  else if Z.of_nat (length (aw_queue w)) <? aw_capacity w then (aw_push record w, Ok tt)
  else (w, Err (CapacityExceeded "Async log channel full: no available capacity")).

(** [record]: [send] waits, as [None] here, while the channel is full. *)
Definition record_poll (record : LiquidationRecord) (w : AsyncLiquidationWriter)
    : AsyncLiquidationWriter * option (result unit StoreError) :=
  if negb (aw_receiver_alive w)
  then (w, Some (Err (CapacityExceeded "Async log receiver dropped: channel closed")))
  else if Z.of_nat (length (aw_queue w)) <? aw_capacity w then (aw_push record w, Some (Ok tt))
  else (w, None).

(** One turn of the task: serialization, open and write failures drop the
    record. *)
Definition writer_task_step (to_json : LiquidationRecord -> option string) (o : WriteOutcome)
    (w : AsyncLiquidationWriter) : AsyncLiquidationWriter :=
  match aw_queue w with
  | [] => w
  | record :: rest =>
      let file := match to_json record with
                  | Some line =>
                      match o with
                      | Written => aw_file w +:+ line +:+ one_newline
                      | OpenFailed => aw_file w
                      | Torn n => aw_file w +:+ String.substring 0 n (line +:+ one_newline)
                      end
                  | None => aw_file w
                  end in
      mkAsyncWriter rest (aw_capacity w) (aw_receiver_alive w) file
  end.

Inductive WriterEvent :=
| EvTryRecord (r : LiquidationRecord)
| EvRecord (r : LiquidationRecord)
| EvTask (o : WriteOutcome).

Section writer.
Context (to_json : LiquidationRecord -> option string).
(** What the file held when the writer was spawned. *)
Context (file : string).

(** The state, with the records the channel accepted so far. *)
Definition writer_step (st : AsyncLiquidationWriter * list LiquidationRecord) (e : WriterEvent) :=
  let '(w, accepted) := st in
  match e with
  | EvTryRecord r =>
      match try_record r w with
      | (w, Ok _) => (w, accepted ++ [r])
      | (w, Err _) => (w, accepted)
      end
  | EvRecord r =>
      match record_poll r w with
      | (w, Some (Ok _)) => (w, accepted ++ [r])
      | (w, _) => (w, accepted)
      end
  | EvTask o => (writer_task_step to_json o w, accepted)
  end.

(** [w] has written the lines of [written], in that order, after what the file
    held. *)
Definition writes (w : AsyncLiquidationWriter) (written : list LiquidationRecord) : Prop :=
  exists lines, Forall2 (fun r line => to_json r = Some line) written lines /\ aw_file w = file +:+ unlines lines.

Lemma writes_more w w' written r line :
  writes w written -> to_json r = Some line -> aw_file w' = aw_file w +:+ line +:+ one_newline ->
  writes w' (written ++ [r]).
Proof.
  intros (ls & Hls & Hf) Hj Hf'. exists (ls ++ [line]). split.
  - apply Forall2_app; [done|]. by repeat constructor.
  - rewrite Hf', Hf, unlines_app. cbn. by rewrite string_app_nil_r, string_app_assoc.
Qed.

Inductive writer_inv (n : Z) (st : AsyncLiquidationWriter * list LiquidationRecord)
    (os : list WriteOutcome) : Prop :=
  writer_inv_intro :
    aw_capacity st.1 = n -> aw_receiver_alive st.1 = true ->
    Z.of_nat (length (aw_queue st.1)) <= n ->
    (Forall (fun o => untorn o = true) os ->
     exists written, written ++ aw_queue st.1 `sublist_of` st.2 /\ writes st.1 written) ->
    ((forall r, is_Some (to_json r)) -> Forall (eq Written) os ->
     exists written, written ++ aw_queue st.1 = st.2 /\ writes st.1 written) ->
    writer_inv n st os.

Definition outcomes (es : list WriterEvent) : list WriteOutcome :=
  omap (fun e => match e with EvTask o => Some o | _ => None end) es.

Lemma writer_inv_push n w acc os r :
  writer_inv n (w, acc) os -> Z.of_nat (length (aw_queue w)) < n ->
  writer_inv n (aw_push r w, acc ++ [r]) os.
Proof.
  intros [Hc Ha Hlen Hsub Hex] Hlt. cbn in *. split; cbn; try done.
  - rewrite length_app. cbn. lia.
  - intros Ho. destruct (Hsub Ho) as (wr & Hs & Hw). exists wr. split; [|exact Hw].
    rewrite app_assoc. by apply sublist_app.
  - intros Hj Ho. destruct (Hex Hj Ho) as (wr & <- & Hw). exists wr. by rewrite app_assoc.
Qed.

Lemma writer_inv_task n w acc os o :
  writer_inv n (w, acc) os -> writer_inv n (writer_task_step to_json o w, acc) (os ++ [o]).
Proof.
  intros [Hc Ha Hlen Hsub Hex]. cbn in *. unfold writer_task_step.
  destruct (aw_queue w) as [|r q] eqn:Eq.
  { split; cbn; try done; rewrite ?Eq; try done.
    - intros [Ho _]%Forall_app. by apply Hsub.
    - intros Hj [Ho _]%Forall_app. by apply Hex. }
  split; cbn; try done; [cbn in Hlen; lia| |].
  - intros [Ho Hoo]%Forall_app. destruct (Hsub Ho) as (wr & Hs & Hw).
    assert (Hskip : wr ++ q `sublist_of` acc).
    { etrans; [|exact Hs]. apply sublist_app; [done|]. by apply sublist_cons. }
    apply Forall_cons_1 in Hoo as [Hoo _].
    destruct (to_json r) as [line|] eqn:Ej; [destruct o as [| |k]|]; try done.
    + exists (wr ++ [r]). rewrite <- app_assoc. split; [done|]. by eapply writes_more.
    + by exists wr.
    + by exists wr.
  - intros Hj [Ho Hoo]%Forall_app. apply Forall_cons_1 in Hoo as [Hoo _]. subst o.
    destruct (Hex Hj Ho) as (wr & <- & Hw). destruct (Hj r) as [line Ej]. rewrite Ej.
    exists (wr ++ [r]). rewrite <- app_assoc. split; [done|]. by eapply writes_more.
Qed.

Lemma writer_inv_run n es :
  0 < n -> writer_inv n (foldl writer_step (writer_spawn file n, []) es) (outcomes es).
Proof.
  intros Hn. induction es as [|e es IH] using rev_ind.
  { assert (Hw : writes (writer_spawn file n) []) by (exists []; cbn; by rewrite string_app_nil_r).
    split; cbn; [done|done|lia| |]; intros; by exists []. }
  rewrite foldl_app. unfold outcomes. rewrite omap_app. fold (outcomes es). cbn [foldl].
  destruct (foldl writer_step (writer_spawn file n, []) es) as [w acc].
  pose proof IH as [Hc Ha _ _ _]. cbn in Hc, Ha.
  destruct e as [r|r|o]; cbn [writer_step omap list_omap].
  - rewrite app_nil_r. unfold try_record. rewrite Ha, Hc. cbn [negb].
    destruct (Z.ltb_spec (Z.of_nat (length (aw_queue w))) n); [by apply writer_inv_push|done].
  - rewrite app_nil_r. unfold record_poll. rewrite Ha, Hc. cbn [negb].
    destruct (Z.ltb_spec (Z.of_nat (length (aw_queue w))) n); [by apply writer_inv_push|done].
  - by apply writer_inv_task.
Qed.

(** Under any interleaving of producers and the writer task the channel
    never exceeds its capacity; as long as no write is cut short the file
    holds the lines of accepted records in acceptance order; and without any
    I/O or serialization failure, written and queued records together are
    exactly the accepted ones. *)
Theorem writer_order n es :
  0 < n ->
  let '(w, accepted) := foldl writer_step (writer_spawn file n, []) es in
  Z.of_nat (length (aw_queue w)) <= n
  /\ (Forall (fun o => untorn o = true) (outcomes es) ->
      exists written, written ++ aw_queue w `sublist_of` accepted /\ writes w written)
  /\ ((forall r, is_Some (to_json r)) -> Forall (eq Written) (outcomes es) ->
      exists written, written ++ aw_queue w = accepted /\ writes w written).
Proof.
  intros Hn. destruct (writer_inv_run n es Hn) as [_ _ Hlen Hsub Hex].
  by destruct (foldl writer_step (writer_spawn file n, []) es) as [w acc].
Qed.

(** Pushing adds to both the queue and the accepted records; a turn of the
    task takes one record off the queue when there is one. *)
Lemma writer_progress st es :
  let '(w, acc) := st in
  let '(w', acc') := foldl writer_step st es in
  acc `prefix_of` acc'
  /\ (length acc + length (aw_queue w')
      <= length acc' + (length (aw_queue w) - length (outcomes es)))%nat.
Proof.
  destruct st as [w acc]. induction es as [|e es IH] using rev_ind; [cbn; split; [done|lia]|].
  rewrite foldl_app. unfold outcomes. rewrite omap_app. fold (outcomes es). cbn [foldl].
  destruct (foldl writer_step (w, acc) es) as [w' acc']. destruct IH as [Hp Hl].
  pose proof (prefix_length _ _ Hp).
  assert (Hpush : forall r, acc `prefix_of` acc' ++ [r]) by (intros r; by apply prefix_app_r).
  rewrite length_app. destruct e as [r|r|o]; cbn [writer_step omap list_omap length].
  - unfold try_record. repeat case_match; simplify_eq; (split; [done|]);
      rewrite ?length_app; cbn; rewrite ?length_app; cbn; lia.
  - unfold record_poll. repeat case_match; simplify_eq; (split; [done|]);
      rewrite ?length_app; cbn; rewrite ?length_app; cbn; lia.
  - split; [done|]. unfold writer_task_step. destruct (aw_queue w') as [|r q] eqn:E; cbn; rewrite ?E; cbn in *; lia.
Qed.

(** C28: nothing accepted is left behind. Whatever happened before and whatever
    producers do meanwhile, once the writer task has had as many turns as
    there were records queued, every record accepted before has been written,
    first and in order, unless the system refused a write or a record did not
    serialize. A producer that waits for room gets it at the task's next
    turn. *)
Theorem writer_drains n es es' :
  0 < n -> (forall r, is_Some (to_json r)) -> Forall (eq Written) (outcomes (es ++ es')) ->
  let '(w, accepted) := foldl writer_step (writer_spawn file n, []) es in
  (length (aw_queue w) <= length (outcomes es'))%nat ->
  let '(w', accepted') := foldl writer_step (writer_spawn file n, []) (es ++ es') in
  (exists later, writes w' (accepted ++ later))
  /\ accepted `prefix_of` accepted'
  /\ (forall r o, record_poll r w' = (w', None) ->
      exists w'', record_poll r (writer_task_step to_json o w') = (w'', Some (Ok tt))).
Proof.
  intros Hn Hj Ho. pose proof (writer_inv_run n (es ++ es') Hn) as Hinv.
  destruct (foldl writer_step (writer_spawn file n, []) es) as [w acc] eqn:E. intros Hq.
  pose proof (writer_progress (w, acc) es') as Hpr. rewrite foldl_app, E in *.
  destruct (foldl writer_step (w, acc) es') as [w' acc']. destruct Hpr as [Hp Hl].
  destruct Hinv as [Hc Ha Hlen _ Hex]. cbn in *. destruct (Hex Hj Ho) as (written & Hw & Hwr).
  split_and!; [|done|].
  - assert (Hle : (length acc <= length written)%nat).
    { apply (f_equal length) in Hw. rewrite length_app in Hw. lia. }
    assert (Hpre : acc `prefix_of` written).
    { destruct Hp as [k Hk]. rewrite Hk in Hw. exists (drop (length acc) written).
      apply (f_equal (take (length acc))) in Hw. rewrite take_app_le in Hw by done.
      rewrite take_app_length in Hw. rewrite <- Hw at 1. by rewrite take_drop. }
    destruct Hpre as [later ->]. by exists later.
  - intros r o. unfold record_poll, writer_task_step. rewrite Ha, Hc. cbn [negb].
    destruct (Z.ltb_spec (Z.of_nat (length (aw_queue w'))) n) as [|Hfull]; [done|]. intros _.
    destruct (aw_queue w') as [|x q]; [cbn in Hfull; lia|]. cbn in Hlen |- *. rewrite ?Ha. cbn [negb].
    rewrite ?Hc. destruct (Z.ltb_spec (Z.of_nat (length q)) n); [by eexists|lia].
Qed.
End writer.

(** ** Concrete books and logs *)

#[global] Instance PositionRecord_eq_dec : EqDecision PositionRecord.
Proof. solve_decision. Defined.

Definition sample_position (k slot : Z) : PositionRecord :=
  mkPositionRecord Kamino (mkPubkey [k]) (mkPubkey [1]) (mkPubkey [2]) (f64_lit 97 100) slot.
Definition sample_book : PositionBook :=
  upsert (sample_position 4 12) (upsert (sample_position 4 10) PositionBook_new).
(** A serializer that knows two documents. *)
Definition toy_book_to_json (rs : list PositionRecord) : option string :=
  if decide (rs = [sample_position 4 12]) then Some "[4@12]"
  else if decide (rs = []) then Some "[]" else None.
Definition toy_book_from_json (s : string) : option (list PositionRecord) :=
  if decide (s = "[4@12]") then Some [sample_position 4 12]
  else if decide (s = "[]") then Some [] else None.

Lemma book_roundtrip_witness :
  book_restore toy_book_from_json "book.json"
    (book_snapshot toy_book_to_json (fun m => (map_to_list m).*2) "book.json" Written None sample_book).1
  = Ok sample_book.
Proof.
  refine (proj2 (book_roundtrip toy_book_to_json toy_book_from_json (fun m => (map_to_list m).*2)
            "book.json" Written None sample_book (fun m => Permutation_refl _) _ _)).
  - intros j. unfold toy_book_to_json, toy_book_from_json. generalize ((map_to_list sample_book).*2).
    intros rs. destruct (decide (rs = [_])) as [->|]; [by intros [= <-]|].
    destruct (decide (rs = [])) as [->|]; [by intros [= <-]|done].
  - by do 2 apply book_wf_upsert.
Defined.

Definition sample_record_at (health_factor : f64) (slot : Z) : LiquidationRecord :=
  mkLiquidationRecord
    (mkRoutedCandidate
       (mkBreachCandidate Kamino (mkPubkey [9]) (mkPubkey [1]) (mkPubkey [2]) health_factor 1000000 slot)
       500000 (mkFlashSource Kamino (mkPubkey [3]) 5)
       (mkProfitEstimate (f64_of_Z 40) (f64_of_Z 2) f64_one (f64_lit 1 2) (f64_of_Z 10) (f64_lit 53 2)))
    (Landed (slot + 1) (f64_lit 259 10)) slot (slot + 1).
Definition sample_record : Z -> LiquidationRecord := sample_record_at (f64_lit 91 100).
(** A serializer that knows three records: the second is parsed back with its
    health factor off by a rounding, the third has no health factor. *)
Definition rounded_record : LiquidationRecord := sample_record_at (f64_lit 910000000000001 1000000000000000) 200.
Definition null_record : LiquidationRecord := sample_record_at S754_nan 300.
Definition toy_to_json (r : LiquidationRecord) : option string :=
  if decide (r = sample_record 100) then Some "{100}"
  else if decide (r = sample_record 200) then Some "{200}"
  else if decide (r = null_record) then Some "{null}" else None.
Definition toy_from_json (s : string) : option LiquidationRecord :=
  if decide (s = "{100}") then Some (sample_record 100)
  else if decide (s = "{200}") then Some rounded_record else None.

Lemma string_app_last s a p b :
  s +:+ String a EmptyString = p +:+ String b EmptyString -> a = b.
Proof.
  intros H. assert (H' := f_equal split_last H). rewrite !split_last_app in H'. by injection H'.
Qed.

Lemma toy_json_ok : json_lines toy_to_json toy_from_json.
Proof.
  assert (Hcases : forall r j, toy_to_json r = Some j ->
    (r = sample_record 100 /\ j = "{100}") \/ (r = sample_record 200 /\ j = "{200}")
    \/ (r = null_record /\ j = "{null}")).
  { intros r j. unfold toy_to_json. repeat case_decide; intros [= <-]; auto. }
  split; intros r j [[-> ->]|[[-> ->]|[-> ->]]]%Hcases.
  1-3: split; [split; [done|]|done]; intros p Hp.
  - by apply (string_app_last "{100" (Ascii.ascii_of_nat 125)) in Hp.
  - by apply (string_app_last "{200" (Ascii.ascii_of_nat 125)) in Hp.
  - by apply (string_app_last "{null" (Ascii.ascii_of_nat 125)) in Hp.
  - intros _. by exists (sample_record 100).
  - intros _. by exists rounded_record.
  - vm_compute. done.
  - vm_compute. done.
  - vm_compute. done.
  - done.
Qed.

Definition sample_appends : list (WriteOutcome * LiquidationRecord) :=
  [(Written, sample_record 100); (OpenFailed, sample_record 200); (Written, sample_record 200)].

(** Reopening gives the second record as the parser rounds it. *)
Example reopened_log_is_rounded :
  log_open toy_from_json "log.jsonl" true
    (log_run toy_to_json (mkLiquidationLog [] (Some "log.jsonl"), None) sample_appends).2
  = Ok (mkLiquidationLog [sample_record 100; rounded_record] (Some "log.jsonl"))
  /\ rounded_record <> sample_record 200.
Proof. split; [vm_compute; reflexivity|vm_compute; discriminate]. Qed.

Lemma log_durable_witness :
  let log ops := log_run toy_to_json (mkLiquidationLog [] (Some "log.jsonl"), None) ops in
  (exists rs, log_open toy_from_json "log.jsonl" true (log sample_appends).2
              = Ok (mkLiquidationLog rs (Some "log.jsonl"))
    /\ record_shape <$> rs = record_shape <$> [sample_record 100; sample_record 200])
  /\ log_open toy_from_json "log.jsonl" true (log (sample_appends ++ [(Written, null_record)])).2
     = Err StoreSerde.
Proof.
  split.
  - destruct (log_durable toy_to_json toy_from_json toy_json_ok "log.jsonl" sample_appends []) as (_ & _ & Hd).
    exact (proj1 (proj2 (Hd ltac:(repeat constructor))) ltac:(repeat constructor)).
  - destruct (log_durable toy_to_json toy_from_json toy_json_ok "log.jsonl"
                (sample_appends ++ [(Written, null_record)]) []) as (_ & _ & Hd).
    apply (proj2 (proj2 (Hd ltac:(repeat constructor)))).
    apply Exists_exists. exists null_record. split; [vm_compute; tauto|reflexivity].
Defined.

(** After a write that was cut short the next good line joins the torn one and
    the file no longer opens. *)
Example torn_append_poisons_log :
  log_open toy_from_json "log.jsonl" true
    (log_run toy_to_json (mkLiquidationLog [] (Some "log.jsonl"), None)
       [(Torn 3, sample_record 100); (Written, sample_record 200)]).2
  = Err StoreSerde.
Proof. vm_compute. reflexivity. Qed.

Lemma writer_order_witness :
  let '(w, accepted) :=
    foldl (writer_step toy_to_json) (writer_spawn "old" 1, [])
      [EvTryRecord (sample_record 100); EvTryRecord (sample_record 200); EvTask Written;
       EvRecord (sample_record 200)] in
  Z.of_nat (length (aw_queue w)) <= 1.
Proof.
  exact (proj1 (writer_order toy_to_json "old" 1
    [EvTryRecord (sample_record 100); EvTryRecord (sample_record 200); EvTask Written;
     EvRecord (sample_record 200)] ltac:(lia))).
Defined.

Lemma writer_drains_witness :
  exists later, writes (fun _ => Some "{}") "old"
    (foldl (writer_step (fun _ => Some "{}")) (writer_spawn "old" 1, [])
       ([EvTryRecord (sample_record 100)] ++ [EvRecord (sample_record 200); EvTask Written])).1
    ([sample_record 100] ++ later).
Proof.
  exact (proj1 (writer_drains (fun _ => Some "{}") "old" 1 [EvTryRecord (sample_record 100)]
    [EvRecord (sample_record 200); EvTask Written] ltac:(lia) (fun _ => ltac:(by eexists))
    ltac:(repeat constructor) ltac:(cbn; lia))).
Defined.
