(* ===== verification/Sim.v ===== *)
(** * crates/sim: the account-sync pipeline, the simulator, the fixture
    loader and the replay harness with its command.

    [Section account_sync] is account_sync.rs, then simulator.rs,
    fixture_schema.rs, replay.rs and bin/replay.rs. The base64 and serde_json
    crates are parameters. *)

From Stdlib Require Import ZArith Lia.
From stdpp Require Import base gmap list strings option.
From S2P Require Import Prelude Lists F64 Text CoreTypes Config Router Bundler Sizing.

Open Scope rust_scope.

(** ** account_sync.rs *)

Record SlottedAccount := mkSlottedAccount { sa_data : list Z; sa_slot : Z }.

Record AccountSyncPipeline := mkAccountSyncPipeline {
  asp_accounts : gmap Pubkey SlottedAccount;
  asp_current_slot : Z
}.

Definition AccountSyncPipeline_new : AccountSyncPipeline := mkAccountSyncPipeline ∅ 0.

Definition apply_update (pubkey : Pubkey) (data : list Z) (slot : Z) (p : AccountSyncPipeline)
    : AccountSyncPipeline * bool :=
  let current := Z.max (asp_current_slot p) slot in
  let insert := mkAccountSyncPipeline
                  (<[pubkey := mkSlottedAccount data slot]> (asp_accounts p)) current in
  match asp_accounts p !! pubkey with
  | Some existing =>
      if slot <? sa_slot existing then (mkAccountSyncPipeline (asp_accounts p) current, false)
      else (insert, true)
  | None => (insert, true)
  end.

Definition asp_get (p : AccountSyncPipeline) (k : Pubkey) : option (list Z) :=
  sa_data <$> asp_accounts p !! k.
Definition account_slot (p : AccountSyncPipeline) (k : Pubkey) : option Z :=
  sa_slot <$> asp_accounts p !! k.
Definition account_lag (p : AccountSyncPipeline) (k : Pubkey) : option Z :=
  (fun a => sat_sub (asp_current_slot p) (sa_slot a)) <$> asp_accounts p !! k.
Definition asp_len (p : AccountSyncPipeline) : Z := Z.of_nat (size (asp_accounts p)).

Definition sync_update : Type := Pubkey * list Z * Z.
Definition sync_run (us : list sync_update) : AccountSyncPipeline :=
  foldl (fun p '(k, d, s) => (apply_update k d s p).1) AccountSyncPipeline_new us.

(** Specification: the update of [k] that counts is the last one among those
    with the highest slot. *)
Definition freshest (us : list sync_update) (k : Pubkey) (a : SlottedAccount) : Prop :=
  exists before after,
    us = before ++ (k, sa_data a, sa_slot a) :: after
    /\ (forall d s, (k, d, s) ∈ before -> s <= sa_slot a)
    /\ (forall d s, (k, d, s) ∈ after -> s < sa_slot a).

Lemma freshest_snoc_other us k k' d s a :
  k <> k' -> freshest us k a -> freshest (us ++ [(k', d, s)]) k a.
Proof.
  intros Hne (b & f & -> & Hb & Hf). exists b, (f ++ [(k', d, s)]).
  rewrite <- app_assoc. split_and!; [done|done|]. intros d' s' [Hin|Hin]%elem_of_app; [by eapply Hf|].
  apply list_elem_of_singleton in Hin. congruence.
Qed.

Lemma freshest_unique us k a a' : freshest us k a -> freshest us k a' -> a = a'.
Proof.
  intros (b & f & Hus & Hb & Hf) (b' & f' & Hus' & Hb' & Hf').
  assert (Hslot : forall d s, (k, d, s) ∈ us -> s <= sa_slot a).
  { rewrite Hus. intros d s [?|[?|?]%elem_of_cons]%elem_of_app; [by eapply Hb| |].
    - simplify_eq. lia.
    - apply Z.lt_le_incl. by eapply Hf. }
  assert (Hslot' : forall d s, (k, d, s) ∈ us -> s <= sa_slot a').
  { rewrite Hus'. intros d s [?|[?|?]%elem_of_cons]%elem_of_app; [by eapply Hb'| |].
    - simplify_eq. lia.
    - apply Z.lt_le_incl. by eapply Hf'. }
  assert (Heq : sa_slot a = sa_slot a').
  { apply Z.le_antisymm; [eapply Hslot' | eapply Hslot].
    - rewrite Hus. apply elem_of_app. right. left.
    - rewrite Hus'. apply elem_of_app. right. left. }
  assert (Hl : us !! length b = Some (k, sa_data a, sa_slot a)).
  { rewrite Hus. by apply list_lookup_middle. }
  assert (Hl' : us !! length b' = Some (k, sa_data a', sa_slot a')).
  { rewrite Hus'. by apply list_lookup_middle. }
  destruct (Nat.lt_total (length b) (length b')) as [Hlt|[Hlt|Hlt]].
  - exfalso. rewrite Hus, lookup_app_r in Hl' by lia.
    destruct (length b' - length b)%nat as [|m] eqn:E; [lia|]. cbn in Hl'.
    apply list_elem_of_lookup_2, Hf in Hl'. lia.
  - rewrite Hlt, Hl' in Hl. destruct a, a'; cbn in *. by simplify_eq.
  - exfalso. rewrite Hus', lookup_app_r in Hl by lia.
    destruct (length b - length b')%nat as [|m] eqn:E; [lia|]. cbn in Hl.
    apply list_elem_of_lookup_2, Hf' in Hl. lia.
Qed.

Lemma sync_run_snoc us k d s :
  sync_run (us ++ [(k, d, s)]) = (apply_update k d s (sync_run us)).1.
Proof. unfold sync_run. by rewrite foldl_app. Qed.

Lemma sync_run_lookup us k :
  match asp_accounts (sync_run us) !! k with
  | Some a => freshest us k a
  | None => forall d s, (k, d, s) ∉ us
  end.
Proof.
  induction us as [|[[k' d] s] us IH] using rev_ind.
  { change (asp_accounts (sync_run [])) with (∅ : gmap Pubkey SlottedAccount).
    rewrite lookup_empty. intros d s Hin. by apply not_elem_of_nil in Hin. }
  rewrite sync_run_snoc. unfold apply_update.
  destruct (decide (k' = k)) as [->|Hne].
  - assert (Hnew : (forall d' s', (k, d', s') ∈ us -> s' <= s) ->
      freshest (us ++ [(k, d, s)]) k (mkSlottedAccount d s)).
    { intros Hle. exists us, []. split_and!; [done|done|set_solver]. }
    destruct (asp_accounts (sync_run us) !! k) as [a|] eqn:E.
    + pose proof IH as (b & f & Hus & Hb & Hf).
      destruct (Z.ltb_spec s (sa_slot a)); cbn.
      * rewrite E. exists b, (f ++ [(k, d, s)]). rewrite Hus, <- app_assoc. split_and!; [done|done|].
        intros d' s' [Hin|Hin]%elem_of_app; [by eapply Hf|].
        apply list_elem_of_singleton in Hin. by simplify_eq.
      * rewrite lookup_insert_eq. apply Hnew. rewrite Hus.
        intros d' s' [Hin|[Hin|Hin]%elem_of_cons]%elem_of_app.
        -- apply Hb in Hin. lia.
        -- simplify_eq. lia.
        -- apply Hf in Hin. lia.
    + cbn. rewrite lookup_insert_eq. apply Hnew. intros d' s' Hin. by apply IH in Hin.
  - assert (Hk : asp_accounts (apply_update k' d s (sync_run us)).1 !! k
               = asp_accounts (sync_run us) !! k).
    { unfold apply_update. destruct (asp_accounts (sync_run us) !! k') as [a|];
        [destruct (s <? sa_slot a)|]; cbn; by rewrite ?lookup_insert_ne. }
    unfold apply_update in Hk. rewrite Hk.
    destruct (asp_accounts (sync_run us) !! k) as [a|]; [by apply freshest_snoc_other|].
    intros d' s' [Hin|Hin]%elem_of_app; [by eapply IH|].
    apply list_elem_of_singleton in Hin. congruence.
Qed.

Lemma sync_run_current us :
  asp_current_slot (sync_run us) = foldl (fun m '(_, _, s) => Z.max m s) 0 us.
Proof.
  induction us as [|[[k d] s] us IH] using rev_ind; [done|].
  rewrite sync_run_snoc, foldl_app, <- IH. cbn. unfold apply_update.
  destruct (asp_accounts (sync_run us) !! k) as [a|]; [by destruct (s <? sa_slot a)|done].
Qed.

(** C34: whatever the order updates arrive in, the pipeline holds for every
    account exactly the freshest update (highest slot, the last of equals), its
    clock is the highest slot seen, and [apply_update] reports a drop exactly
    when a strictly newer state of that account is already held. *)
Theorem account_sync_freshest us k :
  (forall a, asp_accounts (sync_run us) !! k = Some a <-> freshest us k a)
  /\ asp_current_slot (sync_run us) = foldl (fun m '(_, _, s) => Z.max m s) 0 us
  /\ (forall d s, (apply_update k d s (sync_run us)).2 = false
                  <-> exists a, freshest us k a /\ s < sa_slot a).
Proof.
  pose proof (sync_run_lookup us k) as Hk.
  assert (Hiff : forall a, asp_accounts (sync_run us) !! k = Some a <-> freshest us k a).
  { intros a. destruct (asp_accounts (sync_run us) !! k) as [a'|] eqn:E.
    - split; [by intros [= ->]|]. intros Ha. f_equal. by eapply freshest_unique.
    - split; [done|]. intros (b & f & -> & _). exfalso. eapply Hk.
      apply elem_of_app. right. left. }
  split_and!; [done|apply sync_run_current|]. intros d s. unfold apply_update.
  destruct (asp_accounts (sync_run us) !! k) as [a|] eqn:E.
  - destruct (Z.ltb_spec s (sa_slot a)); cbn; split; intros Hd; try done.
    + exists a. split; [by apply Hiff|done].
    + destruct Hd as (a' & Ha' & Hlt). apply Hiff in Ha'. simplify_eq. lia.
  - split; [done|]. intros (a & Ha & _). apply Hiff in Ha. done.
Qed.

(** ** simulator.rs *)

Record LiteSvmSimulator := mkLiteSvmSimulator { lss_min_profit_usd : f64 }.

Definition LiteSvmSimulator_new : LiteSvmSimulator := mkLiteSvmSimulator (f64_lit 850 100).
Definition with_min_profit (min_profit_usd : f64) : LiteSvmSimulator := mkLiteSvmSimulator min_profit_usd.

(** [simulate_instructions] is a stub in the source as well. *)
Definition simulate_instructions {Instr Signer : Type} (s : LiteSvmSimulator)
    (_instructions : list Instr) (_payer : Signer) (_funded_accounts : list (Pubkey * Z))
    : result (Z * Z) string := Ok (245000, 512).

Definition lite_simulate (s : LiteSvmSimulator) (routed : RoutedCandidate) : SimResult :=
  let is_breaching := (bc_health_factor (rc_candidate routed) <? f64_one)%f64 in
  let valid_repay := (0 <? rc_repay_amount routed)
                     && (rc_repay_amount routed <=? bc_close_factor_max_repay (rc_candidate routed)) in
  let feasible := is_breaching && valid_repay in
  let cu_measured := if feasible then 245000 else 0 in
  let tx_bytes := if feasible then 512 else 0 in
  let profitable := feasible && (pe_net_usd (rc_expected routed) >=? lss_min_profit_usd s)%f64 in
  mkSimResult routed feasible cu_measured tx_bytes profitable.

#[global] Instance LiteSvmSimulator_is_simulator : Simulator LiteSvmSimulator :=
  {| simulate := lite_simulate |}.

(** ** fixture_schema.rs *)

Record HistoricalLiquidationEvent := mkHistoricalLiquidationEvent {
  he_protocol : Protocol;
  he_position_id : Pubkey;
  he_collateral_mint : Pubkey;
  he_debt_mint : Pubkey;
  he_breach_slot : Z;
  he_health_factor_at_breach_slot : f64;
  he_obligation_data_base64 : string;
  he_obligation_owner : Pubkey;
  he_best_flash_reserve : Pubkey;
  he_best_flash_reserve_available_liquidity : Z;
  he_landed_slot : option Z
}.

Inductive FixtureError := FixtureIo (path : string) | FixtureJson (line_no : Z).

Section fixtures.
Context (base64_standard_decode : string -> option (list Z)).
Context (event_from_json : string -> option HistoricalLiquidationEvent).

Definition decode_base64 (s : string) : option (list Z) :=
  match s with EmptyString => Some [] | _ => base64_standard_decode (trim s) end.

(** [load_events]: the file as its text, [None] when missing. *)
Definition load_events (path : string) (read_ok : bool) (file : option string)
    : result (list HistoricalLiquidationEvent) FixtureError :=
  match file with
  | None => Ok []
  | Some contents =>
      if read_ok
      then for_lines (fun line_no line => ok_or (event_from_json line) (FixtureJson line_no))
             0 (str_lines contents)
      else Err (FixtureIo path)
  end.

(** ** replay.rs *)

Record EventResult := mkEventResult {
  er_position_id : Pubkey;
  er_detected : bool;
  er_routed_reserve_had_sufficient_liquidity : option bool;
  er_feasibility_checked : bool
}.

Record ReplayReport := mkReplayReport { rr_results : list EventResult }.

Definition rr_total (r : ReplayReport) : Z := Z.of_nat (length (rr_results r)).
Definition detected_count (r : ReplayReport) : Z :=
  Z.of_nat (length (filter (fun e => er_detected e = true) (rr_results r))).
Definition all_detected (r : ReplayReport) : bool :=
  negb (length (rr_results r) =? 0)%nat && forallb er_detected (rr_results r).
Definition all_routed_with_sufficient_liquidity (r : ReplayReport) : bool :=
  negb (length (rr_results r) =? 0)%nat
  && forallb (fun e => bool_decide (er_routed_reserve_had_sufficient_liquidity e = Some true))
       (rr_results r).

Definition event_update (event : HistoricalLiquidationEvent) (bytes : list Z) : AccountUpdate :=
  mkAccountUpdate (he_position_id event) (he_obligation_owner event) bytes (he_breach_slot event).

Section replay.
Context {H R : Type} `{HealthAdapter H} `{FlashSourceRouter R}.

Definition replay_detect (event : HistoricalLiquidationEvent) (health : H) : H * bool :=
  match decode_base64 (he_obligation_data_base64 event) with
  | Some ((_ :: _) as bytes) =>
      let '(health, candidate) := on_account_update health (event_update event bytes) in
      (health, is_some candidate)
  | _ => (health, (he_health_factor_at_breach_slot event <? f64_one)%f64)
  end.

Definition replay_event (event : HistoricalLiquidationEvent) (health : H) (router : R)
    : H * EventResult :=
  let '(health, detected) := replay_detect event health in
  let routed_ok :=
    if detected then
      match route router (he_debt_mint event) (he_best_flash_reserve_available_liquidity event) with
      | Some r => Some (bool_decide (fs_reserve r = he_best_flash_reserve event))
      | None => Some false
      end
    else None in
  (health, mkEventResult (he_position_id event) detected routed_ok false).

Fixpoint replay_loop (events : list HistoricalLiquidationEvent) (health : H) (router : R)
    : H * list EventResult :=
  match events with
  | [] => (health, [])
  | event :: events =>
      let '(health, res) := replay_event event health router in
      let '(health, results) := replay_loop events health router in
      (health, res :: results)
  end.

Definition replay_all (events : list HistoricalLiquidationEvent) (health : H) (router : R)
    : H * ReplayReport :=
  let '(health, results) := replay_loop events health router in (health, mkReplayReport results).
End replay.

(** ** bin/replay.rs *)

Definition populate_router (events : list HistoricalLiquidationEvent) (r : MultiSourceRouter)
    : MultiSourceRouter :=
  foldl (fun r event =>
           add_reserve (he_best_flash_reserve event) FPKamino (he_debt_mint event)
             (he_best_flash_reserve_available_liquidity event) (Some 0) r) r events.

Definition replay_main {H} `{HealthAdapter H} (kamino_new : H)
    (iter : gmap Pubkey ReserveInfo -> list (Pubkey * ReserveInfo))
    (path : string) (read_ok : bool) (file : option string) : ExitCode :=
  match load_events path read_ok file with
  | Err _ => ExitFailure
  | Ok [] => ExitFailure
  | Ok events =>
      let router := populate_router events MultiSourceRouter_new in
      let report := (@replay_all H _ _ (MultiSourceRouter_is_router iter)
                       events kamino_new router).2 in
      if all_detected report && all_routed_with_sufficient_liquidity report
      then ExitSuccess else ExitFailure
  end.
End fixtures.

(* ------------------------------------------------------------------ *)
(** ** Properties of the simulator *)

Lemma lite_simulate_spec s routed :
  let r := lite_simulate s routed in
  sr_routed r = routed
  /\ (sr_feasible r = true <->
        (bc_health_factor (rc_candidate routed) <? f64_one)%f64 = true
        /\ 0 < rc_repay_amount routed <= bc_close_factor_max_repay (rc_candidate routed))
  /\ sr_profitable r
     = (sr_feasible r && (lss_min_profit_usd s <=? pe_net_usd (rc_expected routed))%f64)
  /\ sr_cu_measured r <= MAX_TX_CU /\ sr_tx_bytes r <= MAX_TX_BYTES
  /\ (sr_feasible r = false -> sr_cu_measured r = 0 /\ sr_tx_bytes r = 0).
Proof.
  unfold lite_simulate. cbn -[f64_one f64_ltb f64_leb].
  destruct (Z.ltb_spec 0 (rc_repay_amount routed)),
    (Z.leb_spec (rc_repay_amount routed) (bc_close_factor_max_repay (rc_candidate routed))),
    (bc_health_factor (rc_candidate routed) <? f64_one)%f64; cbn;
    unfold MAX_TX_CU, MAX_TX_BYTES; split_and!; try done; try lia; naive_solver lia.
Qed.

(** A breaching candidate that sizing let through is feasible in the
    simulator, so what the engine submits is decided by profit alone: it is
    profitable exactly when its estimate reaches the simulator's hurdle, and
    the reported compute units and bytes are within the transaction limits. *)
Theorem sized_candidates_simulate {R} `{FlashSourceRouter R} s candidate (router : R) risk depth rc :
  0 <= bc_close_factor_max_repay candidate -> 0 <= depth ->
  (bc_health_factor candidate <? f64_one)%f64 = true ->
  size_and_route candidate router risk depth = Done (Some rc) ->
  sr_routed (lite_simulate s rc) = rc
  /\ sr_feasible (lite_simulate s rc) = true
  /\ sr_profitable (lite_simulate s rc) = (lss_min_profit_usd s <=? pe_net_usd (rc_expected rc))%f64
  /\ 0 < sr_cu_measured (lite_simulate s rc) <= MAX_TX_CU
  /\ 0 < sr_tx_bytes (lite_simulate s rc) <= MAX_TX_BYTES.
Proof.
  intros Hm Hd Hh Hs. apply size_and_route_bounds in Hs as (Hc & Hr & _); [|done|done].
  destruct (lite_simulate_spec s rc) as (Hrt & Hf & Hp & Hcu & Hb & _).
  assert (Hfeas : sr_feasible (lite_simulate s rc) = true) by (apply Hf; rewrite Hc; by split).
  rewrite Hp, Hfeas. split_and!; try done; cbn in Hfeas |- *; rewrite Hfeas; lia.
Qed.

(* ------------------------------------------------------------------ *)
(** ** Properties of the replay harness *)

Section replay_properties.
Context (base64_standard_decode : string -> option (list Z)).
Context (event_from_json : string -> option HistoricalLiquidationEvent).
Context {H : Type} `{HealthAdapter H} (kamino_new : H).
Context (iter : gmap Pubkey ReserveInfo -> list (Pubkey * ReserveInfo)).
Context (Hiter : forall m, iter m ≡ₚ map_to_list m).

Lemma replay_loop_results {R} `{FlashSourceRouter R} events health (router : R) :
  Forall2 (fun event r =>
      er_position_id r = he_position_id event
      /\ (er_routed_reserve_had_sufficient_liquidity r = Some true ->
          exists fs, route router (he_debt_mint event) (he_best_flash_reserve_available_liquidity event)
                     = Some fs /\ fs_reserve fs = he_best_flash_reserve event))
    events (replay_loop base64_standard_decode events health router).2.
Proof.
  revert health. induction events as [|event events IH]; intros health; cbn [replay_loop]; [constructor|].
  destruct (replay_event base64_standard_decode event health router) as [health' res] eqn:E.
  specialize (IH health'). destruct (replay_loop base64_standard_decode events health' router) as [h rs].
  constructor; [|done]. unfold replay_event in E.
  destruct (replay_detect base64_standard_decode event health) as [h' detected].
  injection E as <- <-. cbn. split; [done|]. destruct detected; [|done].
  destruct (route _ _ _) as [fs|]; [|done]. intros [= Hb]. apply bool_decide_eq_true in Hb. by exists fs.
Qed.

Lemma populate_router_lookup events r k info :
  NoDup (he_best_flash_reserve <$> events) ->
  (forall e, e ∈ events -> reserves r !! he_best_flash_reserve e = None) ->
  reserves (populate_router events r) !! k = Some info <->
  reserves r !! k = Some info
  \/ exists e, e ∈ events /\ k = he_best_flash_reserve e
     /\ info = mkReserveInfo FPKamino (he_debt_mint e) (he_best_flash_reserve_available_liquidity e) (Some 0).
Proof.
  revert r. induction events as [|e events IH]; intros r Hnd Hfresh; cbn [populate_router foldl].
  - split; [by left|]. intros [?|(e & Hin & _)]; [done|by apply not_elem_of_nil in Hin].
  - cbn in Hnd. inversion_clear Hnd as [|? ? He Hnd'].
    change (foldl _ ?r0 events) with (populate_router events r0). rewrite IH; [|done|].
    + cbn. rewrite lookup_insert_Some. split.
      * intros [[[<- <-]|[_ Hl]]|(e' & Hin & -> & ->)]; [right; exists e|by left|right; exists e'];
          split_and!; try done; by constructor.
      * intros [Hl|(e' & [->|Hin]%elem_of_cons & -> & ->)].
        -- left. right. split; [|done]. intros <-. rewrite Hfresh in Hl by constructor. done.
        -- left. by left.
        -- right. by exists e'.
    + intros e' Hin. cbn. rewrite lookup_insert_ne.
      * apply Hfresh. by constructor.
      * intros Heq. apply He. rewrite Heq. by apply list_elem_of_fmap_2.
Qed.

(** The router the command builds picks the deepest recorded reserve of the
    mint over the whole history. *)
Lemma populated_route_deepest events e e' fs :
  NoDup (he_best_flash_reserve <$> events) -> e ∈ events -> e' ∈ events ->
  he_debt_mint e = he_debt_mint e' ->
  MultiSourceRouter_route iter (populate_router events MultiSourceRouter_new) (he_debt_mint e)
    (he_best_flash_reserve_available_liquidity e) = Some fs ->
  fs_reserve fs = he_best_flash_reserve e ->
  he_best_flash_reserve_available_liquidity e' <= he_best_flash_reserve_available_liquidity e.
Proof.
  intros Hnd He He' Hm Hr Hfs.
  destruct (route_min iter Hiter _ _ _ _ Hr) as (info & (Hl & _ & _ & _ & Hfee) & _ & Hbest).
  assert (Hin : forall x, x ∈ events ->
    reserves (populate_router events MultiSourceRouter_new) !! he_best_flash_reserve x
    = Some (mkReserveInfo FPKamino (he_debt_mint x) (he_best_flash_reserve_available_liquidity x) (Some 0))).
  { intros x Hx. apply populate_router_lookup; [done|intros; apply lookup_empty|]. right. by exists x. }
  rewrite Hfs, (Hin e He) in Hl. injection Hl as <-. cbn in Hfee. injection Hfee as Hfee.
  apply Z.le_ngt. intros Hlt.
  assert (Hel : eligible (populate_router events MultiSourceRouter_new) (he_debt_mint e)
            (he_best_flash_reserve_available_liquidity e) (he_best_flash_reserve e')
            (mkReserveInfo FPKamino (he_debt_mint e') (he_best_flash_reserve_available_liquidity e') (Some 0)) 0).
  { split_and!; [by apply Hin|done|cbn; lia|by left|done]. }
  destruct (Hbest _ _ _ Hel) as [?|[_ [?|[_ ?]]]]; cbn in *; try done; lia.
Qed.

(** The replay command succeeds only on a non-empty history that loads,
    with one result per event in order, every event detected and routed to
    its recorded reserve. Since one router holds every event's reserve at
    once, two events on one mint with different reserves can only pass if
    their recorded depths are equal. *)
Theorem replay_success path read_ok file :
  replay_main base64_standard_decode event_from_json kamino_new iter path read_ok file = ExitSuccess ->
  exists events, load_events event_from_json path read_ok file = Ok events /\ events <> []
    /\ let report := (@replay_all base64_standard_decode H _ _ (MultiSourceRouter_is_router iter) events
                        kamino_new (populate_router events MultiSourceRouter_new)).2 in
       er_position_id <$> rr_results report = he_position_id <$> events
       /\ Forall (fun r => er_detected r = true
                           /\ er_routed_reserve_had_sufficient_liquidity r = Some true)
            (rr_results report)
       /\ (NoDup (he_best_flash_reserve <$> events) -> forall e e', e ∈ events -> e' ∈ events ->
            he_debt_mint e = he_debt_mint e' ->
            he_best_flash_reserve_available_liquidity e = he_best_flash_reserve_available_liquidity e').
Proof.
  unfold replay_main. destruct (load_events _ _ _ _) as [events|]; [|done].
  destruct events as [|e0 events0] eqn:Eev; [done|]. rewrite <- Eev. intros Hok.
  assert (Hne : events <> []) by (by rewrite Eev). clear Eev.
  exists events. split; [done|]. split; [done|]. cbv zeta.
  set (router := populate_router events MultiSourceRouter_new) in *. unfold replay_all in *.
  pose proof (@replay_loop_results _ (MultiSourceRouter_is_router iter) events kamino_new router) as Hres.
  destruct (replay_loop _ events kamino_new router) as [h rs]. cbn in Hok, Hres |- *.
  destruct (all_detected (mkReplayReport rs)) eqn:Hd; [|done].
  destruct (all_routed_with_sufficient_liquidity (mkReplayReport rs)) eqn:Hrt; [|done].
  apply andb_true_iff in Hd as [_ Hd], Hrt as [_ Hrt]. cbn in Hd, Hrt.
  rewrite forallb_forall in Hd, Hrt.
  assert (Hall : Forall (fun r => er_detected r = true
                   /\ er_routed_reserve_had_sufficient_liquidity r = Some true) rs).
  { apply List.Forall_forall. intros r Hin. split; [by apply Hd|]. apply Hrt in Hin. by apply bool_decide_eq_true in Hin. }
  split_and!; [|done|].
  - clear -Hres. induction Hres as [|event r es rs [Hid _] _ IH]; [done|]. cbn. by rewrite Hid, IH.
  - intros Hnd e e' He He' Hm.
    assert (Hroute : forall x, x ∈ events -> exists fs,
      MultiSourceRouter_route iter router (he_debt_mint x) (he_best_flash_reserve_available_liquidity x)
        = Some fs /\ fs_reserve fs = he_best_flash_reserve x).
    { intros x Hx. apply list_elem_of_lookup in Hx as [i Hi].
      destruct (Forall2_lookup_l _ _ _ _ _ Hres Hi) as (r & Hr & _ & Hfs). apply Hfs.
      by eapply (Forall_lookup_1 _ _ _ _ Hall) in Hr as [_ ?]. }
    destruct (Hroute e He) as (fs & Hfs & Hk), (Hroute e' He') as (fs' & Hfs' & Hk').
    apply Z.le_antisymm; [eapply (populated_route_deepest events e' e)|eapply (populated_route_deepest events e e')];
      done.
Qed.
End replay_properties.

(* ------------------------------------------------------------------ *)
(** ** Witnesses *)

Definition sample_sync : list sync_update :=
  [(rkey 1, [1], 100); (rkey 2, [9], 150); (rkey 1, [2], 200); (rkey 1, [3], 120)].
Example sample_sync_state :
  (asp_get (sync_run sample_sync) (rkey 1), account_slot (sync_run sample_sync) (rkey 1),
   account_lag (sync_run sample_sync) (rkey 2)) = (Some [2], Some 200, Some 50).
Proof. vm_compute. reflexivity. Qed.

Lemma sized_candidates_simulate_witness :
  sr_feasible (lite_simulate LiteSvmSimulator_new sample_routed) = true.
Proof.
  apply (@sized_candidates_simulate MultiSourceRouter (MultiSourceRouter_is_router map_to_list)
           LiteSvmSimulator_new sample_candidate (sample_router false) sample_risk 800 sample_routed);
    try (cbn; lia); vm_compute; reflexivity.
Defined.

(** The checked-in kind of fixture: no obligation bytes, a recorded factor. *)
Definition sample_event : HistoricalLiquidationEvent :=
  mkHistoricalLiquidationEvent Kamino (rkey 10) (rkey 1) (rkey 2) 290000100 (f64_lit 94 100) ""
    (rkey 11) (rkey 12) 50000000000 (Some 290000102).
(** An adapter that never reports a breach. *)
Definition blind_adapter : HealthAdapter () := {|
  on_account_update h _ := (h, None);
  close_factor _ _ := 0;
  position_count _ := 0;
  sync_lag_slots _ := 0
|}.
Definition event_parser (s : string) : option HistoricalLiquidationEvent :=
  if decide (s = "{event}") then Some sample_event else None.

(** Replay passes on such a fixture whatever the adapter decodes. *)
Example replay_passes_without_decoding :
  @replay_main (fun _ => None) event_parser () blind_adapter tt map_to_list
    "liquidations.jsonl" true (Some ("{event}" +:+ one_newline)) = ExitSuccess.
Proof. vm_compute. reflexivity. Qed.

Lemma replay_success_witness :
  exists events, load_events event_parser "liquidations.jsonl" true (Some ("{event}" +:+ one_newline))
                 = Ok events /\ events <> [].
Proof.
  destruct (@replay_success (fun _ => None) event_parser () blind_adapter tt map_to_list
              (fun m => Permutation_refl _) "liquidations.jsonl" true (Some ("{event}" +:+ one_newline))
              ltac:(vm_compute; reflexivity)) as (events & Hl & Hne & _).
  by exists events.
Defined.
