(* ===== verification/RecordTests.v ===== *)
(** * The tests of crates/treasury, crates/store and crates/sim.

    The tests that write a file and read it back hold for every serializer
    that reads back the numbers of their samples; the log's test, which only
    counts records, for every serializer with serde_json's contract. The replay tests run the replay harness
    over their own health adapter and router, defined as instances of the
    interfaces. *)

From Stdlib Require Import ZArith Lia.
From stdpp Require Import base gmap list strings option.
From S2P Require Import Prelude Lists Harness F64 Text CoreTypes Config Router Bundler Sizing Treasury Store Sim.

Open Scope rust_scope.

Definition rpk (b : Z) : Pubkey := Pubkey_new (replicate 32 b).

(** ** treasury: pnl_ledger.rs *)

Definition windowed_sum_excludes_entries_outside_the_window : test :=
  let ledger := pnl_record 100 (f64_of_Z 50) PnlLedger_new in
  let ledger := pnl_record 600 (f64_of_Z 30) ledger in
  let ledger := pnl_record 900 (f64_neg (f64_of_Z 10)) ledger in
  let sum := windowed_sum ledger 1000 500 in
  assert (sum =? f64_of_Z 20)%f64.

Definition prune_removes_only_entries_older_than_the_window : test :=
  let ledger := pnl_record 100 f64_one PnlLedger_new in
  let ledger := pnl_record 900 f64_one ledger in
  let ledger := prune_older_than 1000 500 ledger in
  assert_eq (pnl_len ledger) 1.

Definition drawdown_breached_uses_absolute_value_of_the_configured_limit : test :=
  let limit := f64_of_Z 1000 in
  do! assert (drawdown_breached (f64_neg (f64_of_Z 1000)) limit) in
  do! assert (drawdown_breached (f64_neg (f64_of_Z 1500)) limit) in
  do! assert (negb (drawdown_breached (f64_neg (f64_of_Z 999)) limit)) in
  assert (negb (drawdown_breached (f64_of_Z 500) limit)).

Definition sample_ledger : PnlLedger :=
  pnl_record 200 (f64_neg (f64_lit 102 10)) (pnl_record 100 (f64_lit 255 10) PnlLedger_new).

Definition test_snapshot_restore_roundtrip (to_json : list Entry -> option string)
    (from_json : string -> option (list Entry)) : test :=
  let '(file, written) := pnl_snapshot to_json Written None sample_ledger in
  let! _ := unwrap written in
  let! restored := unwrap (pnl_restore from_json file) in
  do! assert_eq (pnl_len restored) 2 in
  assert (windowed_sum restored 250 200 =? f64_lit 153 10)%f64.

(** ** treasury: sweep.rs *)

Definition below_minimum_balance_is_strict_less_than : test :=
  do! assert (is_below_minimum_balance (f64_lit 5 10) f64_one) in
  do! assert (negb (is_below_minimum_balance f64_one f64_one)) in
  assert (negb (is_below_minimum_balance (f64_of_Z 2) f64_one)).

Definition expect_slots (interval : string) (slots : Z) : test :=
  let! parsed := parse_sweep_interval_slots interval 400 in
  let! got := unwrap parsed in
  assert_eq got slots.
Definition parses_hours_minutes_seconds_days : test :=
  do! expect_slots "1h" (3600 * 1000 / 400) in
  do! expect_slots "30m" (30 * 60 * 1000 / 400) in
  do! expect_slots "45s" (45 * 1000 / 400) in
  expect_slots "1d" (86400 * 1000 / 400).

Definition rejects (interval : string) (p : SweepIntervalError -> bool) : test :=
  let! parsed := parse_sweep_interval_slots interval 400 in
  assert (match parsed with Err e => p e | Ok _ => false end).
Definition rejects_malformed_or_unknown_unit_intervals : test :=
  do! rejects "" (fun e => match e with SweepEmpty => true | _ => false end) in
  do! rejects "1w" (fun e => match e with SweepUnknownUnit _ => true | _ => false end) in
  rejects "xh" (fun e => match e with SweepMalformed _ => true | _ => false end).

Definition sweep_due_once_interval_has_elapsed : test :=
  do! assert (negb (sweep_due 1000 900 200)) in
  do! assert (sweep_due 1000 800 200) in
  assert (sweep_due 1000 700 200).

(** ** store: position_book.rs *)

Definition book_sample (id_byte slot : Z) : PositionRecord :=
  mkPositionRecord Kamino (rpk id_byte) (rpk 1) (rpk 2) (f64_lit 97 100) slot.

Definition upsert_overwrites_by_position_id : test :=
  let book := upsert (book_sample 1 200) (upsert (book_sample 1 100) PositionBook_new) in
  do! assert_eq (book_len book) 1 in
  let! record := unwrap_option (book_get book (rpk 1)) in
  assert_eq (pr_last_updated_slot record) 200.

Definition book_of_25 : PositionBook :=
  foldl (fun book i => upsert (book_sample i (i * 10)) book) PositionBook_new (range 0 25).

Section book_tests.
Context (to_json : list PositionRecord -> option string)
  (from_json : string -> option (list PositionRecord))
  (values : PositionBook -> list PositionRecord).

Definition snapshot_restore_round_trip_loses_nothing : test :=
  let '(file, written) := book_snapshot to_json values "position_book.json" Written None book_of_25 in
  let! _ := unwrap written in
  let! restored := unwrap (book_restore from_json "position_book.json" file) in
  do! assert_eq (book_len restored) (book_len book_of_25) in
  for_each (values book_of_25) (fun original =>
    let! restored_record := unwrap_option (book_get restored (pr_position_id original)) in
    assert_eq restored_record original).

Definition restore_missing_file_errors : test :=
  let! err := unwrap_err (book_restore from_json "/nonexistent/position_book.json" None) in
  assert (match err with StoreIo _ => true | _ => false end).
End book_tests.

(** ** store: liquidation_log.rs *)

Definition log_sample (slot : Z) : LiquidationRecord :=
  mkLiquidationRecord
    (mkRoutedCandidate
       (mkBreachCandidate Kamino (rpk 9) (rpk 1) (rpk 2) (f64_lit 91 100) 1000000 slot)
       500000 (mkFlashSource Kamino (rpk 3) 5)
       (mkProfitEstimate (f64_of_Z 40) (f64_of_Z 2) f64_one (f64_lit 5 10) (f64_of_Z 10) (f64_lit 265 10)))
    (Landed (slot + 1) (f64_lit 259 10)) slot (slot + 1).

Definition append_only_persists_across_reopen (to_json : LiquidationRecord -> option string)
    (from_json : string -> option LiquidationRecord) : test :=
  let path := "liquidation_log.jsonl" in
  let! log := unwrap (log_open from_json path true None) in
  let '(st, appended) := log_append to_json Written (log_sample 100) (log, None) in
  let! _ := unwrap appended in
  let '((log, file), appended) := log_append to_json Written (log_sample 200) st in
  let! _ := unwrap appended in
  do! assert_eq (log_len log) 2 in
  let! reopened := unwrap (log_open from_json path true file) in
  assert_eq (log_len reopened) 2.

(** ** sim: account_sync.rs *)

Definition newer_update_overwrites_older : test :=
  let '(pipeline, applied) := apply_update (rpk 1) [1] 100 AccountSyncPipeline_new in
  do! assert applied in
  let '(pipeline, applied) := apply_update (rpk 1) [2] 200 pipeline in
  do! assert applied in
  do! assert_eq (asp_get pipeline (rpk 1)) (Some [2]) in
  assert_eq (account_slot pipeline (rpk 1)) (Some 200).

Definition out_of_order_older_update_is_dropped_not_applied : test :=
  let pipeline := (apply_update (rpk 1) [2] 200 AccountSyncPipeline_new).1 in
  let '(pipeline, applied) := apply_update (rpk 1) [1] 100 pipeline in
  do! assert (negb applied) in
  assert_eq (asp_get pipeline (rpk 1)) (Some [2]).

Definition account_lag_reflects_distance_from_pipeline_current_slot : test :=
  let pipeline := (apply_update (rpk 1) [1] 100 AccountSyncPipeline_new).1 in
  let pipeline := (apply_update (rpk 2) [1] 150 pipeline).1 in
  do! assert_eq (account_lag pipeline (rpk 1)) (Some 50) in
  assert_eq (account_lag pipeline (rpk 2)) (Some 0).

(** ** sim: simulator.rs *)

Definition sim_candidate (health_factor : f64) (fee_bps : Z) (flash_fee_usd net_usd : f64)
    : RoutedCandidate :=
  mkRoutedCandidate
    (mkBreachCandidate Kamino (rpk 1) (rpk 2) (rpk 3) health_factor 1000000 100)
    500000 (mkFlashSource Kamino (rpk 4) fee_bps)
    (mkProfitEstimate (f64_of_Z 100) (f64_of_Z 5) flash_fee_usd (f64_lit 5 10) (f64_of_Z 10) net_usd).

Definition test_simulator_feasibility_and_profitability : test :=
  let result := lite_simulate LiteSvmSimulator_new
    (sim_candidate (f64_lit 95 100) 9 f64_one (f64_lit 835 10)) in
  do! assert (sr_feasible result) in
  do! assert (sr_profitable result) in
  do! assert (0 <? sr_cu_measured result) in
  assert (0 <? sr_tx_bytes result).

Definition test_simulator_rejects_non_breached_candidate : test :=
  let result := lite_simulate LiteSvmSimulator_new
    (sim_candidate (f64_lit 105 100) 0 f64_zero (f64_lit 845 10)) in
  do! assert (negb (sr_feasible result)) in
  assert (negb (sr_profitable result)).

Definition test_simulator_instructions_with_litesvm {Instr Signer : Type} (transfer : Instr)
    (payer : Signer) : test :=
  let! measured := unwrap (simulate_instructions LiteSvmSimulator_new [transfer] payer []) in
  let '(cu, bytes) := measured in
  do! assert (0 <? cu) in
  assert (0 <? bytes).

(** ** sim: replay.rs *)

Record StubHealth := mkStubHealth { sh_breaches : gset Pubkey }.

#[global] Instance StubHealth_adapter : HealthAdapter StubHealth := {|
  on_account_update h update :=
    (h, if decide (au_pubkey update ∈ sh_breaches h)
        then Some (mkBreachCandidate Kamino (au_pubkey update) (rpk 1) (rpk 2) (f64_lit 9 10) 1000
                     (au_slot update))
        else None);
  close_factor _ _ := 0;
  position_count h := Z.of_nat (size (sh_breaches h));
  sync_lag_slots _ := 0
|}.

Record StubRouter := mkStubRouter { st_reserve : Pubkey; st_available : Z }.

#[global] Instance StubRouter_router : FlashSourceRouter StubRouter := {|
  route r _ amount :=
    if amount <=? st_available r then Some (mkFlashSource Kamino (st_reserve r) 5) else None
|}.

Definition synthetic_event (position best_reserve : Pubkey) (available : Z)
    : HistoricalLiquidationEvent :=
  mkHistoricalLiquidationEvent Kamino position (rpk 1) (rpk 2) 100 (f64_lit 9 10) EmptyString
    (rpk 9) best_reserve available (Some 101).

#[global] Instance eta_HistoricalLiquidationEvent : Eta HistoricalLiquidationEvent := fun e =>
  mkHistoricalLiquidationEvent (he_protocol e) (he_position_id e) (he_collateral_mint e)
    (he_debt_mint e) (he_breach_slot e) (he_health_factor_at_breach_slot e)
    (he_obligation_data_base64 e) (he_obligation_owner e) (he_best_flash_reserve e)
    (he_best_flash_reserve_available_liquidity e) (he_landed_slot e).

Section replay_tests.
Context (base64_standard_decode : string -> option (list Z)).

Definition expect_replay (event : HistoricalLiquidationEvent) (health : StubHealth)
    (router : StubRouter) (detected : bool) (routed : option bool) : test :=
  let result := (replay_event base64_standard_decode event health router).2 in
  do! assert_eq (er_detected result) detected in
  assert_eq (er_routed_reserve_had_sufficient_liquidity result) routed.

Definition detected_and_correctly_routed_event_passes_both_axes : test :=
  expect_replay (synthetic_event (rpk 5) (rpk 6) 1000000) (mkStubHealth {[rpk 5]})
    (mkStubRouter (rpk 6) 1000000) true (Some true).

Definition missed_detection_short_circuits_routing_check : test :=
  let event := (synthetic_event (rpk 5) (rpk 6) 1000000)
                 <| he_health_factor_at_breach_slot := f64_lit 15 10 |> in
  expect_replay event (mkStubHealth ∅) (mkStubRouter (rpk 6) 1000000) false None.

Definition routed_to_wrong_reserve_fails_routing_axis_even_when_detected : test :=
  expect_replay (synthetic_event (rpk 5) (rpk 6) 1000000) (mkStubHealth {[rpk 5]})
    (mkStubRouter (rpk 7) 1000000) true (Some false).

Definition report_aggregates_pass_fail_correctly : test :=
  let report := mkReplayReport [mkEventResult (rpk 1) true (Some true) false] in
  do! assert (all_detected report) in
  do! assert (all_routed_with_sufficient_liquidity report) in
  let report := mkReplayReport (rr_results report ++ [mkEventResult (rpk 2) false None false]) in
  assert (negb (all_detected report)).
End replay_tests.

(* ------------------------------------------------------------------ *)

Definition record_unit_tests : list test :=
  [windowed_sum_excludes_entries_outside_the_window;
   prune_removes_only_entries_older_than_the_window;
   drawdown_breached_uses_absolute_value_of_the_configured_limit;
   below_minimum_balance_is_strict_less_than; parses_hours_minutes_seconds_days;
   rejects_malformed_or_unknown_unit_intervals; sweep_due_once_interval_has_elapsed;
   upsert_overwrites_by_position_id; newer_update_overwrites_older;
   out_of_order_older_update_is_dropped_not_applied;
   account_lag_reflects_distance_from_pipeline_current_slot;
   test_simulator_feasibility_and_profitability; test_simulator_rejects_non_breached_candidate;
   test_simulator_instructions_with_litesvm tt tt;
   report_aggregates_pass_fail_correctly].

Lemma record_unit_tests_pass : forallb passes record_unit_tests = true.
Proof. vm_compute. reflexivity. Qed.

(** An event without account bytes never reaches the base64 decoder, nor the
    adapter: what replays it is the recorded health factor. *)
Lemma replay_tests_pass base64_standard_decode :
  forallb passes
    [detected_and_correctly_routed_event_passes_both_axes base64_standard_decode;
     missed_detection_short_circuits_routing_check base64_standard_decode;
     routed_to_wrong_reserve_fails_routing_axis_even_when_detected base64_standard_decode] = true.
Proof. vm_compute. reflexivity. Qed.

(** The stubs' adapter is therefore not exercised by the tests that name it. *)
Lemma replay_tests_ignore_adapter base64_standard_decode event health router :
  he_obligation_data_base64 event = EmptyString ->
  (replay_event base64_standard_decode event (health : StubHealth) (router : StubRouter)).2
  = (replay_event base64_standard_decode event (mkStubHealth ∅) router).2.
Proof.
  intros Hd. unfold replay_event, replay_detect, decode_base64. rewrite Hd. done.
Qed.

Lemma snapshot_tests_pass to_json from_json :
  (forall es, is_some (to_json es) = true) ->
  (forall j, to_json (entries sample_ledger) = Some j -> from_json j = Some (entries sample_ledger)) ->
  passes (test_snapshot_restore_roundtrip to_json from_json) = true.
Proof.
  intros Hs Hrt. unfold test_snapshot_restore_roundtrip, pnl_snapshot, pnl_restore.
  specialize (Hs (entries sample_ledger)). destruct (to_json _) as [j|] eqn:E; [|done].
  cbn [fs_write unwrap unwrap_option]. rewrite (Hrt _ eq_refl). vm_compute. reflexivity.
Qed.

Lemma book_of_25_wf : book_wf book_of_25.
Proof.
  unfold book_of_25. generalize (range 0 25). intros l.
  assert (H0 : book_wf PositionBook_new) by done. revert H0. generalize PositionBook_new.
  induction l as [|i l IH]; intros b Hb; [done|]. cbn. apply IH, book_wf_upsert, Hb.
Qed.

Lemma book_tests_pass to_json from_json values :
  (forall m, values m ≡ₚ (map_to_list m).*2) ->
  (forall rs, is_some (to_json rs) = true) ->
  (forall j, to_json (values book_of_25) = Some j -> from_json j = Some (values book_of_25)) ->
  passes (snapshot_restore_round_trip_loses_nothing to_json from_json values) = true
  /\ passes (restore_missing_file_errors from_json) = true.
Proof.
  intros Hval Hs Hrt. split; [|done]. unfold snapshot_restore_round_trip_loses_nothing.
  assert (Hb := book_roundtrip to_json from_json values "position_book.json" Written None book_of_25
                  Hval Hrt book_of_25_wf).
  unfold book_snapshot in *. specialize (Hs (values book_of_25)).
  destruct (to_json _) as [j|]; [|done]. cbn [fs_write unwrap unwrap_option] in *.
  destruct Hb as [_ ->]. cbn [unwrap unwrap_option].
  test_steps; [done|]. rewrite for_each_passes. apply forallb_forall. intros r Hr%list_elem_of_In.
  rewrite Hval in Hr. apply list_elem_of_fmap in Hr as ([k r'] & -> & Hl%elem_of_map_to_list).
  unfold book_get. cbn. rewrite (book_of_25_wf k r' Hl), Hl. cbn. by apply assert_eq_pass.
Qed.

Lemma written_append to_json path r st :
  (forall r, is_some (to_json r) = true) -> log_rep to_json path st ->
  exists st', log_append to_json Written r st = (st', Ok tt)
    /\ log_rep to_json path st' /\ log_records st'.1 = log_records st.1 ++ [r].
Proof.
  intros Hs Hrep. assert (Hok : (log_append to_json Written r st).2 = Ok tt).
  { destruct Hrep as [lines Hp _ _], st as [l f]. cbn in Hp. unfold log_append. rewrite Hp.
    specialize (Hs r). by destruct (to_json r). }
  assert (Hr := log_append_records to_json Written r st).
  assert (Hrep' := log_rep_append to_json path Written r st eq_refl Hrep).
  destruct (log_append to_json Written r st) as [st' a]. cbn in Hok, Hr, Hrep'. subst a. by exists st'.
Qed.

Lemma log_test_passes to_json from_json :
  (forall r, is_some (to_json r) = true) ->
  json_lines to_json from_json ->
  passes (append_only_persists_across_reopen to_json from_json) = true.
Proof.
  intros Hs Hjson. unfold append_only_persists_across_reopen.
  set (path := "liquidation_log.jsonl"). cbn [log_open unwrap unwrap_option].
  assert (H0 : log_rep to_json path (mkLiquidationLog [] (Some path), None))
    by (exists []; [done|by right|constructor]).
  destruct (written_append to_json path (log_sample 100) _ Hs H0) as (st1 & -> & H1 & R1).
  destruct (written_append to_json path (log_sample 200) _ Hs H1) as ([log file] & E2 & H2 & R2).
  cbn [unwrap unwrap_option]. rewrite E2. cbn [unwrap unwrap_option].
  destruct (log_rep_open to_json from_json Hjson path _ H2) as (lines & Hl & _ & Ho).
  cbn [fst snd] in Hl, Ho, R1, R2. rewrite R2, R1 in Hl.
  destruct (parse_records_readable to_json from_json Hjson _ _ Hl) as (rs & Hp & Hsh); [by repeat constructor|].
  rewrite Ho, Hp. cbn [unwrap unwrap_option]. unfold log_len. cbn [log_records].
  apply (f_equal length) in Hsh. rewrite !length_fmap in Hsh. rewrite Hsh, R2, R1. test_steps; done.
Qed.
