(* ===== verification/Fixtures.v ===== *)
(** * crates/sim/src/bin/export_fixtures.rs: the fixture exporter, and what its
    output means to the replay command and to the readiness check. *)

From Stdlib Require Import ZArith Lia.
From stdpp Require Import base gmap list strings option.
From S2P Require Import Prelude Lists F64 Text CoreTypes Config Router Sim Readiness.

Open Scope rust_scope.

Inductive ExportError := ExportIo | ExportJson.

Definition export_path : string := "tests/fixtures/liquidations.jsonl".

Definition pubkey_of_byte (b : Z) : Pubkey := mkPubkey (replicate 32 b).

(** The one event the exporter knows. *)
Definition kamino_event : HistoricalLiquidationEvent :=
  let sol_mint := pubkey_of_byte 1 in
  let usdc_mint := pubkey_of_byte 2 in
  mkHistoricalLiquidationEvent Kamino (pubkey_of_byte 10) sol_mint usdc_mint 290000100
    (f64_lit 94 100) "" (pubkey_of_byte 11) (pubkey_of_byte 12) 50000000000 (Some 290000102).

Section export.
(** [serde_json::to_string] of an event; and the system's answers: to
    [create_dir_all], to [File::create] and to each write. *)
Context (event_to_json : HistoricalLiquidationEvent -> option string).

(** One [writeln!] to the open file. *)
Definition append_write (o : WriteOutcome) (line file : string) : string * bool :=
  match o with
  | Written => (file +:+ line, true)
  | OpenFailed => (file, false)
  | Torn n => (file +:+ String.substring 0 n line, false)
  end.

Fixpoint write_events (events : list HistoricalLiquidationEvent) (writes : list WriteOutcome)
    (file : string) : string * result unit ExportError :=
  match events with
  | [] => (file, Ok tt)
  | event :: events =>
      match event_to_json event with
      | None => (file, Err ExportJson)
      | Some serialized =>
          let '(file, ok) := append_write (hd Written writes) (serialized +:+ one_newline) file in
          if ok then write_events events (tl writes) file else (file, Err ExportIo)
      end
  end.

Definition export_main (dir_ok create_ok : bool) (writes : list WriteOutcome) (file : option string)
    : option string * result unit ExportError :=
  if negb dir_ok then (file, Err ExportIo)
  else if negb create_ok then (file, Err ExportIo)
  else let '(file, r) := write_events [kamino_event] writes EmptyString in (Some file, r).
End export.

(* ------------------------------------------------------------------ *)

Section exported.
Context (event_to_json : HistoricalLiquidationEvent -> option string).
Context (event_from_json : string -> option HistoricalLiquidationEvent).
Context (base64_standard_decode : string -> option (list Z)).

(** serde_json's output for the event: one line of text that reads back. *)
Context (json : string) (Hjson : event_to_json kamino_event = Some json).
Context (Hline : line_ok json) (Htrim : trim json <> EmptyString).
Context (Hparse : event_from_json json = Some kamino_event).

Lemma export_file file :
  export_main event_to_json true true [Written] file = (Some (unlines [json]), Ok tt).
Proof. unfold export_main. cbn. rewrite Hjson. reflexivity. Qed.

Lemma export_loads path :
  load_events event_from_json path true (Some (unlines [json])) = Ok [kamino_event].
Proof.
  cbn [load_events]. rewrite str_lines_unlines by (repeat constructor; apply Hline).
  cbn [for_lines]. destruct (trim json); [done|]. by rewrite Hparse.
Qed.

Context {H : Type} `{HealthAdapter H}.
Context (iter : gmap Pubkey ReserveInfo -> list (Pubkey * ReserveInfo)).
Context (Hiter : forall m, iter m ≡ₚ map_to_list m).

Lemma exported_route :
  MultiSourceRouter_route iter (populate_router [kamino_event] MultiSourceRouter_new)
    (he_debt_mint kamino_event) (he_best_flash_reserve_available_liquidity kamino_event)
  = Some (source_of 0 (he_best_flash_reserve kamino_event)).
Proof.
  unfold MultiSourceRouter_route, route_candidates.
  assert (Hi : iter (reserves (populate_router [kamino_event] MultiSourceRouter_new))
    = [(he_best_flash_reserve kamino_event,
        mkReserveInfo FPKamino (he_debt_mint kamino_event) 50000000000 (Some 0))]).
  { apply Permutation_singleton_r. rewrite Hiter. cbn. rewrite insert_empty. by rewrite map_to_list_singleton. }
  rewrite Hi. vm_compute. reflexivity.
Qed.

(** The exported fixture satisfies both gates without exercising anything.
    Whatever health adapter is used, and whatever it would decode, replaying
    the exporter's file succeeds, because its only event has no account bytes
    and a recorded health factor below one; and the readiness check reports
    the replay fixtures as verified. *)
Theorem exported_fixture_passes (kamino_new : H) file fs :
  exists contents,
    export_main event_to_json true true [Written] file = (Some contents, Ok tt)
    /\ load_events event_from_json export_path true (Some contents) = Ok [kamino_event]
    /\ replay_main base64_standard_decode event_from_json kamino_new iter export_path true (Some contents)
       = ExitSuccess
    /\ (path_exists fs export_path = true ->
        metadata_len fs export_path = Some (Z.of_nat (String.length contents)) ->
        cr_status (check_replay_fixtures fs) = Verified).
Proof.
  exists (unlines [json]). split_and!; [apply export_file|apply export_loads| |].
  - unfold replay_main. rewrite export_loads. unfold replay_all. cbn [replay_loop].
    unfold replay_event, replay_detect. cbn [decode_base64 he_obligation_data_base64 kamino_event].
    change (he_health_factor_at_breach_slot kamino_event <? f64_one)%f64 with true. cbv iota.
    change (route _ _ _) with (MultiSourceRouter_route iter (populate_router [kamino_event] MultiSourceRouter_new)
      (he_debt_mint kamino_event) (he_best_flash_reserve_available_liquidity kamino_event)).
    rewrite exported_route. vm_compute. reflexivity.
  - unfold check_replay_fixtures, export_path. intros -> ->. cbn [andb].
    assert (Hl : (0 < String.length (unlines [json]))%nat).
    { destruct json; apply Nat.lt_0_succ. }
    destruct (Z.ltb_spec 0 (Z.of_nat (String.length (unlines [json])))); [done|lia].
Qed.
End exported.

(** A file cut short by a failed write does not load when the remains do not
    parse. *)
Definition toy_json (e : HistoricalLiquidationEvent) : option string := Some "{event}".
Definition toy_parse (s : string) : option HistoricalLiquidationEvent :=
  if String.eqb s "{event}" then Some kamino_event else None.
Example export_torn :
  export_main toy_json true true [Torn 3] None = (Some "{ev", Err ExportIo)
  /\ load_events toy_parse export_path true (Some "{ev") = Err (FixtureJson 1).
Proof. split; vm_compute; reflexivity. Qed.

Lemma exported_fixture_passes_witness :
  exists contents, export_main toy_json true true [Written] None = (Some contents, Ok tt)
  /\ @replay_main (fun _ => None) toy_parse () blind_adapter tt map_to_list export_path true (Some contents)
     = ExitSuccess.
Proof.
  destruct (@exported_fixture_passes toy_json toy_parse (fun _ => None) "{event}" eq_refl
    ltac:(split; [reflexivity|intros p Hp; apply (f_equal split_last) in Hp;
                  rewrite split_last_app in Hp; discriminate Hp]) ltac:(discriminate) eq_refl
    unit blind_adapter map_to_list (fun m => Permutation_refl _) tt None
    (mkFilesystem (fun _ => true) (fun _ => Some 8) (fun _ => None))) as (c & He & _ & Hr & _).
  exists c. split; [exact He|exact Hr].
Defined.
