(* ===== verification/Submit.v ===== *)
(** * crates/submit/dual_path.rs: the send paths, the tip accounts, the
    leader schedule and the race of the dual-path submitter.

    Time is in milliseconds from the start of a send. A request to a server
    is a parameter that says when and how it is answered; the HTTP client's
    own timeout is applied here. A send that never resolves is [None]. *)

From Stdlib Require Import ZArith Lia.
From stdpp Require Import base list strings option.
From S2P Require Import Prelude Lists F64 Text CoreTypes.

Open Scope rust_scope.

Inductive PathOutcome :=
| PathLanded (slot : Z) (actual_net_usd : f64)
| PathReverted (reason : RevertReason)
| PathTimedOut.

(** A send in flight: when it resolves, and with what. *)
Definition Send : Type := option (Z * PathOutcome).

(** [trait SendPath]. *)
Class SendPath (P : Type) := { send : P -> Bundle -> Send; name : P -> string }.

(** ** The HTTP paths *)

Inductive JsonRpc :=
| SendTransaction (tx_base64 : string)
| SendBundle (txs_base64 : list string)
| GetTipAccounts.

(** The answer of a server: a status, or an error of the connection. *)
Inductive HttpReply := HttpStatus (is_success : bool) | HttpError.

Fixpoint trim_end_slashes (s : string) : string :=
  match s with
  | EmptyString => EmptyString
  | String c s =>
      match trim_end_slashes s with
      | EmptyString => if Ascii.eqb c (Ascii.ascii_of_nat 47) then EmptyString else String c EmptyString
      | t => String c t
      end
  end.

Section paths.
Context (base64_encode : list Z -> string).
(** What the server at a URL does with a request, and when. *)
Context (http_post : string -> JsonRpc -> option (Z * HttpReply)).

(** The client gives up after [limit] milliseconds. *)
Definition client_post (limit : Z) (url : string) (payload : JsonRpc) : Z * HttpReply :=
  match http_post url payload with
  | Some (t, r) => if t <? limit then (t, r) else (limit, HttpError)
  | None => (limit, HttpError)
  end.

Definition reply_outcome (bundle : Bundle) (r : HttpReply) : PathOutcome :=
  let routed := sr_routed (bu_sim bundle) in
  match r with
  | HttpStatus true =>
      PathLanded (wadd 64 (bc_slot (rc_candidate routed)) 1) (pe_net_usd (rc_expected routed))
  | HttpStatus false => PathReverted (ProgramError "transaction failed on-chain")
  | HttpError => PathTimedOut
  end.

Record StakedQuicSendPath := mkStakedQuicSendPath { tpu_endpoint : string }.
Definition staked_send (p : StakedQuicSendPath) (bundle : Bundle) : Send :=
  let b64_tx := base64_encode (bu_versioned_tx bundle) in
  let '(t, r) := client_post 800 (tpu_endpoint p) (SendTransaction b64_tx) in
  Some (t, reply_outcome bundle r).
#[global] Instance StakedQuicSendPath_path : SendPath StakedQuicSendPath :=
  {| send := staked_send; name _ := "staked_quic" |}.

Record JitoSendPath := mkJitoSendPath { block_engine_url : string }.
Definition jito_send (p : JitoSendPath) (bundle : Bundle) : Send :=
  let b64_tx := base64_encode (bu_versioned_tx bundle) in
  let endpoint := trim_end_slashes (block_engine_url p) +:+ "/api/v1/bundles" in
  let '(t, r) := client_post 1500 endpoint (SendBundle [b64_tx]) in
  Some (t, reply_outcome bundle r).
#[global] Instance JitoSendPath_path : SendPath JitoSendPath :=
  {| send := jito_send; name _ := "jito_block_engine" |}.
End paths.

(** ** Tip accounts *)

Definition DEFAULT_JITO_TIP_ACCOUNTS : list string := [
  "96gYZGLnJYVFmbjzopPSU6QiEV5fGqZNyN9nmNhvrZU5";
  "HFqU5x63VTqvQss8hp11i4wVV8bD44PvwucfZ2bU7gRe";
  "Cw8CFyM9FkoMi7K7Crf6HNQqf4uEMzpKw6QNghXLvLkY";
  "ADaUMid9yfUytqMBgopwjb2DTLSokTSzL1zt6iGPaS49";
  "DfXygSm4jCyNCybVYYK6DwvWqjKee8pbDmJGcLWNDXjh";
  "ADuUkR4vqLUMWXxW9gh6D6L8pMSawimctcNZ5pGwDcEt";
  "DttWaMuVvTiduZRnguLF7jNxTgiMBZ1hyAumKUiL2KRL";
  "3AVi9Tg9Uo68tJfuvoKvqKNWKkC5wPdSSdeBnizKZ6jT"
].
Definition first_default : string := "96gYZGLnJYVFmbjzopPSU6QiEV5fGqZNyN9nmNhvrZU5".

Record JitoTipManager := mkJitoTipManager {
  jtm_block_engine_url : string;
  jtm_active_tip_accounts : list string;
  (** Whether the lock around the list is poisoned. *)
  jtm_poisoned : bool
}.

Definition JitoTipManager_new (block_engine_url : string) : JitoTipManager :=
  mkJitoTipManager block_engine_url DEFAULT_JITO_TIP_ACCOUNTS false.

Definition get_active_tip_accounts (m : JitoTipManager) : list string :=
  if jtm_poisoned m then DEFAULT_JITO_TIP_ACCOUNTS else jtm_active_tip_accounts m.

(** [clock_ns]: the nanoseconds since the epoch, [None] before it; the index
    into the list would panic out of range. *)
Definition random_tip_account (clock_ns : option Z) (m : JitoTipManager) : panicking string :=
  let accounts := get_active_tip_accounts m in
  match accounts with
  | [] => Done first_default
  | _ =>
      let nanos := match clock_ns with Some n => wrap 64 n | None => 0 end in
      let idx := nanos mod Z.of_nat (length accounts) in
      match accounts !! Z.to_nat idx with
      | Some a => Done a
      | None => Panic
      end
  end.

Definition update_accounts (accounts : list string) (m : JitoTipManager) : JitoTipManager :=
  if jtm_poisoned m then m
  else mkJitoTipManager (jtm_block_engine_url m) accounts (jtm_poisoned m).

(** The answer to [getTipAccounts]: for a success, the [result] array when the
    body is JSON and has one, each element as a string when it is one. *)
Inductive TipReply :=
| TipBody (result_array : option (list (option string)))
| TipHttpError (status : string)
| TipNetworkError (e : string).

Definition fallback_to_defaults (reason : string) (m : JitoTipManager)
    : JitoTipManager * result (list string) string :=
  (update_accounts DEFAULT_JITO_TIP_ACCOUNTS m, Err ("Fallback to defaults: " +:+ reason)).

Definition refresh_tip_accounts (reply : TipReply) (m : JitoTipManager)
    : JitoTipManager * result (list string) string :=
  let bad := fallback_to_defaults "invalid or empty JSON-RPC response from getTipAccounts" m in
  match reply with
  | TipBody (Some arr) =>
      match omap id arr with
      | [] => bad
      | parsed => (update_accounts parsed m, Ok parsed)
      end
  | TipBody None => bad
  | TipHttpError status => fallback_to_defaults ("HTTP error " +:+ status) m
  | TipNetworkError e => fallback_to_defaults ("network error: " +:+ e) m
  end.

(** ** Leader schedule *)

(** [trait LeaderScheduleProvider]. *)
Class LeaderScheduleProvider (L : Type) := {
  has_jito_leader_in_window : L -> Z -> Z -> bool
}.

Record StaticLeaderSchedule := mkStaticLeaderSchedule { jito_slots : list Z }.

(** The loop over [current_slot..=current_slot + leaders_ahead]; the release
    build's addition wraps, and an inverted range is empty. *)
Definition static_has_jito_leader (s : StaticLeaderSchedule) (current_slot leaders_ahead : Z) : bool :=
  let last := wadd 64 current_slot leaders_ahead in
  existsb (fun i => bool_decide (current_slot + Z.of_nat i ∈ jito_slots s))
    (seq 0 (Z.to_nat (last - current_slot + 1))).
#[global] Instance StaticLeaderSchedule_provider : LeaderScheduleProvider StaticLeaderSchedule :=
  {| has_jito_leader_in_window := static_has_jito_leader |}.

(** ** The submitter *)

Section submitter.
Context {P Q L : Type} `{SendPath P} `{SendPath Q} `{LeaderScheduleProvider L}.

Record DualPathSubmitter := mkDualPathSubmitter {
  dps_staked_quic : P;
  dps_jito : Q;
  dps_timeout : Z;
  dps_leaders_ahead : Z;
  dps_leader_schedule : option L
}.

Definition DualPathSubmitter_new (staked_quic : P) (jito : Q) (timeout : Z) : DualPathSubmitter :=
  mkDualPathSubmitter staked_quic jito timeout 2 None.

Definition with_leader_schedule (leaders_ahead : Z) (schedule : L) (s : DualPathSubmitter)
    : DualPathSubmitter :=
  mkDualPathSubmitter (dps_staked_quic s) (dps_jito s) (dps_timeout s) leaders_ahead (Some schedule).

(** [tokio::time::timeout]: the inner result wins at the deadline. *)
Definition with_timeout (timeout : Z) (r : Send) : option PathOutcome :=
  match r with
  | Some (t, o) => if t <=? timeout then Some o else None
  | None => None
  end.

(** [tokio::select!]: the first send to resolve; [staked_first] is the branch
    it happens to poll first, which matters when both resolve together. *)
Definition race (staked_first : bool) (a b : Send) : Send :=
  match a, b with
  | Some (ta, oa), Some (tb, ob) =>
      if (ta <? tb) || ((ta =? tb) && staked_first) then Some (ta, oa) else Some (tb, ob)
  | Some r, None => Some r
  | None, r => r
  end.

Definition submit_outcome (o : option PathOutcome) : SubmitOutcome :=
  match o with
  | Some (PathLanded slot net) => Landed slot net
  | Some (PathReverted reason) => Reverted reason
  | Some PathTimedOut => NotIncluded
  | None => NotIncluded
  end.

Definition should_send_jito (s : DualPathSubmitter) (bundle : Bundle) : bool :=
  match dps_leader_schedule s with
  | Some schedule =>
      has_jito_leader_in_window schedule
        (bc_slot (rc_candidate (sr_routed (bu_sim bundle)))) (dps_leaders_ahead s)
  | None => true
  end.

Definition dual_submit (staked_first : bool) (s : DualPathSubmitter) (bundle : Bundle) : SubmitOutcome :=
  if negb (should_send_jito s bundle) then
    let staked_result :=
      match with_timeout (dps_timeout s) (send (dps_staked_quic s) bundle) with
      | Some res => res
      | None => PathTimedOut
      end in
    submit_outcome (Some staked_result)
  else
    submit_outcome (with_timeout (dps_timeout s)
      (race staked_first (send (dps_staked_quic s) bundle) (send (dps_jito s) bundle))).

#[global] Instance DualPathSubmitter_submitter (staked_first : bool) : Submitter DualPathSubmitter :=
  {| submit := dual_submit staked_first |}.

(* -------------------------------------------------------------- *)
(** ** Specification *)

(** The sends that were started and resolve before the deadline. *)
Definition in_time (s : DualPathSubmitter) (bundle : Bundle) (t : Z) (o : PathOutcome) : Prop :=
  t <= dps_timeout s
  /\ (send (dps_staked_quic s) bundle = Some (t, o)
      \/ (should_send_jito s bundle = true /\ send (dps_jito s) bundle = Some (t, o))).

Lemma race_Some w a b r :
  race w a b = Some r ->
  (a = Some r \/ b = Some r) /\ forall r', a = Some r' \/ b = Some r' -> r.1 <= r'.1.
Proof.
  unfold race. destruct a as [[ta oa]|], b as [[tb ob]|]; cbn; [|naive_solver lia..].
  destruct (Z.ltb_spec ta tb), (Z.eqb_spec ta tb), w; cbn; intros [= <-];
    split; try (by left); try (by right); intros r' [[= <-]|[= <-]]; cbn; lia.
Qed.

Lemma race_None w a b : race w a b = None <-> a = None /\ b = None.
Proof.
  unfold race. destruct a as [[ta oa]|], b as [[tb ob]|]; [|naive_solver..].
  destruct ((ta <? tb) || ((ta =? tb) && w)); naive_solver.
Qed.

(** C11: for every pair of transports, deadline, schedule and polling order, the
    submission reports the outcome of the earliest send that was started and
    resolved within the deadline, and [NotIncluded] when there is none; the
    Jito transport has no influence when no Jito leader is scheduled. *)
Theorem dual_submit_spec staked_first s bundle :
  ((forall t o, ~ in_time s bundle t o) -> dual_submit staked_first s bundle = NotIncluded)
  /\ (forall t o, in_time s bundle t o ->
      exists t' o', in_time s bundle t' o' /\ t' <= t
        /\ (forall t'' o'', in_time s bundle t'' o'' -> t' <= t'')
        /\ dual_submit staked_first s bundle = submit_outcome (Some o')).
Proof.
  unfold dual_submit, in_time.
  destruct (should_send_jito s bundle); cbn [negb].
  - destruct (race staked_first _ _) as [[tr or]|] eqn:Er; cbn [with_timeout].
    + apply race_Some in Er as [Hin Hmin].
      destruct (Z.leb_spec tr (dps_timeout s)).
      * split; [intros Hno; exfalso; apply (Hno tr or); naive_solver|].
        intros t o [Ht Ho]. exists tr, or.
        split_and!; [done|naive_solver|apply (Hmin (t, o)); naive_solver| |done].
        intros t'' o'' [_ Ho'']. apply (Hmin (t'', o'')). naive_solver.
      * split; [done|]. intros t o [Ht Ho].
        assert (tr <= t) by (apply (Hmin (t, o)); naive_solver). lia.
    + apply race_None in Er as [Ha Hb]. split; [done|]. intros t o [_ Ho]. naive_solver.
  - destruct (send (dps_staked_quic s) bundle) as [[ta oa]|]; cbn [with_timeout].
    + destruct (Z.leb_spec ta (dps_timeout s)).
      * split; [intros Hno; exfalso; apply (Hno ta oa); naive_solver|].
        intros t o [Ht Ho]. exists ta, oa. naive_solver lia.
      * split; [done|]. intros t o [Ht Ho]. naive_solver lia.
    + split; [done|]. naive_solver.
Qed.

(** Once the staked transport has timed out on its own, a bundle that would
    land through Jito later, still within the submitter's deadline, is
    reported as not included. *)
Theorem early_timeout_hides_landing staked_first s bundle t t' slot net :
  send (dps_staked_quic s) bundle = Some (t, PathTimedOut) ->
  send (dps_jito s) bundle = Some (t', PathLanded slot net) ->
  t < t' -> t' <= dps_timeout s ->
  dual_submit staked_first s bundle = NotIncluded.
Proof.
  intros Hs Hj Hlt Hle. unfold dual_submit. rewrite Hs, Hj. cbn [race with_timeout].
  destruct (Z.ltb_spec t t'); [|lia]. cbn [orb with_timeout].
  destruct (Z.leb_spec t (dps_timeout s)); [|lia]. by destruct (negb _).
Qed.
End submitter.

(* ------------------------------------------------------------------ *)
(** ** Tip accounts and schedules: properties *)

Definition tip_manager_wf (m : JitoTipManager) : Prop := jtm_active_tip_accounts m <> [].

Lemma get_active_nonempty m : tip_manager_wf m -> get_active_tip_accounts m <> [].
Proof. unfold get_active_tip_accounts, tip_manager_wf. by destruct (jtm_poisoned m). Qed.

Lemma random_tip_account_in clock m :
  exists a, random_tip_account clock m = Done a
    /\ (a ∈ get_active_tip_accounts m \/ get_active_tip_accounts m = [] /\ a = first_default).
Proof.
  unfold random_tip_account. destruct (get_active_tip_accounts m) as [|x xs] eqn:E; [by eexists; eauto|].
  set (l := x :: xs). set (n := match clock with Some _ => _ | None => 0 end).
  assert (Hr : 0 <= n mod Z.of_nat (length l) < Z.of_nat (length l)) by (apply Z.mod_pos_bound; cbn; lia).
  destruct (lookup_lt_is_Some_2 l (Z.to_nat (n mod Z.of_nat (length l)))) as [a Ha]; [lia|].
  rewrite Ha. exists a. split; [done|]. left. by eapply list_elem_of_lookup_2.
Qed.

Lemma refresh_wf reply m : tip_manager_wf m -> tip_manager_wf (refresh_tip_accounts reply m).1.
Proof.
  intros Hm. unfold refresh_tip_accounts, fallback_to_defaults, tip_manager_wf, update_accounts in *.
  destruct reply as [[arr|]| |]; [destruct (omap id arr)|..]; cbn; by destruct (jtm_poisoned m).
Qed.

Lemma refresh_poisoned reply m :
  jtm_poisoned m = false -> jtm_poisoned (refresh_tip_accounts reply m).1 = false.
Proof.
  intros Hm. unfold refresh_tip_accounts, fallback_to_defaults, update_accounts. rewrite Hm.
  destruct reply as [[arr|]| |]; [destruct (omap id arr)|..]; done.
Qed.

(** Whatever replies the block engine gives, and at any clock reading, a tip
    account is chosen without panicking from the list in force; that list is
    never empty, a well-formed non-empty reply replaces it and is returned, and
    every other reply resets it to the eight defaults and is an error. *)
Theorem tip_accounts_sound url replies reply clock :
  let m := foldl (fun m r => (refresh_tip_accounts r m).1) (JitoTipManager_new url) replies in
  let '(m', res) := refresh_tip_accounts reply m in
  (exists a, random_tip_account clock m = Done a /\ a ∈ get_active_tip_accounts m)
  /\ match res with
     | Ok accounts => accounts <> [] /\ get_active_tip_accounts m' = accounts
         /\ exists arr, reply = TipBody (Some arr) /\ accounts = omap id arr
     | Err _ => get_active_tip_accounts m' = DEFAULT_JITO_TIP_ACCOUNTS
         /\ forall arr, reply = TipBody (Some arr) -> omap id arr = []
     end.
Proof.
  intros m. assert (Hm : tip_manager_wf m /\ jtm_poisoned m = false).
  { unfold m. clear. induction replies as [|r rs [IHw IHp]] using rev_ind; [done|].
    rewrite foldl_app. cbn [foldl]. split; [by apply refresh_wf|]. by apply refresh_poisoned. }
  clearbody m. destruct Hm as [Hw Hp].
  destruct (refresh_tip_accounts reply m) as [m' res] eqn:E. split.
  - destruct (random_tip_account_in clock m) as (a & Ha & [?|[Hnil _]]); [by exists a|].
    by apply get_active_nonempty in Hnil.
  - unfold refresh_tip_accounts, fallback_to_defaults, update_accounts, get_active_tip_accounts in *.
    rewrite Hp in E.
    destruct reply as [[arr|]| |]; [destruct (omap id arr) eqn:Ea|..]; injection E as <- <-; cbn;
      rewrite ?Hp; split_and!; try done; try (by intros ? [= <-]). by exists arr.
Qed.

(** The static schedule answers whether a Jito slot lies in the window, as long
    as the window does not pass the last slot. *)
Lemma static_has_jito_leader_spec s current ahead :
  0 <= current -> 0 <= ahead -> current + ahead < 2 ^ 64 ->
  static_has_jito_leader s current ahead = true
  <-> exists slot, slot ∈ jito_slots s /\ current <= slot <= current + ahead.
Proof.
  intros Hc Ha Hmax. unfold static_has_jito_leader, wadd. rewrite wrap_small by (unfold in_u; lia).
  rewrite existsb_exists. split.
  - intros (i & Hi%in_seq & Hb%bool_decide_eq_true). eexists; split; [done|]. lia.
  - intros (slot & Hin & Hr). exists (Z.to_nat (slot - current)). split; [apply in_seq; lia|].
    apply bool_decide_eq_true. by rewrite Z2Nat.id, Zplus_minus by lia.
Qed.

(** A transport that resolves as told. *)
Record FixedPath := mkFixedPath { fp_send : Send }.
Definition FixedPath_path : SendPath FixedPath :=
  {| send p _ := fp_send p; name _ := "fixed" |}.
Definition sample_submitter : DualPathSubmitter :=
  @mkDualPathSubmitter FixedPath FixedPath StaticLeaderSchedule
    (mkFixedPath (Some (800, PathTimedOut))) (mkFixedPath (Some (900, PathLanded 7 f64_one))) 1500 2 None.
Definition sample_bundle : Bundle :=
  mkBundle
    (mkSimResult
       (mkRoutedCandidate
          (mkBreachCandidate Kamino (mkPubkey [1]) (mkPubkey [2]) (mkPubkey [3]) (f64_lit 9 10) 100 6)
          50 (mkFlashSource Kamino (mkPubkey [4]) 5)
          (mkProfitEstimate f64_one f64_zero f64_zero f64_zero f64_zero f64_one))
       true 245000 512 true) [1; 2; 3] [].

Lemma early_timeout_hides_landing_witness :
  @dual_submit FixedPath FixedPath StaticLeaderSchedule FixedPath_path FixedPath_path
    StaticLeaderSchedule_provider true sample_submitter sample_bundle = NotIncluded.
Proof.
  apply (@early_timeout_hides_landing FixedPath FixedPath StaticLeaderSchedule FixedPath_path FixedPath_path
           StaticLeaderSchedule_provider true sample_submitter sample_bundle 800 900 7 f64_one);
    [reflexivity|reflexivity|lia|cbn; lia].
Defined.
