(* ===== verification/FeedTests.v ===== *)
(** * The tests of crates/core, crates/config, crates/ingestion and
    crates/submit.

    The configurations shipped with the repository are the records its TOML
    files denote. The ingestion tests hold for every base58, base64 and JSON
    codec that reads back what they write and for every queue that keeps the
    contract of the ring buffer's; the submission tests run the submitter over
    transports that resolve as told. *)

From Stdlib Require Import ZArith Lia.
From stdpp Require Import base gmap list strings option.
From S2P Require Import Prelude Lists Harness F64 Text CoreTypes Config Ingestion Submit.

Open Scope rust_scope.

Definition fpk (b : Z) : Pubkey := Pubkey_new (replicate 32 b).

(** ** core: pubkey.rs *)

Section pubkey_tests.
Context (bs58_decode : string -> option (list Z)) (bs58_encode : list Z -> string).

Definition base58_round_trip : test :=
  let original := fpk 7 in
  let encoded := to_base58 bs58_encode original in
  let! decoded := unwrap (from_base58 bs58_decode encoded) in
  assert_eq original decoded.

Definition rejects_short_base58_strings : test :=
  let short := bs58_encode (replicate 10 1) in
  assert (negb (is_ok (from_base58 bs58_decode short))).

Lemma pubkey_tests_pass :
  (forall bs, bs58_decode (bs58_encode bs) = Some bs) ->
  forallb passes [base58_round_trip; rejects_short_base58_strings] = true.
Proof.
  intros Hd. unfold base58_round_trip, rejects_short_base58_strings, from_base58, to_base58.
  rewrite !Hd. vm_compute. reflexivity.
Qed.
End pubkey_tests.

(** ** config: the shipped configurations *)

Definition example_config : Config :=
  mkConfig (mkGeyserConfig "https://your-geyser-endpoint:443" "REPLACE_ME")
    (mkRpcConfig "https://your-fallback-rpc") (mkStakedSendConfig "https://your-staked-send-endpoint")
    (mkJitoConfig "https://frankfurt.mainnet.block-engine.jito.wtf")
    (mkIdentityConfig "/secrets/gyrfalcon-signer.json" "REPLACE_ME")
    (mkTreasuryConfig "/secrets/gyrfalcon-treasury.json" (f64_of_Z 2) "1h")
    (mkProtocolsConfig (mkProtocolToggle true))
    (mkSubmitConfig Observe 2 true (Some 1000))
    (mkRiskConfig (f64_of_Z 5) f64_zero 3 (f64_lit 8 10) (f64_of_Z 150) (f64_of_Z 600) (f64_lit 4 10)
       (f64_of_Z 1000) 3).

Definition devnet_config : Config :=
  mkConfig (mkGeyserConfig "https://your-devnet-geyser-endpoint:443" "REPLACE_ME")
    (mkRpcConfig "https://api.devnet.solana.com")
    (mkStakedSendConfig "https://your-devnet-staked-send-endpoint")
    (mkJitoConfig "https://frankfurt.testnet.block-engine.jito.wtf")
    (mkIdentityConfig "/secrets/gyrfalcon-devnet-signer.json" "REPLACE_ME")
    (mkTreasuryConfig "/secrets/gyrfalcon-devnet-treasury.json" (f64_lit 5 10) "1h")
    (mkProtocolsConfig (mkProtocolToggle true))
    (mkSubmitConfig Live 2 true (Some 2000))
    (mkRiskConfig f64_zero f64_zero 3 (f64_lit 8 10) (f64_of_Z 5) (f64_of_Z 20) (f64_lit 4 10)
       (f64_of_Z 50) 3).

#[global] Instance eta_Config : Eta Config := fun c =>
  mkConfig (cf_geyser c) (cf_rpc c) (cf_staked_send c) (cf_jito c) (cf_identity c) (cf_treasury c)
    (cf_protocols c) (cf_submit c) (cf_risk c).
#[global] Instance eta_Config_RiskConfig : Eta RiskConfig := fun r =>
  mkRiskConfig (rk_min_profit_usd r) (rk_min_tip_usd r) (rk_sync_lag_halt_slots r)
    (rk_contention_ceiling r) (rk_max_tip_per_tx_usd r) (rk_max_tip_per_slot_usd r)
    (rk_max_tip_pct_of_bonus r) (rk_max_drawdown_usd r) (rk_consecutive_revert_limit r).

Section config_tests.
Context (read_to_string : string -> option string) (toml_from_str : string -> option Config).

Definition expect_config (path : string) (body : Config -> test) : test :=
  let! config := unwrap (load read_to_string toml_from_str path) in body config.

Definition loads_example_config : test :=
  expect_config "config/gyrfalcon.example.toml" (fun config =>
    do! assert_eq (sc_mode (cf_submit config)) Observe in
    do! assert (pt_enabled (pc_kamino (cf_protocols config))) in
    assert_eq (rk_consecutive_revert_limit (cf_risk config)) 3).

Definition loads_devnet_config : test :=
  expect_config "config/gyrfalcon.devnet.toml" (fun config =>
    assert_eq (sc_mode (cf_submit config)) Live).

Definition f64_ne (x y : f64) : test := assert (negb (x =? y)%f64).
Definition loads_production_config : test :=
  expect_config "config/gyrfalcon.toml" (fun prod_config =>
    do! assert_eq (sc_mode (cf_submit prod_config)) Observe in
    do! assert (pt_enabled (pc_kamino (cf_protocols prod_config))) in
    expect_config "config/gyrfalcon.example.toml" (fun example_config =>
      let p := cf_risk prod_config in
      let e := cf_risk example_config in
      do! f64_ne (rk_min_profit_usd p) (rk_min_profit_usd e) in
      do! f64_ne (rk_min_tip_usd p) (rk_min_tip_usd e) in
      do! assert_ne (rk_sync_lag_halt_slots p) (rk_sync_lag_halt_slots e) in
      do! f64_ne (rk_contention_ceiling p) (rk_contention_ceiling e) in
      do! f64_ne (rk_max_tip_per_tx_usd p) (rk_max_tip_per_tx_usd e) in
      do! f64_ne (rk_max_tip_per_slot_usd p) (rk_max_tip_per_slot_usd e) in
      do! f64_ne (rk_max_tip_pct_of_bonus p) (rk_max_tip_pct_of_bonus e) in
      do! f64_ne (rk_max_drawdown_usd p) (rk_max_drawdown_usd e) in
      assert_ne (rk_consecutive_revert_limit p) (rk_consecutive_revert_limit e))).

Definition rejects_missing_file : test :=
  let! err := unwrap_err (load read_to_string toml_from_str "/nonexistent/gyrfalcon.toml") in
  assert (match err with ConfigRead _ => true | _ => false end).

(** The two tests that first write the file they load. *)
Definition written_file (path raw : string) (p : string) : option string :=
  if String.eqb p path then Some raw else read_to_string p.
Definition rejects_malformed_toml : test :=
  let raw := "this is not valid toml [[[" in
  let! err := unwrap_err (load (written_file "bad.toml" raw) toml_from_str "bad.toml") in
  assert (match err with ConfigParse => true | _ => false end).
(** [replace]: the text with the limit of three replaced by zero. *)
Definition rejects_zero_revert_limit (replace : string -> string) : test :=
  let! raw := unwrap_option (read_to_string "config/gyrfalcon.example.toml") in
  let! err := unwrap_err (load (written_file "gyrfalcon.toml" (replace raw)) toml_from_str "gyrfalcon.toml") in
  assert (match err with InvalidRevertLimit limit => limit =? 0 | _ => false end).

Context (example devnet : string) (replace : string -> string).
Context (Hexample : read_to_string "config/gyrfalcon.example.toml" = Some example)
  (Hexample_toml : toml_from_str example = Some example_config)
  (Hdevnet : read_to_string "config/gyrfalcon.devnet.toml" = Some devnet)
  (Hdevnet_toml : toml_from_str devnet = Some devnet_config)
  (Hmissing : read_to_string "/nonexistent/gyrfalcon.toml" = None)
  (Hmalformed : toml_from_str "this is not valid toml [[[" = None)
  (Hreplaced : toml_from_str (replace example)
     = Some (example_config <| cf_risk := (cf_risk example_config) <| rk_consecutive_revert_limit := 0 |> |>)).

Lemma config_tests_pass :
  forallb passes [loads_example_config; loads_devnet_config; rejects_missing_file;
                  rejects_malformed_toml; rejects_zero_revert_limit replace] = true.
Proof.
  unfold loads_example_config, loads_devnet_config, rejects_missing_file, rejects_malformed_toml,
    rejects_zero_revert_limit, expect_config, load, written_file.
  rewrite Hexample, Hdevnet, Hmissing. cbn -[example_config devnet_config bool_decide].
  rewrite Hexample_toml, Hdevnet_toml, Hmalformed, Hreplaced. vm_compute. reflexivity.
Qed.

(** config/gyrfalcon.toml is not part of the repository (it is ignored), so
    in a fresh checkout the test that loads it fails. *)
Lemma production_config_test_fails :
  read_to_string "config/gyrfalcon.toml" = None -> passes loads_production_config = false.
Proof. intros Hp. unfold loads_production_config, expect_config, load. by rewrite Hp. Qed.
End config_tests.

(** ** ingestion: decode.rs *)

Record DemoReserveLayout := mkDemoReserveLayout {
  demo_mint : list Z;
  demo_available_liquidity : Z;
  demo_borrowed_liquidity : Z
}.

(** The layout's bytes, in declaration order, little-endian, no padding. *)
Definition demo_bytes (d : DemoReserveLayout) : list Z :=
  demo_mint d ++ to_le_bytes 8 (demo_available_liquidity d) ++ to_le_bytes 8 (demo_borrowed_liquidity d).
Definition demo_read (bs : list Z) : option DemoReserveLayout :=
  if (length bs =? 48)%nat
  then Some (mkDemoReserveLayout (take 32 bs) (from_le_bytes (take 8 (drop 32 bs)))
               (from_le_bytes (drop 40 bs)))
  else None.
Definition DEMO_DISCRIMINATOR : list Z := [222; 173; 190; 239].
Definition demo_decode (data : list Z) : option DemoReserveLayout :=
  zero_copy_decode demo_read (Some DEMO_DISCRIMINATOR) data.
Definition encode_demo (mint_byte available borrowed : Z) : list Z :=
  DEMO_DISCRIMINATOR ++ demo_bytes (mkDemoReserveLayout (replicate 32 mint_byte) available borrowed).

Definition decodes_well_formed_account : test :=
  let! decoded := unwrap_option (demo_decode (encode_demo 7 1000000 250000)) in
  do! assert_eq (demo_mint decoded) (replicate 32 7) in
  do! assert_eq (demo_available_liquidity decoded) 1000000 in
  assert_eq (demo_borrowed_liquidity decoded) 250000.
Definition rejects_wrong_discriminator_instead_of_misreading : test :=
  let bytes := <[0%nat := 0]> (encode_demo 1 1 2) in
  assert (negb (is_some (demo_decode bytes))).
Definition rejects_truncated_account_instead_of_panicking : test :=
  let bytes := encode_demo 1 1 2 in
  let truncated := take (length bytes - 3) bytes in
  assert (negb (is_some (demo_decode truncated))).
Definition registry_tracks_watched_owners : test :=
  let reg := watch (fpk 1) DecoderRegistry_new in
  do! assert (is_watched reg (fpk 1)) in
  assert (negb (is_watched reg (fpk 2))).

Definition decode_unit_tests : list test :=
  [decodes_well_formed_account; rejects_wrong_discriminator_instead_of_misreading;
   rejects_truncated_account_instead_of_panicking; registry_tracks_watched_owners].
Lemma decode_unit_tests_pass : forallb passes decode_unit_tests = true.
Proof. vm_compute. reflexivity. Qed.

(** ** ingestion: ring_buffer.rs, over any queue that keeps the contract *)

Definition dummy_update (slot : Z) : AccountUpdate :=
  mkAccountUpdate (fpk 1) (fpk 2) (replicate 8 0) slot.

Section ring_tests.
Context {Q : Type} `{BoundedQueueLaws Q AccountUpdate}.

(** [rb.pop().unwrap().slot]. *)
Definition pop_slot (slot : Z) (rb : Q) (k : Q -> test) : test :=
  let '(rb, popped) := ring_pop rb in
  let! update := unwrap_option popped in
  do! assert_eq (au_slot update) slot in k rb.
(** [rb.push(..).unwrap()]. *)
Definition push_ok (update : AccountUpdate) (rb : Q) (k : Q -> test) : test :=
  let '(rb, pushed) := ring_push update rb in
  let! _ := unwrap pushed in k rb.

Definition push_then_pop_preserves_order : test :=
  let! rb := @with_capacity Q _ 4 in
  push_ok (dummy_update 1) rb (fun rb =>
  push_ok (dummy_update 2) rb (fun rb =>
  pop_slot 1 rb (fun rb =>
  pop_slot 2 rb (fun rb => assert (negb (is_some (ring_pop rb).2)))))).

Definition full_buffer_returns_push_error_instead_of_blocking : test :=
  let! rb := @with_capacity Q _ 1 in
  push_ok (dummy_update 1) rb (fun rb =>
  let! err := unwrap_err (ring_push (dummy_update 2) rb).2 in
  match err with Full => Done tt end).

Definition handle_shares_the_same_underlying_buffer : test :=
  let! rb := @with_capacity Q _ 4 in
  let producer := ring_handle rb in
  push_ok (dummy_update 42) producer (fun rb => pop_slot 42 rb (fun _ => Done tt)).

(** What the queue holds decides each call. *)
Lemma push_ok_passes update rb k items cap :
  q_items rb = items -> q_capacity rb = cap -> (length items < cap)%nat ->
  (forall rb, q_items rb = items ++ [update] -> q_capacity rb = cap -> passes (k rb) = true) ->
  passes (push_ok update rb k) = true.
Proof.
  intros Hi Hc Hlt Hk. unfold push_ok, ring_push.
  destruct (q_push_room update rb) as (rb' & -> & Hi' & Hc'); [by rewrite Hi, Hc|].
  cbn. apply Hk; congruence.
Qed.
Lemma pop_slot_passes slot rb k update items cap :
  q_items rb = update :: items -> q_capacity rb = cap -> au_slot update = slot ->
  (forall rb, q_items rb = items -> q_capacity rb = cap -> passes (k rb) = true) ->
  passes (pop_slot slot rb k) = true.
Proof.
  intros Hi Hc Hs Hk. unfold pop_slot, ring_pop.
  destruct (q_pop_head rb update items Hi) as (rb' & -> & Hi' & Hc').
  cbn. test_steps; [done|]. apply Hk; congruence.
Qed.

Lemma ring_tests_pass :
  forallb passes [push_then_pop_preserves_order; full_buffer_returns_push_error_instead_of_blocking;
                  handle_shares_the_same_underlying_buffer] = true.
Proof.
  unfold push_then_pop_preserves_order, full_buffer_returns_push_error_instead_of_blocking,
    handle_shares_the_same_underlying_buffer, with_capacity, ring_handle.
  destruct (q_new_pos 4 ltac:(lia)) as (q4 & -> & Hi4 & Hc4).
  destruct (q_new_pos 1 ltac:(lia)) as (q1 & -> & Hi1 & Hc1).
  cbn [forallb andb]. rewrite !andb_true_iff. split_and!; [..|done].
  - eapply push_ok_passes; [done..|cbn; lia|]. intros ? Hi Hc.
    eapply push_ok_passes; [done..|cbn; lia|]. clear Hi Hc. intros ? Hi Hc.
    eapply pop_slot_passes; [exact Hi|exact Hc|done|]. clear Hi Hc. intros ? Hi Hc.
    eapply pop_slot_passes; [exact Hi|exact Hc|done|]. clear Hi Hc. intros ? Hi Hc.
    apply assert_pass. unfold ring_pop. by rewrite q_pop_empty.
  - eapply push_ok_passes; [done..|cbn; lia|]. intros ? Hi Hc.
    unfold ring_push. by rewrite q_push_full by (rewrite Hi, Hc; cbn; lia).
  - eapply push_ok_passes; [done..|cbn; lia|]. intros ? Hi Hc.
    by eapply pop_slot_passes; [exact Hi|exact Hc|..].
Qed.
End ring_tests.

(** ** ingestion: feed.rs and pipeline.rs *)

Section feed_tests.
Context (json_line : string -> option RecordedAccountLine)
  (base64_standard_decode : string -> option (list Z))
  (bs58_decode : string -> option (list Z)) (bs58_encode : list Z -> string).
(** The [format!] text of one record of the fixtures. *)
Context (json_text : RecordedAccountLine -> string).

Definition fixture_line (owner : Pubkey) (slot : Z) : string :=
  json_text (mkRecordedAccountLine (to_base58 bs58_encode (fpk 1)) (to_base58 bs58_encode owner)
    "3q2+7w==" slot).
Definition parse_fixture (owner1 : Pubkey) (slot1 : Z) (owner2 : Pubkey) (slot2 : Z)
    : result RecordedFeed RecordedFeedError :=
  RecordedFeed_parse json_line base64_standard_decode bs58_decode
    (unlines [fixture_line owner1 slot1; fixture_line owner2 slot2]).

Definition DEAD_BEEF : list Z := [222; 173; 190; 239].

Definition parses_recorded_batch_into_correct_in_memory_structures : test :=
  let! feed := unwrap (parse_fixture (fpk 9) 111 (fpk 9) 222) in
  let '(feed, first) := next feed in
  let! first := unwrap_option first in
  do! assert_eq (ra_slot first) 111 in
  do! assert_eq (ra_data first) DEAD_BEEF in
  let '(feed, second) := next feed in
  let! second := unwrap_option second in
  do! assert_eq (ra_slot second) 222 in
  assert (negb (is_some (next feed).2)).

Definition rejects_malformed_json_line_with_line_number : test :=
  let! err := unwrap_err (RecordedFeed_parse json_line base64_standard_decode bs58_decode
                            (unlines ["not json"])) in
  match err with
  | FeedJson line_no => assert_eq line_no 1
  | _ => Panic
  end.

Definition geyser_feed_validates_endpoint (runtime_available : bool) : test :=
  let! refused := GeyserFeed_connect (C := ListChannel RawAccount) runtime_available "" in
  let! err := unwrap_err refused in
  do! assert (match err with InvalidEndpoint _ => true | _ => false end) in
  let! connected :=
    GeyserFeed_connect (C := ListChannel RawAccount) runtime_available "https://grpc.mainnet.solana.com" in
  let! feed := unwrap connected in
  assert_eq (gf_endpoint feed.1) "https://grpc.mainnet.solana.com".

(** The pipeline's tests run it on the list queue; the fuel exceeds the
    number of records. *)
Definition drain_fixture (owner2 : Pubkey) (capacity : nat)
    (body : DrainStats -> ListQueue AccountUpdate -> test) : test :=
  let! feed := unwrap (parse_fixture (fpk 9) 1 owner2 2) in
  let registry := watch (fpk 9) DecoderRegistry_new in
  let! ring := with_capacity capacity in
  let! drained := unwrap_option (drain_into_ring_buffer 3 feed registry ring) in
  let '(_, ring, stats) := drained in body stats ring.

Definition recorded_batch_decodes_into_correct_ring_buffer_entries : test :=
  drain_fixture (fpk 8) 16 (fun stats ring =>
    do! assert_eq (forwarded stats) 1 in
    do! assert_eq (unwatched stats) 1 in
    do! assert_eq (buffer_full stats) 0 in
    let '(ring, popped) := ring_pop ring in
    let! update := unwrap_option popped in
    do! assert_eq (au_slot update) 1 in
    do! assert_eq (au_owner update) (fpk 9) in
    do! assert_eq (au_data update) DEAD_BEEF in
    assert (negb (is_some (ring_pop ring).2))).

Definition full_ring_buffer_is_counted_not_silently_dropped : test :=
  drain_fixture (fpk 9) 1 (fun stats _ =>
    do! assert_eq (forwarded stats) 1 in
    assert_eq (buffer_full stats) 1).

Context (Hbs58 : forall bs, bs58_decode (bs58_encode bs) = Some bs)
  (Hbase64 : base64_standard_decode "3q2+7w==" = Some DEAD_BEEF)
  (Hjson : forall l, line_ok (json_text l) /\ trim (json_text l) <> EmptyString
                     /\ json_line (json_text l) = Some l)
  (Hnot_json : json_line "not json" = None).

Lemma for_lines_cons {A E} (f : Z -> string -> result A E) i line ls :
  trim line <> EmptyString ->
  for_lines f i (line :: ls)
  = (let? record := f (i + 1) line in let? records := for_lines f (i + 1) ls in Ok (record :: records)).
Proof. intros Ht. cbn [for_lines]. by destruct (trim line). Qed.

Lemma parse_fixture_line i b slot :
  parse_line json_line base64_standard_decode bs58_decode i (fixture_line (fpk b) slot)
  = Ok (mkRawAccount (fpk 1) (fpk b) DEAD_BEEF slot).
Proof.
  unfold parse_line, fixture_line. destruct (Hjson (mkRecordedAccountLine
    (to_base58 bs58_encode (fpk 1)) (to_base58 bs58_encode (fpk b)) "3q2+7w==" slot)) as (_ & _ & ->).
  cbn [ok_or ral_pubkey ral_owner ral_data_base64 ral_slot].
  assert (Ht : trim "3q2+7w==" = "3q2+7w==") by (vm_compute; reflexivity).
  unfold base64_decode. rewrite Ht, Hbase64.
  unfold from_base58, to_base58. by rewrite !Hbs58.
Qed.

Lemma parse_fixture_ok b1 slot1 b2 slot2 :
  parse_fixture (fpk b1) slot1 (fpk b2) slot2
  = Ok (mkRecordedFeed [mkRawAccount (fpk 1) (fpk b1) DEAD_BEEF slot1;
                        mkRawAccount (fpk 1) (fpk b2) DEAD_BEEF slot2]).
Proof.
  unfold parse_fixture, RecordedFeed_parse.
  assert (Hline : forall b slot, line_ok (fixture_line (fpk b) slot)
                                 /\ trim (fixture_line (fpk b) slot) <> EmptyString)
    by (intros b slot; split; apply Hjson).
  rewrite str_lines_unlines by (repeat constructor; apply Hline).
  rewrite !for_lines_cons by apply Hline. rewrite !parse_fixture_line. reflexivity.
Qed.

Lemma feed_tests_pass runtime_available :
  forallb passes [parses_recorded_batch_into_correct_in_memory_structures;
                  rejects_malformed_json_line_with_line_number;
                  geyser_feed_validates_endpoint runtime_available;
                  recorded_batch_decodes_into_correct_ring_buffer_entries;
                  full_ring_buffer_is_counted_not_silently_dropped] = true.
Proof.
  unfold parses_recorded_batch_into_correct_in_memory_structures,
    recorded_batch_decodes_into_correct_ring_buffer_entries,
    full_ring_buffer_is_counted_not_silently_dropped, drain_fixture.
  rewrite !parse_fixture_ok. cbn [forallb]. rewrite !andb_true_iff. split_and!; try (vm_compute; reflexivity).
  - unfold rejects_malformed_json_line_with_line_number, RecordedFeed_parse.
    replace (str_lines (unlines ["not json"])) with ["not json"] by (vm_compute; reflexivity).
    cbn [for_lines]. unfold parse_line. rewrite Hnot_json. reflexivity.
  - destruct runtime_available; vm_compute; reflexivity.
Qed.
End feed_tests.

(** ** submit: dual_path.rs *)

Definition dummy_bundle : Bundle :=
  mkBundle
    (mkSimResult
       (mkRoutedCandidate
          (mkBreachCandidate Kamino (fpk 1) (fpk 2) (fpk 3) (f64_lit 9 10) 1000 100)
          500 (mkFlashSource Kamino (fpk 4) 5)
          (mkProfitEstimate (f64_of_Z 40) (f64_of_Z 2) f64_one (f64_lit 5 10) (f64_of_Z 10) (f64_lit 265 10)))
       true 150000 900 true) (replicate 4 0) [].

(** A transport that sleeps and answers. *)
Record FakePath := mkFakePath { fk_outcome : PathOutcome; fk_delay : Z; fk_name : string }.
#[global] Instance FakePath_path : SendPath FakePath :=
  {| send p _ := Some (fk_delay p, fk_outcome p); name := fk_name |}.

Definition fake_submitter (staked jito : FakePath) (timeout : Z)
    : @DualPathSubmitter FakePath FakePath StaticLeaderSchedule :=
  DualPathSubmitter_new staked jito timeout.

(** The runtime may poll either transport first. *)
Definition first_path_to_land_wins_the_race (staked_first : bool) : test :=
  let staked := mkFakePath (PathLanded 101 (f64_of_Z 25)) 5 "staked_quic" in
  let jito := mkFakePath (PathLanded 102 (f64_of_Z 24)) 50 "jito" in
  match dual_submit staked_first (fake_submitter staked jito 1000) dummy_bundle with
  | Landed slot _ => assert_eq slot 101
  | _ => Panic
  end.

Definition revert_on_the_winning_path_is_reported_even_if_the_other_would_have_landed
    (staked_first : bool) : test :=
  let staked := mkFakePath (PathReverted RaceLost) 5 "staked_quic" in
  let jito := mkFakePath (PathLanded 200 (f64_of_Z 10)) 50 "jito" in
  assert (match dual_submit staked_first (fake_submitter staked jito 1000) dummy_bundle with
          | Reverted RaceLost => true
          | _ => false
          end).

Definition both_paths_hanging_past_the_timeout_reports_not_included (staked_first : bool) : test :=
  let staked := mkFakePath PathTimedOut 10000 "staked_quic" in
  let jito := mkFakePath PathTimedOut 10000 "jito" in
  assert (match dual_submit staked_first (fake_submitter staked jito 20) dummy_bundle with
          | NotIncluded => true
          | _ => false
          end).

(** Nothing listens on the port: the refresh ends in a network error. *)
Definition test_get_tip_accounts_fallback_and_live_refresh (error : string) : test :=
  do! assert_eq (length DEFAULT_JITO_TIP_ACCOUNTS) 8%nat in
  let manager := JitoTipManager_new "http://127.0.0.1:19999" in
  let initial := get_active_tip_accounts manager in
  do! assert_eq (length initial) 8%nat in
  do! assert_eq (initial !! 0%nat) (DEFAULT_JITO_TIP_ACCOUNTS !! 0%nat) in
  let custom := ["CustomTip1"; "CustomTip2"] in
  let manager := update_accounts custom manager in
  do! assert_eq (get_active_tip_accounts manager) custom in
  let '(manager, res) := refresh_tip_accounts (TipNetworkError error) manager in
  do! assert (negb (is_ok res)) in
  let fallback := get_active_tip_accounts manager in
  do! assert_eq (length fallback) 8%nat in
  assert_eq (fallback !! 0%nat) (DEFAULT_JITO_TIP_ACCOUNTS !! 0%nat).

(** The transports' flags: the staked one always starts, the Jito one when the
    schedule lets it. *)
Definition leader_submitter (jito_slot : Z) : @DualPathSubmitter FakePath FakePath StaticLeaderSchedule :=
  let path := mkFakePath (PathLanded 101 (f64_of_Z 50)) 5 in
  with_leader_schedule 2 (mkStaticLeaderSchedule [jito_slot])
    (fake_submitter (path "staked_quic") (path "jito") 1000).
Definition expect_legs (staked_first : bool) (jito_slot : Z) (jito_called : bool) : test :=
  let submitter := leader_submitter jito_slot in
  do! assert (match dual_submit staked_first submitter dummy_bundle with
              | Landed slot _ => slot =? 101
              | _ => false
              end) in
  assert_eq (should_send_jito submitter dummy_bundle) jito_called.
Definition test_leader_awareness_skips_jito_leg_when_no_jito_leader (staked_first : bool) : test :=
  expect_legs staked_first 200 false.
Definition test_leader_awareness_fires_jito_leg_when_jito_leader_present (staked_first : bool) : test :=
  expect_legs staked_first 101 true.

Lemma submit_unit_tests_pass staked_first error :
  forallb passes
    [first_path_to_land_wins_the_race staked_first;
     revert_on_the_winning_path_is_reported_even_if_the_other_would_have_landed staked_first;
     both_paths_hanging_past_the_timeout_reports_not_included staked_first;
     test_get_tip_accounts_fallback_and_live_refresh error;
     test_leader_awareness_skips_jito_leg_when_no_jito_leader staked_first;
     test_leader_awareness_fires_jito_leg_when_jito_leader_present staked_first] = true.
Proof. destruct staked_first; vm_compute; reflexivity. Qed.
