(* ===== verification/Engine.v ===== *)
(** * crates/gyrfalcon-bin/main.rs: the event loop that ties the parts together,
    its mode switch and its dashboard counters.

    One [engine_step] is one turn of the [while let] loop: the account comes
    in, the adapter, the breakers, the sizing, the simulator, the bundler, the
    submitter and the log are called in the source's order. A run is over
    events: accounts arriving and turns of the log's writer task, which runs
    concurrently and shares only the log's channel with the loop; since a turn
    of the loop touches that channel once, every interleaving of the two tasks
    is such a sequence. The router, the simulator and the submitter are the
    interfaces of CoreTypes; [wired_engine_never_submits] is about the router
    [main] constructs. The dashboard's lock is never poisoned: no code panics
    while holding it. *)

From Stdlib Require Import ZArith Lia.
From stdpp Require Import base gmap list strings option.
From S2P Require Import Prelude Lists F64 Text CoreTypes Config Tip Breakers Router Bundler Sizing Kamino Ingestion Store Sim Submit.

Open Scope rust_scope.

(** ** The command line *)

Inductive CliMode := CliObserve | CliLive.

Record Cli := mkCli { cli_config : string; cli_mode : option CliMode; cli_halt : bool; cli_port : Z }.

Definition effective_mode (cli : Cli) (config_mode : SubmitMode) : SubmitMode :=
  if cli_halt cli then Observe
  else match cli_mode cli with
       | Some CliObserve => Observe
       | Some CliLive => Live
       | None => config_mode
       end.

(** ** The dashboard *)

Record LiquidationSummary := mkLiquidationSummary {
  ls_protocol : string;
  ls_position_id : string;
  ls_repay_amount : Z;
  ls_net_profit_usd : f64;
  ls_slot : Z;
  ls_outcome : string
}.

Record DashboardState := mkDashboardState {
  ds_connected : bool;
  ds_mode : string;
  ds_current_slot : Z;
  ds_tracked_positions : Z;
  ds_kamino_positions : Z;
  ds_breach_candidates_detected : Z;
  ds_liquidations_attempted : Z;
  ds_liquidations_landed : Z;
  ds_liquidations_reverted : Z;
  ds_total_net_profit_usd : f64;
  ds_sync_lag_kamino : Z;
  ds_circuit_breaker_active : bool;
  ds_recent_liquidations : list LiquidationSummary
}.

Definition DashboardState_new (mode : SubmitMode) : DashboardState :=
  mkDashboardState false (SubmitMode_fmt mode) 0 0 0 0 0 0 0 f64_zero 0 false [].

Definition ds_observe (slot positions lag : Z) (d : DashboardState) : DashboardState :=
  mkDashboardState (ds_connected d) (ds_mode d) slot positions positions
    (ds_breach_candidates_detected d) (ds_liquidations_attempted d) (ds_liquidations_landed d)
    (ds_liquidations_reverted d) (ds_total_net_profit_usd d) lag (ds_circuit_breaker_active d)
    (ds_recent_liquidations d).
(** The four counters and the profit, given their new values. *)
Definition ds_count (detected attempted landed reverted : Z) (net : f64) (d : DashboardState) : DashboardState :=
  mkDashboardState (ds_connected d) (ds_mode d) (ds_current_slot d) (ds_tracked_positions d)
    (ds_kamino_positions d) detected attempted landed reverted net (ds_sync_lag_kamino d)
    (ds_circuit_breaker_active d) (ds_recent_liquidations d).
Definition ds_detect (d : DashboardState) : DashboardState :=
  ds_count (wadd 64 (ds_breach_candidates_detected d) 1) (ds_liquidations_attempted d)
    (ds_liquidations_landed d) (ds_liquidations_reverted d) (ds_total_net_profit_usd d) d.
Definition ds_attempt (d : DashboardState) : DashboardState :=
  ds_count (ds_breach_candidates_detected d) (wadd 64 (ds_liquidations_attempted d) 1)
    (ds_liquidations_landed d) (ds_liquidations_reverted d) (ds_total_net_profit_usd d) d.
Definition ds_land (net : f64) (d : DashboardState) : DashboardState :=
  ds_count (ds_breach_candidates_detected d) (ds_liquidations_attempted d)
    (wadd 64 (ds_liquidations_landed d) 1) (ds_liquidations_reverted d)
    (ds_total_net_profit_usd d + net)%f64 d.
Definition ds_revert (d : DashboardState) : DashboardState :=
  ds_count (ds_breach_candidates_detected d) (ds_liquidations_attempted d)
    (ds_liquidations_landed d) (wadd 64 (ds_liquidations_reverted d) 1) (ds_total_net_profit_usd d) d.

(** ** The event loop *)

Record Engine := mkEngine {
  eg_kamino : KaminoAdapter;
  eg_breakers : BreakerState;
  eg_slot_counter : Z;
  eg_dashboard : DashboardState;
  eg_log : AsyncLiquidationWriter
}.

Definition with_dashboard (f : DashboardState -> DashboardState) (e : Engine) : Engine :=
  mkEngine (eg_kamino e) (eg_breakers e) (eg_slot_counter e) (f (eg_dashboard e)) (eg_log e).
Definition with_breakers (f : BreakerState -> BreakerState) (e : Engine) : Engine :=
  mkEngine (eg_kamino e) (f (eg_breakers e)) (eg_slot_counter e) (eg_dashboard e) (eg_log e).
Definition with_log (f : AsyncLiquidationWriter -> AsyncLiquidationWriter) (e : Engine) : Engine :=
  mkEngine (eg_kamino e) (eg_breakers e) (eg_slot_counter e) (eg_dashboard e) (f (eg_log e)).
Definition with_kamino (k : KaminoAdapter) (e : Engine) : Engine :=
  mkEngine k (eg_breakers e) (eg_slot_counter e) (eg_dashboard e) (eg_log e).
Definition with_slot (s : Z) (e : Engine) : Engine :=
  mkEngine (eg_kamino e) (eg_breakers e) s (eg_dashboard e) (eg_log e).

(** The state the loop starts in, given what the log file holds. *)
Definition Engine_new (log_file : string) (mode : SubmitMode) : Engine :=
  mkEngine KaminoAdapter_new BreakerState_new 300000000 (DashboardState_new mode)
    (writer_spawn log_file 4096).

(** An account arrives at the loop, or the writer task takes a turn, with the
    system's answer to its write. *)
Inductive EngineEvent :=
| Arrive (raw : RawAccount)
| LogTurn (o : WriteOutcome).

Definition flash_depth : Z := 50000000000.

Definition check_route_key (c : BreachCandidate) : RouteKey :=
  mkRouteKey (bc_protocol c) (bc_position_id c) Pubkey_default.
Definition outcome_route_key (rc : RoutedCandidate) : RouteKey :=
  mkRouteKey (bc_protocol (rc_candidate rc)) (bc_position_id (rc_candidate rc))
    (fs_reserve (rc_flash_source rc)).

Section engine.
Context `{KlendInterface} `{SolanaSdk}.
Context {R S B : Type} `{FlashSourceRouter R} `{Simulator S} `{Submitter B}.
Context (transfer : Pubkey -> Pubkey -> Z -> Instruction) (default_hash : Hash).
Context (payer : Pubkey) (keypair : Signer).
Context (mode : SubmitMode) (risk : RiskConfig).
Context (router : R) (simulator : S) (submitter : B).
Context (registry : DecoderRegistry).
(** [serde_json::to_string]. *)
Context (to_json : LiquidationRecord -> option string).

(** The bundle: a transfer of nothing to oneself, or 64 zero bytes. *)
Definition engine_bundle (sim_result : SimResult) : Bundle :=
  let bundle_params :=
    mkBundleParams [transfer payer payer 0] (sr_cu_measured sim_result) None payer default_hash [] in
  let versioned_tx :=
    match assemble bundle_params keypair with
    | Ok tx => match to_core_bundle_bytes tx with Ok bytes => bytes | Err _ => replicate 64 0 end
    | Err _ => replicate 64 0
    end in
  mkBundle sim_result versioned_tx [].

(** What a submission's outcome does to the counters and the breakers. *)
Definition record_outcome (routed : RoutedCandidate) (outcome : SubmitOutcome) (e : Engine) : Engine :=
  let route_key := outcome_route_key routed in
  match outcome with
  | Landed _ actual_net_usd =>
      with_breakers (record_success route_key) (with_dashboard (ds_land actual_net_usd) e)
  | Reverted _ =>
      with_breakers (record_revert route_key (rk_consecutive_revert_limit risk))
        (with_dashboard ds_revert e)
  | NotIncluded => e
  end.

(** One live submission: attempt, submit, log, count. *)
Definition fire (routed : RoutedCandidate) (bundle : Bundle) (e : Engine) : Engine * LiquidationRecord :=
  let e := with_dashboard ds_attempt e in
  let outcome := submit submitter bundle in
  let rec := mkLiquidationRecord routed outcome (eg_slot_counter e) (wadd 64 (eg_slot_counter e) 1) in
  let e := with_log (fun w => (try_record rec w).1) e in
  (record_outcome routed outcome e, rec).

(** From a candidate on. *)
Definition handle_candidate (candidate : BreachCandidate) (e : Engine)
    : panicking (Engine * option LiquidationRecord) :=
  let e := with_dashboard ds_detect e in
  if decide (allows (eg_breakers e) (bc_protocol candidate) (check_route_key candidate) <> Allowed)
  then Done (e, None)
  else
    let! routed_opt := size_and_route candidate router risk flash_depth in
    match routed_opt with
    | None => Done (e, None)
    | Some routed =>
        let sim_result := simulate simulator routed in
        if sr_feasible sim_result && sr_profitable sim_result then
          let bundle := engine_bundle sim_result in
          match mode with
          | Live => let '(e, rec) := fire routed bundle e in Done (e, Some rec)
          | _ => Done (e, None)
          end
        else Done (e, None)
    end.

(** The dashboard shows the adapter as it was before this update. *)
Definition engine_step (e : Engine) (raw : RawAccount) : panicking (Engine * option LiquidationRecord) :=
  let e := with_slot (Z.max (ra_slot raw) (wadd 64 (eg_slot_counter e) 1)) e in
  let e := with_dashboard
             (ds_observe (eg_slot_counter e) (kamino_position_count (eg_kamino e))
                (kamino_sync_lag_slots (eg_kamino e))) e in
  if negb (is_watched registry (ra_owner raw)) then Done (e, None)
  else
    let update := mkAccountUpdate (ra_pubkey raw) (ra_owner raw) (ra_data raw) (ra_slot raw) in
    let '(kamino, candidate_opt) :=
      if decide (au_owner update = KLEND_PROGRAM_ID)
      then kamino_on_account_update (eg_kamino e) update
      else (eg_kamino e, None) in
    let e := with_kamino kamino e in
    match candidate_opt with
    | None => Done (e, None)
    | Some candidate => handle_candidate candidate e
    end.

Definition engine_event (e : Engine) (ev : EngineEvent) : panicking (Engine * option LiquidationRecord) :=
  match ev with
  | Arrive raw => engine_step e raw
  | LogTurn o => Done (with_log (writer_task_step to_json o) e, None)
  end.

(** The state after the events and the records submitted, in order. *)
Fixpoint engine_run (e : Engine) (events : list EngineEvent) : panicking (Engine * list LiquidationRecord) :=
  match events with
  | [] => Done (e, [])
  | ev :: events =>
      let! step := engine_event e ev in
      let '(e, rec) := step in
      let! rest := engine_run e events in
      let '(e, recs) := rest in
      Done (e, match rec with Some r => r :: recs | None => recs end)
  end.
End engine.

(* ------------------------------------------------------------------ *)
(** ** What one turn does *)

Definition attempts (e : Engine) : Z * Z * Z :=
  (ds_liquidations_attempted (eg_dashboard e), ds_liquidations_landed (eg_dashboard e),
   ds_liquidations_reverted (eg_dashboard e)).

(** The counters after one more submission. *)
Definition count_outcome (o : SubmitOutcome) (c : Z * Z * Z) : Z * Z * Z :=
  let '(attempted, landed, reverted) := c in
  (wadd 64 attempted 1,
   match o with Landed _ _ => wadd 64 landed 1 | _ => landed end,
   match o with Reverted _ => wadd 64 reverted 1 | _ => reverted end).

(** What a submission's outcome is to the breakers. *)
Definition breaker_event (r : LiquidationRecord) : option BreakerEvent :=
  match lr_outcome r with
  | Landed _ _ => Some (EvSuccess (outcome_route_key (lr_routed r)))
  | Reverted _ => Some (EvRevert (outcome_route_key (lr_routed r)))
  | NotIncluded => None
  end.

Definition arrivals (events : list EngineEvent) : list RawAccount :=
  omap (fun ev => match ev with Arrive raw => Some raw | LogTurn _ => None end) events.
Definition log_turns (events : list EngineEvent) : list WriteOutcome :=
  omap (fun ev => match ev with Arrive _ => None | LogTurn o => Some o end) events.
(** The records offered to the log. *)
Definition offered (es : list WriterEvent) : list LiquidationRecord :=
  omap (fun e => match e with EvTryRecord r => Some r | _ => None end) es.

(** Nothing was submitted, while the writer task took the given turns. *)
Definition quiet (to_json : LiquidationRecord -> option string) (turns : list WriteOutcome)
    (e e' : Engine) : Prop :=
  eg_breakers e' = eg_breakers e /\ attempts e' = attempts e
  /\ eg_log e' = foldl (fun w o => writer_task_step to_json o w) (eg_log e) turns.

Lemma quiet_app to_json t1 t2 e1 e2 e3 :
  quiet to_json t1 e1 e2 -> quiet to_json t2 e2 e3 -> quiet to_json (t1 ++ t2) e1 e3.
Proof. intros (?&?&?) (?&?&?). split_and!; [congruence..|]. rewrite foldl_app. congruence. Qed.

Section properties.
Context `{KlendInterface} `{SolanaSdk}.
Context {R S B : Type} `{FlashSourceRouter R} `{Simulator S} `{Submitter B}.
Context (transfer : Pubkey -> Pubkey -> Z -> Instruction) (default_hash : Hash).
Context (payer : Pubkey) (keypair : Signer).
Context (mode : SubmitMode) (risk : RiskConfig).
Context (router : R) (simulator : S) (submitter : B).
Context (registry : DecoderRegistry).
Context (to_json : LiquidationRecord -> option string).
Let bundle_of := engine_bundle transfer default_hash payer keypair.
Let step := engine_step transfer default_hash payer keypair mode risk router simulator submitter registry.
Let run :=
  engine_run transfer default_hash payer keypair mode risk router simulator submitter registry to_json.

(** The turn that took [e] to [e'] submitted [r] for the account [raw]. *)
Record fired (e e' : Engine) (raw : RawAccount) (r : LiquidationRecord) : Prop := {
  fired_live : mode = Live;
  fired_watched : is_watched registry (ra_owner raw) = true;
  fired_owner : ra_owner raw = KLEND_PROGRAM_ID;
  fired_candidate : exists kamino,
    kamino_on_account_update (eg_kamino e)
      (mkAccountUpdate (ra_pubkey raw) (ra_owner raw) (ra_data raw) (ra_slot raw))
    = (kamino, Some (rc_candidate (lr_routed r)));
  fired_allowed :
    allows (eg_breakers e) (bc_protocol (rc_candidate (lr_routed r)))
      (check_route_key (rc_candidate (lr_routed r))) = Allowed;
  fired_sized :
    size_and_route (rc_candidate (lr_routed r)) router risk flash_depth = Done (Some (lr_routed r));
  fired_feasible : sr_feasible (simulate simulator (lr_routed r)) = true;
  fired_profitable : sr_profitable (simulate simulator (lr_routed r)) = true;
  fired_outcome : lr_outcome r = submit submitter (bundle_of (simulate simulator (lr_routed r)));
  fired_slots : lr_submitted_at_slot r = eg_slot_counter e'
                /\ lr_resolved_at_slot r = wadd 64 (eg_slot_counter e') 1;
  fired_log : eg_log e' = (try_record r (eg_log e)).1;
  fired_counters : attempts e' = count_outcome (lr_outcome r) (attempts e);
  fired_breakers :
    eg_breakers e' = match breaker_event r with
                     | Some ev => breaker_step (rk_consecutive_revert_limit risk) (eg_breakers e) ev
                     | None => eg_breakers e
                     end
}.

Lemma size_and_route_total c :
  exists o, size_and_route c router risk flash_depth = Done o
    /\ forall rc, o = Some rc -> rc_candidate rc = c.
Proof.
  unfold size_and_route. destruct (_ =? 0); [by eexists|].
  destruct (CoreTypes.route _ _ _) as [fs|]; [|by eexists].
  unfold estimate_profit. cbv zeta.
  match goal with |- context [static_tip_bid ?b ?r] =>
    destruct (static_tip_bid_total b r) as (t & -> & _) end.
  cbn -[f64_ltb]. match goal with |- context [f64_ltb ?a ?b] => destruct (f64_ltb a b) end;
    eexists; (split; [done|]); [done|]. by intros rc [= <-].
Qed.

Lemma engine_step_cases e raw :
  exists e' rec, step e raw = Done (e', rec)
    /\ eg_slot_counter e' = Z.max (ra_slot raw) (wadd 64 (eg_slot_counter e) 1)
    /\ match rec with None => quiet to_json [] e e' | Some r => fired e e' raw r end.
Proof.
  unfold step, engine_step. cbv zeta. cbn [eg_slot_counter eg_kamino with_slot with_dashboard].
  destruct (is_watched registry (ra_owner raw)) eqn:Hw; cbn [negb]; [|by do 2 eexists].
  cbn [au_owner]. destruct (decide (ra_owner raw = KLEND_PROGRAM_ID)) as [Ho|Ho]; [|by do 2 eexists].
  destruct (kamino_on_account_update _ _) as [kamino [c|]] eqn:Hk; [|by do 2 eexists].
  unfold handle_candidate. cbv zeta.
  cbn [eg_breakers with_kamino with_slot with_dashboard].
  case_decide as Ha; [by do 2 eexists|].
  destruct (size_and_route_total c) as (o & Hs & Hc). rewrite Hs. cbn -[flash_depth].
  destruct o as [routed|]; [|by do 2 eexists]. specialize (Hc routed eq_refl). subst c.
  destruct (sr_feasible (simulate simulator routed)) eqn:Hf; cbn [andb]; [|by do 2 eexists].
  destruct (sr_profitable (simulate simulator routed)) eqn:Hp; [|by do 2 eexists].
  destruct mode eqn:Hm; [by do 2 eexists|].
  unfold fire, record_outcome. cbv zeta.
  fold bundle_of. destruct (submit submitter (bundle_of (simulate simulator routed))) eqn:Hout;
    do 2 eexists; (split; [reflexivity|]); (split; [reflexivity|]);
    constructor; cbn -[flash_depth]; rewrite ?Hout; try done; by eexists.
Qed.

Definition log_entry (o : option LiquidationRecord) : list LiquidationRecord :=
  match o with Some r => [r] | None => [] end.

(** What one event does. *)
Definition event_effect (e : Engine) (ev : EngineEvent) (e' : Engine) (rec : option LiquidationRecord) : Prop :=
  match ev, rec with
  | Arrive raw, Some r => step e raw = Done (e', Some r) /\ fired e e' raw r
  | LogTurn _, Some _ => False
  | _, None => quiet to_json (log_turns [ev]) e e'
  end.

Lemma engine_event_cases e ev :
  exists e' rec, engine_event transfer default_hash payer keypair mode risk router simulator submitter
                   registry to_json e ev = Done (e', rec) /\ event_effect e ev e' rec.
Proof.
  destruct ev as [raw|o]; [|by do 2 eexists].
  destruct (engine_step_cases e raw) as (e' & rec & Hs & _ & Hc). exists e', rec.
  split; [exact Hs|]. by destruct rec.
Qed.

Lemma engine_run_app e evs evs' :
  run e (evs ++ evs')
  = (let! st := run e evs in
     let '(e1, recs) := st in
     let! st := run e1 evs' in
     let '(e2, recs') := st in
     Done (e2, recs ++ recs')).
Proof.
  unfold run. revert e. induction evs as [|x evs IH]; intros e; cbn [app engine_run].
  - cbn. by destruct (engine_run _ _ _ _ _ _ _ _ _ _ _ e evs') as [[? ?]|].
  - destruct (engine_event _ _ _ _ _ _ _ _ _ _ _ e x) as [[e1 o]|]; [|done]. cbn. rewrite IH.
    destruct (engine_run _ _ _ _ _ _ _ _ _ _ _ e1 evs) as [[e2 recs]|]; [|done]. cbn.
    destruct (engine_run _ _ _ _ _ _ _ _ _ _ _ e2 evs') as [[e3 recs']|]; [|done]. by destruct o.
Qed.

(** An invariant of the engine, the events so far and the records submitted. *)
Lemma engine_run_ind e0 (P : Engine -> list EngineEvent -> list LiquidationRecord -> Prop) events :
  P e0 [] [] ->
  (forall before ev after e e' recs rec, events = before ++ ev :: after ->
     run e0 before = Done (e, recs) -> P e before recs -> event_effect e ev e' rec ->
     P e' (before ++ [ev]) (recs ++ log_entry rec)) ->
  exists e recs, run e0 events = Done (e, recs) /\ P e events recs.
Proof.
  intros Hinit Hstep. induction events as [|ev events IH] using rev_ind; [by do 2 eexists|].
  destruct IH as (e & recs & Hr & HP).
  { intros before ev' after e e' recs rec -> Hrun HP Hc. eapply (Hstep before ev' (after ++ [ev])); try done.
    by rewrite <- app_assoc. }
  destruct (engine_event_cases e ev) as (e' & rec & Hs & Hc).
  exists e', (recs ++ log_entry rec). rewrite engine_run_app, Hr. cbn.
  unfold run. cbn [engine_run]. rewrite Hs. cbn.
  split; [by destruct rec|]. by eapply (Hstep events ev []).
Qed.

(** A submission's record, or none. *)
Lemma event_effect_record e ev e' r :
  event_effect e ev e' (Some r) -> exists raw, ev = Arrive raw /\ step e raw = Done (e', Some r) /\ fired e e' raw r.
Proof. destruct ev as [raw|]; cbn; [|done]. intros []. by exists raw. Qed.

Lemma event_effect_quiet e ev e' :
  event_effect e ev e' None -> quiet to_json (log_turns [ev]) e e'.
Proof. by destruct ev. Qed.

(** C1: on every stream of accounts, however the writer task interleaves, the
    loop runs to the end without panicking, and it submits only in live mode,
    for a watched klend account whose update the adapter turned into a
    candidate, that the breakers allowed, sizing accepted and the simulator
    found feasible and profitable; the record carries the submitter's answer
    for the assembled bundle and the slots. *)
Theorem engine_submissions_justified e0 events :
  exists e recs, run e0 events = Done (e, recs)
    /\ Forall (fun r => exists before raw after e1 e2 recs1,
         events = before ++ Arrive raw :: after /\ run e0 before = Done (e1, recs1)
         /\ step e1 raw = Done (e2, Some r) /\ fired e1 e2 raw r) recs.
Proof.
  apply (engine_run_ind e0 (fun _ _ recs => Forall _ recs)); [constructor|].
  intros before ev after e e' recs rec -> Hrun HP Hc. apply Forall_app. split; [done|].
  destruct rec as [r|]; [|constructor]. constructor; [|constructor].
  apply event_effect_record in Hc as (raw & -> & Hs & Hf).
  by exists before, raw, after, e, e', recs.
Qed.

(** The clock moves forward on every turn, and never past a slot that was
    not reported or counted. *)
Lemma engine_slot_increases e raw e' rec :
  0 <= eg_slot_counter e < 2 ^ 64 - 1 -> step e raw = Done (e', rec) ->
  eg_slot_counter e < eg_slot_counter e' /\ ra_slot raw <= eg_slot_counter e'.
Proof.
  intros He Hs. destruct (engine_step_cases e raw) as (e1 & rec1 & Hs' & Hslot & _).
  rewrite Hs in Hs'. injection Hs' as <- <-. rewrite Hslot.
  unfold wadd. rewrite wrap_small by (unfold in_u; lia). lia.
Qed.

Definition landed (r : LiquidationRecord) : bool :=
  match lr_outcome r with Landed _ _ => true | _ => false end.
Definition reverted (r : LiquidationRecord) : bool :=
  match lr_outcome r with Reverted _ => true | _ => false end.
Definition count_records (f : LiquidationRecord -> bool) (recs : list LiquidationRecord) : Z :=
  Z.of_nat (length (filter (fun r => f r = true) recs)).

Lemma count_records_snoc f recs r :
  count_records f (recs ++ [r]) = count_records f recs + (if f r then 1 else 0).
Proof.
  unfold count_records. rewrite list.filter_app, length_app, filter_cons, filter_nil.
  case_decide as Hf; cbn [length]; [rewrite Hf; lia|]. apply not_true_is_false in Hf. rewrite Hf. cbn. lia.
Qed.

Lemma count_records_le f recs : 0 <= count_records f recs <= Z.of_nat (length recs).
Proof. unfold count_records. pose proof (length_filter (fun r => f r = true) recs). lia. Qed.

Lemma arrivals_snoc before ev :
  arrivals (before ++ [ev]) = arrivals before ++ arrivals [ev].
Proof. apply omap_app. Qed.

Lemma count_outcome_records r recs :
  Z.of_nat (length recs) + 1 < 2 ^ 64 ->
  count_outcome (lr_outcome r)
    (Z.of_nat (length recs), count_records landed recs, count_records reverted recs)
  = (Z.of_nat (length (recs ++ [r])), count_records landed (recs ++ [r]), count_records reverted (recs ++ [r])).
Proof.
  intros Hlt. pose proof (count_records_le landed recs). pose proof (count_records_le reverted recs).
  rewrite !count_records_snoc, length_app. generalize dependent (count_records landed recs).
  generalize dependent (count_records reverted recs). intros b Hb a Ha.
  unfold count_outcome, wadd, landed, reverted. cbn [length].
  destruct (lr_outcome r); rewrite !wrap_small by (unfold in_u; lia); (apply f_equal2; [apply f_equal2|]); lia.
Qed.

(** The log of a run: its channel and file saw the submitted records, offered
    in order, interleaved with the turns of the writer task, in order. *)
Definition log_saw (log_file : string) (e : Engine) (events : list EngineEvent)
    (recs : list LiquidationRecord) : Prop :=
  exists wevents, offered wevents = recs /\ outcomes wevents = log_turns events
    /\ eg_log e = (foldl (writer_step to_json) (writer_spawn log_file 4096, []) wevents).1.

Lemma log_saw_step log_file e before recs e' ev rec w :
  log_saw log_file e before recs ->
  offered w = log_entry rec -> outcomes w = log_turns [ev] ->
  (forall acc, eg_log e' = (foldl (writer_step to_json) (eg_log e, acc) w).1) ->
  log_saw log_file e' (before ++ [ev]) (recs ++ log_entry rec).
Proof.
  intros (ws & Ho & Hu & Hl) Ho' Hu' Hw. exists (ws ++ w). unfold offered, outcomes, log_turns in *.
  rewrite !omap_app, foldl_app. split_and!; [congruence..|].
  destruct (foldl (writer_step to_json) _ ws) as [w' acc]. cbn in Hl. subst w'. apply Hw.
Qed.

(** C12: from the start of the process, the counters are the numbers of
    submissions, landings and reverts (below 2^64 of them), the breakers have
    seen exactly those landings and reverts in order, and the log's channel
    and file are those of the writer that was offered the submitted records
    in order, interleaved with the turns its task took. *)
Theorem engine_accounting log_file events :
  Z.of_nat (length (arrivals events)) < 2 ^ 64 ->
  exists e recs, run (Engine_new log_file mode) events = Done (e, recs)
    /\ attempts e = (Z.of_nat (length recs), count_records landed recs, count_records reverted recs)
    /\ eg_breakers e = breaker_run (rk_consecutive_revert_limit risk) (omap breaker_event recs)
    /\ exists wevents, offered wevents = recs /\ outcomes wevents = log_turns events
       /\ eg_log e = (foldl (writer_step to_json) (writer_spawn log_file 4096, []) wevents).1.
Proof.
  intros Hlen.
  destruct (engine_run_ind (Engine_new log_file mode) (fun e before recs =>
    (length recs <= length (arrivals before))%nat
    /\ ((length (arrivals before) <= length (arrivals events))%nat ->
        attempts e = (Z.of_nat (length recs), count_records landed recs, count_records reverted recs))
    /\ eg_breakers e = breaker_run (rk_consecutive_revert_limit risk) (omap breaker_event recs)
    /\ log_saw log_file e before recs) events) as (e & recs & Hrun & Hle & HP & Hb & Hl).
  - split_and!; [done..|]. by exists [].
  - intros before ev after e e' recs rec _ _ (Hle & Ha & Hb & Hl) Hc. rewrite arrivals_snoc, !length_app.
    destruct rec as [r|]; cbn [log_entry length].
    + apply event_effect_record in Hc as (raw & -> & _ & Hf). destruct Hf as [_ _ _ _ _ _ _ _ _ _ Hlog Hcnt Hbr].
      change (length (arrivals [Arrive raw])) with 1%nat. split_and!; [lia| | |].
      * intros Hle'. rewrite Hcnt, Ha by lia. rewrite count_outcome_records by lia. by rewrite length_app.
      * rewrite Hbr, Hb, omap_app. unfold breaker_run. rewrite foldl_app. cbn.
        unfold breaker_event. by destruct (lr_outcome r).
      * apply (log_saw_step log_file e before recs e' (Arrive raw) (Some r) [EvTryRecord r]); [done..|].
        intros acc. cbn. rewrite Hlog. by destruct (try_record r (eg_log e)) as [? []].
    + rewrite !app_nil_r, Nat.add_0_r. destruct (event_effect_quiet _ _ _ Hc) as (Hb' & Ha' & Hl').
      split_and!; [lia|intros Hle'; rewrite Ha'; apply Ha; lia|by rewrite Hb'|].
      rewrite <- (app_nil_r recs).
      apply (log_saw_step log_file e before recs e' ev None (EvTask <$> log_turns [ev])); [done|by destruct ev..|].
      intros acc. rewrite Hl'. by destruct ev.
  - exists e, recs. split; [done|]. split; [by apply HP|]. by split.
Qed.

(** C33: unless the router hands out the all-zero reserve, no history of reverts
    ever makes the breakers stop a candidate of this loop: the check asks for
    the all-zero reserve and the outcomes are recorded under the routed one,
    and the loop never sets the engine-wide breakers. *)
Theorem breakers_never_stop_engine log_file events :
  (forall mint amount fs, route router mint amount = Some fs -> fs_reserve fs <> Pubkey_default) ->
  exists e recs, run (Engine_new log_file mode) events = Done (e, recs)
    /\ forall c, allows (eg_breakers e) (bc_protocol c) (check_route_key c) = Allowed.
Proof.
  intros Hroute.
  apply (engine_run_ind _ (fun e _ _ =>
    forall c, allows (eg_breakers e) (bc_protocol c) (check_route_key c) = Allowed)); [done|].
  intros before ev after e e' recs rec _ _ HP Hc c.
  destruct rec as [r|]; [|apply event_effect_quiet in Hc as (-> & _); apply HP].
  apply event_effect_record in Hc as (raw & -> & _ & Hc).
  destruct Hc as [_ _ _ _ _ Hsized _ _ _ _ _ _ ->].
  assert (Hne : outcome_route_key (lr_routed r) <> check_route_key c).
  { intros Hk. apply (f_equal rt_flash_reserve) in Hk. cbn in Hk.
    apply size_and_route_route, Hroute in Hsized. done. }
  unfold breaker_event. destruct (lr_outcome r); [| |apply HP].
  - by rewrite (route_event_other _ _ _ (outcome_route_key (lr_routed r))).
  - by rewrite (route_event_other _ _ _ (outcome_route_key (lr_routed r))).
Qed.

(** A run in which no event submits leaves nothing but the writer's turns. *)
Lemma engine_run_quiet e0 events :
  (forall e e' raw r, ~ fired e e' raw r) ->
  exists e, run e0 events = Done (e, []) /\ quiet to_json (log_turns events) e0 e.
Proof.
  intros Hno.
  destruct (engine_run_ind e0 (fun e before recs => recs = [] /\ quiet to_json (log_turns before) e0 e) events)
    as (e & recs & Hrun & -> & Hq); [done| |by exists e].
  intros before ev after e e' recs rec _ _ [-> Hq] Hc. destruct rec as [r|].
  - apply event_effect_record in Hc as (raw & _ & _ & Hf). by apply Hno in Hf.
  - split; [done|]. unfold log_turns. rewrite omap_app. eapply quiet_app; [exact Hq|].
    by apply event_effect_quiet.
Qed.
End properties.

Section operations.
Context `{KlendInterface} `{SolanaSdk}.
Context {R S B : Type} `{FlashSourceRouter R} `{Simulator S} `{Submitter B}.
Context (transfer : Pubkey -> Pubkey -> Z -> Instruction) (default_hash : Hash).
Context (payer : Pubkey) (keypair : Signer) (risk : RiskConfig).
Context (simulator : S) (submitter : B) (registry : DecoderRegistry).
Context (to_json : LiquidationRecord -> option string).

(** C13: with the halt flag given, whatever the configuration says and whatever
    arrives, the engine submits nothing: no record, no attempt, no breaker
    event, and the log gains no entry: what changes in it is what the turns
    of its task write out. *)
Theorem kill_switch_stops_submission (router : R) cli config_mode e0 events :
  cli_halt cli = true ->
  exists e, engine_run transfer default_hash payer keypair (effective_mode cli config_mode) risk
              router simulator submitter registry to_json e0 events = Done (e, [])
    /\ quiet to_json (log_turns events) e0 e.
Proof.
  intros Hh. assert (Hm : effective_mode cli config_mode = Observe).
  { unfold effective_mode. by rewrite Hh. }
  rewrite Hm. apply engine_run_quiet. by intros e e' raw r [].
Qed.

(** The loop as it is wired up, with the router it constructs and never
    feeds, submits nothing on any stream of accounts, in any mode. *)
Theorem wired_engine_never_submits iter mode e0 events :
  (forall m, iter m ≡ₚ map_to_list m) ->
  exists e, @engine_run _ _ _ _ _ (MultiSourceRouter_is_router iter) _ _ transfer default_hash payer keypair
              mode risk MultiSourceRouter_new simulator submitter registry to_json e0 events = Done (e, [])
    /\ quiet to_json (log_turns events) e0 e.
Proof.
  intros Hiter. apply (@engine_run_quiet _ _ _ _ _ (MultiSourceRouter_is_router iter)).
  intros e e' raw r Hf. apply fired_sized in Hf.
  apply (@size_and_route_route _ (MultiSourceRouter_is_router iter)) in Hf.
  destruct (route_min iter Hiter _ _ _ _ Hf) as (info & (Hl & _) & _). done.
Qed.
End operations.

(* ------------------------------------------------------------------ *)
(** ** A concrete engine: the toy interfaces of Kamino and Bundler, a fed
    router, and a submitter that always reports the same outcome *)

Record FixedSubmitter := mkFixedSubmitter { fixed_outcome : SubmitOutcome }.
Definition FixedSubmitter_submitter : Submitter FixedSubmitter :=
  {| submit s _ := fixed_outcome s |}.

Definition toy_transfer (from to : Pubkey) (lamports : Z) : Instruction :=
  mkInstruction (rkey 0) [meta from true; meta to false] [lamports].
Definition toy_risk : RiskConfig :=
  mkRiskConfig f64_one f64_one 5 f64_one (f64_of_Z 10) (f64_of_Z 30) (f64_lit 1 2) (f64_of_Z 100) 1.
Definition toy_registry : DecoderRegistry := watch (kkey 77) DecoderRegistry_new.
Definition raw_of (u : AccountUpdate) : RawAccount :=
  mkRawAccount (au_pubkey u) (au_owner u) (au_data u) (au_slot u).
(** The market, the two reserves, then the same breached obligation twice,
    the writer task taking a turn in between. *)
Definition sample_stream : list EngineEvent :=
  (Arrive ∘ raw_of <$> sample_updates ++ [sample_update 42 3 0 101])
  ++ [LogTurn Written; Arrive (raw_of (sample_update 42 3 0 102))].
Definition toy_line (r : LiquidationRecord) : option string := Some "{}".

Definition toy_run (mode : SubmitMode) (router : MultiSourceRouter) (outcome : SubmitOutcome) :=
  @engine_run toy_klend toy_sdk _ _ _ (MultiSourceRouter_is_router map_to_list)
    LiteSvmSimulator_is_simulator FixedSubmitter_submitter toy_transfer [] (rkey 1) (rkey 1)
    mode toy_risk router (with_min_profit f64_one) (mkFixedSubmitter outcome) toy_registry toy_line
    (Engine_new EmptyString mode) sample_stream.

(** With a revert limit of one, a reverted route fires again at once. The
    first record is on disk, the second still queued. *)
Example reverted_route_fires_again :
  match toy_run Live (sample_router false) (Reverted RaceLost) with
  | Done (e, recs) => (attempts e, length recs, lr_submitted_at_slot <$> recs)
                      = ((2, 0, 2), 2%nat, [300000004; 300000005])
                      /\ (aw_file (eg_log e), length (aw_queue (eg_log e))) = ("{}" +:+ one_newline, 1%nat)
  | Panic => False
  end.
Proof. vm_compute. split; reflexivity. Qed.

Lemma engine_accounting_witness :
  exists e recs, toy_run Live (sample_router false) (Landed 7 f64_one) = Done (e, recs)
    /\ attempts e = (Z.of_nat (length recs), count_records landed recs, count_records reverted recs).
Proof.
  destruct (@engine_accounting toy_klend toy_sdk _ _ _ (MultiSourceRouter_is_router map_to_list)
    LiteSvmSimulator_is_simulator FixedSubmitter_submitter toy_transfer [] (rkey 1) (rkey 1)
    Live toy_risk (sample_router false) (with_min_profit f64_one) (mkFixedSubmitter (Landed 7 f64_one))
    toy_registry toy_line EmptyString sample_stream ltac:(vm_compute; reflexivity)) as (e & recs & Hr & Ha & _).
  exists e, recs. split; [exact Hr|exact Ha].
Defined.

Lemma breakers_never_stop_engine_witness :
  exists e recs, toy_run Live (sample_router false) (Reverted RaceLost) = Done (e, recs)
    /\ allows (eg_breakers e) Kamino (check_route_key sample_candidate) = Allowed.
Proof.
  destruct (@breakers_never_stop_engine toy_klend toy_sdk _ _ _ (MultiSourceRouter_is_router map_to_list)
    LiteSvmSimulator_is_simulator FixedSubmitter_submitter toy_transfer [] (rkey 1) (rkey 1)
    Live toy_risk (sample_router false) (with_min_profit f64_one) (mkFixedSubmitter (Reverted RaceLost))
    toy_registry toy_line EmptyString sample_stream) as (e & recs & Hr & Ha).
  - intros mint amount fs Hr.
    destruct (route_min map_to_list (fun m => Permutation_refl _) _ _ _ _ Hr) as (info & (Hl & _) & _).
    intros Hz. rewrite Hz in Hl. vm_compute in Hl. discriminate Hl.
  - exists e, recs. split; [exact Hr|]. exact (Ha sample_candidate).
Defined.

Lemma kill_switch_stops_submission_witness :
  exists e, toy_run (effective_mode (mkCli "gyrfalcon.toml" (Some CliLive) true 8080) Live)
              (sample_router false) (Landed 7 f64_one) = Done (e, []).
Proof.
  destruct (@kill_switch_stops_submission toy_klend toy_sdk _ _ _ (MultiSourceRouter_is_router map_to_list)
    LiteSvmSimulator_is_simulator FixedSubmitter_submitter toy_transfer [] (rkey 1) (rkey 1)
    toy_risk (with_min_profit f64_one) (mkFixedSubmitter (Landed 7 f64_one)) toy_registry toy_line
    (sample_router false) (mkCli "gyrfalcon.toml" (Some CliLive) true 8080) Live
    (Engine_new EmptyString Observe) sample_stream eq_refl) as (e & Hr & _).
  exists e. exact Hr.
Defined.

Lemma wired_engine_never_submits_witness :
  exists e, toy_run Live MultiSourceRouter_new (Landed 7 f64_one) = Done (e, []).
Proof.
  destruct (@wired_engine_never_submits toy_klend toy_sdk _ _ LiteSvmSimulator_is_simulator
    FixedSubmitter_submitter toy_transfer [] (rkey 1) (rkey 1) toy_risk (with_min_profit f64_one)
    (mkFixedSubmitter (Landed 7 f64_one)) toy_registry toy_line map_to_list Live
    (Engine_new EmptyString Live) sample_stream (fun m => Permutation_refl _)) as (e & Hr & _).
  exists e. exact Hr.
Defined.
