(* ===== verification/Daemon.v ===== *)
(** * crates/gyrfalcon-bin/main.rs: start-up, exit codes and the dashboard
    server around the event loop of [Engine].

    File reading, JSON, key pairs and the network are parameters; the router,
    simulator and submitter are the ones [main] constructs. Three tasks run
    concurrently once the daemon is up: the loop of [main], the feed's
    background task and the log's writer; a run is a sequence of their turns,
    and the loop's turn polls the feed's channel. *)

From Stdlib Require Import ZArith Lia.
From stdpp Require Import base gmap list strings option.
From S2P Require Import Prelude Lists F64 Text CoreTypes Config Tip Breakers Router Bundler Instructions Sizing Kamino Ingestion Store Sim Submit Engine.

Open Scope rust_scope.

(** ** The dashboard server *)

Definition DashboardState_default : DashboardState :=
  mkDashboardState false "" 0 0 0 0 0 0 0 f64_zero 0 false [].

(** The shared state, [None] when its lock is poisoned:
    [state.read().map(clone).unwrap_or_default()]. *)
Definition snapshot (state : option DashboardState) : DashboardState :=
  default DashboardState_default state.

Inductive DashboardReply :=
| ReplyIndex
| ReplyJson (d : DashboardState)
| ReplyUpgrade
| ReplyNotFound.

(** The routes of [start_dashboard_server] and their handlers. *)
Definition dashboard_get (state : option DashboardState) (path : string) : DashboardReply :=
  if String.eqb path "/" then ReplyIndex
  else if String.eqb path "/metrics" then ReplyJson (snapshot state)
  else if String.eqb path "/api/state" then ReplyJson (snapshot state)
  else if String.eqb path "/ws" then ReplyUpgrade
  else ReplyNotFound.

(** [handle_socket]: at every tick the state is read and sent when it
    serializes, until a send fails. A tick is the state then and whether a
    send would succeed; the result is what the client received. *)
Fixpoint handle_socket (to_json : DashboardState -> option string)
    (ticks : list (option DashboardState * bool)) : list string :=
  match ticks with
  | [] => []
  | (state, send_ok) :: ticks =>
      match to_json (snapshot state) with
      | Some json_str => if send_ok then json_str :: handle_socket to_json ticks else []
      | None => handle_socket to_json ticks
      end
  end.

(** ** main *)

Section daemon_state.
Context {C : Type}.

(** What the three tasks share and keep once the loop of [main] runs. *)
Record MainState := mkMainState {
  ms_feed : GeyserFeed C;
  ms_task : option ConnectTask;
  ms_engine : Engine;
  ms_records : list LiquidationRecord
}.

Inductive MainOutcome :=
| MainExit (code : ExitCode)
| MainRunning (s : MainState)
| MainFinished (s : MainState) (code : ExitCode).

(** Whose turn it is: the loop of [main] polls its feed, the feed's task wakes
    up, or the log's writer goes on, with the system's answer to its write. *)
Inductive MainEvent :=
| LoopPolls
| FeedTaskWakes
| WriterTurns (o : WriteOutcome).
End daemon_state.
Arguments MainState : clear implicits. Arguments MainOutcome : clear implicits.

Section main.
Context `{KlendInterface} `{SolanaSdk}.
Context (read_to_string : string -> option string) (toml_from_str : string -> option Config).
(** [serde_json::from_str::<Vec<u8>>], [Keypair::from_bytes], what
    [Keypair::new] generates, and [Signer::pubkey]. *)
Context (bytes_from_json : string -> option (list Z)) (keypair_from_bytes : list Z -> option Signer).
Context (keypair_new : Signer) (signer_pubkey : Signer -> Pubkey).
Context (transfer : Pubkey -> Pubkey -> Z -> Instruction) (default_hash : Hash).
Context (iter : gmap Pubkey ReserveInfo -> list (Pubkey * ReserveInfo)).
Context (base64_encode : list Z -> string) (http_post : string -> JsonRpc -> option (Z * HttpReply)).
Context (staked_first : bool).
(** What data/liquidation_log.jsonl holds, and [serde_json::to_string]. *)
Context (log_file : string) (to_json : LiquidationRecord -> option string).
(** The channel between the feed and its task. *)
Context {C : Type} `{MpscChannel C RawAccount}.

Definition load_keypair (path : string) : Signer :=
  match read_to_string path with
  | Some data =>
      match bytes_from_json data with
      | Some bytes => default keypair_new (keypair_from_bytes bytes)
      | None => keypair_new
      end
  | None => keypair_new
  end.

(** The decoder registry watches Kamino's program. *)
Definition main_registry : panicking DecoderRegistry :=
  let! kamino_pid := kamino_program_id in
  Done (watch kamino_pid DecoderRegistry_new).

(** The engine with the parts [main] constructs. *)
Definition main_event (config : Config) (mode : SubmitMode) (keypair : Signer)
    (registry : DecoderRegistry) : Engine -> EngineEvent -> panicking (Engine * option LiquidationRecord) :=
  let staked_path := mkStakedQuicSendPath (ssc_url (cf_staked_send config)) in
  let jito_path := mkJitoSendPath (jc_block_engine_url (cf_jito config)) in
  @engine_event _ _ _ _ _ (MultiSourceRouter_is_router iter) LiteSvmSimulator_is_simulator
    (@DualPathSubmitter_submitter _ _ StaticLeaderSchedule
       (StakedQuicSendPath_path base64_encode http_post) (JitoSendPath_path base64_encode http_post)
       StaticLeaderSchedule_provider staked_first)
    transfer default_hash (signer_pubkey keypair) keypair mode (cf_risk config)
    MultiSourceRouter_new LiteSvmSimulator_new (DualPathSubmitter_new staked_path jito_path 1500)
    registry to_json.

Section loop.
(** What one event does to the engine. *)
Context (event : Engine -> EngineEvent -> panicking (Engine * option LiquidationRecord)).

Definition with_event (s : MainState C) (feed : GeyserFeed C) (ev : EngineEvent) : panicking (MainOutcome C) :=
  let! step := event (ms_engine s) ev in
  let '(e, rec) := step in
  Done (MainRunning (mkMainState feed (ms_task s) e (ms_records s ++ log_entry rec))).

(** One turn of one of the tasks. *)
Definition main_turn (s : MainState C) (ev : MainEvent) : panicking (MainOutcome C) :=
  match ev with
  | LoopPolls =>
      match next_account (ms_feed s) with
      | (feed, Received raw_acc) => with_event s feed (Arrive raw_acc)
      | (feed, Closed) =>
          Done (MainFinished (mkMainState feed (ms_task s) (ms_engine s) (ms_records s)) ExitSuccess)
      | (feed, Pending) =>
          Done (MainRunning (mkMainState feed (ms_task s) (ms_engine s) (ms_records s)))
      end
  | FeedTaskWakes =>
      match ms_task s with
      | None => Done (MainRunning s)
      | Some task =>
          let '(feed, task) := connect_task_turn task (ms_feed s) in
          Done (MainRunning (mkMainState feed task (ms_engine s) (ms_records s)))
      end
  | WriterTurns o => with_event s (ms_feed s) (LogTurn o)
  end.

(** Leaving the loop ends the process. *)
Fixpoint main_run (o : MainOutcome C) (schedule : list MainEvent) : panicking (MainOutcome C) :=
  match o, schedule with
  | MainRunning s, ev :: schedule =>
      let! o := main_turn s ev in main_run o schedule
  | _, _ => Done o
  end.
End loop.

(** [main]; it runs inside the tokio runtime, over a schedule of its tasks. *)
Definition daemon_main (cli : Cli) (schedule : list MainEvent) : panicking (MainOutcome C) :=
  match load read_to_string toml_from_str (cli_config cli) with
  | Err _ => Done (MainExit ExitFailure)
  | Ok config =>
      let mode := effective_mode cli (sc_mode (cf_submit config)) in
      let keypair := load_keypair (ic_keypair_path (cf_identity config)) in
      let! registry := main_registry in
      let! connected := GeyserFeed_connect true (gc_url (cf_geyser config)) in
      match connected with
      | Err _ => Done (MainExit ExitSuccess)
      | Ok (geyser_feed, task) =>
          main_run (main_event config mode keypair registry)
            (MainRunning (mkMainState geyser_feed task (Engine_new log_file mode) [])) schedule
      end
  end.

(** How often the loop polled and the feed's task woke up. *)
Definition polls (schedule : list MainEvent) : nat :=
  length (filter (fun ev => match ev with LoopPolls => true | _ => false end = true) schedule).
Definition wakes (schedule : list MainEvent) : nat :=
  length (filter (fun ev => match ev with FeedTaskWakes => true | _ => false end = true) schedule).

Lemma main_event_log config mode keypair registry e o :
  aw_queue (eg_log e) = [] ->
  main_event config mode keypair registry e (LogTurn o) = Done (e, None).
Proof.
  intros Hq. unfold main_event, engine_event, with_log, writer_task_step. rewrite Hq. by destruct e.
Qed.

Context `{!MpscChannelLaws C RawAccount}.

(** While the task holds the channel open and empty, no schedule gets the loop
    past its first poll, and the task only doubles its delay. *)
Lemma held_open_run config mode keypair registry f e recs n schedule :
  held_open f -> aw_queue (eg_log e) = [] ->
  main_run (main_event config mode keypair registry)
    (MainRunning (mkMainState f (Some (mkConnectTask (reconnect_delay n))) e recs)) schedule
  = Done (MainRunning (mkMainState f (Some (mkConnectTask (reconnect_delay (n + wakes schedule)))) e recs)).
Proof.
  intros Hf Hq. revert n. induction schedule as [|[| |o] schedule IH]; intros n.
  - by rewrite Nat.add_0_r.
  - cbn [main_run main_turn ms_feed]. rewrite held_open_next by done. apply IH.
  - cbn [main_run main_turn ms_feed ms_task]. rewrite held_open_turn by done.
    cbn [ct_delay ms_engine ms_records]. change (Z.min (reconnect_delay n * 2) 5000) with (reconnect_delay (S n)).
    unfold wakes in *. rewrite filter_cons_True by done. cbn [length]. rewrite <- Nat.add_succ_comm. apply IH.
  - cbn [main_run main_turn]. unfold with_event. cbn [ms_engine ms_feed ms_task ms_records].
    rewrite main_event_log by done. cbn [log_entry]. rewrite app_nil_r. apply IH.
Qed.

(** With nobody left to send, the loop ends at its first poll. *)
Lemma abandoned_run config mode keypair registry f e recs schedule :
  abandoned f -> aw_queue (eg_log e) = [] ->
  main_run (main_event config mode keypair registry) (MainRunning (mkMainState f None e recs)) schedule
  = Done (if (polls schedule =? 0)%nat then MainRunning (mkMainState f None e recs)
          else MainFinished (mkMainState f None e recs) ExitSuccess).
Proof.
  intros Hf Hq. induction schedule as [|[| |o] schedule IH]; [done| | |].
  - cbn [main_run main_turn ms_feed]. rewrite abandoned_next by done. unfold polls.
    rewrite filter_cons_True by done. by destruct schedule.
  - cbn [main_run main_turn ms_task]. exact IH.
  - cbn [main_run main_turn]. unfold with_event. cbn [ms_engine ms_feed ms_task ms_records].
    rewrite main_event_log by done. cbn [log_entry]. rewrite app_nil_r. exact IH.
Qed.

(** C32: how the daemon starts and ends, under every schedule of its tasks. It
    fails exactly when the configuration does not load; it panics exactly
    when it loads and Kamino's program id does not parse; it exits with
    success on an empty endpoint. On a mock or example endpoint nobody holds
    the channel's sending half and the loop ends with success at its first
    poll. On any other endpoint the task holds the sending half, never sends
    and never leaves its loop, whose delay doubles up to five seconds: every
    poll waits, and however long the daemon runs it has not ended, the engine
    is as it was made and nothing was submitted. *)
Theorem daemon_main_spec cli :
  (forall schedule, daemon_main cli schedule = Done (MainExit ExitFailure)
   <-> exists err, load read_to_string toml_from_str (cli_config cli) = Err err)
  /\ (forall schedule, daemon_main cli schedule = Panic
      <-> (exists config, load read_to_string toml_from_str (cli_config cli) = Ok config)
          /\ kamino_program_id = Panic)
  /\ (forall config pid,
        load read_to_string toml_from_str (cli_config cli) = Ok config -> kamino_program_id = Done pid ->
        let url := gc_url (cf_geyser config) in
        let e := Engine_new log_file (effective_mode cli (sc_mode (cf_submit config))) in
        let mock := str_contains "example.com" url || str_starts_with "mock" url in
        (url = EmptyString -> forall schedule, daemon_main cli schedule = Done (MainExit ExitSuccess))
        /\ (url <> EmptyString -> exists f : GeyserFeed C,
              gf_endpoint f = url
              /\ next_account f = (f, if mock then Closed else Pending)
              /\ forall schedule, daemon_main cli schedule
                 = Done (if mock
                         then if (polls schedule =? 0)%nat then MainRunning (mkMainState f None e [])
                              else MainFinished (mkMainState f None e []) ExitSuccess
                         else let delay := Z.min (500 * 2 ^ Z.of_nat (wakes schedule)) 5000 in
                              MainRunning (mkMainState f (Some (mkConnectTask delay)) e [])))).
Proof.
  unfold daemon_main, main_registry. destruct (load _ _ _) as [config|err].
  2: { split_and!; [intros _; split; [by eexists|done]|intros _; split; [done|by intros [[? ?] _]]|done]. }
  destruct kamino_program_id as [pid|].
  2: { split_and!; [intros _; split; [done|by intros [? ?]]|intros _; split; [by eauto|done]|done]. }
  destruct (connect_spec (C := C) true (gc_url (cf_geyser config))) as (res & Hconn & Hres). cbv zeta.
  cbn [andb] in Hres.
  assert (Hrun : forall schedule, match res with
    | Err _ => True
    | Ok (f, task) =>
        main_run (main_event config (effective_mode cli (sc_mode (cf_submit config)))
                    (load_keypair (ic_keypair_path (cf_identity config))) (watch pid DecoderRegistry_new))
          (MainRunning (mkMainState f task (Engine_new log_file (effective_mode cli (sc_mode (cf_submit config)))) []))
          schedule
        = Done (if str_contains "example.com" (gc_url (cf_geyser config))
                   || str_starts_with "mock" (gc_url (cf_geyser config))
                then if (polls schedule =? 0)%nat
                     then MainRunning (mkMainState f None (Engine_new log_file (effective_mode cli (sc_mode (cf_submit config)))) [])
                     else MainFinished (mkMainState f None (Engine_new log_file (effective_mode cli (sc_mode (cf_submit config)))) []) ExitSuccess
                else MainRunning (mkMainState f (Some (mkConnectTask (Z.min (500 * 2 ^ Z.of_nat (wakes schedule)) 5000)))
                                    (Engine_new log_file (effective_mode cli (sc_mode (cf_submit config)))) []))
    end).
  { intros schedule. destruct res as [[f task]|]; [|done]. destruct Hres as (_ & _ & Hst).
    destruct (orb _ _); destruct Hst as [Hf ->]; [by apply abandoned_run|].
    rewrite held_open_run by done. by rewrite reconnect_delay_spec. }
  split_and!.
  - intros schedule. split; [|by intros [? ?]]. rewrite Hconn. cbn. specialize (Hrun schedule).
    destruct res as [[f task]|]; [|done]. rewrite Hrun. by repeat case_match.
  - intros schedule. split; [|by intros [_ ?]]. rewrite Hconn. cbn. specialize (Hrun schedule).
    destruct res as [[f task]|]; [|done]. by rewrite Hrun.
  - intros ? ? [= <-] [= <-]. rewrite Hconn. cbn. destruct res as [[f task]|].
    + destruct Hres as (Hne & Hep & Hst). split; [done|]. intros _. exists f. split_and!; [done| |exact Hrun].
      destruct (orb _ _); destruct Hst as [Hf _]; [by apply abandoned_next|by apply held_open_next].
    + destruct Hres as [Hu _]. by split.
Qed.

(** The signer comes from the key file only when it is readable, is a JSON
    byte array and holds a key pair; in every other case, live mode included,
    the daemon goes on with the generated pair and ends as it would have. *)
Theorem load_keypair_spec path :
  (forall data bytes kp, read_to_string path = Some data -> bytes_from_json data = Some bytes ->
     keypair_from_bytes bytes = Some kp -> load_keypair path = kp)
  /\ ((read_to_string path = None
       \/ (exists data, read_to_string path = Some data /\ bytes_from_json data = None)
       \/ exists data bytes, read_to_string path = Some data /\ bytes_from_json data = Some bytes
          /\ keypair_from_bytes bytes = None) -> load_keypair path = keypair_new).
Proof.
  unfold load_keypair. split.
  - by intros data bytes kp -> -> ->.
  - intros [->|[(data & -> & ->)|(data & bytes & -> & -> & ->)]]; done.
Qed.
End main.

(* ------------------------------------------------------------------ *)
(** ** What the dashboard can show *)

(** The fields of the dashboard nothing assigns after the start. *)
Definition constant_fields (d : DashboardState) : bool * string * bool * list LiquidationSummary :=
  (ds_connected d, ds_mode d, ds_circuit_breaker_active d, ds_recent_liquidations d).

Section engine_loop.
Context `{KlendInterface} `{SolanaSdk}.
Context {R S B : Type} `{FlashSourceRouter R} `{Simulator S} `{Submitter B}.
Context (transfer : Pubkey -> Pubkey -> Z -> Instruction) (default_hash : Hash).
Context (payer : Pubkey) (keypair : Signer) (mode : SubmitMode) (risk : RiskConfig).
Context (router : R) (simulator : S) (submitter : B) (registry : DecoderRegistry).
Context (to_json : LiquidationRecord -> option string).
Context {C : Type} `{MpscChannelLaws C RawAccount}.
Let event :=
  engine_event transfer default_hash payer keypair mode risk router simulator submitter registry to_json.
Let run :=
  engine_run transfer default_hash payer keypair mode risk router simulator submitter registry to_json.

(** The state an outcome has, if the loop was reached. *)
Definition outcome_state (o : MainOutcome C) : option (MainState C) :=
  match o with MainExit _ => None | MainRunning s => Some s | MainFinished s _ => Some s end.

Lemma connect_task_turn_items task f :
  chan_items (gf_receiver (connect_task_turn task f).1) = chan_items (gf_receiver f).
Proof.
  unfold connect_task_turn. destruct (chan_is_closed _); [|done]. cbn. by apply chan_drop_sender_spec.
Qed.

Lemma next_account_items f :
  match next_account f with
  | (f', Received raw) => chan_items (gf_receiver f) = raw :: chan_items (gf_receiver f')
  | (f', _) => chan_items (gf_receiver f') = chan_items (gf_receiver f)
  end.
Proof.
  unfold next_account. destruct (chan_items (gf_receiver f)) as [|raw l] eqn:Hi.
  - destruct (decide (chan_senders (gf_receiver f) = O)) as [Hs|Hs];
      [rewrite chan_recv_closed by done|rewrite chan_recv_pending by done]; done.
  - destruct (chan_recv_item raw l _ Hi) as (c & -> & Hl & _). cbn. congruence.
Qed.

(** The loop is [engine_run]: whatever channel it starts from and however the
    tasks interleave, what happened to the engine is a run over events whose
    arrivals are the accounts taken from the channel, in order, and the
    records are that run's. The theorems about [engine_run] hold of it. *)
Theorem main_run_is_engine_run s schedule o :
  main_run event (MainRunning s) schedule = Done o ->
  exists s' events recs, outcome_state o = Some s'
    /\ run (ms_engine s) events = Done (ms_engine s', recs)
    /\ ms_records s' = ms_records s ++ recs
    /\ chan_items (gf_receiver (ms_feed s))
       = arrivals events ++ chan_items (gf_receiver (ms_feed s')).
Proof.
  revert s. induction schedule as [|ev schedule IH]; intros s.
  { intros [= <-]. exists s, [], []. by rewrite app_nil_r. }
  assert (Hev : forall feed x, main_run event (MainRunning s) (ev :: schedule)
                               = (let! o := with_event event s feed x in main_run event o schedule) ->
    chan_items (gf_receiver (ms_feed s)) = arrivals [x] ++ chan_items (gf_receiver feed) ->
    main_run event (MainRunning s) (ev :: schedule) = Done o ->
    exists s' events recs, outcome_state o = Some s'
      /\ run (ms_engine s) events = Done (ms_engine s', recs) /\ ms_records s' = ms_records s ++ recs
      /\ chan_items (gf_receiver (ms_feed s)) = arrivals events ++ chan_items (gf_receiver (ms_feed s'))).
  { intros feed x -> Hi. unfold with_event. destruct (event (ms_engine s) x) as [[e rec]|] eqn:Ex; [|done].
    cbn. intros Hr. apply IH in Hr as (s' & evs & recs & Ho & Hrun & Hrec & Hit). cbn in Hrun, Hrec, Hit.
    exists s', (x :: evs), (log_entry rec ++ recs). split_and!; [done| | |].
    - unfold run. cbn [engine_run]. fold event. rewrite Ex. cbn. fold run. rewrite Hrun. by destruct rec.
    - by rewrite Hrec, app_assoc.
    - rewrite Hi, Hit, app_assoc. f_equal. symmetry. apply (omap_app _ [x] evs). }
  assert (Hkeep : forall feed task, chan_items (gf_receiver feed) = chan_items (gf_receiver (ms_feed s)) ->
    main_run event (MainRunning (mkMainState feed task (ms_engine s) (ms_records s))) schedule = Done o ->
    exists s' events recs, outcome_state o = Some s'
      /\ run (ms_engine s) events = Done (ms_engine s', recs) /\ ms_records s' = ms_records s ++ recs
      /\ chan_items (gf_receiver (ms_feed s)) = arrivals events ++ chan_items (gf_receiver (ms_feed s'))).
  { intros feed task Hi Hr. apply IH in Hr as (s' & evs & recs & Ho & Hrun & Hrec & Hit).
    cbn in Hit. rewrite Hi in Hit. by exists s', evs, recs. }
  destruct ev as [| |w]; cbn [main_run main_turn] in *.
  - pose proof (next_account_items (ms_feed s)) as Hn. destruct (next_account (ms_feed s)) as [f [raw| |]].
    + intros Hr. by eapply (Hev f (Arrive raw)).
    + intros Hr. assert (Ho : o = MainFinished (mkMainState f (ms_task s) (ms_engine s) (ms_records s)) ExitSuccess)
        by (destruct schedule; by injection Hr). subst o.
      exists (mkMainState f (ms_task s) (ms_engine s) (ms_records s)), [], [].
      rewrite app_nil_r. by split_and!.
    + by apply Hkeep.
  - destruct (ms_task s) as [task|] eqn:Et.
    + pose proof (connect_task_turn_items task (ms_feed s)) as Hn.
      destruct (connect_task_turn task (ms_feed s)) as [f task']. by apply Hkeep.
    + intros Hr. destruct s as [f t e recs]. by apply (Hkeep f t).
  - intros Hr. by eapply (Hev (ms_feed s) (LogTurn w)).
Qed.
End engine_loop.

Section dashboard.
Context `{KlendInterface} `{SolanaSdk}.
Context {R S B : Type} `{FlashSourceRouter R} `{Simulator S} `{Submitter B}.
Context (transfer : Pubkey -> Pubkey -> Z -> Instruction) (default_hash : Hash).
Context (payer : Pubkey) (keypair : Signer) (mode : SubmitMode) (risk : RiskConfig).
Context (router : R) (simulator : S) (submitter : B) (registry : DecoderRegistry).
Context (log_file : string) (to_json : LiquidationRecord -> option string).
Let run :=
  engine_run transfer default_hash payer keypair mode risk router simulator submitter registry to_json.

Lemma engine_step_constant_fields e raw e' rec :
  engine_step transfer default_hash payer keypair mode risk router simulator submitter registry e raw
  = Done (e', rec) ->
  constant_fields (eg_dashboard e') = constant_fields (eg_dashboard e).
Proof.
  unfold engine_step. cbv zeta. destruct (negb _); [by intros [= <- _]|].
  destruct (if decide _ then _ else _) as [kamino [c|]]; [|by intros [= <- _]].
  unfold handle_candidate. cbv zeta. case_decide; [by intros [= <- _]|].
  destruct (size_and_route _ _ _ _) as [[routed|]|]; cbn -[fire]; [|by intros [= <- _]|done].
  destruct (_ && _); [|by intros [= <- _]]. destruct mode; [by intros [= <- _]|].
  unfold fire, record_outcome. cbv zeta. intros Hs.
  repeat case_match; injection Hs as <- _; done.
Qed.

(** Whatever happens, the dashboard never reports a
    connection, an active circuit breaker or a recent liquidation, and keeps
    the mode of the start; every state handler serves that state, and the
    socket sends it at each tick until a send fails. *)
Theorem dashboard_blind_spots events e recs :
  run (Engine_new log_file mode) events = Done (e, recs) ->
  constant_fields (eg_dashboard e) = (false, SubmitMode_fmt mode, false, [])
  /\ dashboard_get (Some (eg_dashboard e)) "/api/state" = ReplyJson (eg_dashboard e)
  /\ dashboard_get (Some (eg_dashboard e)) "/metrics" = ReplyJson (eg_dashboard e)
  /\ forall print json n rest, print (eg_dashboard e) = Some json ->
     handle_socket print (replicate n (Some (eg_dashboard e), true)
                            ++ (Some (eg_dashboard e), false) :: rest) = replicate n json.
Proof.
  intros Hrun. split_and!; [|done|done|].
  - change (false, SubmitMode_fmt mode, false, [])
      with (constant_fields (eg_dashboard (Engine_new log_file mode))).
    unfold run in Hrun. revert Hrun. generalize (Engine_new log_file mode) as e0. revert recs.
    induction events as [|ev events IH]; intros recs e0; [by intros [= <- _]|]. cbn [engine_run].
    destruct (engine_event _ _ _ _ _ _ _ _ _ _ _ e0 ev) as [[e1 o]|] eqn:Es; [|done].
    destruct (engine_run _ _ _ _ _ _ _ _ _ _ _ e1 events) as [[e2 rs]|] eqn:Er; [|done].
    intros [= <- _]. rewrite (IH _ _ Er). destruct ev; [by eapply engine_step_constant_fields|].
    by injection Es as <- _.
  - intros print json n rest Hj. induction n as [|n IH]; cbn [replicate app handle_socket];
      unfold snapshot; cbn [default id]; rewrite Hj; [done|]. by rewrite IH.
Qed.
End dashboard.

(* ------------------------------------------------------------------ *)
(** ** Witnesses *)

Definition toy_config (url : string) : Config :=
  mkConfig (mkGeyserConfig url "") (mkRpcConfig "") (mkStakedSendConfig "http://staked")
    (mkJitoConfig "http://jito") (mkIdentityConfig "id.json" "") (mkTreasuryConfig "" f64_one "24h")
    (mkProtocolsConfig (mkProtocolToggle true)) (mkSubmitConfig Live 2 true None) toy_risk.

Definition toy_main (url : string) : Cli -> list MainEvent -> panicking (MainOutcome (ListChannel RawAccount)) :=
  @daemon_main toy_klend toy_sdk (fun path => if String.eqb path "g.toml" then Some "toml" else None)
    (fun _ => Some (toy_config url)) (fun _ => None) (fun _ => None) (rkey 3) (fun kp => kp)
    toy_transfer [] map_to_list (fun _ => "") (fun _ _ => None) true EmptyString toy_line
    (ListChannel RawAccount) ListChannel_channel.
Definition toy_cli : Cli := mkCli "g.toml" None false 8080.

(** A live endpoint: still waiting after any number of polls. *)
Lemma daemon_main_spec_witness :
  exists f, next_account f = (f, Pending)
    /\ toy_main "https://geyser" toy_cli [LoopPolls; FeedTaskWakes; WriterTurns Written; FeedTaskWakes; LoopPolls]
       = Done (MainRunning (mkMainState f (Some (mkConnectTask 2000)) (Engine_new EmptyString Live) [])).
Proof.
  unfold toy_main.
  destruct (@daemon_main_spec toy_klend toy_sdk
    (fun path => if String.eqb path "g.toml" then Some "toml" else None)
    (fun _ => Some (toy_config "https://geyser")) (fun _ => None) (fun _ => None) (rkey 3) (fun kp => kp)
    toy_transfer [] map_to_list (fun _ => "") (fun _ _ => None) true EmptyString toy_line
    (ListChannel RawAccount) ListChannel_channel ListChannel_laws toy_cli) as (_ & _ & Hok).
  destruct (Hok (toy_config "https://geyser") Pubkey_default ltac:(vm_compute; reflexivity)
             ltac:(vm_compute; reflexivity)) as [_ Hurl].
  destruct (Hurl ltac:(discriminate)) as (f & _ & Hnext & Hrun).
  exists f. split; [exact Hnext|]. rewrite Hrun. reflexivity.
Defined.

(** A mock endpoint: the first poll ends the daemon. *)
Example mock_daemon_ends :
  match toy_main "mock://feed" toy_cli [FeedTaskWakes; LoopPolls; LoopPolls] with
  | Done (MainFinished s code) => ms_records s = [] /\ code = ExitSuccess
  | _ => False
  end.
Proof. vm_compute. split; reflexivity. Qed.

Lemma dashboard_blind_spots_witness :
  exists e recs, toy_run Live (sample_router false) (Landed 7 f64_one) = Done (e, recs)
  /\ length recs = 2%nat /\ constant_fields (eg_dashboard e) = (false, "live", false, []).
Proof.
  assert (Hlen : match toy_run Live (sample_router false) (Landed 7 f64_one) with
                 | Done (_, recs) => length recs | Panic => 0%nat end = 2%nat)
    by (vm_compute; reflexivity).
  destruct (toy_run Live (sample_router false) (Landed 7 f64_one)) as [[e recs]|] eqn:E; [|discriminate Hlen].
  exists e, recs. split; [reflexivity|]. split; [exact Hlen|]. unfold toy_run in E.
  exact (proj1 (@dashboard_blind_spots toy_klend toy_sdk _ _ _ (MultiSourceRouter_is_router map_to_list)
    LiteSvmSimulator_is_simulator FixedSubmitter_submitter toy_transfer [] (rkey 1) (rkey 1) Live
    toy_risk (sample_router false) (with_min_profit f64_one) (mkFixedSubmitter (Landed 7 f64_one))
    toy_registry EmptyString toy_line sample_stream e recs E)).
Defined.
